(* ===== verification/_CoqProject ===== *)
-Q . S2P
Prelude.v
RustStd.v
Errors.v
ErrorCodes.v
Scalars.v
Encoder.v
ReadEx.v
Varint.v
Stable.v
Finite.v
Protocol.v
SqlType.v
TypeNames.v
Floats.v
DecimalNum.v
Values.v
StringPool.v
ChunkIndex.v
Columns.v
ColumnLaws.v
ColumnReads.v
PushLaws.v
Iter.v
IterLaws.v
IterCalls.v
Compressed.v
Block.v
Concat.v
BlockLaws.v
Chunks.v
NetAddr.v
Cast.v
ColumnFrom.v
FromLaws.v
CastLaws.v
Compare.v
Text.v
TextLaws.v
ClientOptions.v
TypeCache.v
Conversions.v
ArcHeap.v
ArcPrograms.v
Objects.v
Connection.v
Server.v
ServerLaws.v
Liveness.v
Insert.v
Spec.v
Refinement.v
Simple.v
SimpleLaws.v
Conversation.v
Instances.v
UnitTests.v
WireProperties.v
ColumnProperties.v
ClientProperties.v
ServerProperties.v
SpecProperties.v
LibraryProperties.v
