(* ===== verification/Prelude.v ===== *)
(** * clickhouse-srv: a verification development

    clickhouse-srv lets a program speak the native TCP protocol of a ClickHouse
    server.  A connection collects the bytes of a client and parses packets out
    of them; the server applies each packet: it answers a hello and a ping, hands
    a query to the session that the program supplies, and forwards the blocks of
    an insert through a channel.  Packets carry blocks, blocks carry columns, and
    results go back to the client as blocks.

    ** Files

    - Prelude, RustStd: machine integers, outcomes, loops, slices and what the
      code uses of Rust's standard library (UTF-8, numbers as text, slices of
      strings).
    - Errors: [errors.rs].  Scalars: [types/marshal.rs], [types/unmarshal.rs],
      [types/stat_buffer.rs].  Encoder: [binary/encoder.rs], [binary/uvarint.rs].
    - ReadEx: [binary/read_ex.rs] over any [io::Read], with the class [ReadLaws]
      of what a reader promises and the predicate [parses], by which round trips
      compose.  Varint: how far [read_uvarint] reads.  Stable: runs of a reader
      over an input that grows.  Finite: runs over an input that ends.
    - Protocol: [protocols/*.rs] and [Progress] of [types/mod.rs], one Module per
      message, with the reference client of each response.
    - SqlType: [types/mod.rs].  TypeNames: the parsers of [types/column/factory.rs].
      Floats: [f32] and [f64], on the floats of the standard library, and their
      text.  DecimalNum: [types/decimal.rs].  Values: [types/value.rs],
      [types/value_ref.rs], [types/from_sql.rs], [types/date_converter.rs].
    - ErrorCodes: the table of [error_codes.rs].
    - StringPool: [types/column/string_pool.rs].  ChunkIndex: the index of
      [types/column/concat.rs] and its search.  Columns: the trait [ColumnData]
      and every struct of [types/column/*.rs] that implements it, [load_data] and
      [from_type] of the factory.  ColumnLaws, ColumnReads, PushLaws: what a
      column stores, its round trip, reading its cells, pushing a row.
    - Iter: [get_internal] and [types/column/iter/mod.rs], the iterators over the
      memory of a column.  IterLaws: what they yield.  IterCalls: that [next],
      [nth], [len], [size_hint] and [count] answer as over the list of the cells.
    - Compressed: [types/block/compressed.rs] and the compressing half of
      [Block::write]; its reader is an instance of the classes of ReadEx, Stable
      and Finite.  Block, BlockLaws, Chunks: [types/block/*.rs], the round trip of
      a block, sending it in chunks.  Concat: [Column::concat], [Block::concat].
    - NetAddr: addresses and their text, of Rust's standard library.  Cast, CastLaws:
      [cast_to] of columns and blocks.  ColumnFrom, FromLaws: columns made from
      vectors; FromLaws states what a column of items promises as the Record
      [leaf], which numbers and strings implement, and derives optional and
      nested columns from it.  Compare: [types/enums.rs] and the
      [PartialEq] of values, columns and blocks.  Text, TextLaws: [Display] of
      values and [Debug] of blocks.
    - ClientOptions: [types/options.rs], [types/query.rs].
    - TypeCache: the cache behind the references to types of [types/mod.rs], and
      [Context] and the infos there.  Conversions: the [From] implementations of
      [types/value.rs] and [types/value_ref.rs], and the rows that
      [types/block/builder.rs] adds to a block.
    - ArcHeap, ArcPrograms: the [Arc]s of columns as a heap with counts,
      [Column::push] on it, and programs that make, wrap, clone, push and drop
      columns.
    - Objects: the trait [ColumnData] as a class, the structs of
      [types/column/*.rs] as records and their implementations as its instances;
      a struct becomes an object of file Columns by [dyn], and a call on the
      object is the method of the struct ([dynamic_dispatch]).
    - Connection: [binary/parser.rs], [connection.rs] and the state of [lib.rs].
      Server: [cmd.rs] and [ClickHouseServer::run].  ServerLaws, Insert, Liveness:
      the server's invariant, the phases and the course of an insert, and that
      the server can always finish.
    - Spec: the server as its client and its session see it, a machine over whole
      packets and blocks.  Refinement: that the server of file Server implements
      it, by a simulation.
    - Simple: [examples/simple.rs], its session and its tasks.  SimpleLaws: that
      this session keeps the contract of Refinement, and what its client reads.
      Conversation: a whole conversation of a client with it.
    - Instances: concrete functions for the parameters.  UnitTests: unit tests of
      the repository as programs of the model, run by evaluation.
    - WireProperties, ColumnProperties, ClientProperties, ServerProperties,
      SpecProperties, LibraryProperties: the properties C1 to C40, each that has
      hypotheses with a concrete instance, and the lemmas of the same kind beside
      them.

    ** How the code is modelled

    A function of the code is a function here.  A [Result] is an [outcome]: a
    value, an error, a panic, or the end of the fuel of a loop.  Operations on the
    encoder and on the connection pass the state; a reader takes the input and
    returns what is left of it.  Integers are [Z] with the wrap-around of their
    width; [arith_u] and [arith_s] panic on an overflow in a build with overflow
    checks and wrap in one without, and every theorem holds for both ([Profile]),
    unless it names one.  A float is its bits.  The target has 64-bit pointers;
    a capacity overflow of a [Vec] panics ([alloc]), other exhaustion of memory
    is not modelled.

    The server is a transition system: [run_step] goes from one [await] that may
    wait (bytes, room in the channel, the notification) to the next, and [step]
    interleaves it with arriving bytes and other tasks.  [execute_query] runs
    without interleaving.  A write that fails is an error; how much of it
    arrived is left open.

    Code from elsewhere is a parameter: [ChronoTz] (chrono, chrono_tz), [TextCrates]
    (the texts of chrono and uuid), [Combine] (combine), [Lz4] with [Lz4Laws] (lz4, cityhash), [Tokio] (channel
    and notification; [TokioLive]: the other tasks get on), [ClickHouseSession]
    with [SessionLaws] and [SessionWrites] (the program), [UrlCrate] (url).

    The unsafe code: a raw pointer that [get_internal] writes is the list that it
    points into; an iterator that keeps such a pointer has the places behind it,
    and [next] reads them.  A slice made of memory of another type, a pointer
    moved out of its memory and a read of a place that holds no number of the type
    have the outcome [Undefined].  The bytes of an instant of chrono are a
    parameter ([InstantLayout]), the layout that the compiler chooses.  The
    theorems about iterators show that [Undefined] does not happen, and (C39) that
    an iterator over instants reads other memory than it should.

    ** Fuel

    [read_uvarint] and the settings of a query loop until the input says so.
    Their loops have [loop_fuel] rounds, more than 2^64; each round takes a byte,
    so that a buffer of less than 2^64 bytes, or 2^32 when it is compressed, ends
    first (Finite, C12).  [load_data] may nest as deep as the name is long, plus
    two; [allocate] calls itself once (C31); [push] nests as deep as the column,
    and on the heap as deep as the heap has nodes, which is enough
    ([levels_size] of ArcHeap); a chunk iteration makes [m / size + 3] rounds
    at most (C36); [find_chunk] halves an interval of the index; [cast_to] calls
    itself once ([cast_to_fuel_enough]); the iterator of a concatenated column
    calls itself once for each chunk left and two more times.

    ** What the properties show

    - C1 to C8, C17, C33, C38: the server.  It refines the machine of Spec, a
      client of the example server gets the answers it is owed, packets are framed
      and parsed alike in whatever pieces they come, an insert delivers its blocks
      in order and goes through its phases as its packets say, the invariant
      holds, the server can finish, shakes hands and answers an error.
    - C9 to C11, C13, C32, C36, C37: blocks and columns on the wire, their frames,
      cells and chunks, [push] against [at].
    - C12, C31: parsing and the allocation of the string pool end.
    - C14, C15, C18 to C21, C24 to C28: what a program does with columns: it
      makes them from vectors, iterates over them (an iterator refines the list
      of the cells, whatever methods are called), concatenates, casts, prints
      and compares them, and reads its options from a URL.
    - C16, C22: columns that are shared behave like values, and references to
      types stay valid, on an explicit heap.
    - C23: the example server counts the rows of an insert.
    - C29, C30: the string pool refines a list of strings and keeps its unsafe
      reads in bounds.
    - C34, C35: numbers of variable length.
    - C39, C40: where the code does not do what it means to.

    ** What is not modelled

    The [Debug] of options and of derived types; the options and the error of the
    feature [tls], which is off by default; the [main] of the example, which
    accepts connections and prints; the pool and client that the options are
    meant for, which the repository does not have.
    Outside ArcHeap a column is a value, and [push] and [column_push] have a flag
    for whether it is shared; ArcPrograms shows that this is sound. *)

From Stdlib Require Export Strings.Byte ZArith Lia.
From Stdlib Require Strings.String.
From stdpp Require Export prelude.
#[global] Set Default Goal Selector "!".
Local Open Scope Z_scope.

(** ** Hint databases

    [srv] resolves the side conditions of the component lemmas, [srv_len]
    computes the lengths of encodings. *)

Create HintDb srv discriminated.
Create Rewrite HintDb srv_len.

(** ** Bytes and byte strings

    A Rust [u8] is a [byte]; [Vec<u8>], [&[u8]], [String] and [&str] are all
    [list byte] (a Rust string is its UTF-8 encoding). *)

Abbreviation bytes := (list byte).

Export String.StringSyntax.
Definition lit (s : String.string) : bytes := String.list_byte_of_string s.
Arguments lit s%_string_scope.

#[global] Instance byte_eq_dec : EqDecision byte := Byte.byte_eq_dec.

Definition byte_to_Z (b : byte) : Z := Z.of_N (Byte.to_N b).

(** The cast [z as u8]: the low eight bits. *)
Definition Z_to_byte (z : Z) : byte :=
  match Byte.of_N (Z.to_N (z mod 256)) with
  | Some b => b
  | None => x00
  end.

Lemma byte_to_Z_range b : 0 <= byte_to_Z b < 256.
Proof.
  unfold byte_to_Z. pose proof (Byte.to_N_bounded b). lia.
Qed.

Lemma byte_to_Z_to_byte z : byte_to_Z (Z_to_byte z) = z mod 256.
Proof.
  unfold Z_to_byte, byte_to_Z.
  pose proof (Z.mod_pos_bound z 256 ltac:(lia)) as Hr.
  destruct (Byte.of_N (Z.to_N (z mod 256))) as [b|] eqn:Hb.
  - apply Byte.to_of_N in Hb. rewrite Hb. lia.
  - apply Byte.of_N_None_iff in Hb. lia.
Qed.

Lemma byte_to_Z_inj a b : byte_to_Z a = byte_to_Z b -> a = b.
Proof.
  unfold byte_to_Z. intros H%N2Z.inj.
  pose proof (Byte.of_to_N a) as Ha. pose proof (Byte.of_to_N b) as Hb.
  rewrite H in Ha. congruence.
Qed.

Lemma Z_to_byte_to_Z b : Z_to_byte (byte_to_Z b) = b.
Proof.
  apply byte_to_Z_inj. rewrite byte_to_Z_to_byte.
  apply Z.mod_small, byte_to_Z_range.
Qed.

(** ** Machine integers

    A [w]-bit unsigned value is a [Z] in [[0, 2^w)], a signed one a [Z] in
    [[-2^(w-1), 2^(w-1))].  [wrapu] and [wraps] are the [as] casts. *)

Definition wrapu (w z : Z) : Z := z mod 2 ^ w.
Definition wraps (w z : Z) : Z := (z + 2 ^ (w - 1)) mod 2 ^ w - 2 ^ (w - 1).

Definition in_u (w z : Z) : bool := (0 <=? z) && (z <? 2 ^ w).
Definition in_s (w z : Z) : bool := (- 2 ^ (w - 1) <=? z) && (z <? 2 ^ (w - 1)).

(** The target is 64 bit: [usize] is [u64] and [isize::MAX] is [2^63 - 1]. *)
Definition isize_max : Z := 2 ^ 63 - 1.

Lemma in_u_spec w z : in_u w z = true <-> 0 <= z < 2 ^ w.
Proof. unfold in_u. lia. Qed.

Lemma in_s_spec w z : in_s w z = true <-> - 2 ^ (w - 1) <= z < 2 ^ (w - 1).
Proof. unfold in_s. lia. Qed.

Lemma wrapu_small w z : in_u w z = true -> wrapu w z = z.
Proof. intros H%in_u_spec. by apply Z.mod_small. Qed.

Lemma wrapu_range w z : 0 <= w -> in_u w (wrapu w z) = true.
Proof.
  intros Hw. apply in_u_spec. apply Z.mod_pos_bound.
  by apply Z.pow_pos_nonneg.
Qed.

Lemma pow2_pred w : 0 < w -> 2 ^ w = 2 * 2 ^ (w - 1).
Proof. intros. rewrite <- Z.pow_succ_r by lia. f_equal; lia. Qed.

Lemma wraps_small w z : 0 < w -> in_s w z = true -> wraps w z = z.
Proof.
  intros Hw H%in_s_spec. unfold wraps. rewrite Z.mod_small; [lia|].
  rewrite (pow2_pred w Hw). lia.
Qed.

Lemma wraps_range w z : 0 < w -> in_s w (wraps w z) = true.
Proof.
  intros Hw. apply in_s_spec. unfold wraps.
  pose proof (Z.mod_pos_bound (z + 2 ^ (w - 1)) (2 ^ w)
                ltac:(apply Z.pow_pos_nonneg; lia)).
  rewrite (pow2_pred w Hw) in *. lia.
Qed.

(** A signed value survives the trip through its unsigned bit pattern. *)
Lemma wraps_wrapu w z : 0 < w -> wraps w (wrapu w z) = wraps w z.
Proof.
  intros Hw. unfold wraps, wrapu.
  by rewrite <- Z.add_mod_idemp_l, Z.mod_mod, Z.add_mod_idemp_l
    by (apply Z.pow_nonzero; lia).
Qed.

Lemma wrapu_wraps w z : 0 < w -> wrapu w (wraps w z) = wrapu w z.
Proof.
  intros Hw. unfold wraps, wrapu.
  rewrite Zminus_mod_idemp_l
    by (apply Z.pow_nonzero; lia).
  f_equal. lia.
Qed.

(** ** Outcomes

    What a call can do: return, return [Err(e)], panic, or, in the model only,
    exhaust the fuel of a loop.  Every use of fuel has a theorem that
    [OutOfFuel] is not reached. *)

Inductive outcome (E A : Type) : Type :=
| Ok (a : A)
| Err (e : E)
| Panic
| OutOfFuel.
Arguments Ok {E A} a.
Arguments Err {E A} e.
Arguments Panic {E A}.
Arguments OutOfFuel {E A}.

#[global] Instance outcome_ret {E} : MRet (outcome E) := fun A a => Ok a.
#[global] Instance outcome_bind {E} : MBind (outcome E) := fun A B f m =>
  match m with
  | Ok a => f a
  | Err e => Err e
  | Panic => Panic
  | OutOfFuel => OutOfFuel
  end.
#[global] Instance outcome_fmap {E} : FMap (outcome E) := fun A B f m =>
  match m with
  | Ok a => Ok (f a)
  | Err e => Err e
  | Panic => Panic
  | OutOfFuel => OutOfFuel
  end.

#[global] Instance outcome_eq_dec {E A} `{EqDecision E, EqDecision A} :
  EqDecision (outcome E A).
Proof. solve_decision. Defined.

Definition map_err {E F A} (f : E -> F) (m : outcome E A) : outcome F A :=
  match m with
  | Ok a => Ok a
  | Err e => Err (f e)
  | Panic => Panic
  | OutOfFuel => OutOfFuel
  end.

(** [Option::unwrap]. *)
Definition unwrap {E A} (o : option A) : outcome E A :=
  match o with Some a => Ok a | None => Panic end.

(** [Result::unwrap]. *)
Definition unwrap_result {E A} (m : outcome E A) : outcome E A :=
  match m with Err _ => Panic | m => m end.

(** [assert!]. *)
Definition assert_ {E} (b : bool) : outcome E unit := if b then Ok tt else Panic.

Section Bind.
Context {E A B C : Type}.

Lemma bind_Ok (m : outcome E A) (f : A -> outcome E B) b :
  m ≫= f = Ok b <-> exists a, m = Ok a /\ f a = Ok b.
Proof. split; [destruct m; naive_solver|]. by intros (a & -> & ?). Qed.

Lemma bind_assoc (m : outcome E A) (f : A -> outcome E B) (g : B -> outcome E C) :
  (m ≫= f) ≫= g = m ≫= (fun a => f a ≫= g).
Proof. by destruct m. Qed.

Lemma bind_ext (m : outcome E A) (f g : A -> outcome E B) :
  (forall a, m = Ok a -> f a = g a) -> m ≫= f = m ≫= g.
Proof. destruct m; naive_solver. Qed.
End Bind.

(** ** Build profile

    Rust checks integer overflow in the debug profile (a panic) and wraps in
    the release profile; every arithmetic step that can overflow goes through
    [arith] or [shl_u], so the theorems hold for both. *)

Class Profile := overflow_checks : bool.

Section Arith.
Context {P : Profile} {E : Type}.

Definition arith_u (w z : Z) : outcome E Z :=
  if in_u w z then Ok z else if overflow_checks then Panic else Ok (wrapu w z).

Definition arith_s (w z : Z) : outcome E Z :=
  if in_s w z then Ok z else if overflow_checks then Panic else Ok (wraps w z).

(** [x << s] on a [w]-bit unsigned [x]: bits shifted out are lost silently, a
    shift amount of [w] or more is the overflow. *)
Definition shl_u (w x s : Z) : outcome E Z :=
  if s <? w then Ok (wrapu w (Z.shiftl x s))
  else if overflow_checks then Panic else Ok (wrapu w (Z.shiftl x (s mod w))).

Lemma arith_u_ok w z : in_u w z = true -> arith_u w z = Ok z.
Proof. unfold arith_u. by intros ->. Qed.

Lemma arith_s_ok w z : in_s w z = true -> arith_s w z = Ok z.
Proof. unfold arith_s. by intros ->. Qed.

(** A [Vec] of [n] elements of [size] bytes: more than [isize::MAX] bytes is a
    capacity overflow panic (running out of memory is not modelled). *)
Definition alloc (size n : Z) : outcome E unit :=
  if isize_max <? size * n then Panic else Ok tt.

Lemma alloc_ok size n : size * n <= isize_max -> alloc size n = Ok tt.
Proof.
  unfold alloc. intros H. by destruct (Z.ltb_spec isize_max (size * n)); [lia|].
Qed.
End Arith.

(** ** Loops

    [loop p body s] iterates [body] at most [p] times; [inl] continues with a
    new state, [inr] leaves the loop.  The fuel is a binary number, so that a
    bound such as [2^64] costs nothing to evaluate; [loop_nat] is the same
    loop with unary fuel, on which the proofs go by induction. *)

Section Loop.
Context {E S A : Type} (body : S -> outcome E (S + A)).

Fixpoint loop_nat (n : nat) (s : S) : outcome E (S + A) :=
  match n with
  | O => Ok (inl s)
  | Datatypes.S n =>
    match body s with
    | Ok (inl s') => loop_nat n s'
    | r => r
    end
  end.

Fixpoint loop_pos (p : positive) (s : S) : outcome E (S + A) :=
  match p with
  | xH => body s
  | xO p =>
    match loop_pos p s with
    | Ok (inl s') => loop_pos p s'
    | r => r
    end
  | xI p =>
    match body s with
    | Ok (inl s') =>
      match loop_pos p s' with
      | Ok (inl s'') => loop_pos p s''
      | r => r
      end
    | r => r
    end
  end.

Definition loop (p : positive) (s : S) : outcome E A :=
  match loop_pos p s with
  | Ok (inl _) => OutOfFuel
  | Ok (inr a) => Ok a
  | Err e => Err e
  | Panic => Panic
  | OutOfFuel => OutOfFuel
  end.

Lemma loop_nat_add n m s :
  loop_nat (n + m) s =
  match loop_nat n s with Ok (inl s') => loop_nat m s' | r => r end.
Proof.
  revert s. induction n as [|n IH]; intros s; [done|]. cbn.
  destruct (body s) as [[s'|a]| | |]; auto.
Qed.

Lemma loop_pos_nat p s : loop_pos p s = loop_nat (Pos.to_nat p) s.
Proof.
  revert s. induction p as [p IH|p IH|]; intros s.
  - rewrite Pos2Nat.inj_xI. cbn [loop_pos loop_nat].
    destruct (body s) as [[s'|a]| | |]; auto.
    replace (2 * Pos.to_nat p)%nat with (Pos.to_nat p + Pos.to_nat p)%nat by lia.
    rewrite loop_nat_add, IH.
    destruct (loop_nat _ s') as [[s''|a]| | |]; auto.
  - rewrite Pos2Nat.inj_xO. cbn [loop_pos].
    replace (2 * Pos.to_nat p)%nat with (Pos.to_nat p + Pos.to_nat p)%nat by lia.
    rewrite loop_nat_add, IH.
    destruct (loop_nat _ s) as [[s'|a]| | |]; auto.
  - rewrite Pos2Nat.inj_1. cbn. by destruct (body s) as [[s'|a]| | |].
Qed.

(** Unfolding one iteration, and the measure that makes the fuel enough. *)
Lemma loop_nat_mono n m s :
  (n <= m)%nat -> (forall s', loop_nat n s <> Ok (inl s')) ->
  loop_nat m s = loop_nat n s.
Proof.
  intros Hnm Hn. replace m with (n + (m - n))%nat by lia.
  rewrite loop_nat_add. destruct (loop_nat n s) as [[s'|a]| | |] eqn:He; [|done..].
  by destruct (Hn s').
Qed.

Lemma loop_nat_measure (mu : S -> nat) n s :
  (forall s s', body s = Ok (inl s') -> (mu s' < mu s)%nat) ->
  (mu s < n)%nat -> forall s', loop_nat n s <> Ok (inl s').
Proof.
  intros Hmu. revert s. induction n as [|n IH]; intros s Hn s'; [lia|]. cbn.
  destruct (body s) as [[s1|a]| | |] eqn:Hb; try done.
  apply IH. specialize (Hmu _ _ Hb). lia.
Qed.

Lemma loop_unfold p s n r :
  loop_nat n s = r -> (n <= Pos.to_nat p)%nat -> (forall s', r <> Ok (inl s')) ->
  loop p s =
  match r with
  | Ok (inl _) => OutOfFuel
  | Ok (inr a) => Ok a
  | Err e => Err e
  | Panic => Panic
  | OutOfFuel => OutOfFuel
  end.
Proof.
  intros <- Hn Hr. unfold loop. rewrite loop_pos_nat.
  by rewrite (loop_nat_mono n (Pos.to_nat p)).
Qed.

Lemma loop_fuel_enough (mu : S -> nat) p s :
  (forall s, body s <> OutOfFuel) ->
  (forall s s', body s = Ok (inl s') -> (mu s' < mu s)%nat) ->
  (mu s < Pos.to_nat p)%nat -> loop p s <> OutOfFuel.
Proof.
  intros Hb Hmu Hp. unfold loop. rewrite loop_pos_nat.
  pose proof (loop_nat_measure mu _ s Hmu Hp) as Hn.
  assert (forall n s, loop_nat n s <> OutOfFuel) as Ho.
  { intros n. induction n as [|n IH]; intros t; [done|]. cbn.
    destruct (body t) as [[t'|a]| | |] eqn:Ht; try done.
    by apply Hb in Ht. }
  specialize (Ho (Pos.to_nat p) s).
  destruct (loop_nat _ s) as [[s'|a]| | |]; naive_solver.
Qed.
End Loop.

(** The fuel of the loops that the code leaves unbounded. *)
Definition loop_fuel : positive := 2 ^ 64.

Lemma loop_fuel_Z : Z.of_nat (Pos.to_nat loop_fuel) = 2 ^ 64.
Proof. by rewrite positive_nat_Z. Qed.

Lemma loop_fuel_ge n : Z.of_nat n <= 2 ^ 64 -> (n <= Pos.to_nat loop_fuel)%nat.
Proof. rewrite <- loop_fuel_Z. lia. Qed.

(** [for _ in 0..n] threading a state. *)
Fixpoint for_n {E S} (n : nat) (body : S -> outcome E S) (s : S) : outcome E S :=
  match n with
  | O => Ok s
  | S n => s' ← body s; for_n n body s'
  end.

(** [for x in xs] threading a state. *)
Fixpoint for_each {E S X} (xs : list X) (body : X -> S -> outcome E S) (s : S)
  : outcome E S :=
  match xs with
  | [] => Ok s
  | x :: xs => s' ← body x s; for_each xs body s'
  end.

(** [collect::<Result<Vec<_>>>] over a fallible or panicking map. *)
Fixpoint map_outcome {E X Y} (f : X -> outcome E Y) (xs : list X) : outcome E (list Y) :=
  match xs with
  | [] => Ok []
  | x :: xs => y ← f x; ys ← map_outcome f xs; Ok (y :: ys)
  end.

Lemma map_outcome_Ok {E X Y} (f : X -> outcome E Y) xs ys :
  map_outcome f xs = Ok ys <-> Forall2 (fun x y => f x = Ok y) xs ys.
Proof.
  split.
  - revert ys. induction xs as [|x xs IH]; intros ys; cbn.
    { intros [= <-]. constructor. }
    intros (y & Hy & (zs & Hzs & [= <-])%bind_Ok)%bind_Ok. constructor; auto.
  - induction 1 as [|x y xs ys Hxy _ IH]; [done|]. cbn. by rewrite Hxy; cbn; rewrite IH.
Qed.

(** [xs[i]]: out of range panics. *)
Definition index {E A} (xs : list A) (i : nat) : outcome E A := unwrap (xs !! i).

(** [xs[a..b]]: panics unless [a <= b <= xs.len()]. *)
Definition slice {E A} (xs : list A) (a b : nat) : outcome E (list A) :=
  if decide (a <= b /\ b <= length xs)%nat then Ok (take (b - a) (drop a xs)) else Panic.

(** The same at [usize] indices. *)
Definition indexZ {E A} (xs : list A) (i : Z) : outcome E A :=
  if (0 <=? i) && (i <? Z.of_nat (length xs)) then unwrap (xs !! Z.to_nat i) else Panic.

Definition sliceZ {E A} (xs : list A) (a b : Z) : outcome E (list A) :=
  if (0 <=? a) && (a <=? b) && (b <=? Z.of_nat (length xs))
  then Ok (take (Z.to_nat (b - a)) (drop (Z.to_nat a) xs)) else Panic.

Lemma indexZ_nat {E A} (xs : list A) i :
  0 <= i -> indexZ (E:=E) xs i = unwrap (xs !! Z.to_nat i).
Proof.
  intros Hi. unfold indexZ. destruct (Z.ltb_spec i (Z.of_nat (length xs))).
  - by replace (0 <=? i) with true by lia.
  - rewrite andb_false_r. by rewrite lookup_ge_None_2 by lia.
Qed.

Lemma sliceZ_ok {E A} (xs : list A) a b :
  0 <= a <= b -> b <= Z.of_nat (length xs) ->
  sliceZ (E:=E) xs a b = Ok (take (Z.to_nat (b - a)) (drop (Z.to_nat a) xs)).
Proof.
  intros Ha Hb. unfold sliceZ.
  by replace ((0 <=? a) && (a <=? b) && (b <=? Z.of_nat (length xs))) with true by lia.
Qed.

Lemma sliceZ_all {E A} (xs : list A) n :
  n = Z.of_nat (length xs) -> sliceZ (E:=E) xs 0 n = Ok xs.
Proof.
  intros ->. rewrite sliceZ_ok by lia. rewrite Z.sub_0_r, Nat2Z.id, drop_0. f_equal.
  by apply take_ge.
Qed.

Lemma slice_ok {E A} (xs : list A) a b :
  (a <= b)%nat -> (b <= length xs)%nat ->
  slice (E:=E) xs a b = Ok (take (b - a) (drop a xs)).
Proof. intros. unfold slice. by rewrite decide_True. Qed.

(** [v.resize(n, x)]: truncates or pads. *)
Definition vec_resize {A} (n : nat) (x : A) (v : list A) : list A :=
  take n v ++ replicate (n - length v) x.

Lemma length_vec_resize {A} n (x : A) v : length (vec_resize n x v) = n.
Proof. unfold vec_resize. rewrite length_app, length_take, length_replicate. lia. Qed.
