(* ===== verification/RustStd.v ===== *)
(** * The pieces of the Rust standard library that the code uses

    UTF-8 validation ([String::from_utf8], [str::from_utf8]), decimal printing
    and parsing of integers, and the [str] methods [starts_with], slicing,
    [trim], [split] and [eq_ignore_ascii_case], on byte strings. *)

From S2P Require Import Prelude.
Local Open Scope Z_scope.

(** ** UTF-8 *)

(** [Utf8Error]: the length of the longest valid prefix, and the length of the
    offending sequence ([None] when the input ends in the middle of one). *)
Record utf8_error := Utf8Error { valid_up_to : nat; error_len : option nat }.

#[global] Instance utf8_error_eq_dec : EqDecision utf8_error.
Proof. solve_decision. Defined.

Definition in_range (lo hi z : Z) : bool := (lo <=? z) && (z <=? hi).

Definition is_cont (b : byte) : bool := in_range 128 191 (byte_to_Z b).

(** The second byte of a three or four byte sequence, by its first byte. *)
Definition second3 (z c : Z) : bool :=
  ((z =? 224) && in_range 160 191 c) || (in_range 225 236 z && in_range 128 191 c)
  || ((z =? 237) && in_range 128 159 c) || (in_range 238 239 z && in_range 128 191 c).

Definition second4 (z c : Z) : bool :=
  ((z =? 240) && in_range 144 191 c) || (in_range 241 243 z && in_range 128 191 c)
  || ((z =? 244) && in_range 128 143 c).

Fixpoint utf8_from (i : nat) (bs : bytes) : option utf8_error :=
  match bs with
  | [] => None
  | b :: r =>
    let z := byte_to_Z b in
    if z <? 128 then utf8_from (i + 1) r
    else if in_range 194 223 z then
      match r with
      | [] => Some (Utf8Error i None)
      | c :: r1 =>
        if is_cont c then utf8_from (i + 2) r1 else Some (Utf8Error i (Some 1%nat))
      end
    else if in_range 224 239 z then
      match r with
      | [] => Some (Utf8Error i None)
      | c :: r1 =>
        if second3 z (byte_to_Z c) then
          match r1 with
          | [] => Some (Utf8Error i None)
          | d :: r2 =>
            if is_cont d then utf8_from (i + 3) r2 else Some (Utf8Error i (Some 2%nat))
          end
        else Some (Utf8Error i (Some 1%nat))
      end
    else if in_range 240 244 z then
      match r with
      | [] => Some (Utf8Error i None)
      | c :: r1 =>
        if second4 z (byte_to_Z c) then
          match r1 with
          | [] => Some (Utf8Error i None)
          | d :: r2 =>
            if is_cont d then
              match r2 with
              | [] => Some (Utf8Error i None)
              | e :: r3 =>
                if is_cont e then utf8_from (i + 4) r3
                else Some (Utf8Error i (Some 3%nat))
              end
            else Some (Utf8Error i (Some 2%nat))
          end
        else Some (Utf8Error i (Some 1%nat))
      end
    else Some (Utf8Error i (Some 1%nat))
  end.

Definition utf8_check (bs : bytes) : option utf8_error := utf8_from 0 bs.

Definition utf8_ok (bs : bytes) : bool := bool_decide (utf8_check bs = None).

Lemma utf8_from_shift i j bs : utf8_from i bs = None -> utf8_from j bs = None.
Proof.
  revert i j. induction ((well_founded_ltof _ (length (A:=byte))) bs) as [bs _ IH]. unfold ltof in IH.
  intros i j. destruct bs as [|b r]; [done|]. cbn [utf8_from].
  repeat case_match; try done; subst; apply IH; cbn; lia.
Qed.

Lemma utf8_from_app i a b :
  utf8_from i a = None -> utf8_from 0 b = None -> utf8_from i (a ++ b) = None.
Proof.
  intros Ha Hb. revert i Ha. induction ((well_founded_ltof _ (length (A:=byte))) a) as [a _ IH]. unfold ltof in IH.
  intros i. destruct a as [|c r]; [cbn; intros _; by eapply utf8_from_shift|].
  cbn [utf8_from app].
  repeat (case_match; subst; cbn [app]; try done); apply IH; cbn; lia.
Qed.

Lemma utf8_ok_spec bs : utf8_ok bs = true <-> utf8_check bs = None.
Proof. apply bool_decide_eq_true. Qed.

Lemma utf8_ok_app a b : utf8_ok a = true -> utf8_ok b = true -> utf8_ok (a ++ b) = true.
Proof. rewrite !utf8_ok_spec. apply utf8_from_app. Qed.

Definition is_ascii (b : byte) : bool := byte_to_Z b <? 128.

Lemma utf8_ok_ascii bs : forallb is_ascii bs = true -> utf8_ok bs = true.
Proof.
  rewrite utf8_ok_spec. unfold utf8_check. generalize 0%nat as i.
  induction bs as [|b bs IH]; intros i; [done|]. cbn.
  intros [Hb Hbs]%andb_true_iff. unfold is_ascii in Hb. rewrite Hb. by apply IH.
Qed.

(** ** Decimal and hexadecimal text *)

Definition digit (d : Z) : byte :=
  Z_to_byte (if d <? 10 then 48 + d else 87 + d).

(** The digits of [n >= 0] in base [base], in front of [acc]; [fuel] bounds
    their number. *)
Fixpoint digits (base : Z) (fuel : nat) (n : Z) (acc : bytes) : bytes :=
  match fuel with
  | O => acc
  | S fuel =>
    let acc' := digit (n mod base) :: acc in
    if n <? base then acc' else digits base fuel (n / base) acc'
  end.

Definition digits_fuel (n : Z) : nat := S (Z.to_nat (Z.log2 n)).

(** [format!("{}", n)] and [format!("{:x}", n)] for [n >= 0]. *)
Definition show_dec (n : Z) : bytes :=
  if n <? 0 then x2d :: digits 10 (digits_fuel (- n)) (- n) []
  else digits 10 (digits_fuel n) n [].
Definition show_hex (n : Z) : bytes := digits 16 (digits_fuel n) n [].

Definition digit_val (b : byte) : option Z :=
  let z := byte_to_Z b in if in_range 48 57 z then Some (z - 48) else None.

(** [from_str_radix(_, 10)]: checked accumulation, so a value above [maxv] is
    an error. *)
Fixpoint parse_digits (maxv acc : Z) (s : bytes) : option Z :=
  match s with
  | [] => Some acc
  | c :: s =>
    match digit_val c with
    | None => None
    | Some d =>
      let acc' := acc * 10 + d in
      if maxv <? acc' then None else parse_digits maxv acc' s
    end
  end.

(** [s.parse::<uN>()] with [uN::MAX = maxv]: an optional leading [+]. *)
Definition parse_uint (maxv : Z) (s : bytes) : option Z :=
  match s with
  | [] => None
  | [c] => if decide (c = x2b \/ c = x2d) then None else parse_digits maxv 0 [c]
  | c :: r => if decide (c = x2b) then parse_digits maxv 0 r else parse_digits maxv 0 s
  end.

(** [parse_digits] counting down from zero, for the digits after a [-]. *)
Fixpoint parse_neg_digits (minv acc : Z) (s : bytes) : option Z :=
  match s with
  | [] => Some acc
  | c :: s =>
    match digit_val c with
    | None => None
    | Some d =>
      let acc' := acc * 10 - d in
      if acc' <? minv then None else parse_neg_digits minv acc' s
    end
  end.

(** [s.parse::<iN>()]: an optional sign. *)
Definition parse_sint (minv maxv : Z) (s : bytes) : option Z :=
  match s with
  | [] => None
  | [c] => if decide (c = x2b \/ c = x2d) then None else parse_digits maxv 0 [c]
  | c :: r =>
    if decide (c = x2d) then parse_neg_digits minv 0 r
    else if decide (c = x2b) then parse_digits maxv 0 r
    else parse_digits maxv 0 s
  end.

Lemma digit_val_digit d : 0 <= d < 10 -> digit_val (digit d) = Some d.
Proof.
  intros Hd. unfold digit_val, digit, in_range.
  destruct (Z.ltb_spec d 10); [|lia].
  rewrite byte_to_Z_to_byte, (Z.mod_small (48 + d)) by lia.
  replace ((48 <=? 48 + d) && (48 + d <=? 57)) with true by lia.
  f_equal. lia.
Qed.

(** The fuel of [digits] suffices: it is the number of binary digits. *)
Lemma digits_fuel_div n : 10 <= n -> (digits_fuel (n / 10) < digits_fuel n)%nat.
Proof.
  intros Hn. unfold digits_fuel.
  assert (0 < n / 10) by (apply Z.div_str_pos; lia).
  assert (Z.log2 (n / 10) < Z.log2 n); [|pose proof (Z.log2_nonneg (n / 10)); lia].
  assert (Z.log2 (2 * (n / 10)) <= Z.log2 n).
  { apply Z.log2_le_mono. pose proof (Z.mul_div_le n 10). lia. }
  rewrite Z.log2_double in *; lia.
Qed.

Lemma digits_more fuel n acc :
  0 <= n -> (digits_fuel n <= fuel)%nat ->
  digits 10 fuel n acc = digits 10 (digits_fuel n) n acc.
Proof.
  revert n acc. induction (lt_wf fuel) as [fuel _ IH]. intros n acc Hn Hf.
  destruct fuel as [|fuel]; [unfold digits_fuel in Hf; lia|].
  destruct (digits_fuel n) as [|k] eqn:Hk; [unfold digits_fuel in Hk; lia|].
  cbn [digits]. destruct (Z.ltb_spec n 10) as [|Hge]; [done|].
  pose proof (digits_fuel_div n Hge). assert (0 <= n / 10) by (apply Z.div_pos; lia).
  rewrite (IH fuel) by lia. destruct (decide (k = fuel)) as [->|]; [|rewrite (IH k) by lia; done].
  by rewrite (IH fuel) by lia.
Qed.

Lemma parse_digits_snoc maxv a d acc :
  0 <= d < 10 -> a * 10 + d <= maxv ->
  parse_digits maxv a (digit d :: acc) = parse_digits maxv (a * 10 + d) acc.
Proof.
  intros Hd Hm. cbn [parse_digits]. rewrite digit_val_digit by done. cbn zeta.
  by destruct (Z.ltb_spec maxv (a * 10 + d)); [lia|].
Qed.

Lemma parse_digits_show maxv acc n fuel :
  0 <= n <= maxv -> (digits_fuel n <= fuel)%nat ->
  parse_digits maxv 0 (digits 10 fuel n acc) = parse_digits maxv n acc.
Proof.
  revert n acc. induction fuel as [|fuel IH]; intros n acc Hn Hf; [unfold digits_fuel in Hf; lia|].
  cbn [digits]. pose proof (Z.mod_pos_bound n 10 ltac:(lia)).
  destruct (Z.ltb_spec n 10) as [Hlt|Hge].
  - rewrite Z.mod_small by lia. by rewrite parse_digits_snoc by lia.
  - pose proof (digits_fuel_div n Hge). pose proof (Z.div_mod n 10 ltac:(lia)).
    assert (0 <= n / 10) by (apply Z.div_pos; lia).
    rewrite IH by lia. rewrite parse_digits_snoc by lia. f_equal. lia.
Qed.

Lemma digits_nonempty base fuel n acc : (0 < fuel)%nat -> digits base fuel n acc <> [].
Proof.
  revert n acc. induction fuel as [|fuel IH]; intros n acc Hf; [lia|].
  cbn [digits]. case_match; [done|]. destruct fuel; [done|]. apply IH. lia.
Qed.

Lemma digits_app base fuel n acc : digits base fuel n acc = digits base fuel n [] ++ acc.
Proof.
  revert n acc. induction fuel as [|fuel IH]; intros n acc; [done|]. cbn [digits].
  case_match; [done|]. rewrite IH, (IH _ [_]). by rewrite <- app_assoc.
Qed.

(** The last digit of a number. *)
Lemma show_dec_snoc n : 10 <= n -> show_dec n = show_dec (n / 10) ++ [digit (n mod 10)].
Proof.
  intros Hn. unfold show_dec. assert (0 <= n / 10) by (apply Z.div_pos; lia).
  destruct (Z.ltb_spec n 0); [lia|]. destruct (Z.ltb_spec (n / 10) 0); [lia|].
  pose proof (digits_fuel_div n Hn).
  destruct (digits_fuel n) as [|k] eqn:Hk; [unfold digits_fuel in Hk; lia|].
  cbn [digits]. destruct (Z.ltb_spec n 10); [lia|].
  rewrite digits_more by lia. by rewrite digits_app.
Qed.

Lemma show_dec_single n : 0 <= n < 10 -> show_dec n = [digit n].
Proof.
  intros Hn. unfold show_dec. destruct (Z.ltb_spec n 0); [lia|].
  unfold digits_fuel. cbn [digits]. rewrite Z.mod_small by lia.
  by destruct (Z.ltb_spec n 10); [|lia].
Qed.

Definition is_digit (b : byte) : bool := in_range 48 57 (byte_to_Z b).

Lemma digits_are_digits fuel n acc :
  0 <= n -> forallb is_digit acc = true -> forallb is_digit (digits 10 fuel n acc) = true.
Proof.
  revert n acc. induction fuel as [|fuel IH]; intros n acc Hn Hacc; [done|].
  cbn [digits].
  assert (forallb is_digit (digit (n mod 10) :: acc) = true) as Hd.
  { cbn. rewrite Hacc, andb_true_r. pose proof (Z.mod_pos_bound n 10 ltac:(lia)).
    unfold is_digit, digit. destruct (Z.ltb_spec (n mod 10) 10); [|lia].
    rewrite byte_to_Z_to_byte, Z.mod_small by lia. unfold in_range. lia. }
  case_match; [done|]. apply IH; [apply Z.div_pos; lia|done].
Qed.

Lemma show_dec_digits n : 0 <= n -> forallb is_digit (show_dec n) = true.
Proof.
  intros. unfold show_dec. destruct (Z.ltb_spec n 0); [lia|]. by apply digits_are_digits.
Qed.

Lemma show_dec_nonempty n : 0 <= n -> show_dec n <> [].
Proof.
  intros. unfold show_dec. destruct (Z.ltb_spec n 0); [lia|].
  apply digits_nonempty. unfold digits_fuel. lia.
Qed.

Lemma parse_uint_digits maxv s :
  forallb is_digit s = true -> s <> [] -> parse_uint maxv s = parse_digits maxv 0 s.
Proof.
  intros Hs Hne. destruct s as [|c s]; [done|].
  apply andb_true_iff in Hs as [Hc _].
  assert (c <> x2b /\ c <> x2d) as [H1 H2] by (split; intros ->; discriminate Hc).
  unfold parse_uint. destruct s; repeat case_decide; intuition congruence.
Qed.

Lemma parse_uint_show maxv n :
  0 <= n <= maxv -> parse_uint maxv (show_dec n) = Some n.
Proof.
  intros Hn. rewrite parse_uint_digits 
    by (try apply show_dec_digits; try apply show_dec_nonempty; lia).
  unfold show_dec. destruct (Z.ltb_spec n 0); [lia|].
  by rewrite parse_digits_show by lia.
Qed.

(** ** [str] methods *)

Fixpoint starts_with (s p : bytes) {struct p} : bool :=
  match p, s with
  | [], _ => true
  | _ :: _, [] => false
  | c :: p, d :: s => bool_decide (c = d) && starts_with s p
  end.

Lemma starts_with_cons c d s p :
  starts_with (d :: s) (c :: p) = bool_decide (c = d) && starts_with s p.
Proof. done. Qed.

Lemma starts_with_app p s : starts_with (p ++ s) p = true.
Proof. induction p as [|c p IH]; [done|]. cbn. by rewrite bool_decide_true. Qed.

Lemma starts_with_spec s p : starts_with s p = true <-> exists r, s = p ++ r.
Proof.
  split; [|intros [r ->]; apply starts_with_app].
  revert s. induction p as [|c p IH]; intros s; [by exists s|].
  destruct s as [|d s]; [done|]. cbn.
  intros [->%bool_decide_eq_true Hs]%andb_true_iff.
  destruct (IH _ Hs) as [r ->]. by exists r.
Qed.

Definition is_char_boundary (s : bytes) (i : nat) : bool :=
  match s !! i with
  | Some b => bool_decide (i = 0%nat) || negb (is_cont b)
  | None => bool_decide (i = length s)
  end.

(** [&s[a..b]]. *)
Definition str_slice {E} (s : bytes) (a b : nat) : outcome E bytes :=
  if bool_decide (a <= b)%nat && is_char_boundary s a && is_char_boundary s b
  then Ok (take (b - a) (drop a s)) else Panic.

Definition to_ascii_lowercase (b : byte) : byte :=
  let z := byte_to_Z b in if in_range 65 90 z then Z_to_byte (z + 32) else b.

Fixpoint eq_ignore_ascii_case (s t : bytes) : bool :=
  match s, t with
  | [], [] => true
  | b :: s, c :: t =>
    bool_decide (to_ascii_lowercase b = to_ascii_lowercase c) && eq_ignore_ascii_case s t
  | _, _ => false
  end.

Lemma eq_ignore_ascii_case_refl s : eq_ignore_ascii_case s s = true.
Proof. induction s as [|b s IH]; [done|]. cbn. by rewrite bool_decide_true. Qed.

(** The characters of the Unicode [White_Space] property, encoded. *)
Definition white_space : list bytes :=
  [[x09]; [x0a]; [x0b]; [x0c]; [x0d]; [x20]; [xc2; x85]; [xc2; xa0]; [xe1; x9a; x80];
   [xe2; x80; x80]; [xe2; x80; x81]; [xe2; x80; x82]; [xe2; x80; x83]; [xe2; x80; x84];
   [xe2; x80; x85]; [xe2; x80; x86]; [xe2; x80; x87]; [xe2; x80; x88]; [xe2; x80; x89];
   [xe2; x80; x8a]; [xe2; x80; xa8]; [xe2; x80; xa9]; [xe2; x80; xaf]; [xe2; x81; x9f];
   [xe3; x80; x80]].

(** Strip leading occurrences of the strings [ws]; [fuel] is the length. *)
Fixpoint strip_leading (ws : list bytes) (fuel : nat) (s : bytes) : bytes :=
  match fuel with
  | O => s
  | S fuel =>
    match list_find (fun w => starts_with s w = true) ws with
    | Some (_, w) => strip_leading ws fuel (drop (length w) s)
    | None => s
    end
  end.

Definition trim_start (s : bytes) : bytes := strip_leading white_space (length s) s.
Definition trim_end (s : bytes) : bytes :=
  reverse (strip_leading (reverse <$> white_space) (length s) (reverse s)).
Definition trim (s : bytes) : bytes := trim_end (trim_start s).

(** [s.split(c)] for an ASCII [c]. *)
Fixpoint split_on (c : byte) (s : bytes) : list bytes :=
  match s with
  | [] => [[]]
  | b :: s =>
    if decide (b = c) then [] :: split_on c s
    else
      match split_on c s with
      | [] => [[b]]
      | w :: ws => (b :: w) :: ws
      end
  end.

(** [ws.join(sep)]. *)
Fixpoint join (sep : bytes) (ws : list bytes) : bytes :=
  match ws with
  | [] => []
  | [w] => w
  | w :: ws => w ++ sep ++ join sep ws
  end.
