(* ===== verification/Errors.v ===== *)
(** * Error values ([src/src/errors.rs])

    The library's error enums, the [From] conversions between them, their
    [Display] texts (what [to_string] yields, which reaches the peer in an
    exception packet) and [is_would_block].

    [io::Error] is reduced to what the code observes: its kind and its text.
    The texts of errors of third-party crates ([url], TLS) are carried as they
    are. *)

From S2P Require Import Prelude RustStd.
Local Open Scope Z_scope.

(** [io::ErrorKind]: the two kinds the code creates or tests; [Kind k] is any
    other one that the operating system reports. *)
Inductive ErrorKind := WouldBlock | OtherKind | Kind (k : Z).

Record io_error := IoError { kind : ErrorKind; io_message : bytes }.

Module ServerError.
Record t := Mk { code : Z; name : bytes; message : bytes; stack_trace : bytes }.
End ServerError.

Module ConnectionError.
Inductive t := TlsHostNotProvided | IOError (e : io_error).
End ConnectionError.

Module UrlError.
Inductive t :=
| Invalid
| InvalidParamValue (param value : bytes)
| Parse (text : bytes)
| UnknownParameter (param : bytes)
| UnsupportedScheme (scheme : bytes).
End UrlError.

Module DriverError.
Inductive t :=
| Overflow
| UnknownPacket (packet : Z)
| UnexpectedPacket
| Timeout
| Utf8 (e : utf8_error)
| UnknownSetting (name : bytes).
End DriverError.

Module FromSqlError.
Inductive t :=
| InvalidType (src dst : bytes)
| OutOfRange
| UnsupportedOperation.
End FromSqlError.

Module Error.
Inductive t :=
| Driver (e : DriverError.t)
| IO (e : io_error)
| Connection (e : ConnectionError.t)
| Other (text : bytes)
| Server (e : ServerError.t)
| Url (e : UrlError.t)
| FromSql (e : FromSqlError.t).
End Error.

Abbreviation Error := Error.t.

#[global] Instance ErrorKind_eq_dec : EqDecision ErrorKind.
Proof. solve_decision. Defined.
#[global] Instance io_error_eq_dec : EqDecision io_error.
Proof. solve_decision. Defined.
#[global] Instance ServerError_eq_dec : EqDecision ServerError.t.
Proof. solve_decision. Defined.
#[global] Instance ConnectionError_eq_dec : EqDecision ConnectionError.t.
Proof. solve_decision. Defined.
#[global] Instance UrlError_eq_dec : EqDecision UrlError.t.
Proof. solve_decision. Defined.
#[global] Instance DriverError_eq_dec : EqDecision DriverError.t.
Proof. solve_decision. Defined.
#[global] Instance FromSqlError_eq_dec : EqDecision FromSqlError.t.
Proof. solve_decision. Defined.
#[global] Instance Error_eq_dec : EqDecision Error.
Proof. solve_decision. Defined.

(** The library's [Result<T>], with panics. *)
Abbreviation Result := (outcome Error).

(** ** [Display] *)

(** [Display] of [Utf8Error]. *)
Definition utf8_error_text (e : utf8_error) : bytes :=
  match error_len e with
  | Some n =>
    lit "invalid utf-8 sequence of " ++ show_dec (Z.of_nat n) ++ lit " bytes from index "
    ++ show_dec (Z.of_nat (valid_up_to e))
  | None =>
    lit "incomplete utf-8 byte sequence from index " ++ show_dec (Z.of_nat (valid_up_to e))
  end.

Definition server_error_text (e : ServerError.t) : bytes :=
  lit "ERROR " ++ ServerError.name e ++ lit " (" ++ show_dec (ServerError.code e)
  ++ lit "): " ++ ServerError.message e.

Definition connection_error_text (e : ConnectionError.t) : bytes :=
  match e with
  | ConnectionError.TlsHostNotProvided =>
    lit "TLS connection requires hostname to be provided"
  | ConnectionError.IOError e => lit "Input/output error: `" ++ io_message e ++ lit "`"
  end.

Definition url_error_text (e : UrlError.t) : bytes :=
  match e with
  | UrlError.Invalid => lit "Invalid or incomplete connection URL"
  | UrlError.InvalidParamValue param value =>
    lit "Invalid value `" ++ value ++ lit "' for connection URL parameter `" ++ param
    ++ lit "'"
  | UrlError.Parse text => lit "URL parse error: " ++ text
  | UrlError.UnknownParameter param =>
    lit "Unknown connection URL parameter `" ++ param ++ lit "'"
  | UrlError.UnsupportedScheme scheme =>
    lit "Unsupported connection URL scheme `" ++ scheme ++ lit "'"
  end.

Definition driver_error_text (e : DriverError.t) : bytes :=
  match e with
  | DriverError.Overflow => lit "Varint overflows a 64-bit integer."
  | DriverError.UnknownPacket packet =>
    lit "Unknown packet 0x" ++ show_hex packet ++ lit "."
  | DriverError.UnexpectedPacket => lit "Unexpected packet."
  | DriverError.Timeout => lit "Timeout error."
  | DriverError.Utf8 _ => lit "Invalid utf-8 sequence."
  | DriverError.UnknownSetting name => lit "UnknownSetting name " ++ name
  end.

Definition from_sql_error_text (e : FromSqlError.t) : bytes :=
  match e with
  | FromSqlError.InvalidType src dst =>
    lit "SqlType::" ++ src ++ lit " cannot be cast to " ++ dst ++ lit "."
  | FromSqlError.OutOfRange => lit "Out of range."
  | FromSqlError.UnsupportedOperation => lit "Unsupported operation."
  end.

(** [err.to_string()]. *)
Definition to_string (e : Error) : bytes :=
  match e with
  | Error.Driver e => lit "Driver error: `" ++ driver_error_text e ++ lit "`"
  | Error.IO e => lit "Input/output error: `" ++ io_message e ++ lit "`"
  | Error.Connection e => lit "Connections error: `" ++ connection_error_text e ++ lit "`"
  | Error.Other text => lit "Other error: `" ++ text ++ lit "`"
  | Error.Server e => lit "Server error: `" ++ server_error_text e ++ lit "`"
  | Error.Url e => lit "URL error: `" ++ url_error_text e ++ lit "`"
  | Error.FromSql e => lit "From SQL error: `" ++ from_sql_error_text e ++ lit "`"
  end.

(** ** Observers and conversions *)

Definition is_would_block (e : Error) : bool :=
  match e with
  | Error.IO e => bool_decide (kind e = WouldBlock)
  | _ => false
  end.

Definition exception_name (e : Error) : bytes :=
  match e with
  | Error.Driver _ => lit "DriverException"
  | Error.IO _ => lit "IOException"
  | Error.Connection _ => lit "ConnectionException"
  | Error.Other _ => lit "OtherException"
  | Error.Server e => ServerError.name e
  | Error.Url _ => lit "URLException"
  | Error.FromSql _ => lit "SQLException"
  end.

(** [impl From<io::Error> for Error]. *)
Definition from_io (e : io_error) : Error := Error.IO e.

(** [From<ConnectionError>], [From<DriverError>], [From<ServerError>] and
    [From<UrlError> for Error]. *)
Definition from_connection_error (error : ConnectionError.t) : Error := Error.Connection error.
Definition from_driver_error (err : DriverError.t) : Error := Error.Driver err.
Definition from_server_error (err : ServerError.t) : Error := Error.Server err.
Definition from_url_error (err : UrlError.t) : Error := Error.Url err.

(** [impl From<Error> for io::Error]. *)
Definition into_io (e : Error) : io_error :=
  match e with
  | Error.IO e => e
  | e => IoError OtherKind (to_string e)
  end.

(** [impl From<String>], [From<&str>] and [From<FromUtf8Error> for Error]. *)
Definition from_string (text : bytes) : Error := Error.Other text.
Definition from_from_utf8_error (e : utf8_error) : Error := Error.Other (utf8_error_text e).

(** [impl From<Utf8Error> for Error]. *)
Definition from_utf8_error (e : utf8_error) : Error := Error.Driver (DriverError.Utf8 e).

(** [impl From<Elapsed>] and [From<ParseError> for Error]; a [ParseError] is its
    text. *)
Definition from_elapsed : Error := Error.Driver DriverError.Timeout.
Definition from_parse_error (err : bytes) : Error := Error.Url (UrlError.Parse err).

(** The error that [read_bytes] raises at the end of the input. *)
Definition would_block : Error := from_io (IoError WouldBlock (lit "would block")).

(** An error that crosses an [io::Read] boundary and comes back keeps its
    readiness: only a [WouldBlock] stays one. *)
Lemma is_would_block_io_roundtrip e :
  is_would_block (from_io (into_io e)) = is_would_block e.
Proof. by destruct e. Qed.

(** [String::from_utf8(buffer)?]. *)
Definition string_from_utf8 (bs : bytes) : Result bytes :=
  match utf8_check bs with
  | None => Ok bs
  | Some e => Err (from_from_utf8_error e)
  end.

(** [str::from_utf8(t)?]. *)
Definition str_from_utf8 (bs : bytes) : Result bytes :=
  match utf8_check bs with
  | None => Ok bs
  | Some e => Err (from_utf8_error e)
  end.

Lemma string_from_utf8_ok bs : utf8_ok bs = true -> string_from_utf8 bs = Ok bs.
Proof. rewrite utf8_ok_spec. unfold string_from_utf8. by intros ->. Qed.
