(* ===== verification/ErrorCodes.v ===== *)
(** * Error codes ([error_codes.rs])

    The codes of the exceptions that a server sends, with their names, in four
    parts.  A code has one name: the codes are listed in ascending order. *)

From Stdlib Require Import Sorted.
From S2P Require Import Prelude.
Local Open Scope Z_scope.

Definition error_codes1 : list (bytes * Z) := [
  (lit "UNSUPPORTED_METHOD", 1);
  (lit "UNSUPPORTED_PARAMETER", 2);
  (lit "UNEXPECTED_END_OF_FILE", 3);
  (lit "EXPECTED_END_OF_FILE", 4);
  (lit "CANNOT_PARSE_TEXT", 6);
  (lit "INCORRECT_NUMBER_OF_COLUMNS", 7);
  (lit "THERE_IS_NO_COLUMN", 8);
  (lit "SIZES_OF_COLUMNS_DOESNT_MATCH", 9);
  (lit "NOT_FOUND_COLUMN_IN_BLOCK", 10);
  (lit "POSITION_OUT_OF_BOUND", 11);
  (lit "PARAMETER_OUT_OF_BOUND", 12);
  (lit "SIZES_OF_COLUMNS_IN_TUPLE_DOESNT_MATCH", 13);
  (lit "DUPLICATE_COLUMN", 15);
  (lit "NO_SUCH_COLUMN_IN_TABLE", 16);
  (lit "DELIMITER_IN_STRING_LITERAL_DOESNT_MATCH", 17);
  (lit "CANNOT_INSERT_ELEMENT_INTO_CONSTANT_COLUMN", 18);
  (lit "SIZE_OF_FIXED_STRING_DOESNT_MATCH", 19);
  (lit "NUMBER_OF_COLUMNS_DOESNT_MATCH", 20);
  (lit "CANNOT_READ_ALL_DATA_FROM_TAB_SEPARATED_INPUT", 21);
  (lit "CANNOT_PARSE_ALL_VALUE_FROM_TAB_SEPARATED_INPUT", 22);
  (lit "CANNOT_READ_FROM_ISTREAM", 23);
  (lit "CANNOT_WRITE_TO_OSTREAM", 24);
  (lit "CANNOT_PARSE_ESCAPE_SEQUENCE", 25);
  (lit "CANNOT_PARSE_QUOTED_STRING", 26);
  (lit "CANNOT_PARSE_INPUT_ASSERTION_FAILED", 27);
  (lit "CANNOT_PRINT_FLOAT_OR_DOUBLE_NUMBER", 28);
  (lit "CANNOT_PRINT_INTEGER", 29);
  (lit "CANNOT_READ_SIZE_OF_COMPRESSED_CHUNK", 30);
  (lit "CANNOT_READ_COMPRESSED_CHUNK", 31);
  (lit "ATTEMPT_TO_READ_AFTER_EOF", 32);
  (lit "CANNOT_READ_ALL_DATA", 33);
  (lit "TOO_MANY_ARGUMENTS_FOR_FUNCTION", 34);
  (lit "TOO_FEW_ARGUMENTS_FOR_FUNCTION", 35);
  (lit "BAD_ARGUMENTS", 36);
  (lit "UNKNOWN_ELEMENT_IN_AST", 37);
  (lit "CANNOT_PARSE_DATE", 38);
  (lit "TOO_LARGE_SIZE_COMPRESSED", 39);
  (lit "CHECKSUM_DOESNT_MATCH", 40);
  (lit "CANNOT_PARSE_DATETIME", 41);
  (lit "NUMBER_OF_ARGUMENTS_DOESNT_MATCH", 42);
  (lit "ILLEGAL_TYPE_OF_ARGUMENT", 43);
  (lit "ILLEGAL_COLUMN", 44);
  (lit "ILLEGAL_NUMBER_OF_RESULT_COLUMNS", 45);
  (lit "UNKNOWN_FUNCTION", 46);
  (lit "UNKNOWN_IDENTIFIER", 47);
  (lit "NOT_IMPLEMENTED", 48);
  (lit "LOGICAL_ERROR", 49);
  (lit "UNKNOWN_TYPE", 50);
  (lit "EMPTY_LIST_OF_COLUMNS_QUERIED", 51);
  (lit "COLUMN_QUERIED_MORE_THAN_ONCE", 52);
  (lit "TYPE_MISMATCH", 53);
  (lit "STORAGE_DOESNT_ALLOW_PARAMETERS", 54);
  (lit "STORAGE_REQUIRES_PARAMETER", 55);
  (lit "UNKNOWN_STORAGE", 56);
  (lit "TABLE_ALREADY_EXISTS", 57);
  (lit "TABLE_METADATA_ALREADY_EXISTS", 58);
  (lit "ILLEGAL_TYPE_OF_COLUMN_FOR_FILTER", 59);
  (lit "UNKNOWN_TABLE", 60);
  (lit "ONLY_FILTER_COLUMN_IN_BLOCK", 61);
  (lit "SYNTAX_ERROR", 62);
  (lit "UNKNOWN_AGGREGATE_FUNCTION", 63);
  (lit "CANNOT_READ_AGGREGATE_FUNCTION_FROM_TEXT", 64);
  (lit "CANNOT_WRITE_AGGREGATE_FUNCTION_AS_TEXT", 65);
  (lit "NOT_A_COLUMN", 66);
  (lit "ILLEGAL_KEY_OF_AGGREGATION", 67);
  (lit "CANNOT_GET_SIZE_OF_FIELD", 68);
  (lit "ARGUMENT_OUT_OF_BOUND", 69);
  (lit "CANNOT_CONVERT_TYPE", 70);
  (lit "CANNOT_WRITE_AFTER_END_OF_BUFFER", 71);
  (lit "CANNOT_PARSE_NUMBER", 72);
  (lit "UNKNOWN_FORMAT", 73);
  (lit "CANNOT_READ_FROM_FILE_DESCRIPTOR", 74);
  (lit "CANNOT_WRITE_TO_FILE_DESCRIPTOR", 75);
  (lit "CANNOT_OPEN_FILE", 76);
  (lit "CANNOT_CLOSE_FILE", 77);
  (lit "UNKNOWN_TYPE_OF_QUERY", 78);
  (lit "INCORRECT_FILE_NAME", 79);
  (lit "INCORRECT_QUERY", 80);
  (lit "UNKNOWN_DATABASE", 81);
  (lit "DATABASE_ALREADY_EXISTS", 82);
  (lit "DIRECTORY_DOESNT_EXIST", 83);
  (lit "DIRECTORY_ALREADY_EXISTS", 84);
  (lit "FORMAT_IS_NOT_SUITABLE_FOR_INPUT", 85);
  (lit "RECEIVED_ERROR_FROM_REMOTE_IO_SERVER", 86);
  (lit "CANNOT_SEEK_THROUGH_FILE", 87);
  (lit "CANNOT_TRUNCATE_FILE", 88);
  (lit "UNKNOWN_COMPRESSION_METHOD", 89);
  (lit "EMPTY_LIST_OF_COLUMNS_PASSED", 90);
  (lit "SIZES_OF_MARKS_FILES_ARE_INCONSISTENT", 91);
  (lit "EMPTY_DATA_PASSED", 92);
  (lit "UNKNOWN_AGGREGATED_DATA_VARIANT", 93);
  (lit "CANNOT_MERGE_DIFFERENT_AGGREGATED_DATA_VARIANTS", 94);
  (lit "CANNOT_READ_FROM_SOCKET", 95);
  (lit "CANNOT_WRITE_TO_SOCKET", 96);
  (lit "CANNOT_READ_ALL_DATA_FROM_CHUNKED_INPUT", 97);
  (lit "CANNOT_WRITE_TO_EMPTY_BLOCK_OUTPUT_STREAM", 98);
  (lit "UNKNOWN_PACKET_FROM_CLIENT", 99);
  (lit "UNKNOWN_PACKET_FROM_SERVER", 100);
  (lit "UNEXPECTED_PACKET_FROM_CLIENT", 101);
  (lit "UNEXPECTED_PACKET_FROM_SERVER", 102);
  (lit "RECEIVED_DATA_FOR_WRONG_QUERY_ID", 103);
  (lit "TOO_SMALL_BUFFER_SIZE", 104);
  (lit "CANNOT_READ_HISTORY", 105);
  (lit "CANNOT_APPEND_HISTORY", 106);
  (lit "FILE_DOESNT_EXIST", 107);
  (lit "NO_DATA_TO_INSERT", 108);
  (lit "CANNOT_BLOCK_SIGNAL", 109);
  (lit "CANNOT_UNBLOCK_SIGNAL", 110);
  (lit "CANNOT_MANIPULATE_SIGSET", 111);
  (lit "CANNOT_WAIT_FOR_SIGNAL", 112);
  (lit "THERE_IS_NO_SESSION", 113);
  (lit "CANNOT_CLOCK_GETTIME", 114);
  (lit "UNKNOWN_SETTING", 115);
  (lit "THERE_IS_NO_DEFAULT_VALUE", 116);
  (lit "INCORRECT_DATA", 117);
  (lit "ENGINE_REQUIRED", 119);
  (lit "CANNOT_INSERT_VALUE_OF_DIFFERENT_SIZE_INTO_TUPLE", 120);
  (lit "UNSUPPORTED_JOIN_KEYS", 121);
  (lit "INCOMPATIBLE_COLUMNS", 122);
  (lit "UNKNOWN_TYPE_OF_AST_NODE", 123);
  (lit "INCORRECT_ELEMENT_OF_SET", 124);
  (lit "INCORRECT_RESULT_OF_SCALAR_SUBQUERY", 125);
  (lit "CANNOT_GET_RETURN_TYPE", 126);
  (lit "ILLEGAL_INDEX", 127);
  (lit "TOO_LARGE_ARRAY_SIZE", 128);
  (lit "FUNCTION_IS_SPECIAL", 129);
  (lit "CANNOT_READ_ARRAY_FROM_TEXT", 130);
  (lit "TOO_LARGE_STRING_SIZE", 131);
  (lit "CANNOT_CREATE_TABLE_FROM_METADATA", 132);
  (lit "AGGREGATE_FUNCTION_DOESNT_ALLOW_PARAMETERS", 133);
  (lit "PARAMETERS_TO_AGGREGATE_FUNCTIONS_MUST_BE_LITERALS", 134);
  (lit "ZERO_ARRAY_OR_TUPLE_INDEX", 135);
  (lit "UNKNOWN_ELEMENT_IN_CONFIG", 137);
  (lit "EXCESSIVE_ELEMENT_IN_CONFIG", 138);
  (lit "NO_ELEMENTS_IN_CONFIG", 139);
  (lit "ALL_REQUESTED_COLUMNS_ARE_MISSING", 140);
  (lit "SAMPLING_NOT_SUPPORTED", 141);
  (lit "NOT_FOUND_NODE", 142);
  (lit "FOUND_MORE_THAN_ONE_NODE", 143);
  (lit "FIRST_DATE_IS_BIGGER_THAN_LAST_DATE", 144);
  (lit "UNKNOWN_OVERFLOW_MODE", 145);
  (lit "QUERY_SECTION_DOESNT_MAKE_SENSE", 146);
  (lit "NOT_FOUND_FUNCTION_ELEMENT_FOR_AGGREGATE", 147);
  (lit "NOT_FOUND_RELATION_ELEMENT_FOR_CONDITION", 148);
  (lit "NOT_FOUND_RHS_ELEMENT_FOR_CONDITION", 149);
  (lit "EMPTY_LIST_OF_ATTRIBUTES_PASSED", 150);
  (lit "INDEX_OF_COLUMN_IN_SORT_CLAUSE_IS_OUT_OF_RANGE", 151);
  (lit "UNKNOWN_DIRECTION_OF_SORTING", 152)
].

Definition error_codes2 : list (bytes * Z) := [
  (lit "ILLEGAL_DIVISION", 153);
  (lit "AGGREGATE_FUNCTION_NOT_APPLICABLE", 154);
  (lit "UNKNOWN_RELATION", 155);
  (lit "DICTIONARIES_WAS_NOT_LOADED", 156);
  (lit "ILLEGAL_OVERFLOW_MODE", 157);
  (lit "TOO_MANY_ROWS", 158);
  (lit "TIMEOUT_EXCEEDED", 159);
  (lit "TOO_SLOW", 160);
  (lit "TOO_MANY_COLUMNS", 161);
  (lit "TOO_DEEP_SUBQUERIES", 162);
  (lit "TOO_DEEP_PIPELINE", 163);
  (lit "READONLY", 164);
  (lit "TOO_MANY_TEMPORARY_COLUMNS", 165);
  (lit "TOO_MANY_TEMPORARY_NON_CONST_COLUMNS", 166);
  (lit "TOO_DEEP_AST", 167);
  (lit "TOO_BIG_AST", 168);
  (lit "BAD_TYPE_OF_FIELD", 169);
  (lit "BAD_GET", 170);
  (lit "BLOCKS_HAVE_DIFFERENT_STRUCTURE", 171);
  (lit "CANNOT_CREATE_DIRECTORY", 172);
  (lit "CANNOT_ALLOCATE_MEMORY", 173);
  (lit "CYCLIC_ALIASES", 174);
  (lit "CHUNK_NOT_FOUND", 176);
  (lit "DUPLICATE_CHUNK_NAME", 177);
  (lit "MULTIPLE_ALIASES_FOR_EXPRESSION", 178);
  (lit "MULTIPLE_EXPRESSIONS_FOR_ALIAS", 179);
  (lit "THERE_IS_NO_PROFILE", 180);
  (lit "ILLEGAL_FINAL", 181);
  (lit "ILLEGAL_PREWHERE", 182);
  (lit "UNEXPECTED_EXPRESSION", 183);
  (lit "ILLEGAL_AGGREGATION", 184);
  (lit "UNSUPPORTED_MYISAM_BLOCK_TYPE", 185);
  (lit "UNSUPPORTED_COLLATION_LOCALE", 186);
  (lit "COLLATION_COMPARISON_FAILED", 187);
  (lit "UNKNOWN_ACTION", 188);
  (lit "TABLE_MUST_NOT_BE_CREATED_MANUALLY", 189);
  (lit "SIZES_OF_ARRAYS_DOESNT_MATCH", 190);
  (lit "SET_SIZE_LIMIT_EXCEEDED", 191);
  (lit "UNKNOWN_USER", 192);
  (lit "WRONG_PASSWORD", 193);
  (lit "REQUIRED_PASSWORD", 194);
  (lit "IP_ADDRESS_NOT_ALLOWED", 195);
  (lit "UNKNOWN_ADDRESS_PATTERN_TYPE", 196);
  (lit "SERVER_REVISION_IS_TOO_OLD", 197);
  (lit "DNS_ERROR", 198);
  (lit "UNKNOWN_QUOTA", 199);
  (lit "QUOTA_DOESNT_ALLOW_KEYS", 200);
  (lit "QUOTA_EXPIRED", 201);
  (lit "TOO_MANY_SIMULTANEOUS_QUERIES", 202);
  (lit "NO_FREE_CONNECTION", 203);
  (lit "CANNOT_FSYNC", 204);
  (lit "NESTED_TYPE_TOO_DEEP", 205);
  (lit "ALIAS_REQUIRED", 206);
  (lit "AMBIGUOUS_IDENTIFIER", 207);
  (lit "EMPTY_NESTED_TABLE", 208);
  (lit "SOCKET_TIMEOUT", 209);
  (lit "NETWORK_ERROR", 210);
  (lit "EMPTY_QUERY", 211);
  (lit "UNKNOWN_LOAD_BALANCING", 212);
  (lit "UNKNOWN_TOTALS_MODE", 213);
  (lit "CANNOT_STATVFS", 214);
  (lit "NOT_AN_AGGREGATE", 215);
  (lit "QUERY_WITH_SAME_ID_IS_ALREADY_RUNNING", 216);
  (lit "CLIENT_HAS_CONNECTED_TO_WRONG_PORT", 217);
  (lit "TABLE_IS_DROPPED", 218);
  (lit "DATABASE_NOT_EMPTY", 219);
  (lit "DUPLICATE_INTERSERVER_IO_ENDPOINT", 220);
  (lit "NO_SUCH_INTERSERVER_IO_ENDPOINT", 221);
  (lit "ADDING_REPLICA_TO_NON_EMPTY_TABLE", 222);
  (lit "UNEXPECTED_AST_STRUCTURE", 223);
  (lit "REPLICA_IS_ALREADY_ACTIVE", 224);
  (lit "NO_ZOOKEEPER", 225);
  (lit "NO_FILE_IN_DATA_PART", 226);
  (lit "UNEXPECTED_FILE_IN_DATA_PART", 227);
  (lit "BAD_SIZE_OF_FILE_IN_DATA_PART", 228);
  (lit "QUERY_IS_TOO_LARGE", 229);
  (lit "NOT_FOUND_EXPECTED_DATA_PART", 230);
  (lit "TOO_MANY_UNEXPECTED_DATA_PARTS", 231);
  (lit "NO_SUCH_DATA_PART", 232);
  (lit "BAD_DATA_PART_NAME", 233);
  (lit "NO_REPLICA_HAS_PART", 234);
  (lit "DUPLICATE_DATA_PART", 235);
  (lit "ABORTED", 236);
  (lit "NO_REPLICA_NAME_GIVEN", 237);
  (lit "FORMAT_VERSION_TOO_OLD", 238);
  (lit "CANNOT_MUNMAP", 239);
  (lit "CANNOT_MREMAP", 240);
  (lit "MEMORY_LIMIT_EXCEEDED", 241);
  (lit "TABLE_IS_READ_ONLY", 242);
  (lit "NOT_ENOUGH_SPACE", 243);
  (lit "UNEXPECTED_ZOOKEEPER_ERROR", 244);
  (lit "CORRUPTED_DATA", 246);
  (lit "INCORRECT_MARK", 247);
  (lit "INVALID_PARTITION_VALUE", 248);
  (lit "NOT_ENOUGH_BLOCK_NUMBERS", 250);
  (lit "NO_SUCH_REPLICA", 251);
  (lit "TOO_MANY_PARTS", 252);
  (lit "REPLICA_IS_ALREADY_EXIST", 253);
  (lit "NO_ACTIVE_REPLICAS", 254);
  (lit "TOO_MANY_RETRIES_TO_FETCH_PARTS", 255);
  (lit "PARTITION_ALREADY_EXISTS", 256);
  (lit "PARTITION_DOESNT_EXIST", 257);
  (lit "UNION_ALL_RESULT_STRUCTURES_MISMATCH", 258);
  (lit "CLIENT_OUTPUT_FORMAT_SPECIFIED", 260);
  (lit "UNKNOWN_BLOCK_INFO_FIELD", 261);
  (lit "BAD_COLLATION", 262);
  (lit "CANNOT_COMPILE_CODE", 263);
  (lit "INCOMPATIBLE_TYPE_OF_JOIN", 264);
  (lit "NO_AVAILABLE_REPLICA", 265);
  (lit "MISMATCH_REPLICAS_DATA_SOURCES", 266);
  (lit "STORAGE_DOESNT_SUPPORT_PARALLEL_REPLICAS", 267);
  (lit "CPUID_ERROR", 268);
  (lit "INFINITE_LOOP", 269);
  (lit "CANNOT_COMPRESS", 270);
  (lit "CANNOT_DECOMPRESS", 271);
  (lit "CANNOT_IO_SUBMIT", 272);
  (lit "CANNOT_IO_GETEVENTS", 273);
  (lit "AIO_READ_ERROR", 274);
  (lit "AIO_WRITE_ERROR", 275);
  (lit "INDEX_NOT_USED", 277);
  (lit "LEADERSHIP_LOST", 278);
  (lit "ALL_CONNECTION_TRIES_FAILED", 279);
  (lit "NO_AVAILABLE_DATA", 280);
  (lit "DICTIONARY_IS_EMPTY", 281);
  (lit "INCORRECT_INDEX", 282);
  (lit "UNKNOWN_DISTRIBUTED_PRODUCT_MODE", 283);
  (lit "UNKNOWN_GLOBAL_SUBQUERIES_METHOD", 284);
  (lit "TOO_FEW_LIVE_REPLICAS", 285);
  (lit "UNSATISFIED_QUORUM_FOR_PREVIOUS_WRITE", 286);
  (lit "UNKNOWN_FORMAT_VERSION", 287);
  (lit "DISTRIBUTED_IN_JOIN_SUBQUERY_DENIED", 288);
  (lit "REPLICA_IS_NOT_IN_QUORUM", 289);
  (lit "LIMIT_EXCEEDED", 290);
  (lit "DATABASE_ACCESS_DENIED", 291);
  (lit "LEADERSHIP_CHANGED", 292);
  (lit "MONGODB_CANNOT_AUTHENTICATE", 293);
  (lit "INVALID_BLOCK_EXTRA_INFO", 294);
  (lit "RECEIVED_EMPTY_DATA", 295);
  (lit "NO_REMOTE_SHARD_FOUND", 296);
  (lit "SHARD_HAS_NO_CONNECTIONS", 297);
  (lit "CANNOT_PIPE", 298);
  (lit "CANNOT_FORK", 299);
  (lit "CANNOT_DLSYM", 300);
  (lit "CANNOT_CREATE_CHILD_PROCESS", 301);
  (lit "CHILD_WAS_NOT_EXITED_NORMALLY", 302);
  (lit "CANNOT_SELECT", 303);
  (lit "CANNOT_WAITPID", 304);
  (lit "TABLE_WAS_NOT_DROPPED", 305)
].

Definition error_codes3 : list (bytes * Z) := [
  (lit "TOO_DEEP_RECURSION", 306);
  (lit "TOO_MANY_BYTES", 307);
  (lit "UNEXPECTED_NODE_IN_ZOOKEEPER", 308);
  (lit "FUNCTION_CANNOT_HAVE_PARAMETERS", 309);
  (lit "INVALID_SHARD_WEIGHT", 317);
  (lit "INVALID_CONFIG_PARAMETER", 318);
  (lit "UNKNOWN_STATUS_OF_INSERT", 319);
  (lit "VALUE_IS_OUT_OF_RANGE_OF_DATA_TYPE", 321);
  (lit "BARRIER_TIMEOUT", 335);
  (lit "UNKNOWN_DATABASE_ENGINE", 336);
  (lit "DDL_GUARD_IS_ACTIVE", 337);
  (lit "UNFINISHED", 341);
  (lit "METADATA_MISMATCH", 342);
  (lit "SUPPORT_IS_DISABLED", 344);
  (lit "TABLE_DIFFERS_TOO_MUCH", 345);
  (lit "CANNOT_CONVERT_CHARSET", 346);
  (lit "CANNOT_LOAD_CONFIG", 347);
  (lit "CANNOT_INSERT_NULL_IN_ORDINARY_COLUMN", 349);
  (lit "INCOMPATIBLE_SOURCE_TABLES", 350);
  (lit "AMBIGUOUS_TABLE_NAME", 351);
  (lit "AMBIGUOUS_COLUMN_NAME", 352);
  (lit "INDEX_OF_POSITIONAL_ARGUMENT_IS_OUT_OF_RANGE", 353);
  (lit "ZLIB_INFLATE_FAILED", 354);
  (lit "ZLIB_DEFLATE_FAILED", 355);
  (lit "BAD_LAMBDA", 356);
  (lit "RESERVED_IDENTIFIER_NAME", 357);
  (lit "INTO_OUTFILE_NOT_ALLOWED", 358);
  (lit "TABLE_SIZE_EXCEEDS_MAX_DROP_SIZE_LIMIT", 359);
  (lit "CANNOT_CREATE_CHARSET_CONVERTER", 360);
  (lit "SEEK_POSITION_OUT_OF_BOUND", 361);
  (lit "CURRENT_WRITE_BUFFER_IS_EXHAUSTED", 362);
  (lit "CANNOT_CREATE_IO_BUFFER", 363);
  (lit "RECEIVED_ERROR_TOO_MANY_REQUESTS", 364);
  (lit "OUTPUT_IS_NOT_SORTED", 365);
  (lit "SIZES_OF_NESTED_COLUMNS_ARE_INCONSISTENT", 366);
  (lit "TOO_MANY_FETCHES", 367);
  (lit "BAD_CAST", 368);
  (lit "ALL_REPLICAS_ARE_STALE", 369);
  (lit "DATA_TYPE_CANNOT_BE_USED_IN_TABLES", 370);
  (lit "INCONSISTENT_CLUSTER_DEFINITION", 371);
  (lit "SESSION_NOT_FOUND", 372);
  (lit "SESSION_IS_LOCKED", 373);
  (lit "INVALID_SESSION_TIMEOUT", 374);
  (lit "CANNOT_DLOPEN", 375);
  (lit "CANNOT_PARSE_UUID", 376);
  (lit "ILLEGAL_SYNTAX_FOR_DATA_TYPE", 377);
  (lit "DATA_TYPE_CANNOT_HAVE_ARGUMENTS", 378);
  (lit "UNKNOWN_STATUS_OF_DISTRIBUTED_DDL_TASK", 379);
  (lit "CANNOT_KILL", 380);
  (lit "HTTP_LENGTH_REQUIRED", 381);
  (lit "CANNOT_LOAD_CATBOOST_MODEL", 382);
  (lit "CANNOT_APPLY_CATBOOST_MODEL", 383);
  (lit "PART_IS_TEMPORARILY_LOCKED", 384);
  (lit "MULTIPLE_STREAMS_REQUIRED", 385);
  (lit "NO_COMMON_TYPE", 386);
  (lit "DICTIONARY_ALREADY_EXISTS", 387);
  (lit "CANNOT_ASSIGN_OPTIMIZE", 388);
  (lit "INSERT_WAS_DEDUPLICATED", 389);
  (lit "CANNOT_GET_CREATE_TABLE_QUERY", 390);
  (lit "EXTERNAL_LIBRARY_ERROR", 391);
  (lit "QUERY_IS_PROHIBITED", 392);
  (lit "THERE_IS_NO_QUERY", 393);
  (lit "QUERY_WAS_CANCELLED", 394);
  (lit "FUNCTION_THROW_IF_VALUE_IS_NON_ZERO", 395);
  (lit "TOO_MANY_ROWS_OR_BYTES", 396);
  (lit "QUERY_IS_NOT_SUPPORTED_IN_MATERIALIZED_VIEW", 397);
  (lit "UNKNOWN_MUTATION_COMMAND", 398);
  (lit "FORMAT_IS_NOT_SUITABLE_FOR_OUTPUT", 399);
  (lit "CANNOT_STAT", 400);
  (lit "FEATURE_IS_NOT_ENABLED_AT_BUILD_TIME", 401);
  (lit "CANNOT_IOSETUP", 402);
  (lit "INVALID_JOIN_ON_EXPRESSION", 403);
  (lit "BAD_ODBC_CONNECTION_STRING", 404);
  (lit "PARTITION_SIZE_EXCEEDS_MAX_DROP_SIZE_LIMIT", 405);
  (lit "TOP_AND_LIMIT_TOGETHER", 406);
  (lit "DECIMAL_OVERFLOW", 407);
  (lit "BAD_REQUEST_PARAMETER", 408);
  (lit "EXTERNAL_EXECUTABLE_NOT_FOUND", 409);
  (lit "EXTERNAL_SERVER_IS_NOT_RESPONDING", 410);
  (lit "PTHREAD_ERROR", 411);
  (lit "NETLINK_ERROR", 412);
  (lit "CANNOT_SET_SIGNAL_HANDLER", 413);
  (lit "CANNOT_READLINE", 414);
  (lit "ALL_REPLICAS_LOST", 415);
  (lit "REPLICA_STATUS_CHANGED", 416);
  (lit "EXPECTED_ALL_OR_ANY", 417);
  (lit "UNKNOWN_JOIN_STRICTNESS", 418);
  (lit "MULTIPLE_ASSIGNMENTS_TO_COLUMN", 419);
  (lit "CANNOT_UPDATE_COLUMN", 420);
  (lit "CANNOT_ADD_DIFFERENT_AGGREGATE_STATES", 421);
  (lit "UNSUPPORTED_URI_SCHEME", 422);
  (lit "CANNOT_GETTIMEOFDAY", 423);
  (lit "CANNOT_LINK", 424);
  (lit "SYSTEM_ERROR", 425);
  (lit "NULL_POINTER_DEREFERENCE", 426);
  (lit "CANNOT_COMPILE_REGEXP", 427);
  (lit "UNKNOWN_LOG_LEVEL", 428);
  (lit "FAILED_TO_GETPWUID", 429);
  (lit "MISMATCHING_USERS_FOR_PROCESS_AND_DATA", 430);
  (lit "ILLEGAL_SYNTAX_FOR_CODEC_TYPE", 431);
  (lit "UNKNOWN_CODEC", 432);
  (lit "ILLEGAL_CODEC_PARAMETER", 433);
  (lit "CANNOT_PARSE_PROTOBUF_SCHEMA", 434);
  (lit "NO_DATA_FOR_REQUIRED_PROTOBUF_FIELD", 435);
  (lit "PROTOBUF_BAD_CAST", 436);
  (lit "PROTOBUF_FIELD_NOT_REPEATED", 437);
  (lit "DATA_TYPE_CANNOT_BE_PROMOTED", 438);
  (lit "CANNOT_SCHEDULE_TASK", 439);
  (lit "INVALID_LIMIT_EXPRESSION", 440);
  (lit "CANNOT_PARSE_DOMAIN_VALUE_FROM_STRING", 441);
  (lit "BAD_DATABASE_FOR_TEMPORARY_TABLE", 442);
  (lit "NO_COMMON_COLUMNS_WITH_PROTOBUF_SCHEMA", 443);
  (lit "UNKNOWN_PROTOBUF_FORMAT", 444);
  (lit "CANNOT_MPROTECT", 445);
  (lit "FUNCTION_NOT_ALLOWED", 446);
  (lit "HYPERSCAN_CANNOT_SCAN_TEXT", 447);
  (lit "BROTLI_READ_FAILED", 448);
  (lit "BROTLI_WRITE_FAILED", 449);
  (lit "BAD_TTL_EXPRESSION", 450);
  (lit "BAD_TTL_FILE", 451);
  (lit "SETTING_CONSTRAINT_VIOLATION", 452);
  (lit "MYSQL_CLIENT_INSUFFICIENT_CAPABILITIES", 453);
  (lit "OPENSSL_ERROR", 454);
  (lit "SUSPICIOUS_TYPE_FOR_LOW_CARDINALITY", 455);
  (lit "UNKNOWN_QUERY_PARAMETER", 456);
  (lit "BAD_QUERY_PARAMETER", 457);
  (lit "CANNOT_UNLINK", 458);
  (lit "CANNOT_SET_THREAD_PRIORITY", 459);
  (lit "CANNOT_CREATE_TIMER", 460);
  (lit "CANNOT_SET_TIMER_PERIOD", 461);
  (lit "CANNOT_DELETE_TIMER", 462);
  (lit "CANNOT_FCNTL", 463);
  (lit "CANNOT_PARSE_ELF", 464);
  (lit "CANNOT_PARSE_DWARF", 465);
  (lit "INSECURE_PATH", 466);
  (lit "CANNOT_PARSE_BOOL", 467);
  (lit "CANNOT_PTHREAD_ATTR", 468);
  (lit "VIOLATED_CONSTRAINT", 469);
  (lit "QUERY_IS_NOT_SUPPORTED_IN_LIVE_VIEW", 470);
  (lit "SETTINGS_ARE_NOT_SUPPORTED", 471);
  (lit "READONLY_SETTING", 472);
  (lit "DEADLOCK_AVOIDED", 473);
  (lit "INVALID_TEMPLATE_FORMAT", 474);
  (lit "INVALID_WITH_FILL_EXPRESSION", 475);
  (lit "WITH_TIES_WITHOUT_ORDER_BY", 476);
  (lit "INVALID_USAGE_OF_INPUT", 477);
  (lit "UNKNOWN_POLICY", 478);
  (lit "UNKNOWN_DISK", 479)
].

Definition error_codes4 : list (bytes * Z) := [
  (lit "UNKNOWN_PROTOCOL", 480);
  (lit "PATH_ACCESS_DENIED", 481);
  (lit "DICTIONARY_ACCESS_DENIED", 482);
  (lit "TOO_MANY_REDIRECTS", 483);
  (lit "INTERNAL_REDIS_ERROR", 484);
  (lit "SCALAR_ALREADY_EXISTS", 485);
  (lit "UNKNOWN_SCALAR", 486);
  (lit "CANNOT_GET_CREATE_DICTIONARY_QUERY", 487);
  (lit "UNKNOWN_DICTIONARY", 488);
  (lit "INCORRECT_DICTIONARY_DEFINITION", 489);
  (lit "CANNOT_FORMAT_DATETIME", 490);
  (lit "UNACCEPTABLE_URL", 491);
  (lit "ACCESS_ENTITY_NOT_FOUND", 492);
  (lit "ACCESS_ENTITY_ALREADY_EXISTS", 493);
  (lit "ACCESS_ENTITY_FOUND_DUPLICATES", 494);
  (lit "ACCESS_ENTITY_STORAGE_READONLY", 495);
  (lit "QUOTA_REQUIRES_CLIENT_KEY", 496);
  (lit "NOT_ENOUGH_PRIVILEGES", 497);
  (lit "LIMIT_BY_WITH_TIES_IS_NOT_SUPPORTED", 498);
  (lit "S3_ERROR", 499);
  (lit "CANNOT_CREATE_DICTIONARY_FROM_METADATA", 500);
  (lit "CANNOT_CREATE_DATABASE", 501);
  (lit "KEEPER_EXCEPTION", 999);
  (lit "POCO_EXCEPTION", 1000);
  (lit "STD_EXCEPTION", 1001);
  (lit "UNKNOWN_EXCEPTION", 1002);
  (lit "CONDITIONAL_TREE_PARENT_NOT_FOUND", 2001);
  (lit "ILLEGAL_PROJECTION_MANIPULATOR", 2002)
].

Definition error_codes : list (bytes * Z) :=
  error_codes1 ++ error_codes2 ++ error_codes3 ++ error_codes4.

(** The lookups by a linear search. *)
Definition error_code (name : bytes) : option Z :=
  snd <$> find (fun nc => bool_decide (nc.1 = name)) error_codes.

Definition error_name (code : Z) : option bytes :=
  fst <$> find (fun nc => nc.2 =? code) error_codes.

Lemma error_codes_sorted : StronglySorted Z.lt (snd <$> error_codes).
Proof.
  apply Sorted_StronglySorted; [intros x y z; lia|].
  repeat (apply Sorted_cons; [|first [apply HdRel_nil|apply HdRel_cons; reflexivity]]). apply Sorted_nil.
Qed.

Lemma error_names_distinct : NoDup (fst <$> error_codes).
Proof. apply (bool_decide_unpack _). vm_compute. exact I. Qed.

Lemma find_first {A B} `{EqDecision B} (key : A -> B) (p : A -> bool) xs x :
  (forall y, p y = true <-> key y = key x) -> NoDup (key <$> xs) -> x ∈ xs -> find p xs = Some x.
Proof.
  intros Hp Hnd Hx. induction xs as [|y xs IH]; [by apply not_elem_of_nil in Hx|].
  rewrite fmap_cons in Hnd. apply NoDup_cons in Hnd as [Hy Hnd]. cbn.
  destruct (p y) eqn:Hpy.
  - apply elem_of_cons in Hx as [->|Hx]; [done|]. destruct Hy. apply Hp in Hpy as ->.
    by apply list_elem_of_fmap_2.
  - apply elem_of_cons in Hx as [->|Hx]; [|by apply IH].
    destruct (Hp y) as [_ Ht]. by rewrite Ht in Hpy.
Qed.

(** A name and a code determine each other. *)
Lemma error_code_name name code :
  (name, code) ∈ error_codes -> error_code name = Some code /\ error_name code = Some name.
Proof.
  intros Hin. unfold error_code, error_name. split.
  - rewrite (find_first fst _ _ (name, code)); [done| |apply error_names_distinct|done].
    intros y. by rewrite bool_decide_eq_true.
  - rewrite (find_first snd _ _ (name, code)); [done| | |done].
    + intros y. by rewrite Z.eqb_eq.
    + pose proof error_codes_sorted as Hs. clear Hin. induction Hs as [|c cs Hs IH Hc]; constructor; [|done].
      intros Hin. rewrite Forall_forall in Hc. specialize (Hc c Hin). lia.
Qed.
