(* ===== verification/Scalars.v ===== *)
(** * Scalars on the wire ([types/marshal.rs], [types/unmarshal.rs],
      [types/stat_buffer.rs])

    The primitive types that implement [Marshal], [Unmarshal] and
    [StatBuffer].  A value is a [Z]: the number for an integer, the bit pattern
    ([to_bits]) for a float, 0 or 1 for a [bool].  The code writes the bytes out
    one by one; [le_bytes] and [le_Z] are the little-endian reference it is
    compared with. *)

From S2P Require Import Prelude.
Local Open Scope Z_scope.

Inductive prim := u8 | u16 | u32 | u64 | i8 | i16 | i32 | i64 | f32 | f64 | bool_.

#[global] Instance prim_eq_dec : EqDecision prim.
Proof. solve_decision. Defined.

(** [T::buffer().len()], which is also [mem::size_of::<T>()]. *)
Definition buffer_size (t : prim) : nat :=
  match t with
  | u8 | i8 | bool_ => 1
  | u16 | i16 => 2
  | u32 | i32 | f32 => 4
  | u64 | i64 | f64 => 8
  end.

(** The values of a type. *)
Definition prim_ok (t : prim) (v : Z) : bool :=
  match t with
  | u8 => in_u 8 v | u16 => in_u 16 v | u32 | f32 => in_u 32 v | u64 | f64 => in_u 64 v
  | i8 => in_s 8 v | i16 => in_s 16 v | i32 => in_s 32 v | i64 => in_s 64 v
  | bool_ => in_u 1 v
  end.

(** [Marshal::marshal]: the bytes written to [scratch]. *)
Definition marshal (t : prim) (v : Z) : bytes :=
  match t with
  | u8 | i8 | bool_ => [Z_to_byte v]
  | u16 | i16 => [Z_to_byte v; Z_to_byte (Z.shiftr v 8)]
  | u32 | i32 | f32 =>
    [Z_to_byte v; Z_to_byte (Z.shiftr v 8); Z_to_byte (Z.shiftr v 16);
     Z_to_byte (Z.shiftr v 24)]
  | u64 | i64 | f64 =>
    [Z_to_byte v; Z_to_byte (Z.shiftr v 8); Z_to_byte (Z.shiftr v 16);
     Z_to_byte (Z.shiftr v 24); Z_to_byte (Z.shiftr v 32); Z_to_byte (Z.shiftr v 40);
     Z_to_byte (Z.shiftr v 48); Z_to_byte (Z.shiftr v 56)]
  end.

(** [Unmarshal::unmarshal].  [cast w x] is the value of [x << s] at the width of
    the type: a shift drops the bits that leave it.  A scratch that is too
    short is an index panic. *)
Definition unmarshal {E} (t : prim) (scratch : bytes) : outcome E Z :=
  let at_ i := byte_to_Z <$> index (E:=E) scratch i in
  let le4 (cast : Z -> Z) :=
    b0 ← at_ 0%nat; b1 ← at_ 1%nat; b2 ← at_ 2%nat; b3 ← at_ 3%nat;
    Ok (Z.lor (Z.lor (Z.lor b0 (cast (Z.shiftl b1 8))) (cast (Z.shiftl b2 16)))
          (cast (Z.shiftl b3 24))) in
  let le8 (cast : Z -> Z) :=
    b0 ← at_ 0%nat; b1 ← at_ 1%nat; b2 ← at_ 2%nat; b3 ← at_ 3%nat;
    b4 ← at_ 4%nat; b5 ← at_ 5%nat; b6 ← at_ 6%nat; b7 ← at_ 7%nat;
    Ok (Z.lor (Z.lor (Z.lor (Z.lor (Z.lor (Z.lor (Z.lor b0
          (cast (Z.shiftl b1 8))) (cast (Z.shiftl b2 16))) (cast (Z.shiftl b3 24)))
          (cast (Z.shiftl b4 32))) (cast (Z.shiftl b5 40))) (cast (Z.shiftl b6 48)))
          (cast (Z.shiftl b7 56))) in
  match t with
  | u8 => at_ 0%nat
  | u16 => b0 ← at_ 0%nat; b1 ← at_ 1%nat; Ok (Z.lor b0 (wrapu 16 (Z.shiftl b1 8)))
  | u32 | f32 => le4 (wrapu 32)
  | u64 | f64 => le8 (wrapu 64)
  | i8 => b0 ← at_ 0%nat; Ok (wraps 8 b0)
  | i16 => b0 ← at_ 0%nat; b1 ← at_ 1%nat; Ok (Z.lor b0 (wraps 16 (Z.shiftl b1 8)))
  | i32 => le4 (wraps 32)
  | i64 => le8 (wraps 64)
  | bool_ => b0 ← at_ 0%nat; Ok (if b0 =? 0 then 0 else 1)
  end.

(** ** The little-endian reference *)

Fixpoint le_bytes (n : nat) (z : Z) : bytes :=
  match n with
  | O => []
  | S n => Z_to_byte z :: le_bytes n (Z.shiftr z 8)
  end.

Fixpoint le_Z (bs : bytes) : Z :=
  match bs with
  | [] => 0
  | b :: bs => byte_to_Z b + 256 * le_Z bs
  end.

(** What a bit pattern of the type's width denotes. *)
Definition of_bits (t : prim) (z : Z) : Z :=
  match t with
  | u8 | u16 | u32 | u64 | f32 | f64 => z
  | i8 => wraps 8 z | i16 => wraps 16 z | i32 => wraps 32 z | i64 => wraps 64 z
  | bool_ => if z =? 0 then 0 else 1
  end.

Lemma length_le_bytes n z : length (le_bytes n z) = n.
Proof. revert z. induction n as [|n IH]; intros z; cbn; auto. Qed.

Lemma le_Z_le_bytes n z : le_Z (le_bytes n z) = z mod 2 ^ (8 * Z.of_nat n).
Proof.
  revert z. induction n as [|n IH]; intros z; [by rewrite Z.mod_1_r|].
  cbn [le_bytes le_Z]. rewrite IH, byte_to_Z_to_byte, Z.shiftr_div_pow2 by lia.
  replace (8 * Z.of_nat (S n)) with (8 + 8 * Z.of_nat n) by lia.
  rewrite Z.pow_add_r by lia. change (2 ^ 8) with 256.
  rewrite Z.rem_mul_r by lia. done.
Qed.

Lemma le_Z_range bs : 0 <= le_Z bs < 2 ^ (8 * Z.of_nat (length bs)).
Proof.
  induction bs as [|b bs IH]; [done|]. cbn [le_Z length].
  replace (8 * Z.of_nat (S (length bs))) with (8 + 8 * Z.of_nat (length bs)) by lia.
  rewrite Z.pow_add_r by lia. pose proof (byte_to_Z_range b). nia.
Qed.

Lemma le_bytes_le_Z bs : le_bytes (length bs) (le_Z bs) = bs.
Proof.
  induction bs as [|b bs IH]; [done|]. cbn [length le_bytes le_Z].
  pose proof (byte_to_Z_range b).
  assert (Z.shiftr (byte_to_Z b + 256 * le_Z bs) 8 = le_Z bs) as ->.
  { rewrite Z.shiftr_div_pow2 by lia. change (2 ^ 8) with 256.
    rewrite (Z.mul_comm 256), Z.div_add, Z.div_small by lia. lia. }
  rewrite IH. f_equal. apply byte_to_Z_inj. rewrite byte_to_Z_to_byte.
  rewrite (Z.mul_comm 256), Z.mod_add, Z.mod_small by lia. done.
Qed.

(** ** Marshal and Unmarshal against the reference *)

Lemma marshal_le t v : marshal t v = le_bytes (buffer_size t) v.
Proof.
  destruct t; cbn; rewrite ?Z.shiftr_shiftr by lia; reflexivity.
Qed.

Lemma length_marshal t v : length (marshal t v) = buffer_size t.
Proof. rewrite marshal_le. apply length_le_bytes. Qed.

(** Or-ing a byte under a shifted value is adding it. *)
Lemma lor_shiftl_add k a b :
  0 <= k -> 0 <= a < 2 ^ k -> Z.lor a (Z.shiftl b k) = a + b * 2 ^ k.
Proof.
  intros Hk Ha.
  assert (Z.land a (Z.shiftl b k) = 0) as Hl.
  { apply Z.bits_inj'. intros n Hn. rewrite Z.land_spec, Z.bits_0.
    destruct (Z.lt_ge_cases n k).
    - by rewrite Z.shiftl_spec_low, andb_false_r.
    - rewrite <- (Z.mod_small a (2 ^ k)) by done.
      by rewrite Z.mod_pow2_bits_high. }
  rewrite <- Z.lxor_lor, <- Z.add_nocarry_lxor, Z.shiftl_mul_pow2 by done. done.
Qed.

(** A byte shifted to the top of a signed word is the signed byte, scaled. *)
Lemma wraps_shiftl w k b :
  0 < w -> 0 <= k -> wraps (w + k) (Z.shiftl b k) = Z.shiftl (wraps w b) k.
Proof.
  intros Hw Hk. unfold wraps. rewrite !Z.shiftl_mul_pow2 by lia.
  replace (w + k - 1) with (w - 1 + k) by lia. rewrite !Z.pow_add_r by lia.
  rewrite <- Z.mul_add_distr_r, Z.mul_mod_distr_r by (apply Z.pow_nonzero; lia).
  lia.
Qed.

Lemma wraps_shiftl_small w k b :
  0 < w -> 0 <= k -> 0 <= b < 256 -> k + 8 < w -> wraps w (Z.shiftl b k) = Z.shiftl b k.
Proof.
  intros Hw Hk Hb Hkw. apply wraps_small; [done|]. apply in_s_spec.
  rewrite Z.shiftl_mul_pow2 by done.
  pose proof (Z.pow_pos_nonneg 2 k ltac:(lia) Hk).
  assert (2 ^ (k + 8) <= 2 ^ (w - 1)) by (apply Z.pow_le_mono_r; lia).
  rewrite Z.pow_add_r in * by lia. nia.
Qed.

Lemma wrapu_shiftl_small w k b :
  0 <= k -> 0 <= b < 256 -> k + 8 <= w -> wrapu w (Z.shiftl b k) = Z.shiftl b k.
Proof.
  intros Hk Hb Hkw. apply wrapu_small. apply in_u_spec.
  rewrite Z.shiftl_mul_pow2 by done.
  pose proof (Z.pow_pos_nonneg 2 k ltac:(lia) Hk).
  assert (2 ^ (k + 8) <= 2 ^ w) by (apply Z.pow_le_mono_r; lia).
  rewrite Z.pow_add_r in * by lia. nia.
Qed.

(** Sign-extending a little-endian word sign-extends its top byte. *)
Lemma wraps_top n a b :
  0 <= n -> 0 <= a < 2 ^ n -> 0 <= b < 256 ->
  wraps (8 + n) (a + b * 2 ^ n) = a + wraps 8 b * 2 ^ n.
Proof.
  intros Hn Ha Hb. unfold wraps.
  replace (8 + n - 1) with (7 + n) by lia. change (8 - 1) with 7.
  rewrite !Z.pow_add_r by lia.
  replace (a + b * 2 ^ n + 2 ^ 7 * 2 ^ n) with (a + 2 ^ n * (b + 2 ^ 7)) by lia.
  rewrite (Z.mul_comm (2 ^ 8)), Z.rem_mul_r by (try apply Z.pow_nonzero; lia).
  rewrite (Z.mul_comm (2 ^ n) (b + 2 ^ 7)), Z.mod_add, Z.div_add by (apply Z.pow_nonzero; lia).
  rewrite (Z.mod_small a), (Z.div_small a), Z.add_0_l by lia. ring.
Qed.

Ltac byte_ranges :=
  repeat match goal with
    | |- context [byte_to_Z ?b] =>
      lazymatch goal with
      | H : 0 <= byte_to_Z b < 256 |- _ => fail
      | _ => pose proof (byte_to_Z_range b)
      end
    end.

(** [lor_add]: turn a tower of shifted ors into a sum, innermost first. *)
Ltac lor_add_at k :=
  try (rewrite (lor_shiftl_add k); [|lia|];
       [|match goal with |- _ <= _ < ?p =>
         let p' := eval vm_compute in p in change p with p' end; lia]).
Ltac lor_add :=
  repeat (rewrite wrapu_shiftl_small by lia);
  repeat (rewrite wraps_shiftl_small by lia);
  lor_add_at 8; lor_add_at 16; lor_add_at 24; lor_add_at 32; lor_add_at 40;
  lor_add_at 48; lor_add_at 56.

Lemma lor_signed_top n a b c :
  0 <= n -> 0 <= a < 2 ^ n -> 0 <= b < 256 -> c = a + b * 2 ^ n ->
  Z.lor a (wraps (8 + n) (Z.shiftl b n)) = wraps (8 + n) c.
Proof.
  intros Hn Ha Hb ->. rewrite wraps_shiftl, lor_shiftl_add by lia.
  by rewrite wraps_top.
Qed.

Lemma unmarshal_le {E} t bs :
  length bs = buffer_size t -> unmarshal (E:=E) t bs = Ok (of_bits t (le_Z bs)).
Proof.
  intros Hl.
  destruct t; cbn in Hl; repeat (destruct bs as [|? bs]; cbn in Hl; [lia|]);
    (destruct bs; [|cbn in Hl; lia]); cbn -[Z.lor wraps wrapu Z.shiftl Z.mul Z.add];
    byte_ranges; f_equal; lor_add; try lia.
  - f_equal. lia.
  - apply (lor_signed_top 8); lia.
  - apply (lor_signed_top 24); lia.
  - apply (lor_signed_top 56); lia.
  - by rewrite Z.mul_0_r, Z.add_0_r.
Qed.

Lemma of_bits_wrap t v :
  prim_ok t v = true -> of_bits t (v mod 2 ^ (8 * Z.of_nat (buffer_size t))) = v.
Proof.
  intros Hv.
  destruct t; cbn [of_bits prim_ok buffer_size] in *;
    lazymatch goal with
    | |- wraps ?w (_ mod 2 ^ ?k) = _ =>
      change (2 ^ k) with (2 ^ w); change (wraps w (wrapu w v) = v);
        rewrite wraps_wrapu by lia; by apply wraps_small
    | |- (if _ then _ else _) = _ => idtac
    | |- ?z mod 2 ^ ?k = _ => apply Z.mod_small; by apply in_u_spec in Hv
    end.
  apply in_u_spec in Hv. assert (v = 0 \/ v = 1) as [-> | ->] by lia; done.
Qed.

Lemma unmarshal_marshal {E} t v :
  prim_ok t v = true -> unmarshal (E:=E) t (marshal t v) = Ok v.
Proof.
  intros Hv. rewrite unmarshal_le by apply length_marshal.
  by rewrite marshal_le, le_Z_le_bytes, of_bits_wrap.
Qed.

Lemma of_bits_ok t z :
  in_u (8 * Z.of_nat (buffer_size t)) z = true -> prim_ok t (of_bits t z) = true.
Proof.
  intros Hz. destruct t; cbn [of_bits prim_ok buffer_size] in *; try done;
    try (apply wraps_range; lia).
  by case_match.
Qed.

Lemma unmarshal_ok {E} t bs v :
  length bs = buffer_size t -> unmarshal (E:=E) t bs = Ok v -> prim_ok t v = true.
Proof.
  intros Hl. rewrite unmarshal_le by done. intros [= <-]. apply of_bits_ok.
  apply in_u_spec. rewrite <- Hl. apply le_Z_range.
Qed.

(** And back: the bytes of an integer are those it was read from. *)
Lemma marshal_unmarshal t bs :
  t <> bool_ -> length bs = buffer_size t -> marshal t (of_bits t (le_Z bs)) = bs.
Proof.
  intros Ht Hl. rewrite marshal_le. rewrite <- (le_bytes_le_Z bs) at 2. rewrite Hl.
  assert (forall n z w, Z.of_nat n * 8 = w -> 0 < w ->
            le_bytes n (wraps w z) = le_bytes n z) as Hwrap.
  { intros n z w Hw Hpos. rewrite <- (le_bytes_le_Z (le_bytes n (wraps w z))).
    rewrite <- (le_bytes_le_Z (le_bytes n z)), !length_le_bytes, !le_Z_le_bytes.
    f_equal. rewrite (Z.mul_comm 8), Hw. by apply (wrapu_wraps w z). }
  destruct t; cbn [of_bits buffer_size] in *; try done; by apply Hwrap.
Qed.

#[export] Hint Rewrite length_marshal length_le_bytes : srv_len.
#[export] Hint Resolve unmarshal_marshal unmarshal_ok : srv.
