(* ===== verification/Encoder.v ===== *)
(** * The encoder ([binary/encoder.rs], [binary/uvarint.rs])

    [Encoder] is the growing output buffer; an operation takes the buffer and
    returns it extended.  [uvarint_bytes] is the reference encoding of an
    unsigned LEB128 number. *)

From S2P Require Import Prelude RustStd Errors Scalars.
Local Open Scope Z_scope.

(** ** put_uvarint *)

Definition MAX_VARINT_LEN64 : nat := 10.

(** [buf[i] = b]: out of range panics. *)
Definition vec_set {E A} (i : nat) (x : A) (v : list A) : outcome E (list A) :=
  if decide (i < length v)%nat then Ok (<[i:=x]> v) else Panic.

(** One iteration of the [while] of [put_uvarint], on [(buf, mx, i)]. *)
Definition put_uvarint_step {E} (s : bytes * Z * nat)
  : outcome E (bytes * Z * nat + bytes * nat) :=
  let '(buf, mx, i) := s in
  if 128 <=? mx then
    buf ← vec_set i (Z_to_byte (Z.lor (wrapu 8 mx) 128)) buf;
    Ok (inl (buf, Z.shiftr mx 7, (i + 1)%nat))
  else
    buf ← vec_set i (Z_to_byte mx) buf;
    Ok (inr (buf, (i + 1)%nat)).

(** [put_uvarint(buffer, x)]: the buffer written and the number of bytes. *)
Definition put_uvarint {E} (buffer : bytes) (x : Z) : outcome E (bytes * nat) :=
  loop put_uvarint_step loop_fuel (buffer, x, 0%nat).

(** ** Encoder *)

Definition Encoder := bytes.

Definition new : Encoder := [].
Definition get_buffer (e : Encoder) : bytes := e.

Section Encoder.
Context {Er : Type}.
Implicit Types e : Encoder.

Definition write_bytes e (b : bytes) : outcome Er Encoder := Ok (e ++ b).

Definition uvarint e (v : Z) : outcome Er Encoder :=
  '(scratch, ln) ← put_uvarint (replicate MAX_VARINT_LEN64 x00) v;
  s ← slice scratch 0 ln;
  write_bytes e s.

Definition byte_string e (source : bytes) : outcome Er Encoder :=
  e ← uvarint e (Z.of_nat (length source));
  write_bytes e source.

Definition string e (text : bytes) : outcome Er Encoder := byte_string e text.

Definition write (t : prim) e (value : Z) : outcome Er Encoder :=
  write_bytes e (marshal t value).
End Encoder.

(** ** The reference encoding *)

Fixpoint uvarint_bytes_fuel (fuel : nat) (v : Z) : bytes :=
  match fuel with
  | O => []
  | S fuel =>
    if v <? 128 then [Z_to_byte v]
    else Z_to_byte (128 + v mod 128) :: uvarint_bytes_fuel fuel (v / 128)
  end.

Definition uvarint_bytes (v : Z) : bytes := uvarint_bytes_fuel MAX_VARINT_LEN64 v.

(** [s] as [Encoder.string] writes it. *)
Definition string_bytes (s : bytes) : bytes :=
  uvarint_bytes (Z.of_nat (length s)) ++ s.

(** [v] takes at most [k] groups of seven bits. *)
Definition fits (k : nat) (v : Z) : Prop := 0 <= v < 2 ^ (7 * Z.of_nat k).

Lemma fits_u64 v : in_u 64 v = true -> fits MAX_VARINT_LEN64 v.
Proof. intros H%in_u_spec. unfold fits.
  change (2 ^ (7 * Z.of_nat MAX_VARINT_LEN64)) with (2 ^ 70). lia. Qed.

Lemma fits_S k v : fits (S k) v -> 128 <= v -> fits k (v / 128).
Proof.
  unfold fits. intros Hv Hge. split; [apply Z.div_pos; lia|].
  apply Z.div_lt_upper_bound; [lia|].
  replace (7 * Z.of_nat (S k)) with (7 + 7 * Z.of_nat k) in Hv by lia.
  rewrite Z.pow_add_r in Hv by lia. lia.
Qed.

Lemma length_uvarint_bytes_fuel k v :
  (length (uvarint_bytes_fuel k v) <= k)%nat.
Proof.
  revert v. induction k as [|k IH]; intros v; [done|]. cbn [uvarint_bytes_fuel].
  case_match; cbn; [lia|]. specialize (IH (v / 128)). lia.
Qed.

Lemma lor_128 v : Z.lor (wrapu 8 v) 128 mod 256 = 128 + v mod 128.
Proof.
  unfold wrapu. change 128 with (Z.shiftl 1 7) at 1.
  assert (v mod 2 ^ 8 = v mod 128 + Z.shiftl (v / 128 mod 2) 7) as ->.
  { rewrite Z.shiftl_mul_pow2 by lia. change (2 ^ 8) with (128 * 2).
    rewrite Z.rem_mul_r by lia. change (2 ^ 7) with 128. lia. }
  pose proof (Z.mod_pos_bound v 128 ltac:(lia)).
  assert (Z.lor (v mod 128 + Z.shiftl (v / 128 mod 2) 7) (Z.shiftl 1 7)
          = v mod 128 + Z.lor (v / 128 mod 2) 1 * 2 ^ 7) as ->.
  { rewrite (Z.shiftl_mul_pow2 (v / 128 mod 2)) by lia.
    rewrite <- (lor_shiftl_add 7 (v mod 128) (v / 128 mod 2)) by (cbn; lia).
    rewrite <- Z.lor_assoc, <- Z.shiftl_lor. apply lor_shiftl_add; cbn; lia. }
  pose proof (Z.mod_pos_bound (v / 128) 2 ltac:(lia)).
  assert (v / 128 mod 2 = 0 \/ v / 128 mod 2 = 1) as [-> | ->] by lia;
    match goal with |- context [Z.lor ?x 1] => change (Z.lor x 1) with 1 end;
    rewrite (Z.mod_small (_ + _)) by lia; lia.
Qed.

Lemma put_uvarint_nat {E} k buf v i :
  fits k v -> (0 < k)%nat -> (i + k <= length buf)%nat ->
  exists buf' n,
    loop_nat (E:=E) put_uvarint_step k (buf, v, i) = Ok (inr (buf', n)) /\
    (n <= length buf')%nat /\ take n buf' = take i buf ++ uvarint_bytes_fuel k v.
Proof.
  revert buf v i. induction k as [|k IH]; intros buf v i Hf Hk Hi; [lia|].
  cbn [loop_nat uvarint_bytes_fuel put_uvarint_step].
  assert (forall b, take (i + 1) (<[i:=b]> buf) = take i buf ++ [b]) as Htake.
  { intros b.
    replace (i + 1)%nat with (S i) by lia.
    rewrite (take_S_r _ _ b) by (apply list_lookup_insert_eq; lia).
    by rewrite take_insert_ge by lia. }
  unfold vec_set. rewrite !decide_True by lia. cbn [mbind outcome_bind].
  destruct (Z.leb_spec 128 v) as [Hge|Hlt].
  - destruct (Z.ltb_spec v 128); [lia|].
    pose proof (fits_S _ _ Hf Hge) as Hf'.
    assert (0 < k)%nat.
    { destruct k; [|lia]. unfold fits in Hf'. cbn in Hf'.
      pose proof (Z.div_str_pos v 128). lia. }
    rewrite Z.shiftr_div_pow2 by lia. change (2 ^ 7) with 128.
    destruct (IH (<[i:=Z_to_byte (Z.lor (wrapu 8 v) 128)]> buf) (v / 128) (i + 1)%nat)
      as (buf' & n & Hl & Hn & Ht); [done..|rewrite length_insert; lia|].
    exists buf', n. split; [done|]. split; [done|].
    rewrite Ht, Htake, <- app_assoc. cbn. do 2 f_equal.
    apply byte_to_Z_inj. rewrite !byte_to_Z_to_byte, lor_128.
    pose proof (Z.mod_pos_bound v 128 ltac:(lia)). by rewrite (Z.mod_small (128 + _)) by lia.
  - destruct (Z.ltb_spec v 128); [|lia].
    eexists _, _. split; [done|]. split; [rewrite length_insert; lia|]. apply Htake.
Qed.

Lemma uvarint_ok {E} e v :
  in_u 64 v = true -> uvarint (Er:=E) e v = Ok (e ++ uvarint_bytes v).
Proof.
  intros Hv%fits_u64. unfold uvarint, put_uvarint.
  destruct (put_uvarint_nat (E:=E) MAX_VARINT_LEN64 (replicate MAX_VARINT_LEN64 x00) v 0)
    as (buf & n & Hl & Hn & Ht); [done|unfold MAX_VARINT_LEN64; lia|by rewrite length_replicate|].
  erewrite loop_unfold; [|exact Hl|by apply loop_fuel_ge|done].
  cbn [mbind outcome_bind]. rewrite slice_ok by lia. cbn. unfold write_bytes.
  by rewrite Nat.sub_0_r, drop_0, Ht.
Qed.

Lemma byte_string_ok {E} e s :
  Z.of_nat (length s) < 2 ^ 64 -> byte_string (Er:=E) e s = Ok (e ++ string_bytes s).
Proof.
  intros Hs. unfold byte_string. rewrite uvarint_ok by (apply in_u_spec; lia).
  cbn. unfold write_bytes, string_bytes. by rewrite app_assoc.
Qed.

Lemma string_ok {E} e s :
  Z.of_nat (length s) < 2 ^ 64 -> string (Er:=E) e s = Ok (e ++ string_bytes s).
Proof. apply byte_string_ok. Qed.

Lemma write_ok {E} t e v : write (Er:=E) t e v = Ok (e ++ marshal t v).
Proof. done. Qed.

Lemma uvarint_bytes_small v : 0 <= v < 128 -> uvarint_bytes v = [Z_to_byte v].
Proof.
  intros Hv. unfold uvarint_bytes. cbn. by destruct (Z.ltb_spec v 128); [|lia].
Qed.

(** The test vector of [test_put_uvarint]. *)
Example put_uvarint_100500 :
  put_uvarint (E:=Error) (replicate 10 x00) 100500
  = Ok ([x94; x91; x06; x00; x00; x00; x00; x00; x00; x00], 3%nat).
Proof. reflexivity. Qed.
