(* ===== verification/ReadEx.v ===== *)
(** * Reading ([binary/read_ex.rs])

    [Read] is [io::Read]; [ReadEx] is implemented for every [io::Read], so its
    methods are generic functions here too.  Two readers exist in the code: the
    cursor over the bytes received so far (below), and the decompressing reader
    (file Compressed).  [ReadLaws] is what a reader owes its clients: how many
    bytes one call of [read] returns does not matter. *)

From S2P Require Import Prelude RustStd Errors Scalars Encoder.
Local Open Scope Z_scope.

(** ** Readers *)

(** [read n r]: [self.read(buf)] with [buf.len() = n]; the bytes written to the
    front of [buf] and the reader afterwards. *)
Class Read (R : Type) := read : nat -> R -> outcome io_error (bytes * R).

(** A computation that reads.  After an error the reader is not used again. *)
Definition rd (R A : Type) : Type := R -> Result (A * R).

#[global] Instance rd_ret {R} : MRet (rd R) := fun A a r => Ok (a, r).
#[global] Instance rd_bind {R} : MBind (rd R) := fun A B f m r =>
  '(a, r) ← m r; f a r.
Definition lift {R A} (m : Result A) : rd R A := fun r => a ← m; Ok (a, r).

(** [for _ in 0..n], collecting. *)
Fixpoint rd_repeat {R A} (n : nat) (m : rd R A) : rd R (list A) :=
  match n with
  | O => mret []
  | S n => x ← m; xs ← rd_repeat n m; mret (x :: xs)
  end.

Section ReadEx.
Context {P : Profile} {R : Type} `{Read R}.

(** The loop of [read_bytes]: [need] bytes are missing.  Every round gets at
    least one byte, so [need] rounds are enough ([read_bytes_unfold]). *)
Fixpoint read_bytes_fuel (fuel need : nat) (r : R) : Result (bytes * R) :=
  match need with
  | O => Ok ([], r)
  | S _ =>
    match fuel with
    | O => OutOfFuel
    | S fuel =>
      match read need r with
      | Ok ([], _) => Err would_block
      | Ok (bs, r') =>
        '(bs', r'') ← read_bytes_fuel fuel (need - length bs) r';
        Ok (bs ++ bs', r'')
      | Err e => Err (from_io e)
      | Panic => Panic
      | OutOfFuel => OutOfFuel
      end
    end
  end.

Definition read_bytes (n : nat) : rd R bytes := read_bytes_fuel n n.

Definition read_scalar (t : prim) : rd R Z :=
  buffer ← read_bytes (buffer_size t);
  lift (unmarshal t buffer).

(** One iteration of the [loop] of [read_uvarint], on [(x, s, i)]. *)
Definition read_uvarint_step (st : Z * Z * Z * R)
  : Result (Z * Z * Z * R + Z * R) :=
  let '(x, s, i, r) := st in
  '(b, r) ← read_scalar u8 r;
  if b <? 128 then
    if (i =? 9) && (1 <? b) then Err (Error.Driver DriverError.Overflow)
    else
      t ← shl_u 64 b s;
      Ok (inr (Z.lor x t, r))
  else
    t ← shl_u 64 (Z.land b 127) s;
    s ← arith_u 32 (s + 7);
    i ← arith_u 64 (i + 1);
    Ok (inl (Z.lor x t, s, i, r)).

Definition read_uvarint : rd R Z := fun r =>
  loop read_uvarint_step loop_fuel (0, 0, 0, r).

Definition read_string : rd R bytes :=
  str_len ← read_uvarint;
  _ ← lift (alloc 1 str_len);
  buffer ← read_bytes (Z.to_nat str_len);
  lift (string_from_utf8 buffer).

Definition MAX_STACK_BUFFER_LEN : Z := 1024.

Definition skip_string : rd R unit :=
  str_len ← read_uvarint;
  if str_len <=? MAX_STACK_BUFFER_LEN then
    _ ← read_bytes (Z.to_nat str_len); mret tt
  else
    _ ← lift (alloc 1 str_len);
    _ ← read_bytes (Z.to_nat str_len); mret tt.
End ReadEx.

(** ** The laws of a reader *)

(** [read] returns at most what was asked for, and splitting a request in two
    gives the same bytes and the same reader. *)
Class ReadLaws (R : Type) `{Read R} := {
  read_len n (r : R) bs r' : read n r = Ok (bs, r') -> (length bs <= n)%nat;
  read_split n m (r : R) bs r' :
    (0 < n)%nat -> read (n + m) r = Ok (bs, r') ->
    if decide (length bs <= n)%nat then read n r = Ok (bs, r')
    else exists r1, read n r = Ok (take n bs, r1) /\ read m r1 = Ok (drop n bs, r')
}.

(** The reader [r] delivers exactly [bs] next, and is then [r']. *)
Definition delivers `{Read R} (r : R) (bs : bytes) (r' : R) : Prop :=
  read_bytes (length bs) r = Ok (bs, r').

Section Laws.
Context {R : Type} `{ReadLaws R}.

Lemma read_bytes_fuel_enough f n (r : R) :
  (n <= f)%nat -> read_bytes_fuel f n r = read_bytes n r.
Proof.
  unfold read_bytes. revert n r.
  induction (lt_wf f) as [f _ IH]. intros n r Hn.
  destruct n as [|n]; [by destruct f|]. destruct f as [|f]; [lia|].
  cbn [read_bytes_fuel].
  destruct (read (S n) r) as [[bs r']| | |]; try done. destruct bs as [|b bs]; [done|].
  rewrite (IH f) by (cbn; lia).
  destruct (decide (n = f)) as [->|]; [rewrite <- (IH f) by (cbn; lia); done|].
  by rewrite (IH n) by (cbn; lia).
Qed.

(** The loop equation of [read_bytes], without fuel. *)
Lemma read_bytes_unfold n (r : R) :
  read_bytes n r =
  if decide (n = 0%nat) then Ok ([], r)
  else
    match read n r with
    | Ok ([], _) => Err would_block
    | Ok (bs, r') =>
      '(bs', r'') ← read_bytes (n - length bs) r'; Ok (bs ++ bs', r'')
    | Err e => Err (from_io e)
    | Panic => Panic
    | OutOfFuel => OutOfFuel
    end.
Proof.
  destruct n as [|n]; [done|]. unfold read_bytes at 1. cbn [read_bytes_fuel].
  rewrite decide_False by done.
  destruct (read (S n) r) as [[[|b bs] r']| | |]; try done.
  by rewrite read_bytes_fuel_enough by (cbn; lia).
Qed.

Lemma read_bytes_length n (r : R) bs r' :
  read_bytes n r = Ok (bs, r') -> length bs = n.
Proof.
  revert r bs. induction (lt_wf n) as [n _ IH]. intros r bs.
  rewrite read_bytes_unfold. case_decide as Hn; [by intros [= <- _]|].
  destruct (read n r) as [[[|b bs1] r1]| | |] eqn:Hr; try done.
  intros ([bs2 r2] & Hb & [= <- <-])%bind_Ok.
  apply read_len in Hr. apply IH in Hb; [|cbn in *; lia].
  cbn. rewrite length_app, Hb. cbn in *. lia.
Qed.

Lemma delivers_nil (r r' : R) : delivers r [] r' <-> r = r'.
Proof. unfold delivers. cbn. naive_solver. Qed.

Lemma delivers_bytes n (r : R) bs r' :
  read_bytes n r = Ok (bs, r') <-> delivers r bs r' /\ length bs = n.
Proof.
  unfold delivers. split; [|by intros [? <-]].
  intros Hr. by rewrite (read_bytes_length _ _ _ _ Hr).
Qed.

Lemma delivers_step (r r1 r' : R) bs bs' :
  bs <> [] -> read (length bs + length bs') r = Ok (bs, r1) -> delivers r1 bs' r' ->
  delivers r (bs ++ bs') r'.
Proof.
  intros Hne Hr Hd. unfold delivers in *.
  rewrite read_bytes_unfold, length_app, Hr.
  destruct bs as [|b bs]; [done|]. rewrite decide_False by (cbn; lia).
  rewrite Nat.add_comm, Nat.add_sub, Hd. done.
Qed.

Lemma delivers_step_inv (r r' : R) c :
  delivers r c r' -> c <> [] ->
  exists bs bs' r1, c = bs ++ bs' /\ bs <> [] /\
    read (length c) r = Ok (bs, r1) /\ delivers r1 bs' r'.
Proof.
  unfold delivers at 1. rewrite read_bytes_unfold. intros Hd Hc.
  rewrite decide_False in Hd by (destruct c; cbn; [done|lia]).
  destruct (read (length c) r) as [[[|b bs] r1]| | |] eqn:Hr; try done.
  apply bind_Ok in Hd as ([bs' r2] & Hb & [= <- <-]).
  apply delivers_bytes in Hb as [Hb _]. by exists (b :: bs), bs', r1.
Qed.

Lemma delivers_app (r : R) a b r' :
  delivers r (a ++ b) r' -> exists r1, delivers r a r1 /\ delivers r1 b r'.
Proof.
  remember (length a) as k eqn:Hk. revert r a Hk.
  induction (lt_wf k) as [k _ IH]. intros r a -> Hd.
  destruct (decide (a = [])) as [->|Ha]; [by exists r|].
  assert (0 < length a)%nat by (destruct a; cbn; [done|lia]).
  apply delivers_step_inv in Hd as (bs & bs' & r1 & Heq & Hne & Hr & Hd);
    [|by destruct a].
  rewrite length_app in Hr.
  pose proof (read_split _ _ _ _ _ ltac:(done) Hr) as Hs.
  assert (0 < length bs)%nat by (destruct bs; cbn; [done|lia]).
  apply app_eq_inv in Heq as [(l & -> & ->)|(l & -> & ->)].
  - rewrite length_app in *. rewrite decide_True in Hs by lia.
    destruct (IH (length l) ltac:(lia) r1 l eq_refl Hd) as (r3 & Hd1 & Hd2).
    exists r3. split; [|done]. by apply (delivers_step _ r1).
  - rewrite length_app in *. case_decide as Hl.
    + destruct l; [|cbn in Hl; lia]. rewrite app_nil_r in *. cbn.
      exists r1. split; [|done]. rewrite <- (app_nil_r a).
      apply (delivers_step _ r1); [done| |by apply delivers_nil]. by rewrite Nat.add_0_r.
    + destruct Hs as (r3 & Hd1 & Hd2). rewrite take_app_length in Hd1.
      rewrite drop_app_length, length_app in Hd2. exists r3. split.
      * rewrite <- (app_nil_r a). apply (delivers_step _ r3); [done| |by apply delivers_nil].
        by rewrite Nat.add_0_r.
      * apply (delivers_step _ r1); [|done..]. intros ->. cbn in Hl. lia.
Qed.
End Laws.

(** ** Parsing what was encoded

    [parses m bs a]: whatever lawful reader delivers [bs], [m] returns [a] and
    consumes exactly [bs].  Round trips are stated with it, and composed. *)

Definition parses `{Read R} {A} (m : rd R A) (bs : bytes) (a : A) : Prop :=
  forall r r', delivers r bs r' -> m r = Ok (a, r').

Section Parses.
Context {P : Profile} {R : Type} `{ReadLaws R}.

Lemma parses_ret {A} (a : A) : parses (R:=R) (mret a) [] a.
Proof. intros r r' ->%delivers_nil. done. Qed.

Lemma parses_lift {A} (m : Result A) a : m = Ok a -> parses (R:=R) (lift m) [] a.
Proof. intros -> r r' ->%delivers_nil. done. Qed.

Lemma parses_bind {A B} (m : rd R A) (k : A -> rd R B) b1 b2 bs a b :
  bs = b1 ++ b2 -> parses m b1 a -> parses (k a) b2 b -> parses (m ≫= k) bs b.
Proof.
  intros -> Hm Hk r r' Hd. apply delivers_app in Hd as (r1 & H1 & H2).
  unfold mbind, rd_bind. rewrite (Hm _ _ H1). cbn. by apply Hk.
Qed.

Lemma parses_bind_lift {A B} (m : Result A) (k : A -> rd R B) bs a b :
  m = Ok a -> parses (k a) bs b -> parses (lift m ≫= k) bs b.
Proof.
  intros Hm Hk. eapply parses_bind; [|by apply parses_lift|done]. done.
Qed.

Lemma parses_read_bytes bs n : length bs = n -> parses (R:=R) (read_bytes n) bs bs.
Proof. intros <- r r' Hd. exact Hd. Qed.

Lemma parses_scalar t v :
  prim_ok t v = true -> parses (R:=R) (read_scalar t) (marshal t v) v.
Proof.
  intros Hv. unfold read_scalar.
  eapply parses_bind; [symmetry; apply app_nil_r|apply parses_read_bytes, length_marshal|].
  apply parses_lift. by apply unmarshal_marshal.
Qed.

Lemma parses_repeat {A} (m : rd R A) (enc : A -> bytes) xs :
  Forall (fun x => parses m (enc x) x) xs ->
  parses (rd_repeat (length xs) m) (mjoin (enc <$> xs)) xs.
Proof.
  induction 1 as [|x xs Hx _ IH]; cbn; [apply parses_ret|].
  eapply parses_bind; [done|exact Hx|].
  eapply parses_bind; [symmetry; apply app_nil_r|exact IH|]. apply parses_ret.
Qed.

(** The bits already read, and the group that is appended to them. *)
Lemma shl_u_group x b s :
  0 <= s < 64 -> 0 <= x < 2 ^ s -> 0 <= b -> b * 2 ^ s + x < 2 ^ 64 ->
  exists t, shl_u (E:=Error) 64 b s = Ok t /\ Z.lor x t = x + b * 2 ^ s.
Proof.
  intros Hs Hx Hb Hbs. unfold shl_u. destruct (Z.ltb_spec s 64); [|lia].
  eexists. split; [done|]. rewrite wrapu_small; [by apply lor_shiftl_add; lia|].
  apply in_u_spec. rewrite Z.shiftl_mul_pow2 by lia.
  pose proof (Z.pow_pos_nonneg 2 s). nia.
Qed.

Lemma land_127 v : Z.land (128 + v mod 128) 127 = v mod 128.
Proof.
  change 127 with (Z.ones 7).
  rewrite Z.land_ones by lia. change (2 ^ 7) with 128.
  rewrite <- Z.add_mod_idemp_l by lia. change (128 mod 128) with 0.
  by rewrite Z.add_0_l, Z.mod_mod by lia.
Qed.

Lemma read_u8 (r r' : R) z : 0 <= z < 256 -> delivers r [Z_to_byte z] r' ->
  read_scalar u8 r = Ok (z, r').
Proof.
  intros Hz Hd. apply (parses_scalar u8 z); [by apply in_u_spec|done].
Qed.

Lemma read_uvarint_nat k x v i (r r' : R) :
  (0 < k)%nat -> fits k v -> 0 <= i <= 9 -> 0 <= x < 2 ^ (7 * i) ->
  v * 2 ^ (7 * i) + x < 2 ^ 64 ->
  delivers r (uvarint_bytes_fuel k v) r' ->
  loop_nat read_uvarint_step k (x, 7 * i, i, r) = Ok (inr (x + v * 2 ^ (7 * i), r')).
Proof.
  revert x v i r. induction k as [|k IH]; intros x v i r Hk Hf Hi Hx Hv Hd; [lia|].
  cbn [loop_nat uvarint_bytes_fuel] in *. unfold read_uvarint_step at 1.
  pose proof (Z.mod_pos_bound v 128 ltac:(lia)) as Hm.
  assert (0 <= v) by (unfold fits in Hf; lia).
  pose proof (Z.pow_pos_nonneg 2 (7 * i) ltac:(lia) ltac:(lia)) as Hp.
  destruct (Z.ltb_spec v 128) as [Hlt|Hge].
  - rewrite (read_u8 r r' v) by (done || lia). cbn [mbind outcome_bind].
    destruct (Z.ltb_spec v 128); [|lia].
    replace ((i =? 9) && (1 <? v)) with false.
    + destruct (shl_u_group x v (7 * i)) as (t & -> & Ht); [lia..|]. cbn. by rewrite Ht.
    + symmetry. apply andb_false_iff. destruct (Z.eqb_spec i 9) as [->|]; [right|by left].
      change (2 ^ (7 * 9)) with (2 ^ 63) in *. lia.
  - pose proof (fits_S _ _ Hf Hge) as Hf'.
    change (?b :: ?l) with ([b] ++ l) in Hd.
    apply delivers_app in Hd as (r1 & Hb & Hd).
    rewrite (read_u8 r r1 (128 + v mod 128)) by (done || lia). cbn [mbind outcome_bind].
    destruct (Z.ltb_spec (128 + v mod 128) 128); [lia|].
    rewrite land_127.
    assert (v * 2 ^ (7 * i) = v mod 128 * 2 ^ (7 * i) + v / 128 * 2 ^ (7 * (i + 1))) as Hsplit.
    { replace (7 * (i + 1)) with (7 + 7 * i) by lia. rewrite Z.pow_add_r by lia.
      change (2 ^ 7) with 128. rewrite (Z.div_mod v 128) at 1 by lia. ring. }
    assert (0 < v / 128) by (apply Z.div_str_pos; lia).
    pose proof (Z.pow_pos_nonneg 2 (7 * (i + 1)) ltac:(lia) ltac:(lia)) as Hp'.
    assert (i < 9).
    { destruct (Z.lt_ge_cases i 9); [done|]. assert (i = 9) as -> by lia.
      change (2 ^ (7 * (9 + 1))) with (2 ^ 70) in *. nia. }
    destruct (shl_u_group x (v mod 128) (7 * i)) as (t & -> & Ht); [nia..|]. cbn [mbind outcome_bind].
    rewrite !arith_u_ok by (apply in_u_spec; lia). cbn [mbind outcome_bind].
    rewrite Ht. replace (7 * i + 7) with (7 * (i + 1)) by lia.
    assert (2 ^ (7 * (i + 1)) = 128 * 2 ^ (7 * i)) as Hpow.
    { replace (7 * (i + 1)) with (7 + 7 * i) by lia. by rewrite Z.pow_add_r by lia. }
    rewrite (IH _ (v / 128) (i + 1)); try done; try lia.
    + do 3 f_equal. lia.
    + destruct k; [|lia]. unfold fits in Hf'. cbn in Hf'. lia.
    + nia.
Qed.

Lemma parses_uvarint v :
  in_u 64 v = true -> parses (R:=R) read_uvarint (uvarint_bytes v) v.
Proof.
  intros Hv r r' Hd. unfold read_uvarint.
  pose proof (proj1 (in_u_spec _ _) Hv).
  pose proof (read_uvarint_nat MAX_VARINT_LEN64 0 v 0 r r') as Hl.
  erewrite loop_unfold; [|apply Hl|by apply loop_fuel_ge|done];
    try done; try (by apply fits_u64); try (unfold MAX_VARINT_LEN64; lia).
  do 2 f_equal. lia.
Qed.
Lemma parses_string s :
  utf8_ok s = true -> Z.of_nat (length s) <= isize_max ->
  parses (R:=R) read_string (string_bytes s) s.
Proof.
  intros Hs Hl. unfold read_string, string_bytes.
  eapply parses_bind; [done|apply parses_uvarint, in_u_spec; unfold isize_max in Hl; lia|].
  eapply parses_bind_lift; [apply alloc_ok; lia|].
  eapply parses_bind; [symmetry; apply app_nil_r|apply parses_read_bytes; lia|].
  by apply parses_lift, string_from_utf8_ok.
Qed.

Lemma parses_skip_string s :
  Z.of_nat (length s) <= isize_max -> parses (R:=R) skip_string (string_bytes s) tt.
Proof.
  intros Hl. unfold skip_string, string_bytes.
  eapply parses_bind; [done|apply parses_uvarint, in_u_spec; unfold isize_max in Hl; lia|].
  case_match.
  - eapply parses_bind; [symmetry; apply app_nil_r|apply parses_read_bytes; lia|].
    apply parses_ret.
  - eapply parses_bind_lift; [apply alloc_ok; lia|].
    eapply parses_bind; [symmetry; apply app_nil_r|apply parses_read_bytes; lia|].
    apply parses_ret.
Qed.
End Parses.

#[export] Hint Resolve parses_ret parses_lift parses_scalar parses_uvarint parses_string
  parses_skip_string : srv.

(** ** The cursor

    [io::Cursor<&[u8]>], by the bytes after its position: [read] copies what is
    there, up to the size asked for; at the end it returns 0 bytes. *)

#[export] Instance cursor_read : Read bytes := fun n r => Ok (take n r, drop n r).

#[export] Instance cursor_laws : ReadLaws bytes.
Proof.
  split.
  - intros n r bs r' [= <- <-]. rewrite length_take. lia.
  - intros n m r bs r' Hn [= <- <-]. rewrite length_take. unfold read, cursor_read.
    case_decide as Hl.
    + destruct m as [|m]; [by rewrite Nat.add_0_r|].
      by rewrite !take_ge, !drop_ge by lia.
    + exists (drop n r). rewrite take_take, Nat.min_l, drop_drop by lia.
      split; [done|]. by rewrite take_drop_commute.
Qed.

Lemma cursor_read_bytes n (r : bytes) :
  read_bytes n r = if decide (n <= length r)%nat then Ok (take n r, drop n r)
                   else Err would_block.
Proof.
  rewrite read_bytes_unfold. case_decide as Hn.
  { subst. cbn. by rewrite decide_True by lia. }
  unfold read, cursor_read. destruct (take n r) as [|b bs] eqn:Ht.
  - apply (f_equal length) in Ht. rewrite length_take in Ht. cbn in Ht.
    rewrite decide_False; [done|lia].
  - assert (length (b :: bs) = n `min` length r)%nat as Hl.
    { rewrite <- Ht. apply length_take. }
    rewrite Hl. case_decide.
    + rewrite Nat.min_l, Nat.sub_diag by lia. cbn. by rewrite app_nil_r.
    + rewrite Nat.min_r by lia. rewrite read_bytes_unfold, decide_False by lia.
      unfold read, cursor_read. by rewrite drop_ge, take_nil by lia.
Qed.

Lemma cursor_delivers (r bs r' : bytes) : delivers r bs r' <-> r = bs ++ r'.
Proof.
  unfold delivers. rewrite cursor_read_bytes. case_decide as Hl.
  - split.
    + intros [= Ht <-]. rewrite <- Ht at 1. symmetry. apply take_drop.
    + intros ->. by rewrite take_app_length, drop_app_length.
  - split; [done|]. intros ->. rewrite length_app in Hl. lia.
Qed.

(** Whatever [m] parses, it parses at the front of a buffer. *)
Lemma parses_cursor {A} (m : rd bytes A) bs a rest :
  parses m bs a -> m (bs ++ rest) = Ok (a, rest).
Proof. intros Hm. apply Hm. by apply cursor_delivers. Qed.

#[global] Arguments read_bytes : simpl never.
#[global] Arguments read_scalar : simpl never.
#[global] Arguments read_uvarint : simpl never.
#[global] Arguments read_string : simpl never.
#[global] Arguments skip_string : simpl never.
