(* ===== verification/Varint.v ===== *)
(** * How far [read_uvarint] reads

    Numbers of any length, as groups of seven bits: [read_uvarint] group by group,
    to the ninth, the tenth and the eleventh byte. *)

From S2P Require Import Prelude RustStd Errors Scalars Encoder ReadEx.
Local Open Scope Z_scope.

(** The bytes of a number: a group of seven bits in each, the lowest first, with
    the top bit set in all but the last. *)
Definition groups_bytes (cs : list Z) (b : Z) : bytes :=
  ((fun c => Z_to_byte (128 + c)) <$> cs) ++ [Z_to_byte b].

Definition groups_value (cs : list Z) (b : Z) : Z := foldr (fun c v => c + 128 * v) b cs.

Definition group (c : Z) : Prop := 0 <= c < 128.

Lemma groups_value_bound cs b :
  Forall group cs -> 0 <= b -> 0 <= groups_value cs b < (b + 1) * 2 ^ (7 * Z.of_nat (length cs)).
Proof.
  intros Hc Hb. induction Hc as [|c cs Hc _ IH]; [cbn; lia|].
  cbn [groups_value foldr length]. fold (groups_value cs b). unfold group in Hc.
  replace (7 * Z.of_nat (S (length cs))) with (7 + 7 * Z.of_nat (length cs)) by lia.
  rewrite Z.pow_add_r by lia. change (2 ^ 7) with 128. lia.
Qed.

Lemma groups_value_last cs b :
  groups_value cs b = groups_value cs 0 + b * 2 ^ (7 * Z.of_nat (length cs)).
Proof.
  induction cs as [|c cs IH]; [cbn; lia|]. cbn [groups_value foldr length].
  fold (groups_value cs b). fold (groups_value cs 0). rewrite IH.
  replace (7 * Z.of_nat (S (length cs))) with (7 + 7 * Z.of_nat (length cs)) by lia.
  rewrite Z.pow_add_r by lia. change (2 ^ 7) with 128. lia.
Qed.

Section Uvarint.
Context {P : Profile}.

Lemma read_group z r : 0 <= z < 256 -> read_scalar (R:=bytes) u8 (Z_to_byte z :: r) = Ok (z, r).
Proof.
  intros Hz. apply (parses_cursor (read_scalar u8) [Z_to_byte z]).
  apply (parses_scalar u8 z). by apply in_u_spec.
Qed.

Lemma land_group c : group c -> Z.land (128 + c) 127 = c.
Proof. intros Hc. rewrite <- (Z.mod_small c 128) at 1 by done. rewrite land_127. by apply Z.mod_small. Qed.

(** A group that more follow. *)
Lemma read_more x s i c (r : bytes) t :
  group c -> 0 <= s -> s + 7 < 2 ^ 32 -> 0 <= i < 2 ^ 32 -> shl_u (E:=Error) 64 c s = Ok t ->
  read_uvarint_step (x, s, i, Z_to_byte (128 + c) :: r) = Ok (inl (Z.lor x t, s + 7, i + 1, r)).
Proof.
  intros Hc Hs Hs' Hi Ht. unfold group in Hc. unfold read_uvarint_step.
  rewrite read_group by lia. cbn [mbind outcome_bind]. destruct (Z.ltb_spec (128 + c) 128); [lia|].
  rewrite land_group, Ht by done. cbn [mbind outcome_bind].
  rewrite !arith_u_ok by (apply in_u_spec; lia). done.
Qed.

(** Nine groups fit. *)
Lemma read_groups cs x i k r :
  Forall group cs -> 0 <= i -> i + Z.of_nat (length cs) <= 9 -> 0 <= x < 2 ^ (7 * i) ->
  loop_nat read_uvarint_step (length cs + k)
    (x, 7 * i, i, ((fun c => Z_to_byte (128 + c)) <$> cs) ++ r) =
  loop_nat read_uvarint_step k
    (x + groups_value cs 0 * 2 ^ (7 * i), 7 * (i + Z.of_nat (length cs)), i + Z.of_nat (length cs), r).
Proof.
  intros Hc. revert x i. induction Hc as [|c cs Hc _ IH]; intros x i Hi Hl Hx.
  { cbn. by rewrite !Z.add_0_r. }
  cbn [length] in *. change (S (length cs) + k)%nat with (S (length cs + k)).
  rewrite fmap_cons. cbn [app loop_nat]. unfold group in Hc.
  assert (2 ^ (7 * (i + 1)) = 128 * 2 ^ (7 * i)) as Hpow.
  { replace (7 * (i + 1)) with (7 + 7 * i) by lia. by rewrite Z.pow_add_r by lia. }
  pose proof (Z.pow_le_mono_r 2 (7 * (i + 1)) 63 ltac:(lia) ltac:(lia)) as Hm.
  destruct (shl_u_group x c (7 * i)) as (t & Ht & Hlor); [lia..|nia|].
  rewrite (read_more x (7 * i) i c _ t), Hlor by (done || lia).
  replace (7 * i + 7) with (7 * (i + 1)) by lia. rewrite IH by (lia || nia).
  cbn [groups_value foldr]. fold (groups_value cs 0). rewrite Hpow.
  replace (i + 1 + Z.of_nat (length cs)) with (i + Z.of_nat (S (length cs))) by lia.
  do 4 f_equal. lia.
Qed.

(** The last group of at most ten. *)
Lemma read_last x i b r :
  0 <= i <= 9 -> 0 <= x < 2 ^ (7 * i) -> group b ->
  read_uvarint_step (x, 7 * i, i, Z_to_byte b :: r) =
  if (i =? 9) && (1 <? b) then Err (Error.Driver DriverError.Overflow)
  else Ok (inr (x + b * 2 ^ (7 * i), r)).
Proof.
  intros Hi Hx Hb. unfold group in Hb. unfold read_uvarint_step.
  rewrite read_group by lia. cbn [mbind outcome_bind]. destruct (Z.ltb_spec b 128); [|lia].
  destruct ((i =? 9) && (1 <? b)) eqn:Ho; [done|].
  destruct (shl_u_group x b (7 * i)) as (t & -> & Ht); [lia..| |cbn; by rewrite Ht].
  destruct (Z.eqb_spec i 9) as [->|].
  - destruct (Z.ltb_spec 1 b); [done|]. change (7 * 9) with 63 in *. lia.
  - pose proof (Z.pow_le_mono_r 2 (7 * (i + 1)) 63 ltac:(lia) ltac:(lia)) as Hm.
    replace (7 * (i + 1)) with (7 + 7 * i) in Hm by lia. rewrite Z.pow_add_r in Hm by lia.
    change (2 ^ 7) with 128 in Hm. nia.
Qed.

(** The tenth group loses all but its lowest bit. *)
Lemma shl_tenth x c :
  0 <= x < 2 ^ 63 -> group c ->
  exists t, shl_u (E:=Error) 64 c 63 = Ok t /\ Z.lor x t = (x + c * 2 ^ 63) mod 2 ^ 64.
Proof.
  intros Hx Hc. unfold group in Hc. destruct (shl_u_group x (c mod 2) 63) as (t & Ht & Hl).
  - lia.
  - lia.
  - pose proof (Z.mod_pos_bound c 2). lia.
  - pose proof (Z.mod_pos_bound c 2). lia.
  - exists t. split.
    + rewrite <- Ht. unfold shl_u. cbn [Z.ltb Z.compare Pos.compare Pos.compare_cont].
      unfold wrapu. rewrite !Z.shiftl_mul_pow2 by lia. f_equal.
      rewrite (Z.div_mod c 2) at 1 by lia.
      replace ((2 * (c / 2) + c mod 2) * 2 ^ 63) with (c mod 2 * 2 ^ 63 + c / 2 * 2 ^ 64) by lia.
      apply Z.mod_add. lia.
    + rewrite Hl. rewrite (Z.div_mod c 2) at 2 by lia.
      replace (x + (2 * (c / 2) + c mod 2) * 2 ^ 63) with (x + c mod 2 * 2 ^ 63 + c / 2 * 2 ^ 64) by lia.
      rewrite Z.mod_add by lia. symmetry. apply Z.mod_small.
      pose proof (Z.mod_pos_bound c 2). lia.
Qed.

(** Where ten groups that more follow lead to. *)
Lemma read_ten cs k r :
  Forall group cs -> length cs = 10%nat ->
  loop_nat read_uvarint_step (10 + k)
    (0, 0, 0, ((fun c => Z_to_byte (128 + c)) <$> cs) ++ r) =
  loop_nat read_uvarint_step k (groups_value cs 0 mod 2 ^ 64, 70, 10, r).
Proof.
  intros Hc Hl. destruct (exists_last (l:=cs)) as (cs' & c & ->); [by intros ->|].
  apply Forall_app in Hc as [Hc [Hc9 _]%Forall_cons]. rewrite length_app in Hl. cbn in Hl.
  assert (length cs' = 9%nat) as Hl' by lia.
  rewrite fmap_app, <- app_assoc. replace (10 + k)%nat with (length cs' + S k)%nat by lia.
  pose proof (read_groups cs' 0 0 (S k)) as Hg. cbn [Z.mul Z.add] in Hg. rewrite Hg by (done || lia).
  rewrite Z.pow_0_r, Z.mul_1_r, Hl'. clear Hg.
  pose proof (groups_value_bound cs' 0 Hc ltac:(lia)) as Hb. rewrite Hl' in Hb.
  change (7 * Z.of_nat 9) with 63 in *.
  destruct (shl_tenth (groups_value cs' 0) c) as (t & Ht & Hlor); [lia|done|].
  cbn [loop_nat app fmap list_fmap].
  change (7 * (0 + Z.of_nat 9)) with 63. change (0 + Z.of_nat 9) with 9. rewrite Z.add_0_l.
  rewrite (read_more _ 63 9 c _ t), Hlor by (done || lia).
  change (63 + 7) with 70. change (9 + 1) with 10. do 4 f_equal.
  unfold groups_value at 2. rewrite foldr_app. cbn [foldr]. fold (groups_value cs' (c + 128 * 0)).
  rewrite (groups_value_last cs' (c + 128 * 0)), Hl'.
  change (7 * Z.of_nat 9) with 63. do 2 f_equal. lia.
Qed.

(** The eleventh group: its shift by 70 bits is one by six, or a panic. *)
Lemma shl_eleventh c :
  group c -> shl_u (E:=Error) 64 c 70 = if overflow_checks then Panic else Ok (64 * c).
Proof.
  intros Hc. unfold group in Hc. unfold shl_u. change (70 <? 64) with false. cbn iota.
  destruct overflow_checks; [done|]. change (70 mod 64) with 6.
  rewrite wrapu_small; rewrite Z.shiftl_mul_pow2 by lia; [f_equal; lia|]. apply in_u_spec. lia.
Qed.

Lemma read_eleventh x b r :
  group b ->
  read_uvarint_step (x, 70, 10, Z_to_byte b :: r) =
  if overflow_checks then Panic else Ok (inr (Z.lor x (64 * b), r)).
Proof.
  intros Hb. pose proof (shl_eleventh b Hb) as Hs. unfold group in Hb.
  unfold read_uvarint_step. rewrite read_group by lia. cbn [mbind outcome_bind].
  destruct (Z.ltb_spec b 128); [|lia]. change (10 =? 9) with false. cbn [andb]. rewrite Hs.
  by destruct overflow_checks.
Qed.

Lemma read_eleventh_more x c r :
  group c -> overflow_checks = true ->
  read_uvarint_step (x, 70, 10, Z_to_byte (128 + c) :: r) = Panic.
Proof.
  intros Hc Ho. pose proof (shl_eleventh c Hc) as Hs. rewrite Ho in Hs. unfold group in Hc.
  unfold read_uvarint_step. rewrite read_group by lia. cbn [mbind outcome_bind].
  destruct (Z.ltb_spec (128 + c) 128); [lia|]. rewrite land_group, Hs by done. done.
Qed.

(** From the loop to the last byte. *)
Lemma read_short cs b r :
  Forall group cs -> group b -> (length cs <= 9)%nat ->
  read_uvarint (R:=bytes) (((fun c => Z_to_byte (128 + c)) <$> cs) ++ Z_to_byte b :: r) =
  if (Z.of_nat (length cs) =? 9) && (1 <? b) then Err (Error.Driver DriverError.Overflow)
  else Ok (groups_value cs 0 + b * 2 ^ (7 * Z.of_nat (length cs)), r).
Proof.
  intros Hc Hb Hl. pose proof (groups_value_bound cs 0 Hc ltac:(lia)) as Hv.
  pose proof (read_groups cs 0 0 1 (Z_to_byte b :: r)) as Hg. rewrite Z.mul_0_r in Hg.
  specialize (Hg Hc ltac:(lia) ltac:(lia) ltac:(lia)).
  rewrite !Z.add_0_l, Z.pow_0_r, Z.mul_1_r in Hg. cbn [loop_nat] in Hg.
  rewrite read_last in Hg by (done || lia).
  unfold read_uvarint. rewrite (loop_unfold _ _ _ _ _ Hg).
  - by destruct (_ && _).
  - apply loop_fuel_ge. lia.
  - intros s. by destruct (_ && _).
Qed.

(** From the loop to the eleventh byte. *)
Lemma read_long cs out r :
  Forall group cs -> length cs = 10%nat ->
  read_uvarint_step (groups_value cs 0 mod 2 ^ 64, 70, 10, r) = out -> (forall s, out <> Ok (inl s)) ->
  read_uvarint (R:=bytes) (((fun c => Z_to_byte (128 + c)) <$> cs) ++ r) =
  match out with
  | Ok (inl _) => OutOfFuel | Ok (inr a) => Ok a | Err e => Err e | Panic => Panic | OutOfFuel => OutOfFuel
  end.
Proof.
  intros Hc Hl Hs Hn. unfold read_uvarint. apply (loop_unfold _ _ _ (10 + 1)); [|apply loop_fuel_ge; lia|done].
  rewrite read_ten by done. cbn [loop_nat]. rewrite Hs. by destruct out as [[]| | |].
Qed.
End Uvarint.

