(* ===== verification/Stable.v ===== *)
(** * Readers over a growing input

    The connection parses a packet out of the bytes received so far, and parses
    again from the start when more have arrived.  [stable m] says what makes
    this sound: more bytes behind the reader change nothing of a run of [m] that
    did not end for lack of bytes.  The combinators of file ReadEx keep it. *)

From S2P Require Import Prelude RustStd Errors Scalars Encoder ReadEx.
Local Open Scope Z_scope.

(** [m'] does as [m] did, up to [g], unless [m] lacked bytes. *)
Definition stable_out {A} (g : A -> A) (m m' : Result A) : Prop :=
  match m with
  | Ok a => m' = Ok (g a)
  | Err e => is_would_block e = true \/ m' = Err e
  | Panic => m' = Panic
  | OutOfFuel => True
  end.

Lemma stable_out_bind {A B} (g : A -> A) (h : B -> B) m m' (f f' : A -> Result B) :
  stable_out g m m' -> (forall a, stable_out h (f a) (f' (g a))) ->
  stable_out h (m ≫= f) (m' ≫= f').
Proof.
  intros Hm Hf. destruct m as [a|e| |]; cbn in *.
  - subst. apply Hf.
  - destruct Hm as [Hw| ->]; [by left|by right].
  - by subst.
  - done.
Qed.

Lemma stable_out_id {A} (m : Result A) : stable_out id m m.
Proof. destruct m; cbn; auto. Qed.

(** A reader to which [x] can be appended at the far end of the input. *)
Class Grow (R : Type) := grow : R -> bytes -> R.

Section Stable.
Context {R : Type} `{Grow R}.

Definition grow_result {A} (x : bytes) (p : A * R) : A * R := (p.1, grow p.2 x).

Definition stable {A} (m : rd R A) : Prop :=
  forall r x, stable_out (grow_result x) (m r) (m (grow r x)).

Lemma stable_ret {A} (a : A) : stable (mret a : rd R A).
Proof. by intros r x. Qed.

Lemma stable_lift {A} (m : Result A) : stable (lift m : rd R A).
Proof. intros r x. unfold lift. destruct m; cbn; auto. Qed.

Lemma stable_bind {A B} (m : rd R A) (f : A -> rd R B) :
  stable m -> (forall a, stable (f a)) -> stable (m ≫= f).
Proof.
  intros Hm Hf r x. apply stable_out_bind with (g := grow_result x); [apply Hm|].
  intros [a r']. apply Hf.
Qed.

Lemma stable_map {A B} (m : rd R A) (f : A -> B) :
  stable m -> stable ((a ← m; mret (f a)) : rd R B).
Proof. intros Hm. apply stable_bind; [done|]. intros a. apply stable_ret. Qed.

Lemma stable_repeat {A} n (m : rd R A) : stable m -> stable (rd_repeat n m).
Proof.
  intros Hm. induction n as [|n IH]; cbn; [apply stable_ret|].
  apply stable_bind; [done|]. intros a. by apply stable_map.
Qed.

(** A loop whose state carries the reader. *)
Section Loop.
Context {S A : Type} (gs : bytes -> S -> S) (step : S -> Result (S + A * R)).

Definition grow_sum (x : bytes) (v : S + A * R) : S + A * R :=
  match v with inl s => inl (gs x s) | inr p => inr (grow_result x p) end.

Lemma stable_loop_nat n x s :
  (forall s, stable_out (grow_sum x) (step s) (step (gs x s))) ->
  stable_out (grow_sum x) (loop_nat step n s) (loop_nat step n (gs x s)).
Proof.
  intros Hs. revert s. induction n as [|n IH]; intros s; [done|]. cbn.
  specialize (Hs s). destruct (step s) as [[s'|a]| | |]; cbn in Hs.
  - rewrite Hs. apply IH.
  - by rewrite Hs.
  - destruct Hs as [Hw| ->]; [by left|by right].
  - by rewrite Hs.
  - done.
Qed.

Lemma stable_loop p x s :
  (forall s, stable_out (grow_sum x) (step s) (step (gs x s))) ->
  stable_out (grow_result x) (loop step p s) (loop step p (gs x s)).
Proof.
  intros Hs. unfold loop. rewrite !loop_pos_nat.
  pose proof (stable_loop_nat (Pos.to_nat p) x s Hs) as Hl.
  destruct (loop_nat step _ s) as [[s'|a]| | |]; cbn in Hl.
  1, 2, 4: by rewrite ?Hl.
  - destruct Hl as [Hw| ->]; [by left|by right].
  - done.
Qed.
End Loop.
End Stable.

(** What a reader over a growing input promises. *)
Class GrowLaws (R : Type) `{Read R, Grow R} :=
  stable_read_bytes n : stable (R:=R) (read_bytes n).

Section ReadEx.
Context {P : Profile} {R : Type} `{GrowLaws R}.

Lemma stable_scalar t : stable (R:=R) (read_scalar t).
Proof.
  apply stable_bind; [apply stable_read_bytes|]. intros bs. apply stable_lift.
Qed.

Lemma stable_uvarint : stable (R:=R) read_uvarint.
Proof.
  intros r x. unfold read_uvarint.
  apply (stable_loop (fun x '(v, s, i, r) => (v, s, i, grow r x)) read_uvarint_step
           loop_fuel x (0, 0, 0, r)).
  intros [[[v s] i] r1]. unfold read_uvarint_step.
  apply (stable_out_bind (grow_result x)); [apply stable_scalar|]. intros [b r2].
  unfold grow_result; cbn [fst snd].
  destruct (b <? 128).
  - destruct ((i =? 9) && (1 <? b)); [by right|].
    eapply (stable_out_bind id); [apply stable_out_id|]. done.
  - do 3 (eapply (stable_out_bind id); [apply stable_out_id|]; intros ?; unfold id). done.
Qed.

Lemma stable_string : stable (R:=R) read_string.
Proof.
  apply stable_bind; [apply stable_uvarint|]. intros n.
  apply stable_bind; [apply stable_lift|]. intros _.
  apply stable_bind; [apply stable_read_bytes|]. intros bs. apply stable_lift.
Qed.

Lemma stable_skip_string : stable (R:=R) skip_string.
Proof.
  apply stable_bind; [apply stable_uvarint|]. intros n. case_match.
  - apply stable_map, stable_read_bytes.
  - apply stable_bind; [apply stable_lift|]. intros _. apply stable_map, stable_read_bytes.
Qed.
End ReadEx.

Create HintDb stable discriminated.
#[export] Hint Resolve stable_ret stable_lift stable_bind stable_map stable_repeat
  stable_read_bytes stable_scalar stable_uvarint stable_string stable_skip_string : stable.

(** Breaks a reader into its calls. *)
Ltac stable :=
  repeat first
    [ progress intros
    | solve [eauto with stable]
    | apply stable_bind
    | case_match ].

(** ** The cursor *)

#[export] Instance cursor_grow : Grow bytes := app.

#[export] Instance cursor_grow_laws : GrowLaws bytes.
Proof.
  intros n r x. rewrite !cursor_read_bytes. unfold grow, cursor_grow.
  case_decide as Hn; cbn; [|by left].
  rewrite decide_True by (rewrite length_app; lia). unfold grow_result; cbn.
  by rewrite take_app_le, drop_app_le by lia.
Qed.
