(* ===== verification/Finite.v ===== *)
(** * Readers over a finite input

    The loops that the code leaves unbounded ([read_uvarint], the settings of a
    query) end because every iteration takes a byte from an input that is
    finite.  [consumes k m] says that [m] ends, and that it takes at least [k]
    bytes when it returns; it is what makes [loop_fuel] enough. *)

From S2P Require Import Prelude RustStd Errors Scalars Encoder ReadEx.
Local Open Scope Z_scope.

(** A bound on what a reader can still deliver. *)
Class Sized (R : Type) := size : R -> Z.

Section Consumes.
Context {R : Type} `{Sized R}.

Definition consumes {A} (k : Z) (m : rd R A) : Prop :=
  forall r, size r < 2 ^ 64 ->
  m r <> OutOfFuel /\ forall a r', m r = Ok (a, r') -> size r' + k <= size r.

Lemma consumes_weaken {A} j k (m : rd R A) : k <= j -> consumes j m -> consumes k m.
Proof.
  intros Hk Hm r Hr. destruct (Hm r Hr) as [Ho Hs]. split; [done|].
  intros a r' Ha%Hs. lia.
Qed.

Lemma consumes_ret {A} (a : A) : consumes 0 (mret a : rd R A).
Proof. intros r _. split; [done|]. intros ? ? [= <- <-]. lia. Qed.

Lemma consumes_lift {A} (m : Result A) : m <> OutOfFuel -> consumes 0 (lift m : rd R A).
Proof.
  intros Hm r _. unfold lift. destruct m; try done. split; [done|].
  intros ? ? [= <- <-]. lia.
Qed.

Lemma consumes_bind {A B} j k (m : rd R A) (f : A -> rd R B) :
  0 <= j -> consumes j m -> (forall a, consumes k (f a)) -> consumes (j + k) (m ≫= f).
Proof.
  intros Hj Hm Hf r Hr. unfold mbind, rd_bind. destruct (Hm r Hr) as [Ho Hs].
  destruct (m r) as [[a r1]| | |]; try done. cbn. specialize (Hs a r1 eq_refl).
  destruct (Hf a r1 ltac:(lia)) as [Ho' Hs']. split; [done|].
  intros b r' Hb%Hs'. lia.
Qed.

Lemma consumes_bind0 {A B} (m : rd R A) (f : A -> rd R B) :
  consumes 0 m -> (forall a, consumes 0 (f a)) -> consumes 0 (m ≫= f).
Proof. by apply (consumes_bind 0 0). Qed.

Lemma consumes_lift_Ok {A B} k (a : A) (f : A -> rd R B) :
  consumes k (f a) -> consumes k (lift (Ok a) ≫= f).
Proof. done. Qed.

Lemma consumes_repeat {A} n (m : rd R A) : consumes 0 m -> consumes 0 (rd_repeat n m).
Proof.
  intros Hm. induction n as [|n IH]; cbn; [apply consumes_ret|].
  apply consumes_bind0; [done|]. intros a.
  apply consumes_bind0; [done|]. intros l. apply consumes_ret.
Qed.

(** What a reader returns. *)
Definition ensures {A} (m : rd R A) (Q : A -> Prop) : Prop :=
  forall r a r', m r = Ok (a, r') -> Q a.

Lemma ensures_bind {A B} (m : rd R A) (f : A -> rd R B) Qa Qb :
  ensures m Qa -> (forall a, Qa a -> ensures (f a) Qb) -> ensures (m ≫= f) Qb.
Proof.
  intros Hm Hf r b r'. unfold mbind, rd_bind. rewrite bind_Ok.
  intros ([a r1] & Ha & Hb). eapply Hf; [by eapply Hm|done].
Qed.

Lemma ensures_true {A B} (m : rd R A) (f : A -> rd R B) Qb :
  (forall a, ensures (f a) Qb) -> ensures (m ≫= f) Qb.
Proof. intros Hf. by apply (ensures_bind _ _ (fun _ => True)). Qed.

Lemma ensures_ret {A} (a : A) (Q : A -> Prop) : Q a -> ensures (mret a) Q.
Proof. by intros HQ r ? r' [= <- _]. Qed.

Lemma ensures_err {A} e (Q : A -> Prop) : ensures (lift (Err e)) Q.
Proof. by intros r a r'. Qed.

(** A loop every iteration of which takes a byte. *)
Lemma consumes_loop {S A} (rd_of : S -> R) (step : S -> Result (S + A * R)) s k :
  (forall s, size (rd_of s) < 2 ^ 64 ->
     step s <> OutOfFuel /\
     (forall s', step s = Ok (inl s') -> size (rd_of s') + 1 <= size (rd_of s)) /\
     (forall a r', step s = Ok (inr (a, r')) -> size r' + k <= size (rd_of s))) ->
  (forall r, 0 <= size r) -> size (rd_of s) < 2 ^ 64 ->
  loop step loop_fuel s <> OutOfFuel /\
  forall a r', loop step loop_fuel s = Ok (a, r') -> size r' + k <= size (rd_of s).
Proof.
  intros Hstep Hpos Hs. unfold loop. rewrite loop_pos_nat.
  assert (forall n s, size (rd_of s) < 2 ^ 64 -> size (rd_of s) < Z.of_nat n ->
    match loop_nat step n s with
    | Ok (inl _) | OutOfFuel => False
    | Ok (inr (_, r')) => size r' + k <= size (rd_of s)
    | _ => True
    end) as Hl.
  { intros n. induction n as [|n IH]; intros t Ht Hn.
    { specialize (Hpos (rd_of t)). lia. }
    cbn [loop_nat]. destruct (Hstep t Ht) as (Ho & Hi & Hr).
    destruct (step t) as [[t'|[a r']]| | |]; try done; [|by eapply Hr].
    specialize (Hi t' eq_refl). specialize (IH t' ltac:(lia) ltac:(lia)).
    destruct (loop_nat step n t') as [[?|[a r']]| | |]; try done. lia. }
  specialize (Hl (Pos.to_nat loop_fuel) s Hs).
  rewrite loop_fuel_Z in Hl. specialize (Hl Hs).
  destruct (loop_nat step _ s) as [[?|[a r']]| | |]; try done.
  split; [done|]. by intros ? ? [= <- <-].
Qed.
End Consumes.

(** What a reader over a finite input promises. *)
Class SizedLaws (R : Type) `{Read R, Sized R} := {
  size_pos (r : R) : 0 <= size r;
  consumes_read_bytes n : consumes (R:=R) (Z.of_nat n) (read_bytes n)
}.

(** ** Pure steps use no fuel *)

Lemma bind_fuel {E A B} (m : outcome E A) (f : A -> outcome E B) :
  m <> OutOfFuel -> (forall a, f a <> OutOfFuel) -> m ≫= f <> OutOfFuel.
Proof. destruct m; cbn; auto. Qed.

Lemma at_fuel {E} (bs : bytes) i : byte_to_Z <$> index bs i <> (OutOfFuel : outcome E Z).
Proof. unfold index. by destruct (bs !! i). Qed.

Lemma unmarshal_fuel t bs : unmarshal t bs <> (OutOfFuel : Result Z).
Proof.
  unfold unmarshal.
  destruct t; repeat first [apply at_fuel | apply bind_fuel; [|intros ?] | done].
Qed.

Lemma string_from_utf8_fuel bs : string_from_utf8 bs <> OutOfFuel.
Proof. unfold string_from_utf8. by case_match. Qed.

Lemma alloc_fuel k n : alloc k n <> (OutOfFuel : Result unit).
Proof. unfold alloc. by case_match. Qed.

Lemma arith_u_fuel `{Profile} w z : arith_u w z <> (OutOfFuel : Result Z).
Proof. unfold arith_u. by repeat case_match. Qed.

Lemma shl_u_fuel `{Profile} w x s : shl_u w x s <> (OutOfFuel : Result Z).
Proof. unfold shl_u. by repeat case_match. Qed.

Create HintDb consumes discriminated.
#[export] Hint Resolve unmarshal_fuel string_from_utf8_fuel alloc_fuel arith_u_fuel
  shl_u_fuel consumes_ret consumes_lift consumes_bind0 consumes_repeat : consumes.

Section ReadEx.
Context {P : Profile} {R : Type} `{SizedLaws R}.

Lemma consumes_read_bytes0 n : consumes (R:=R) 0 (read_bytes n).
Proof. eapply consumes_weaken, consumes_read_bytes. lia. Qed.

Lemma consumes_scalar t : consumes (R:=R) (Z.of_nat (buffer_size t)) (read_scalar t).
Proof.
  unfold read_scalar. rewrite <- (Z.add_0_r (Z.of_nat _)).
  apply consumes_bind; [lia|apply consumes_read_bytes|]. intros bs.
  apply consumes_lift, unmarshal_fuel.
Qed.

Lemma ensures_scalar `{!ReadLaws R} t : ensures (R:=R) (read_scalar t) (fun v => prim_ok t v = true).
Proof.
  intros r v r'. unfold read_scalar, mbind, rd_bind. rewrite bind_Ok.
  intros ([bs r1] & Hb & Hu). unfold lift in Hu. apply bind_Ok in Hu as (x & Hx & [= <- _]).
  eapply unmarshal_ok; [|exact Hx]. by eapply read_bytes_length.
Qed.

Lemma consumes_scalar0 t : consumes (R:=R) 0 (read_scalar t).
Proof. eapply consumes_weaken, consumes_scalar. lia. Qed.

Lemma read_uvarint_step_sound x s i (r : R) :
  size r < 2 ^ 64 ->
  read_uvarint_step (x, s, i, r) <> OutOfFuel /\
  (forall x' s' i' r', read_uvarint_step (x, s, i, r) = Ok (inl (x', s', i', r')) ->
     size r' + 1 <= size r) /\
  (forall v r', read_uvarint_step (x, s, i, r) = Ok (inr (v, r')) -> size r' + 1 <= size r).
Proof.
  intros Hr. unfold read_uvarint_step.
  destruct (consumes_scalar u8 r Hr) as [Ho Hs]. change (Z.of_nat (buffer_size u8)) with 1 in Hs.
  destruct (read_scalar u8 r) as [[b r1]| | |]; try done. cbn [mbind outcome_bind].
  specialize (Hs b r1 eq_refl). case_match; [case_match|].
  - done.
  - pose proof (shl_u_fuel 64 b s). destruct (shl_u _ _ _); cbn; naive_solver.
  - pose proof (shl_u_fuel 64 (Z.land b 127) s). destruct (shl_u _ _ _); try done; cbn.
    pose proof (arith_u_fuel 32 (s + 7)). destruct (arith_u _ (s + 7)); try done; cbn.
    pose proof (arith_u_fuel 64 (i + 1)). destruct (arith_u _ (i + 1)); try done; cbn.
    naive_solver.
Qed.

(** [read_uvarint] ends on every finite input. *)
Lemma consumes_uvarint : consumes (R:=R) 1 read_uvarint.
Proof.
  intros r Hr. unfold read_uvarint.
  apply (consumes_loop (fun '(_, _, _, r) => r) read_uvarint_step (0, 0, 0, r) 1);
    [|apply size_pos|done].
  intros [[[x s] i] r1] Hr1. destruct (read_uvarint_step_sound x s i r1 Hr1) as (Ho & Hi & Hv).
  split; [done|]. split; [|done]. intros [[[x' s'] i'] r'] Hs. by eapply Hi.
Qed.

Lemma consumes_string : consumes (R:=R) 1 read_string.
Proof.
  unfold read_string. change 1 with (1 + 0).
  apply consumes_bind; [lia|apply consumes_uvarint|]. intros n.
  eauto using consumes_read_bytes0 with consumes.
Qed.

Lemma consumes_skip_string : consumes (R:=R) 1 skip_string.
Proof.
  unfold skip_string. change 1 with (1 + 0).
  apply consumes_bind; [lia|apply consumes_uvarint|]. intros n.
  case_match; eauto 6 using consumes_read_bytes0 with consumes.
Qed.

Lemma consumes_uvarint0 : consumes (R:=R) 0 read_uvarint.
Proof. eapply consumes_weaken, consumes_uvarint. lia. Qed.

Lemma consumes_string0 : consumes (R:=R) 0 read_string.
Proof. eapply consumes_weaken, consumes_string. lia. Qed.
End ReadEx.

#[export] Hint Resolve consumes_read_bytes0 consumes_scalar0 consumes_uvarint0
  consumes_string0 : consumes.

Ltac consumes :=
  repeat first
    [ progress intros
    | solve [eauto with consumes]
    | apply consumes_bind0
    | case_match ].

(** ** The cursor *)

#[export] Instance cursor_size : Sized bytes := fun r => Z.of_nat (length r).

#[export] Instance cursor_sized : SizedLaws bytes.
Proof.
  split; [intros r; unfold size, cursor_size; lia|].
  intros n r _. rewrite cursor_read_bytes. unfold size, cursor_size.
  case_decide; [|done]. split; [done|]. intros ? ? [= <- <-].
  rewrite length_drop. lia.
Qed.
