(* ===== verification/Protocol.v ===== *)
(** * The protocol's messages ([protocols/*.rs], [Progress] of [types/mod.rs])

    What the server reads ([HelloRequest], [QueryClientInfo], [QueryRequest]),
    with the reference encoding a client of a given revision sends, and what it
    writes ([HelloResponse], [ExceptionResponse], [Progress]), with the bytes a
    client of a given revision expects. *)

From S2P Require Import Prelude RustStd Errors Scalars Encoder ReadEx Stable Finite.
Local Open Scope Z_scope.

(** ** Constants *)

Definition DBMS_MIN_REVISION_WITH_CLIENT_INFO : Z := 54032.
Definition DBMS_MIN_REVISION_WITH_SERVER_TIMEZONE : Z := 54058.
Definition DBMS_MIN_REVISION_WITH_QUOTA_KEY_IN_CLIENT_INFO : Z := 54060.
Definition DBMS_MIN_REVISION_WITH_SERVER_DISPLAY_NAME : Z := 54372.
Definition DBMS_MIN_REVISION_WITH_VERSION_PATCH : Z := 54401.
Definition DBMS_MIN_REVISION_WITH_CLIENT_WRITE_INFO : Z := 54420.

Definition CLIENT_HELLO : Z := 0.
Definition CLIENT_QUERY : Z := 1.
Definition CLIENT_DATA : Z := 2.
Definition CLIENT_CANCEL : Z := 3.
Definition CLIENT_PING : Z := 4.
Definition CLIENT_SCALAR : Z := 7.

Definition SERVER_HELLO : Z := 0.
Definition SERVER_DATA : Z := 1.
Definition SERVER_EXCEPTION : Z := 2.
Definition SERVER_PROGRESS : Z := 3.
Definition SERVER_PONG : Z := 4.
Definition SERVER_END_OF_STREAM : Z := 5.

Definition INITIAL_QUERY : Z := 1.

(** The constants that no code uses. *)

Definition DBMS_MIN_REVISION_WITH_TABLES_STATUS : Z := 54226.
Definition DBMS_MIN_REVISION_WITH_TIME_ZONE_PARAMETER_IN_DATETIME_DATA_TYPE : Z := 54337.
Definition DBMS_MIN_REVISION_WITH_SERVER_LOGS : Z := 54406.
Definition DBMS_MIN_REVISION_WITH_CLIENT_SUPPORT_EMBEDDED_DATA : Z := 54415.
Definition DBMS_MIN_REVISION_WITH_CURRENT_AGGREGATION_VARIANT_SELECTION_METHOD : Z := 54431.
Definition DBMS_MIN_REVISION_WITH_COLUMN_DEFAULTS_METADATA : Z := 54410.
Definition DBMS_MIN_REVISION_WITH_LOW_CARDINALITY_TYPE : Z := 54405.
Definition DBMS_MIN_REVISION_WITH_SETTINGS_SERIALIZED_AS_STRINGS : Z := 54429.
Definition DBMS_MIN_REVISION_WITH_OPENTELEMETRY : Z := 54442.
Definition DBMS_MIN_REVISION_WITH_INTERSERVER_SECRET : Z := 54441.
Definition DBMS_MIN_REVISION_WITH_X_FORWARDED_FOR_IN_CLIENT_INFO : Z := 54443.
Definition DBMS_MIN_REVISION_WITH_REFERER_IN_CLIENT_INFO : Z := 54447.

Definition CLIENT_TABLES_STATUS_REQUEST : Z := 5.
Definition CLIENT_KEEP_ALIVE : Z := 6.
Definition CLIENT_INGORED_PART_UUIDS : Z := 8.
Definition SERVER_PROFILE_INFO : Z := 6.
Definition SERVER_TOTALS : Z := 7.
Definition SERVER_EXTREMES : Z := 8.
Definition NO_QUERY : Z := 0.
Definition SECONDARY_QUERY : Z := 2.

Definition TCP : Z := 1.
Definition HTTP : Z := 2.

(** From [error_codes.rs]. *)
Definition UNEXPECTED_PACKET_FROM_CLIENT : Z := 101.
Definition UNKNOWN_EXCEPTION : Z := 1002.

(** [enum Stage]. *)
Inductive Stage := Stage_Default | InsertPrepare | InsertStarted | EOS.

#[global] Instance Stage_eq_dec : EqDecision Stage.
Proof. solve_decision. Defined.

(** A Rust string that fits in memory. *)
Definition str_ok (s : bytes) : bool :=
  utf8_ok s && bool_decide (Z.of_nat (length s) <= isize_max).

Lemma str_ok_spec s :
  str_ok s = true <-> utf8_ok s = true /\ Z.of_nat (length s) <= isize_max.
Proof. unfold str_ok. by rewrite andb_true_iff, bool_decide_eq_true. Qed.

Lemma str_ok_parses {P : Profile} {R} `{ReadLaws R} s :
  str_ok s = true -> parses (R:=R) read_string (string_bytes s) s.
Proof. intros [??]%str_ok_spec. by apply parses_string. Qed.

Lemma string_str_ok {E} s e :
  str_ok s = true -> string (Er:=E) e s = Ok (e ++ string_bytes s).
Proof. intros [??]%str_ok_spec. apply string_ok. unfold isize_max in *. lia. Qed.

Lemma encode_if {E} (b : bool) (m : outcome E Encoder) (e : Encoder) bs :
  m = Ok (e ++ bs) -> (if b then m else Ok e) = Ok (e ++ if b then bs else []).
Proof. destruct b; [done|]. by rewrite app_nil_r. Qed.

Lemma bind_eq {E A B} (m : outcome E A) (f : A -> outcome E B) a r :
  m = Ok a -> f a = r -> m ≫= f = r.
Proof. by intros -> <-. Qed.

(** One field of a message: writes it and goes on. *)
Ltac encode_field :=
  eapply bind_eq; [first
    [ apply uvarint_ok; assumption | apply string_str_ok; assumption | apply write_ok ] |].

(** Splits a conjunction of [bool] conditions. *)
Ltac split_ands :=
  repeat match goal with
  | H : (_ && _)%bool = true |- _ => apply andb_true_iff in H as [? ?]
  end.

(** One field of a message: reads it and goes on. *)
Ltac parse_field :=
  eapply parses_bind; [reflexivity | first
    [ apply str_ok_parses; assumption | apply parses_uvarint; assumption
    | apply parses_scalar; assumption ] | ].

(** The last field of a message. *)
Ltac parse_last :=
  eapply parses_bind; [symmetry; apply app_nil_r | first
    [ apply str_ok_parses; assumption | apply parses_uvarint; assumption
    | apply parses_scalar; assumption ] | apply parses_ret ].

(** ** Hello *)

Module HelloRequest.
Record t := mk {
  client_name : bytes;
  client_version_major : Z;
  client_version_minor : Z;
  client_revision : Z;
  default_database : bytes;
  user : bytes;
  password : bytes;
  client_version_patch : Z
}.

Section Read.
Context {P : Profile} {R : Type} `{Read R}.

Definition read_from : rd R t :=
  client_name ← read_string;
  client_version_major ← read_uvarint;
  client_version_minor ← read_uvarint;
  client_revision ← read_uvarint;
  default_database ← read_string;
  user ← read_string;
  password ← read_string;
  let request :=
    mk client_name client_version_major client_version_minor client_revision
       default_database user password 0 in
  if bool_decide (user = []) then
    lift (Err (Error.Server
      (ServerError.Mk UNEXPECTED_PACKET_FROM_CLIENT
         (lit "UNEXPECTED_PACKET_FROM_CLIENT")
         (lit "Unexpected packet from client (no user in Hello package)") [])))
  else mret request.
End Read.

(** What a client sends after the packet code. *)
Definition encode (h : t) : bytes :=
  string_bytes (client_name h) ++ uvarint_bytes (client_version_major h)
  ++ uvarint_bytes (client_version_minor h) ++ uvarint_bytes (client_revision h)
  ++ string_bytes (default_database h) ++ string_bytes (user h) ++ string_bytes (password h).

(** The requests that the protocol can carry. *)
Definition ok (h : t) : bool :=
  str_ok (client_name h) && in_u 64 (client_version_major h)
  && in_u 64 (client_version_minor h) && in_u 64 (client_revision h)
  && str_ok (default_database h) && str_ok (user h) && str_ok (password h)
  && negb (bool_decide (user h = [])) && (client_version_patch h =? 0).

Section Laws.
Context {P : Profile} {R : Type} `{ReadLaws R, !Grow R, !GrowLaws R, !Sized R, !SizedLaws R}.

Lemma parses_hello h : ok h = true -> parses (R:=R) read_from (encode h) h.
Proof.
  intros Hok. unfold ok in Hok. split_ands. unfold read_from, encode.
  do 6 parse_field.
  eapply parses_bind; [symmetry; apply app_nil_r|by apply str_ok_parses|].
  destruct (bool_decide (user h = [])); [done|].
  destruct h as [? ? ? ? ? ? ? patch]; cbn in *.
  assert (patch = 0) as -> by lia. apply parses_ret.
Qed.

Lemma stable_hello : stable (R:=R) read_from.
Proof. unfold read_from. stable. Qed.

Lemma consumes_hello : consumes (R:=R) 0 read_from.
Proof. unfold read_from. consumes. Qed.
End Laws.
End HelloRequest.

#[export] Hint Resolve HelloRequest.stable_hello : stable.
#[export] Hint Resolve HelloRequest.consumes_hello : consumes.

(** ** Query *)

Module QueryClientInfo.
Record t := mk {
  query_kind : Z;
  initial_user : bytes;
  initial_query_id : bytes;
  initial_address : bytes;
  interface : Z;
  os_user : bytes;
  client_hostname : bytes;
  client_name : bytes;
  client_version_major : Z;
  client_version_minor : Z;
  client_version_patch : Z;
  client_revision : Z;
  http_method : Z;
  http_user_agent : bytes;
  quota_key : bytes
}.

(** [..Default::default()] *)
Definition with_kind (k : Z) : t := mk k [] [] [] 0 [] [] [] 0 0 0 0 0 [] [].
Definition default : t := with_kind 0.

Section Read.
Context {P : Profile} {R : Type} `{Read R}.

(** The arms of [match client_info.interface]. *)
Definition read_tcp (k : Z) (u q a : bytes) : rd R t :=
  os_user ← read_string;
  client_hostname ← read_string;
  client_name ← read_string;
  client_version_major ← read_uvarint;
  client_version_minor ← read_uvarint;
  client_revision ← read_uvarint;
  mret (mk k u q a TCP os_user client_hostname client_name client_version_major
          client_version_minor client_revision client_revision 0 [] []).

Definition read_http (k : Z) (u q a : bytes) : rd R t :=
  http_method ← read_scalar u8;
  http_user_agent ← read_string;
  mret (mk k u q a HTTP [] [] [] 0 0 0 0 http_method http_user_agent []).

Definition set_quota_key (key : bytes) (c : t) : t :=
  mk (query_kind c) (initial_user c) (initial_query_id c) (initial_address c) (interface c)
     (os_user c) (client_hostname c) (client_name c) (client_version_major c)
     (client_version_minor c) (client_version_patch c) (client_revision c)
     (http_method c) (http_user_agent c) key.

Definition set_patch (p : Z) (c : t) : t :=
  mk (query_kind c) (initial_user c) (initial_query_id c) (initial_address c) (interface c)
     (os_user c) (client_hostname c) (client_name c) (client_version_major c)
     (client_version_minor c) p (client_revision c)
     (http_method c) (http_user_agent c) (quota_key c).

Definition read_from : rd R t :=
  query_kind ← read_scalar u8;
  if query_kind =? 0 then mret (with_kind query_kind)
  else
    initial_user ← read_string;
    initial_query_id ← read_string;
    initial_address ← read_string;
    interface ← read_scalar u8;
    client_info ←
      (if interface =? TCP then
         read_tcp query_kind initial_user initial_query_id initial_address
       else if interface =? HTTP then
         read_http query_kind initial_user initial_query_id initial_address
       else
         mret (mk query_kind initial_user initial_query_id initial_address interface
                 [] [] [] 0 0 0 0 0 [] []));
    client_info ←
      (if DBMS_MIN_REVISION_WITH_QUOTA_KEY_IN_CLIENT_INFO <=? client_revision client_info then
         quota_key ← read_string; mret (set_quota_key quota_key client_info)
       else mret client_info);
    if (QueryClientInfo.interface client_info =? TCP)
       && (DBMS_MIN_REVISION_WITH_VERSION_PATCH <=? client_revision client_info)
    then patch ← read_uvarint; mret (set_patch patch client_info)
    else mret client_info.
End Read.

(** What a client sends: the fields that its interface has and that its own
    revision allows. *)
Definition encode (c : t) : bytes :=
  marshal u8 (query_kind c) ++
  if query_kind c =? 0 then []
  else
    string_bytes (initial_user c) ++ string_bytes (initial_query_id c)
    ++ string_bytes (initial_address c) ++ marshal u8 (interface c)
    ++ (if interface c =? TCP then
          string_bytes (os_user c) ++ string_bytes (client_hostname c)
          ++ string_bytes (client_name c) ++ uvarint_bytes (client_version_major c)
          ++ uvarint_bytes (client_version_minor c) ++ uvarint_bytes (client_revision c)
        else if interface c =? HTTP then
          marshal u8 (http_method c) ++ string_bytes (http_user_agent c)
        else [])
    ++ (if DBMS_MIN_REVISION_WITH_QUOTA_KEY_IN_CLIENT_INFO <=? client_revision c
        then string_bytes (quota_key c) else [])
    ++ (if (interface c =? TCP)
           && (DBMS_MIN_REVISION_WITH_VERSION_PATCH <=? client_revision c)
        then uvarint_bytes (client_version_patch c) else []).

(** The fields are in range. *)
Definition in_range (c : t) : bool :=
  in_u 8 (query_kind c) && str_ok (initial_user c) && str_ok (initial_query_id c)
  && str_ok (initial_address c) && in_u 8 (interface c) && str_ok (os_user c)
  && str_ok (client_hostname c) && str_ok (client_name c)
  && in_u 64 (client_version_major c) && in_u 64 (client_version_minor c)
  && in_u 64 (client_version_patch c) && in_u 64 (client_revision c)
  && in_u 8 (http_method c) && str_ok (http_user_agent c) && str_ok (quota_key c).

(** What reading leaves of a client's values: a field the client did not send
    has its default, except that a TCP client too old to send its patch level
    gets its revision for it. *)
Definition received (c : t) : t :=
  if query_kind c =? 0 then default
  else if interface c =? TCP then
    mk (query_kind c) (initial_user c) (initial_query_id c) (initial_address c) TCP
       (os_user c) (client_hostname c) (client_name c) (client_version_major c)
       (client_version_minor c)
       (if DBMS_MIN_REVISION_WITH_VERSION_PATCH <=? client_revision c
        then client_version_patch c else client_revision c)
       (client_revision c) 0 []
       (if DBMS_MIN_REVISION_WITH_QUOTA_KEY_IN_CLIENT_INFO <=? client_revision c
        then quota_key c else [])
  else if interface c =? HTTP then
    mk (query_kind c) (initial_user c) (initial_query_id c) (initial_address c) HTTP
       [] [] [] 0 0 0 0 (http_method c) (http_user_agent c) []
  else
    mk (query_kind c) (initial_user c) (initial_query_id c) (initial_address c)
       (interface c) [] [] [] 0 0 0 0 0 [] [].

(** A client without a TCP part has no revision. *)
Definition revision_ok (c : t) : bool := (interface c =? TCP) || (client_revision c =? 0).

Section Laws.
Context {P : Profile} {R : Type} `{ReadLaws R, !Grow R, !GrowLaws R, !Sized R, !SizedLaws R}.

Lemma parses_if_else {A} (b : bool) (m1 m2 : rd R A) bs1 bs2 x1 x2 :
  (b = true -> parses m1 bs1 x1) -> (b = false -> parses m2 bs2 x2) ->
  parses (if b then m1 else m2) (if b then bs1 else bs2) (if b then x1 else x2).
Proof. destruct b; auto. Qed.

Lemma parses_interface c :
  in_range c = true -> revision_ok c = true ->
  parses (R:=R)
    (if interface c =? TCP then
       read_tcp (query_kind c) (initial_user c) (initial_query_id c) (initial_address c)
     else if interface c =? HTTP then
       read_http (query_kind c) (initial_user c) (initial_query_id c) (initial_address c)
     else
       mret (mk (query_kind c) (initial_user c) (initial_query_id c) (initial_address c)
               (interface c) [] [] [] 0 0 0 0 0 [] []))
    (if interface c =? TCP then
       string_bytes (os_user c) ++ string_bytes (client_hostname c)
       ++ string_bytes (client_name c) ++ uvarint_bytes (client_version_major c)
       ++ uvarint_bytes (client_version_minor c) ++ uvarint_bytes (client_revision c)
     else if interface c =? HTTP then
       marshal u8 (http_method c) ++ string_bytes (http_user_agent c)
     else [])
    (if interface c =? TCP then
       mk (query_kind c) (initial_user c) (initial_query_id c) (initial_address c) TCP
          (os_user c) (client_hostname c) (client_name c) (client_version_major c)
          (client_version_minor c) (client_revision c) (client_revision c) 0 [] []
     else if interface c =? HTTP then
       mk (query_kind c) (initial_user c) (initial_query_id c) (initial_address c) HTTP
          [] [] [] 0 0 0 0 (http_method c) (http_user_agent c) []
     else
       mk (query_kind c) (initial_user c) (initial_query_id c) (initial_address c)
               (interface c) [] [] [] 0 0 0 0 0 [] []).
Proof.
  intros Hin _. unfold in_range in Hin. split_ands.
  apply parses_if_else; intros _; [|apply parses_if_else; intros _].
  - unfold read_tcp. do 5 parse_field.
    parse_last.
  - unfold read_http. parse_field.
    parse_last.
  - apply parses_ret.
Qed.

Lemma parses_client_info c :
  in_range c = true -> revision_ok c = true ->
  parses (R:=R) read_from (encode c) (received c).
Proof.
  intros Hin Hrev. pose proof (parses_interface c Hin Hrev) as Hi.
  unfold in_range in Hin. split_ands. unfold read_from, encode, received.
  parse_field. destruct (Z.eqb_spec (query_kind c) 0) as [Hk|Hk]; [rewrite Hk; apply parses_ret|].
  do 4 parse_field. eapply parses_bind; [reflexivity|exact Hi|]. clear Hi.
  unfold revision_ok in Hrev. destruct (Z.eqb_spec (interface c) TCP) as [Ht|Ht].
  - eapply (parses_bind _ _ _ _ _
      (mk (query_kind c) (initial_user c) (initial_query_id c) (initial_address c) TCP
         (os_user c) (client_hostname c) (client_name c) (client_version_major c)
         (client_version_minor c) (client_revision c) (client_revision c) 0 []
         (if DBMS_MIN_REVISION_WITH_QUOTA_KEY_IN_CLIENT_INFO <=? client_revision c
          then quota_key c else []))); [reflexivity| |]; cbn [client_revision interface].
    + case_match; [|apply parses_ret]. parse_last.
    + change (TCP =? TCP) with true. cbn [andb].
      case_match; [|apply parses_ret]. parse_last.
  - assert (client_revision c = 0) as -> by (cbn in Hrev; lia). cbn [andb].
    destruct (Z.eqb_spec (interface c) HTTP) as [Hh|Hh]; cbn; [apply parses_ret|].
    intros r r' ->%delivers_nil. unfold mbind, rd_bind, mret, rd_ret.
    cbn [outcome_bind mbind QueryClientInfo.interface].
    by destruct (Z.eqb_spec (interface c) TCP).
Qed.

Lemma stable_client_info : stable (R:=R) read_from.
Proof. unfold read_from, read_tcp, read_http. stable. Qed.

Lemma consumes_client_info : consumes (R:=R) 0 read_from.
Proof. unfold read_from, read_tcp, read_http. consumes. Qed.
End Laws.
End QueryClientInfo.

#[export] Hint Resolve QueryClientInfo.stable_client_info : stable.
#[export] Hint Resolve QueryClientInfo.consumes_client_info : consumes.

Module QueryRequest.
Record t := mk {
  query_id : bytes;
  client_info : QueryClientInfo.t;
  stage : Z;
  compression : Z;
  query : bytes
}.

Section Read.
Context {P : Profile} {R : Type} `{Read R}.

(** One iteration of the settings [loop]. *)
Definition settings_step (r : R) : Result (R + unit * R) :=
  '(name, r) ← read_string r;
  if bool_decide (name = []) then Ok (inr (tt, r))
  else if bool_decide (name = lit "max_block_size")
          || bool_decide (name = lit "max_threads") then
    '(_, r) ← read_uvarint r; Ok (inl r)
  else Err (Error.Driver (DriverError.UnknownSetting name)).

Definition read_settings : rd R unit := fun r => loop settings_step loop_fuel r.

(** The client info of a query that came without one. *)
Definition initial_info (c : QueryClientInfo.t) (h : HelloRequest.t) : QueryClientInfo.t :=
  QueryClientInfo.mk INITIAL_QUERY (QueryClientInfo.initial_user c)
    (QueryClientInfo.initial_query_id c) (QueryClientInfo.initial_address c)
    (QueryClientInfo.interface c) (QueryClientInfo.os_user c)
    (QueryClientInfo.client_hostname c) (HelloRequest.client_name h)
    (HelloRequest.client_version_major h) (HelloRequest.client_version_minor h)
    (HelloRequest.client_version_patch h) (HelloRequest.client_revision h)
    (QueryClientInfo.http_method c) (QueryClientInfo.http_user_agent c)
    (QueryClientInfo.quota_key c).

Definition set_interface (i : Z) (c : QueryClientInfo.t) : QueryClientInfo.t :=
  QueryClientInfo.mk (QueryClientInfo.query_kind c) (QueryClientInfo.initial_user c)
    (QueryClientInfo.initial_query_id c) (QueryClientInfo.initial_address c) i
    (QueryClientInfo.os_user c) (QueryClientInfo.client_hostname c)
    (QueryClientInfo.client_name c) (QueryClientInfo.client_version_major c)
    (QueryClientInfo.client_version_minor c) (QueryClientInfo.client_version_patch c)
    (QueryClientInfo.client_revision c) (QueryClientInfo.http_method c)
    (QueryClientInfo.http_user_agent c) (QueryClientInfo.quota_key c).

(** The client info of a query, from what was read. *)
Definition complete_info (h : HelloRequest.t) (c : QueryClientInfo.t) : QueryClientInfo.t :=
  set_interface TCP (if QueryClientInfo.query_kind c =? 0 then initial_info c h else c).

Definition read_from (hello_request : HelloRequest.t) : rd R t :=
  query_id ← read_string;
  client_info ←
    (if DBMS_MIN_REVISION_WITH_CLIENT_INFO <=? HelloRequest.client_revision hello_request
     then QueryClientInfo.read_from else mret QueryClientInfo.default);
  let client_info := complete_info hello_request client_info in
  _ ← read_settings;
  stage ← read_uvarint;
  compression ← read_uvarint;
  query ← read_string;
  mret (mk query_id client_info stage compression query).
End Read.

(** The settings that a client may send. *)
Inductive setting := max_block_size | max_threads.

Definition setting_name (s : setting) : bytes :=
  match s with
  | max_block_size => lit "max_block_size"
  | max_threads => lit "max_threads"
  end.

Definition encode_settings (ss : list (setting * Z)) : bytes :=
  concat ((fun '(s, v) => string_bytes (setting_name s) ++ uvarint_bytes v) <$> ss)
  ++ string_bytes [].

(** What a client that said hello with [h] sends for the query [q] with the
    settings [ss]. *)
Definition encode (h : HelloRequest.t) (q : t) (ss : list (setting * Z)) : bytes :=
  string_bytes (query_id q)
  ++ (if DBMS_MIN_REVISION_WITH_CLIENT_INFO <=? HelloRequest.client_revision h
      then QueryClientInfo.encode (client_info q) else [])
  ++ encode_settings ss
  ++ uvarint_bytes (stage q) ++ uvarint_bytes (compression q) ++ string_bytes (query q).

Definition ok (q : t) : bool :=
  str_ok (query_id q) && QueryClientInfo.in_range (client_info q)
  && QueryClientInfo.revision_ok (client_info q) && in_u 64 (stage q)
  && in_u 64 (compression q) && str_ok (query q).

(** What the server makes of it. *)
Definition received (h : HelloRequest.t) (q : t) : t :=
  mk (query_id q)
     (complete_info h
        (if DBMS_MIN_REVISION_WITH_CLIENT_INFO <=? HelloRequest.client_revision h
         then QueryClientInfo.received (client_info q) else QueryClientInfo.default))
     (stage q) (compression q) (query q).

Section Laws.
Context {P : Profile} {R : Type} `{ReadLaws R, !Grow R, !GrowLaws R, !Sized R, !SizedLaws R}.

Lemma settings_nat (ss : list (setting * Z)) (r r' : R) n :
  Forall (fun sv => in_u 64 sv.2 = true) ss -> (length ss < n)%nat ->
  delivers r (encode_settings ss) r' -> loop_nat settings_step n r = Ok (inr (tt, r')).
Proof.
  intros Hss. revert r n. induction Hss as [|[s v] ss Hv _ IH]; intros r n Hn Hd;
    (destruct n as [|n]; [cbn in Hn; lia|]); cbn [loop_nat]; unfold settings_step at 1.
  - by rewrite (str_ok_parses [] eq_refl r r' Hd).
  - unfold encode_settings in *. cbn [fmap list_fmap concat] in Hd.
    rewrite <- !app_assoc in Hd.
    apply delivers_app in Hd as (r1 & H1 & (r2 & H2 & H3)%delivers_app).
    rewrite (str_ok_parses (setting_name s) ltac:(by destruct s) r r1 H1). cbn [mbind outcome_bind].
    rewrite bool_decide_false by (by destruct s).
    replace (_ || _) with true by (by destruct s).
    rewrite (parses_uvarint v Hv r1 r2 H2). cbn [mbind outcome_bind].
    apply IH; [cbn in Hn; lia|done].
Qed.

Lemma parses_settings ss :
  Forall (fun sv => in_u 64 sv.2 = true) ss -> Z.of_nat (length ss) < 2 ^ 64 ->
  parses (R:=R) read_settings (encode_settings ss) tt.
Proof.
  intros Hss Hl r r' Hd. unfold read_settings.
  by rewrite (loop_unfold _ _ _ (S (length ss)) _ (settings_nat _ _ _ _ Hss (Nat.lt_succ_diag_r _) Hd))
    by (done || (apply loop_fuel_ge; lia)).
Qed.

Lemma parses_query h q ss :
  ok q = true -> Forall (fun sv => in_u 64 sv.2 = true) ss ->
  Z.of_nat (length ss) < 2 ^ 64 ->
  parses (R:=R) (read_from h) (encode h q ss) (received h q).
Proof.
  intros Hok Hss Hl. unfold ok in Hok. split_ands. unfold read_from, encode, received.
  parse_field. eapply parses_bind; [reflexivity| |].
  - apply QueryClientInfo.parses_if_else; intros _; [|apply parses_ret].
    by apply QueryClientInfo.parses_client_info.
  - eapply parses_bind; [reflexivity|by apply parses_settings|].
    do 2 parse_field. parse_last.
Qed.

Lemma stable_settings : stable (R:=R) read_settings.
Proof.
  intros r x. unfold read_settings.
  apply (stable_loop (fun x r => grow r x) settings_step loop_fuel x r).
  intros r1. unfold settings_step.
  apply (stable_out_bind (grow_result x)); [apply stable_string|]. intros [name r2].
  unfold grow_result; cbn [fst snd]. case_match; [done|]. case_match; [|by right].
  apply (stable_out_bind (grow_result x)); [apply stable_uvarint|]. by intros [v r3].
Qed.

Lemma consumes_settings : consumes (R:=R) 0 read_settings.
Proof.
  intros r Hr. unfold read_settings.
  apply (consumes_loop id settings_step r 0); [|apply size_pos|done].
  clear r Hr. intros r Hr. unfold settings_step, id in *.
  destruct (consumes_string r Hr) as [Ho Hs].
  destruct (read_string r) as [[name r1]| | |]; try done. cbn [mbind outcome_bind].
  specialize (Hs name r1 eq_refl). case_match.
  { split; [done|]. split; [done|]. intros ? ? [= <- <-]. lia. }
  case_match; [|done].
  assert (size r1 < 2 ^ 64) as Hr1 by lia.
  destruct (consumes_uvarint r1 Hr1) as [Ho' Hs'].
  destruct (read_uvarint r1) as [[v r2]| | |]; try done. cbn.
  specialize (Hs' v r2 eq_refl).
  split; [done|]. split; [|done]. intros ? [= <-]. lia.
Qed.

Lemma stable_query h : stable (R:=R) (read_from h).
Proof. unfold read_from. pose proof stable_settings. stable. Qed.

Lemma consumes_query h : consumes (R:=R) 0 (read_from h).
Proof. unfold read_from. pose proof consumes_settings. consumes. Qed.
End Laws.
End QueryRequest.

#[export] Hint Resolve QueryRequest.stable_query : stable.
#[export] Hint Resolve QueryRequest.consumes_query : consumes.

(** ** What the server writes *)

Module HelloResponse.
Record t := mk {
  dbms_name : bytes;
  dbms_version_major : Z;
  dbms_version_minor : Z;
  dbms_tcp_protocol_version : Z;
  timezone : bytes;
  server_display_name : bytes;
  dbms_version_patch : Z
}.

Definition encode (self : t) (encoder : Encoder) (client_revision : Z) : Result Encoder :=
  encoder ← uvarint encoder SERVER_HELLO;
  encoder ← string encoder (dbms_name self);
  encoder ← uvarint encoder (dbms_version_major self);
  encoder ← uvarint encoder (dbms_version_minor self);
  encoder ← uvarint encoder (dbms_tcp_protocol_version self);
  encoder ←
    (if DBMS_MIN_REVISION_WITH_SERVER_TIMEZONE <=? client_revision
     then string encoder (timezone self) else Ok encoder);
  encoder ←
    (if DBMS_MIN_REVISION_WITH_SERVER_DISPLAY_NAME <=? client_revision
     then string encoder (server_display_name self) else Ok encoder);
  if DBMS_MIN_REVISION_WITH_VERSION_PATCH <=? client_revision
  then uvarint encoder (dbms_version_patch self) else Ok encoder.

Definition ok (h : t) : bool :=
  str_ok (dbms_name h) && in_u 64 (dbms_version_major h) && in_u 64 (dbms_version_minor h)
  && in_u 64 (dbms_tcp_protocol_version h) && str_ok (timezone h)
  && str_ok (server_display_name h) && in_u 64 (dbms_version_patch h).

(** The fields a client of revision [rev] learns. *)
Definition visible (rev : Z) (h : t) : t :=
  mk (dbms_name h) (dbms_version_major h) (dbms_version_minor h)
     (dbms_tcp_protocol_version h)
     (if DBMS_MIN_REVISION_WITH_SERVER_TIMEZONE <=? rev then timezone h else [])
     (if DBMS_MIN_REVISION_WITH_SERVER_DISPLAY_NAME <=? rev then server_display_name h else [])
     (if DBMS_MIN_REVISION_WITH_VERSION_PATCH <=? rev then dbms_version_patch h else 0).

(** The reference client of revision [rev]: how it reads the packet. *)
Definition client_read {P : Profile} {R} `{Read R} (rev : Z) : rd R (Z * t) :=
  code ← read_uvarint;
  name ← read_string;
  major ← read_uvarint;
  minor ← read_uvarint;
  version ← read_uvarint;
  tz ← (if DBMS_MIN_REVISION_WITH_SERVER_TIMEZONE <=? rev then read_string else mret []);
  display ← (if DBMS_MIN_REVISION_WITH_SERVER_DISPLAY_NAME <=? rev then read_string
             else mret []);
  patch ← (if DBMS_MIN_REVISION_WITH_VERSION_PATCH <=? rev then read_uvarint else mret 0);
  mret (code, mk name major minor version tz display patch).

Definition bytes_of (rev : Z) (h : t) : bytes :=
  uvarint_bytes SERVER_HELLO ++ string_bytes (dbms_name h)
  ++ uvarint_bytes (dbms_version_major h) ++ uvarint_bytes (dbms_version_minor h)
  ++ uvarint_bytes (dbms_tcp_protocol_version h)
  ++ (if DBMS_MIN_REVISION_WITH_SERVER_TIMEZONE <=? rev then string_bytes (timezone h) else [])
  ++ (if DBMS_MIN_REVISION_WITH_SERVER_DISPLAY_NAME <=? rev
      then string_bytes (server_display_name h) else [])
  ++ (if DBMS_MIN_REVISION_WITH_VERSION_PATCH <=? rev
      then uvarint_bytes (dbms_version_patch h) else []).

Lemma hello_encode_bytes h e rev : ok h = true -> encode h e rev = Ok (e ++ bytes_of rev h).
Proof.
  intros Hok. unfold ok in Hok. split_ands. unfold encode, bytes_of.
  assert (in_u 64 SERVER_HELLO = true) by done.
  do 5 encode_field. do 2 (eapply bind_eq; [by apply encode_if, string_str_ok|]).
  rewrite (encode_if _ _ _ (uvarint_bytes (dbms_version_patch h))) by (by apply uvarint_ok).
  by rewrite <- !app_assoc.
Qed.

Lemma hello_client_reads {P : Profile} {R} `{ReadLaws R} h rev :
  ok h = true ->
  parses (R:=R) (client_read rev) (bytes_of rev h) (SERVER_HELLO, visible rev h).
Proof.
  intros Hok. unfold ok in Hok. split_ands. unfold client_read, bytes_of, visible.
  assert (in_u 64 SERVER_HELLO = true) by done.
  do 5 parse_field.
  do 2 (eapply parses_bind; [reflexivity|
    apply QueryClientInfo.parses_if_else; intros _; [by apply str_ok_parses|apply parses_ret]|]).
  eapply parses_bind; [symmetry; apply app_nil_r| |apply parses_ret].
  apply QueryClientInfo.parses_if_else; intros _; [by apply parses_uvarint|apply parses_ret].
Qed.
End HelloResponse.

Module ExceptionResponse.
(** The four fields that depend on the error: code, name, message, stack trace. *)
Definition fields (error : Error) (with_stack_trace : bool) : Z * bytes * bytes * bytes :=
  match error with
  | Error.Server e =>
    (ServerError.code e, exception_name error, ServerError.message e,
     if with_stack_trace then ServerError.stack_trace e else [])
  | _ => (UNKNOWN_EXCEPTION, exception_name error, to_string error, [])
  end.

Definition write (encoder : Encoder) (error : Error) (with_stack_trace : bool)
  : Result Encoder :=
  let '(code, name, message, stack_trace) := fields error with_stack_trace in
  encoder ← uvarint encoder SERVER_EXCEPTION;
  encoder ← Encoder.write u32 encoder code;
  encoder ← string encoder name;
  encoder ← string encoder message;
  encoder ← string encoder stack_trace;
  Encoder.write bool_ encoder 0.

(** The reference client. *)
Definition client_read {P : Profile} {R} `{Read R} : rd R (Z * (Z * bytes * bytes * bytes) * Z) :=
  packet ← read_uvarint;
  code ← read_scalar u32;
  name ← read_string;
  message ← read_string;
  stack_trace ← read_string;
  nested ← read_scalar bool_;
  mret (packet, (code, name, message, stack_trace), nested).

Definition ok (error : Error) (with_stack_trace : bool) : bool :=
  let '(code, name, message, stack_trace) := fields error with_stack_trace in
  in_u 32 code && str_ok name && str_ok message && str_ok stack_trace.

Definition bytes_of (error : Error) (with_stack_trace : bool) : bytes :=
  let '(code, name, message, stack_trace) := fields error with_stack_trace in
  uvarint_bytes SERVER_EXCEPTION ++ marshal u32 code ++ string_bytes name
  ++ string_bytes message ++ string_bytes stack_trace ++ marshal bool_ 0.

Lemma exception_write_bytes error st e :
  ok error st = true -> write e error st = Ok (e ++ bytes_of error st).
Proof.
  unfold ok, write, bytes_of. destruct (fields error st) as [[[code name] message] trace].
  intros Hok. split_ands. assert (in_u 64 SERVER_EXCEPTION = true) by done.
  do 5 encode_field. rewrite write_ok. by rewrite <- !app_assoc.
Qed.

Lemma exception_client_reads {P : Profile} {R} `{ReadLaws R} error st :
  ok error st = true ->
  parses (R:=R) client_read (bytes_of error st) (SERVER_EXCEPTION, fields error st, 0).
Proof.
  unfold ok, client_read, bytes_of. destruct (fields error st) as [[[code name] message] trace].
  intros Hok. split_ands. assert (in_u 64 SERVER_EXCEPTION = true) by done.
  assert (prim_ok bool_ 0 = true) by done.
  do 5 parse_field. parse_last.
Qed.
End ExceptionResponse.

Module Progress.
Record t := mk { rows : Z; bytes_ : Z; total_rows : Z }.

Definition write (self : t) (encoder : Encoder) (client_revision : Z) : Result Encoder :=
  encoder ← uvarint encoder SERVER_PROGRESS;
  encoder ← uvarint encoder (rows self);
  encoder ← uvarint encoder (bytes_ self);
  encoder ← uvarint encoder (total_rows self);
  if DBMS_MIN_REVISION_WITH_CLIENT_WRITE_INFO <=? client_revision then
    encoder ← uvarint encoder 0;
    uvarint encoder 0
  else Ok encoder.

Definition ok (p : t) : bool :=
  in_u 64 (rows p) && in_u 64 (bytes_ p) && in_u 64 (total_rows p).

(** The reference client of revision [rev]: with the rows and bytes written
    when it knows them. *)
Definition client_read {P : Profile} {R} `{Read R} (rev : Z) : rd R (Z * t * option (Z * Z)) :=
  packet ← read_uvarint;
  rows ← read_uvarint;
  bytes_ ← read_uvarint;
  total_rows ← read_uvarint;
  if DBMS_MIN_REVISION_WITH_CLIENT_WRITE_INFO <=? rev then
    wrows ← read_uvarint;
    wbytes ← read_uvarint;
    mret (packet, mk rows bytes_ total_rows, Some (wrows, wbytes))
  else mret (packet, mk rows bytes_ total_rows, None).

Definition bytes_of (rev : Z) (p : t) : bytes :=
  uvarint_bytes SERVER_PROGRESS ++ uvarint_bytes (rows p) ++ uvarint_bytes (bytes_ p)
  ++ uvarint_bytes (total_rows p)
  ++ (if DBMS_MIN_REVISION_WITH_CLIENT_WRITE_INFO <=? rev
      then uvarint_bytes 0 ++ uvarint_bytes 0 else []).

Lemma progress_write_bytes p e rev :
  ok p = true -> write p e rev = Ok (e ++ bytes_of rev p).
Proof.
  intros Hok. unfold ok in Hok. split_ands. unfold write, bytes_of.
  assert (in_u 64 SERVER_PROGRESS = true) by done. assert (in_u 64 0 = true) by done.
  do 4 encode_field. case_match; [|by rewrite app_nil_r, <- !app_assoc].
  encode_field. rewrite uvarint_ok by done. by rewrite <- !app_assoc.
Qed.

Lemma progress_client_reads {P : Profile} {R} `{ReadLaws R} p rev :
  ok p = true ->
  parses (R:=R) (client_read rev) (bytes_of rev p)
    (SERVER_PROGRESS, p,
     if DBMS_MIN_REVISION_WITH_CLIENT_WRITE_INFO <=? rev then Some (0, 0) else None).
Proof.
  intros Hok. unfold ok in Hok. split_ands. unfold client_read, bytes_of.
  assert (in_u 64 SERVER_PROGRESS = true) by done. assert (in_u 64 0 = true) by done.
  destruct p as [r b t]; cbn [rows bytes_ total_rows] in *.
  do 4 parse_field. case_match; [|apply parses_ret].
  parse_field. parse_last.
Qed.
End Progress.
