(* ===== verification/SqlType.v ===== *)
(** * Column types ([types/mod.rs], [types/stat_buffer.rs])

    [SqlType], how a type is written ([to_string]), its nesting [level] and the
    type of each primitive.  A [&'static SqlType] is the type it points to: the
    cache behind it hands out references to equal values.

    Time zones come from the crate [chrono_tz], dates and instants from
    [chrono]; the class [ChronoTz] is what the code uses of them. *)

From S2P Require Import Prelude RustStd Errors Scalars.
Local Open Scope Z_scope.

(** ** Time zones and instants *)

Class ChronoTz := {
  (** [chrono_tz::Tz], its [{:?}] text, its [FromStr] and [Tz::Zulu] *)
  Tz : Type;
  Tz_eq_dec :: EqDecision Tz;
  tz_debug : Tz -> bytes;
  tz_parse : bytes -> bytes + Tz;
  Zulu : Tz;
  (** [DateTime<Tz>] and [tz.timestamp(secs, nsecs)], [None] when it panics *)
  DateTime : Type;
  tz_timestamp : Tz -> Z -> Z -> option DateTime;
  dt_timezone : DateTime -> Tz;
  dt_with_timezone : DateTime -> Tz -> DateTime;
  (** [timestamp()] and [timestamp_nanos()] ([None] on overflow) *)
  dt_timestamp : DateTime -> Z;
  dt_timestamp_nanos : DateTime -> option Z;
  (** [DateTime<Tz>] and [Date<Tz>] are compared with [==]. *)
  dt_eqb : DateTime -> DateTime -> bool;
  (** [Date<Tz>], [date()] (the local day), [timezone()], [num_days_from_ce()] *)
  AppDate : Type;
  dt_date : DateTime -> AppDate;
  date_timezone : AppDate -> Tz;
  num_days_from_ce : AppDate -> Z;
  date_eqb : AppDate -> AppDate -> bool
}.

(** ** Types *)

Section SqlType.
Context `{ChronoTz}.

Inductive DateTimeType :=
| DateTime32
| DateTime64 (precision : Z) (tz : Tz)
| Chrono.

Inductive SqlType :=
| UInt8 | UInt16 | UInt32 | UInt64
| Int8 | Int16 | Int32 | Int64
| String_
| FixedString (str_len : Z)
| Float32 | Float64
| Date
| DateTime_ (d : DateTimeType)
| Ipv4 | Ipv6 | Uuid
| Nullable (inner : SqlType)
| Array (inner : SqlType)
| Decimal (precision scale : Z)
| Enum8 (values : list (bytes * Z))
| Enum16 (values : list (bytes * Z)).

#[global] Instance DateTimeType_eq_dec : EqDecision DateTimeType.
Proof. solve_decision. Defined.
#[global] Instance SqlType_eq_dec : EqDecision SqlType.
Proof. solve_decision. Defined.

Definition is_datetime (t : SqlType) : bool :=
  match t with DateTime_ _ => true | _ => false end.

(** [format!("'{}' = {}", name, value)]. *)
Definition enum_item (nv : bytes * Z) : bytes :=
  lit "'" ++ nv.1 ++ lit "' = " ++ show_dec nv.2.

Fixpoint to_string (t : SqlType) : bytes :=
  match t with
  | UInt8 => lit "UInt8"
  | UInt16 => lit "UInt16"
  | UInt32 => lit "UInt32"
  | UInt64 => lit "UInt64"
  | Int8 => lit "Int8"
  | Int16 => lit "Int16"
  | Int32 => lit "Int32"
  | Int64 => lit "Int64"
  | String_ => lit "String"
  | FixedString str_len => lit "FixedString(" ++ show_dec str_len ++ lit ")"
  | Float32 => lit "Float32"
  | Float64 => lit "Float64"
  | Date => lit "Date"
  | DateTime_ (DateTime64 precision tz) =>
    lit "DateTime64(" ++ show_dec precision ++ lit ", '" ++ tz_debug tz ++ lit "')"
  | DateTime_ _ => lit "DateTime"
  | Ipv4 => lit "IPv4"
  | Ipv6 => lit "IPv6"
  | Uuid => lit "UUID"
  | Nullable nested => lit "Nullable(" ++ to_string nested ++ lit ")"
  | Array nested => lit "Array(" ++ to_string nested ++ lit ")"
  | Decimal precision scale =>
    lit "Decimal(" ++ show_dec precision ++ lit ", " ++ show_dec scale ++ lit ")"
  | Enum8 values => lit "Enum8(" ++ join (lit ",") (enum_item <$> values) ++ lit ")"
  | Enum16 values => lit "Enum16(" ++ join (lit ",") (enum_item <$> values) ++ lit ")"
  end.

(** A [u8]: 256 nested arrays overflow it. *)
Fixpoint level `{Profile} (t : SqlType) : Result Z :=
  match t with
  | Nullable inner | Array inner => l ← level inner; arith_u 8 (1 + l)
  | _ => Ok 0
  end.

(** How deep a type is nested. *)
Fixpoint depth (t : SqlType) : Z :=
  match t with
  | Nullable inner | Array inner => 1 + depth inner
  | _ => 0
  end.

Lemma depth_nonneg t : 0 <= depth t.
Proof. induction t; cbn; lia. Qed.

Lemma level_depth {P : Profile} t : depth t < 256 -> level t = Ok (depth t).
Proof.
  induction t; intros Hd; try done; cbn in *.
  - rewrite IHt by lia. cbn. apply arith_u_ok, in_u_spec. pose proof (depth_nonneg t). lia.
  - rewrite IHt by lia. cbn. apply arith_u_ok, in_u_spec. pose proof (depth_nonneg t). lia.
Qed.

(** ** The types of the primitives *)

(** [StatBuffer::sql_type]: [unimplemented!] for [bool]. *)
Definition prim_sql_type {E} (t : prim) : outcome E SqlType :=
  match t with
  | u8 => Ok UInt8 | u16 => Ok UInt16 | u32 => Ok UInt32 | u64 => Ok UInt64
  | i8 => Ok Int8 | i16 => Ok Int16 | i32 => Ok Int32 | i64 => Ok Int64
  | f32 => Ok Float32 | f64 => Ok Float64
  | bool_ => Panic
  end.

(** The type of a [VectorColumnData<T>]; there is none of [bool]s. *)
Definition vector_sql_type (t : prim) : SqlType :=
  match t with
  | u8 | bool_ => UInt8 | u16 => UInt16 | u32 => UInt32 | u64 => UInt64
  | i8 => Int8 | i16 => Int16 | i32 => Int32 | i64 => Int64
  | f32 => Float32 | f64 => Float64
  end.

(** The types that implement [HasSqlType]; of the primitives, all but [bool]. *)
Inductive has_sql_type := HPrim (t : prim) | HStr | HString | HDate | HDateTime.

Definition get_sql_type {E} (h : has_sql_type) : outcome E SqlType :=
  match h with
  | HPrim t => prim_sql_type t
  | HStr | HString => Ok String_
  | HDate => Ok Date
  | HDateTime => Ok (DateTime_ DateTime32)
  end.

(** Different primitives have different types. *)
Lemma prim_sql_type_inj t1 t2 s :
  prim_sql_type (E:=Error) t1 = Ok s -> prim_sql_type (E:=Error) t2 = Ok s -> t1 = t2.
Proof. destruct t1, t2; cbn; congruence. Qed.
End SqlType.
