(* ===== verification/TypeNames.v ===== *)
(** * The names of column types ([types/column/factory.rs])

    How the loader of a block decides what a column is from the type name that
    the client sent: [match_str!] over the plain names, then a chain of parsers.
    [classify] is that decision; what is done with it is in file Columns.

    Two of the parsers are written with the combinators of the crate [combine],
    which the class [Combine] stands for. *)

From S2P Require Import Prelude RustStd Errors Scalars SqlType.
Local Open Scope Z_scope.

(** ** Numbers of a decimal *)

Inductive NoBits := N32 | N64.

#[global] Instance NoBits_eq_dec : EqDecision NoBits.
Proof. solve_decision. Defined.

Definition from_precision (precision : Z) : option NoBits :=
  if precision <=? 9 then Some N32 else if precision <=? 18 then Some N64 else None.

(** ** Plain names *)

Inductive ip_version := V4 | V6 | VUuid.

#[global] Instance ip_version_eq_dec : EqDecision ip_version.
Proof. solve_decision. Defined.

(** The loaders of the types without parameters. *)
Inductive base := BVector (t : prim) | BString | BDate16 | BDate32 | BIp (v : ip_version).

#[global] Instance base_eq_dec : EqDecision base.
Proof. solve_decision. Defined.

(** [match_str!]: the first arm one of whose names is the argument. *)
Fixpoint match_str {A} (arg : bytes) (arms : list (list bytes * A)) : option A :=
  match arms with
  | [] => None
  | (names, doit) :: arms =>
    if existsb (eq_ignore_ascii_case arg) names then Some doit else match_str arg arms
  end.

Definition base_arms : list (list bytes * base) :=
  [ ([lit "UInt8"], BVector u8);
    ([lit "UInt16"], BVector u16);
    ([lit "UInt32"], BVector u32);
    ([lit "UInt64"], BVector u64);
    ([lit "Int8"; lit "TinyInt"], BVector i8);
    ([lit "Int16"; lit "SmallInt"], BVector i16);
    ([lit "Int32"; lit "Int"; lit "Integer"], BVector i32);
    ([lit "Int64"; lit "BigInt"], BVector i64);
    ([lit "Float32"; lit "Float"], BVector f32);
    ([lit "Float64"; lit "Double"], BVector f64);
    ([lit "String"; lit "Char"; lit "Varchar"; lit "Text"; lit "TinyText"; lit "MediumText";
      lit "LongText"; lit "Blob"; lit "TinyBlob"; lit "MediumBlob"; lit "LongBlob"], BString);
    ([lit "Date"], BDate16);
    ([lit "DateTime"; lit "Timestamp"], BDate32);
    ([lit "IPv4"], BIp V4);
    ([lit "IPv6"], BIp V6);
    ([lit "UUID"], BIp VUuid) ].

(** ** Types with parameters *)

(** [None] is the [None] of the code, [Panic] a slice out of range. *)
Section Parsers.
Context {E : Type}.

Definition parse_fixed_string (source : bytes) : outcome E (option Z) :=
  if negb (starts_with source (lit "FixedString")) then Ok None
  else
    inner_size ← str_slice source 12 (length source - 1);
    Ok (parse_uint (2 ^ 64 - 1) inner_size).

Definition parse_nullable_type (source : bytes) : outcome E (option bytes) :=
  if negb (starts_with source (lit "Nullable")) then Ok None
  else
    inner_type ← str_slice source 9 (length source - 1);
    if starts_with inner_type (lit "Nullable") then Ok None else Ok (Some inner_type).

Definition parse_array_type (source : bytes) : outcome E (option bytes) :=
  if negb (starts_with source (lit "Array")) then Ok None
  else
    inner_type ← str_slice source 6 (length source - 1);
    Ok (Some inner_type).

(** The [for] over the bytes of a decimal's name: [None] is its [return None],
    otherwise the bits and the last index of each parenthesis. *)
Fixpoint decimal_params (source : bytes) (idx : nat) (rest : bytes)
  (nobits : option NoBits) (params_indexes : option nat * option nat)
  : option (option NoBits * (option nat * option nat)) :=
  match rest with
  | [] => Some (nobits, params_indexes)
  | byte :: rest =>
    let close (pi : option nat * option nat) :=
      if decide (byte = x29) then (pi.1, Some idx) else pi in
    if decide (byte = x28) then
      let prefix := take idx source in
      if decide (prefix = lit "Decimal") then
        decimal_params source (idx + 1) rest nobits (close (Some idx, params_indexes.2))
      else if decide (prefix = lit "Decimal32") then
        decimal_params source (idx + 1) rest (Some N32) (close (Some idx, params_indexes.2))
      else if decide (prefix = lit "Decimal64") then
        decimal_params source (idx + 1) rest (Some N64) (close (Some idx, params_indexes.2))
      else None
    else decimal_params source (idx + 1) rest nobits (close params_indexes)
  end.

(** The [for] over the cells of [Decimal(p, s)]. *)
Fixpoint decimal_cells (cells : list bytes) (idx : nat) (precision scale : option Z)
  : option (option Z * option Z) :=
  match cells with
  | [] => Some (precision, scale)
  | cell :: cells =>
    match idx with
    | 0%nat => decimal_cells cells 1 (parse_uint 255 (trim cell)) scale
    | 1%nat => decimal_cells cells 2 precision (parse_uint 255 (trim cell))
    | _ => None
    end
  end.

Definition parse_decimal (source : bytes) : outcome E (option (Z * Z * NoBits)) :=
  if (length source <? 12)%nat then Ok None
  else if negb (starts_with source (lit "Decimal")) then Ok None
  else
    match decimal_params source 0 source None (None, None) with
    | Some (nobits, (Some start, Some end_)) =>
      params ← str_slice source (start + 1) end_;
      match nobits with
      | Some bits =>
        match parse_uint 255 params with
        | Some scale => Ok (Some (match bits with N32 => 9 | N64 => 18 end, scale, bits))
        | None => Ok None
        end
      | None =>
        match decimal_cells (split_on x2c params) 0 None None with
        | Some (Some precision, Some scale) =>
          if precision <? scale then Ok None
          else Ok ((fun nobits => (precision, scale, nobits)) <$> from_precision precision)
        | _ => Ok None
        end
      end
    | _ => Ok None
    end.
End Parsers.

(** ** Parsers written with [combine] *)

(** The combinators used, over [char]s as their encodings; [many] and [many1]
    collect into a [String].  [and_then] fails where its function does, and
    [parse] gives the value and the rest of the input. *)
Class Combine := {
  parser : Type -> Type;
  token : bytes -> parser bytes;
  any : parser bytes;
  none_of : list bytes -> parser bytes;
  digit_ : parser bytes;
  spaces : parser unit;
  string_ : bytes -> parser bytes;
  many : parser bytes -> parser bytes;
  many1 : parser bytes -> parser bytes;
  optional {A} : parser A -> parser (option A);
  sep_by1 {A B} : parser A -> parser B -> parser (list A);
  and_ {A B} : parser A -> parser B -> parser (A * B);
  with_ {A B} : parser A -> parser B -> parser B;
  skip {A B} : parser A -> parser B -> parser A;
  or_ {A} : parser A -> parser A -> parser A;
  and_then {A B} : parser A -> (A -> option B) -> parser B;
  parse {A} : parser A -> bytes -> option (A * bytes)
}.

Section CombineParsers.
Context `{Combine}.

Inductive EnumSize := Size8 | Size16.

Definition enum_integer : parser Z :=
  and_then (and_ (optional (token (lit "-"))) (many1 digit_))
    (fun '(x, digits) =>
       parse_sint (- 2 ^ 15) (2 ^ 15 - 1)
         (match x with Some x => x ++ digits | None => digits end)).

(** A quoted word with backslash escapes. *)
Definition word : parser bytes :=
  let word_syms := or_ (with_ (token (lit "\")) any) (none_of [lit "'"]) in
  skip (with_ (token (lit "'")) (many word_syms)) (token (lit "'")).

Definition parse_enum (size : EnumSize) (input : bytes) : option (list (bytes * Z)) :=
  let size := match size with Size8 => lit "Enum8" | Size16 => lit "Enum16" end in
  let pair_ :=
    skip (and_ (skip (skip (skip (with_ spaces word) spaces) (token (lit "="))) spaces)
            enum_integer) spaces in
  let enum_body := sep_by1 pair_ (token (lit ",")) in
  let parser :=
    skip (with_ (skip (skip (skip (with_ spaces (string_ size)) spaces) (token (lit "(")))
            spaces) enum_body) (token (lit ")")) in
  match parse parser input with
  | Some (res, remain) => if decide (remain = []) then Some res else None
  | None => None
  end.

(** The values of an [Enum8] are read as [i16] and cast. *)
Definition parse_enum8 (input : bytes) : option (list (bytes * Z)) :=
  match parse_enum Size8 input with
  | Some result => Some ((fun '(key, val) => (key, wraps 8 val)) <$> result)
  | None => None
  end.

Definition parse_enum16 (input : bytes) : option (list (bytes * Z)) :=
  parse_enum Size16 input.

Definition parse_date_time64 (source : bytes) : option (Z * option bytes) :=
  let integer := and_then (many1 digit_) (parse_uint (2 ^ 32 - 1)) in
  let timezone :=
    optional (with_ (skip (skip spaces (token (lit ","))) spaces) word) in
  let pair_ := skip (and_ (skip (with_ spaces integer) spaces) timezone) spaces in
  let parser :=
    skip (skip (with_ (skip (skip (skip (with_ spaces (string_ (lit "DateTime64"))) spaces)
            (token (lit "("))) spaces) pair_) spaces) (token (lit ")")) in
  match parse parser source with
  | Some (pair_, remain) => if decide (remain = []) then Some pair_ else None
  | None => None
  end.
End CombineParsers.

(** ** The decision *)

(** What the name of a type says: one constructor per branch of the chain. *)
Inductive named :=
| NBase (b : base)
| NNullable (inner_type : bytes)
| NFixedString (str_len : Z)
| NArray (inner_type : bytes)
| NDecimal (precision scale : Z) (nobits : NoBits)
| NEnum8 (items : list (bytes * Z))
| NEnum16 (items : list (bytes * Z))
| NDateTime64 (precision : Z) (timezone : option bytes).

Definition unsupported (type_name : bytes) : Error :=
  from_string (lit "Unsupported column type " ++ [x22] ++ type_name ++ [x22] ++ lit ".").

Section Classify.
Context `{Combine}.

Definition classify (type_name : bytes) : Result named :=
  match match_str type_name base_arms with
  | Some b => Ok (NBase b)
  | None =>
    nullable ← parse_nullable_type type_name;
    match nullable with
    | Some inner_type => Ok (NNullable inner_type)
    | None =>
      fixed ← parse_fixed_string type_name;
      match fixed with
      | Some str_len => Ok (NFixedString str_len)
      | None =>
        array ← parse_array_type type_name;
        match array with
        | Some inner_type => Ok (NArray inner_type)
        | None =>
          decimal ← parse_decimal type_name;
          match decimal with
          | Some (precision, scale, nobits) => Ok (NDecimal precision scale nobits)
          | None =>
            match parse_enum8 type_name with
            | Some items => Ok (NEnum8 items)
            | None =>
              match parse_enum16 type_name with
              | Some items => Ok (NEnum16 items)
              | None =>
                match parse_date_time64 type_name with
                | Some (precision, timezone) => Ok (NDateTime64 precision timezone)
                | None => Err (unsupported type_name)
                end
              end
            end
          end
        end
      end
    end
  end.
End Classify.

(** A nested name is shorter than the name around it. *)
Lemma str_slice_length {E} s a b t :
  str_slice (E:=E) s a b = Ok t -> (length t <= length s - a)%nat /\ (a <= b)%nat.
Proof.
  unfold str_slice. case_match eqn:Hb; [|done]. intros [= <-].
  rewrite length_take, length_drop. apply andb_true_iff in Hb as [Hb _].
  apply andb_true_iff in Hb as [Hb%bool_decide_eq_true _]. lia.
Qed.

Lemma str_slice_fuel {E} s a b : str_slice (E:=E) s a b <> OutOfFuel.
Proof. unfold str_slice. by case_match. Qed.

Lemma bind_no_fuel {E A B} (m : outcome E A) (f : A -> outcome E B) :
  m <> OutOfFuel -> (forall a, f a <> OutOfFuel) -> m ≫= f <> OutOfFuel.
Proof. destruct m; cbn; auto. Qed.

Lemma parse_decimal_fuel {E} s : parse_decimal (E:=E) s <> OutOfFuel.
Proof.
  unfold parse_decimal. repeat (case_match; try done).
  all: apply bind_no_fuel; [apply str_slice_fuel|intros]; by repeat case_match.
Qed.

Lemma classify_fuel `{Combine} name : classify name <> OutOfFuel.
Proof.
  unfold classify. case_match; [done|].
  apply bind_no_fuel.
  { unfold parse_nullable_type. case_match; [done|].
    apply bind_no_fuel; [apply str_slice_fuel|intros; by case_match]. }
  intros [|]; [done|]. apply bind_no_fuel.
  { unfold parse_fixed_string. case_match; [done|]. by apply bind_no_fuel; [apply str_slice_fuel|]. }
  intros [|]; [done|]. apply bind_no_fuel.
  { unfold parse_array_type. case_match; [done|]. by apply bind_no_fuel; [apply str_slice_fuel|]. }
  intros [|]; [done|]. apply bind_no_fuel; [apply parse_decimal_fuel|].
  intros [[[??]?]|]; by repeat case_match.
Qed.

Lemma classify_nested `{Combine} name inner :
  classify name = Ok (NNullable inner) \/ classify name = Ok (NArray inner) ->
  (length inner < length name)%nat.
Proof.
  unfold classify. case_match; [intros [|]; done|]. rewrite !bind_Ok.
  assert (parse_nullable_type (E:=Error) name = Ok (Some inner) ->
    (length inner < length name)%nat) as Hn.
  { unfold parse_nullable_type. case_match; [done|]. rewrite bind_Ok.
    intros (t & [??]%str_slice_length & Ht). case_match; [done|]. injection Ht as ->. lia. }
  assert (parse_array_type (E:=Error) name = Ok (Some inner) ->
    (length inner < length name)%nat) as Ha.
  { unfold parse_array_type. case_match; [done|]. rewrite bind_Ok.
    intros (t & [??]%str_slice_length & [= ->]). lia. }
  intros [(n & Hpn & Hr)|(n & Hpn & Hr)]; destruct n as [i|]; simplify_eq; auto.
  all: apply bind_Ok in Hr as (f & _ & Hr); destruct f; [done|].
  all: apply bind_Ok in Hr as (a & Hpa & Hr); destruct a; simplify_eq; auto.
  all: apply bind_Ok in Hr as (d & _ & Hr); destruct d as [[[??]?]|]; by repeat case_match.
Qed.

(** ** Names that the printer produces *)

Section Printed.
Context {E : Type}.

(** No name of a plain type continues as a name with parameters does. *)
Lemma match_str_params s :
  match_str (lit "Nullable(" ++ s) base_arms = None /\
  match_str (lit "FixedString(" ++ s) base_arms = None /\
  match_str (lit "Array(" ++ s) base_arms = None /\
  match_str (lit "Decimal(" ++ s) base_arms = None /\
  match_str (lit "Enum8(" ++ s) base_arms = None /\
  match_str (lit "Enum16(" ++ s) base_arms = None.
Proof. repeat split; vm_compute; reflexivity. Qed.

(** The first byte of a name is not inside a character. *)
Definition head_ok (s : bytes) : bool :=
  match s with [] => false | b :: _ => negb (is_cont b) end.

Lemma str_slice_inner p s n :
  n = length p -> head_ok s = true ->
  str_slice (E:=E) (p ++ s ++ lit ")") n (length (p ++ s ++ lit ")") - 1) = Ok s.
Proof.
  intros -> Hs. unfold str_slice. rewrite !length_app. change (length (lit ")")) with 1%nat.
  replace (length p + (length s + 1) - 1)%nat with (length p + length s)%nat by lia.
  destruct s as [|b s]; [done|]. cbn in Hs.
  assert (is_char_boundary (p ++ (b :: s) ++ lit ")") (length p) = true) as ->.
  { unfold is_char_boundary. rewrite lookup_app_r, Nat.sub_diag by lia. cbn.
    rewrite Hs. apply orb_true_r. }
  assert (is_char_boundary (p ++ (b :: s) ++ lit ")") (length p + length (b :: s)) = true) as ->.
  { unfold is_char_boundary. rewrite lookup_app_r by lia.
    replace (length p + length (b :: s) - length p)%nat with (length (b :: s) + 0)%nat by lia.
    rewrite lookup_app_r by lia. rewrite Nat.add_comm, Nat.add_sub. cbn. apply orb_true_r. }
  rewrite bool_decide_true by lia. cbn [andb]. f_equal.
  rewrite drop_app_length, take_app_le by lia.
  by rewrite take_ge by lia.
Qed.

Lemma parse_nullable_printed s :
  head_ok s = true -> starts_with s (lit "Nullable") = false ->
  parse_nullable_type (E:=E) (lit "Nullable(" ++ s ++ lit ")") = Ok (Some s).
Proof.
  intros Hs Hn. unfold parse_nullable_type.
  change (starts_with (lit "Nullable(" ++ s ++ lit ")") (lit "Nullable")) with true.
  rewrite (str_slice_inner (lit "Nullable(") s) by done.
  cbn [mbind outcome_bind negb]. by rewrite Hn.
Qed.

Lemma parse_array_printed s :
  head_ok s = true -> parse_array_type (E:=E) (lit "Array(" ++ s ++ lit ")") = Ok (Some s).
Proof.
  intros Hs. unfold parse_array_type.
  change (starts_with (lit "Array(" ++ s ++ lit ")") (lit "Array")) with true.
  by rewrite (str_slice_inner (lit "Array(") s).
Qed.

Lemma show_dec_head n : 0 <= n -> head_ok (show_dec n) = true.
Proof.
  intros Hn. pose proof (show_dec_digits n Hn) as Hd. pose proof (show_dec_nonempty n Hn) as Hne.
  destruct (show_dec n) as [|b s]; [done|]. cbn in *.
  apply andb_true_iff in Hd as [Hd _]. unfold is_digit, is_cont, in_range in *. lia.
Qed.

Lemma parse_fixed_string_printed n :
  0 <= n < 2 ^ 64 ->
  parse_fixed_string (E:=E) (lit "FixedString(" ++ show_dec n ++ lit ")") = Ok (Some n).
Proof.
  intros Hn. unfold parse_fixed_string.
  change (starts_with (lit "FixedString(" ++ show_dec n ++ lit ")") (lit "FixedString"))
    with true.
  rewrite (str_slice_inner (lit "FixedString(") (show_dec n)) by (done || (apply show_dec_head; lia)).
  cbn [mbind outcome_bind negb]. by rewrite parse_uint_show by lia.
Qed.

(** Every decimal type that has a representation. *)
Lemma parse_decimal_printed p s :
  0 <= s <= p -> p <= 18 ->
  parse_decimal (E:=E) (lit "Decimal(" ++ show_dec p ++ lit ", " ++ show_dec s ++ lit ")") =
  Ok ((fun nobits => (p, s, nobits)) <$> from_precision p).
Proof.
  intros Hs Hp.
  assert (Forall (fun p => Forall (fun s =>
      parse_decimal (E:=E) (lit "Decimal(" ++ show_dec p ++ lit ", " ++ show_dec s ++ lit ")") =
      Ok ((fun nobits => (p, s, nobits)) <$> from_precision p)) (seqZ 0 (p + 1))) (seqZ 0 19))
    as Hall.
  { repeat (constructor; [repeat (constructor; [vm_compute; reflexivity|]); constructor|]).
    constructor. }
  rewrite Forall_forall in Hall. specialize (Hall p ltac:(apply elem_of_seqZ; lia)).
  rewrite Forall_forall in Hall. apply Hall. apply elem_of_seqZ. lia.
Qed.
End Printed.

Section Roundtrip.
Context `{Combine, ChronoTz}.

Definition is_nullable (t : SqlType) : bool :=
  match t with Nullable _ => true | _ => false end.

(** The types whose name the server can read back: what a block may carry.  The
    names of an enum's values have to survive the enum parser. *)
Fixpoint printable (t : SqlType) : bool :=
  match t with
  | FixedString str_len => in_u 64 str_len
  | DateTime_ (DateTime64 _ _) => false
  | Nullable inner => printable inner && negb (is_nullable inner)
  | Array inner => printable inner
  | Decimal precision scale => (0 <=? scale) && (scale <=? precision) && (precision <=? 18)
  | Enum8 items => bool_decide (parse_enum8 (to_string t) = Some items)
  | Enum16 items =>
    bool_decide (parse_enum8 (to_string t) = None)
    && bool_decide (parse_enum16 (to_string t) = Some items)
  | _ => true
  end.

(** The branch that loads a column of type [t]. *)
Definition named_of (t : SqlType) : named :=
  match t with
  | UInt8 => NBase (BVector u8) | UInt16 => NBase (BVector u16)
  | UInt32 => NBase (BVector u32) | UInt64 => NBase (BVector u64)
  | Int8 => NBase (BVector i8) | Int16 => NBase (BVector i16)
  | Int32 => NBase (BVector i32) | Int64 => NBase (BVector i64)
  | Float32 => NBase (BVector f32) | Float64 => NBase (BVector f64)
  | String_ => NBase BString
  | FixedString n => NFixedString n
  | Date => NBase BDate16
  | DateTime_ (DateTime64 p tz) => NDateTime64 p (Some (tz_debug tz))
  | DateTime_ _ => NBase BDate32
  | Ipv4 => NBase (BIp V4) | Ipv6 => NBase (BIp V6) | Uuid => NBase (BIp VUuid)
  | Nullable inner => NNullable (to_string inner)
  | Array inner => NArray (to_string inner)
  | Decimal p s => NDecimal p s (default N64 (from_precision p))
  | Enum8 items => NEnum8 items
  | Enum16 items => NEnum16 items
  end.

Lemma to_string_head t : head_ok (to_string t) = true.
Proof. by destruct t as [| | | | | | | | | | | | |[]| | | | | | | |]. Qed.

Lemma to_string_not_nullable t :
  is_nullable t = false -> starts_with (to_string t) (lit "Nullable") = false.
Proof. by destruct t as [| | | | | | | | | | | | |[]| | | | | | | |]. Qed.

(** What a name that is neither of the four simple forms comes to. *)
Lemma classify_enum name :
  match_str name base_arms = None ->
  starts_with name (lit "Nullable") = false -> starts_with name (lit "FixedString") = false ->
  starts_with name (lit "Array") = false -> starts_with name (lit "Decimal") = false ->
  classify name =
  match parse_enum8 name with
  | Some items => Ok (NEnum8 items)
  | None =>
    match parse_enum16 name with
    | Some items => Ok (NEnum16 items)
    | None =>
      match parse_date_time64 name with
      | Some (precision, timezone) => Ok (NDateTime64 precision timezone)
      | None => Err (unsupported name)
      end
    end
  end.
Proof.
  intros Hm Hn Hf Ha Hd. unfold classify. rewrite Hm.
  unfold parse_nullable_type, parse_fixed_string, parse_array_type, parse_decimal.
  rewrite Hn, Hf, Ha, Hd. cbn [negb mbind outcome_bind].
  by destruct (length name <? 12)%nat.
Qed.

(** The printed name of a type selects the loader of that type. *)
Lemma classify_printed t :
  printable t = true -> classify (to_string t) = Ok (named_of t).
Proof.
  destruct t as [| | | | | | | | |n| | | |[]| | | |t|t|p s|items|items]; intros Hp;
    cbn [to_string printable named_of] in *; try discriminate;
    try lazymatch goal with |- _ = Ok (NBase _) => vm_compute; reflexivity end.
  - unfold classify. rewrite (proj1 (proj2 (match_str_params _))).
    change (parse_nullable_type _) with (Ok None : Result (option bytes)).
    cbn [mbind outcome_bind]. rewrite parse_fixed_string_printed by by apply in_u_spec. done.
  - apply andb_true_iff in Hp as [_ Hn%negb_true_iff]. unfold classify.
    rewrite (proj1 (match_str_params _)).
    rewrite parse_nullable_printed by auto using to_string_head, to_string_not_nullable. done.
  - unfold classify. rewrite (proj1 (proj2 (proj2 (match_str_params _)))).
    change (parse_nullable_type _) with (Ok None : Result (option bytes)).
    cbn [mbind outcome_bind].
    change (parse_fixed_string _) with (Ok None : Result (option Z)).
    cbn [mbind outcome_bind]. by rewrite parse_array_printed by apply to_string_head.
  - unfold classify. rewrite (proj1 (proj2 (proj2 (proj2 (match_str_params _))))).
    change (parse_nullable_type _) with (Ok None : Result (option bytes)).
    cbn [mbind outcome_bind].
    change (parse_fixed_string _) with (Ok None : Result (option Z)).
    cbn [mbind outcome_bind].
    change (parse_array_type _) with (Ok None : Result (option bytes)).
    cbn [mbind outcome_bind]. rewrite parse_decimal_printed by lia. cbn [mbind outcome_bind].
    unfold from_precision. destruct (p <=? 9); [done|]. by destruct (Z.leb_spec p 18); [|lia].
  - apply bool_decide_eq_true in Hp.
    rewrite classify_enum by (done || apply match_str_params). by rewrite Hp.
  - apply andb_true_iff in Hp as [H8%bool_decide_eq_true H16%bool_decide_eq_true].
    rewrite classify_enum by (done || apply match_str_params). by rewrite H8, H16.
Qed.
End Roundtrip.
