(* ===== verification/Floats.v ===== *)
(** * Floating-point numbers

    [f32] and [f64] as the code uses them: a float is its bits, [decode] and
    [encode] go to and from the floats of the standard library, the arithmetic is
    theirs, and [float_text] is what [Display] prints: the shortest digits that
    are read back as the number. *)

From Stdlib Require Import Floats.SpecFloat.
From S2P Require Import Prelude RustStd.
Local Open Scope Z_scope.

(** The width, the precision and the exponent of the infinities. *)
Record format := mkFormat { width : Z; prec : Z; emax : Z }.

Definition F32 : format := mkFormat 32 24 128.
Definition F64 : format := mkFormat 64 53 1024.

Section Format.
Context (f : format).

Definition hidden : Z := 2 ^ (prec f - 1).
Definition exponents : Z := 2 ^ (width f - prec f).
Definition min_exponent : Z := 3 - emax f - prec f.

Definition decode (bits : Z) : spec_float :=
  let s := Z.testbit bits (width f - 1) in
  let e := Z.shiftr bits (prec f - 1) mod exponents in
  let m := bits mod hidden in
  if e =? exponents - 1 then (if m =? 0 then S754_infinity s else S754_nan)
  else
    let m := if e =? 0 then m else m + hidden in
    match m with
    | Z.pos p => S754_finite s p (Z.max e 1 + min_exponent - 1)
    | _ => S754_zero s
    end.

Definition sign_bit (s : bool) : Z := if s then 2 ^ (width f - 1) else 0.

(** A NaN is the quiet NaN. *)
Definition encode (x : spec_float) : Z :=
  match x with
  | S754_zero s => sign_bit s
  | S754_infinity s => sign_bit s + (exponents - 1) * hidden
  | S754_nan => (exponents - 1) * hidden + hidden / 2
  | S754_finite s m e =>
    sign_bit s + (if Z.pos m <? hidden then 0 else (e - min_exponent) * hidden) + Z.pos m
  end.

(** [z as f64]. *)
Definition of_Z (z : Z) : spec_float := binary_normalize (prec f) (emax f) z 0 false.

Definition float_mul : spec_float -> spec_float -> spec_float := SFmul (prec f) (emax f).
Definition float_div : spec_float -> spec_float -> spec_float := SFdiv (prec f) (emax f).

(** [x as i64]: towards zero, the nearest bound when it does not fit, NaN is 0. *)
Definition to_i64 (x : spec_float) : Z :=
  let clamp z := Z.max (- 2 ^ 63) (Z.min (2 ^ 63 - 1) z) in
  match x with
  | S754_zero _ | S754_nan => 0
  | S754_infinity s => if s then - 2 ^ 63 else 2 ^ 63 - 1
  | S754_finite s m e => clamp ((if s : bool then -1 else 1) * Z.shiftl (Z.pos m) e)
  end.

(** ** Display *)

(** The last digit goes up; a new digit when all of them were 9. *)
Fixpoint round_up (rev_digits : list Z) : list Z * bool :=
  match rev_digits with
  | [] => ([], true)
  | d :: ds =>
    if d =? 9 then let '(ds, carry) := round_up ds in (0 :: ds, carry) else (d + 1 :: ds, false)
  end.

(** The digits of [mant / scale] below 10, most significant first, until what is
    left is within [minus] below or [plus] above; [rev_digits]: the ones before. *)
Fixpoint shortest_digits (fuel : nat) (inclusive : bool) (mant minus plus scale : Z)
  (rev_digits : list Z) : list Z * bool :=
  match fuel with
  | O => (rev_digits, false)
  | S fuel =>
    let rev_digits := mant / scale :: rev_digits in
    let mant := mant mod scale in
    let down := if inclusive then mant <=? minus else mant <? minus in
    let up := if inclusive then scale <=? mant + plus else scale <? mant + plus in
    if down || up then
      if up && (negb down || (scale <=? 2 * mant)) then round_up rev_digits else (rev_digits, false)
    else shortest_digits fuel inclusive (10 * mant) (10 * minus) (10 * plus) scale rev_digits
  end.

(** The digits [d1 d2 ...] and the [k] of the shortest [0.d1d2... * 10^k] for
    [mant * 2^e], between the halfway points to its neighbours. *)
Definition format_shortest (inclusive : bool) (mant minus plus e : Z) : list Z * Z :=
  let k := Z.shiftr ((Z.log2_up (mant + plus) + e) * 1292913986) 32 in
  let up2 := 2 ^ Z.max e 0 in
  let up10 := 10 ^ Z.max (- k) 0 in
  let mant := mant * up2 * up10 in
  let minus := minus * up2 * up10 in
  let plus := plus * up2 * up10 in
  let scale := 2 ^ Z.max (- e) 0 * 10 ^ Z.max k 0 in
  let above := if inclusive then scale <=? mant + plus else scale <? mant + plus in
  let '(k, mant, minus, plus) :=
    if above then (k + 1, mant, minus, plus) else (k, 10 * mant, 10 * minus, 10 * plus) in
  let '(rev_digits, carry) := shortest_digits 20 inclusive mant minus plus scale [] in
  if carry : bool then (1 :: reverse rev_digits, k + 1) else (reverse rev_digits, k).

(** The digits with the point at [k]. *)
Definition digits_text (ds : list Z) (k : Z) : bytes :=
  let ds := digit <$> ds in
  if k <=? 0 then lit "0." ++ replicate (Z.to_nat (- k)) "0"%byte ++ ds
  else if k <? Z.of_nat (length ds) then take (Z.to_nat k) ds ++ lit "." ++ drop (Z.to_nat k) ds
  else ds ++ replicate (Z.to_nat k - length ds) "0"%byte.

(** A power of two has a nearer neighbour below. *)
Definition finite_text (m e : Z) : bytes :=
  let '(ds, k) :=
    if m <? hidden then format_shortest true (2 * m) 1 1 (e - 1)
    else if m =? hidden then format_shortest true (4 * m) 1 2 (e - 2)
    else format_shortest (Z.even m) (2 * m) 1 1 (e - 1) in
  digits_text ds k.

Definition sign_text (s : bool) : bytes := if s then lit "-" else [].

Definition float_text (bits : Z) : bytes :=
  match decode bits with
  | S754_nan => lit "NaN"
  | S754_infinity s => sign_text s ++ lit "inf"
  | S754_zero s => sign_text s ++ lit "0"
  | S754_finite s m e => sign_text s ++ finite_text (Z.pos m) e
  end.
End Format.

Example text_tenth : float_text F64 0x3FB999999999999A = lit "0.1".
Proof. vm_compute. reflexivity. Qed.
Example text_third : float_text F64 0x3FD5555555555555 = lit "0.3333333333333333".
Proof. vm_compute. reflexivity. Qed.
Example text_large : float_text F32 0x4B800000 = lit "16777216".
Proof. vm_compute. reflexivity. Qed.
Example text_least : float_text F32 1 = lit "0.000000000000000000000000000000000000000000001".
Proof. vm_compute. reflexivity. Qed.

(** ** Laws *)

(** A format that exists: the sign, the exponent and the mantissa fill the bits. *)
Record format_ok (f : format) : Prop := {
  fo_prec : 1 < prec f;
  fo_width : prec f + 1 < width f
}.

Lemma F32_ok : format_ok F32.
Proof. done. Qed.
Lemma F64_ok : format_ok F64.
Proof. done. Qed.

(** The bits of a float: sign, exponent, mantissa. *)
Lemma float_bits f bits :
  format_ok f -> 0 <= bits < 2 ^ width f ->
  bits = sign_bit f (Z.testbit bits (width f - 1)) +
         (Z.shiftr bits (prec f - 1) mod exponents f) * hidden f + bits mod hidden f.
Proof.
  intros [Hp Hw] Hb. unfold hidden, exponents, sign_bit.
  set (p := prec f - 1). set (w := width f - 1).
  replace (width f - prec f) with (w - p) by lia.
  assert (2 ^ w = 2 ^ p * 2 ^ (w - p)) as Hpow by (rewrite <- Z.pow_add_r by lia; f_equal; lia).
  assert (2 ^ width f = 2 * 2 ^ w) as Hwp by (rewrite <- Z.pow_succ_r by lia; f_equal; lia).
  assert (0 < 2 ^ p) by (apply Z.pow_pos_nonneg; lia).
  assert (0 < 2 ^ (w - p)) by (apply Z.pow_pos_nonneg; lia).
  rewrite Z.shiftr_div_pow2 by lia.
  pose proof (Z.testbit_true bits w ltac:(lia)) as Ht.
  assert (bits / 2 ^ p / 2 ^ (w - p) = bits / 2 ^ w) as Hd by (rewrite Z.div_div by lia; by rewrite Hpow).
  pose proof (Z.div_mod bits (2 ^ p) ltac:(lia)) as H1.
  pose proof (Z.div_mod (bits / 2 ^ p) (2 ^ (w - p)) ltac:(lia)) as H2. rewrite Hd in H2.
  assert (0 <= bits / 2 ^ w < 2) as Hq
    by (split; [apply Z.div_pos; lia|apply Z.div_lt_upper_bound; lia]).
  destruct (Z.testbit bits w).
  - assert (bits / 2 ^ w = 1) as Hq1.
    { assert (bits / 2 ^ w mod 2 = 1) as Hm by by apply Ht. rewrite Z.mod_small in Hm by lia. done. }
    rewrite Hq1 in H2. nia.
  - assert (bits / 2 ^ w = 0) as Hq0.
    { destruct (decide (bits / 2 ^ w = 1)) as [Heq|]; [|lia]. exfalso.
      enough (false = true) by done. apply Ht. by rewrite Heq. }
    rewrite Hq0 in H2. nia.
Qed.

(** Decoding loses nothing but the payload of a NaN. *)
Lemma encode_decode f bits :
  format_ok f -> 0 <= bits < 2 ^ width f -> decode f bits <> S754_nan ->
  encode f (decode f bits) = bits.
Proof.
  intros Hf Hb. pose proof (float_bits f bits Hf Hb) as Hbits. destruct Hf as [Hp Hw].
  unfold decode. set (s := Z.testbit bits (width f - 1)) in *.
  set (e := Z.shiftr bits (prec f - 1) mod exponents f) in *. set (m := bits mod hidden f) in *.
  assert (0 < hidden f) by (apply Z.pow_pos_nonneg; lia).
  assert (0 < exponents f) by (apply Z.pow_pos_nonneg; lia).
  assert (0 <= m < hidden f) by (apply Z.mod_pos_bound; lia).
  assert (0 <= e < exponents f) by (apply Z.mod_pos_bound; lia).
  clearbody s e m. destruct (Z.eqb_spec e (exponents f - 1)) as [He|He].
  - destruct (Z.eqb_spec m 0) as [Hm|Hm]; [|done]. intros _. cbn [encode]. lia.
  - destruct (Z.eqb_spec e 0) as [He0|He0].
    + destruct m as [|p|p]; [| |lia]; intros _; cbn [encode]; [nia|].
      replace (Z.pos p <? hidden f) with true by lia. nia.
    + destruct (m + hidden f) as [|p|p] eqn:Hm; [lia| |lia]. intros _. cbn [encode].
      replace (Z.pos p <? hidden f) with false by lia. rewrite <- Hm. nia.
Qed.
