(* ===== verification/DecimalNum.v ===== *)
(** * Decimal numbers ([types/decimal.rs])

    A decimal is an [i64] with a decimal scale; [value] is the number it stands
    for, as the pair of its numerator and the power of ten under it. *)

From S2P Require Import Prelude RustStd Errors Scalars TypeNames Floats.
Local Open Scope Z_scope.

Definition FACTORS10 : list Z :=
  [1; 10; 100; 1000; 10000; 100000; 1000000; 10000000; 100000000; 1000000000; 10000000000;
   100000000000; 1000000000000; 10000000000000; 100000000000000; 1000000000000000;
   10000000000000000; 100000000000000000; 1000000000000000000].

Module Decimal.
Record t := mk { underlying : Z; nobits : NoBits; precision : Z; scale : Z }.

#[global] Instance t_eq_dec : EqDecision t.
Proof. solve_decision. Defined.

Definition default : t := mk 0 N32 9 4.

(** The types that implement [Base], and the [x as $t] of the integers. *)
Inductive base := Bi8 | Bi16 | Bi32 | Bi64 | Bu8 | Bu16 | Bu32 | Bu64 | Bfloat (f : format).

Section Ops.
Context {P : Profile} {E : Type}.

Definition base_cast (b : base) (z : Z) : Z :=
  match b with
  | Bi8 => wraps 8 z | Bi16 => wraps 16 z | Bi32 => wraps 32 z | Bi64 => wraps 64 z
  | Bu8 => wrapu 8 z | Bu16 => wrapu 16 z | Bu32 => wrapu 32 z | Bu64 => wrapu 64 z
  | Bfloat f => encode f (of_Z f z)
  end.

(** [self * scale] and the cast to [i64]. *)
Definition base_mul (b : base) (self scale : Z) : outcome E Z :=
  match b with
  | Bi8 => arith_s 8 (self * scale) | Bi16 => arith_s 16 (self * scale)
  | Bi32 => arith_s 32 (self * scale) | Bi64 => arith_s 64 (self * scale)
  | Bu8 => arith_u 8 (self * scale) | Bu16 => arith_u 16 (self * scale)
  | Bu32 => arith_u 32 (self * scale)
  | Bu64 => p ← arith_u 64 (self * scale); Ok (wraps 64 p)
  | Bfloat f => Ok (to_i64 (float_mul f (decode f self) (decode f scale)))
  end.

(** [Base::scale]: [$cast(self * (scale as $t)) as i64]. *)
Definition base_scale (b : base) (self scale : Z) : outcome E Z :=
  base_mul b self (base_cast b scale).

(** [InternalResult::get], for [i32] and [i64]. *)
Definition internal (n : NoBits) (d : t) : Z :=
  match n with N32 => wraps 32 (underlying d) | N64 => underlying d end.

Definition new (underlying scale : Z) : outcome E t :=
  if 18 <? scale then Panic else Ok (mk underlying N64 18 scale).

Definition of_ (b : base) (source scale : Z) : outcome E t :=
  if 18 <? scale then Panic
  else
    f ← index FACTORS10 (Z.to_nat scale);
    underlying ← base_scale b source f;
    limit ← index FACTORS10 18;
    if limit <? underlying then Panic else Ok (mk underlying N64 18 scale).

(** [PartialEq::eq]. *)
Definition eq (self other : t) : outcome E bool :=
  match Z.compare (scale self) (scale other) with
  | Lt =>
    f ← index FACTORS10 (Z.to_nat (scale other - scale self));
    underlying' ← arith_s 64 (underlying self * f);
    Ok (underlying other =? underlying')
  | Eq => Ok (underlying self =? underlying other)
  | Gt =>
    f ← index FACTORS10 (Z.to_nat (scale self - scale other));
    underlying' ← arith_s 64 (underlying other * f);
    Ok (underlying self =? underlying')
  end.

Definition set_scale (self : t) (scale' : Z) : outcome E t :=
  match Z.compare scale' (scale self) with
  | Lt =>
    f ← index FACTORS10 (Z.to_nat (scale self - scale'));
    Ok (mk (Z.quot (underlying self) f) (nobits self) (precision self) scale')
  | Eq => Ok self
  | Gt =>
    f ← index FACTORS10 (Z.to_nat (scale' - scale self));
    underlying' ← arith_s 64 (underlying self * f);
    Ok (mk underlying' (nobits self) (precision self) scale')
  end.

(** [while r.len() < n { r.insert(0, '0') }]; [n] rounds are enough. *)
Fixpoint pad (fuel n : nat) (r : bytes) : bytes :=
  match fuel with
  | O => r
  | S fuel => if (length r <? n)%nat then pad fuel n (x30 :: r) else r
  end.

Definition decimal2str (decimal : t) : bytes :=
  let n := Z.to_nat (scale decimal) in
  let r := pad n n (show_dec (underlying decimal)) in
  let pos := (length r - n)%nat in
  let r := take pos r ++ x2e :: drop pos r in
  if starts_with r (lit ".") then x30 :: r else r.

(** [From<Decimal> for f32] and [for f64]. *)
Definition to_float (f : format) (value : t) : outcome E Z :=
  factor ← index FACTORS10 (Z.to_nat (scale value));
  Ok (encode f (float_div f (of_Z f (underlying value)) (of_Z f factor))).
End Ops.

Definition ok (d : t) : bool :=
  in_s 64 (underlying d) && (0 <=? scale d) && (scale d <=? 18).

(** The digits after the point: [n] of them. *)
Fixpoint last_digits (n : nat) (u : Z) : bytes :=
  match n with
  | O => []
  | S n => last_digits n (u / 10) ++ [digit (u mod 10)]
  end.

Section Laws.
Context {P : Profile} {E : Type}.

Lemma factors10 n : 0 <= n <= 18 -> index (E:=E) FACTORS10 (Z.to_nat n) = Ok (10 ^ n).
Proof.
  intros Hn.
  assert (Forall (fun n => index (E:=E) FACTORS10 (Z.to_nat n) = Ok (10 ^ n)) (seqZ 0 19))
    as Hall by (repeat (constructor; [reflexivity|]); constructor).
  rewrite Forall_forall in Hall. apply Hall, elem_of_seqZ. lia.
Qed.

(** Equality is equality of the numbers, unless scaling overflows. *)
Lemma eq_ok a b :
  ok a = true -> ok b = true ->
  in_s 64 (underlying a * 10 ^ (scale b - scale a)) = true ->
  in_s 64 (underlying b * 10 ^ (scale a - scale b)) = true ->
  eq (E:=E) a b =
  Ok (bool_decide (underlying a * 10 ^ scale b = underlying b * 10 ^ scale a)).
Proof.
  unfold ok. intros Ha Hb H1 H2. unfold eq.
  assert (forall x y, 0 <= x <= y ->
    10 ^ y = 10 ^ x * 10 ^ (y - x) /\ 0 < 10 ^ x) as Hpow.
  { intros x y Hxy. split; [|apply Z.pow_pos_nonneg; lia].
    rewrite <- Z.pow_add_r by lia. f_equal. lia. }
  destruct (Z.compare_spec (scale a) (scale b)) as [Hs|Hs|Hs].
  - f_equal. rewrite Hs. pose proof (Hpow (scale b) (scale b)).
    case_bool_decide; [apply Z.eqb_eq|apply Z.eqb_neq]; nia.
  - rewrite factors10 by lia. cbn. rewrite arith_s_ok by done. cbn. f_equal.
    destruct (Hpow (scale a) (scale b)) as [Hp ?]; [lia|]. rewrite Hp.
    case_bool_decide; [apply Z.eqb_eq|apply Z.eqb_neq]; nia.
  - rewrite factors10 by lia. cbn. rewrite arith_s_ok by done. cbn. f_equal.
    destruct (Hpow (scale b) (scale a)) as [Hp ?]; [lia|]. rewrite Hp.
    case_bool_decide; [apply Z.eqb_eq|apply Z.eqb_neq]; nia.
Qed.

(** Rescaling multiplies by a power of ten, or divides truncating. *)
Lemma set_scale_ok d s :
  ok d = true -> 0 <= s <= 18 ->
  in_s 64 (underlying d * 10 ^ (s - scale d)) = true ->
  set_scale (E:=E) d s =
  Ok (mk (if scale d <=? s then underlying d * 10 ^ (s - scale d)
          else Z.quot (underlying d) (10 ^ (scale d - s)))
         (nobits d) (precision d) s).
Proof.
  unfold ok. intros Hd Hs Hin. unfold set_scale.
  destruct (Z.compare_spec s (scale d)) as [->|Hlt|Hgt].
  - destruct (Z.leb_spec (scale d) (scale d)); [|lia]. rewrite Z.sub_diag, Z.mul_1_r.
    by destruct d.
  - rewrite factors10 by lia. cbn. by destruct (Z.leb_spec (scale d) s); [lia|].
  - rewrite factors10 by lia. cbn. rewrite arith_s_ok by done. cbn.
    by destruct (Z.leb_spec (scale d) s); [|lia].
Qed.
Lemma length_last_digits n u : length (last_digits n u) = n.
Proof. revert u. induction n as [|n IH]; intros u; [done|]. cbn. rewrite length_app, IH. cbn. lia. Qed.

Lemma pad_spec fuel n r :
  (n - length r <= fuel)%nat -> pad fuel n r = replicate (n - length r) x30 ++ r.
Proof.
  revert r. induction fuel as [|fuel IH]; intros r Hf; cbn [pad].
  - by replace (n - length r)%nat with 0%nat by lia.
  - destruct (Nat.ltb_spec (length r) n) as [Hl|].
    + rewrite IH by (cbn; lia). cbn [length].
      replace (n - length r)%nat with (S (n - S (length r))) by lia.
      by rewrite replicate_S_end, <- app_assoc.
    + by replace (n - length r)%nat with 0%nat by lia.
Qed.

Lemma pow10_S n : 10 ^ Z.of_nat (S n) = 10 * 10 ^ Z.of_nat n.
Proof. rewrite Nat2Z.inj_succ, Z.pow_succ_r by lia. lia. Qed.

(** A number is its quotient by [10^n] followed by its last [n] digits. *)
Lemma show_dec_split n u :
  (n = 0%nat /\ 0 <= u) \/ 10 ^ Z.of_nat n <= u ->
  show_dec u = show_dec (u / 10 ^ Z.of_nat n) ++ last_digits n u.
Proof.
  revert u. induction n as [|n IH]; intros u Hu.
  { by rewrite Z.div_1_r, app_nil_r. }
  destruct Hu as [[??]|Hu]; [done|]. pose proof (pow10_S n) as Hp.
  pose proof (Z.pow_pos_nonneg 10 (Z.of_nat n) ltac:(lia) ltac:(lia)).
  rewrite show_dec_snoc by lia. cbn [last_digits].
  rewrite (IH (u / 10)) by (right; apply Z.div_le_lower_bound; lia).
  rewrite Z.div_div, <- Hp by lia. by rewrite app_assoc.
Qed.

(** A small number padded with zeroes is its last digits. *)
Lemma show_dec_pad n u :
  0 <= u < 10 ^ Z.of_nat (S n) ->
  (length (show_dec u) <= S n)%nat /\
  replicate (S n - length (show_dec u)) x30 ++ show_dec u = last_digits (S n) u.
Proof.
  revert u. induction n as [|n IH]; intros u Hu.
  { change (10 ^ Z.of_nat 1) with 10 in Hu. rewrite show_dec_single by lia.
    cbn. rewrite Z.mod_small by lia. split; [lia|done]. }
  rewrite pow10_S in Hu. change (last_digits (S (S n)) u)
    with (last_digits (S n) (u / 10) ++ [digit (u mod 10)]).
  destruct (Z.lt_ge_cases u 10) as [Hlt|Hge].
  - rewrite (Z.div_small u 10), (Z.mod_small u 10) by lia.
    destruct (IH 0) as [_ <-]; [lia|]. rewrite !show_dec_single by lia.
    split; [cbn; lia|]. change (digit 0) with x30. cbn [length].
    replace (S (S n) - 1)%nat with (S (S n - 1)) by lia. by rewrite replicate_S_end.
  - destruct (IH (u / 10)) as [Hl <-].
    { split; [apply Z.div_pos; lia|apply Z.div_lt_upper_bound; lia]. }
    rewrite (show_dec_snoc u), length_app by lia. cbn [length].
    split; [lia|]. rewrite app_assoc. do 3 f_equal. lia.
Qed.

(** The text of a non-negative decimal: integer part, point, [scale] digits. *)
Lemma decimal2str_nonneg d :
  0 <= underlying d -> 0 <= scale d ->
  decimal2str d =
  show_dec (underlying d / 10 ^ scale d) ++ lit "." ++
  last_digits (Z.to_nat (scale d)) (underlying d).
Proof.
  intros Hu Hs. destruct (Z_of_nat_complete (scale d) Hs) as [n Hsc].
  unfold decimal2str. rewrite Hsc, Nat2Z.id, pad_spec by lia.
  set (u := underlying d) in *. clearbody u.
  assert ((n = 0%nat \/ 10 ^ Z.of_nat n <= u) \/ (0 < n)%nat /\ u < 10 ^ Z.of_nat n)
    as [Hn|[Hn Hlt]] by lia.
  - assert (show_dec u = show_dec (u / 10 ^ Z.of_nat n) ++ last_digits n u) as Hsp
      by (apply show_dec_split; lia).
    pose proof (length_last_digits n u) as Hl.
    assert (length (show_dec u) = length (show_dec (u / 10 ^ Z.of_nat n)) + n)%nat as Hlen
      by (rewrite Hsp, length_app, Hl; done).
    replace (n - length (show_dec u))%nat with 0%nat by lia. cbn [replicate app].
    replace (length (show_dec u) - n)%nat with (length (show_dec (u / 10 ^ Z.of_nat n))) by lia.
    rewrite Hsp, take_app_length, drop_app_length.
    assert (0 <= u / 10 ^ Z.of_nat n) as H0 by (apply Z.div_pos; lia).
    pose proof (show_dec_digits _ H0) as Hd. pose proof (show_dec_nonempty _ H0).
    destruct (show_dec (u / 10 ^ Z.of_nat n)) as [|b l]; [done|]. cbn [forallb] in Hd. cbn [app]. change (lit ".") with [x2e].
    rewrite starts_with_cons, bool_decide_false by (by intros <-). done.
  - destruct n as [|n]; [lia|]. destruct (show_dec_pad n u) as [Hl Hp]; [lia|].
    rewrite Hp, length_last_digits, Nat.sub_diag. cbn [take drop app].
    by rewrite Z.div_small by lia.
Qed.
End Laws.
End Decimal.

Example of_tenths : @Decimal.of_ false unit (Decimal.Bfloat F64) 0x3FC999999999999A 1 = Ok (Decimal.mk 2 N64 18 1).
Proof. vm_compute. reflexivity. Qed.
Example of_single :
  (d ← @Decimal.of_ false unit (Decimal.Bfloat F32) 0x40066666 4; Ok (Decimal.decimal2str d)) = Ok (lit "2.1000").
Proof. vm_compute. reflexivity. Qed.
Example into_double : @Decimal.to_float unit F64 (Decimal.mk 20000 N64 18 4) = Ok 0x4000000000000000.
Proof. vm_compute. reflexivity. Qed.
