(* ===== verification/Values.v ===== *)
(** * Values ([types/value.rs], [types/value_ref.rs], [types/from_sql.rs],
      [types/date_converter.rs])

    A [Value] is a cell that owns its data, a [ValueRef] one that borrows it
    from a column; [FromSql] converts a cell to a Rust type.  Compare.v compares
    them; printing them (which prints floats and instants) is not modelled. *)

From S2P Require Import Prelude RustStd Errors Scalars SqlType TypeNames DecimalNum.
Local Open Scope Z_scope.

(** [types::column::Either]. *)
Inductive Either (L R : Type) := Left (l : L) | Right (r : R).
Arguments Left {L R} l.
Arguments Right {L R} r.

#[local] Set Warnings "-register-all".

Module Value.
Inductive t `{ChronoTz} :=
| UInt8 (v : Z) | UInt16 (v : Z) | UInt32 (v : Z) | UInt64 (v : Z)
| Int8 (v : Z) | Int16 (v : Z) | Int32 (v : Z) | Int64 (v : Z)
| String_ (v : bytes)
| Float32 (v : Z) | Float64 (v : Z)
| Date (v : Z) (tz : Tz)
| DateTime_ (v : Z) (tz : Tz)
| DateTime64 (v : Z) (params : Z * Tz)
| Ipv4 (v : bytes) | Ipv6 (v : bytes) | Uuid (v : bytes)
| Nullable (e : Either SqlType t)
| Array (ty : SqlType) (vs : list t)
| Decimal_ (v : Decimal.t)
| Enum8 (values : list (bytes * Z)) (v : Z)
| Enum16 (values : list (bytes * Z)) (v : Z).
End Value.

Module ValueRef.
Inductive t `{ChronoTz} :=
| UInt8 (v : Z) | UInt16 (v : Z) | UInt32 (v : Z) | UInt64 (v : Z)
| Int8 (v : Z) | Int16 (v : Z) | Int32 (v : Z) | Int64 (v : Z)
| String_ (v : bytes)
| Float32 (v : Z) | Float64 (v : Z)
| Date (v : Z) (tz : Tz)
| DateTime_ (v : Z) (tz : Tz)
| DateTime64 (v : Z) (params : Z * Tz)
| Nullable (e : Either SqlType t)
| Array (ty : SqlType) (vs : list t)
| Decimal_ (v : Decimal.t)
| Ipv4 (v : bytes) | Ipv6 (v : bytes) | Uuid (v : bytes)
| Enum16 (values : list (bytes * Z)) (v : Z)
| Enum8 (values : list (bytes * Z)) (v : Z).
End ValueRef.

Section Values.
Context {P : Profile} `{ChronoTz}.

(** ** Conversions between the two *)

(** [impl From<ValueRef> for Value]. *)
Fixpoint to_value (borrowed : ValueRef.t) : Value.t :=
  match borrowed with
  | ValueRef.UInt8 v => Value.UInt8 v
  | ValueRef.UInt16 v => Value.UInt16 v
  | ValueRef.UInt32 v => Value.UInt32 v
  | ValueRef.UInt64 v => Value.UInt64 v
  | ValueRef.Int8 v => Value.Int8 v
  | ValueRef.Int16 v => Value.Int16 v
  | ValueRef.Int32 v => Value.Int32 v
  | ValueRef.Int64 v => Value.Int64 v
  | ValueRef.String_ v => Value.String_ v
  | ValueRef.Float32 v => Value.Float32 v
  | ValueRef.Float64 v => Value.Float64 v
  | ValueRef.Date v tz => Value.Date v tz
  | ValueRef.DateTime_ v tz => Value.DateTime_ v tz
  | ValueRef.Nullable (Left sql_type) => Value.Nullable (Left sql_type)
  | ValueRef.Nullable (Right v) => Value.Nullable (Right (to_value v))
  | ValueRef.Array ty vs => Value.Array ty (map to_value vs)
  | ValueRef.Decimal_ v => Value.Decimal_ v
  | ValueRef.Enum8 e_v v => Value.Enum8 e_v v
  | ValueRef.Enum16 e_v v => Value.Enum16 e_v v
  | ValueRef.Ipv4 v => Value.Ipv4 v
  | ValueRef.Ipv6 v => Value.Ipv6 v
  | ValueRef.Uuid v => Value.Uuid v
  | ValueRef.DateTime64 v params => Value.DateTime64 v params
  end.

(** [impl From<&Value> for ValueRef]. *)
Fixpoint to_value_ref (value : Value.t) : ValueRef.t :=
  match value with
  | Value.UInt8 v => ValueRef.UInt8 v
  | Value.UInt16 v => ValueRef.UInt16 v
  | Value.UInt32 v => ValueRef.UInt32 v
  | Value.UInt64 v => ValueRef.UInt64 v
  | Value.Int8 v => ValueRef.Int8 v
  | Value.Int16 v => ValueRef.Int16 v
  | Value.Int32 v => ValueRef.Int32 v
  | Value.Int64 v => ValueRef.Int64 v
  | Value.String_ v => ValueRef.String_ v
  | Value.Float32 v => ValueRef.Float32 v
  | Value.Float64 v => ValueRef.Float64 v
  | Value.Date v tz => ValueRef.Date v tz
  | Value.DateTime_ v tz => ValueRef.DateTime_ v tz
  | Value.DateTime64 v params => ValueRef.DateTime64 v params
  | Value.Nullable (Left sql_type) => ValueRef.Nullable (Left sql_type)
  | Value.Nullable (Right v) => ValueRef.Nullable (Right (to_value_ref v))
  | Value.Array ty vs => ValueRef.Array ty (map to_value_ref vs)
  | Value.Decimal_ v => ValueRef.Decimal_ v
  | Value.Enum8 values v => ValueRef.Enum8 values v
  | Value.Enum16 values v => ValueRef.Enum16 values v
  | Value.Ipv4 v => ValueRef.Ipv4 v
  | Value.Ipv6 v => ValueRef.Ipv6 v
  | Value.Uuid v => ValueRef.Uuid v
  end.

(** ** The type of a value *)

(** [impl From<Value> for SqlType]. *)
Fixpoint value_sql_type (source : Value.t) : SqlType :=
  match source with
  | Value.UInt8 _ => UInt8
  | Value.UInt16 _ => UInt16
  | Value.UInt32 _ => UInt32
  | Value.UInt64 _ => UInt64
  | Value.Int8 _ => Int8
  | Value.Int16 _ => Int16
  | Value.Int32 _ => Int32
  | Value.Int64 _ => Int64
  | Value.String_ _ => String_
  | Value.Float32 _ => Float32
  | Value.Float64 _ => Float64
  | Value.Date _ _ => Date
  | Value.DateTime_ _ _ => DateTime_ DateTime32
  | Value.Nullable (Left ty) => Nullable ty
  | Value.Nullable (Right inner) => Nullable (value_sql_type inner)
  | Value.Array ty _ => Array ty
  | Value.Decimal_ v => Decimal (Decimal.precision v) (Decimal.scale v)
  | Value.Ipv4 _ => Ipv4
  | Value.Ipv6 _ => Ipv6
  | Value.Uuid _ => Uuid
  | Value.Enum8 values _ => Enum8 values
  | Value.Enum16 values _ => Enum16 values
  | Value.DateTime64 _ (precision, tz) => DateTime_ (DateTime64 precision tz)
  end.

(** [impl From<ValueRef> for SqlType]. *)
Fixpoint value_ref_sql_type (source : ValueRef.t) : SqlType :=
  match source with
  | ValueRef.UInt8 _ => UInt8
  | ValueRef.UInt16 _ => UInt16
  | ValueRef.UInt32 _ => UInt32
  | ValueRef.UInt64 _ => UInt64
  | ValueRef.Int8 _ => Int8
  | ValueRef.Int16 _ => Int16
  | ValueRef.Int32 _ => Int32
  | ValueRef.Int64 _ => Int64
  | ValueRef.String_ _ => String_
  | ValueRef.Float32 _ => Float32
  | ValueRef.Float64 _ => Float64
  | ValueRef.Date _ _ => Date
  | ValueRef.DateTime_ _ _ => DateTime_ DateTime32
  | ValueRef.Nullable (Left sql_type) => Nullable sql_type
  | ValueRef.Nullable (Right value_ref) => Nullable (value_ref_sql_type value_ref)
  | ValueRef.Array ty _ => Array ty
  | ValueRef.Decimal_ v => Decimal (Decimal.precision v) (Decimal.scale v)
  | ValueRef.Enum8 values _ => Enum8 values
  | ValueRef.Enum16 values _ => Enum16 values
  | ValueRef.Ipv4 _ => Ipv4
  | ValueRef.Ipv6 _ => Ipv6
  | ValueRef.Uuid _ => Uuid
  | ValueRef.DateTime64 _ (precision, tz) => DateTime_ (DateTime64 precision tz)
  end.

(** [DateConverter::to_date]. *)
Definition to_date16 (v : Z) (tz : Tz) : ValueRef.t := ValueRef.Date v tz.
Definition to_date32 (v : Z) (tz : Tz) : ValueRef.t := ValueRef.DateTime_ v tz.

(** [Value::default]. *)
Definition value_default (sql_type : SqlType) : Result Value.t :=
  match sql_type with
  | UInt8 => Ok (Value.UInt8 0)
  | UInt16 => Ok (Value.UInt16 0)
  | UInt32 => Ok (Value.UInt32 0)
  | UInt64 => Ok (Value.UInt64 0)
  | Int8 => Ok (Value.Int8 0)
  | Int16 => Ok (Value.Int16 0)
  | Int32 => Ok (Value.Int32 0)
  | Int64 => Ok (Value.Int64 0)
  | String_ => Ok (Value.String_ [])
  | FixedString str_len =>
    _ ← alloc 1 str_len; Ok (Value.String_ (replicate (Z.to_nat str_len) x00))
  | Float32 => Ok (Value.Float32 0)
  | Float64 => Ok (Value.Float64 0)
  | Date => Ok (to_value (to_date16 0 Zulu))
  | DateTime_ (DateTime64 _ _) => Ok (Value.DateTime64 0 (1, Zulu))
  | DateTime_ _ => Ok (to_value (to_date32 0 Zulu))
  | Nullable inner => Ok (Value.Nullable (Left inner))
  | Array inner => Ok (Value.Array inner [])
  | Decimal precision scale => Ok (Value.Decimal_ (Decimal.mk 0 N64 precision scale))
  | Ipv4 => Ok (Value.Ipv4 (replicate 4 x00))
  | Ipv6 => Ok (Value.Ipv6 (replicate 16 x00))
  | Uuid => Ok (Value.Uuid (replicate 16 x00))
  | Enum8 values => Ok (Value.Enum8 values 0)
  | Enum16 values => Ok (Value.Enum16 values 0)
  end.

(** ** Primitives *)

(** [From<T> for Value], for the primitives but [bool]. *)
Definition prim_value {E} (t : prim) (v : Z) : outcome E Value.t :=
  match t with
  | u8 => Ok (Value.UInt8 v) | u16 => Ok (Value.UInt16 v)
  | u32 => Ok (Value.UInt32 v) | u64 => Ok (Value.UInt64 v)
  | i8 => Ok (Value.Int8 v) | i16 => Ok (Value.Int16 v)
  | i32 => Ok (Value.Int32 v) | i64 => Ok (Value.Int64 v)
  | f32 => Ok (Value.Float32 v) | f64 => Ok (Value.Float64 v)
  | bool_ => Panic
  end.

(** [From<Value> for T]: any other variant panics. *)
Definition value_prim {E} (t : prim) (v : Value.t) : outcome E Z :=
  match t, v with
  | u8, Value.UInt8 x | u16, Value.UInt16 x | u32, Value.UInt32 x | u64, Value.UInt64 x
  | i8, Value.Int8 x | i16, Value.Int16 x | i32, Value.Int32 x | i64, Value.Int64 x
  | f32, Value.Float32 x | f64, Value.Float64 x => Ok x
  | _, _ => Panic
  end.

(** [From<ValueRef> for T]. *)
Definition value_ref_prim {E} (t : prim) (v : ValueRef.t) : outcome E Z :=
  match t, v with
  | u8, ValueRef.UInt8 x | u16, ValueRef.UInt16 x | u32, ValueRef.UInt32 x
  | u64, ValueRef.UInt64 x | i8, ValueRef.Int8 x | i16, ValueRef.Int16 x
  | i32, ValueRef.Int32 x | i64, ValueRef.Int64 x
  | f32, ValueRef.Float32 x | f64, ValueRef.Float64 x => Ok x
  | _, _ => Panic
  end.

(** ** Strings *)

(** [From<Value> for String] and [for Vec<u8>]. *)
Definition value_string {E} (v : Value.t) : outcome E bytes :=
  match v with
  | Value.String_ x => if utf8_ok x then Ok x else Panic
  | _ => Panic
  end.

Definition value_bytes {E} (v : Value.t) : outcome E bytes :=
  match v with Value.String_ bs => Ok bs | _ => Panic end.

(** The [InvalidType] error of a conversion to [dst]. *)
Definition invalid_type (value : ValueRef.t) (dst : bytes) : Error :=
  Error.FromSql (FromSqlError.InvalidType (to_string (value_ref_sql_type value)) dst).

Definition as_str (self : ValueRef.t) : Result bytes :=
  match self with
  | ValueRef.String_ t => str_from_utf8 t
  | _ => Err (invalid_type self (lit "&str"))
  end.

Definition as_string (self : ValueRef.t) : Result bytes := tmp ← as_str self; Ok tmp.

Definition as_bytes (self : ValueRef.t) : Result bytes :=
  match self with
  | ValueRef.String_ t => Ok t
  | _ => Err (invalid_type self (lit "&[u8]"))
  end.

(** ** Dates *)

(** [tz.timestamp(..)], which panics on what is not an instant. *)
Definition timestamp {E} (tz : Tz) (secs nsecs : Z) : outcome E DateTime :=
  unwrap (tz_timestamp tz secs nsecs).

(** [DateConverter::get_days]: the cast to [u16] wraps. *)
Definition get_days (date : AppDate) : Z := wrapu 16 (num_days_from_ce date - 719163).

(** [10.pow(9 - precision)], an [i64] power of a [u32] difference. *)
Definition pow10_9 {E} (precision : Z) : outcome E Z :=
  e ← arith_u 32 (9 - precision); arith_s 64 (10 ^ e).

(** [column::datetime64::from_datetime] and [to_datetime]. *)
Definition from_datetime {E} (time : DateTime) (precision : Z) : outcome E Z :=
  nanos ← unwrap (dt_timestamp_nanos time);
  p ← pow10_9 precision;
  if p =? 0 then Panic else Ok (Z.quot nanos p).

Definition to_datetime {E} (value precision : Z) (tz : Tz) : outcome E DateTime :=
  nano ← (if precision <? 19 then p ← pow10_9 precision; arith_s 64 (value * p) else Ok 0);
  let sec := Z.quot nano 1000000000 in
  let nsec := nano - sec * 1000000000 in
  timestamp tz sec (wrapu 32 nsec).

(** [From<Value> for AppDate] and [for AppDateTime]. *)
Definition value_date {E} (v : Value.t) : outcome E AppDate :=
  match v with
  | Value.Date x tz => time ← timestamp tz (x * 24 * 3600) 0; Ok (dt_date time)
  | _ => Panic
  end.

Definition value_datetime {E} (v : Value.t) : outcome E DateTime :=
  match v with
  | Value.DateTime_ u tz => timestamp tz u 0
  | Value.DateTime64 u (precision, tz) => to_datetime u precision tz
  | _ => Panic
  end.

(** [DateConverter::get_stamp]. *)
Definition get_stamp16 {E} (source : Value.t) : outcome E Z :=
  d ← value_date source; Ok (get_days d).
Definition get_stamp32 {E} (source : Value.t) : outcome E Z :=
  d ← value_datetime source; Ok (wrapu 32 (dt_timestamp d)).

(** ** FromSql *)

Definition FromSql (A : Type) : Type := ValueRef.t -> Result A.

Definition prim_name (t : prim) : bytes :=
  match t with
  | u8 => lit "u8" | u16 => lit "u16" | u32 => lit "u32" | u64 => lit "u64"
  | i8 => lit "i8" | i16 => lit "i16" | i32 => lit "i32" | i64 => lit "i64"
  | f32 => lit "f32" | f64 => lit "f64" | bool_ => lit "bool"
  end.

(** [from_sql_impl!]. *)
Definition from_sql_prim (t : prim) (value : ValueRef.t) : Result Z :=
  match value_ref_prim (E:=Error) t value with
  | Ok v => Ok v
  | _ => Err (invalid_type value (prim_name t))
  end.

Definition from_sql_decimal (value : ValueRef.t) : Result Decimal.t :=
  match value with
  | ValueRef.Decimal_ v => Ok v
  | _ => Err (invalid_type value (lit "Decimal"))
  end.

Definition from_sql_enum8 (value : ValueRef.t) : Result Z :=
  match value with
  | ValueRef.Enum8 _ v => Ok v
  | _ => Err (invalid_type value (lit "Enum8"))
  end.

Definition from_sql_enum16 (value : ValueRef.t) : Result Z :=
  match value with
  | ValueRef.Enum16 _ v => Ok v
  | _ => Err (invalid_type value (lit "Enum16"))
  end.

(** [&str] and [String], [&[u8]]. *)
Definition from_sql_str : FromSql bytes := as_str.
Definition from_sql_bytes : FromSql bytes := as_bytes.

(** The octets of an address; the wire has an IPv4 address reversed. *)
Definition decode_ipv4 (octets : bytes) : bytes := reverse octets.
Definition decode_ipv6 (octets : bytes) : bytes := octets.

Definition from_sql_ipv4 (value : ValueRef.t) : Result bytes :=
  match value with
  | ValueRef.Ipv4 ip => Ok (decode_ipv4 ip)
  | _ => Err (invalid_type value (lit "Ipv4"))
  end.

Definition from_sql_ipv6 (value : ValueRef.t) : Result bytes :=
  match value with
  | ValueRef.Ipv6 ip => Ok (decode_ipv6 ip)
  | _ => Err (invalid_type value (lit "Ipv6"))
  end.

(** Each half of a UUID is reversed on the wire. *)
Definition uuid_halves (row : bytes) : bytes :=
  reverse (take 8 row) ++ reverse (drop 8 row).

Definition from_sql_uuid (value : ValueRef.t) : Result bytes :=
  match value with
  | ValueRef.Uuid row => Ok (uuid_halves row)
  | _ => Err (invalid_type value (lit "Uuid"))
  end.

(** [Vec<u8>]: an array of bytes or a string. *)
Definition from_sql_vec_u8 (value : ValueRef.t) : Result bytes :=
  match value with
  | ValueRef.Array UInt8 vs =>
    xs ← (map_outcome (value_ref_prim u8) vs : Result (list Z)); Ok (map Z_to_byte xs)
  | _ => as_bytes value
  end.

(** [Vec<T>] for a primitive [T] but [u8]. *)
Definition from_sql_vec_prim (t : prim) (value : ValueRef.t) : Result (list Z) :=
  match value with
  | ValueRef.Array ty vs =>
    if decide (prim_sql_type (E:=Error) t = Ok ty) then map_outcome (value_ref_prim t) vs
    else Err (invalid_type value (prim_name t))
  | _ => Err (invalid_type value (prim_name t))
  end.

(** [Vec<&str>], [Vec<&[u8]>]. *)
Definition from_sql_vec_str (value : ValueRef.t) : Result (list bytes) :=
  match value with
  | ValueRef.Array String_ vs => map_outcome as_str vs
  | _ => Err (invalid_type value (lit "Vec<&'a str>"))
  end.

(** [Option<T>]; [dst] is the text of its error. *)
Definition from_sql_option {A} (dst : bytes) (from_sql : FromSql A)
  (value : ValueRef.t) : Result (option A) :=
  match value with
  | ValueRef.Nullable (Left _) => Ok None
  | ValueRef.Nullable (Right u) => v ← from_sql u; Ok (Some v)
  | _ => Err (invalid_type value dst)
  end.

Definition from_sql_date (value : ValueRef.t) : Result AppDate :=
  match value with
  | ValueRef.Date v tz => time ← timestamp tz (v * 24 * 3600) 0; Ok (dt_date time)
  | _ => Err (invalid_type value (lit "Date<Tz>"))
  end.

Definition from_sql_datetime (value : ValueRef.t) : Result DateTime :=
  match value with
  | ValueRef.DateTime_ v tz => timestamp tz v 0
  | ValueRef.DateTime64 v (precision, tz) => to_datetime v precision tz
  | _ => Err (invalid_type value (lit "DateTime<Tz>"))
  end.

(** ** Laws *)

(** Borrowing a value and owning it again gives it back, and conversely. *)
Lemma to_value_ref_to_value r : to_value_ref (to_value r) = r.
Proof.
  revert r. fix IH 1. intros [| | | | | | | | | | | | | |[ty|v]|ty vs| | | | | |];
    cbn; try reflexivity.
  - by rewrite IH.
  - f_equal. induction vs as [|v vs IHvs]; [done|]. cbn. by rewrite IH, IHvs.
Qed.

Lemma to_value_to_value_ref v : to_value (to_value_ref v) = v.
Proof.
  revert v. fix IH 1. intros [| | | | | | | | | | | | | | | | |[ty|v]|ty vs| | |];
    cbn; try reflexivity.
  - by rewrite IH.
  - f_equal. induction vs as [|v vs IHvs]; [done|]. cbn. by rewrite IH, IHvs.
Qed.

(** The two agree on the type of a cell. *)
Lemma to_value_sql_type r : value_sql_type (to_value r) = value_ref_sql_type r.
Proof.
  revert r. fix IH 1. intros [| | | | | | | | | | | | | |[ty|v]|ty vs| | | | | |];
    cbn; try reflexivity. by rewrite IH.
Qed.

(** The types whose cells say what type they have: a fixed string reads back as
    a string, and the default of a [DateTime64] has precision 1 and time zone
    [Zulu]. *)
Definition self_typed (t : SqlType) : bool :=
  match t with
  | FixedString _ | DateTime_ (DateTime64 _ _) | DateTime_ Chrono => false
  | _ => true
  end.

Lemma value_default_sql_type t v :
  self_typed t = true -> value_default t = Ok v -> value_sql_type v = t.
Proof. destruct t as [| | | | | | | | | | | | |[]| | | | | | | |]; cbn; naive_solver. Qed.

Lemma value_prim_prim_value {E} t x v :
  prim_value (E:=E) t x = Ok v -> value_prim (E:=E) t v = Ok x.
Proof. destruct t; cbn; naive_solver. Qed.

(** The halves of a UUID swapped twice. *)
Lemma uuid_halves_invol row : length row = 16%nat -> uuid_halves (uuid_halves row) = row.
Proof.
  intros Hl. unfold uuid_halves.
  assert (length (reverse (take 8 row)) = 8%nat) as H8
    by (rewrite length_reverse, length_take; lia).
  rewrite take_app_le, drop_app_ge by lia. rewrite H8, Nat.sub_diag, drop_0.
  rewrite take_ge by lia. rewrite !reverse_involutive. apply take_drop.
Qed.
End Values.
