(* ===== verification/StringPool.v ===== *)
(** * The string pool ([types/column/string_pool.rs])

    The strings of a column live in a few large chunks; a string is a pointer
    into one.  [get_by_pointer] reads through a raw pointer, so a pointer out of
    bounds would be undefined behaviour: it is [None] here, and the invariant
    [wf] excludes it.  [contents] is the list of strings a pool stands for. *)

From S2P Require Import Prelude RustStd Errors Scalars ReadEx Stable Finite.
Local Open Scope Z_scope.

Definition AVG_STR_SIZE : Z := 80.

Record StringPtr := StringPtr_ { chunk : nat; shift : nat; len_ : nat }.

Record StringPool := Pool {
  chunks : list bytes;
  pointers : list StringPtr;
  position : nat;
  capacity : Z
}.

Section Pool.
Context {P : Profile}.

(** [Vec::with_capacity] of [StringPtr]s of three words. *)
Definition with_capacity {E} (capacity : Z) : outcome E StringPool :=
  _ ← alloc 24 capacity; Ok (Pool [] [] 0 capacity).

Definition free_space {E} (self : StringPool) : outcome E Z :=
  match last (chunks self) with
  | Some buffer => arith_u 64 (Z.of_nat (length buffer) - Z.of_nat (position self))
  | None => Ok 0
  end.

(** The new pointer is the buffer that the code returns. *)
Definition try_allocate {E} (self : StringPool) (size : nat)
  : outcome E (option (StringPool * StringPtr)) :=
  match last (chunks self) with
  | Some buffer =>
    let p := StringPtr_ (length (chunks self) - 1) (position self) size in
    if decide (position self + size <= length buffer)%nat then
      Ok (Some (Pool (chunks self) (pointers self ++ [p]) (position self + size)
                  (capacity self), p))
    else Panic
  | None => Ok None
  end.

Definition reserve {E} (self : StringPool) (size : Z) : outcome E StringPool :=
  n ← arith_u 64 (capacity self * AVG_STR_SIZE);
  _ ← alloc 1 (Z.max n size);
  Ok (Pool (chunks self ++ [replicate (Z.to_nat (Z.max n size)) x00]) (pointers self) 0
        (capacity self)).

(** [allocate] calls itself after [reserve]; [fuel] counts the calls. *)
Fixpoint allocate_fuel {E} (fuel : nat) (self : StringPool) (size : Z)
  : outcome E (StringPool * StringPtr) :=
  match fuel with
  | O => OutOfFuel
  | S fuel =>
    free ← free_space self;
    if (free <? size) || bool_decide (chunks self = []) then
      self ← reserve self size;
      allocate_fuel fuel self size
    else
      r ← try_allocate self (Z.to_nat size);
      unwrap r
  end.

Definition allocate {E} (self : StringPool) (size : Z) : outcome E (StringPool * StringPtr) :=
  allocate_fuel 2 self size.

(** Writing to the buffer that [allocate] returned. *)
Definition write_at (self : StringPool) (p : StringPtr) (s : bytes) : StringPool :=
  Pool (alter (fun c => take (shift p) c ++ s ++ drop (shift p + length s) c) (chunk p)
          (chunks self))
       (pointers self) (position self) (capacity self).

(** [pool.allocate(s.len()).write_all(s).unwrap()]. *)
Definition push_string {E} (self : StringPool) (s : bytes) : outcome E StringPool :=
  '(self, p) ← allocate self (Z.of_nat (length s));
  Ok (write_at self p s).

(** [From<Vec<T>> for StringPool]. *)
Definition from_vec {E} (source : list bytes) : outcome E StringPool :=
  pool ← with_capacity (Z.of_nat (length source));
  for_each source (fun s pool => push_string pool s) pool.

(** [None]: the pointer leaves its chunk. *)
Definition get_by_pointer (self : StringPool) (p : StringPtr) : option bytes :=
  c ← chunks self !! chunk p;
  if decide (shift p + len_ p <= length c)%nat
  then Some (take (len_ p) (drop (shift p) c)) else None.

Definition get {E} (self : StringPool) (index_ : nat) : outcome E bytes :=
  pointer ← index (pointers self) index_;
  unwrap (get_by_pointer self pointer).

Definition len (self : StringPool) : nat := length (pointers self).

(** [StringIter]: the next string and the index after it. *)
Definition iter_next {E} (pool : StringPool) (index_ : nat)
  : outcome E (option (bytes * nat)) :=
  if decide (index_ < len pool)%nat then
    result ← get pool index_; Ok (Some (result, (index_ + 1)%nat))
  else Ok None.

(** All that [strings()] yields from an index on; [fuel] bounds their number. *)
Fixpoint strings_from {E} (fuel : nat) (pool : StringPool) (index_ : nat)
  : outcome E (list bytes) :=
  match fuel with
  | O => OutOfFuel
  | S fuel =>
    r ← iter_next pool index_;
    match r with
    | Some (s, index_) => ss ← strings_from fuel pool index_; Ok (s :: ss)
    | None => Ok []
    end
  end.

Definition strings {E} (self : StringPool) : outcome E (list bytes) :=
  strings_from (S (len self)) self 0.

(** [ReadEx::read_str_into_buffer]. *)
Definition read_str_into_buffer `{Read R} (pool : StringPool) : rd R StringPool :=
  str_len ← read_uvarint;
  '(pool, p) ← lift (allocate pool str_len);
  bs ← read_bytes (Z.to_nat str_len);
  mret (write_at pool p bs).

(** ** The invariant *)

(** Every pointer is inside its chunk, and inside the used part of the last
    one, so that what is written next overlaps no string. *)
Definition ptr_ok (self : StringPool) (p : StringPtr) : Prop :=
  exists c, chunks self !! chunk p = Some c /\
    (shift p + len_ p <= length c)%nat /\
    (chunk p = (length (chunks self) - 1)%nat -> (shift p + len_ p <= position self)%nat).

Record wf (self : StringPool) : Prop := {
  wf_ptrs : Forall (ptr_ok self) (pointers self);
  wf_position : match last (chunks self) with
                | Some c => (position self <= length c)%nat /\ Z.of_nat (length c) < 2 ^ 64
                | None => position self = 0%nat
                end
}.

(** The strings of a pool. *)
Definition contents (self : StringPool) : list bytes :=
  (fun p => default [] (get_by_pointer self p)) <$> pointers self.

Lemma length_contents self : length (contents self) = len self.
Proof. apply length_fmap. Qed.

Lemma get_by_pointer_ok self p :
  ptr_ok self p -> get_by_pointer self p = Some (default [] (get_by_pointer self p)).
Proof.
  intros (c & Hc & Hl & _). unfold get_by_pointer. rewrite Hc. cbn.
  by rewrite decide_True.
Qed.

(** No string of a well-formed pool is read out of bounds. *)
Lemma wf_get {E} self i :
  wf self -> get (E:=E) self i = unwrap (contents self !! i).
Proof.
  intros Hwf. unfold get, index, contents. rewrite list_lookup_fmap.
  destruct (pointers self !! i) as [p|] eqn:Hp; [|done]. cbn.
  rewrite get_by_pointer_ok; [done|].
  eapply Forall_lookup_1; [apply Hwf|done].
Qed.

Lemma strings_from_wf {E} fuel self i :
  wf self -> (len self - i < fuel)%nat ->
  strings_from (E:=E) fuel self i = Ok (drop i (contents self)).
Proof.
  intros Hwf. revert i. induction fuel as [|fuel IH]; intros i Hf; [lia|].
  cbn [strings_from]. unfold iter_next. case_decide as Hi.
  - rewrite wf_get by done.
    destruct (contents self !! i) as [s|] eqn:Hs.
    + cbn. rewrite IH by lia. cbn. f_equal. rewrite Nat.add_1_r. symmetry.
      by apply drop_S.
    + apply lookup_ge_None in Hs. rewrite length_contents in Hs. lia.
  - cbn. rewrite drop_ge; [done|]. rewrite length_contents. lia.
Qed.

Lemma wf_strings {E} self : wf self -> strings (E:=E) self = Ok (contents self).
Proof. intros. unfold strings. by rewrite strings_from_wf by (done || lia). Qed.

Lemma wf_with_capacity {E} c self :
  with_capacity (E:=E) c = Ok self -> wf self /\ contents self = [].
Proof.
  unfold with_capacity, alloc. case_match; [done|]. intros [= <-].
  split; [|done]. split; cbn; [constructor|done].
Qed.

(** ** Allocation *)

Lemma free_space_wf {E} self :
  wf self ->
  free_space (E:=E) self =
  Ok (match last (chunks self) with
      | Some c => Z.of_nat (length c) - Z.of_nat (position self)
      | None => 0
      end).
Proof.
  intros [_ Hp]. unfold free_space. destruct (last (chunks self)) as [c|]; [|done].
  apply arith_u_ok, in_u_spec. lia.
Qed.

(** What [allocate] does to the pool: a new pointer at the end of the last
    chunk, the strings as they were. *)
Record allocated (self self' : StringPool) (p : StringPtr) (size : nat) : Prop := {
  al_wf : wf self';
  al_pointers : pointers self' = pointers self ++ [p];
  al_len : len_ p = size;
  al_capacity : capacity self' = capacity self;
  al_same q : ptr_ok self q -> get_by_pointer self' q = get_by_pointer self q;
  al_apart q : ptr_ok self q ->
    chunk q <> chunk p \/ (shift q + len_ q <= shift p)%nat
}.

Lemma try_allocate_wf {E} self c size :
  wf self -> last (chunks self) = Some c ->
  Z.of_nat size <= Z.of_nat (length c) - Z.of_nat (position self) ->
  exists self' p,
    try_allocate (E:=E) self size = Ok (Some (self', p)) /\ allocated self self' p size.
Proof.
  intros Hwf Hc Hs. unfold try_allocate. rewrite Hc, decide_True by lia.
  do 2 eexists; split; [reflexivity|].
  pose proof (wf_position _ Hwf) as Hpos. rewrite Hc in Hpos.
  pose proof Hc as Hl. rewrite last_lookup in Hl.
  replace (pred (length (chunks self))) with (length (chunks self) - 1)%nat in Hl by lia.
  split; try done; cbn.
  - split; cbn; [|rewrite Hc; lia].
    apply Forall_app; split.
    + eapply Forall_impl; [apply Hwf|]. intros q (d & Hd & Hq & Hlast).
      exists d. cbn. split; [done|]. split; [done|]. intros Hch%Hlast. lia.
    + constructor; [|constructor]. exists c. cbn. split; [done|]. split; lia.
  - intros q (d & Hd & Hq & Hlast).
    destruct (decide (chunk q = (length (chunks self) - 1)%nat)) as [Hch|]; [right|by left].
    by apply Hlast.
Qed.

Lemma reserve_wf {E} self size self' :
  wf self -> reserve (E:=E) self size = Ok self' ->
  wf self' /\ pointers self' = pointers self /\ capacity self' = capacity self /\
  position self' = 0%nat /\
  (exists c, last (chunks self') = Some c /\ size <= Z.of_nat (length c)) /\
  forall q, ptr_ok self q -> ptr_ok self' q /\ get_by_pointer self' q = get_by_pointer self q.
Proof.
  intros Hwf. unfold reserve. rewrite bind_Ok. intros (n & _ & Hr).
  rewrite bind_Ok in Hr. destruct Hr as ([] & Ha & [= <-]).
  unfold alloc in Ha. destruct (Z.ltb_spec isize_max (1 * Z.max n size)); [done|].
  assert (forall q, ptr_ok self q ->
    ptr_ok (Pool (chunks self ++ [replicate (Z.to_nat (Z.max n size)) x00]) (pointers self) 0
              (capacity self)) q /\
    get_by_pointer (Pool (chunks self ++ [replicate (Z.to_nat (Z.max n size)) x00])
              (pointers self) 0 (capacity self)) q = get_by_pointer self q) as Hq.
  { intros q (d & Hd & Hq & _). pose proof (lookup_lt_Some _ _ _ Hd) as Hlt.
    split; [exists d|unfold get_by_pointer]; cbn.
    - rewrite lookup_app_l by done. split; [done|]. split; [done|].
      rewrite length_app. cbn. lia.
    - by rewrite lookup_app_l. }
  split; [|cbn; split_and!; try done].
  - split; [|cbn; rewrite last_snoc, length_replicate; unfold isize_max in *; lia].
    cbn. eapply Forall_impl; [apply Hwf|]. intros q Hok. by apply Hq.
  - exists (replicate (Z.to_nat (Z.max n size)) x00).
    rewrite last_snoc, length_replicate. split; [done|lia].
Qed.

Lemma reserve_cases {E} self size :
  reserve (E:=E) self size = Panic \/ exists self', reserve (E:=E) self size = Ok self'.
Proof.
  unfold reserve, arith_u, alloc. repeat case_match; cbn; eauto; case_match; eauto.
Qed.

(** There is room: no further call. *)
Lemma allocate_room {E} fuel self c size :
  wf self -> last (chunks self) = Some c -> 0 <= size ->
  size <= Z.of_nat (length c) - Z.of_nat (position self) ->
  exists self' p, allocate_fuel (E:=E) (S fuel) self size = Ok (self', p) /\
    allocated self self' p (Z.to_nat size).
Proof.
  intros Hwf Hc Hs Hroom. cbn [allocate_fuel]. rewrite free_space_wf, Hc by done.
  cbn [mbind outcome_bind]. rewrite bool_decide_false by (intros He; by rewrite He in Hc).
  destruct (Z.ltb_spec (Z.of_nat (length c) - Z.of_nat (position self)) size); [lia|]. cbn [orb].
  destruct (try_allocate_wf (E:=E) self c (Z.to_nat size) Hwf Hc) as (self' & p & -> & Ha); [lia|].
  by exists self', p.
Qed.

(** [allocate] returns, possibly panicking: it calls itself at most once. *)
Lemma allocate_wf {E} self size :
  wf self -> 0 <= size ->
  allocate (E:=E) self size = Panic \/
  (exists self' p, allocate (E:=E) self size = Ok (self', p) /\
    allocated self self' p (Z.to_nat size)).
Proof.
  intros Hwf Hs. unfold allocate. remember 1%nat as one eqn:Hone. cbn [allocate_fuel].
  rewrite free_space_wf by done. cbn [mbind outcome_bind].
  assert (match last (chunks self) with
    | Some c => size <= Z.of_nat (length c) - Z.of_nat (position self)
    | None => False
    end \/
    ((match last (chunks self) with
      | Some c => Z.of_nat (length c) - Z.of_nat (position self)
      | None => 0
      end <? size) || bool_decide (chunks self = [])) = true) as [Hroom|Hcond].
  { destruct (last (chunks self)) as [c|] eqn:Hc; [lia|].
    apply last_None in Hc. right. rewrite Hc. apply orb_true_r. }
  - destruct (last (chunks self)) as [c|] eqn:Hc; [|done]. right.
    destruct (allocate_room (E:=E) 0 self c size Hwf Hc Hs Hroom) as (self' & p & Heq & Ha).
    cbn [allocate_fuel] in Heq. rewrite free_space_wf, Hc in Heq by done.
    cbn [mbind outcome_bind] in Heq. exists self', p. split; [|done].
    rewrite bool_decide_false in * by (intros He; by rewrite He in Hc).
    destruct (Z.ltb_spec (Z.of_nat (length c) - Z.of_nat (position self)) size); [lia|done].
  - rewrite Hcond. destruct (reserve_cases (E:=E) self size) as [->|[self1 Hr]]; [by left|].
    rewrite Hr. cbn [mbind outcome_bind]. subst one.
    destruct (reserve_wf self size self1 Hwf Hr) as (Hwf1 & Hp1 & Hc1 & Hpos1 & (c & Hlast & Hlen) & Hq).
    destruct (allocate_room (E:=E) 0 self1 c size Hwf1 Hlast Hs) as (self' & p & -> & Ha); [lia|].
    right. exists self', p. split; [done|]. destruct Ha. split; try congruence.
    + intros q Hok. destruct (Hq q Hok) as [Hok1 <-]. auto.
    + intros q Hok. apply al_apart0. by apply Hq.
Qed.

Lemma allocate_capacity {E} self size :
  wf self -> 0 <= size <= isize_max -> 0 <= capacity self * AVG_STR_SIZE <= isize_max ->
  allocate (E:=E) self size <> Panic.
Proof.
  intros Hwf Hs Hc. unfold allocate. remember 1%nat as one eqn:Hone. cbn [allocate_fuel].
  rewrite free_space_wf by done. cbn [mbind outcome_bind]. case_match eqn:Hcond.
  - assert (exists self1, reserve (E:=E) self size = Ok self1) as [self1 Hr].
    { unfold reserve. rewrite arith_u_ok
        by (apply in_u_spec; unfold isize_max in *; lia). cbn [mbind outcome_bind].
      rewrite alloc_ok by lia. by eexists. }
    rewrite Hr. cbn [mbind outcome_bind]. subst one.
    destruct (reserve_wf self size self1 Hwf Hr) as (Hwf1 & _ & _ & Hpos1 & (c & Hlast & Hlen) & _).
    destruct (allocate_room (E:=E) 0 self1 c size Hwf1 Hlast) as (self' & p & -> & _); [lia..|done].
  - apply orb_false_iff in Hcond as [Hf Hn%bool_decide_eq_false].
    destruct (last (chunks self)) as [c|] eqn:Hlast; [|by apply last_None in Hlast].
    destruct (try_allocate_wf (E:=E) self c (Z.to_nat size) Hwf Hlast) as (self' & p & -> & _);
      [lia|done].
Qed.

(** Whatever the pool, two calls are enough. *)
Lemma allocate_total self size : allocate self size <> (OutOfFuel : Result _).
Proof.
  unfold allocate. remember 1%nat as one eqn:Hone. cbn [allocate_fuel].
  assert (forall s n, try_allocate s n <> (OutOfFuel : Result _)) as Ht.
  { intros s n. unfold try_allocate. by repeat case_match. }
  apply bind_fuel.
  { unfold free_space. case_match; [apply arith_u_fuel|done]. }
  intros free. case_match.
  - unfold reserve. rewrite !bind_assoc. apply bind_fuel; [apply arith_u_fuel|]. intros n.
    rewrite !bind_assoc. unfold alloc. destruct (Z.ltb_spec isize_max (1 * Z.max n size)); [done|].
    cbn [mbind outcome_bind]. subst one. cbn [allocate_fuel]. unfold free_space. cbn.
    rewrite last_snoc, length_replicate.
    rewrite arith_u_ok by (apply in_u_spec; unfold isize_max in *; lia). cbn [mbind outcome_bind].
    rewrite bool_decide_false by (by destruct (chunks self)).
    destruct (Z.ltb_spec (Z.of_nat (Z.to_nat (Z.max n size)) - Z.of_nat 0) size);
      [lia|]. cbn [orb].
    apply bind_fuel; [apply Ht|]. by intros [].
  - apply bind_fuel; [apply Ht|]. by intros [].
Qed.

(** ** Writing *)

Lemma write_at_chunk self p s i :
  chunks (write_at self p s) !! i =
  (fun c => if decide (i = chunk p) then take (shift p) c ++ s ++ drop (shift p + length s) c
            else c) <$> chunks self !! i.
Proof.
  unfold write_at; cbn. destruct (decide (i = chunk p)) as [->|Hne].
  - by rewrite list_lookup_alter_eq.
  - rewrite list_lookup_alter_ne by done. by destruct (chunks self !! i).
Qed.

Lemma get_write_at_other self p s q :
  chunk q <> chunk p -> get_by_pointer (write_at self p s) q = get_by_pointer self q.
Proof.
  intros Hne. unfold get_by_pointer. rewrite write_at_chunk.
  destruct (chunks self !! chunk q); [|done]. cbn.
  by rewrite (decide_False (P := chunk q = chunk p)).
Qed.

(** A list spliced into another, read before and at the splice. *)
Lemma splice_before {A} n k m (c x : list A) :
  (k + n <= m)%nat -> (m <= length c)%nat ->
  take n (drop k (take m c ++ x)) = take n (drop k c).
Proof.
  intros Hk Hm. rewrite !take_drop_commute, take_app_le by (rewrite length_take; lia).
  by rewrite take_take, Nat.min_l by lia.
Qed.

Lemma splice_at {A} m (c s y : list A) :
  (m + length s <= length c)%nat -> take (length s) (drop m (take m c ++ s ++ y)) = s.
Proof.
  intros Hm. rewrite drop_app_ge by (rewrite length_take; lia).
  rewrite length_take, Nat.min_l, Nat.sub_diag by lia. apply take_app_length.
Qed.

(** Writing into the buffer of [p] changes the string of [p] and no other. *)
Lemma write_at_allocated self self' p s :
  wf self -> allocated self self' p (length s) ->
  wf (write_at self' p s) /\ contents (write_at self' p s) = contents self ++ [s] /\
  capacity (write_at self' p s) = capacity self.
Proof.
  intros Hwf Ha. destruct Ha as [Hwf' Hptrs Hlen Hcap Hsame Hapart].
  assert (ptr_ok self' p) as Hp.
  { pose proof (wf_ptrs _ Hwf') as Hall. rewrite Hptrs in Hall.
    apply Forall_app in Hall as [_ Hall]. by inversion Hall. }
  destruct Hp as (d & Hd & Hdl & Hdlast). rewrite Hlen in Hdl.
  assert (forall i c, chunks self' !! i = Some c ->
    exists c', chunks (write_at self' p s) !! i = Some c' /\ length c' = length c) as Hch.
  { intros i c Hc. rewrite write_at_chunk, Hc. cbn. eexists; split; [done|].
    case_decide as Hi; [|done]. subst i. rewrite Hd in Hc. injection Hc as <-.
    rewrite !length_app, length_take, length_drop. lia. }
  split; [|split]; [| |by rewrite <- Hcap].
  - split.
    + cbn. eapply Forall_impl; [apply Hwf'|]. intros q (c & Hc & Hq & Hlast).
      destruct (Hch _ _ Hc) as (c' & Hc' & Hl'). exists c'. rewrite Hl'.
      split; [done|]. split; [done|]. cbn. by rewrite length_alter.
    + pose proof (wf_position _ Hwf') as Hpos. rewrite last_lookup in *.
      unfold write_at at 1; cbn. rewrite length_alter.
      destruct (chunks self' !! pred (length (chunks self'))) as [c|] eqn:Hc.
      * destruct (Hch _ _ Hc) as (c' & Hc' & Hl'). cbn in Hc'. rewrite Hc', Hl'. done.
      * apply lookup_ge_None in Hc. pose proof (lookup_lt_Some _ _ _ Hd). lia.
  - unfold contents. cbn [pointers write_at]. rewrite Hptrs, fmap_app. f_equal.
    + apply list_fmap_ext. intros i q Hq. f_equal.
      assert (ptr_ok self q) as Hok by (by eapply Forall_lookup_1; [apply Hwf|]).
      rewrite <- Hsame by done. destruct (Hapart q Hok) as [Hne|Hle].
      * by apply get_write_at_other.
      * destruct (decide (chunk q = chunk p)) as [Heq|Hne]; [|by apply get_write_at_other].
        unfold get_by_pointer. rewrite write_at_chunk, Heq, Hd. cbn.
        rewrite (decide_True (P := chunk p = chunk p)) by done.
        rewrite !length_app, length_take, length_drop.
        rewrite !decide_True by lia. by rewrite splice_before by lia.
    + cbn. do 2 f_equal. unfold get_by_pointer. rewrite write_at_chunk, Hd. cbn.
      rewrite (decide_True (P := chunk p = chunk p)) by done.
      rewrite !length_app, length_take, length_drop, decide_True by lia. cbn.
      rewrite Hlen. by apply splice_at.
Qed.

(** ** A pool is a list of strings *)

(** [self'] is [self] with [s] at the end. *)
Definition pushed (self : StringPool) (s : bytes) (self' : StringPool) : Prop :=
  wf self' /\ contents self' = contents self ++ [s] /\ capacity self' = capacity self.

Lemma push_string_wf {E} self s :
  wf self ->
  push_string (E:=E) self s = Panic \/
  exists self', push_string (E:=E) self s = Ok self' /\ pushed self s self'.
Proof.
  intros Hwf. unfold push_string.
  destruct (allocate_wf (E:=E) self (Z.of_nat (length s)) Hwf) as [->|(self1 & p & -> & Ha)];
    [lia|by left|right].
  rewrite Nat2Z.id in Ha. eexists. split; [reflexivity|]. by apply write_at_allocated.
Qed.

(** The sizes that a pool takes without a capacity overflow. *)
Definition roomy (self : StringPool) : Prop := 0 <= capacity self * AVG_STR_SIZE <= isize_max.

Lemma push_string_ok {E} self s :
  wf self -> roomy self -> Z.of_nat (length s) <= isize_max ->
  exists self', push_string (E:=E) self s = Ok self' /\ pushed self s self'.
Proof.
  intros Hwf Hr Hs. destruct (push_string_wf (E:=E) self s Hwf) as [Hp|]; [exfalso|done].
  unfold push_string in Hp.
  destruct (allocate (E:=E) self (Z.of_nat (length s))) as [[]| | |] eqn:Ha; try done.
  revert Ha. apply allocate_capacity; [done|lia|done].
Qed.

Lemma for_each_push {E} ss self :
  wf self -> roomy self -> Forall (fun s => Z.of_nat (length s) <= isize_max) ss ->
  exists self', for_each (E:=E) ss (fun s pool => push_string pool s) self = Ok self' /\
    wf self' /\ contents self' = contents self ++ ss /\ capacity self' = capacity self.
Proof.
  intros Hwf Hr Hss. revert self Hwf Hr. induction Hss as [|s ss Hs _ IH]; intros self Hwf Hr.
  { exists self. by rewrite app_nil_r. }
  destruct (push_string_ok (E:=E) self s Hwf Hr Hs) as (self1 & Hp & Hwf1 & Hc1 & Hcap1).
  destruct (IH self1 Hwf1) as (self' & Hf & Hwf' & Hc' & Hcap'); [by unfold roomy; rewrite Hcap1|].
  exists self'. cbn [for_each]. rewrite Hp. cbn [mbind outcome_bind].
  split; [done|]. split; [done|]. split; [|congruence].
  by rewrite Hc', Hc1, <- app_assoc.
Qed.

Lemma from_vec_ok {E} ss :
  Forall (fun s => Z.of_nat (length s) <= isize_max) ss ->
  Z.of_nat (length ss) * AVG_STR_SIZE <= isize_max ->
  exists self, from_vec (E:=E) ss = Ok self /\ wf self /\ contents self = ss.
Proof.
  intros Hss Hl. unfold from_vec, with_capacity. unfold AVG_STR_SIZE in Hl.
  rewrite alloc_ok by lia. cbn [mbind outcome_bind].
  destruct (for_each_push (E:=E) ss (Pool [] [] 0 (Z.of_nat (length ss)))) as (self & Hf & Hwf & Hc & _).
  - by split; cbn; [constructor|].
  - unfold roomy, AVG_STR_SIZE; cbn. lia.
  - done.
  - by exists self.
Qed.

(** ** Reading strings into a pool *)

Section Read.
Context {R : Type} `{ReadLaws R, !Grow R, !GrowLaws R, !Sized R, !SizedLaws R}.

Lemma parses_str_into_buffer self s :
  wf self -> roomy self -> Z.of_nat (length s) <= isize_max ->
  exists self', parses (R:=R) (read_str_into_buffer self) (Encoder.string_bytes s) self' /\
    pushed self s self'.
Proof.
  intros Hwf Hr Hs. unfold read_str_into_buffer, Encoder.string_bytes.
  pose proof (allocate_capacity (E:=Error) self (Z.of_nat (length s)) Hwf) as Hnp.
  destruct (allocate_wf (E:=Error) self (Z.of_nat (length s)) Hwf) as [Hp|(self1 & p & Ha & Hal)];
    [lia|exfalso; apply Hnp; [lia|done|done]|].
  rewrite Nat2Z.id in Hal. exists (write_at self1 p s).
  split; [|by apply write_at_allocated].
  eapply parses_bind; [done|apply parses_uvarint, in_u_spec; unfold isize_max in Hs; lia|].
  eapply parses_bind_lift; [exact Ha|]. cbn beta iota.
  eapply parses_bind; [symmetry; apply app_nil_r|apply parses_read_bytes; lia|].
  apply parses_ret.
Qed.

Lemma stable_str_into_buffer self : stable (R:=R) (read_str_into_buffer self).
Proof. unfold read_str_into_buffer. stable. Qed.

Lemma consumes_str_into_buffer self : consumes (R:=R) 0 (read_str_into_buffer self).
Proof. unfold read_str_into_buffer. pose proof allocate_total. consumes. Qed.
End Read.
End Pool.
