(* ===== verification/ChunkIndex.v ===== *)
(** * The index of a concatenated column ([types/column/concat.rs])

    [build_index] computes where each chunk begins, and [find_chunk] searches
    the chunk of a row by halving an interval of the index.  The laws say that
    the search finds the chunk that holds the row, skipping empty chunks, and
    that it ends. *)

From S2P Require Import Prelude RustStd Errors.
Local Open Scope Z_scope.

Section Index.
Context {P : Profile}.

(** ** Operations *)

Definition build_index (sizes : list Z) : Result (list Z) :=
  '(_, index) ← for_each sizes
    (fun size '(acc, index) => acc ← arith_u 64 (acc + size); Ok (acc, index ++ [acc])) (0, [0]);
  Ok index.

(** A round of the search between [lo] and [hi]. *)
Definition find_chunk_step (index : list Z) (ix : Z) (interval : Z * Z) : Result ((Z * Z) + Z) :=
  let '(lo, hi) := interval in
  if lo <? hi then
    let mid := lo + (hi - lo) / 2 in
    a ← indexZ index lo;
    b ← indexZ index (lo + 1);
    if a =? b then Ok (inl (lo + 1, hi))
    else
      m ← indexZ index mid;
      if ix <? m then Ok (inl (lo, mid))
      else
        m' ← indexZ index (mid + 1);
        if m' <=? ix then Ok (inl (mid + 1, hi)) else Ok (inr mid)
  else Ok (inr 0).

Definition find_chunk (index : list Z) (ix : Z) : Result Z :=
  hi ← arith_u 64 (Z.of_nat (length index) - 1);
  loop (find_chunk_step index ix) loop_fuel (0, hi).

(** ** The positions of the chunks *)

(** The sums of the prefixes of [sizes], above [acc]. *)
Fixpoint offsets_from (acc : Z) (sizes : list Z) : list Z :=
  acc :: match sizes with [] => [] | size :: sizes => offsets_from (acc + size) sizes end.

Definition sum (sizes : list Z) : Z := foldr Z.add 0 sizes.

Lemma sum_nonneg sizes : Forall (Z.le 0) sizes -> 0 <= sum sizes.
Proof. unfold sum. induction 1; cbn in *; lia. Qed.

Lemma sum_app xs ys : sum (xs ++ ys) = sum xs + sum ys.
Proof. unfold sum. induction xs as [|x xs IH]; cbn in *; lia. Qed.

Lemma length_offsets acc sizes : length (offsets_from acc sizes) = S (length sizes).
Proof. revert acc. induction sizes as [|s sizes IH]; intros acc; cbn; [done|]. by rewrite IH. Qed.

Lemma lookup_offsets acc sizes (k : nat) :
  (k <= length sizes)%nat -> offsets_from acc sizes !! k = Some (acc + sum (take k sizes)).
Proof.
  unfold sum. revert acc k. induction sizes as [|s sizes IH]; intros acc [|k] Hk; cbn in Hk |- *;
    try lia; try (f_equal; lia).
  rewrite IH by lia. f_equal. lia.
Qed.

Lemma last_offsets acc sizes : last (offsets_from acc sizes) = Some (acc + sum sizes).
Proof.
  rewrite last_lookup, length_offsets. cbn.
  rewrite lookup_offsets by lia. by rewrite firstn_all.
Qed.

Lemma build_index_ok sizes :
  Forall (Z.le 0) sizes -> sum sizes < 2 ^ 64 -> build_index sizes = Ok (offsets_from 0 sizes).
Proof.
  intros Hp Hs. unfold build_index.
  enough (forall sizes acc index, Forall (Z.le 0) sizes -> 0 <= acc -> acc + sum sizes < 2 ^ 64 ->
    for_each sizes
      (fun size '(acc, index) => acc ← arith_u 64 (acc + size); Ok (acc, index ++ [acc]))
      (acc, index ++ [acc]) =
    (Ok (acc + sum sizes, index ++ offsets_from acc sizes) : Result (Z * list Z))) as Hgen.
  { specialize (Hgen sizes 0 [] Hp). cbn [app] in Hgen. by rewrite Hgen by lia. }
  clear. intros sizes acc index Hp. revert acc index.
  induction Hp as [|s sizes Hs Hp IH]; intros acc index Ha Hsum.
  { cbn. by rewrite Z.add_0_r. }
  cbn [for_each offsets_from sum foldr] in *. fold (sum sizes) in *.
  pose proof (sum_nonneg sizes Hp).
  rewrite arith_u_ok by (apply in_u_spec; lia). cbn [mbind outcome_bind].
  rewrite IH by lia. rewrite <- app_assoc, Z.add_assoc. done.
Qed.

(** ** The search *)

Section Search.
Context (sizes : list Z) (Hpos : Forall (Z.le 0) sizes).

(** Where chunk [k] begins. *)
Definition start (k : Z) : Z := sum (take (Z.to_nat k) sizes).

Lemma index_start k :
  0 <= k <= Z.of_nat (length sizes) ->
  indexZ (offsets_from 0 sizes) k = (Ok (start k) : Result Z).
Proof. intros Hk. rewrite indexZ_nat, lookup_offsets by lia. done. Qed.

Lemma start_mono j k : 0 <= j <= k -> start j <= start k.
Proof.
  intros Hjk. unfold start.
  replace (take (Z.to_nat k) sizes)
    with (take (Z.to_nat j) sizes ++ take (Z.to_nat k - Z.to_nat j) (drop (Z.to_nat j) sizes)).
  - rewrite sum_app.
    enough (0 <= sum (take (Z.to_nat k - Z.to_nat j) (drop (Z.to_nat j) sizes))) by lia.
    apply sum_nonneg. by apply Forall_take, Forall_drop.
  - rewrite take_take_drop. f_equal. lia.
Qed.

Lemma start_all k : Z.of_nat (length sizes) <= k -> start k = sum sizes.
Proof. intros Hk. unfold start. by rewrite firstn_all2 by lia. Qed.

(** The interval holds the row, as long as the search goes on. *)
Definition within (ix : Z) '(lo, hi) : Prop :=
  0 <= lo < hi /\ hi <= Z.of_nat (length sizes) /\ start lo <= ix < start hi.

Lemma find_chunk_step_within ix lo hi :
  within ix (lo, hi) ->
  match find_chunk_step (offsets_from 0 sizes) ix (lo, hi) with
  | Ok (inl (lo', hi')) => within ix (lo', hi') /\ hi' - lo' < hi - lo
  | Ok (inr k) => 0 <= k < Z.of_nat (length sizes) /\ start k <= ix < start (k + 1)
  | _ => False
  end.
Proof.
  intros ([Hlo Hlt] & Hhi & Hl & Hh). unfold find_chunk_step.
  destruct (Z.ltb_spec lo hi); [|lia].
  pose proof (Z.div_pos (hi - lo) 2 ltac:(lia) ltac:(lia)).
  pose proof (Z.div_lt_upper_bound (hi - lo) 2 (hi - lo) ltac:(lia) ltac:(lia)).
  assert (lo <= lo + (hi - lo) / 2 < hi) as Hmid by lia. revert Hmid.
  generalize (lo + (hi - lo) / 2). intros mid Hmid.
  rewrite !index_start by lia. cbn [mbind outcome_bind].
  destruct (Z.eqb_spec (start lo) (start (lo + 1))) as [He|Hne].
  - assert (lo + 1 <> hi) by (intros Hx; rewrite Hx in *; lia). cbn. repeat split; lia.
  - destruct (Z.ltb_spec ix (start mid)).
    + assert (mid <> lo) by (intros Hx; rewrite Hx in *; lia). cbn. repeat split; lia.
    + destruct (Z.leb_spec (start (mid + 1)) ix); [|cbn; repeat split; lia].
      assert (mid + 1 <> hi) by (intros Hx; rewrite Hx in *; lia). cbn. repeat split; lia.
Qed.

Lemma find_chunk_found ix :
  Z.of_nat (length sizes) < 2 ^ 64 -> 0 <= ix < sum sizes ->
  exists k, find_chunk (offsets_from 0 sizes) ix = Ok k /\
    0 <= k < Z.of_nat (length sizes) /\ start k <= ix < start (k + 1).
Proof.
  intros Hn Hix. unfold find_chunk. rewrite length_offsets.
  replace (Z.of_nat (S (length sizes)) - 1) with (Z.of_nat (length sizes)) by lia.
  rewrite arith_u_ok by (apply in_u_spec; lia). cbn [mbind outcome_bind].
  enough (forall n lo hi, within ix (lo, hi) -> hi - lo <= Z.of_nat n ->
    exists k, loop_nat (find_chunk_step (offsets_from 0 sizes) ix) n (lo, hi) = Ok (inr k) /\
      0 <= k < Z.of_nat (length sizes) /\ start k <= ix < start (k + 1)) as Hloop.
  { destruct (Hloop (length sizes) 0 (Z.of_nat (length sizes))) as (k & Hk & Hr); [|lia|].
    - assert (length sizes <> 0%nat).
      { intros ->%nil_length_inv. unfold sum in Hix. cbn in Hix. lia. }
      unfold within. rewrite (start_all (Z.of_nat (length sizes))) by lia.
      change (start 0) with 0. lia.
    - exists k. split; [|done]. rewrite (loop_unfold _ _ _ _ _ Hk); [done| |done].
      apply loop_fuel_ge. lia. }
  intros n. induction n as [|n IH]; intros lo hi Hw Hm; [destruct Hw as ([] & _); lia|].
  cbn [loop_nat]. pose proof (find_chunk_step_within ix lo hi Hw) as Hstep.
  destruct (find_chunk_step _ _ _) as [[[lo' hi']|k]| | |]; try done.
  - destruct Hstep as [Hw' Hd]. apply IH; [done|lia].
  - by exists k.
Qed.
End Search.

Lemma indexZ_cases {E A} (xs : list A) i :
  indexZ (E:=E) xs i = Panic \/ exists x, indexZ (E:=E) xs i = Ok x.
Proof. unfold indexZ. case_match; [|by left]. destruct (xs !! _); [right; by eexists|by left]. Qed.

(** Outside of the rows, too, the search ends. *)
Lemma find_chunk_total index ix :
  Z.of_nat (length index) <= 2 ^ 64 -> index <> [] -> find_chunk index ix <> OutOfFuel.
Proof.
  intros Hl Hne. unfold find_chunk.
  assert (0 < length index)%nat by (destruct index; cbn; [done|lia]).
  rewrite arith_u_ok by (apply in_u_spec; lia). cbn [mbind outcome_bind].
  apply (loop_fuel_enough _ (fun '(lo, hi) => Z.to_nat (hi - lo))).
  - intros [lo hi]. unfold find_chunk_step. destruct (lo <? hi); [|done].
    destruct (indexZ_cases (E:=Error) index lo) as [->|[a ->]]; [done|]. cbn.
    destruct (indexZ_cases (E:=Error) index (lo + 1)) as [->|[b ->]]; [done|]. cbn.
    destruct (a =? b); [done|].
    destruct (indexZ_cases (E:=Error) index (lo + (hi - lo) / 2)) as [->|[m ->]]; [done|]. cbn.
    destruct (ix <? m); [done|].
    destruct (indexZ_cases (E:=Error) index (lo + (hi - lo) / 2 + 1)) as [->|[m' ->]]; [done|]. cbn.
    by destruct (m' <=? ix).
  - intros [lo hi] [lo' hi']. unfold find_chunk_step.
    destruct (Z.ltb_spec lo hi); [|done].
    pose proof (Z.div_pos (hi - lo) 2 ltac:(lia) ltac:(lia)).
    pose proof (Z.div_lt_upper_bound (hi - lo) 2 (hi - lo) ltac:(lia) ltac:(lia)).
    intros (a & _ & (b & _ & Hs)%bind_Ok)%bind_Ok.
    destruct (a =? b); [injection Hs as <- <-; lia|].
    apply bind_Ok in Hs as (m & _ & Hs). destruct (ix <? m); [injection Hs as <- <-; lia|].
    apply bind_Ok in Hs as (m' & _ & Hs). destruct (m' <=? ix); [injection Hs as <- <-; lia|done].
  - cbn. apply loop_fuel_ge. lia.
Qed.
End Index.
