(* ===== verification/Columns.v ===== *)
(** * Columns ([types/column/*.rs])

    [column_data] has one constructor per struct that implements the trait
    [ColumnData], and each method of the trait is one function on it.  A [usize]
    argument is a [Z].  An element of a [List<T>] is a [Z] as in file Scalars.

    [Arc]s are not modelled, except that pushing into a nested column needs the
    only reference to it: [push] takes whether the nested references are the
    only ones.  A [ConcatColumnData] has at least one chunk, since [concat], the
    only way to make one, asserts it: [data] is [first :: rest]. *)

From S2P Require Import Prelude RustStd Errors Scalars Encoder ReadEx Stable Finite.
From S2P Require Import SqlType TypeNames DecimalNum Values StringPool ChunkIndex.
Local Open Scope Z_scope.

#[local] Set Warnings "-register-all".

(** The element type of a [DateColumnData<T>]: [u16] or [u32]. *)
Inductive date_repr := D16 | D32.

#[global] Instance date_repr_eq_dec : EqDecision date_repr.
Proof. solve_decision. Defined.

Definition date_prim (k : date_repr) : prim := match k with D16 => u16 | D32 => u32 end.

Inductive column_data `{ChronoTz} :=
| VectorColumnData (t : prim) (data : list Z)
| StringColumnData (pool : StringPool)
| FixedStringColumnData (buffer : bytes) (str_len : Z)
| DateColumnData (k : date_repr) (data : list Z) (tz : Tz)
| DateTime64ColumnData (data : list Z) (params : Z * Tz)
| ChronoDateTimeColumnData (data : list DateTime) (tz : Tz)
| IpColumnData (v : ip_version) (inner : bytes)
| NullableColumnData (inner : column_data) (nulls : bytes)
| ArrayColumnData (inner : column_data) (offsets : list Z)
| DecimalColumnData (inner : column_data) (precision scale : Z) (nobits : NoBits)
| Enum8ColumnData (enum_values : list (bytes * Z)) (inner : column_data)
| Enum16ColumnData (enum_values : list (bytes * Z)) (inner : column_data)
| ChunkColumnData (data : column_data) (start end_ : Z)
| ConcatColumnData (first : column_data) (rest : list column_data) (index : list Z)
| StringAdapter (column : column_data)
| FixedStringAdapter (column : column_data) (str_len : Z)
| NullableFixedStringAdapter (column : column_data) (str_len : Z)
| DecimalAdapter (column : column_data) (precision scale : Z) (nobits : NoBits)
| NullableDecimalAdapter (column : column_data) (precision scale : Z) (nobits : NoBits)
| Enum8Adapter (column : column_data) (enum_values : list (bytes * Z))
| NullableEnum8Adapter (column : column_data) (enum_values : list (bytes * Z))
| Enum16Adapter (column : column_data) (enum_values : list (bytes * Z))
| NullableEnum16Adapter (column : column_data) (enum_values : list (bytes * Z))
| ChronoDateTimeAdapter (column : column_data) (dst_type : SqlType).

Section Columns.
Context {P : Profile} `{ChronoTz, Combine}.

(** ** The data of a List<T> *)

(** Its memory, on a little-endian machine ([List::as_ref]). *)
Definition list_bytes (t : prim) (data : list Z) : bytes := concat (marshal t <$> data).

(** [n] elements from their memory ([List::as_mut]). *)
Fixpoint list_of_bytes (t : prim) (n : nat) (bs : bytes) : list Z :=
  match n with
  | O => []
  | S n =>
    of_bits t (le_Z (take (buffer_size t) bs)) :: list_of_bytes t n (drop (buffer_size t) bs)
  end.

Definition size_of (t : prim) : Z := Z.of_nat (buffer_size t).

(** ** IP versions *)

Definition ip_sql_type (v : ip_version) : SqlType :=
  match v with V4 => Ipv4 | V6 => Ipv6 | VUuid => Uuid end.

Definition ip_size (v : ip_version) : Z := match v with V4 => 4 | V6 | VUuid => 16 end.

Definition ip_push (v : ip_version) (inner : bytes) (value : Value.t) : Result bytes :=
  match v, value with
  | V4, Value.Ipv4 x | V6, Value.Ipv6 x | VUuid, Value.Uuid x => Ok (inner ++ x)
  | _, _ => Panic
  end.

Definition ip_get (v : ip_version) (inner : bytes) (index : Z) : Result ValueRef.t :=
  x ← sliceZ inner (index * ip_size v) ((index + 1) * ip_size v);
  Ok (match v with V4 => ValueRef.Ipv4 x | V6 => ValueRef.Ipv6 x | VUuid => ValueRef.Uuid x end).

(** ** sql_type *)

Definition date_type (k : date_repr) : SqlType :=
  match k with D16 => Date | D32 => DateTime_ DateTime32 end.

Fixpoint sql_type (self : column_data) : SqlType :=
  match self with
  | VectorColumnData t _ => vector_sql_type t
  | StringColumnData _ => String_
  | FixedStringColumnData _ str_len => FixedString str_len
  | DateColumnData k _ _ => date_type k
  | DateTime64ColumnData _ (precision, tz) => DateTime_ (DateTime64 precision tz)
  | ChronoDateTimeColumnData _ _ => DateTime_ Chrono
  | IpColumnData v _ => ip_sql_type v
  | NullableColumnData inner _ => Nullable (sql_type inner)
  | ArrayColumnData inner _ => Array (sql_type inner)
  | DecimalColumnData _ precision scale _ => Decimal precision scale
  | Enum8ColumnData enum_values _ => Enum8 enum_values
  | Enum16ColumnData enum_values _ => Enum16 enum_values
  | ChunkColumnData data _ _ => sql_type data
  | ConcatColumnData first _ _ => sql_type first
  | StringAdapter _ => String_
  | FixedStringAdapter _ str_len => FixedString str_len
  | NullableFixedStringAdapter _ str_len => Nullable (FixedString str_len)
  | DecimalAdapter _ precision scale _ => Decimal precision scale
  | NullableDecimalAdapter _ precision scale _ => Nullable (Decimal precision scale)
  | Enum8Adapter _ enum_values => Enum8 enum_values
  | NullableEnum8Adapter _ enum_values => Nullable (Enum8 enum_values)
  | Enum16Adapter _ enum_values => Enum16 enum_values
  | NullableEnum16Adapter _ enum_values => Nullable (Enum16 enum_values)
  | ChronoDateTimeAdapter _ dst_type => dst_type
  end.

(** ** len *)

(** [Range::len]. *)
Definition range_len (start end_ : Z) : Z := if start <? end_ then end_ - start else 0.

(** A division by zero panics. *)
Definition div_usize (a b : Z) : Result Z := if b =? 0 then Panic else Ok (a / b).

(** [NullableColumnData::len] asserts that the null map is as long. *)
Definition nullable_len (inner_len : Result Z) (nulls : bytes) : Result Z :=
  n ← inner_len;
  _ ← assert_ (Z.of_nat (length nulls) =? n);
  inner_len.

Fixpoint len (self : column_data) : Result Z :=
  match self with
  | VectorColumnData _ data | DateColumnData _ data _ | DateTime64ColumnData data _
  | ArrayColumnData _ data => Ok (Z.of_nat (length data))
  | ChronoDateTimeColumnData data _ => Ok (Z.of_nat (length data))
  | StringColumnData pool => Ok (Z.of_nat (StringPool.len pool))
  | FixedStringColumnData buffer str_len => div_usize (Z.of_nat (length buffer)) str_len
  | IpColumnData v inner => div_usize (Z.of_nat (length inner)) (ip_size v)
  | NullableColumnData inner nulls => nullable_len (len inner) nulls
  | DecimalColumnData inner _ _ _ | Enum8ColumnData _ inner | Enum16ColumnData _ inner =>
    len inner
  | ChunkColumnData _ start end_ => Ok (range_len start end_)
  | ConcatColumnData _ _ index => unwrap (last index)
  | StringAdapter column | FixedStringAdapter column _ | NullableFixedStringAdapter column _
  | DecimalAdapter column _ _ _ | NullableDecimalAdapter column _ _ _
  | Enum8Adapter column _ | NullableEnum8Adapter column _
  | Enum16Adapter column _ | NullableEnum16Adapter column _
  | ChronoDateTimeAdapter column _ => len column
  end.

(** ** at *)

(** [VectorColumnData::at]. *)
Definition vector_value_ref (t : prim) (v : Z) : Result ValueRef.t :=
  v ← prim_value t v;
  match v with
  | Value.UInt8 x => Ok (ValueRef.UInt8 x) | Value.UInt16 x => Ok (ValueRef.UInt16 x)
  | Value.UInt32 x => Ok (ValueRef.UInt32 x) | Value.UInt64 x => Ok (ValueRef.UInt64 x)
  | Value.Int8 x => Ok (ValueRef.Int8 x) | Value.Int16 x => Ok (ValueRef.Int16 x)
  | Value.Int32 x => Ok (ValueRef.Int32 x) | Value.Int64 x => Ok (ValueRef.Int64 x)
  | Value.Float32 x => Ok (ValueRef.Float32 x) | Value.Float64 x => Ok (ValueRef.Float64 x)
  | _ => Panic
  end.

(** A rescaled decimal with another precision and width. *)
Definition adapt_decimal (d : Decimal.t) (precision scale : Z) (nobits : NoBits)
  : Result Decimal.t :=
  d ← Decimal.set_scale d scale;
  Ok (Decimal.mk (Decimal.underlying d) nobits precision (Decimal.scale d)).

(** The text of the error of [Option::from_sql]. *)
Definition option_dst : bytes := lit "$t".

(** [FixedStringColumnData::at]. *)
Definition fixed_at (buffer : bytes) (str_len index : Z) : Result ValueRef.t :=
  shift ← arith_u 64 (index * str_len);
  end_ ← arith_u 64 (shift + str_len);
  str_ref ← sliceZ buffer shift end_;
  Ok (ValueRef.String_ str_ref).

(** [DateColumnData::at]. *)
Definition date_at (k : date_repr) (data : list Z) (tz : Tz) (index : Z) : Result ValueRef.t :=
  v ← indexZ data index;
  Ok (match k with D16 => to_date16 v tz | D32 => to_date32 v tz end).

(** [DateTime64ColumnData::at]. *)
Definition datetime64_at (data : list Z) (params : Z * Tz) (index : Z) : Result ValueRef.t :=
  v ← indexZ data index;
  Ok (ValueRef.DateTime64 v params).

(** [ChronoDateTimeColumnData::at]. *)
Definition chrono_at (data : list DateTime) (index : Z) : Result ValueRef.t :=
  v ← indexZ data index;
  Ok (ValueRef.DateTime_ (wrapu 32 (dt_timestamp v)) (dt_timezone v)).

(** The methods of the columns that hold another one take its method. *)

(** [NullableColumnData::at]. *)
Definition nullable_at (inner : SqlType) (inner_at : Z -> Result ValueRef.t) (nulls : bytes)
  (index : Z) : Result ValueRef.t :=
  n ← indexZ nulls index;
  if decide (n = x01) then Ok (ValueRef.Nullable (Left inner))
  else inner_value ← inner_at index; Ok (ValueRef.Nullable (Right inner_value)).

(** [ArrayColumnData::at]. *)
Definition array_at (inner : SqlType) (inner_at : Z -> Result ValueRef.t) (offsets : list Z)
  (index : Z) : Result ValueRef.t :=
  start ← (if 0 <? index then indexZ offsets (index - 1) else Ok 0);
  end_ ← indexZ offsets index;
  _ ← alloc 32 end_;
  vs ← map_outcome inner_at (seqZ start (end_ - start));
  Ok (ValueRef.Array inner vs).

(** [DecimalColumnData::at]. *)
Definition decimal_at (inner_at : Z -> Result ValueRef.t) (precision scale : Z) (nobits : NoBits)
  (index : Z) : Result ValueRef.t :=
  v ← inner_at index;
  underlying ← value_ref_prim (match nobits with N32 => i32 | N64 => i64 end) v;
  Ok (ValueRef.Decimal_ (Decimal.mk underlying nobits precision scale)).

(** [Enum8ColumnData::at] and [Enum16ColumnData::at]. *)
Definition enum8_at (enum_values : list (bytes * Z)) (inner_at : Z -> Result ValueRef.t)
  (index : Z) : Result ValueRef.t :=
  v ← inner_at index;
  enum_value ← value_ref_prim i8 v;
  Ok (ValueRef.Enum8 enum_values enum_value).

Definition enum16_at (enum_values : list (bytes * Z)) (inner_at : Z -> Result ValueRef.t)
  (index : Z) : Result ValueRef.t :=
  v ← inner_at index;
  enum_value ← value_ref_prim i16 v;
  Ok (ValueRef.Enum16 enum_values enum_value).

(** [ChunkColumnData::at]. *)
Definition chunk_at (data_at : Z -> Result ValueRef.t) (start end_ index : Z)
  : Result ValueRef.t :=
  if range_len start end_ <=? index then Panic
  else i ← arith_u 64 (index + start); data_at i.

(** [ConcatColumnData::at]. *)
Definition concat_at (chunks_at : list (Z -> Result ValueRef.t)) (starts : list Z) (index : Z)
  : Result ValueRef.t :=
  chunk_index ← find_chunk starts index;
  chunk_at ← indexZ chunks_at chunk_index;
  start ← indexZ starts chunk_index;
  i ← arith_u 64 (index - start);
  chunk_at i.

(** [DecimalAdapter::at] and [NullableDecimalAdapter::at]. *)
Definition decimal_adapter_at (column_at : Z -> Result ValueRef.t) (precision scale : Z)
  (nobits : NoBits) (index : Z) : Result ValueRef.t :=
  v ← column_at index;
  match v with
  | ValueRef.Decimal_ d =>
    d ← adapt_decimal d precision scale nobits; Ok (ValueRef.Decimal_ d)
  | _ => Panic
  end.

Definition nullable_decimal_at (column_at : Z -> Result ValueRef.t) (precision scale : Z)
  (nobits : NoBits) (index : Z) : Result ValueRef.t :=
  v ← column_at index;
  value ← unwrap_result (from_sql_option option_dst from_sql_decimal v);
  match value with
  | None => Ok (ValueRef.Nullable (Left (Nullable (Decimal precision scale))))
  | Some d =>
    d ← adapt_decimal d precision scale nobits;
    Ok (ValueRef.Nullable (Right (ValueRef.Decimal_ d)))
  end.

(** [Enum8Adapter::at], [NullableEnum8Adapter::at], and for [Enum16]. *)
Definition enum8_adapter_at (column_at : Z -> Result ValueRef.t) (index : Z)
  : Result ValueRef.t :=
  v ← column_at index;
  match v with ValueRef.Enum8 _ _ => Ok v | _ => Panic end.

Definition enum16_adapter_at (column_at : Z -> Result ValueRef.t) (index : Z)
  : Result ValueRef.t :=
  v ← column_at index;
  match v with ValueRef.Enum16 _ _ => Ok v | _ => Panic end.

Definition nullable_enum8_at (column_at : Z -> Result ValueRef.t)
  (enum_values : list (bytes * Z)) (index : Z) : Result ValueRef.t :=
  v ← column_at index;
  value ← unwrap_result (from_sql_option option_dst from_sql_enum8 v);
  match value with
  | None => Ok (ValueRef.Nullable (Left (Nullable (Enum8 enum_values))))
  | Some e => Ok (ValueRef.Nullable (Right (ValueRef.Enum8 enum_values e)))
  end.

Definition nullable_enum16_at (column_at : Z -> Result ValueRef.t)
  (enum_values : list (bytes * Z)) (index : Z) : Result ValueRef.t :=
  v ← column_at index;
  value ← unwrap_result (from_sql_option option_dst from_sql_enum16 v);
  match value with
  | None => Ok (ValueRef.Nullable (Left (Nullable (Enum16 enum_values))))
  | Some e => Ok (ValueRef.Nullable (Right (ValueRef.Enum16 enum_values e)))
  end.

Fixpoint at_ (self : column_data) (index : Z) : Result ValueRef.t :=
  match self with
  | VectorColumnData t data => v ← indexZ data index; vector_value_ref t v
  | StringColumnData pool => s ← StringPool.get pool (Z.to_nat index); Ok (ValueRef.String_ s)
  | FixedStringColumnData buffer str_len => fixed_at buffer str_len index
  | DateColumnData k data tz => date_at k data tz index
  | DateTime64ColumnData data params => datetime64_at data params index
  | ChronoDateTimeColumnData data _ => chrono_at data index
  | IpColumnData v inner => ip_get v inner index
  | NullableColumnData inner nulls => nullable_at (sql_type inner) (at_ inner) nulls index
  | ArrayColumnData inner offsets => array_at (sql_type inner) (at_ inner) offsets index
  | DecimalColumnData inner precision scale nobits =>
    decimal_at (at_ inner) precision scale nobits index
  | Enum8ColumnData enum_values inner => enum8_at enum_values (at_ inner) index
  | Enum16ColumnData enum_values inner => enum16_at enum_values (at_ inner) index
  | ChunkColumnData data start end_ => chunk_at (at_ data) start end_ index
  | ConcatColumnData first rest starts => concat_at (at_ first :: map at_ rest) starts index
  | StringAdapter column | FixedStringAdapter column _ | NullableFixedStringAdapter column _ =>
    at_ column index
  | DecimalAdapter column precision scale nobits =>
    decimal_adapter_at (at_ column) precision scale nobits index
  | NullableDecimalAdapter column precision scale nobits =>
    nullable_decimal_at (at_ column) precision scale nobits index
  | Enum8Adapter column _ => enum8_adapter_at (at_ column) index
  | Enum16Adapter column _ => enum16_adapter_at (at_ column) index
  | NullableEnum8Adapter column enum_values => nullable_enum8_at (at_ column) enum_values index
  | NullableEnum16Adapter column enum_values => nullable_enum16_at (at_ column) enum_values index
  | ChronoDateTimeAdapter _ _ => Panic
  end.

(** ** save *)

(** [save_data]. *)
Definition save_data (t : prim) (data : list Z) (encoder : Encoder) (start end_ : Z)
  : Result Encoder :=
  start_index ← arith_u 64 (start * size_of t);
  end_index ← arith_u 64 (end_ * size_of t);
  bs ← sliceZ (list_bytes t data) start_index end_index;
  write_bytes encoder bs.

(** The bytes of a cell of a [FixedStringAdapter]. *)
Definition fixed_cell (v : ValueRef.t) : Result bytes :=
  match v with
  | ValueRef.String_ t => Ok t
  | ValueRef.Array UInt8 vs =>
    xs ← (map_outcome (value_ref_prim u8) vs : Result (list Z)); Ok (map Z_to_byte xs)
  | _ => Panic
  end.

(** The null map of optional cells. *)
Definition null_map {A} (values : list (option A)) : bytes :=
  (fun v => match v with None => x01 | Some _ => x00 end) <$> values.

(** A nullable adapter: the cells, the null map, then each cell by [f]. *)
Definition save_options {A} (at_i : Z -> Result ValueRef.t) (from_sql : FromSql A)
  (f : option A -> Encoder -> Result Encoder) (encoder : Encoder) (start end_ : Z)
  : Result Encoder :=
  size ← arith_u 64 (end_ - start);
  _ ← alloc 1 size;
  values ← map_outcome
    (fun i => v ← at_i i; unwrap_result (from_sql_option option_dst from_sql v))
    (seqZ start size);
  encoder ← write_bytes encoder (null_map values);
  for_each values f encoder.

Definition save_chrono (dates : list DateTime) (dst_type : SqlType) (encoder : Encoder)
  (start end_ : Z) : Result Encoder :=
  match dst_type with
  | DateTime_ (DateTime64 precision tz) =>
    ds ← sliceZ dates start end_;
    for_each ds (fun date e =>
      value ← from_datetime (dt_with_timezone date tz) precision; Encoder.write i64 e value) encoder
  | DateTime_ DateTime32 =>
    ds ← sliceZ dates start end_;
    for_each ds (fun date e => Encoder.write u32 e (wrapu 32 (dt_timestamp date))) encoder
  | _ => Panic
  end.

(** [StringColumnData::save]. *)
Definition string_save (pool : StringPool) (encoder : Encoder) (start end_ : Z) : Result Encoder :=
  n ← arith_u 64 (end_ - start);
  ss ← StringPool.strings pool;
  for_each (take (Z.to_nat n) (drop (Z.to_nat start) ss)) (fun v e => byte_string e v) encoder.

(** [FixedStringColumnData::save]. *)
Definition fixed_save (buffer : bytes) (str_len : Z) (encoder : Encoder) (start end_ : Z)
  : Result Encoder :=
  start_index ← arith_u 64 (start * str_len);
  end_index ← arith_u 64 (end_ * str_len);
  bs ← sliceZ buffer start_index end_index;
  write_bytes encoder bs.

(** [IpColumnData::save]. *)
Definition ip_save (v : ip_version) (inner : bytes) (encoder : Encoder) (start end_ : Z)
  : Result Encoder :=
  start_index ← arith_u 64 (start * ip_size v);
  end_index ← arith_u 64 (end_ * ip_size v);
  bs ← sliceZ inner start_index end_index;
  write_bytes encoder bs.

(** [NullableColumnData::save]. *)
Definition nullable_save (inner_save : Encoder -> Z -> Z -> Result Encoder) (nulls : bytes)
  (encoder : Encoder) (start end_ : Z) : Result Encoder :=
  bs ← sliceZ nulls start end_;
  encoder ← write_bytes encoder bs;
  inner_save encoder start end_.

(** [ArrayColumnData::save]: the offsets, then all of the elements. *)
Definition array_save (inner_save : Encoder -> Z -> Z -> Result Encoder) (offsets : list Z)
  (encoder : Encoder) (start end_ : Z) : Result Encoder :=
  '(encoder, offset) ← for_each (seqZ start (end_ - start))
    (fun i '(e, _) =>
       offset ← indexZ offsets i;
       e ← Encoder.write u64 e offset;
       Ok (e, offset))
    (encoder, 0);
  inner_save encoder 0 offset.

(** [ChunkColumnData::save]. *)
Definition chunk_save (data_save : Encoder -> Z -> Z -> Result Encoder) (rstart rend : Z)
  (encoder : Encoder) (start end_ : Z) : Result Encoder :=
  s ← arith_u 64 (rstart + start);
  e ← arith_u 64 (rstart + end_);
  data_save encoder s (Z.min rend e).

(** [StringAdapter::save]. *)
Definition string_adapter_save (column_at : Z -> Result ValueRef.t) (encoder : Encoder)
  (start end_ : Z) : Result Encoder :=
  for_each (seqZ start (end_ - start))
    (fun i e =>
       v ← column_at i;
       buf ← unwrap_result (from_sql_vec_u8 v);
       byte_string e buf)
    encoder.

(** [FixedStringAdapter::save]. *)
Definition fixed_adapter_save (column_at : Z -> Result ValueRef.t) (str_len : Z)
  (encoder : Encoder) (start end_ : Z) : Result Encoder :=
  _ ← alloc 1 str_len;
  for_each (seqZ start (end_ - start))
    (fun i e =>
       v ← column_at i;
       buffer ← fixed_cell v;
       write_bytes e (vec_resize (Z.to_nat str_len) x00 buffer))
    encoder.

(** [NullableFixedStringAdapter::save]. *)
Definition nullable_fixed_save (self_at : Z -> Result ValueRef.t) (str_len : Z)
  (encoder : Encoder) (start end_ : Z) : Result Encoder :=
  save_options self_at from_sql_bytes
    (fun value e => write_bytes e (vec_resize (Z.to_nat str_len) x00 (default [] value)))
    encoder start end_.

(** [DecimalAdapter::save]. *)
Definition decimal_adapter_save (self_at : Z -> Result ValueRef.t) (nobits : NoBits)
  (encoder : Encoder) (start end_ : Z) : Result Encoder :=
  for_each (seqZ start (end_ - start))
    (fun i e =>
       v ← self_at i;
       match v with
       | ValueRef.Decimal_ d =>
         match nobits with
         | N32 => Encoder.write i32 e (Decimal.internal N32 d)
         | N64 => Encoder.write i64 e (Decimal.internal N64 d)
         end
       | _ => Panic
       end)
    encoder.

(** [NullableDecimalAdapter::save]. *)
Definition nullable_decimal_save (self_at : Z -> Result ValueRef.t) (nobits : NoBits)
  (encoder : Encoder) (start end_ : Z) : Result Encoder :=
  save_options self_at from_sql_decimal
    (fun value e =>
       let underlying := match value with Some v => Decimal.underlying v | None => 0 end in
       match nobits with
       | N32 => Encoder.write i32 e (wraps 32 underlying)
       | N64 => Encoder.write i64 e underlying
       end)
    encoder start end_.

(** [Enum8Adapter::save], [NullableEnum8Adapter::save], and for [Enum16]. *)
Definition enum8_adapter_save (self_at : Z -> Result ValueRef.t) (encoder : Encoder)
  (start end_ : Z) : Result Encoder :=
  for_each (seqZ start (end_ - start))
    (fun i e =>
       v ← self_at i;
       match v with ValueRef.Enum8 _ x => Encoder.write i8 e x | _ => Panic end)
    encoder.

Definition enum16_adapter_save (self_at : Z -> Result ValueRef.t) (encoder : Encoder)
  (start end_ : Z) : Result Encoder :=
  for_each (seqZ start (end_ - start))
    (fun i e =>
       v ← self_at i;
       match v with ValueRef.Enum16 _ x => Encoder.write i16 e x | _ => Panic end)
    encoder.

Definition nullable_enum8_save (self_at : Z -> Result ValueRef.t) (encoder : Encoder)
  (start end_ : Z) : Result Encoder :=
  save_options self_at from_sql_enum8
    (fun value e => Encoder.write i8 e (default 0 value)) encoder start end_.

Definition nullable_enum16_save (self_at : Z -> Result ValueRef.t) (encoder : Encoder)
  (start end_ : Z) : Result Encoder :=
  save_options self_at from_sql_enum16
    (fun value e => Encoder.write i16 e (default 0 value)) encoder start end_.

Fixpoint save (self : column_data) (encoder : Encoder) (start end_ : Z) : Result Encoder :=
  match self with
  | VectorColumnData t data => save_data t data encoder start end_
  | StringColumnData pool => string_save pool encoder start end_
  | FixedStringColumnData buffer str_len => fixed_save buffer str_len encoder start end_
  | DateColumnData k data _ => save_data (date_prim k) data encoder start end_
  | DateTime64ColumnData _ _ | ChronoDateTimeColumnData _ _ => Panic
  | IpColumnData v inner => ip_save v inner encoder start end_
  | NullableColumnData inner nulls => nullable_save (save inner) nulls encoder start end_
  | ArrayColumnData inner offsets => array_save (save inner) offsets encoder start end_
  | DecimalColumnData inner _ _ _ | Enum8ColumnData _ inner | Enum16ColumnData _ inner =>
    save inner encoder start end_
  | ChunkColumnData data rstart rend => chunk_save (save data) rstart rend encoder start end_
  | ConcatColumnData _ _ _ => Panic
  | StringAdapter column => string_adapter_save (at_ column) encoder start end_
  | FixedStringAdapter column str_len =>
    fixed_adapter_save (at_ column) str_len encoder start end_
  | NullableFixedStringAdapter _ str_len =>
    nullable_fixed_save (at_ self) str_len encoder start end_
  | DecimalAdapter _ _ _ nobits => decimal_adapter_save (at_ self) nobits encoder start end_
  | NullableDecimalAdapter _ _ _ nobits =>
    nullable_decimal_save (at_ self) nobits encoder start end_
  | Enum8Adapter _ _ => enum8_adapter_save (at_ self) encoder start end_
  | Enum16Adapter _ _ => enum16_adapter_save (at_ self) encoder start end_
  | NullableEnum8Adapter _ _ => nullable_enum8_save (at_ self) encoder start end_
  | NullableEnum16Adapter _ _ => nullable_enum16_save (at_ self) encoder start end_
  | ChronoDateTimeAdapter column dst_type =>
    match column with
    | ChronoDateTimeColumnData dates _ => save_chrono dates dst_type encoder start end_
    | _ => Panic
    end
  end.

(** ** push *)

(** [FixedStringColumnData::push]. *)
Definition push_fixed (buffer : bytes) (str_len : Z) (bs : bytes) : Result bytes :=
  let l := Z.min (Z.of_nat (length bs)) str_len in
  let old_len := Z.of_nat (length buffer) in
  let buffer := buffer ++ take (Z.to_nat l) bs in
  n ← arith_u 64 (old_len + (str_len - l));
  _ ← alloc 1 n;
  Ok (vec_resize (Z.to_nat n) x00 buffer).

(** A column nests at most [cdepth] others; pushing does not change that. *)
Fixpoint cdepth (self : column_data) : nat :=
  match self with
  | NullableColumnData inner _ | ArrayColumnData inner _ | DecimalColumnData inner _ _ _
  | Enum8ColumnData _ inner | Enum16ColumnData _ inner => S (cdepth inner)
  | _ => 1
  end.

(** [DateColumnData::push], [DateTime64ColumnData::push] and
    [ChronoDateTimeColumnData::push]. *)
Definition date_push (k : date_repr) (data : list Z) (tz : Tz) (value : Value.t)
  : Result column_data :=
  v ← (match k with D16 => get_stamp16 value | D32 => get_stamp32 value end);
  Ok (DateColumnData k (data ++ [v]) tz).

Definition datetime64_push (data : list Z) (params : Z * Tz) (value : Value.t)
  : Result column_data :=
  let '(precision, tz) := params in
  time ← value_datetime value;
  stamp ← from_datetime (dt_with_timezone time tz) precision;
  Ok (DateTime64ColumnData (data ++ [stamp]) (precision, tz)).

Definition chrono_push (data : list DateTime) (tz : Tz) (value : Value.t) : Result column_data :=
  time ← value_datetime value; Ok (ChronoDateTimeColumnData (data ++ [time]) tz).

(** [NullableColumnData::push]; [arcs]: the nested [Arc]s are not shared. *)
Definition nullable_push (push_inner : column_data -> Value.t -> Result column_data) (arcs : bool)
  (inner : column_data) (nulls : bytes) (value : Value.t) : Result column_data :=
  _ ← assert_ arcs;
  match value with
  | Value.Nullable (Left sql_type) =>
    default_value ← value_default sql_type;
    inner ← push_inner inner default_value;
    Ok (NullableColumnData inner (nulls ++ [x01]))
  | Value.Nullable (Right v) =>
    inner ← push_inner inner v; Ok (NullableColumnData inner (nulls ++ [x00]))
  | v => inner ← push_inner inner v; Ok (NullableColumnData inner (nulls ++ [x00]))
  end.

(** [ArrayColumnData::push]. *)
Definition array_push (push_inner : column_data -> Value.t -> Result column_data) (arcs : bool)
  (inner : column_data) (offsets : list Z) (value : Value.t) : Result column_data :=
  match value with
  | Value.Array _ vs =>
    let prev := default 0 (last offsets) in
    _ ← assert_ arcs;
    offset ← arith_u 64 (prev + Z.of_nat (length vs));
    inner ← for_each vs (fun v inner' => push_inner inner' v) inner;
    Ok (ArrayColumnData inner (offsets ++ [offset]))
  | _ => Panic
  end.

(** [DecimalColumnData::push]. *)
Definition decimal_push (push_inner : column_data -> Value.t -> Result column_data)
  (inner : column_data) (precision scale : Z) (nobits : NoBits) (value : Value.t)
  : Result column_data :=
  match value with
  | Value.Decimal_ d =>
    inner ← push_inner inner
      (match nobits with
       | N32 => Value.Int32 (Decimal.internal N32 d)
       | N64 => Value.Int64 (Decimal.internal N64 d)
       end);
    Ok (DecimalColumnData inner precision scale nobits)
  | _ => Panic
  end.

(** [Enum8ColumnData::push] and [Enum16ColumnData::push]. *)
Definition enum8_push (push_inner : column_data -> Value.t -> Result column_data)
  (enum_values : list (bytes * Z)) (inner : column_data) (value : Value.t)
  : Result column_data :=
  match value with
  | Value.Enum8 _ v => inner ← push_inner inner (Value.Int8 v); Ok (Enum8ColumnData enum_values inner)
  | _ => Panic
  end.

Definition enum16_push (push_inner : column_data -> Value.t -> Result column_data)
  (enum_values : list (bytes * Z)) (inner : column_data) (value : Value.t)
  : Result column_data :=
  match value with
  | Value.Enum16 _ v =>
    inner ← push_inner inner (Value.Int16 v); Ok (Enum16ColumnData enum_values inner)
  | _ => Panic
  end.

(** [fuel]: the nesting left. *)
Fixpoint push_fuel (fuel : nat) (arcs : bool) (self : column_data) (value : Value.t)
  : Result column_data :=
  match fuel with
  | O => OutOfFuel
  | S fuel =>
    match self with
    | VectorColumnData t data => v ← value_prim t value; Ok (VectorColumnData t (data ++ [v]))
    | StringColumnData pool =>
      s ← value_bytes value;
      pool ← push_string pool s;
      Ok (StringColumnData pool)
    | FixedStringColumnData buffer str_len =>
      bs ← value_string value;
      buffer ← push_fixed buffer str_len bs;
      Ok (FixedStringColumnData buffer str_len)
    | DateColumnData k data tz => date_push k data tz value
    | DateTime64ColumnData data params => datetime64_push data params value
    | ChronoDateTimeColumnData data tz => chrono_push data tz value
    | IpColumnData v inner => inner ← ip_push v inner value; Ok (IpColumnData v inner)
    | NullableColumnData inner nulls =>
      nullable_push (push_fuel fuel arcs) arcs inner nulls value
    | ArrayColumnData inner offsets => array_push (push_fuel fuel arcs) arcs inner offsets value
    | DecimalColumnData inner precision scale nobits =>
      decimal_push (push_fuel fuel arcs) inner precision scale nobits value
    | Enum8ColumnData enum_values inner => enum8_push (push_fuel fuel arcs) enum_values inner value
    | Enum16ColumnData enum_values inner => enum16_push (push_fuel fuel arcs) enum_values inner value
    | _ => Panic
    end
  end.

Definition push (arcs : bool) (self : column_data) (value : Value.t) : Result column_data :=
  push_fuel (cdepth self) arcs self value.

(** ** concat *)

(** [ConcatColumnData::check_columns]. *)
Definition check_columns (data : list column_data) : Result unit :=
  match data with
  | [] => Panic
  | first :: rest =>
    assert_ (forallb (fun column => bool_decide (sql_type first = sql_type column)) rest)
  end.

(** [ConcatColumnData::concat]. *)
Definition concat_columns (data : list column_data) : Result column_data :=
  _ ← check_columns data;
  sizes ← map_outcome len data;
  index ← build_index sizes;
  match data with
  | first :: rest => Ok (ConcatColumnData first rest index)
  | [] => Panic
  end.

(** ** from_type *)

(** [List::<T>::with_capacity]. *)
Definition list_with_capacity (t : prim) (capacity : Z) : Result (list Z) :=
  _ ← alloc (size_of t) capacity; Ok [].

(** [VectorColumnData::<T>::with_capacity]. *)
Definition vector_with_capacity (t : prim) (capacity : Z) : Result column_data :=
  data ← list_with_capacity t capacity; Ok (VectorColumnData t data).

Definition fixed_with_capacity (capacity str_len : Z) : Result column_data :=
  n ← arith_u 64 (capacity * str_len);
  _ ← alloc 1 n;
  Ok (FixedStringColumnData [] str_len).

(** [IpColumnData::with_capacity] makes [capacity] rows of zeroes. *)
Definition ip_with_capacity (v : ip_version) (capacity : Z) : Result column_data :=
  n ← arith_u 64 (capacity * ip_size v);
  _ ← alloc 1 n;
  Ok (IpColumnData v (replicate (Z.to_nat n) x00)).

Definition date_with_capacity (k : date_repr) (capacity : Z) (timezone : Tz) : Result column_data :=
  data ← list_with_capacity (date_prim k) capacity; Ok (DateColumnData k data timezone).

Definition datetime64_with_capacity (capacity precision : Z) (timezone : Tz)
  : Result column_data :=
  data ← list_with_capacity i64 capacity;
  Ok (DateTime64ColumnData data (precision, timezone)).

Fixpoint from_type (ty : SqlType) (timezone : Tz) (capacity : Z) : Result column_data :=
  match ty with
  | UInt8 => vector_with_capacity u8 capacity
  | UInt16 => vector_with_capacity u16 capacity
  | UInt32 => vector_with_capacity u32 capacity
  | UInt64 => vector_with_capacity u64 capacity
  | Int8 => vector_with_capacity i8 capacity
  | Int16 => vector_with_capacity i16 capacity
  | Int32 => vector_with_capacity i32 capacity
  | Int64 => vector_with_capacity i64 capacity
  | String_ => pool ← StringPool.with_capacity capacity; Ok (StringColumnData pool)
  | FixedString len => fixed_with_capacity capacity len
  | Float32 => vector_with_capacity f32 capacity
  | Float64 => vector_with_capacity f64 capacity
  | Ipv4 => ip_with_capacity V4 capacity
  | Ipv6 => ip_with_capacity V6 capacity
  | Uuid => ip_with_capacity VUuid capacity
  | Date => date_with_capacity D16 capacity timezone
  | DateTime_ (DateTime64 precision timezone) =>
    datetime64_with_capacity capacity precision timezone
  | DateTime_ _ => date_with_capacity D32 capacity timezone
  | Nullable inner_type =>
    inner ← from_type inner_type timezone capacity; Ok (NullableColumnData inner [])
  | Array inner_type =>
    inner ← from_type inner_type timezone capacity;
    offsets ← list_with_capacity u64 capacity;
    Ok (ArrayColumnData inner offsets)
  | Decimal precision scale =>
    nobits ← unwrap (from_precision precision);
    inner ← vector_with_capacity (match nobits with N32 => i32 | N64 => i64 end) capacity;
    Ok (DecimalColumnData inner precision scale nobits)
  | Enum8 enum_values =>
    inner ← vector_with_capacity i8 capacity; Ok (Enum8ColumnData enum_values inner)
  | Enum16 enum_values =>
    inner ← vector_with_capacity i16 capacity; Ok (Enum16ColumnData enum_values inner)
  end.

(** ** load *)

Section Load.
Context {R : Type} `{Read R}.

(** [with_capacity], [set_len], [read_bytes] into the memory of the list. *)
Definition load_list (t : prim) (size : Z) : rd R (list Z) :=
  _ ← lift (alloc (size_of t) size);
  bs ← read_bytes (Z.to_nat (size_of t * size));
  mret (list_of_bytes t (Z.to_nat size) bs).

(** A loop [for _ in 0..size] whose state is the column so far. *)
Fixpoint rd_for {A} (n : nat) (body : A -> rd R A) (a : A) : rd R A :=
  match n with
  | O => mret a
  | S n => a ← body a; rd_for n body a
  end.

Definition load_strings (size : Z) : rd R column_data :=
  pool ← lift (StringPool.with_capacity size);
  pool ← rd_for (Z.to_nat size) read_str_into_buffer pool;
  mret (StringColumnData pool).

Definition load_fixed (size str_len : Z) : rd R column_data :=
  n ← lift (arith_u 64 (size * str_len));
  _ ← lift (alloc 1 n);
  buffer ← rd_for (Z.to_nat size)
    (fun buffer =>
       new_len ← lift (arith_u 64 (Z.of_nat (length buffer) + str_len));
       _ ← lift (alloc 1 new_len);
       bs ← read_bytes (Z.to_nat str_len);
       mret (buffer ++ bs)) [];
  mret (FixedStringColumnData buffer str_len).

Definition load_date (k : date_repr) (size : Z) (tz : Tz) : rd R column_data :=
  data ← load_list (date_prim k) size; mret (DateColumnData k data tz).

Definition load_ip (v : ip_version) (size : Z) : rd R column_data :=
  n ← lift (arith_u 64 (size * ip_size v));
  _ ← lift (alloc 1 n);
  inner ← read_bytes (Z.to_nat n);
  mret (IpColumnData v inner).

Definition load_base (b : base) (size : Z) (tz : Tz) : rd R column_data :=
  match b with
  | BVector t => data ← load_list t size; mret (VectorColumnData t data)
  | BString => load_strings size
  | BDate16 => load_date D16 size tz
  | BDate32 => load_date D32 size tz
  | BIp v => load_ip v size
  end.

(** [get_timezone]. *)
Definition get_timezone (timezone : option bytes) (tz : Tz) : Result Tz :=
  match timezone with
  | None => Ok tz
  | Some t => match tz_parse t with inr tz => Ok tz | inl e => Err (from_string e) end
  end.

(** The [load] of the columns that hold another one takes [load_data]. *)

(** [NullableColumnData::load]. *)
Definition load_nullable (load_inner : Z -> rd R column_data) (size : Z) : rd R column_data :=
  _ ← lift (alloc 1 size);
  nulls ← read_bytes (Z.to_nat size);
  inner ← load_inner size;
  mret (NullableColumnData inner nulls).

(** [ArrayColumnData::load]. *)
Definition load_array (load_inner : Z -> rd R column_data) (size : Z) : rd R column_data :=
  offsets ← load_list u64 size;
  inner ← load_inner (default 0 (last offsets));
  mret (ArrayColumnData inner offsets).

(** [DecimalColumnData::load]. *)
Definition load_decimal (load_as : bytes -> rd R column_data) (precision scale : Z)
  (nobits : NoBits) : rd R column_data :=
  inner ← load_as (match nobits with N32 => lit "Int32" | N64 => lit "Int64" end);
  mret (DecimalColumnData inner precision scale nobits).

(** [Enum8ColumnData::load] and [Enum16ColumnData::load]. *)
Definition load_enum8 (load_as : bytes -> rd R column_data) (items : list (bytes * Z))
  : rd R column_data :=
  inner ← load_as (lit "Int8"); mret (Enum8ColumnData items inner).

Definition load_enum16 (load_as : bytes -> rd R column_data) (items : list (bytes * Z))
  : rd R column_data :=
  inner ← load_as (lit "Int16"); mret (Enum16ColumnData items inner).

(** [DateTime64ColumnData::load]. *)
Definition load_datetime64 (size precision : Z) (tz : Tz) : rd R column_data :=
  data ← load_list i64 size;
  mret (DateTime64ColumnData data (precision, tz)).

(** [load_data]; [fuel] bounds the nesting of the names. *)
Fixpoint load_data_fuel (fuel : nat) (type_name : bytes) (size : Z) (tz : Tz)
  : rd R column_data :=
  match fuel with
  | O => lift OutOfFuel
  | S fuel =>
    let load_as name := load_data_fuel fuel name size tz in
    ty ← lift (classify type_name);
    match ty with
    | NBase b => load_base b size tz
    | NNullable inner_type => load_nullable (fun n => load_data_fuel fuel inner_type n tz) size
    | NFixedString str_len => load_fixed size str_len
    | NArray inner_type => load_array (fun n => load_data_fuel fuel inner_type n tz) size
    | NDecimal precision scale nobits => load_decimal load_as precision scale nobits
    | NEnum8 items => load_enum8 load_as items
    | NEnum16 items => load_enum16 load_as items
    | NDateTime64 precision timezone =>
      column_timezone ← lift (get_timezone timezone tz);
      load_datetime64 size precision column_timezone
    end
  end.

(** A nested name is shorter; the two more are for the plain names that the
    decimals and the enums load. *)
Definition load_data (type_name : bytes) : Z -> Tz -> rd R column_data :=
  load_data_fuel (length type_name + 2) type_name.
End Load.
End Columns.

(** Unfolds the methods of the structs. *)
Ltac methods :=
  unfold nullable_len, fixed_at, date_at, datetime64_at, chrono_at, nullable_at, array_at,
    decimal_at, enum8_at, enum16_at, chunk_at, string_save, fixed_save, ip_save, nullable_save,
    array_save, chunk_save, load_nullable, load_array, load_decimal, load_enum8, load_enum16,
    load_datetime64 in *.
