(* ===== verification/ColumnLaws.v ===== *)
(** * What a column stores, and its round trip

    [stored tz n c]: the column [c] holds [n] rows that a block can carry and a
    server whose time zone is [tz] can read; [col_bytes] is the reference
    encoding of such a column.  [save_stored] and [load_stored] are the two
    halves of the round trip; what is read back is equal up to the layout of the
    string pools, an equivalence that no observation tells apart. *)

From S2P Require Import Prelude RustStd Errors Scalars Encoder ReadEx Stable Finite.
From S2P Require Import SqlType TypeNames DecimalNum Values StringPool Columns.
Local Open Scope Z_scope.

(** ** The memory of a list *)

Lemma length_list_bytes t data :
  length (list_bytes t data) = (buffer_size t * length data)%nat.
Proof.
  induction data as [|v data IH]; [cbn; lia|]. unfold list_bytes in *. cbn [fmap list_fmap concat].
  rewrite length_app, IH, length_marshal. cbn [length]. lia.
Qed.

Lemma list_of_bytes_list_bytes t data rest :
  Forall (fun v => prim_ok t v = true) data ->
  list_of_bytes t (length data) (list_bytes t data ++ rest) = data.
Proof.
  induction 1 as [|v data Hv _ IH]; [done|]. unfold list_bytes. cbn [fmap list_fmap concat].
  cbn [length list_of_bytes]. rewrite <- app_assoc.
  rewrite take_app_le by (rewrite length_marshal; lia).
  rewrite drop_app_ge by (rewrite length_marshal; lia).
  change (concat (marshal t <$> data)) with (list_bytes t data).
  rewrite length_marshal, Nat.sub_diag, drop_0, IH. f_equal.
  rewrite take_ge by (rewrite length_marshal; lia).
  pose proof (unmarshal_marshal (E:=Error) t v Hv) as Hu.
  rewrite unmarshal_le in Hu by apply length_marshal. congruence.
Qed.

(** ** Equal up to the layout of the pools *)

(** Pools that no read tells apart. *)
Definition pool_equiv (p q : StringPool) : Prop :=
  StringPool.len p = StringPool.len q /\
  forall i, StringPool.get (E:=Error) p i = StringPool.get q i.

#[export] Instance pool_equivalence : Equivalence pool_equiv.
Proof.
  split; unfold pool_equiv.
  - done.
  - intros p q [??]; split; [done|]. intros i. by symmetry.
  - intros p q r [??] [??]; split; [congruence|]. intros i. etransitivity; eauto.
Qed.

Lemma pool_equiv_wf p q :
  wf p -> wf q -> contents p = contents q -> pool_equiv p q.
Proof.
  intros Hp Hq Hc. split.
  - by rewrite <- !length_contents, Hc.
  - intros i. by rewrite !wf_get, Hc by done.
Qed.

Lemma pool_equiv_strings p q :
  pool_equiv p q -> strings (E:=Error) p = strings (E:=Error) q.
Proof.
  intros [Hl Hg]. unfold strings. rewrite Hl. generalize (S (StringPool.len q)) 0%nat.
  intros fuel. induction fuel as [|fuel IH]; intros i; [done|]. cbn [strings_from].
  unfold iter_next. rewrite Hl, Hg. case_decide; [|done].
  destruct (StringPool.get q i); try done. cbn. by rewrite IH.
Qed.

Section Laws.
Context {P : Profile} `{ChronoTz, Combine}.

Inductive col_equiv : column_data -> column_data -> Prop :=
| ce_refl c : col_equiv c c
| ce_string p q : pool_equiv p q -> col_equiv (StringColumnData p) (StringColumnData q)
| ce_nullable i j nulls :
  col_equiv i j -> col_equiv (NullableColumnData i nulls) (NullableColumnData j nulls)
| ce_array i j offsets :
  col_equiv i j -> col_equiv (ArrayColumnData i offsets) (ArrayColumnData j offsets)
| ce_chunk i j s e :
  col_equiv i j -> col_equiv (ChunkColumnData i s e) (ChunkColumnData j s e).

#[export] Instance column_equiv : Equiv column_data := col_equiv.

#[export] Instance column_equivalence : Equivalence (≡@{column_data}).
Proof.
  split.
  - intros c. constructor.
  - intros c1 c2 Hc. induction Hc; by constructor.
  - intros c1 c2 c3 H12. revert c3. induction H12; intros c3 H23; [done|..];
      inversion H23; subst; constructor; first [by apply IHcol_equiv | by etransitivity | done].
Qed.

(** No method of [ColumnData] sees the difference. *)
#[export] Instance sql_type_proper : Proper ((≡@{column_data}) ==> (=)) sql_type.
Proof. intros c1 c2 Hc. induction Hc; cbn; congruence. Qed.

#[export] Instance len_proper : Proper ((≡@{column_data}) ==> (=)) len.
Proof.
  intros c1 c2 Hc. induction Hc as [|p q [Hl _]|i j nulls _ IH| |]; cbn; congruence.
Qed.

Lemma map_outcome_ext {E X Y} (f g : X -> outcome E Y) xs :
  (forall x, f x = g x) -> map_outcome f xs = map_outcome g xs.
Proof. intros Hfg. induction xs as [|x xs IH]; [done|]. cbn. by rewrite Hfg, IH. Qed.

#[export] Instance at_proper : Proper ((≡@{column_data}) ==> (=) ==> (=)) at_.
Proof.
  intros c1 c2 Hc i ? <-. revert i. induction Hc as [|p q Hpq|i j nulls Hij IH|i j o Hij IH|i j s e Hij IH];
    intros ix; try done; cbn [at_]; methods.
  - destruct Hpq as [_ ->]. done.
  - rewrite IH. by rewrite (sql_type_proper _ _ Hij).
  - rewrite (sql_type_proper _ _ Hij). do 3 (apply bind_ext; intros ? _).
    by rewrite (map_outcome_ext _ (at_ j)) by done.
  - case_match; [done|]. apply bind_ext. intros k _. apply IH.
Qed.

#[export] Instance save_proper :
  Proper ((≡@{column_data}) ==> (=) ==> (=) ==> (=) ==> (=)) save.
Proof.
  intros c1 c2 Hc e ? <- a ? <- b ? <-. revert e a b.
  induction Hc as [|p q Hpq|i j nulls Hij IH|i j o Hij IH|i j s e' Hij IH];
    intros e a b; try done; cbn [save]; methods.
  - by rewrite (pool_equiv_strings p q Hpq).
  - apply bind_ext. intros bs _. apply bind_ext. intros e1 _. apply IH.
  - apply bind_ext. intros [e1 o1] _. apply IH.
  - do 2 (apply bind_ext; intros ? _). apply IH.
Qed.

(** ** The rows of a column *)

(** The memory of [n] elements is addressable. *)
Definition fits (n size : Z) : Prop := 0 <= n /\ n * size <= isize_max.

Definition list_ok (t : prim) (n : Z) (data : list Z) : Prop :=
  Z.of_nat (length data) = n /\ fits n (size_of t) /\
  Forall (fun v => prim_ok t v = true) data.

Definition offset_of (offsets : list Z) : Z := default 0 (last offsets).

Fixpoint stored (tz : Tz) (n : Z) (self : column_data) : Prop :=
  match self with
  | VectorColumnData t data => t <> bool_ /\ list_ok t n data
  | StringColumnData pool =>
    wf pool /\ Z.of_nat (StringPool.len pool) = n /\ fits n AVG_STR_SIZE /\
    Forall (fun s => Z.of_nat (length s) <= isize_max) (contents pool)
  | FixedStringColumnData buffer str_len =>
    0 < str_len /\ fits n str_len /\ Z.of_nat (length buffer) = n * str_len
  | DateColumnData k data tz' => tz' = tz /\ list_ok (date_prim k) n data
  | IpColumnData v inner => fits n (ip_size v) /\ Z.of_nat (length inner) = n * ip_size v
  | NullableColumnData inner nulls =>
    Z.of_nat (length nulls) = n /\ fits n 1 /\ stored tz n inner
  | ArrayColumnData inner offsets =>
    list_ok u64 n offsets /\ stored tz (offset_of offsets) inner
  | DecimalColumnData (VectorColumnData t data) precision _ nobits =>
    from_precision precision = Some nobits /\
    t = (match nobits with N32 => i32 | N64 => i64 end) /\ list_ok t n data
  | Enum8ColumnData _ (VectorColumnData t data) => t = i8 /\ list_ok t n data
  | Enum16ColumnData _ (VectorColumnData t data) => t = i16 /\ list_ok t n data
  | _ => False
  end.

(** The bytes of a stored column. *)
Fixpoint col_bytes (self : column_data) : bytes :=
  match self with
  | VectorColumnData t data => list_bytes t data
  | StringColumnData pool => concat (string_bytes <$> contents pool)
  | FixedStringColumnData buffer _ => buffer
  | DateColumnData k data _ => list_bytes (date_prim k) data
  | IpColumnData _ inner => inner
  | NullableColumnData inner nulls => nulls ++ col_bytes inner
  | ArrayColumnData inner offsets => list_bytes u64 offsets ++ col_bytes inner
  | DecimalColumnData inner _ _ _ | Enum8ColumnData _ inner | Enum16ColumnData _ inner =>
    col_bytes inner
  | _ => []
  end.

Lemma size_of_pos t : 0 < size_of t.
Proof. by destruct t. Qed.

Lemma ip_size_pos v : 0 < ip_size v.
Proof. by destruct v. Qed.

Lemma stored_nonneg tz n c : stored tz n c -> 0 <= n.
Proof.
  destruct c; cbn; try done; unfold list_ok, fits; try lia; destruct c; cbn;
    unfold list_ok; try done; lia.
Qed.

(** The induction of the laws below: the columns that can be stored. *)
Lemma stored_ind (Q : Z -> column_data -> Prop) tz :
  (forall n t data, t <> bool_ -> list_ok t n data -> Q n (VectorColumnData t data)) ->
  (forall n pool, stored tz n (StringColumnData pool) -> Q n (StringColumnData pool)) ->
  (forall n buffer l, stored tz n (FixedStringColumnData buffer l) ->
     Q n (FixedStringColumnData buffer l)) ->
  (forall n k data, list_ok (date_prim k) n data -> Q n (DateColumnData k data tz)) ->
  (forall n v inner, stored tz n (IpColumnData v inner) -> Q n (IpColumnData v inner)) ->
  (forall n inner nulls, Z.of_nat (length nulls) = n -> fits n 1 -> stored tz n inner ->
     Q n inner -> Q n (NullableColumnData inner nulls)) ->
  (forall n inner offsets, list_ok u64 n offsets -> stored tz (offset_of offsets) inner ->
     Q (offset_of offsets) inner -> Q n (ArrayColumnData inner offsets)) ->
  (forall n t data p s nb, from_precision p = Some nb ->
     t = (match nb with N32 => i32 | N64 => i64 end) -> list_ok t n data ->
     Q n (DecimalColumnData (VectorColumnData t data) p s nb)) ->
  (forall n data items, list_ok i8 n data ->
     Q n (Enum8ColumnData items (VectorColumnData i8 data))) ->
  (forall n data items, list_ok i16 n data ->
     Q n (Enum16ColumnData items (VectorColumnData i16 data))) ->
  forall n c, stored tz n c -> Q n c.
Proof.
  intros HV HS HF HD HI HN HA HDec H8 H16 n c. revert n.
  induction c; intros n Hst; try done.
  - destruct Hst. by apply HV.
  - by apply HS.
  - by apply HF.
  - destruct Hst as [-> ?]. by apply HD.
  - by apply HI.
  - destruct Hst as (? & ? & ?). auto.
  - destruct Hst as (? & ?). auto.
  - destruct c; try done. destruct Hst as (? & ? & ?). by apply HDec.
  - destruct c; try done. destruct Hst as (-> & ?). by apply H8.
  - destruct c; try done. destruct Hst as (-> & ?). by apply H16.
Qed.

(** ** len *)

Lemma div_usize_mul n k : 0 < k -> div_usize (n * k) k = Ok n.
Proof.
  intros Hk. unfold div_usize. destruct (Z.eqb_spec k 0); [lia|]. by rewrite Z.div_mul by lia.
Qed.

Lemma len_stored tz n c : stored tz n c -> len c = Ok n.
Proof.
  revert n c. apply stored_ind; intros n; intros; cbn [len stored] in *; methods;
    unfold list_ok in *; destruct_and?; subst; try done; try by f_equal.
  - match goal with Hl : Z.of_nat (length _) = _ |- _ => rewrite Hl end. by apply div_usize_mul.
  - match goal with Hl : Z.of_nat (length _) = _ |- _ => rewrite Hl end.
    apply div_usize_mul, ip_size_pos.
  - match goal with Hl : len _ = _ |- _ => rewrite Hl end. cbn.
    by rewrite Z.eqb_refl.
Qed.

(** ** save *)

Lemma save_data_ok t n data e :
  list_ok t n data -> save_data t data e 0 n = Ok (e ++ list_bytes t data).
Proof.
  intros (Hl & [Hn Hf] & _). unfold save_data, isize_max in *. pose proof (size_of_pos t).
  rewrite !arith_u_ok by (apply in_u_spec; nia). cbn [mbind outcome_bind].
  rewrite Z.mul_0_l, sliceZ_all; [done|]. rewrite length_list_bytes.
  unfold size_of. lia.
Qed.

Lemma save_bytes_ok n k buffer e :
  0 < k -> fits n k -> Z.of_nat (length buffer) = n * k ->
  (start_index ← arith_u 64 (0 * k); end_index ← arith_u 64 (n * k);
   bs ← sliceZ buffer start_index end_index; write_bytes e bs : Result Encoder) =
  Ok (e ++ buffer).
Proof.
  intros Hk [Hn Hf] Hl. unfold isize_max in *.
  rewrite !arith_u_ok by (apply in_u_spec; nia). cbn [mbind outcome_bind].
  by rewrite Z.mul_0_l, sliceZ_all by lia.
Qed.

Lemma for_each_byte_string ss e :
  Forall (fun s => Z.of_nat (length s) <= isize_max) ss ->
  for_each ss (fun v e => byte_string e v) e = Ok (e ++ concat (string_bytes <$> ss)) :> Result Encoder.
Proof.
  intros Hss. revert e. induction Hss as [|s ss Hs _ IH]; intros e; cbn.
  { by rewrite app_nil_r. }
  rewrite byte_string_ok by (unfold isize_max in Hs; lia). cbn.
  by rewrite IH, <- app_assoc.
Qed.

Lemma seqZ_snoc k : 0 <= k -> seqZ 0 (k + 1) = seqZ 0 k ++ [k].
Proof. intros Hk. rewrite seqZ_app by lia. by rewrite Z.add_0_l. Qed.

(** The loop over the offsets of an array. *)
Lemma save_offsets_ok offsets e :
  for_each (seqZ 0 (Z.of_nat (length offsets)))
    (fun i '(e, _) =>
       offset ← indexZ offsets i;
       e ← Encoder.write u64 e offset;
       Ok (e, offset)) (e, 0) =
  Ok (e ++ list_bytes u64 offsets, offset_of offsets) :> Result (Encoder * Z).
Proof.
  assert (forall pre post e o, offsets = pre ++ post ->
    for_each (seqZ (Z.of_nat (length pre)) (Z.of_nat (length post)))
      (fun i '(e, _) =>
         offset ← indexZ offsets i; e ← Encoder.write u64 e offset; Ok (e, offset)) (e, o) =
    Ok (e ++ list_bytes u64 post, default o (last post)) :> Result (Encoder * Z)) as Hgen.
  { intros pre post. revert pre. induction post as [|x post IH]; intros pre e0 o Heq.
    { cbn. by rewrite app_nil_r. }
    cbn [length]. rewrite seqZ_cons by lia. cbn [for_each].
    rewrite indexZ_nat, Nat2Z.id, Heq, lookup_app_r, Nat.sub_diag by lia. cbn [lookup].
    cbn [mbind outcome_bind unwrap list_lookup]. rewrite write_ok. cbn [mbind outcome_bind].
    rewrite <- Heq. replace (Z.succ (Z.of_nat (length pre))) with (Z.of_nat (length (pre ++ [x])))
      by (rewrite length_app; cbn; lia).
    replace (Z.pred (Z.of_nat (S (length post)))) with (Z.of_nat (length post)) by lia.
    rewrite (IH (pre ++ [x])) by (by rewrite <- app_assoc).
    unfold list_bytes; cbn [fmap list_fmap concat]. rewrite <- app_assoc. do 2 f_equal.
    destruct post; [done|]. by rewrite last_cons_cons; destruct (last (z :: post)) eqn:?;
      [|apply last_None in Heqo0]. }
  unfold offset_of. rewrite <- (Hgen [] offsets e 0) by done. done.
Qed.

Lemma save_stored tz n c e :
  stored tz n c -> save c e 0 n = Ok (e ++ col_bytes c).
Proof.
  intros Hst. revert n c Hst e. apply (stored_ind (fun n c => forall e, save c e 0 n = Ok (e ++ col_bytes c)) tz);
    intros n; intros; cbn [save col_bytes stored] in *; methods.
  - by apply save_data_ok.
  - destruct_and!. rewrite Z.sub_0_r. match goal with Hf : fits _ _ |- _ => destruct Hf end.
    unfold isize_max in *. rewrite arith_u_ok by (apply in_u_spec; unfold AVG_STR_SIZE in *; lia).
    cbn [mbind outcome_bind]. rewrite wf_strings by done. cbn [mbind outcome_bind].
    rewrite drop_0, take_ge by (rewrite length_contents; lia).
    by rewrite for_each_byte_string.
  - destruct_and!. by apply save_bytes_ok.
  - by apply save_data_ok.
  - destruct_and!. apply save_bytes_ok; [apply ip_size_pos|done..].
  - rewrite sliceZ_all by done. cbn [mbind outcome_bind write_bytes].
    match goal with Hs : forall e, save _ e 0 _ = _ |- _ => rewrite Hs end. by rewrite <- app_assoc.
  - match goal with Hl : list_ok _ _ _ |- _ => destruct Hl as (<- & _ & _) end.
    rewrite Z.sub_0_r, save_offsets_ok. cbn [mbind outcome_bind].
    match goal with Hs : forall e, save _ e 0 _ = _ |- _ => rewrite Hs end. by rewrite <- app_assoc.
  - by apply save_data_ok.
  - by apply save_data_ok.
  - by apply save_data_ok.
Qed.

(** ** load *)

Section Load.
Context {R : Type} `{ReadLaws R}.

Lemma parses_load_list t n data :
  list_ok t n data -> parses (R:=R) (load_list t n) (list_bytes t data) data.
Proof.
  intros (Hl & [Hn Hf] & Hok). unfold load_list.
  eapply parses_bind_lift; [apply alloc_ok; lia|].
  eapply parses_bind; [symmetry; apply app_nil_r| |].
  - apply parses_read_bytes. rewrite length_list_bytes. unfold size_of. lia.
  - rewrite <- (list_of_bytes_list_bytes t data []) at 2 by done.
    rewrite app_nil_r, <- Hl, Nat2Z.id. apply parses_ret.
Qed.

Lemma parses_load_strings n pool :
  stored Zulu n (StringColumnData pool) ->
  exists pool', parses (R:=R) (load_strings n) (concat (string_bytes <$> contents pool))
                  (StringColumnData pool') /\ pool_equiv pool pool'.
Proof.
  intros (Hwf & Hl & [Hn Hf] & Hss).
  assert (forall ss pool0, wf pool0 -> roomy pool0 ->
    Forall (fun s => Z.of_nat (length s) <= isize_max) ss ->
    exists pool', parses (R:=R) (rd_for (length ss) read_str_into_buffer pool0)
      (concat (string_bytes <$> ss)) pool' /\ wf pool' /\ contents pool' = contents pool0 ++ ss)
    as Hfor.
  { intros ss. induction ss as [|s ss IH]; intros pool0 Hwf0 Hr0 Hok.
    { exists pool0. rewrite app_nil_r. split; [apply parses_ret|done]. }
    apply Forall_cons in Hok as [Hs Hok].
    destruct (parses_str_into_buffer (R:=R) pool0 s Hwf0 Hr0 Hs) as (p1 & Hp1 & Hwf1 & Hc1 & Hcap1).
    destruct (IH p1) as (p2 & Hp2 & Hwf2 & Hc2); [done|by unfold roomy; rewrite Hcap1|done|].
    exists p2. split; [|split; [done|by rewrite Hc2, Hc1, <- app_assoc]].
    cbn [length rd_for fmap list_fmap concat]. by eapply parses_bind. }
  unfold AVG_STR_SIZE in Hf.
  destruct (Hfor (contents pool) (Pool [] [] 0 n)) as (pool' & Hp & Hwf' & Hc).
  { by split; cbn; [constructor|]. }
  { unfold roomy, AVG_STR_SIZE; cbn. lia. }
  { done. }
  exists pool'. split; [|by apply pool_equiv_wf].
  unfold load_strings. rewrite <- Hl, <- length_contents, Nat2Z.id.
  eapply parses_bind_lift; [unfold StringPool.with_capacity; rewrite alloc_ok by
    (rewrite length_contents; lia); reflexivity|].
  rewrite length_contents, Hl.
  eapply parses_bind; [symmetry; apply app_nil_r|rewrite <- length_contents; exact Hp|].
  apply parses_ret.
Qed.

Lemma parses_load_fixed n str_len buffer :
  0 < str_len -> fits n str_len -> Z.of_nat (length buffer) = n * str_len ->
  parses (R:=R) (load_fixed n str_len) buffer (FixedStringColumnData buffer str_len).
Proof.
  intros Hs [Hn Hf] Hl. unfold isize_max in *.
  assert (forall k acc bs, Z.of_nat (length bs) = Z.of_nat k * str_len ->
    Z.of_nat (length (acc ++ bs)) <= isize_max ->
    parses (R:=R) (rd_for k
      (fun buffer =>
         new_len ← lift (arith_u 64 (Z.of_nat (length buffer) + str_len));
         _ ← lift (alloc 1 new_len);
         bs ← read_bytes (Z.to_nat str_len);
         mret (buffer ++ bs)) acc) bs (acc ++ bs)) as Hfor.
  { intros k. induction k as [|k IH]; intros acc bs Hb Ha.
    { assert (bs = []) as -> by (destruct bs; [done|cbn in Hb; lia]).
      rewrite app_nil_r. apply parses_ret. }
    assert (Z.to_nat str_len <= length bs)%nat by nia.
    rewrite length_app in Ha. unfold isize_max in *.
    cbn [rd_for]. eapply (parses_bind _ _ (take (Z.to_nat str_len) bs) (drop (Z.to_nat str_len) bs)
      _ (acc ++ take (Z.to_nat str_len) bs)); [by rewrite take_drop| |].
    - eapply parses_bind_lift; [apply arith_u_ok, in_u_spec; lia|].
      eapply parses_bind_lift; [apply alloc_ok; unfold isize_max; lia|].
      eapply parses_bind; [symmetry; apply app_nil_r|apply parses_read_bytes|apply parses_ret].
      rewrite length_take. lia.
    - rewrite <- (take_drop (Z.to_nat str_len) bs) at 3. rewrite app_assoc. apply IH.
      + rewrite length_drop. lia.
      + rewrite <- app_assoc, take_drop, length_app. unfold isize_max. lia. }
  unfold load_fixed.
  eapply parses_bind_lift; [apply arith_u_ok, in_u_spec; nia|].
  eapply parses_bind_lift; [apply alloc_ok; unfold isize_max; lia|].
  eapply parses_bind; [symmetry; apply app_nil_r| |apply parses_ret].
  apply (Hfor (Z.to_nat n) [] buffer); cbn; unfold isize_max; lia.
Qed.

Lemma parses_load_ip v n inner :
  fits n (ip_size v) -> Z.of_nat (length inner) = n * ip_size v ->
  parses (R:=R) (load_ip v n) inner (IpColumnData v inner).
Proof.
  intros [Hn Hf] Hl. unfold load_ip, isize_max in *. pose proof (ip_size_pos v).
  eapply parses_bind_lift; [apply arith_u_ok, in_u_spec; nia|].
  eapply parses_bind_lift; [apply alloc_ok; unfold isize_max; lia|].
  eapply parses_bind; [symmetry; apply app_nil_r|apply parses_read_bytes; lia|apply parses_ret].
Qed.

(** The branch that a type selects, with the fuel that remains. *)
Lemma load_data_printed fuel t n tz :
  printable t = true -> (length (to_string t) + 2 <= fuel)%nat ->
  exists fuel', fuel = S fuel' /\
  forall r, load_data_fuel (R:=R) fuel (to_string t) n tz r =
  match named_of t with
  | NBase b => load_base b n tz
  | NNullable inner_type =>
    _ ← lift (alloc 1 n);
    nulls ← read_bytes (Z.to_nat n);
    inner ← load_data_fuel fuel' inner_type n tz;
    mret (NullableColumnData inner nulls)
  | NFixedString str_len => load_fixed n str_len
  | NArray inner_type =>
    offsets ← load_list u64 n;
    inner ← load_data_fuel fuel' inner_type (offset_of offsets) tz;
    mret (ArrayColumnData inner offsets)
  | NDecimal precision scale nobits =>
    inner ← load_data_fuel fuel'
              (match nobits with N32 => lit "Int32" | N64 => lit "Int64" end) n tz;
    mret (DecimalColumnData inner precision scale nobits)
  | NEnum8 items =>
    inner ← load_data_fuel fuel' (lit "Int8") n tz; mret (Enum8ColumnData items inner)
  | NEnum16 items =>
    inner ← load_data_fuel fuel' (lit "Int16") n tz; mret (Enum16ColumnData items inner)
  | NDateTime64 precision timezone =>
    column_timezone ← lift (get_timezone timezone tz);
    data ← load_list i64 n;
    mret (DateTime64ColumnData data (precision, column_timezone))
  end r.
Proof.
  intros Hp Hf. destruct fuel as [|fuel]; [lia|]. exists fuel. split; [done|]. intros r.
  cbn [load_data_fuel]. unfold mbind at 1, rd_bind at 1, lift at 1.
  by rewrite classify_printed by done.
Qed.

Lemma parses_ext {A} (m m' : rd R A) bs a :
  (forall r, m r = m' r) -> parses m' bs a -> parses m bs a.
Proof. intros Hm Hp r r' Hd. rewrite Hm. by apply Hp. Qed.

(** The integers under a decimal or an enum, by the name of their type. *)
Lemma load_int fuel name t n tz data :
  (0 < fuel)%nat -> classify name = Ok (NBase (BVector t)) -> list_ok t n data ->
  parses (R:=R) (load_data_fuel fuel name n tz) (list_bytes t data) (VectorColumnData t data).
Proof.
  intros Hf Hc Hl. destruct fuel as [|fuel]; [lia|]. cbn [load_data_fuel].
  eapply parses_bind_lift; [exact Hc|].
  eapply parses_bind; [symmetry; apply app_nil_r|by apply parses_load_list|apply parses_ret].
Qed.

(** What [load_data] makes of the bytes of a stored column. *)
Definition loads (tz : Tz) (n : Z) (c : column_data) : Prop :=
  forall fuel, printable (sql_type c) = true ->
  (length (to_string (sql_type c)) + 2 <= fuel)%nat ->
  exists c', parses (R:=R) (load_data_fuel fuel (to_string (sql_type c)) n tz) (col_bytes c) c'
    /\ c ≡ c'.

Lemma named_of_vector t : t <> bool_ -> named_of (vector_sql_type t) = NBase (BVector t).
Proof. by destruct t. Qed.

Lemma load_stored tz n c : stored tz n c -> loads tz n c.
Proof.
  revert n c. apply stored_ind; intros n; intros; intros fuel Hp Hf;
    edestruct (load_data_printed fuel _ n tz Hp Hf) as (fuel' & -> & Hl);
    cbn [sql_type named_of col_bytes] in Hl |- *.
  - rewrite named_of_vector in Hl by done. eexists; split; [|reflexivity].
    eapply parses_ext; [exact Hl|]. cbn [load_base].
    eapply parses_bind; [symmetry; apply app_nil_r|by apply parses_load_list|apply parses_ret].
  - destruct (parses_load_strings n pool) as (pool' & Hpp & Heq).
    { assumption. }
    eexists; split; [by eapply parses_ext|]. by apply ce_string.
  - cbn [stored] in *. destruct_and!. eexists; split; [|reflexivity].
    eapply parses_ext; [exact Hl|]. by apply parses_load_fixed.
  - eexists; split; [|reflexivity]. eapply parses_ext; [exact Hl|].
    destruct k; cbn [date_type named_of load_base]; unfold load_date;
      (eapply parses_bind; [symmetry; apply app_nil_r|by apply parses_load_list|apply parses_ret]).
  - cbn [stored] in *. destruct_and!.
    eexists; split; [|reflexivity]. eapply parses_ext; [exact Hl|].
    destruct v; cbn [ip_sql_type named_of load_base]; by apply parses_load_ip.
  - cbn [sql_type printable to_string] in Hp, Hf. apply andb_true_iff in Hp as [Hp _].
    rewrite !length_app in Hf. cbn in Hf.
    match goal with IH : loads _ _ _ |- _ =>
      destruct (IH fuel' Hp) as (c' & Hc' & Heq); [lia|] end.
    eexists; split; [|by apply ce_nullable]. eapply parses_ext; [exact Hl|].
    eapply parses_bind_lift; [apply alloc_ok; unfold fits in *; lia|].
    eapply parses_bind; [done|apply parses_read_bytes; lia|].
    eapply parses_bind; [symmetry; apply app_nil_r|exact Hc'|apply parses_ret].
  - cbn [sql_type printable to_string] in Hp, Hf. rewrite !length_app in Hf. cbn in Hf.
    match goal with IH : loads _ _ _ |- _ =>
      destruct (IH fuel' Hp) as (c' & Hc' & Heq); [lia|] end.
    eexists; split; [|by apply ce_array]. eapply parses_ext; [exact Hl|].
    eapply parses_bind; [done|by apply parses_load_list|].
    eapply parses_bind; [symmetry; apply app_nil_r|exact Hc'|apply parses_ret].
  - eexists; split; [|reflexivity]. eapply parses_ext; [exact Hl|].
    match goal with Hn : from_precision _ = Some _ |- _ => rewrite Hn; cbn [default] end.
    eapply parses_bind; [symmetry; apply app_nil_r| |apply parses_ret].
    subst t. destruct nb; (apply load_int; [cbn in Hf; lia|by vm_compute|done]).
  - eexists; split; [|reflexivity]. eapply parses_ext; [exact Hl|].
    eapply parses_bind; [symmetry; apply app_nil_r| |apply parses_ret].
    apply load_int; [cbn in Hf; lia|by vm_compute|done].
  - eexists; split; [|reflexivity]. eapply parses_ext; [exact Hl|].
    eapply parses_bind; [symmetry; apply app_nil_r| |apply parses_ret].
    apply load_int; [cbn in Hf; lia|by vm_compute|done].
Qed.
End Load.

(** ** Loading from a growing and finite input *)

Section Input.
Context {R : Type} `{ReadLaws R, !Grow R, !GrowLaws R, !Sized R, !SizedLaws R}.

Lemma stable_for {A} n (body : A -> rd R A) a :
  (forall a, stable (body a)) -> stable (rd_for n body a).
Proof.
  intros Hb. revert a. induction n as [|n IH]; intros a; cbn; [apply stable_ret|].
  by apply stable_bind.
Qed.

Lemma consumes_for {A} n (body : A -> rd R A) a :
  (forall a, consumes 0 (body a)) -> consumes 0 (rd_for n body a).
Proof.
  intros Hb. revert a. induction n as [|n IH]; intros a; cbn; [apply consumes_ret|].
  by apply consumes_bind0.
Qed.

Lemma stable_load_list t n : stable (R:=R) (load_list t n).
Proof. unfold load_list. stable. Qed.

Lemma consumes_load_list t n : consumes (R:=R) 0 (load_list t n).
Proof. unfold load_list. consumes. Qed.

Lemma stable_load_base b n tz : stable (R:=R) (load_base b n tz).
Proof.
  pose proof stable_load_list.
  destruct b; cbn; unfold load_strings, load_fixed, load_date, load_ip; try (by stable).
  apply stable_bind; [apply stable_lift|]. intros pool. apply stable_map, stable_for.
  intros a. apply stable_str_into_buffer.
Qed.

Lemma with_capacity_fuel n : StringPool.with_capacity n <> (OutOfFuel : Result _).
Proof. unfold StringPool.with_capacity, alloc. by case_match. Qed.

Lemma consumes_load_base b n tz : consumes (R:=R) 0 (load_base b n tz).
Proof.
  pose proof consumes_load_list. pose proof with_capacity_fuel.
  destruct b; cbn; unfold load_strings, load_fixed, load_date, load_ip; try (by consumes).
  apply consumes_bind0; [by apply consumes_lift|]. intros pool.
  apply consumes_bind0; [|intros; apply consumes_ret]. apply consumes_for.
  intros a. apply consumes_str_into_buffer.
Qed.

Lemma stable_load_fixed n l : stable (R:=R) (load_fixed n l).
Proof.
  unfold load_fixed. do 2 (apply stable_bind; [apply stable_lift|]; intros ?).
  apply stable_map, stable_for. intros buffer. stable.
Qed.

Lemma consumes_load_fixed n l : consumes (R:=R) 0 (load_fixed n l).
Proof.
  unfold load_fixed.
  do 2 (apply consumes_bind0; [apply consumes_lift; auto with consumes|]; intros ?).
  apply consumes_bind0; [|intros; apply consumes_ret]. apply consumes_for.
  intros buffer. consumes.
Qed.

Lemma stable_load_data fuel name n tz : stable (R:=R) (load_data_fuel fuel name n tz).
Proof.
  revert name n. induction fuel as [|fuel IH]; intros name n; [apply stable_lift|].
  cbn [load_data_fuel]. apply stable_bind; [apply stable_lift|]. intros ty.
  pose proof stable_load_list. pose proof stable_load_base. pose proof stable_load_fixed.
  destruct ty; stable.
Qed.

(** Every name nests less than the fuel. *)
Lemma consumes_load_data fuel name n tz :
  (length name + 2 <= fuel)%nat \/ (0 < fuel)%nat /\ (exists t, classify name = Ok (NBase (BVector t))) ->
  consumes (R:=R) 0 (load_data_fuel fuel name n tz).
Proof.
  revert name n. induction fuel as [|fuel IH]; intros name n Hf; [lia|].
  cbn [load_data_fuel]. pose proof consumes_load_list. pose proof consumes_load_base.
  pose proof consumes_load_fixed.
  destruct (classify name) as [ty|e| |] eqn:Hc; try done; [|by apply classify_fuel in Hc].
  destruct Hf as [Hf|[_ [t [= ->]]]]; [|apply consumes_load_base].
  assert (forall nm t n, classify nm = Ok (NBase (BVector t)) ->
    consumes (R:=R) 0 (load_data_fuel fuel nm n tz)) as Hint.
  { intros nm t n' Hnm. apply IH. right. split; [lia|]. by exists t. }
  destruct ty as [b|inner|l|inner|p s nb|items|items|p z]; apply consumes_lift_Ok.
  - apply consumes_load_base.
  - pose proof (classify_nested name inner ltac:(by left)).
    assert (forall n, consumes 0 (load_data_fuel (R:=R) fuel inner n tz))
      by (intros; apply IH; left; lia). consumes.
  - apply consumes_load_fixed.
  - pose proof (classify_nested name inner ltac:(by right)).
    assert (forall n, consumes 0 (load_data_fuel (R:=R) fuel inner n tz))
      by (intros; apply IH; left; lia). consumes.
  - assert (consumes (R:=R) 0 (load_data_fuel fuel
      (match nb with N32 => lit "Int32" | N64 => lit "Int64" end) n tz))
      by (destruct nb; by eapply Hint). consumes.
  - assert (consumes (R:=R) 0 (load_data_fuel fuel (lit "Int8") n tz)) by (by eapply Hint). consumes.
  - assert (consumes (R:=R) 0 (load_data_fuel fuel (lit "Int16") n tz)) by (by eapply Hint). consumes.
  - assert (get_timezone z tz <> OutOfFuel) by (unfold get_timezone; by repeat case_match).
    consumes.
Qed.
End Input.
End Laws.
