(* ===== verification/ColumnReads.v ===== *)
(** * Reading the cells of a column

    Every cell of a column that can be stored is read without a panic, provided
    that the offsets of its arrays do not decrease; a client is free to send
    others. *)

From S2P Require Import Prelude RustStd Errors Scalars Encoder ReadEx SqlType TypeNames.
From S2P Require Import DecimalNum Values StringPool Columns ColumnLaws.
Local Open Scope Z_scope.

Section Reads.
Context {P : Profile} `{ChronoTz, Combine}.

(** The ends of the arrays do not decrease, and the cells of all of them fit
    into memory. *)
Fixpoint ordered (self : column_data) : Prop :=
  match self with
  | NullableColumnData inner _ => ordered inner
  | ArrayColumnData inner offsets =>
    (forall i j x y, (i <= j)%nat -> offsets !! i = Some x -> offsets !! j = Some y -> x <= y) /\
    offset_of offsets * 32 <= isize_max /\ ordered inner
  | _ => True
  end.

Lemma indexZ_lookup {E A} (xs : list A) i :
  0 <= i < Z.of_nat (length xs) -> exists x, xs !! Z.to_nat i = Some x /\ indexZ (E:=E) xs i = Ok x.
Proof.
  intros Hi. destruct (lookup_lt_is_Some_2 xs (Z.to_nat i)) as [x Hx]; [lia|].
  exists x. rewrite indexZ_nat, Hx by lia. done.
Qed.

Lemma map_outcome_total {E A B} (f : A -> outcome E B) xs :
  (forall x, x ∈ xs -> exists y, f x = Ok y) -> exists ys, map_outcome f xs = Ok ys.
Proof.
  induction xs as [|x xs IH]; intros Hf; [by exists []|].
  destruct (Hf x) as [y Hy]; [left|]. destruct IH as [ys Hys]; [by intros z Hz; apply Hf; right|].
  exists (y :: ys). cbn. by rewrite Hy, Hys.
Qed.

(** Cells of a list of integers. *)
Lemma vector_cell t n data i :
  t <> bool_ -> list_ok t n data -> 0 <= i < n ->
  exists v, at_ (VectorColumnData t data) i = Ok v /\
    forall E, value_ref_prim (E:=E) t v = Ok (default 0 (data !! Z.to_nat i)).
Proof.
  intros Ht (Hl & _ & _) Hi. destruct (indexZ_lookup (E:=Error) data i) as (x & Hx & Hi'); [lia|].
  cbn [at_]. rewrite Hi', Hx. destruct t; try done; eexists; (split; [reflexivity|done]).
Qed.

(** The bytes of a cell. *)
Lemma cell_bytes n k i (buffer : bytes) :
  0 < k -> Z.of_nat (length buffer) = n * k -> 0 <= i < n ->
  exists bs, sliceZ (E:=Error) buffer (i * k) (i * k + k) = Ok bs.
Proof.
  intros Hk Hl Hi. rewrite sliceZ_ok by nia. by eexists.
Qed.

(** The elements of an array. *)
Lemma array_bounds n offsets i :
  (forall i j x y, (i <= j)%nat -> offsets !! i = Some x -> offsets !! j = Some y -> x <= y) ->
  list_ok u64 n offsets -> 0 <= i < n ->
  exists s e, (if 0 <? i then indexZ offsets (i - 1) else Ok 0) = (Ok s : Result Z) /\
    indexZ offsets i = (Ok e : Result Z) /\ 0 <= s /\ 0 <= e <= offset_of offsets.
Proof.
  intros Hmono (Hl & _ & Hall) Hi.
  destruct (indexZ_lookup (E:=Error) offsets i) as (e & He & Hei); [lia|].
  assert (forall k x, offsets !! k = Some x -> 0 <= x) as Hpos.
  { intros k x Hx. by eapply Forall_lookup_1, in_u_spec in Hall as [? _]. }
  assert (e <= offset_of offsets).
  { unfold offset_of. rewrite last_lookup.
    destruct (lookup_lt_is_Some_2 offsets (Nat.pred (length offsets))) as [y Hy]; [lia|].
    rewrite Hy. cbn. eapply (Hmono (Z.to_nat i)); [|done..]. lia. }
  destruct (Z.ltb_spec 0 i).
  - destruct (indexZ_lookup (E:=Error) offsets (i - 1)) as (s & Hs & Hsi); [lia|].
    exists s, e. split_and!; eauto.
  - exists 0, e. split_and!; eauto; lia.
Qed.

Lemma at_stored tz n c :
  stored tz n c -> ordered c -> forall i, 0 <= i < n -> exists v, at_ c i = Ok v.
Proof.
  revert n c. apply (stored_ind (fun n c => ordered c -> forall i, 0 <= i < n -> exists v, at_ c i = Ok v));
    intros n; intros; cbn [at_ stored ordered] in *; methods; destruct_and?.
  - edestruct (vector_cell t n data) as (v & Hv & _); [done..|]. by exists v.
  - rewrite wf_get by done. destruct (lookup_lt_is_Some_2 (contents pool) (Z.to_nat i)) as [s Hs];
      [rewrite length_contents; lia|]. rewrite Hs. by eexists.
  - match goal with Hf : fits _ _ |- _ => destruct Hf as [? Hf]; unfold isize_max in Hf end.
    rewrite !arith_u_ok by (apply in_u_spec; nia). cbn [mbind outcome_bind].
    rewrite arith_u_ok by (apply in_u_spec; nia). cbn [mbind outcome_bind].
    destruct (cell_bytes n l i buffer) as [bs ->]; [done..|]. by eexists.
  - match goal with Hl : list_ok _ _ _ |- _ => destruct Hl as (Hl & _) end.
    destruct (indexZ_lookup (E:=Error) data i) as (x & _ & ->); [lia|]. by eexists.
  - unfold ip_get. replace ((i + 1) * ip_size v) with (i * ip_size v + ip_size v) by lia.
    destruct (cell_bytes n (ip_size v) i inner) as [bs ->]; [apply ip_size_pos|done..|]. by eexists.
  - destruct (indexZ_lookup (E:=Error) nulls i) as (x & _ & ->); [lia|]. cbn [mbind outcome_bind].
    case_decide; [by eexists|]. match goal with IH : _ -> forall i, _ |- _ => edestruct IH as [v ->] end;
      [done..|]. by eexists.
  - edestruct (array_bounds n offsets i) as (s & e & Hs & He & ? & ?); [done..|]. rewrite Hs, He.
    cbn [mbind outcome_bind]. rewrite alloc_ok by lia. cbn [mbind outcome_bind].
    destruct (map_outcome_total (at_ inner) (seqZ s (e - s))) as [vs ->]; [|by eexists].
    intros k Hk%elem_of_seqZ. match goal with IH : _ -> forall i, _ |- _ => apply IH; [done|lia] end.
  - subst t. edestruct (vector_cell (match nb with N32 => i32 | N64 => i64 end) n data) as (v & Hv & Hp);
      [by destruct nb|done..|]. cbn [at_] in Hv. rewrite Hv. cbn [mbind outcome_bind]. rewrite Hp. by eexists.
  - edestruct (vector_cell i8 n data) as (v & Hv & Hp); [done..|]. cbn [at_] in Hv. rewrite Hv.
    cbn [mbind outcome_bind]. rewrite Hp. by eexists.
  - edestruct (vector_cell i16 n data) as (v & Hv & Hp); [done..|]. cbn [at_] in Hv. rewrite Hv.
    cbn [mbind outcome_bind]. rewrite Hp. by eexists.
Qed.
End Reads.
