(* ===== verification/PushLaws.v ===== *)
(** * Pushing a value into a column

    [push] of a value that the column takes appends one row: the rows before it
    are read as before, and the new row is read as the value pushed.
    [FixedStringColumnData] is left out: its [push] does not append
    ([push_fixed_drops] of ColumnProperties). *)

From S2P Require Import Prelude RustStd Errors Scalars Encoder ReadEx SqlType.
From S2P Require Import TypeNames DecimalNum Values StringPool Columns ColumnLaws ColumnReads.
Local Open Scope Z_scope.

Section Push.
Context {P : Profile} `{ChronoTz, Combine}.

(** ** The rows of a column *)

(** The parts of a column agree on its [n] rows. *)
Fixpoint shape (n : Z) (self : column_data) : Prop :=
  match self with
  | VectorColumnData t data => t <> bool_ /\ Z.of_nat (length data) = n
  | StringColumnData pool => wf pool /\ Z.of_nat (StringPool.len pool) = n
  | DateColumnData _ data _ | DateTime64ColumnData data _ => Z.of_nat (length data) = n
  | ChronoDateTimeColumnData data _ => Z.of_nat (length data) = n
  | IpColumnData v inner => 0 <= n /\ Z.of_nat (length inner) = n * ip_size v
  | NullableColumnData inner nulls => Z.of_nat (length nulls) = n /\ shape n inner
  | ArrayColumnData inner offsets =>
    Z.of_nat (length offsets) = n /\ Forall (fun x => 0 <= x <= offset_of offsets) offsets /\
    shape (offset_of offsets) inner
  | DecimalColumnData (VectorColumnData t data) _ _ nobits =>
    t = (match nobits with N32 => i32 | N64 => i64 end) /\ Z.of_nat (length data) = n
  | Enum8ColumnData _ (VectorColumnData t data) => t = i8 /\ Z.of_nat (length data) = n
  | Enum16ColumnData _ (VectorColumnData t data) => t = i16 /\ Z.of_nat (length data) = n
  | _ => False
  end.

(** The cells of every array fit into memory. *)
Fixpoint addressable (self : column_data) : Prop :=
  match self with
  | NullableColumnData inner _ => addressable inner
  | ArrayColumnData inner offsets => offset_of offsets * 32 <= isize_max /\ addressable inner
  | _ => True
  end.

(** The elements in the arrays of a value. *)
Fixpoint elements (v : Value.t) : Z :=
  match v with
  | Value.Nullable (Right v) => elements v
  | Value.Array _ vs => Z.of_nat (length vs) + foldr (fun v n => elements v + n) 0 vs
  | _ => 0
  end.

(** The offsets of every array have room for [k] elements more, and the string
    pools for a chunk more. *)
Fixpoint room (k : Z) (self : column_data) : Prop :=
  match self with
  | StringColumnData pool => roomy pool
  | NullableColumnData inner _ => room k inner
  | ArrayColumnData inner offsets => offset_of offsets + k < 2 ^ 64 /\ room k inner
  | _ => True
  end.

Definition is_ok {E A} (x : outcome E A) : bool := match x with Ok _ => true | _ => false end.

(** The values that [push] takes. *)
Fixpoint accepts (self : column_data) (v : Value.t) : bool :=
  match self with
  | VectorColumnData t _ => is_ok (value_prim (E:=Error) t v)
  | StringColumnData _ =>
    match v with Value.String_ s => Z.of_nat (length s) <=? isize_max | _ => false end
  | DateColumnData D16 _ _ => is_ok (get_stamp16 (E:=Error) v)
  | DateColumnData D32 _ _ => is_ok (get_stamp32 (E:=Error) v)
  | DateTime64ColumnData _ params => is_ok (datetime64_push [] params v)
  | ChronoDateTimeColumnData _ _ => is_ok (value_datetime (E:=Error) v)
  | IpColumnData k _ =>
    match k, v with
    | V4, Value.Ipv4 x | V6, Value.Ipv6 x | VUuid, Value.Uuid x => Z.of_nat (length x) =? ip_size k
    | _, _ => false
    end
  | NullableColumnData inner _ =>
    match v with
    | Value.Nullable (Left ty) =>
      match value_default ty with Ok d => accepts inner d | _ => false end
    | Value.Nullable (Right v) => accepts inner v
    | v => accepts inner v
    end
  | ArrayColumnData inner _ =>
    match v with Value.Array _ vs => forallb (accepts inner) vs | _ => false end
  | DecimalColumnData _ _ _ _ => match v with Value.Decimal_ _ => true | _ => false end
  | Enum8ColumnData _ _ => match v with Value.Enum8 _ _ => true | _ => false end
  | Enum16ColumnData _ _ => match v with Value.Enum16 _ _ => true | _ => false end
  | _ => false
  end.

(** What a value is read as from a column like [self].  A column of dates or
    instants keeps what [get_stamp] makes of the value, a column of decimals its
    digits, whatever their scale. *)
Fixpoint cell (self : column_data) (v : Value.t) : Result ValueRef.t :=
  match self with
  | DateColumnData D16 _ tz => x ← get_stamp16 v; Ok (to_date16 x tz)
  | DateColumnData D32 _ tz => x ← get_stamp32 v; Ok (to_date32 x tz)
  | DateTime64ColumnData _ (precision, tz) =>
    time ← value_datetime v;
    stamp ← from_datetime (dt_with_timezone time tz) precision;
    Ok (ValueRef.DateTime64 stamp (precision, tz))
  | ChronoDateTimeColumnData _ _ =>
    time ← value_datetime v;
    Ok (ValueRef.DateTime_ (wrapu 32 (dt_timestamp time)) (dt_timezone time))
  | NullableColumnData inner _ =>
    match v with
    | Value.Nullable (Left _) => Ok (ValueRef.Nullable (Left (sql_type inner)))
    | Value.Nullable (Right v) => x ← cell inner v; Ok (ValueRef.Nullable (Right x))
    | v => x ← cell inner v; Ok (ValueRef.Nullable (Right x))
    end
  | ArrayColumnData inner _ =>
    match v with
    | Value.Array _ vs => xs ← map_outcome (cell inner) vs; Ok (ValueRef.Array (sql_type inner) xs)
    | _ => Panic
    end
  | DecimalColumnData _ precision scale nobits =>
    match v with
    | Value.Decimal_ d =>
      Ok (ValueRef.Decimal_ (Decimal.mk (Decimal.internal nobits d) nobits precision scale))
    | _ => Panic
    end
  | Enum8ColumnData items _ =>
    match v with Value.Enum8 _ x => Ok (ValueRef.Enum8 items x) | _ => Panic end
  | Enum16ColumnData items _ =>
    match v with Value.Enum16 _ x => Ok (ValueRef.Enum16 items x) | _ => Panic end
  | _ => Ok (to_value_ref v)
  end.

(** The values of the type of the column that it keeps as they are: any but dates
    and instants. *)
Fixpoint exact (self : column_data) (v : Value.t) : bool :=
  match self with
  | DateColumnData _ _ _ | DateTime64ColumnData _ _ | ChronoDateTimeColumnData _ _ => false
  | NullableColumnData inner _ =>
    match v with
    | Value.Nullable (Left ty) => bool_decide (ty = sql_type inner)
    | Value.Nullable (Right v) => exact inner v
    | _ => false
    end
  | ArrayColumnData inner _ =>
    match v with
    | Value.Array ty vs => bool_decide (ty = sql_type inner) && forallb (exact inner) vs
    | _ => false
    end
  | DecimalColumnData _ precision scale nobits =>
    match v with
    | Value.Decimal_ d =>
      bool_decide (d = Decimal.mk (Decimal.underlying d) nobits precision scale) &&
      (match nobits with N32 => in_s 32 (Decimal.underlying d) | N64 => true end)
    | _ => false
    end
  | Enum8ColumnData items _ =>
    match v with Value.Enum8 values _ => bool_decide (values = items) | _ => false end
  | Enum16ColumnData items _ =>
    match v with Value.Enum16 values _ => bool_decide (values = items) | _ => false end
  | _ => true
  end.

Lemma cells_exact c vs :
  (forall w, exact c w = true -> cell c w = Ok (to_value_ref w)) ->
  forallb (exact c) vs = true -> map_outcome (cell c) vs = Ok (map to_value_ref vs).
Proof.
  intros Hc. induction vs as [|w vs IH]; [done|]. cbn. intros [Hw Hvs]%andb_prop.
  by rewrite Hc, IH.
Qed.

Lemma cell_exact c w : exact c w = true -> cell c w = Ok (to_value_ref w).
Proof.
  revert w. induction c; intros w; cbn [exact cell]; try done; destruct w; try done.
  - case_match; [by intros ->%bool_decide_eq_true|intros Hw; by rewrite IHc].
  - intros [->%bool_decide_eq_true Hvs]%andb_prop. by rewrite (cells_exact c) by done.
  - intros [Hd%bool_decide_eq_true Hu]%andb_prop.
    cbn [to_value_ref]. rewrite Hd at 2. unfold Decimal.internal.
    destruct nobits; [by rewrite wraps_small by done|done].
  - by intros ->%bool_decide_eq_true.
  - by intros ->%bool_decide_eq_true.
Qed.

(** The promise of [push]. *)
Record appends (n : Z) (c : column_data) (v : Value.t) (c' : column_data) : Prop := {
  ap_shape : shape (n + 1) c';
  ap_type : sql_type c' = sql_type c;
  ap_depth : cdepth c' = cdepth c;
  ap_cell : forall w, cell c' w = cell c w;
  ap_accepts : forall w, accepts c' w = accepts c w;
  ap_addr : addressable c' -> addressable c;
  ap_old : forall i, 0 <= i < n -> at_ c' i = at_ c i;
  ap_new : addressable c' -> at_ c' n = cell c v
}.

Lemma shape_nonneg n c : shape n c -> 0 <= n.
Proof.
  destruct c; cbn; try lia; try (destruct c; cbn; lia).
Qed.

Lemma shape_len n c : shape n c -> len c = Ok n.
Proof.
  revert n. induction c; intros n Hs; cbn in Hs |- *; try done;
    try (destruct_and?; by subst n); try (destruct c; try done; by destruct Hs as [_ <-]).
  - destruct Hs as [Hn ->]. pose proof (ip_size_pos v). unfold div_usize.
    rewrite (proj2 (Z.eqb_neq _ _)) by lia. by rewrite Z.div_mul by lia.
  - destruct Hs as [Hl Hs]. unfold nullable_len. rewrite (IHc n Hs). cbn. by rewrite Hl, Z.eqb_refl.
Qed.

Lemma indexZ_old {E A} (xs : list A) x i :
  0 <= i < Z.of_nat (length xs) -> indexZ (E:=E) (xs ++ [x]) i = indexZ xs i.
Proof. intros Hi. rewrite !indexZ_nat, lookup_app_l by lia. done. Qed.

Lemma indexZ_new {E A} (xs : list A) x : indexZ (E:=E) (xs ++ [x]) (Z.of_nat (length xs)) = Ok x.
Proof. rewrite indexZ_nat, Nat2Z.id, lookup_app_r, Nat.sub_diag by lia. done. Qed.

Lemma indexZ_elem {E A} (xs : list A) i x : 0 <= i -> indexZ (E:=E) xs i = Ok x -> x ∈ xs.
Proof.
  intros Hi. rewrite indexZ_nat by done. destruct (xs !! _) eqn:Hx; [|done].
  intros [= ->]. by eapply list_elem_of_lookup_2.
Qed.

Lemma map_outcome_in {E X Y} (f g : X -> outcome E Y) xs :
  (forall x, x ∈ xs -> f x = g x) -> map_outcome f xs = map_outcome g xs.
Proof.
  induction xs as [|x xs IH]; intros Hfg; [done|]. cbn.
  rewrite Hfg by left. rewrite IH by (intros z Hz; apply Hfg; by right). done.
Qed.

Lemma value_prim_ref {E} t v x :
  value_prim (E:=E) t v = Ok x -> vector_value_ref t x = Ok (to_value_ref v) /\
    value_ref_prim (E:=Error) t (to_value_ref v) = Ok x.
Proof. destruct t, v; cbn; try done; by intros [= ->]. Qed.

(** ** Columns of plain data *)

Lemma appends_vector n t data v x :
  shape n (VectorColumnData t data) -> value_prim (E:=Error) t v = Ok x ->
  appends n (VectorColumnData t data) v (VectorColumnData t (data ++ [x])).
Proof.
  intros [Ht Hl] Hx. split; try done.
  - split; [done|]. rewrite length_app. cbn. lia.
  - intros i Hi. cbn [at_]. by rewrite indexZ_old by lia.
  - intros _. cbn [at_]. rewrite <- Hl, indexZ_new. cbn.
    by apply (value_prim_ref t v x Hx).
Qed.

Lemma appends_string n pool s pool' :
  shape n (StringColumnData pool) -> push_string (E:=Error) pool s = Ok pool' ->
  appends n (StringColumnData pool) (Value.String_ s) (StringColumnData pool').
Proof.
  intros [Hwf Hl] Hp. destruct (push_string_wf (E:=Error) pool s Hwf) as [?|(p & Hp' & Hwf' & Hc & _)];
    [congruence|]. rewrite Hp in Hp'. injection Hp' as <-.
  assert (StringPool.len pool' = S (StringPool.len pool)) as Hlen.
  { rewrite <- !length_contents, Hc, length_app. cbn. lia. }
  split; try done.
  - split; [done|]. lia.
  - intros i Hi. cbn [at_]. rewrite !wf_get, Hc, lookup_app_l by (done || rewrite length_contents; lia).
    done.
  - intros _. cbn [at_]. rewrite wf_get, Hc by done.
    rewrite lookup_app_r, length_contents by (rewrite length_contents; lia).
    by replace (_ - _)%nat with 0%nat by lia.
Qed.

Lemma appends_date n k data tz v x :
  shape n (DateColumnData k data tz) ->
  (match k with D16 => get_stamp16 v | D32 => get_stamp32 v end) = (Ok x : Result Z) ->
  appends n (DateColumnData k data tz) v (DateColumnData k (data ++ [x]) tz).
Proof.
  intros Hl Hx. cbn in Hl. split; try done.
  - cbn. rewrite length_app. cbn. lia.
  - intros i Hi. cbn [at_]. methods. by rewrite indexZ_old by lia.
  - intros _. cbn [at_ cell]. methods. rewrite <- Hl, indexZ_new. destruct k; by rewrite Hx.
Qed.

Lemma appends_ip n v inner value inner' :
  shape n (IpColumnData v inner) -> accepts (IpColumnData v inner) value = true ->
  ip_push v inner value = Ok inner' ->
  appends n (IpColumnData v inner) value (IpColumnData v inner').
Proof.
  intros [Hn Hl] Hok Hp.
  assert (exists x, inner' = inner ++ x /\ Z.of_nat (length x) = ip_size v /\
    to_value_ref value = match v with V4 => ValueRef.Ipv4 x | V6 => ValueRef.Ipv6 x | VUuid => ValueRef.Uuid x end)
    as (x & -> & Hx & Href).
  { destruct v, value; cbn in *; try done; injection Hp as <-; eexists;
      (split; [reflexivity|]); split; (lia || done). }
  pose proof (ip_size_pos v). split; try done.
  - split; [lia|]. rewrite length_app. lia.
  - intros i Hi. cbn [at_]. unfold ip_get. rewrite !sliceZ_ok by (rewrite ?length_app; nia).
    rewrite drop_app_le, take_app_le by (rewrite ?length_drop; nia). done.
  - intros _. cbn [at_ cell]. unfold ip_get. rewrite sliceZ_ok by (rewrite ?length_app; nia).
    rewrite drop_app_ge by nia. replace (_ - length inner)%nat with 0%nat by nia.
    rewrite drop_0, take_ge by nia. by rewrite Href.
Qed.

Lemma appends_datetime64 n data params v c :
  shape n (DateTime64ColumnData data params) -> datetime64_push data params v = Ok c ->
  appends n (DateTime64ColumnData data params) v c.
Proof.
  destruct params as [precision tz]. intros Hl Hp. cbn in Hl. unfold datetime64_push in Hp.
  apply bind_Ok in Hp as (time & Ht & Hp). apply bind_Ok in Hp as (stamp & Hs & [= <-]).
  split; try done.
  - cbn. rewrite length_app. cbn. lia.
  - intros i Hi. cbn [at_]. methods. by rewrite indexZ_old by lia.
  - intros _. cbn [at_ cell]. methods. rewrite <- Hl, indexZ_new, Ht. cbn. by rewrite Hs.
Qed.

Lemma appends_chrono n data tz v c :
  shape n (ChronoDateTimeColumnData data tz) -> chrono_push data tz v = Ok c ->
  appends n (ChronoDateTimeColumnData data tz) v c.
Proof.
  intros Hl Hp. cbn in Hl. apply bind_Ok in Hp as (time & Ht & [= <-]).
  split; try done.
  - cbn. rewrite length_app. cbn. lia.
  - intros i Hi. cbn [at_]. methods. by rewrite indexZ_old by lia.
  - intros _. cbn [at_ cell]. methods. by rewrite <- Hl, indexZ_new, Ht.
Qed.

(** ** Columns that hold another one *)

(** A row of a nullable column over its inner one. *)
Lemma appends_nullable n inner nulls w inner' mark v :
  shape n (NullableColumnData inner nulls) -> appends n inner w inner' ->
  cell (NullableColumnData inner nulls) v =
    (if decide (mark = x01) then Ok (ValueRef.Nullable (Left (sql_type inner)))
     else x ← cell inner w; Ok (ValueRef.Nullable (Right x))) ->
  appends n (NullableColumnData inner nulls) v (NullableColumnData inner' (nulls ++ [mark])).
Proof.
  intros [Hl Hi] [Hs Ht Hd Hc Hac Ha Ho Hn] Hv. split.
  - split; [rewrite length_app; cbn; lia|done].
  - cbn. by rewrite Ht.
  - cbn. by rewrite Hd.
  - intros x. cbn [cell]. rewrite Ht.
    destruct x; try destruct e; by rewrite ?Hc.
  - intros x. cbn [accepts]. destruct x; try destruct e; try apply Hac. by destruct (value_default _).
  - done.
  - intros i Hi'. cbn [at_]. methods. rewrite indexZ_old, Ht by lia. by rewrite (Ho i Hi').
  - intros Hadr. rewrite Hv. cbn [at_]. methods.
    rewrite <- Hl, indexZ_new, Hl, Ht, (Hn Hadr). done.
Qed.

Lemma default_elements t v : value_default t = Ok v -> elements v = 0.
Proof.
  destruct t as [| | | | | | | | | | | | |[]| | | | | | | |]; cbn; intros Hd;
    try (apply bind_Ok in Hd as (? & _ & Hd)); by injection Hd as <-.
Qed.

Lemma elements_nonneg v : 0 <= elements v.
Proof.
  revert v. fix IH 1. intros v. destruct v as [| | | | | | | | | | | | | | | | |e|ty vs| | |]; cbn; try lia.
  - destruct e as [|w]; [lia|]. apply IH.
  - enough (0 <= foldr (fun v n => elements v + n) 0 vs) by lia.
    induction vs as [|w vs IHvs]; cbn; [lia|]. specialize (IH w). lia.
Qed.

Lemma foldr_elements vs : 0 <= foldr (fun v n => elements v + n) 0 vs.
Proof. induction vs as [|v vs IH]; cbn; [lia|]. pose proof (elements_nonneg v). lia. Qed.

(** What a column pushes with [push_inner] and leaves room for [k] more. *)
Definition pushes (push_inner : column_data -> Value.t -> Result column_data) (d : nat) : Prop :=
  forall k n c v, 0 <= k -> (cdepth c <= d)%nat -> shape n c -> accepts c v = true ->
  room (elements v + k) c ->
  exists c', push_inner c v = Ok c' /\ appends n c v c' /\ room k c'.

Lemma forallb_pointwise {A} (f g : A -> bool) xs :
  (forall x, f x = g x) -> forallb f xs = forallb g xs.
Proof. intros Hfg. induction xs as [|x xs IH]; cbn; [done|]. by rewrite Hfg, IH. Qed.

(** Many rows. *)
Lemma appends_many push_inner d vs :
  pushes push_inner d ->
  forall k n c,
  0 <= k -> (cdepth c <= d)%nat -> shape n c -> forallb (accepts c) vs = true ->
  room (foldr (fun v n => elements v + n) 0 vs + k) c ->
  exists c', for_each vs (fun v inner => push_inner inner v) c = Ok c' /\ room k c' /\
  shape (n + Z.of_nat (length vs)) c' /\ sql_type c' = sql_type c /\ cdepth c' = cdepth c /\
  (forall w, cell c' w = cell c w) /\ (forall w, accepts c' w = accepts c w) /\
  (addressable c' -> addressable c) /\
  (forall i, 0 <= i < n -> at_ c' i = at_ c i) /\
  (addressable c' ->
   map_outcome (at_ c') (seqZ n (Z.of_nat (length vs))) = map_outcome (cell c) vs).
Proof.
  intros Hpush. induction vs as [|v vs IH]; intros k n c Hk Hd Hs Hok Hr.
  { exists c. cbn [length Z.of_nat]. rewrite Z.add_0_r, seqZ_nil by lia. by rewrite Z.add_0_l in Hr. }
  cbn in Hok, Hr. apply andb_true_iff in Hok as [Hv Hvs]. rewrite <- Z.add_assoc in Hr.
  pose proof (shape_nonneg _ _ Hs). pose proof (foldr_elements vs) as Hfold.
  destruct (Hpush _ n c v (Z.add_nonneg_nonneg _ _ Hfold Hk) Hd Hs Hv Hr)
    as (c1 & Hp & [Hs1 Ht1 Hd1 Hc1 Hac1 Ha1 Ho1 Hn1] & Hr1).
  destruct (IH k (n + 1) c1 Hk ltac:(lia) Hs1) as (c' & Hf & Hr' & Hs2 & Ht2 & Hd2 & Hc2 & Hac2 & Ha2 & Ho2 & Hn2);
    [by rewrite (forallb_pointwise _ _ vs Hac1)|done|].
  exists c'. replace (n + Z.of_nat (length (v :: vs))) with (n + 1 + Z.of_nat (length vs)) by (cbn; lia).
  cbn [for_each]. rewrite Hp. split_and!; [done..|congruence|congruence| | | | |].
  - intros w. by rewrite Hc2.
  - intros w. by rewrite Hac2.
  - auto.
  - intros i Hi. rewrite Ho2 by lia. auto.
  - intros Ha. rewrite seqZ_cons by (cbn; lia).
    replace (Z.pred (Z.of_nat (length (v :: vs)))) with (Z.of_nat (length vs)) by (cbn; lia).
    replace (Z.succ n) with (n + 1) by lia. cbn [map_outcome].
    rewrite Ho2, Hn1, Hn2 by (auto || lia).
    by rewrite (map_outcome_ext _ _ vs Hc1).
Qed.

Lemma offset_of_app offsets x : offset_of (offsets ++ [x]) = x.
Proof. unfold offset_of. by rewrite last_snoc. Qed.

(** Where the row [i] of an array begins. *)
Definition row_start (offsets : list Z) (i : Z) : Result Z :=
  if 0 <? i then indexZ offsets (i - 1) else Ok 0.

Lemma row_start_new offsets :
  row_start offsets (Z.of_nat (length offsets)) = Ok (offset_of offsets).
Proof.
  unfold row_start, offset_of. destruct (last offsets) as [x|] eqn:Hl.
  - apply last_Some in Hl as [xs ->]. rewrite length_app. cbn.
    destruct (Z.ltb_spec 0 (Z.of_nat (length xs + 1))); [|lia].
    replace (_ - 1) with (Z.of_nat (length xs)) by lia. apply indexZ_new.
  - apply last_None in Hl as ->. done.
Qed.

Lemma row_start_old offsets x i :
  0 <= i <= Z.of_nat (length offsets) -> row_start (offsets ++ [x]) i = row_start offsets i.
Proof.
  intros Hi. unfold row_start. destruct (Z.ltb_spec 0 i); [|done]. by rewrite indexZ_old by lia.
Qed.

(** [at] of an array reads the rows of the inner column below the last offset. *)
Lemma array_at_ext ty f g offsets i :
  0 <= i < Z.of_nat (length offsets) ->
  Forall (fun x => 0 <= x <= offset_of offsets) offsets ->
  (forall j, 0 <= j < offset_of offsets -> f j = g j) ->
  array_at ty f offsets i = array_at ty g offsets i.
Proof.
  intros Hi Hall Hfg. unfold array_at.
  destruct (if 0 <? i then _ else _) as [s|e| |] eqn:Hs; try done. cbn.
  assert (0 <= s).
  { destruct (Z.ltb_spec 0 i); [|by injection Hs as <-].
    apply indexZ_elem in Hs; [|lia]. rewrite Forall_forall in Hall. apply Hall in Hs. cbn in Hs. lia. }
  destruct (indexZ offsets i) as [e|er| |] eqn:He; try done. cbn.
  apply indexZ_elem in He; [|lia]. rewrite Forall_forall in Hall. apply Hall in He. cbn in He.
  destruct (alloc 32 e); try done. cbn.
  erewrite map_outcome_in; [done|]. intros j Hj%elem_of_seqZ. apply Hfg. lia.
Qed.

Lemma array_at_old ty f offsets x i :
  0 <= i < Z.of_nat (length offsets) -> array_at ty f (offsets ++ [x]) i = array_at ty f offsets i.
Proof.
  intros Hi. unfold array_at. fold (row_start (offsets ++ [x]) i). fold (row_start offsets i).
  by rewrite row_start_old, indexZ_old by lia.
Qed.

Lemma array_at_new ty f offsets x :
  x * 32 <= isize_max ->
  array_at ty f (offsets ++ [x]) (Z.of_nat (length offsets)) =
    (vs ← map_outcome f (seqZ (offset_of offsets) (x - offset_of offsets)); Ok (ValueRef.Array ty vs)).
Proof.
  intros Hx. unfold array_at. fold (row_start (offsets ++ [x]) (Z.of_nat (length offsets))).
  rewrite row_start_old, row_start_new, indexZ_new by lia. cbn [mbind outcome_bind].
  by rewrite alloc_ok by lia.
Qed.


Lemma room_mono k k' c : k' <= k -> room k c -> room k' c.
Proof.
  intros Hk. induction c; cbn; try done. intros [Ho Hr]. split; [lia|auto].
Qed.

Lemma is_ok_Ok {E A} (x : outcome E A) : is_ok x = true -> exists a, x = Ok a.
Proof. destruct x; try done. eauto. Qed.

Lemma appends_array push_inner d k n inner offsets v :
  pushes push_inner d -> 0 <= k -> (cdepth inner <= d)%nat ->
  shape n (ArrayColumnData inner offsets) -> accepts (ArrayColumnData inner offsets) v = true ->
  room (elements v + k) (ArrayColumnData inner offsets) ->
  exists c', array_push push_inner true inner offsets v = Ok c' /\
    appends n (ArrayColumnData inner offsets) v c' /\ room k c'.
Proof.
  intros Hpush Hk Hd (Hl & Hall & Hs) Hok [Ho Hr].
  assert (exists ty vs, v = Value.Array ty vs) as (ty & vs & ->) by (destruct v; try done; eauto).
  cbn [accepts elements] in Hok, Ho, Hr. pose proof (shape_nonneg _ _ Hs).
  pose proof (foldr_elements vs).
  destruct (appends_many push_inner d vs Hpush k _ inner Hk Hd Hs Hok)
    as (inner' & Hf & Hr' & Hs' & Ht & Hdep & Hc & Hac & Ha & Hold & Hnew);
    [eapply room_mono, Hr; lia|].
  exists (ArrayColumnData inner' (offsets ++ [offset_of offsets + Z.of_nat (length vs)])).
  split; [|split; [split|]].
  - cbn [array_push assert_ mbind outcome_bind]. fold (offset_of offsets).
    rewrite arith_u_ok by (apply in_u_spec; lia). cbn [mbind outcome_bind]. by rewrite Hf.
  - cbn [shape]. rewrite length_app, offset_of_app. cbn. split_and!; [lia| |done].
    apply Forall_app. split; [|by repeat constructor; lia].
    eapply Forall_impl; [exact Hall|]. cbn. lia.
  - cbn. by rewrite Ht.
  - cbn. by rewrite Hdep.
  - intros w. destruct w; try done. cbn [cell]. by rewrite Ht, (map_outcome_ext _ _ _ Hc).
  - intros w. destruct w; try done. apply forallb_pointwise, Hac.
  - cbn [addressable]. rewrite offset_of_app. intros [? ?]. split; [lia|auto].
  - intros i Hi. cbn [at_]. rewrite array_at_old, Ht by lia. apply array_at_ext; [lia|done..].
  - cbn [addressable]. rewrite offset_of_app. intros [? Hadr]. cbn [at_ cell]. rewrite <- Hl.
    rewrite array_at_new, Ht by lia. rewrite Z.add_simpl_l, Hnew by done. done.
  - cbn [room]. rewrite offset_of_app. split; [lia|done].
Qed.

Lemma appends_nullable_push push_inner d k n inner nulls v :
  pushes push_inner d -> 0 <= k -> (cdepth inner <= d)%nat ->
  shape n (NullableColumnData inner nulls) -> accepts (NullableColumnData inner nulls) v = true ->
  room (elements v + k) inner ->
  exists c', nullable_push push_inner true inner nulls v = Ok c' /\
    appends n (NullableColumnData inner nulls) v c' /\ room k c'.
Proof.
  intros Hpush Hk Hd Hs Hok Hr. pose proof Hs as [_ Hi].
  assert (exists w mark, accepts inner w = true /\ elements w = elements v /\
    nullable_push push_inner true inner nulls v =
      (inner' ← push_inner inner w; Ok (NullableColumnData inner' (nulls ++ [mark]))) /\
    cell (NullableColumnData inner nulls) v =
      (if decide (mark = x01) then Ok (ValueRef.Nullable (Left (sql_type inner)))
       else x ← cell inner w; Ok (ValueRef.Nullable (Right x))))
    as (w & mark & Hw & He & Hp & Hc).
  { destruct v; try (eexists _, x00; by split_and!). destruct e as [ty|w].
    - cbn in Hok. destruct (value_default ty) as [w| | |] eqn:Hdef; try done.
      exists w, x01. split_and!; try done.
      + cbn. by eapply default_elements.
      + cbn. by rewrite Hdef.
    - by exists w, x00. }
  rewrite <- He in Hr.
  destruct (Hpush k n inner w) as (inner' & Hin & Hap & Hr'); [done..|].
  rewrite Hp, Hin. eexists. split; [reflexivity|]. split; [|done].
  by eapply appends_nullable.
Qed.

Lemma push_vector fuel arcs t data v c :
  push_fuel fuel arcs (VectorColumnData t data) v = Ok c ->
  exists x, value_prim (E:=Error) t v = Ok x /\ c = VectorColumnData t (data ++ [x]).
Proof.
  destruct fuel; [done|]. cbn. intros (x & Hx & [= <-])%bind_Ok. eauto.
Qed.

Lemma appends_decimal fuel arcs n inner precision scale nobits v c :
  shape n (DecimalColumnData inner precision scale nobits) ->
  decimal_push (push_fuel fuel arcs) inner precision scale nobits v = Ok c ->
  appends n (DecimalColumnData inner precision scale nobits) v c.
Proof.
  intros Hs Hp. destruct inner as [t data| | | | | | | | | | | | | | | | | | | | | | |]; try done.
  destruct Hs as [-> Hl]. destruct v as [| | | | | | | | | | | | | | | | | | |d| |]; try done. cbn [decimal_push] in Hp.
  apply bind_Ok in Hp as (inner' & (y & Hy & ->)%push_vector & [= <-]).
  assert (y = Decimal.internal nobits d) as -> by (destruct nobits; by injection Hy).
  split; try done.
  - cbn. rewrite length_app. cbn. split; [done|lia].
  - intros i Hi. cbn [at_]. methods. by rewrite indexZ_old by lia.
  - intros _. cbn [at_ cell]. methods. rewrite <- Hl, indexZ_new. by destruct nobits.
Qed.

Lemma appends_enum8 fuel arcs n items inner v c :
  shape n (Enum8ColumnData items inner) -> enum8_push (push_fuel fuel arcs) items inner v = Ok c ->
  appends n (Enum8ColumnData items inner) v c.
Proof.
  intros Hs Hp. destruct inner as [t data| | | | | | | | | | | | | | | | | | | | | | |]; try done.
  destruct Hs as [-> Hl]. destruct v; try done. cbn [enum8_push] in Hp.
  apply bind_Ok in Hp as (inner' & (y & [= <-] & ->)%push_vector & [= <-]).
  split; try done.
  - cbn. rewrite length_app. cbn. split; [done|lia].
  - intros i Hi. cbn [at_]. methods. by rewrite indexZ_old by lia.
  - intros _. cbn [at_ cell]. methods. by rewrite <- Hl, indexZ_new.
Qed.

Lemma appends_enum16 fuel arcs n items inner v c :
  shape n (Enum16ColumnData items inner) -> enum16_push (push_fuel fuel arcs) items inner v = Ok c ->
  appends n (Enum16ColumnData items inner) v c.
Proof.
  intros Hs Hp. destruct inner as [t data| | | | | | | | | | | | | | | | | | | | | | |]; try done.
  destruct Hs as [-> Hl]. destruct v; try done. cbn [enum16_push] in Hp.
  apply bind_Ok in Hp as (inner' & (y & [= <-] & ->)%push_vector & [= <-]).
  split; try done.
  - cbn. rewrite length_app. cbn. split; [done|lia].
  - intros i Hi. cbn [at_]. methods. by rewrite indexZ_old by lia.
  - intros _. cbn [at_ cell]. methods. by rewrite <- Hl, indexZ_new.
Qed.

(** A column whose inner one is a list of numbers, and a value with a number. *)
Lemma over_ok {fuel d t data w k n c v wrap} (Hw : is_ok (value_prim (E:=Error) t w) = true) :
  (S (S d) <= S fuel)%nat ->
  (forall c', (inner ← push_fuel fuel true (VectorColumnData t data) w; Ok (wrap inner)) = Ok c' ->
   appends n c v c') ->
  (forall inner, room k (wrap inner)) ->
  exists c', (inner ← push_fuel fuel true (VectorColumnData t data) w; Ok (wrap inner)) = Ok c' /\
    appends n c v c' /\ room k c'.
Proof.
  intros Hd Hap Hr. destruct fuel as [|fuel]; [lia|]. apply is_ok_Ok in Hw as [x Hx].
  cbn [push_fuel] in *. rewrite Hx in *. cbn [mbind outcome_bind] in *.
  eexists. split; [reflexivity|]. auto.
Qed.

Lemma appends_string_ok k n pool v :
  shape n (StringColumnData pool) -> accepts (StringColumnData pool) v = true -> roomy pool ->
  exists c', (s ← value_bytes v; pool ← push_string pool s; Ok (StringColumnData pool)) =
      (Ok c' : Result column_data) /\
    appends n (StringColumnData pool) v c' /\ room k c'.
Proof.
  intros Hs Hok Hr. destruct v as [| | | | | | | |s| | | | | | | | | | | | |]; try done.
  apply Z.leb_le in Hok. pose proof Hs as [Hwf _].
  destruct (push_string_ok (E:=Error) pool s Hwf Hr Hok) as (pool' & Hp & _ & _ & Hcap).
  cbn [value_bytes mbind outcome_bind]. rewrite Hp. eexists. split; [reflexivity|].
  split; [by apply appends_string|]. by unfold room, roomy; rewrite Hcap.
Qed.

Lemma appends_datetime64_ok k n data params v :
  shape n (DateTime64ColumnData data params) ->
  accepts (DateTime64ColumnData data params) v = true ->
  exists c', datetime64_push data params v = Ok c' /\
    appends n (DateTime64ColumnData data params) v c' /\ room k c'.
Proof.
  intros Hs Hok.
  assert (exists stamp, datetime64_push data params v = Ok (DateTime64ColumnData (data ++ [stamp]) params))
    as [stamp Hp].
  { destruct params. cbn [accepts datetime64_push] in *. destruct (value_datetime v); try done. cbn in *.
    destruct (from_datetime _ _); try done. by eexists. }
  rewrite Hp. eexists. split; [reflexivity|]. split; [|done]. by apply appends_datetime64.
Qed.

Lemma push_appends fuel : pushes (push_fuel fuel true) fuel.
Proof.
  induction fuel as [|fuel IH]; intros k n c v Hk Hd Hs Hok Hr; [by destruct c; cbn in Hd; lia|].
  destruct c; try done; cbn [push_fuel].
  - apply is_ok_Ok in Hok as [x Hx]. rewrite Hx. eexists. split; [reflexivity|]. split; [|done].
    by apply appends_vector.
  - by apply appends_string_ok.
  - unfold date_push. destruct k0; apply is_ok_Ok in Hok as [x Hx]; rewrite Hx; eexists;
      (split; [reflexivity|]); (split; [|done]); by apply appends_date.
  - by apply appends_datetime64_ok.
  - apply is_ok_Ok in Hok as [x Hx]. unfold chrono_push. rewrite Hx. eexists. split; [reflexivity|].
    split; [|done]. apply appends_chrono; [done|]. unfold chrono_push. by rewrite Hx.
  - assert (exists inner', ip_push v0 inner v = Ok inner') as [inner' Hp]
      by (destruct v0, v; try done; by eexists).
    rewrite Hp. eexists. split; [reflexivity|]. split; [|done]. by apply appends_ip.
  - eapply appends_nullable_push; try done. cbn in Hd. lia.
  - eapply appends_array; try done. cbn in Hd. lia.
  - destruct c, v; try done. pose proof Hs as [-> _].
    eapply over_ok; [by destruct nobits|exact Hd| |done]. intros c' Hc'. by eapply appends_decimal.
  - destruct c, v; try done. pose proof Hs as [-> _].
    eapply over_ok; [done|exact Hd| |done]. intros c' Hc'. by eapply appends_enum8.
  - destruct c, v; try done. pose proof Hs as [-> _].
    eapply over_ok; [done|exact Hd| |done]. intros c' Hc'. by eapply appends_enum16.
Qed.
End Push.
