(* ===== verification/Iter.v ===== *)
(** * Iterators over columns ([types/column/iter/mod.rs], [get_internal])

    [Column::iter::<T>] walks over the memory of a column with raw pointers that
    [ColumnData::get_internal] hands out.  A type that implements [Iterable] is
    an [iterable], the iterator and the items of [T] are the types [Iter T] and
    [item T].  A pair of pointers [ptr .. end] is the list of the places between
    them, of what [next] finds when it reads there.  A read outside of them, or of
    a place that does not hold a number of the type, is [Undefined], as is a slice
    or a reference made of such memory: the laws say that it does not happen. *)

From S2P Require Import Prelude RustStd Errors Scalars SqlType TypeNames DecimalNum.
From S2P Require Import Values StringPool ChunkIndex Columns.
Local Open Scope Z_scope.

(** ** Unsafe reads *)

Inductive mem (A : Type) := Def (r : Result A) | Undefined.
Arguments Def {A} r.
Arguments Undefined {A}.

#[global] Instance mem_ret : MRet mem := fun A a => Def (Ok a).
#[global] Instance mem_bind : MBind mem := fun A B f m =>
  match m with
  | Def (Ok a) => f a
  | Def (Err e) => Def (Err e)
  | Def Panic => Def Panic
  | Def OutOfFuel => Def OutOfFuel
  | Undefined => Undefined
  end.

Definition deref {A} (o : option A) : mem A :=
  match o with Some a => mret a | None => Undefined end.

(** ** The types that implement Iterable *)

Inductive iterable :=
| TPrim (t : prim) | TBytes | TDecimal | TDateTime | TDate | TIpv4 | TIpv6 | TUuid
| TOption (T : iterable) | TVec (T : iterable).

(** How the compiler lays out a [DateTime<Tz>]: its bytes, [None] where there is
    padding. *)
Class InstantLayout `{ChronoTz} := instant_bytes : DateTime -> list (option byte).

Section Iter.
Context {P : Profile} `{ChronoTz, Combine, !InstantLayout}.

(** [size_of::<T::Item>()], which the compiler chooses. *)
Context (item_size : iterable -> Z).

(** ** get_internal *)

(** What is written through a pointer of [pointers]. *)
Inductive pointee :=
| ListPtr (t : prim) (data : list Z)
| ChronoPtr (data : list DateTime)
| BytesPtr (data : bytes)
| PoolPtr (pool : StringPool)
| VecPtr (inner : bytes)
| ColumnsPtr (first : column_data) (rest : list column_data)
| TzPtr (tz : Tz)
| SizeVal (n : Z)
| PrecisionVal (precision : Z)
| NoBitsVal (nobits : NoBits).

Definition slots : Type := list (option pointee).

(** [*pointers[i] = x]. *)
Definition put (i : nat) (x : pointee) (pointers : slots) : Result slots :=
  if decide (i < length pointers)%nat then Ok (<[i:=Some x]> pointers) else Panic.

Definition unsupported_operation : Error := Error.FromSql FromSqlError.UnsupportedOperation.

(** [get_internal] of each struct; a nested column gets that of its [inner]. *)
Definition vector_internal (t : prim) (data : list Z) (pointers : slots) (level_ : Z) : Result slots :=
  _ ← assert_ (level_ =? 0);
  p ← put 0 (ListPtr t data) pointers;
  put 1 (SizeVal (Z.of_nat (length data))) p.

Definition string_internal (pool : StringPool) (pointers : slots) (level_ : Z) : Result slots :=
  _ ← assert_ (level_ =? 0);
  p ← put 0 (PoolPtr pool) pointers;
  put 1 (SizeVal (Z.of_nat (StringPool.len pool))) p.

Definition fixed_internal (buffer : bytes) (str_len : Z) (pointers : slots) (level_ : Z)
  : Result slots :=
  _ ← assert_ (level_ =? 0);
  p ← put 0 (BytesPtr buffer) pointers;
  n ← div_usize (Z.of_nat (length buffer)) str_len;
  put 1 (SizeVal n) p.

Definition date_internal (k : date_repr) (data : list Z) (tz : Tz) (pointers : slots) (level_ : Z)
  : Result slots :=
  _ ← assert_ (level_ =? 0);
  p ← put 0 (ListPtr (date_prim k) data) pointers;
  p ← put 1 (TzPtr tz) p;
  put 2 (SizeVal (Z.of_nat (length data))) p.

Definition datetime64_internal (data : list Z) (params : Z * Tz) (pointers : slots) (level_ : Z)
  : Result slots :=
  _ ← assert_ (level_ =? 0);
  let '(precision, tz) := params in
  p ← put 0 (ListPtr i64 data) pointers;
  p ← put 1 (TzPtr tz) p;
  p ← put 2 (SizeVal (Z.of_nat (length data))) p;
  put 3 (PrecisionVal precision) p.

Definition chrono_internal (data : list DateTime) (tz : Tz) (pointers : slots) (level_ : Z)
  : Result slots :=
  _ ← assert_ (level_ =? 0);
  p ← put 0 (ChronoPtr data) pointers;
  p ← put 1 (TzPtr tz) p;
  put 2 (SizeVal (Z.of_nat (length data))) p.

Definition ip_internal (inner : bytes) (pointers : slots) (level_ : Z) : Result slots :=
  _ ← assert_ (level_ =? 0); put 0 (VecPtr inner) pointers.

Definition nullable_internal (inner_get : slots -> Z -> Result slots) (self : column_data)
  (nulls : bytes) (pointers : slots) (level_ : Z) : Result slots :=
  l ← level (sql_type self);
  if level_ =? l then
    p ← put 0 (BytesPtr nulls) pointers;
    n ← len self;
    put 1 (SizeVal n) p
  else inner_get pointers level_.

Definition array_internal (inner_get : slots -> Z -> Result slots) (self : column_data)
  (offsets : list Z) (pointers : slots) (level_ : Z) : Result slots :=
  l ← level (sql_type self);
  if level_ =? l then
    p ← put 0 (ListPtr u64 offsets) pointers;
    put 1 (SizeVal (Z.of_nat (length offsets))) p
  else inner_get pointers level_.

Definition decimal_internal (inner_get : slots -> Z -> Result slots) (nobits : NoBits)
  (pointers : slots) (level_ : Z) : Result slots :=
  _ ← assert_ (level_ =? 0);
  p ← inner_get pointers 0;
  put 2 (NoBitsVal nobits) p.

Definition concat_internal (first : column_data) (rest : list column_data) (pointers : slots)
  (level_ : Z) : Result slots :=
  if level_ =? 255 then put 0 (ColumnsPtr first rest) pointers else Err unsupported_operation.

Fixpoint get_internal (self : column_data) (pointers : slots) (level_ : Z) : Result slots :=
  match self with
  | VectorColumnData t data => vector_internal t data pointers level_
  | StringColumnData pool => string_internal pool pointers level_
  | FixedStringColumnData buffer str_len => fixed_internal buffer str_len pointers level_
  | DateColumnData k data tz => date_internal k data tz pointers level_
  | DateTime64ColumnData data params => datetime64_internal data params pointers level_
  | ChronoDateTimeColumnData data tz => chrono_internal data tz pointers level_
  | IpColumnData _ inner => ip_internal inner pointers level_
  | NullableColumnData inner nulls =>
    nullable_internal (get_internal inner) self nulls pointers level_
  | ArrayColumnData inner offsets =>
    array_internal (get_internal inner) self offsets pointers level_
  | DecimalColumnData inner _ _ nobits => decimal_internal (get_internal inner) nobits pointers level_
  | ConcatColumnData first rest _ => concat_internal first rest pointers level_
  | ChronoDateTimeAdapter _ _ => Panic
  | _ => Err unsupported_operation
  end.

(** [column.get_internal(&[..], level)] of the iterators: [n] variables that
    still have their initial values. *)
Definition internals (column : column_data) (n : nat) (level_ : Z) : mem slots :=
  Def (get_internal column (replicate n None) level_).

(** A pointer that is checked with [assert_ne!(ptr, ptr::null())]. *)
Definition non_null (s : slots) (i : nat) : mem pointee :=
  match s !! i with Some (Some p) => mret p | _ => Def Panic end.

Definition size_at (s : slots) (i : nat) : Z :=
  match s !! i with Some (Some (SizeVal n)) => n | _ => 0 end.

(** The slice of [size] elements of type [t] behind a pointer. *)
Definition elements_at (t : prim) (p : pointee) (size : Z) : mem (list Z) :=
  match p with
  | ListPtr t' data =>
    if decide (t' = t /\ size <= Z.of_nat (length data))
    then mret (take (Z.to_nat size) data) else Undefined
  | _ => if decide (size = 0) then mret [] else Undefined
  end.

(** The number that a read of type [t] makes of the bytes at a place. *)
Definition read_place (t : prim) (bs : list (option byte)) : option Z :=
  bs ← mapM id bs;
  match unmarshal (E:=Error) t bs with Ok x => Some x | _ => None end.

(** [n] places of type [t], one behind the other. *)
Fixpoint split_places (t : prim) (n : nat) (memory : list (option byte)) : list (option Z) :=
  match n with
  | O => []
  | S n => read_place t (take (buffer_size t) memory) :: split_places t n (drop (buffer_size t) memory)
  end.

(** The places between a pointer, cast to one to [t], and the pointer [size]
    places behind it, which [add] requires to be inside the same memory. *)
Definition places_at (t : prim) (p : pointee) (size : Z) : mem (list (option Z)) :=
  match p with
  | ListPtr t' data =>
    if decide (t' = t /\ size <= Z.of_nat (length data))
    then mret (Some <$> take (Z.to_nat size) data) else Undefined
  | ChronoPtr data =>
    let memory := data ≫= instant_bytes in
    if decide (size * Z.of_nat (buffer_size t) <= Z.of_nat (length memory))
    then mret (split_places t (Z.to_nat size) memory) else Undefined
  | _ => if decide (size = 0) then mret [] else Undefined
  end.

(** ** The iterators *)

Inductive StringInnerIterator := SString (pool : StringPool) | SFixed (buffer : bytes) (str_len : Z).

Record StringIterator := mkStringIterator { si_inner : StringInnerIterator; si_index : Z; si_size : Z }.

Record DecimalIterator := mkDecimalIterator
  { di_rest : list (option Z); di_precision : Z; di_scale : Z; di_nobits : NoBits }.

(** The bytes between two pointers. *)
Definition Ipv4Iterator : Type := bytes.
Definition Ipv6Iterator : Type := bytes.
Definition UuidIterator : Type := bytes.

Record DateIterator := mkDateIterator { date_rest : list (option Z); date_tz : Tz }.

Inductive DateTimeInnerIterator := IDateTime32 (rest : list (option Z)) | IDateTime64 (rest : list (option Z)) (precision : Z).

Record DateTimeIterator := mkDateTimeIterator { dti_inner : DateTimeInnerIterator; dti_tz : Tz }.

Record NullableIterator (I : Type) := mkNullableIterator { ni_inner : I; ni_rest : bytes }.
#[global] Arguments mkNullableIterator {I}.
#[global] Arguments ni_inner {I}.
#[global] Arguments ni_rest {I}.

Record ArrayIterator (I : Type) := mkArrayIterator
  { ai_inner : I; ai_offsets : list Z; ai_index : Z; ai_size : Z }.
#[global] Arguments mkArrayIterator {I}.
#[global] Arguments ai_inner {I}.
#[global] Arguments ai_offsets {I}.
#[global] Arguments ai_index {I}.
#[global] Arguments ai_size {I}.

(** [<T::Iter as Iterator>::Item] and [T::Iter]. *)
Fixpoint item (T : iterable) : Type :=
  match T with
  | TPrim _ => Z
  | TBytes | TIpv4 | TIpv6 | TUuid => bytes
  | TDecimal => Decimal.t
  | TDateTime => DateTime
  | TDate => AppDate
  | TOption T => option (item T)
  | TVec T => list (item T)
  end.

Fixpoint Iter (T : iterable) : Type :=
  match T with
  | TPrim _ => list Z
  | TBytes => StringIterator
  | TIpv4 => Ipv4Iterator
  | TIpv6 => Ipv6Iterator
  | TUuid => UuidIterator
  | TDecimal => DecimalIterator
  | TDateTime => DateTimeIterator
  | TDate => DateIterator
  | TOption T => NullableIterator (Iter T)
  | TVec T => ArrayIterator (Iter T)
  end.

(** *** next *)

(** [StringIterator::next]. *)
Definition string_next (self : StringIterator) : mem (option bytes * StringIterator) :=
  match self with
  | mkStringIterator (SString pool) index size =>
    if index =? size then mret (None, self)
    else
      s ← deref (pointers pool !! Z.to_nat index ≫= get_by_pointer pool);
      mret (Some s, mkStringIterator (SString pool) (index + 1) size)
  | mkStringIterator (SFixed buffer str_len) index size =>
    if size <=? index then mret (None, self)
    else
      shift ← Def (arith_u 64 (index * str_len));
      if decide (shift + str_len <= Z.of_nat (length buffer)) then
        mret (Some (take (Z.to_nat str_len) (drop (Z.to_nat shift) buffer)),
              mkStringIterator (SFixed buffer str_len) (index + 1) size)
      else Undefined
  end.

(** [slice::Iter::next], and [next] of the iterators that are a pair of
    pointers. *)
Definition slice_next {A B} (rest : list B) (read : B -> mem A) : mem (option A * list B) :=
  match rest with
  | [] => mret (None, [])
  | x :: rest => a ← read x; mret (Some a, rest)
  end.

(** [DecimalIterator::next_unchecked]. *)
Definition decimal_next (self : DecimalIterator) : mem (option Decimal.t * DecimalIterator) :=
  let '(mkDecimalIterator rest precision scale nobits) := self in
  '(r, rest) ← slice_next rest (fun p => x ← deref p; mret (Decimal.mk x nobits precision scale));
  mret (r, mkDecimalIterator rest precision scale nobits).

(** [DateIterator::next_unchecked]. *)
Definition date_next (self : DateIterator) : mem (option AppDate * DateIterator) :=
  let '(mkDateIterator rest tz) := self in
  '(r, rest) ← slice_next rest (fun p =>
    x ← deref p; time ← Def (timestamp tz (x * 24 * 3600) 0); mret (dt_date time));
  mret (r, mkDateIterator rest tz).

(** [DateTimeIterator::next]: [next_unchecked] unless [len] is zero. *)
Definition datetime_next_unchecked (self : DateTimeIterator) : mem (option DateTime * DateTimeIterator) :=
  let '(mkDateTimeIterator inner tz) := self in
  match inner with
  | IDateTime32 rest =>
    '(r, rest) ← slice_next rest (fun p => x ← deref p; Def (timestamp tz x 0));
    mret (r, mkDateTimeIterator (IDateTime32 rest) tz)
  | IDateTime64 rest precision =>
    '(r, rest) ← slice_next rest (fun p => x ← deref p; Def (to_datetime x precision tz));
    mret (r, mkDateTimeIterator (IDateTime64 rest precision) tz)
  end.

Definition datetime_rest (inner : DateTimeInnerIterator) : list (option Z) :=
  match inner with IDateTime32 rest | IDateTime64 rest _ => rest end.

Definition datetime_iter_len (self : DateTimeIterator) : Result Z :=
  Ok (Z.of_nat (length (datetime_rest (dti_inner self)))).

Definition datetime_next (self : DateTimeIterator) : mem (option DateTime * DateTimeIterator) :=
  len ← Def (datetime_iter_len self);
  if len =? 0 then mret (None, self) else datetime_next_unchecked self.

(** [next] of the iterators over addresses, of [size] bytes each. *)
Definition ip_next (size : nat) (decode : bytes -> bytes) (rest : bytes) : mem (option bytes * bytes) :=
  if decide (rest = []) then mret (None, rest)
  else if decide (size <= length rest)%nat
       then mret (Some (decode (take size rest)), drop size rest)
       else Undefined.

Definition ipv4_next : bytes -> mem (option bytes * bytes) := ip_next 4 decode_ipv4.
Definition ipv6_next : bytes -> mem (option bytes * bytes) := ip_next 16 decode_ipv6.
Definition uuid_next : bytes -> mem (option bytes * bytes) := ip_next 16 uuid_halves.

(** [NullableIterator::next]. *)
Definition nullable_next {I A} (inner_next : I -> mem (option A * I)) (self : NullableIterator I)
  : mem (option (option A) * NullableIterator I) :=
  match ni_rest self with
  | [] => mret (None, self)
  | flag :: rest =>
    '(value, inner) ← inner_next (ni_inner self);
    match value with
    | None => mret (None, mkNullableIterator inner (ni_rest self))
    | Some value =>
      mret (Some (if decide (flag = x00) then Some value else None), mkNullableIterator inner rest)
    end
  end.

(** The loop of [ArrayIterator::next]. *)
Fixpoint take_items {I A} (inner_next : I -> mem (option A * I)) (n : nat) (inner : I) (v : list A)
  : mem (list A * I) :=
  match n with
  | O => mret (v, inner)
  | S n =>
    '(x, inner) ← inner_next inner;
    take_items inner_next n inner (match x with Some x => v ++ [x] | None => v end)
  end.

(** [ArrayIterator::next]. *)
Definition array_next {I A} (inner_next : I -> mem (option A * I)) (inner_size : Z)
  (self : ArrayIterator I) : mem (option (list A) * ArrayIterator I) :=
  let '(mkArrayIterator inner offsets index size) := self in
  if index =? size then mret (None, self)
  else
    start ← Def (if 0 <? index then indexZ offsets (index - 1) else Ok 0);
    end_ ← Def (indexZ offsets index);
    n ← Def (arith_u 64 (end_ - start));
    _ ← Def (alloc inner_size n);
    '(v, inner) ← take_items inner_next (Z.to_nat n) inner [];
    mret (Some v, mkArrayIterator inner offsets (index + 1) size).

(** [T::Iter::next]. *)
Fixpoint next (T : iterable) : Iter T -> mem (option (item T) * Iter T) :=
  match T return Iter T -> mem (option (item T) * Iter T) with
  | TPrim _ => fun self => slice_next self mret
  | TBytes => string_next
  | TDecimal => decimal_next
  | TDateTime => datetime_next
  | TDate => date_next
  | TIpv4 => ipv4_next
  | TIpv6 => ipv6_next
  | TUuid => uuid_next
  | TOption T => nullable_next (next T)
  | TVec T => array_next (next T) (item_size T)
  end.

(** *** len and nth *)

(** [ExactSizeIterator::len] of each iterator. *)
Definition string_iter_len (self : StringIterator) : Result Z :=
  arith_u 64 (si_size self - si_index self).

(** [(end - ptr) / size_of::<T>()], where [T] is [i32] or [i64]. *)
Definition decimal_iter_len (self : DecimalIterator) : Result Z := Ok (Z.of_nat (length (di_rest self))).

Definition ipv4_iter_len (self : bytes) : Result Z := Ok (Z.of_nat (length self) / 4).
Definition ipv6_iter_len (self : bytes) : Result Z := Ok (Z.of_nat (length self) / 16).
Definition uuid_iter_len (self : bytes) : Result Z := Ok (Z.of_nat (length self) / 16).

Definition date_iter_len (self : DateIterator) : Result Z := Ok (Z.of_nat (length (date_rest self))).

Definition nullable_iter_len {I} (self : NullableIterator I) : Result Z :=
  Ok (Z.of_nat (length (ni_rest self))).

Definition array_iter_len {I} (self : ArrayIterator I) : Result Z :=
  arith_u 64 (ai_size self - ai_index self).

Definition iter_len (T : iterable) : Iter T -> Result Z :=
  match T return Iter T -> Result Z with
  | TPrim _ => fun self => Ok (Z.of_nat (length self))
  | TBytes => string_iter_len
  | TDecimal => decimal_iter_len
  | TDateTime => datetime_iter_len
  | TDate => date_iter_len
  | TIpv4 => ipv4_iter_len
  | TIpv6 => ipv6_iter_len
  | TUuid => uuid_iter_len
  | TOption T => nullable_iter_len
  | TVec T => array_iter_len
  end.

(** [post_inc_start(n)] of each iterator, where [n] is less than [len]. *)
Definition string_skip (n : nat) (self : StringIterator) : Result StringIterator :=
  i ← arith_u 64 (si_index self + Z.of_nat n);
  Ok (mkStringIterator (si_inner self) i (si_size self)).

Definition decimal_skip (n : nat) (self : DecimalIterator) : Result DecimalIterator :=
  let '(mkDecimalIterator rest precision scale nobits) := self in
  Ok (mkDecimalIterator (drop n rest) precision scale nobits).

Definition ipv4_skip (n : nat) (self : bytes) : Result bytes := Ok (drop (n * 4) self).
Definition ipv6_skip (n : nat) (self : bytes) : Result bytes := Ok (drop (n * 16) self).
Definition uuid_skip (n : nat) (self : bytes) : Result bytes := Ok (drop (n * 16) self).

Definition date_skip (n : nat) (self : DateIterator) : Result DateIterator :=
  let '(mkDateIterator rest tz) := self in Ok (mkDateIterator (drop n rest) tz).

Definition datetime_skip (n : nat) (self : DateTimeIterator) : Result DateTimeIterator :=
  let '(mkDateTimeIterator inner tz) := self in
  Ok (mkDateTimeIterator
        (match inner with
         | IDateTime32 rest => IDateTime32 (drop n rest)
         | IDateTime64 rest precision => IDateTime64 (drop n rest) precision
         end) tz).

(** [None]: the iterator has the default [nth]. *)
Definition skip (T : iterable) : option (nat -> Iter T -> Result (Iter T)) :=
  match T return option (nat -> Iter T -> Result (Iter T)) with
  | TPrim _ => Some (fun n self => Ok (drop n self))
  | TBytes => Some string_skip
  | TDecimal => Some decimal_skip
  | TDateTime => Some datetime_skip
  | TDate => Some date_skip
  | TIpv4 => Some ipv4_skip
  | TIpv6 => Some ipv6_skip
  | TUuid => Some uuid_skip
  | TOption _ | TVec _ => None
  end.

(** An iterator that is exhausted by [nth]. *)
Definition string_exhaust (self : StringIterator) : StringIterator :=
  mkStringIterator (si_inner self) (si_size self) (si_size self).

Definition datetime_exhaust (self : DateTimeIterator) : DateTimeIterator :=
  let '(mkDateTimeIterator inner tz) := self in
  mkDateTimeIterator
    (match inner with
     | IDateTime32 _ => IDateTime32 []
     | IDateTime64 _ precision => IDateTime64 [] precision
     end) tz.

Definition exhaust (T : iterable) : Iter T -> Iter T :=
  match T return Iter T -> Iter T with
  | TPrim _ | TIpv4 | TIpv6 | TUuid => fun _ => []
  | TBytes => string_exhaust
  | TDecimal => fun '(mkDecimalIterator _ precision scale nobits) =>
      mkDecimalIterator [] precision scale nobits
  | TDateTime => datetime_exhaust
  | TDate => fun '(mkDateIterator _ tz) => mkDateIterator [] tz
  | TOption _ | TVec _ => fun self => self
  end.

(** The default [Iterator::nth]. *)
Fixpoint default_nth (T : iterable) (n : nat) (self : Iter T) : mem (option (item T) * Iter T) :=
  '(x, self) ← next T self;
  match n, x with
  | O, _ | _, None => mret (x, self)
  | S n, Some _ => default_nth T n self
  end.

(** [nth] of the macro [iterator!]. *)
Definition nth_by {I A} (len : I -> Result Z) (exhausted : I -> I)
  (post_inc_start : nat -> I -> Result I) (next : I -> mem (option A * I)) (n : nat) (self : I)
  : mem (option A * I) :=
  l ← Def (len self);
  if l <=? Z.of_nat n then mret (None, exhausted self)
  else self ← Def (post_inc_start n self); next self.

(** [StringIterator::nth] and [DateTimeIterator::nth]. *)
Definition string_nth : nat -> StringIterator -> mem (option bytes * StringIterator) :=
  nth_by string_iter_len string_exhaust string_skip string_next.

Definition datetime_nth : nat -> DateTimeIterator -> mem (option DateTime * DateTimeIterator) :=
  nth_by datetime_iter_len datetime_exhaust datetime_skip datetime_next.

Definition nth (T : iterable) : nat -> Iter T -> mem (option (item T) * Iter T) :=
  match T return nat -> Iter T -> mem (option (item T) * Iter T) with
  | TBytes => string_nth
  | TDateTime => datetime_nth
  | T =>
    match skip T with
    | None => default_nth T
    | Some post_inc_start => nth_by (iter_len T) (exhaust T) post_inc_start (next T)
    end
  end.

(** [size_hint] and [count] of the macro [iterator!], and of the iterators that
    write them out. *)
Definition exact_hint (len : Result Z) : Result (Z * option Z) :=
  exact ← len; Ok (exact, Some exact).

Definition string_size_hint (self : StringIterator) := exact_hint (string_iter_len self).
Definition datetime_size_hint (self : DateTimeIterator) := exact_hint (datetime_iter_len self).
Definition nullable_size_hint {I} (self : NullableIterator I) := exact_hint (nullable_iter_len self).
Definition array_size_hint {I} (self : ArrayIterator I) := exact_hint (array_iter_len self).

Definition size_hint (T : iterable) : Iter T -> Result (Z * option Z) :=
  match T return Iter T -> Result (Z * option Z) with
  | TBytes => string_size_hint
  | TDateTime => datetime_size_hint
  | TOption T => nullable_size_hint
  | TVec T => array_size_hint
  | T => fun self => exact_hint (iter_len T self)
  end.

Definition string_count : StringIterator -> Result Z := string_iter_len.
Definition datetime_count : DateTimeIterator -> Result Z := datetime_iter_len.
Definition nullable_count {I} : NullableIterator I -> Result Z := nullable_iter_len.
Definition array_count {I} : ArrayIterator I -> Result Z := array_iter_len.

Definition count (T : iterable) : Iter T -> Result Z :=
  match T return Iter T -> Result Z with
  | TBytes => string_count
  | TDateTime => datetime_count
  | TOption T => nullable_count
  | TVec T => array_count
  | T => iter_len T
  end.

(** Calls that a program makes of an iterator, and what they return; [Count]
    makes the iterator go away. *)
Inductive call := Next | Nth (n : nat) | Len | SizeHint | Count.

Inductive reply (A : Type) := Item (x : option A) | Size (n : Z) | Hint (lo : Z) (hi : option Z).
#[global] Arguments Item {A}.
#[global] Arguments Size {A}.
#[global] Arguments Hint {A}.

Fixpoint make_calls (T : iterable) (calls : list call) (self : Iter T) : mem (list (reply (item T))) :=
  match calls with
  | [] => mret []
  | Count :: _ => n ← Def (count T self); mret [Size n]
  | c :: calls =>
    '(r, self) ←
      match c with
      | Next => '(x, self) ← next T self; mret (Item x, self)
      | Nth n => '(x, self) ← nth T n self; mret (Item x, self)
      | SizeHint => '(lo, hi) ← Def (size_hint T self); mret (Hint lo hi, self)
      | Len | Count => n ← Def (iter_len T self); mret (Size n, self)
      end;
    rs ← make_calls T calls self;
    mret (r :: rs)
  end.

(** ** Iterable::iter *)

Definition invalid_column (src : SqlType) (dst : bytes) : Error :=
  Error.FromSql (FromSqlError.InvalidType (to_string src) dst).

(** [simple_num_iterable!]. *)
Definition num_iter (t : prim) (column : column_data) (column_type : SqlType) : mem (list Z) :=
  k ← Def (prim_sql_type t);
  if decide (column_type = k) then
    s ← internals column 2 0;
    p ← non_null s 0;
    elements_at t p (size_at s 1)
  else Def (Err (invalid_column (sql_type column) (to_string k))).

(** [&[u8]]. *)
Definition string_iter (column : column_data) (column_type : SqlType) : mem StringIterator :=
  match column_type with
  | String_ =>
    s ← internals column 2 0;
    match s !! 0%nat with
    | Some (Some (PoolPtr pool)) => mret (mkStringIterator (SString pool) 0 (size_at s 1))
    | _ => Undefined
    end
  | FixedString str_len =>
    s ← internals column 2 0;
    p ← non_null s 0;
    match p with
    | BytesPtr buffer => mret (mkStringIterator (SFixed buffer str_len) 0 (size_at s 1))
    | _ => Undefined
    end
  | _ => Def (Err (invalid_column (sql_type column) (to_string String_)))
  end.

(** [Decimal]. *)
Definition decimal_iter (column : column_data) (column_type : SqlType) : mem DecimalIterator :=
  match column_type with
  | Decimal precision scale =>
    s ← internals column 3 0;
    p ← non_null s 0;
    let nobits := match s !! 2%nat with Some (Some (NoBitsVal nobits)) => nobits | _ => N32 end in
    rest ← places_at (match nobits with N32 => i32 | N64 => i64 end) p (size_at s 1);
    mret (mkDecimalIterator rest precision scale nobits)
  | _ => Def (Err (invalid_column (sql_type column) (to_string (Decimal 255 255))))
  end.

(** [date_iter]. *)
Definition date_iter (column : column_data) : mem (pointee * Z * Tz * option Z) :=
  s ← internals column 4 0;
  p ← non_null s 0;
  tz ← non_null s 1;
  let precision := match s !! 3%nat with Some (Some (PrecisionVal p)) => Some p | _ => None end in
  match tz with
  | TzPtr tz => mret (p, size_at s 2, tz, precision)
  | _ => Undefined
  end.

(** [DateTime<Tz>]. *)
Definition datetime_iter (column : column_data) (column_type : SqlType) : mem DateTimeIterator :=
  match column_type with
  | DateTime_ _ =>
    '(p, size, tz, precision) ← date_iter column;
    match precision with
    | None => rest ← places_at u32 p size; mret (mkDateTimeIterator (IDateTime32 rest) tz)
    | Some precision =>
      rest ← places_at i64 p size; mret (mkDateTimeIterator (IDateTime64 rest precision) tz)
    end
  | _ => Def (Err (invalid_column (sql_type column) (lit "DateTime<?>")))
  end.

(** [Date<Tz>]. *)
Definition dates_iter (column : column_data) (column_type : SqlType) : mem DateIterator :=
  if decide (column_type = Date) then
    '(p, size, tz, precision) ← date_iter column;
    _ ← Def (assert_ (bool_decide (precision = None)));
    rest ← places_at u16 p size;
    mret (mkDateIterator rest tz)
  else Def (Err (invalid_column (sql_type column) (to_string Date))).

(** [Ipv4Addr], [Ipv6Addr] and [Uuid], which do not look at the type. *)
Definition ip_iter (column : column_data) : mem bytes :=
  s ← internals column 1 0;
  match s !! 0%nat with Some (Some (VecPtr inner)) => mret inner | _ => Undefined end.

(** The null map or the offsets of the column at the level of [column_type]. *)
Definition level_slots (column : column_data) (column_type : SqlType) : mem slots :=
  l ← Def (level column_type);
  internals column 2 l.

(** [T::iter(column, column_type)]. *)
Fixpoint iter (T : iterable) (column : column_data) (column_type : SqlType) : mem (Iter T) :=
  match T return mem (Iter T) with
  | TPrim t => num_iter t column column_type
  | TBytes => string_iter column column_type
  | TDecimal => decimal_iter column column_type
  | TDateTime => datetime_iter column column_type
  | TDate => dates_iter column column_type
  | TIpv4 | TIpv6 | TUuid => ip_iter column
  | TOption T =>
    match column_type with
    | Nullable inner_type =>
      inner ← iter T column inner_type;
      s ← level_slots column column_type;
      p ← non_null s 0;
      match p with
      | BytesPtr nulls =>
        if decide (size_at s 1 <= Z.of_nat (length nulls))
        then mret (mkNullableIterator inner (take (Z.to_nat (size_at s 1)) nulls))
        else Undefined
      | _ => Undefined
      end
    | _ => Def (Err (invalid_column column_type (lit "Nullable")))
    end
  | TVec T =>
    match column_type with
    | Array inner_type =>
      inner ← iter T column inner_type;
      s ← level_slots column column_type;
      p ← non_null s 0;
      offsets ← elements_at u64 p (size_at s 1);
      mret (mkArrayIterator inner offsets 0 (size_at s 1))
    | _ => Def (Err (invalid_column column_type (lit "Array")))
    end
  end.

(** [Column<Simple>::iter::<T>]. *)
Definition column_iter (T : iterable) (column : column_data) : mem (Iter T) :=
  iter T column (sql_type column).

(** ** Concatenated columns *)

Record ComplexIterator (T : iterable) := mkComplexIterator {
  cx_type : SqlType;
  cx_data : list column_data;
  cx_index : nat;
  cx_current : option (Iter T)
}.
#[global] Arguments mkComplexIterator {T}.
#[global] Arguments cx_type {T}.
#[global] Arguments cx_data {T}.
#[global] Arguments cx_index {T}.
#[global] Arguments cx_current {T}.

(** [ComplexIterator::next], which calls itself on the next chunk; [fuel]: the
    chunks left and two more. *)
Fixpoint complex_next_fuel {T : iterable} (fuel : nat) (self : ComplexIterator T)
  : mem (option (item T) * ComplexIterator T) :=
  match fuel with
  | O => Def OutOfFuel
  | S fuel =>
    let '(mkComplexIterator ty data index current) := self in
    match current with
    | None =>
      if decide (index = length data) then mret (None, self)
      else
        column ← Def (Prelude.index data index);
        match iter T column ty with
        | Def (Err _) => Def Panic
        | m =>
          current ← m;
          '(r, current) ← next T current;
          match r with
          | Some x => mret (Some x, mkComplexIterator ty data (index + 1) (Some current))
          | None => complex_next_fuel fuel (mkComplexIterator ty data (index + 1) None)
          end
        end
    | Some current =>
      '(r, current) ← next T current;
      match r with
      | Some x => mret (Some x, mkComplexIterator ty data index (Some current))
      | None => complex_next_fuel fuel (mkComplexIterator ty data index None)
      end
    end
  end.

Definition complex_next {T : iterable} (self : ComplexIterator T)
  : mem (option (item T) * ComplexIterator T) :=
  complex_next_fuel (length (cx_data self) - cx_index self + 2) self.

(** [Column<Complex>::iter::<T>]. *)
Definition complex_iter (T : iterable) (column : column_data) : mem (ComplexIterator T) :=
  s ← internals column 1 255;
  match s !! 0%nat with
  | Some (Some (ColumnsPtr first rest)) =>
    mret (mkComplexIterator (sql_type column) (first :: rest) 0 None)
  | _ => Undefined
  end.

(** ** Collecting *)

(** [xs] are the items that the iterator [next] has left. *)
Inductive yields {I A} (next : I -> mem (option A * I)) : I -> list A -> Prop :=
| yields_nil it it' : next it = mret (None, it') -> yields next it []
| yields_cons it it' x xs :
  next it = mret (Some x, it') -> yields next it' xs -> yields next it (x :: xs).
End Iter.
