(* ===== verification/IterLaws.v ===== *)
(** * Iterating over a column is reading its cells

    [values T c] is what a column [c] holds, as a list of items of [T].  The
    iterator of a column yields exactly its values, by defined reads only, and
    the value of a row is the cell that [at] returns, converted by [FromSql].
    An iterator over a concatenated column yields the values of its chunks. *)

From S2P Require Import Prelude RustStd Errors Scalars SqlType TypeNames DecimalNum.
From S2P Require Import Values StringPool ChunkIndex Columns ColumnLaws ColumnReads PushLaws Iter.
Local Open Scope Z_scope.

(** ** Iterators *)

Section Yields.
Context {I A : Type} (next : I -> mem (option A * I)).

Lemma take_items_yields k it xs v :
  yields next it xs -> (k <= length xs)%nat ->
  exists it', take_items next k it v = mret (v ++ take k xs, it') /\ yields next it' (drop k xs).
Proof.
  intros Hy. revert k v. induction Hy as [it it' Hn|it it' x xs Hn Hy IH]; intros [|k] v Hk;
    cbn in Hk |- *; try lia.
  - exists it. rewrite app_nil_r. split; [done|by eapply yields_nil].
  - exists it. rewrite app_nil_r. split; [done|by eapply yields_cons].
  - rewrite Hn. cbn. destruct (IH k (v ++ [x])) as (it'' & Ht & Hy'); [lia|].
    exists it''. rewrite Ht, <- app_assoc. done.
Qed.

(** Iterators over the elements [rest] of a slice. *)
Lemma yields_slice {B} (read : B -> mem A) (f : list B -> I) rest xs :
  (forall r, next (f r) = ('(o, r) ← slice_next r read; mret (o, f r))) ->
  Forall2 (fun x a => read x = mret a) rest xs -> yields next (f rest) xs.
Proof.
  intros Hf. induction 1 as [|x a rest xs Ha _ IH].
  - eapply yields_nil. by rewrite Hf.
  - eapply yields_cons; [|exact IH]. rewrite Hf. cbn. by rewrite Ha.
Qed.

(** Iterators over places that hold the numbers [data]. *)
Lemma yields_places (read : Z -> mem A) (f : list (option Z) -> I) data xs :
  (forall r, next (f r) = ('(o, r) ← slice_next r (fun p => x ← deref p; read x); mret (o, f r))) ->
  Forall2 (fun x a => read x = mret a) data xs -> yields next (f (Some <$> data)) xs.
Proof. intros Hf Hr. apply (yields_slice _ f _ _ Hf). by apply Forall2_fmap_l. Qed.

(** [NullableIterator]. *)
Definition opt_item (flag : byte) (x : A) : option A := if decide (flag = x00) then Some x else None.

Lemma yields_nullable it xs nulls :
  yields next it xs -> length nulls = length xs ->
  yields (nullable_next next) (mkNullableIterator it nulls) (zip_with opt_item nulls xs).
Proof.
  intros Hy. revert nulls. induction Hy as [it it' Hn|it it' x xs Hn Hy IH];
    intros [|flag nulls] Hl; try done.
  - by eapply yields_nil.
  - cbn. eapply yields_cons; [|apply IH; by injection Hl].
    unfold nullable_next. cbn. by rewrite Hn.
Qed.

(** [ArrayIterator]: the offsets do not decrease. *)
Fixpoint ascending (prev : Z) (offsets : list Z) : Prop :=
  match offsets with [] => True | e :: offsets => prev <= e /\ ascending e offsets end.

(** The rows of an array behind the offset [prev]. *)
Fixpoint cut (prev : Z) (offsets : list Z) (xs : list A) : list (list A) :=
  match offsets with
  | [] => []
  | e :: offsets => take (Z.to_nat (e - prev)) xs :: cut e offsets (drop (Z.to_nat (e - prev)) xs)
  end.

Lemma ascending_last prev offsets :
  ascending prev offsets -> prev <= default prev (last offsets).
Proof.
  revert prev. induction offsets as [|e offsets IH]; intros prev Ha; [cbn; lia|].
  destruct Ha as [? Ha]. specialize (IH e Ha). destruct offsets; [done|].
  rewrite last_cons_cons. destruct (last _) eqn:Hl; [cbn in *; lia|].
  by apply last_None in Hl.
Qed.

Lemma yields_array {P : Profile} size it xs pre suf :
  0 <= size -> yields next it xs -> 0 <= offset_of pre -> ascending (offset_of pre) suf ->
  default (offset_of pre) (last suf) = offset_of pre + Z.of_nat (length xs) ->
  default (offset_of pre) (last suf) < 2 ^ 64 ->
  default (offset_of pre) (last suf) * size <= isize_max ->
  yields (array_next next size)
    (mkArrayIterator it (pre ++ suf) (Z.of_nat (length pre)) (Z.of_nat (length (pre ++ suf))))
    (cut (offset_of pre) suf xs).
Proof.
  intros Hsize. revert it xs pre. induction suf as [|e suf IH]; intros it xs pre Hy Hp Ha Hl Hb Hs.
  { eapply yields_nil. cbn. by rewrite app_nil_r, Z.eqb_refl. }
  destruct Ha as [Hpe Ha]. cbn [cut].
  assert (default (offset_of pre) (last (e :: suf)) = default e (last suf)) as Hd
    by (destruct suf as [|x suf]; [done|]; rewrite last_cons_cons;
        destruct (last (x :: suf)) eqn:Hx; [done|by apply last_None in Hx]).
  rewrite Hd in *. pose proof (ascending_last e suf Ha).
  destruct (take_items_yields (Z.to_nat (e - offset_of pre)) it xs [] Hy) as (it' & Ht & Hy'); [lia|].
  eapply yields_cons.
  - unfold array_next. rewrite (proj2 (Z.eqb_neq _ _)) by (rewrite length_app; cbn; lia).
    assert ((if 0 <? Z.of_nat (length pre) then indexZ (pre ++ e :: suf) (Z.of_nat (length pre) - 1)
             else Ok 0) = (Ok (offset_of pre) : Result Z)) as ->.
    { rewrite <- row_start_new. unfold row_start. case_match; [|done].
      rewrite !indexZ_nat by lia. by rewrite lookup_app_l by lia. }
    cbn [mbind mem_bind]. rewrite indexZ_nat, Nat2Z.id, lookup_app_r, Nat.sub_diag by lia.
    cbn [lookup list_lookup unwrap mbind mem_bind].
    rewrite arith_u_ok by (apply in_u_spec; lia). cbn [mbind mem_bind].
    rewrite alloc_ok by nia. cbn [mbind mem_bind]. rewrite Ht. reflexivity.
  - specialize (IH it' (drop (Z.to_nat (e - offset_of pre)) xs) (pre ++ [e]) Hy').
    rewrite offset_of_app, <- app_assoc in IH. cbn [app] in IH.
    replace (Z.of_nat (length pre) + 1) with (Z.of_nat (length (pre ++ [e]))) by (rewrite length_app; cbn; lia).
    apply IH; try done; [lia|]. rewrite length_drop. lia.
Qed.

Lemma yields_det it xs ys : yields next it xs -> yields next it ys -> xs = ys.
Proof.
  intros Hx. revert ys. induction Hx as [it it' Hn|it it' x xs Hn Hx IH]; intros ys Hy;
    destruct Hy as [it2 it2' Hn'|it2 it2' y ys Hn' Hy]; rewrite Hn in Hn'; try done.
  injection Hn' as <- <-. f_equal. by apply IH.
Qed.
End Yields.

(** ** The values of a column *)

Section Values.
Context {P : Profile} `{ChronoTz, Combine, !InstantLayout} (item_size : iterable -> Z).

(** The [n] pieces of length [l]. *)
Fixpoint pieces (l n : nat) (buffer : bytes) : list bytes :=
  match n with
  | O => []
  | S n => take l buffer :: pieces l n (drop l buffer)
  end.

Definition ip_of (T : iterable) : option ip_version :=
  match T with TIpv4 => Some V4 | TIpv6 => Some V6 | TUuid => Some VUuid | _ => None end.

(** The addresses behind one another in [inner]. *)
Definition addresses (size : nat) (inner : bytes) : list bytes :=
  pieces size (length inner / size) inner.
#[local] Arguments addresses : simpl never.

(** A column of [n] rows that items of [T] are read from. *)
Fixpoint holds (T : iterable) (n : Z) (c : column_data) : Prop :=
  match T, c with
  | TPrim t, VectorColumnData t' data => t' = t /\ t <> bool_ /\ Z.of_nat (length data) = n
  | TBytes, StringColumnData pool => wf pool /\ Z.of_nat (StringPool.len pool) = n /\ n < 2 ^ 64
  | TBytes, FixedStringColumnData buffer l =>
    0 <= n /\ 0 < l /\ Z.of_nat (length buffer) = n * l /\ n * l <= isize_max
  | TDecimal, DecimalColumnData (VectorColumnData t data) _ _ nobits =>
    t = (match nobits with N32 => i32 | N64 => i64 end) /\ Z.of_nat (length data) = n
  | TDateTime, DateColumnData D32 data _ | TDate, DateColumnData D16 data _
  | TDateTime, DateTime64ColumnData data _ => Z.of_nat (length data) = n
  | TIpv4, IpColumnData v inner | TIpv6, IpColumnData v inner | TUuid, IpColumnData v inner =>
    ip_of T = Some v /\ 0 <= n /\ Z.of_nat (length inner) = n * ip_size v
  | TOption T, NullableColumnData inner nulls =>
    Z.of_nat (length nulls) = n /\ Forall (fun flag => flag = x00 \/ flag = x01) nulls /\
    holds T n inner
  | TVec T, ArrayColumnData inner offsets =>
    Z.of_nat (length offsets) = n /\ n < 2 ^ 64 /\ ascending 0 offsets /\ offset_of offsets < 2 ^ 64 /\
    0 <= item_size T /\ offset_of offsets * item_size T <= isize_max /\
    offset_of offsets * 32 <= isize_max /\ holds T (offset_of offsets) inner
  | _, _ => False
  end.

Fixpoint values (T : iterable) (c : column_data) : Result (list (item T)) :=
  match T return Result (list (item T)) with
  | TPrim _ => match c with VectorColumnData _ data => Ok data | _ => Panic end
  | TBytes =>
    match c with
    | StringColumnData pool => Ok (contents pool)
    | FixedStringColumnData buffer l =>
      Ok (pieces (Z.to_nat l) (Z.to_nat (Z.of_nat (length buffer) / l)) buffer)
    | _ => Panic
    end
  | TDecimal =>
    match c with
    | DecimalColumnData (VectorColumnData _ data) precision scale nobits =>
      Ok ((fun x => Decimal.mk x nobits precision scale) <$> data)
    | _ => Panic
    end
  | TDateTime =>
    match c with
    | DateColumnData _ data tz => map_outcome (fun x => timestamp tz x 0) data
    | DateTime64ColumnData data (precision, tz) => map_outcome (fun x => to_datetime x precision tz) data
    | _ => Panic
    end
  | TDate =>
    match c with
    | DateColumnData _ data tz =>
      map_outcome (fun x => time ← timestamp tz (x * 24 * 3600) 0; Ok (dt_date time)) data
    | _ => Panic
    end
  | TIpv4 =>
    match c with
    | IpColumnData _ inner => Ok (decode_ipv4 <$> addresses 4 inner)
    | _ => Panic
    end
  | TIpv6 =>
    match c with
    | IpColumnData _ inner => Ok (decode_ipv6 <$> addresses 16 inner)
    | _ => Panic
    end
  | TUuid =>
    match c with
    | IpColumnData _ inner => Ok (uuid_halves <$> addresses 16 inner)
    | _ => Panic
    end
  | TOption T =>
    match c with
    | NullableColumnData inner nulls => vs ← values T inner; Ok (zip_with opt_item nulls vs)
    | _ => Panic
    end
  | TVec T =>
    match c with
    | ArrayColumnData inner offsets => vs ← values T inner; Ok (cut 0 offsets vs)
    | _ => Panic
    end
  end.

Lemma length_pieces l n buffer : length (pieces l n buffer) = n.
Proof. revert buffer. induction n as [|n IH]; intros buffer; cbn; [done|]. by rewrite IH. Qed.

Lemma lookup_pieces l n buffer i :
  (i < n)%nat -> pieces l n buffer !! i = Some (take l (drop (i * l) buffer)).
Proof.
  revert buffer i. induction n as [|n IH]; intros buffer [|i] Hi; cbn; try lia; [by rewrite drop_0|].
  rewrite IH by lia. by rewrite drop_drop.
Qed.

Lemma length_cut {A} prev offsets (xs : list A) : length (cut prev offsets xs) = length offsets.
Proof. revert prev xs. induction offsets; intros; cbn; [done|]. by f_equal. Qed.

Lemma map_outcome_length {E X Y} (f : X -> outcome E Y) xs ys :
  map_outcome f xs = Ok ys -> length ys = length xs.
Proof. intros Hm%map_outcome_Ok. symmetry. by eapply Forall2_length. Qed.

Lemma holds_nonneg T n c : holds T n c -> 0 <= n.
Proof. destruct T, c; cbn; try done; try lia; try (destruct k; lia). destruct c; try done; lia. Qed.

Lemma ip_count l len n : l <> 0%nat -> Z.of_nat len = n * Z.of_nat l -> Z.of_nat (len / l) = n.
Proof. intros Hl Hn. rewrite Nat2Z.inj_div, Hn. by rewrite Z.div_mul by lia. Qed.

Lemma length_addresses size inner n :
  size <> 0%nat -> Z.of_nat (length inner) = n * Z.of_nat size ->
  Z.of_nat (length (addresses size inner)) = n.
Proof. intros Hs Hl. unfold addresses. rewrite length_pieces. by apply ip_count. Qed.

Lemma lookup_addresses size inner n i a :
  size <> 0%nat -> Z.of_nat (length inner) = n * Z.of_nat size -> addresses size inner !! i = Some a ->
  a = take size (drop (i * size) inner).
Proof.
  intros Hs Hl Hi. pose proof (lookup_lt_Some _ _ _ Hi) as Hlt. unfold addresses in *.
  rewrite length_pieces in Hlt. rewrite lookup_pieces in Hi by done. by injection Hi.
Qed.

Lemma values_length T n c vs : holds T n c -> values T c = Ok vs -> Z.of_nat (length vs) = n.
Proof.
  revert n c vs. induction T; intros n c vs Hh Hv; destruct c; try done; cbn [holds values] in Hh, Hv;
    try (destruct k; try done; rewrite <- Hh; f_equal; exact (map_outcome_length _ _ _ Hv)).
  - injection Hv as <-. by destruct Hh as (_ & _ & ?).
  - injection Hv as <-. rewrite length_contents. lia.
  - injection Hv as <-. rewrite length_pieces. destruct Hh as (? & ? & -> & _).
    rewrite Z.div_mul by lia. lia.
  - destruct c; try done. injection Hv as <-. rewrite length_fmap. by destruct Hh.
  - destruct params. rewrite <- Hh. f_equal. exact (map_outcome_length _ _ _ Hv).
  - injection Hv as <-. destruct Hh as ([= <-] & ? & ?). rewrite length_fmap.
    by apply length_addresses.
  - injection Hv as <-. destruct Hh as ([= <-] & ? & ?). rewrite length_fmap.
    by apply length_addresses.
  - injection Hv as <-. destruct Hh as ([= <-] & ? & ?). rewrite length_fmap.
    by apply length_addresses.
  - apply bind_Ok in Hv as (ws & Hw & [= <-]). destruct Hh as (Hl & _ & Hh).
    specialize (IHT _ _ _ Hh Hw). rewrite length_zip_with. lia.
  - apply bind_Ok in Hv as (ws & Hw & [= <-]). destruct Hh as (<- & _).
    f_equal. apply length_cut.
Qed.

(** ** The iterator of a column yields its values *)

(** [col], a column around [c], hands out the memory of [c] at its levels. *)
Definition exposes (col c : column_data) : Prop :=
  forall s l, 0 <= l <= depth (sql_type c) -> get_internal col s l = get_internal c s l.

Lemma exposes_level0 col c n : exposes col c -> internals col n 0 = internals c n 0.
Proof. intros He. unfold internals. rewrite He; [done|]. pose proof (depth_nonneg (sql_type c)). lia. Qed.

Lemma elements_all t data :
  elements_at t (ListPtr t data) (Z.of_nat (length data)) = mret data.
Proof.
  unfold elements_at. rewrite decide_True by (split; [done|lia]). by rewrite Nat2Z.id, firstn_all.
Qed.

Lemma places_all t data :
  places_at t (ListPtr t data) (Z.of_nat (length data)) = mret (Some <$> data).
Proof.
  unfold places_at. rewrite decide_True by (split; [done|lia]). by rewrite Nat2Z.id, firstn_all.
Qed.

Lemma yields_pool pool (i : nat) :
  wf pool -> Z.of_nat (StringPool.len pool) < 2 ^ 64 -> (i <= StringPool.len pool)%nat ->
  yields string_next (mkStringIterator (SString pool) (Z.of_nat i) (Z.of_nat (StringPool.len pool)))
    (drop i (contents pool)).
Proof.
  intros Hwf Hb Hi. remember (StringPool.len pool - i)%nat as k eqn:Hk. revert i Hi Hk.
  induction k as [|k IH]; intros i Hi Hk.
  - rewrite drop_ge by (rewrite length_contents; lia). eapply yields_nil. cbn.
    by replace (Z.of_nat i =? _) with true by lia.
  - destruct (lookup_lt_is_Some_2 (pointers pool) i) as [p Hp]; [unfold StringPool.len in *; lia|].
    assert (contents pool !! i = Some (default [] (get_by_pointer pool p))) as Hc
      by (unfold contents; by rewrite list_lookup_fmap, Hp).
    rewrite (drop_S _ _ _ Hc). eapply yields_cons.
    + cbn. replace (Z.of_nat i =? _) with false by lia. rewrite Nat2Z.id, Hp. cbn [mbind option_bind].
      rewrite get_by_pointer_ok by (eapply Forall_lookup_1; [apply Hwf|done]). cbn. reflexivity.
    + replace (Z.of_nat i + 1) with (Z.of_nat (S i)) by lia. apply IH; lia.
Qed.

Lemma pieces_drop l n i buffer :
  (i <= n)%nat -> drop i (pieces l n buffer) = pieces l (n - i) (drop (i * l) buffer).
Proof.
  revert buffer i. induction n as [|n IH]; intros buffer [|i] Hi; cbn; try lia;
    rewrite ?drop_0; try done.
  rewrite IH by lia. by rewrite drop_drop.
Qed.

Lemma yields_fixed buffer l n (i : nat) :
  0 < l -> Z.of_nat (length buffer) = Z.of_nat n * l -> Z.of_nat n * l <= isize_max -> (i <= n)%nat ->
  yields string_next (mkStringIterator (SFixed buffer l) (Z.of_nat i) (Z.of_nat n))
    (pieces (Z.to_nat l) (n - i) (drop (i * Z.to_nat l) buffer)).
Proof.
  intros Hl Hb Hm Hi. remember (n - i)%nat as k eqn:Hk. revert i Hi Hk.
  induction k as [|k IH]; intros i Hi Hk.
  - eapply yields_nil. cbn. by replace (Z.of_nat n <=? _) with true by lia.
  - cbn [pieces]. eapply yields_cons.
    + cbn [string_next]. replace (Z.of_nat n <=? _) with false by lia.
      unfold isize_max in Hm. rewrite arith_u_ok by (apply in_u_spec; nia). cbn [mbind mem_bind].
      rewrite decide_True by nia. replace (Z.to_nat (Z.of_nat i * l)) with (i * Z.to_nat l)%nat by lia.
      reflexivity.
    + replace (Z.of_nat i + 1) with (Z.of_nat (S i)) by lia. rewrite drop_drop.
      replace (i * Z.to_nat l + Z.to_nat l)%nat with (S i * Z.to_nat l)%nat by lia. apply IH; lia.
Qed.

Lemma yields_ip (size : nat) decode n buffer :
  (0 < size)%nat -> length buffer = (n * size)%nat ->
  yields (ip_next size decode) buffer (decode <$> pieces size n buffer).
Proof.
  intros Hs. revert buffer. induction n as [|n IH]; intros buffer Hl.
  - apply length_zero_iff_nil in Hl as ->. by eapply yields_nil.
  - cbn [pieces]. rewrite fmap_cons. eapply yields_cons.
    + unfold ip_next. rewrite decide_False by (intros ->; cbn in Hl; nia).
      rewrite decide_True by nia. reflexivity.
    + apply IH. rewrite length_drop. lia.
Qed.

(** The test of [DateTimeIterator::next] is the end of the slice. *)
Lemma datetime_next_eq self : datetime_next self = datetime_next_unchecked self.
Proof. by destruct self as [[[|? ?]|[|? ?] ?] ?]. Qed.

Lemma map_outcome_mem {X Y} (f : X -> Result Y) (g : X -> mem Y) xs ys :
  (forall x y, f x = Ok y -> g x = mret y) -> map_outcome f xs = Ok ys ->
  Forall2 (fun x y => g x = mret y) xs ys.
Proof. intros Hg Hm%map_outcome_Ok. eapply Forall2_impl; [exact Hm|]. auto. Qed.

Lemma Forall2_map {X Y} (R : X -> Y -> Prop) (f : X -> Y) xs :
  (forall x, R x (f x)) -> Forall2 R xs (f <$> xs).
Proof. intros Hr. induction xs as [|x xs IH]; [constructor|]. by constructor. Qed.

(** [n] items are left, by the pointers or by the indices. *)
Definition sized (T : iterable) (it : Iter T) (n : Z) : Prop :=
  match T return Iter T -> Prop with
  | TPrim _ => fun it => Z.of_nat (length it) = n
  | TBytes => fun it => 0 <= si_index it /\ si_size it - si_index it = n /\ si_size it < 2 ^ 64
  | TDecimal => fun it => Z.of_nat (length (di_rest it)) = n
  | TDateTime => fun it => Z.of_nat (length (datetime_rest (dti_inner it))) = n
  | TDate => fun it => Z.of_nat (length (date_rest it)) = n
  | TIpv4 => fun it => Z.of_nat (length it) = n * 4
  | TIpv6 | TUuid => fun it => Z.of_nat (length it) = n * 16
  | TOption _ => fun it => Z.of_nat (length (ni_rest it)) = n
  | TVec _ => fun it => 0 <= ai_index it /\ ai_size it - ai_index it = n /\ ai_size it < 2 ^ 64
  end it.

Lemma sized_len T it n : 0 <= n -> sized T it n -> iter_len T it = (Ok n : Result Z).
Proof.
  intros Hn. destruct T; cbn; try (by intros <-);
    try (intros (? & <- & ?); apply arith_u_ok, in_u_spec; lia);
    intros Hl; unfold ipv4_iter_len, ipv6_iter_len, uuid_iter_len; by rewrite Hl, Z.div_mul by lia.
Qed.

Local Abbreviation iterates T col c n vs :=
  (exists it, iter T col (sql_type c) = mret it /\ yields (next item_size T) it vs /\ sized T it n).

Lemma iterates_prim t data col :
  t <> bool_ -> exposes col (VectorColumnData t data) ->
  iterates (TPrim t) col (VectorColumnData t data) (Z.of_nat (length data)) data.
Proof.
  intros Ht He. exists data. split_and!; [| |done].
  - cbn [iter sql_type]. unfold num_iter.
    assert (prim_sql_type t = (Ok (vector_sql_type t) : Result SqlType)) as -> by (by destruct t).
    cbn [mbind mem_bind]. rewrite decide_True by done. rewrite (exposes_level0 _ _ _ He).
    cbn -[elements_at]. apply elements_all.
  - apply (yields_slice _ mret id); [by intros [|]|].
    rewrite <- (list_fmap_id data) at 2. by apply Forall2_map.
Qed.

Lemma iterates_bytes n c col vs :
  holds TBytes n c -> exposes col c -> values TBytes c = Ok vs -> iterates TBytes col c n vs.
Proof.
  intros Hh He Hv. destruct c; try done; cbn [holds values] in Hh, Hv; injection Hv as <-.
  - destruct Hh as (Hwf & Hn & Hb). cbn [iter sql_type]. unfold string_iter.
    rewrite (exposes_level0 _ _ _ He). eexists. split; [reflexivity|]. cbn. split.
    + apply (yields_pool pool 0); (done || lia).
    + lia.
  - destruct Hh as (Hn & Hl & Hb & Hm). cbn [iter sql_type]. unfold string_iter.
    rewrite (exposes_level0 _ _ _ He). unfold internals. cbn [get_internal]. unfold fixed_internal, div_usize.
    rewrite (proj2 (Z.eqb_neq str_len 0)) by lia. rewrite Hb, Z.div_mul by lia.
    eexists. split; [reflexivity|]. cbn. split.
    + rewrite <- (Z2Nat.id n) by done. rewrite <- (Z2Nat.id n) in Hb, Hm by done.
      pose proof (yields_fixed buffer str_len (Z.to_nat n) 0 Hl Hb Hm ltac:(lia)) as Hy.
      rewrite Nat.sub_0_r in Hy. rewrite Nat2Z.id. exact Hy.
    + unfold isize_max in Hm. nia.
Qed.

Lemma iterates_decimal n c col vs :
  holds TDecimal n c -> exposes col c -> values TDecimal c = Ok vs ->
  iterates TDecimal col c n vs.
Proof.
  intros Hh He Hv. destruct c as [| | | | | | | | |c p s nobits| | | | | | | | | | | | | |]; try done.
  destruct c as [t data| | | | | | | | | | | | | | | | | | | | | | |]; try done.
  cbn [holds values] in Hh, Hv. destruct Hh as [-> <-]. injection Hv as <-.
  cbn [iter sql_type]. unfold decimal_iter. rewrite (exposes_level0 _ _ _ He).
  assert (internals (DecimalColumnData
      (VectorColumnData (match nobits with N32 => i32 | N64 => i64 end) data) p s nobits) 3 0 =
    mret [Some (ListPtr (match nobits with N32 => i32 | N64 => i64 end) data);
          Some (SizeVal (Z.of_nat (length data))); Some (NoBitsVal nobits)]) as -> by done.
  exists (mkDecimalIterator (Some <$> data) p s nobits). split_and!; [| |by rewrite <- (length_fmap Some data)].
  - cbn -[places_at]. by rewrite places_all.
  - apply (yields_places _ (fun x => mret (Decimal.mk x nobits p s))
      (fun rest => mkDecimalIterator rest p s nobits)); [done|].
    by apply Forall2_map.
Qed.

Lemma date_iter_date col k data tz :
  exposes col (DateColumnData k data tz) ->
  date_iter col = mret (ListPtr (date_prim k) data, Z.of_nat (length data), tz, None).
Proof. intros He. unfold date_iter. by rewrite (exposes_level0 _ _ _ He). Qed.

Lemma date_iter_datetime64 col data precision tz :
  exposes col (DateTime64ColumnData data (precision, tz)) ->
  date_iter col = mret (ListPtr i64 data, Z.of_nat (length data), tz, Some precision).
Proof. intros He. unfold date_iter. by rewrite (exposes_level0 _ _ _ He). Qed.

Lemma iterates_datetime n c col vs :
  holds TDateTime n c -> exposes col c -> values TDateTime c = Ok vs ->
  iterates TDateTime col c n vs.
Proof.
  intros Hh He Hv. destruct c; try done; cbn [holds values] in Hh, Hv.
  - destruct k; try done. subst n. cbn [iter sql_type date_type]. unfold datetime_iter.
    rewrite (date_iter_date _ _ _ _ He).
    exists (mkDateTimeIterator (IDateTime32 (Some <$> data)) tz). split_and!; [| |cbn; by rewrite length_fmap].
    + cbn -[places_at]. by rewrite places_all.
    + apply (yields_places _ (fun x => Def (timestamp tz x 0))
        (fun rest => mkDateTimeIterator (IDateTime32 rest) tz)); [intros rest; apply datetime_next_eq|].
      eapply map_outcome_mem; [|exact Hv]. by intros x y ->.
  - destruct params as [precision tz]. subst n. cbn [iter sql_type]. unfold datetime_iter.
    rewrite (date_iter_datetime64 _ _ _ _ He).
    exists (mkDateTimeIterator (IDateTime64 (Some <$> data) precision) tz). split_and!; [| |cbn; by rewrite length_fmap].
    + cbn -[places_at]. by rewrite places_all.
    + apply (yields_places _ (fun x => Def (to_datetime x precision tz))
        (fun rest => mkDateTimeIterator (IDateTime64 rest precision) tz)); [intros rest; apply datetime_next_eq|].
      eapply map_outcome_mem; [|exact Hv]. by intros x y ->.
Qed.

Lemma iterates_date n c col vs :
  holds TDate n c -> exposes col c -> values TDate c = Ok vs -> iterates TDate col c n vs.
Proof.
  intros Hh He Hv. destruct c as [| | |k data tz| | | | | | | | | | | | | | | | | | | |]; try done.
  cbn [holds values] in Hh, Hv. destruct k; try done. subst n.
  cbn [iter sql_type date_type]. unfold dates_iter.
  rewrite decide_True by done. rewrite (date_iter_date _ _ _ _ He).
  exists (mkDateIterator (Some <$> data) tz). split_and!; [| |cbn; by rewrite length_fmap].
  - cbn -[places_at]. by rewrite places_all.
  - apply (yields_places _ (fun x => time ← Def (timestamp tz (x * 24 * 3600) 0); mret (dt_date time))
      (fun rest => mkDateIterator rest tz)); [done|].
    eapply map_outcome_mem; [|exact Hv]. intros x y (time & -> & [= <-])%bind_Ok. done.
Qed.

Lemma iterates_ip (size : nat) decode v inner col n :
  ip_size v = Z.of_nat size -> 0 <= n -> Z.of_nat (length inner) = n * ip_size v ->
  exposes col (IpColumnData v inner) ->
  ip_iter col = mret inner /\
  yields (ip_next size decode) inner (decode <$> addresses size inner) /\
  Z.of_nat (length inner) / Z.of_nat size = n.
Proof.
  intros Hs Hn Hl He. rewrite Hs in Hl. pose proof (ip_size_pos v).
  split; [|split].
  - unfold ip_iter. rewrite (exposes_level0 _ _ _ He). done.
  - unfold addresses. apply yields_ip; [lia|]. apply Nat2Z.inj. rewrite Nat2Z.inj_mul, ip_count with (n := n) by lia. done.
  - rewrite Hl. by rewrite Z.div_mul by lia.
Qed.

(** Below its own level, a nullable or an array exposes its inner column. *)
Lemma exposes_nullable col inner nulls :
  1 + depth (sql_type inner) < 256 ->
  exposes col (NullableColumnData inner nulls) -> exposes col inner.
Proof.
  intros Hd He s l Hl. rewrite He by (cbn [sql_type depth]; lia). cbn [get_internal]. unfold nullable_internal, array_internal. cbn [sql_type].
  rewrite level_depth by done. cbn [depth mbind outcome_bind].
  by rewrite (proj2 (Z.eqb_neq _ _)) by lia.
Qed.

Lemma exposes_array col inner offsets :
  1 + depth (sql_type inner) < 256 ->
  exposes col (ArrayColumnData inner offsets) -> exposes col inner.
Proof.
  intros Hd He s l Hl. rewrite He by (cbn [sql_type depth]; lia). cbn [get_internal]. unfold nullable_internal, array_internal. cbn [sql_type].
  rewrite level_depth by done. cbn [depth mbind outcome_bind].
  by rewrite (proj2 (Z.eqb_neq _ _)) by lia.
Qed.

(** At its own level, it hands out its null map or its offsets. *)
Lemma level_slots_nullable col inner nulls n :
  1 + depth (sql_type inner) < 256 -> exposes col (NullableColumnData inner nulls) ->
  len (NullableColumnData inner nulls) = Ok n ->
  level_slots col (Nullable (sql_type inner)) = mret [Some (BytesPtr nulls); Some (SizeVal n)].
Proof.
  intros Hd He Hn. unfold level_slots, internals. rewrite level_depth by done.
  cbn [mbind mem_bind]. pose proof (depth_nonneg (sql_type inner)).
  rewrite He by (cbn [sql_type depth] in *; lia). cbn [get_internal]. unfold nullable_internal, array_internal. cbn [sql_type].
  rewrite level_depth by done. cbn [mbind outcome_bind]. rewrite Z.eqb_refl.
  change (put 0 (BytesPtr nulls) (replicate 2 None)) with
    (Ok [Some (BytesPtr nulls); None] : Result slots).
  cbn [mbind outcome_bind]. rewrite Hn. done.
Qed.

Lemma level_slots_array col inner offsets :
  1 + depth (sql_type inner) < 256 -> exposes col (ArrayColumnData inner offsets) ->
  level_slots col (Array (sql_type inner)) =
    mret [Some (ListPtr u64 offsets); Some (SizeVal (Z.of_nat (length offsets)))].
Proof.
  intros Hd He. unfold level_slots, internals. rewrite level_depth by done.
  cbn [mbind mem_bind]. pose proof (depth_nonneg (sql_type inner)).
  rewrite He by (cbn [sql_type depth] in *; lia). cbn [get_internal]. unfold nullable_internal, array_internal. cbn [sql_type].
  rewrite level_depth by done. cbn [mbind outcome_bind]. by rewrite Z.eqb_refl.
Qed.

Lemma holds_len T n c : holds T n c -> len c = Ok n.
Proof.
  revert n c. induction T; intros n c Hh; destruct c; try done; cbn [holds len] in *;
    try (destruct k; try done; by subst n).
  - by destruct Hh as (_ & _ & ->).
  - by destruct Hh as (_ & -> & _).
  - destruct Hh as (_ & Hl & -> & _). unfold div_usize.
    rewrite (proj2 (Z.eqb_neq _ _)) by lia. by rewrite Z.div_mul by lia.
  - destruct c; try done. by destruct Hh as [_ <-].
  - by subst n.
  - destruct Hh as (_ & _ & ->). pose proof (ip_size_pos v). unfold div_usize.
    rewrite (proj2 (Z.eqb_neq _ _)) by lia. by rewrite Z.div_mul by lia.
  - destruct Hh as (_ & _ & ->). pose proof (ip_size_pos v). unfold div_usize.
    rewrite (proj2 (Z.eqb_neq _ _)) by lia. by rewrite Z.div_mul by lia.
  - destruct Hh as (_ & _ & ->). pose proof (ip_size_pos v). unfold div_usize.
    rewrite (proj2 (Z.eqb_neq _ _)) by lia. by rewrite Z.div_mul by lia.
  - destruct Hh as (Hl & _ & Hh). unfold nullable_len. rewrite (IHT _ _ Hh). cbn.
    by rewrite Hl, Z.eqb_refl.
  - by destruct Hh as (-> & _).
Qed.

Lemma iter_values T n c col vs :
  depth (sql_type c) < 256 -> holds T n c -> exposes col c -> values T c = Ok vs ->
  iterates T col c n vs.
Proof.
  revert n c col vs. induction T as [t| | | | | | | |T IH|T IH]; intros n c col vs Hd Hh He Hv.
  - destruct c; try done. cbn [holds values] in *. destruct Hh as (-> & Ht & <-). injection Hv as <-.
    by apply iterates_prim.
  - by apply iterates_bytes.
  - by apply iterates_decimal.
  - by apply iterates_datetime.
  - by apply iterates_date.
  - destruct c; try done. cbn [holds values] in *. destruct Hh as ([= <-] & Hn & Hl). injection Hv as <-.
    exists inner. by destruct (iterates_ip 4 decode_ipv4 V4 inner col n) as (? & ? & _).
  - destruct c; try done. cbn [holds values] in *. destruct Hh as ([= <-] & Hn & Hl). injection Hv as <-.
    exists inner. by destruct (iterates_ip 16 decode_ipv6 V6 inner col n) as (? & ? & _).
  - destruct c; try done. cbn [holds values] in *. destruct Hh as ([= <-] & Hn & Hl). injection Hv as <-.
    exists inner. by destruct (iterates_ip 16 uuid_halves VUuid inner col n) as (? & ? & _).
  - destruct c as [| | | | | | |c nulls| | | | | | | | | | | | | | | |]; try done.
    pose proof (holds_len _ _ _ Hh) as Hn. pose proof (depth_nonneg (sql_type c)).
    cbn [holds values sql_type depth] in *. destruct Hh as (Hl & _ & Hh).
    apply bind_Ok in Hv as (ws & Hw & [= <-]).
    destruct (IH n c col ws) as (it & Hit & Hy & _); try done; [lia|by eapply exposes_nullable|].
    pose proof (values_length _ _ _ _ Hh Hw) as Hlw.
    exists (mkNullableIterator it nulls). split_and!.
    + cbn [iter]. rewrite Hit. cbn [mbind mem_bind mret mem_ret].
      rewrite (level_slots_nullable _ _ _ n) by done. cbn [mbind mem_bind mret mem_ret non_null lookup list_lookup].
      unfold size_at. cbn [lookup list_lookup]. rewrite decide_True by lia.
      by rewrite <- Hl, Nat2Z.id, firstn_all.
    + apply (yields_nullable (next item_size T)); [done|]. apply Nat2Z.inj. congruence.
    + cbn. by rewrite Hl.
  - destruct c as [| | | | | | | |c offsets| | | | | | | | | | | | | | |]; try done.
    pose proof (depth_nonneg (sql_type c)). cbn [holds values sql_type depth] in *.
    destruct Hh as (Hl & Hb & Ha & Ho & Hs & Hm & _ & Hh).
    apply bind_Ok in Hv as (ws & Hw & [= <-]).
    destruct (IH (offset_of offsets) c col ws) as (it & Hit & Hy & _); try done;
      [lia|by eapply exposes_array|].
    pose proof (values_length _ _ _ _ Hh Hw) as Hlw.
    exists (mkArrayIterator it offsets 0 (Z.of_nat (length offsets))). split_and!.
    + cbn [iter]. rewrite Hit. cbn [mbind mem_bind mret mem_ret].
      rewrite (level_slots_array _ _ offsets) by done.
      cbn -[elements_at]. by rewrite elements_all.
    + apply (yields_array (next item_size T) (item_size T) it ws [] offsets); try done; cbn; lia.
    + cbn. lia.
Qed.

(** ** The memory of instants *)

Lemma split_places_take t n memory :
  split_places t n (take (n * buffer_size t) memory) = split_places t n memory.
Proof.
  revert memory. induction n as [|n IH]; intros memory; [done|].
  cbn [split_places Nat.mul]. rewrite take_take, Nat.min_l by lia. f_equal.
  rewrite <- (IH (drop _ memory)), skipn_firstn_comm. f_equal. f_equal. lia.
Qed.

Lemma split_places_prefix t n memory rest :
  (n * buffer_size t <= length memory)%nat ->
  split_places t n (memory ++ rest) = split_places t n memory.
Proof. intros Hl. by rewrite <- split_places_take, take_app_le, split_places_take. Qed.

Lemma length_split_places t n memory : length (split_places t n memory) = n.
Proof. revert memory. induction n as [|n IH]; intros memory; cbn; [done|]. by rewrite IH. Qed.

Lemma length_instants k data :
  (forall d, length (instant_bytes d) = k) -> length (data ≫= instant_bytes) = (length data * k)%nat.
Proof.
  intros Hk. induction data as [|d data IH]; [done|]. cbn. rewrite length_app, Hk. f_equal. exact IH.
Qed.

(** The first half of a vector, with the element in the middle. *)
Definition half {A} (l : list A) : list A := take (Nat.div2 (S (length l))) l.

(** Numbers of 32 bits, as many as there are instants of eight bytes or more, are
    in the memory of the first half. *)
Lemma places_half k data :
  (forall d, length (instant_bytes d) = k) -> (8 <= k)%nat ->
  split_places u32 (length data) (data ≫= instant_bytes) =
  split_places u32 (length data) (half data ≫= instant_bytes).
Proof.
  intros Hk H8. unfold half. set (h := Nat.div2 (S (length data))).
  assert (length data <= 2 * h <= S (length data))%nat as Hh.
  { pose proof (Nat.div2_odd (S (length data))) as Ho. fold h in Ho. destruct (Nat.odd _); cbn [Nat.b2n] in Ho; lia. }
  assert (data ≫= instant_bytes = (take h data ≫= instant_bytes) ++ (drop h data ≫= instant_bytes)) as ->
    by by rewrite <- bind_app, take_drop.
  apply split_places_prefix. rewrite (length_instants k) by done. rewrite length_take.
  cbn [buffer_size]. destruct data; cbn [length] in *; nia.
Qed.

Lemma chrono_iter_half k data tz :
  (forall d, length (instant_bytes d) = k) -> (8 <= k)%nat ->
  column_iter TDateTime (ChronoDateTimeColumnData data tz) =
  mret (mkDateTimeIterator
          (IDateTime32 (split_places u32 (length data) (half data ≫= instant_bytes))) tz).
Proof.
  intros Hk H8. pose proof (length_instants k data Hk) as Hl. rewrite <- (places_half k) by done.
  unfold column_iter. cbn [iter sql_type]. unfold datetime_iter.
  assert (date_iter (ChronoDateTimeColumnData data tz) =
    mret (ChronoPtr data, Z.of_nat (length data), tz, None)) as -> by done.
  cbn -[split_places]. rewrite decide_True by (rewrite Hl; nia).
  cbn -[split_places]. by rewrite Nat2Z.id.
Qed.

(** ** The values are the cells *)

(** [T::from_sql] of a cell. *)
Fixpoint from_cell (T : iterable) (v : ValueRef.t) : Result (item T) :=
  match T return Result (item T) with
  | TPrim t => from_sql_prim t v
  | TBytes => from_sql_bytes v
  | TDecimal => from_sql_decimal v
  | TDateTime => from_sql_datetime v
  | TDate => from_sql_date v
  | TIpv4 => from_sql_ipv4 v
  | TIpv6 => from_sql_ipv6 v
  | TUuid => from_sql_uuid v
  | TOption T => from_sql_option option_dst (from_cell T) v
  | TVec T =>
    match v with
    | ValueRef.Array _ vs => map_outcome (from_cell T) vs
    | _ => Err (invalid_type v (lit "Vec"))
    end
  end.

Definition read_cell (T : iterable) (c : column_data) (i : Z) : Result (item T) :=
  v ← at_ c i; from_cell T v.

Lemma map_outcome_lookup {E X Y} (f : X -> outcome E Y) xs ys i x :
  map_outcome f xs = Ok ys -> xs !! i = Some x -> exists y, ys !! i = Some y /\ f x = Ok y.
Proof. intros Hm%map_outcome_Ok Hi. by destruct (Forall2_lookup_l _ _ _ _ _ Hm Hi) as (y & ? & ?); eauto. Qed.

Lemma ascending_le prev offsets i e :
  ascending prev offsets -> offsets !! i = Some e -> e <= offset_of offsets.
Proof.
  unfold offset_of. revert prev i. induction offsets as [|o offsets IH]; intros prev [|i] Ha Hi; try done.
  - injection Hi as ->. destruct Ha as [_ Ha]. pose proof (ascending_last _ _ Ha).
    destruct offsets as [|x offsets]; [done|]. rewrite last_cons_cons.
    destruct (last (x :: offsets)) eqn:Hl; [done|by apply last_None in Hl].
  - destruct Ha as [_ Ha]. destruct offsets as [|x offsets]; [done|]. rewrite last_cons_cons.
    by eapply IH.
Qed.

Lemma lookup_cut {A} prev offsets (xs : list A) i e :
  ascending prev offsets -> offsets !! i = Some e ->
  let s := default prev (match i with O => None | S j => offsets !! j end) in
  prev <= s <= e /\
  cut prev offsets xs !! i = Some (take (Z.to_nat (e - s)) (drop (Z.to_nat (s - prev)) xs)).
Proof.
  revert prev xs i. induction offsets as [|o offsets IH]; intros prev xs [|i] Ha Hi; try done.
  - injection Hi as ->. destruct Ha as [Hp _]. cbn. rewrite Z.sub_diag, drop_0. split; [lia|done].
  - destruct Ha as [Hp Ha]. cbn in Hi. destruct (IH o (drop (Z.to_nat (o - prev)) xs) i Ha Hi) as [Hs Hc].
    cbn zeta in *.
    assert (default prev ((o :: offsets) !! i) =
      default o (match i with O => None | S j => offsets !! j end)) as Heq.
    { destruct i as [|j]; [done|]. cbn. destruct (offsets !! j) eqn:Hj; [done|].
      apply lookup_ge_None in Hj. apply lookup_lt_Some in Hi. lia. }
    rewrite Heq. split; [lia|].
    change (cut prev (o :: offsets) xs !! S i)
      with (cut o offsets (drop (Z.to_nat (o - prev)) xs) !! i).
    rewrite Hc, drop_drop. do 3 f_equal. lia.
Qed.

(** The rows [s .. e] of a column. *)
Lemma read_rows T c vs s e :
  (forall i x, vs !! i = Some x -> read_cell T c (Z.of_nat i) = Ok x) ->
  0 <= s <= e -> e <= Z.of_nat (length vs) ->
  exists us, map_outcome (at_ c) (seqZ s (e - s)) = Ok us /\
    map_outcome (from_cell T) us = Ok (take (Z.to_nat (e - s)) (drop (Z.to_nat s) vs)).
Proof.
  intros Hread Hs He. remember (Z.to_nat (e - s)) as k eqn:Hk. revert s Hs Hk.
  induction k as [|k IH]; intros s Hs Hk.
  - rewrite seqZ_nil by lia. by exists [].
  - destruct (lookup_lt_is_Some_2 vs (Z.to_nat s)) as [x Hx]; [lia|].
    specialize (Hread _ _ Hx) as Hr. rewrite Z2Nat.id in Hr by lia.
    apply bind_Ok in Hr as (v & Hv & Hr).
    destruct (IH (s + 1)) as (us & Hus & Hfrom); [lia..|].
    exists (v :: us). rewrite seqZ_cons by lia.
    replace (Z.succ s) with (s + 1) by lia. replace (Z.pred (e - s)) with (e - (s + 1)) by lia.
    rewrite (drop_S _ _ _ Hx). cbn [map_outcome take]. rewrite Hv, Hus, Hr. cbn [mbind outcome_bind].
    replace (Z.to_nat (s + 1)) with (S (Z.to_nat s)) in Hfrom by lia. by rewrite Hfrom.
Qed.

Lemma values_read T n c vs i x :
  holds T n c -> values T c = Ok vs -> vs !! i = Some x -> read_cell T c (Z.of_nat i) = Ok x.
Proof.
  intros Hh Hv Hi. assert (0 <= Z.of_nat i < n) as Hb.
  { pose proof (values_length _ _ _ _ Hh Hv). apply lookup_lt_Some in Hi. lia. }
  revert n c vs i x Hh Hv Hi Hb. induction T as [t| | | | | | | |T IH|T IH];
    intros n c vs i x Hh Hv Hi Hb; destruct c; try done; cbn [holds values item] in *; unfold read_cell; cbn [at_].
  - destruct Hh as (-> & Ht & Hl). injection Hv as ->.
    rewrite indexZ_nat, Nat2Z.id, Hi by lia. destruct t; done.
  - injection Hv as <-. destruct Hh as (Hwf & _). rewrite Nat2Z.id, wf_get, Hi by done. done.
  - injection Hv as <-. destruct Hh as (Hn & Hl & Hlen & Hm). unfold isize_max in Hm.
    unfold fixed_at. rewrite Hlen, Z.div_mul in Hi by lia. rewrite lookup_pieces in Hi by lia. injection Hi as <-.
    rewrite arith_u_ok by (apply in_u_spec; nia). cbn [mbind outcome_bind].
    rewrite arith_u_ok by (apply in_u_spec; nia). cbn [mbind outcome_bind].
    rewrite sliceZ_ok by nia. cbn. do 2 f_equal; [lia|f_equal; lia].
  - destruct c; try done. destruct Hh as [-> Hl]. injection Hv as <-.
    apply list_lookup_fmap_Some in Hi as (y & -> & Hi). unfold decimal_at. cbn [at_].
    rewrite indexZ_nat, Nat2Z.id, Hi by lia. by destruct nobits.
  - destruct k; try done. apply map_outcome_Ok in Hv. destruct (Forall2_lookup_r _ _ _ _ _ Hv Hi) as (y & Hy & Hf).
    unfold date_at. rewrite indexZ_nat, Nat2Z.id, Hy by lia. done.
  - destruct params as [precision tz]. apply map_outcome_Ok in Hv.
    destruct (Forall2_lookup_r _ _ _ _ _ Hv Hi) as (y & Hy & Hf).
    unfold datetime64_at. rewrite indexZ_nat, Nat2Z.id, Hy by lia. done.
  - destruct k; try done. apply map_outcome_Ok in Hv. destruct (Forall2_lookup_r _ _ _ _ _ Hv Hi) as (y & Hy & Hf).
    unfold date_at. rewrite indexZ_nat, Nat2Z.id, Hy by lia. done.
  - destruct Hh as ([= <-] & Hn & Hl). cbn [ip_size] in Hl. injection Hv as <-.
    apply list_lookup_fmap_Some in Hi as (y & -> & Hi).
    rewrite (lookup_addresses 4 _ n _ _ ltac:(done) Hl Hi).
    unfold ip_get. cbn [ip_size]. rewrite sliceZ_ok by nia. cbn. do 3 f_equal; [lia|f_equal; lia].
  - destruct Hh as ([= <-] & Hn & Hl). cbn [ip_size] in Hl. injection Hv as <-.
    apply list_lookup_fmap_Some in Hi as (y & -> & Hi).
    rewrite (lookup_addresses 16 _ n _ _ ltac:(done) Hl Hi).
    unfold ip_get. cbn [ip_size]. rewrite sliceZ_ok by nia. cbn. do 3 f_equal; [lia|f_equal; lia].
  - destruct Hh as ([= <-] & Hn & Hl). cbn [ip_size] in Hl. injection Hv as <-.
    apply list_lookup_fmap_Some in Hi as (y & -> & Hi).
    rewrite (lookup_addresses 16 _ n _ _ ltac:(done) Hl Hi).
    unfold ip_get. cbn [ip_size]. rewrite sliceZ_ok by nia. cbn. do 3 f_equal; [lia|f_equal; lia].
  - apply bind_Ok in Hv as (ws & Hw & [= <-]). destruct Hh as (Hl & Hflags & Hh).
    apply lookup_zip_with_Some in Hi as (flag & y & -> & Hf & Hy).
    specialize (IH _ _ _ _ _ Hh Hw Hy Hb). unfold read_cell in IH. unfold nullable_at.
    rewrite indexZ_nat, Nat2Z.id, Hf by lia. cbn [unwrap mbind outcome_bind]. unfold opt_item.
    destruct (Forall_lookup_1 _ _ _ _ Hflags Hf) as [-> | ->]; [|done].
    rewrite decide_False, decide_True by done. apply bind_Ok in IH as (v & -> & Hc).
    cbn. by rewrite Hc.
  - apply bind_Ok in Hv as (ws & Hw & [= <-]). destruct Hh as (Hl & Hn & Ha & Ho & Hs & Hm & H32 & Hh).
    destruct (lookup_lt_is_Some_2 offsets i) as [e He]; [lia|].
    destruct (lookup_cut 0 offsets ws i e Ha He) as [Hse Hc]. cbn zeta in *.
    rewrite Hi in Hc. injection Hc as ->. rewrite Z.sub_0_r.
    pose proof (values_length _ _ _ _ Hh Hw) as Hlw.
    assert (e <= offset_of offsets) as Heo by by eapply ascending_le.
    unfold array_at.
    set (s := default 0 (match i with O => None | S j => offsets !! j end)) in *.
    assert ((if 0 <? Z.of_nat i then indexZ offsets (Z.of_nat i - 1) else Ok 0) = (Ok s : Result Z)) as ->.
    { destruct i as [|j]; [done|]. cbn -[indexZ]. rewrite indexZ_nat by lia.
      replace (Z.to_nat _) with j by lia. subst s. destruct (offsets !! j) eqn:Hj; [done|].
      apply lookup_ge_None in Hj. lia. }
    cbn [mbind outcome_bind]. rewrite indexZ_nat, Nat2Z.id, He by lia.
    cbn [unwrap mbind outcome_bind]. rewrite alloc_ok by lia. cbn [mbind outcome_bind].
    destruct (read_rows T c ws s e) as (us & Hus & Hfrom); [|lia|lia|].
    + intros j y Hj. eapply IH; [done..|]. pose proof (lookup_lt_Some _ _ _ Hj). lia.
    + rewrite Hus. exact Hfrom.
Qed.

(** ** Iterating over the chunks of a concatenated column *)

Section Complex.
Context (T : iterable) (ty : SqlType) (cs : list column_data) (vss : list (list (item T))).
Context (Hdepth : depth ty < 256).
Context (Hchunks : Forall2 (fun c vs => sql_type c = ty /\ values T c = Ok vs /\ exists n, holds T n c) cs vss).

Local Abbreviation left_from k := (concat (drop k vss)).

(** What a call of [next] returns when [ws] is left. *)
Definition answers (r : mem (option (item T) * ComplexIterator T)) (ws : list (item T)) : Prop :=
  match ws with
  | [] => exists self, r = mret (None, self)
  | x :: ws => exists k it us, r = mret (Some x, mkComplexIterator ty cs k (Some it)) /\
      (k <= length cs)%nat /\ yields (next item_size T) it us /\ ws = us ++ left_from k
  end.

Lemma chunk_iterates k c :
  cs !! k = Some c ->
  exists it vs, iter T c ty = mret it /\ yields (next item_size T) it vs /\ left_from k = vs ++ left_from (S k).
Proof.
  intros Hc. destruct (Forall2_lookup_l _ _ _ _ _ Hchunks Hc) as (vs & Hvs & Hty & Hv & n & Hh).
  destruct (iter_values T n c c vs) as (it & Hit & Hy & _); [by rewrite Hty|done|by intros ? ?|done|].
  rewrite Hty in Hit. exists it, vs. split_and!; [done..|]. by rewrite (drop_S _ _ _ Hvs).
Qed.

Lemma answers_opening fuel k :
  (k <= length cs)%nat -> (length cs - k < fuel)%nat ->
  answers (complex_next_fuel item_size fuel (mkComplexIterator ty cs k None)) (left_from k).
Proof.
  revert k. induction fuel as [|fuel IH]; intros k Hk Hf; [lia|]. cbn [complex_next_fuel].
  pose proof (Forall2_length _ _ _ Hchunks) as Hl. destruct (decide (k = length cs)) as [->|Hne].
  - rewrite drop_ge by lia. by eexists.
  - destruct (lookup_lt_is_Some_2 cs k) as [c Hc]; [lia|].
    destruct (chunk_iterates k c Hc) as (it & vs & Hit & Hy & Hleft).
    unfold index. rewrite Hc. cbn [unwrap mbind mem_bind]. rewrite Hit. cbn [mbind mem_bind mret mem_ret].
    rewrite Hleft. destruct Hy as [it it' Hn|it it' x xs Hn Hy]; rewrite Hn; cbn [mbind mem_bind mret mem_ret].
    + replace (k + 1)%nat with (S k) by lia. apply IH; lia.
    + replace (k + 1)%nat with (S k) by lia. exists (S k), it', xs. split_and!; (done || lia).
Qed.

Lemma answers_current fuel k it us :
  (k <= length cs)%nat -> (length cs - k + 1 < fuel)%nat -> yields (next item_size T) it us ->
  answers (complex_next_fuel item_size fuel (mkComplexIterator ty cs k (Some it))) (us ++ left_from k).
Proof.
  intros Hk Hf Hy. destruct fuel as [|fuel]; [lia|]. cbn [complex_next_fuel].
  destruct Hy as [it it' Hn|it it' x xs Hn Hy]; rewrite Hn; cbn [mbind mem_bind mret mem_ret].
  - apply answers_opening; lia.
  - by exists k, it', xs.
Qed.

Lemma complex_yields_current k it us :
  (k <= length cs)%nat -> yields (next item_size T) it us ->
  yields (complex_next item_size) (mkComplexIterator ty cs k (Some it)) (us ++ left_from k).
Proof.
  remember (us ++ left_from k) as ws eqn:Hws. revert k it us Hws.
  induction ws as [|x ws IH]; intros k it us Hws Hk Hy;
    (assert (answers (complex_next item_size (mkComplexIterator ty cs k (Some it))) (us ++ left_from k))
       as Ha by (apply answers_current; cbn; (done || lia))); rewrite <- Hws in Ha.
  - destruct Ha as [self Ha]. by eapply yields_nil.
  - destruct Ha as (k' & it' & us' & Ha & Hk' & Hy' & ->). eapply yields_cons; [exact Ha|].
    by eapply IH.
Qed.

Lemma complex_yields :
  yields (complex_next item_size) (mkComplexIterator ty cs 0 None) (concat vss).
Proof.
  assert (answers (complex_next item_size (mkComplexIterator ty cs 0 None)) (left_from 0)) as Ha
    by (apply answers_opening; cbn; lia).
  rewrite drop_0 in Ha. destruct (concat vss) as [|x ws].
  - destruct Ha as [self Ha]. by eapply yields_nil.
  - destruct Ha as (k & it & us & Ha & Hk & Hy & ->). eapply yields_cons; [exact Ha|].
    by apply complex_yields_current.
Qed.
End Complex.
End Values.
