(* ===== verification/IterCalls.v ===== *)
(** * An iterator is the list of what it has left

    The iterators of columns are walked by pointers and indices, and skip ahead
    in one step; [len], [size_hint] and [count] are differences of pointers.
    Whatever calls of these methods a program makes, in any order and beyond the
    end, it gets what the same calls of a list would give it. *)

From S2P Require Import Prelude RustStd Errors Scalars SqlType TypeNames DecimalNum.
From S2P Require Import Values StringPool ChunkIndex Columns ColumnLaws ColumnReads PushLaws.
From S2P Require Import Iter IterLaws.
Local Open Scope Z_scope.

(** ** The reference: a list *)

Fixpoint list_calls {A} (calls : list call) (xs : list A) : list (reply A) :=
  match calls with
  | [] => []
  | Next :: calls => Item (head xs) :: list_calls calls (tail xs)
  | Nth n :: calls => Item (xs !! n) :: list_calls calls (drop (S n) xs)
  | Len :: calls => Size (Z.of_nat (length xs)) :: list_calls calls xs
  | SizeHint :: calls =>
    Hint (Z.of_nat (length xs)) (Some (Z.of_nat (length xs))) :: list_calls calls xs
  | Count :: _ => [Size (Z.of_nat (length xs))]
  end.

Section Calls.
Context {P : Profile} `{ChronoTz, Combine, !InstantLayout} (item_size : iterable -> Z).

(** ** next *)

Lemma slice_next_inv {A B} rest (read : B -> mem A) r rest' :
  slice_next rest read = mret (r, rest') ->
  match r with Some _ => exists x, rest = x :: rest' | None => rest = [] /\ rest' = [] end.
Proof.
  destruct rest as [|x rest]; cbn; [by intros [= <- <-]|].
  destruct (read x) as [[a| | |]|]; cbn; try done. intros [= <- <-]. by exists x.
Qed.

Lemma ip_next_inv size decode rest r rest' :
  ip_next size decode rest = mret (r, rest') ->
  match r with
  | Some _ => (size <= length rest)%nat /\ rest' = drop size rest
  | None => rest = [] /\ rest' = []
  end.
Proof. unfold ip_next. repeat case_decide; [intros [= <- <-]..|done]; by subst. Qed.

(** An iterator that is at its end stays there. *)
Lemma next_fused T it it' :
  next item_size T it = mret (None, it') -> next item_size T it' = mret (None, it').
Proof.
  induction T as [t| | | | | | | |T IH|T IH]; cbn [next].
  - intros [-> ->]%slice_next_inv. done.
  - destruct it as [[pool|buffer l] i n]; cbn.
    + destruct (Z.eqb_spec i n) as [->|]; [intros [= <-]; cbn; by rewrite Z.eqb_refl|].
      destruct (deref _) as [[?| | |]|]; cbn; done.
    + destruct (Z.leb_spec n i) as [Hle|]; [intros [= <-]; cbn; apply Z.leb_le in Hle; by rewrite Hle|].
      destruct (arith_u 64 (i * l)); cbn; [|done..]. by case_decide.
  - destruct it as [rest p s b]; cbn. destruct (slice_next rest _) as [[[r rest']| | |]|] eqn:Hs; cbn; try done.
    intros [= -> <-]. by apply slice_next_inv in Hs as [_ ->].
  - rewrite datetime_next_eq. destruct it as [[rest|rest p] tz]; cbn;
      destruct (slice_next rest _) as [[[r rest']| | |]|] eqn:Hs; cbn; try done;
      intros [= -> <-]; by apply slice_next_inv in Hs as [_ ->].
  - destruct it as [rest tz]; cbn. destruct (slice_next rest _) as [[[r rest']| | |]|] eqn:Hs; cbn; try done.
    intros [= -> <-]. by apply slice_next_inv in Hs as [_ ->].
  - by intros [-> ->]%ip_next_inv.
  - by intros [-> ->]%ip_next_inv.
  - by intros [-> ->]%ip_next_inv.
  - destruct it as [it [|flag rest]]; unfold nullable_next; cbn; [by intros [= <-]|].
    destruct (next item_size T it) as [[[[x|] it1]| | |]|] eqn:Hn; cbn; try done.
    intros [= <-]. cbn. by rewrite (IH _ _ Hn).
  - destruct it as [it offsets i n]; cbn. destruct (Z.eqb_spec i n) as [->|];
      [intros [= <-]; cbn; by rewrite Z.eqb_refl|].
    destruct (if 0 <? i then _ else _); cbn; try done. destruct (indexZ offsets i); cbn; try done.
    destruct (arith_u 64 _); cbn; try done. destruct (alloc _ _); cbn; try done.
    by destruct (take_items _ _ _ _) as [[[? ?]| | |]|].
Qed.

(** What [next] does to the size. *)
Lemma next_sized T it n r it' :
  next item_size T it = mret (r, it') -> sized T it n -> 0 <= n ->
  match r with Some _ => sized T it' (n - 1) | None => sized T it' n end.
Proof.
  destruct T; cbn [next sized].
  - intros Hs%slice_next_inv <- _. destruct r; [|by destruct Hs as [-> ->]].
    destruct Hs as [x ->]. cbn [length]. lia.
  - destruct it as [[pool|buffer l] i k]; cbn.
    + destruct (Z.eqb_spec i k); [by intros [= <- <-]|].
      destruct (deref _) as [[?| | |]|]; cbn; try done. intros [= <- <-]. cbn. lia.
    + destruct (Z.leb_spec k i); [by intros [= <- <-]|].
      destruct (arith_u 64 (i * l)); cbn; try done. case_decide; [|done]. intros [= <- <-]. cbn. lia.
  - destruct it as [rest p s b]; cbn. destruct (slice_next rest _) as [[[o rest']| | |]|] eqn:Hs; cbn; try done.
    intros [= -> <-] <- _. apply slice_next_inv in Hs. destruct r; [|by destruct Hs as [-> ->]].
    destruct Hs as [x ->]. cbn [length di_rest]. lia.
  - rewrite datetime_next_eq. destruct it as [[rest|rest p] tz]; cbn;
      destruct (slice_next rest _) as [[[o rest']| | |]|] eqn:Hs; cbn; try done;
      intros [= -> <-] <- _; apply slice_next_inv in Hs; (destruct r; [|by destruct Hs as [-> ->]]);
      destruct Hs as [x ->]; cbn [length datetime_rest dti_inner]; lia.
  - destruct it as [rest tz]; cbn. destruct (slice_next rest _) as [[[o rest']| | |]|] eqn:Hs; cbn; try done.
    intros [= -> <-] <- _. apply slice_next_inv in Hs. destruct r; [|by destruct Hs as [-> ->]].
    destruct Hs as [x ->]. cbn [length date_rest]. lia.
  - intros Hs%ip_next_inv Hl _. destruct r; destruct Hs as [? ->]; [rewrite length_drop; lia|by subst].
  - intros Hs%ip_next_inv Hl _. destruct r; destruct Hs as [? ->]; [rewrite length_drop; lia|by subst].
  - intros Hs%ip_next_inv Hl _. destruct r; destruct Hs as [? ->]; [rewrite length_drop; lia|by subst].
  - destruct it as [it [|flag rest]]; unfold nullable_next; cbn; [by intros [= <- <-]|].
    destruct (next item_size T it) as [[[[x|] it1]| | |]|]; cbn; try done; intros [= <- <-]; cbn; lia.
  - destruct it as [it offsets i k]; cbn. destruct (Z.eqb_spec i k); [by intros [= <- <-]|].
    destruct (if 0 <? i then _ else _); cbn; try done. destruct (indexZ offsets i); cbn; try done.
    destruct (arith_u 64 _); cbn; try done. destruct (alloc _ _); cbn; try done.
    destruct (take_items _ _ _ _) as [[[? ?]| | |]|]; cbn; try done. intros [= <- <-]. cbn. lia.
Qed.

(** ** post_inc_start *)

Lemma skip_0 T post_inc_start it n :
  skip T = Some post_inc_start -> sized T it n -> 0 <= n -> post_inc_start O it = Ok it.
Proof.
  destruct T; cbn; intros [= <-] Hs Hn; try done; try by destruct it.
  - destruct Hs as (? & ? & ?). unfold string_skip. rewrite Z.add_0_r, arith_u_ok by (apply in_u_spec; lia).
    by destruct it.
  - by destruct it as [[|] ?].
Qed.

Lemma skip_S T post_inc_start it x it' k n :
  skip T = Some post_inc_start -> next item_size T it = mret (Some x, it') -> sized T it n ->
  Z.of_nat (S k) < n -> post_inc_start (S k) it = post_inc_start k it'.
Proof.
  destruct T; cbn [skip next sized]; intros [= <-]; try done.
  - by intros [y ->]%slice_next_inv.
  - destruct it as [[pool|buffer l] i m]; cbn.
    + destruct (Z.eqb_spec i m); [done|]. destruct (deref _) as [[?| | |]|]; cbn; try done.
      intros [= _ <-] (? & ? & ?) Hk. unfold string_skip; cbn. do 2 f_equal. lia.
    + destruct (Z.leb_spec m i); [done|]. destruct (arith_u 64 (i * l)); cbn; try done. case_decide; [|done].
      intros [= _ <-] (? & ? & ?) Hk. unfold string_skip; cbn. do 2 f_equal. lia.
  - destruct it as [rest p s b]; cbn. destruct (slice_next rest _) as [[[o rest']| | |]|] eqn:Hs; cbn; try done.
    intros [= -> <-]. by apply slice_next_inv in Hs as [y ->].
  - rewrite datetime_next_eq. destruct it as [[rest|rest p] tz]; cbn;
      destruct (slice_next rest _) as [[[o rest']| | |]|] eqn:Hs; cbn; try done;
      intros [= -> <-]; by apply slice_next_inv in Hs as [y ->].
  - destruct it as [rest tz]; cbn. destruct (slice_next rest _) as [[[o rest']| | |]|] eqn:Hs; cbn; try done.
    intros [= -> <-]. by apply slice_next_inv in Hs as [y ->].
  - intros [_ ->]%ip_next_inv _ _. unfold ipv4_skip. by rewrite drop_drop.
  - intros [_ ->]%ip_next_inv _ _. unfold ipv6_skip. by rewrite drop_drop.
  - intros [_ ->]%ip_next_inv _ _. unfold uuid_skip. by rewrite drop_drop.
Qed.

(** The iterator [it] has the items [xs] left. *)
Definition left_in (T : iterable) (it : Iter T) (xs : list (item T)) : Prop :=
  yields (next item_size T) it xs /\ sized T it (Z.of_nat (length xs)).

Lemma left_next T it xs :
  left_in T it xs ->
  exists it', next item_size T it = mret (head xs, it') /\ left_in T it' (tail xs).
Proof.
  intros [Hy Hs]. destruct Hy as [it it' Hn|it it' x xs Hn Hy]; exists it'; (split; [done|]).
  - split; [eapply yields_nil; by apply next_fused in Hn|].
    by apply (next_sized _ _ _ _ _ Hn) in Hs.
  - split; [done|]. apply (next_sized _ _ _ _ _ Hn) in Hs; [|lia].
    cbn [length tail] in *. by replace (Z.of_nat (length xs)) with (Z.of_nat (S (length xs)) - 1) by lia.
Qed.

Lemma left_skip T post_inc_start it xs k :
  skip T = Some post_inc_start -> left_in T it xs -> (k < length xs)%nat ->
  exists it', post_inc_start k it = Ok it' /\ left_in T it' (drop k xs).
Proof.
  intros Hk. revert it xs. induction k as [|k IH]; intros it xs Hl Hlt.
  - exists it. split; [|done]. eapply skip_0; [done|apply Hl|lia].
  - destruct xs as [|x xs]; [cbn in Hlt; lia|]. cbn [length] in Hlt.
    destruct (left_next _ _ _ Hl) as (it1 & Hn & Hl1). destruct (IH it1 xs Hl1) as (it' & Hit & Hl'); [lia|].
    exists it'. split; [|done]. rewrite <- Hit. eapply skip_S; [done..|apply Hl|cbn [length]; lia].
Qed.

Lemma left_exhaust T post_inc_start it n :
  skip T = Some post_inc_start -> sized T it n -> 0 <= n -> left_in T (exhaust T it) [].
Proof.
  intros Hk Hs Hn. split.
  - eapply (yields_nil _ _ (exhaust T it)).
    destruct T; try done; try by destruct it.
    + destruct it as [[pool|buffer l] i m]; cbn.
      * by rewrite Z.eqb_refl.
      * by rewrite Z.leb_refl.
    + by destruct it as [[|] ?].
  - destruct T; try done; try by destruct it.
    + cbn in *. lia.
    + by destruct it as [[|] ?].
Qed.

(** ** nth *)

Lemma left_default_nth T it xs n :
  left_in T it xs ->
  exists it', default_nth item_size T n it = mret (xs !! n, it') /\ left_in T it' (drop (S n) xs).
Proof.
  revert it xs. induction n as [|n IH]; intros it xs Hl; cbn [default_nth];
    destruct (left_next _ _ _ Hl) as (it1 & -> & Hl1); cbn [mbind mem_bind mret mem_ret];
    destruct xs as [|x xs]; cbn [head tail] in *; try by exists it1.
  destruct (IH it1 xs Hl1) as (it' & -> & Hl'). by exists it'.
Qed.

Lemma nth_skip T :
  nth item_size T =
    match skip T with
    | None => default_nth item_size T
    | Some post_inc_start => nth_by (iter_len T) (exhaust T) post_inc_start (next item_size T)
    end.
Proof. by destruct T. Qed.

(** [size_hint] and [count] agree with [len]. *)
Lemma size_hint_len T it : size_hint T it = exact_hint (iter_len T it).
Proof. by destruct T. Qed.

Lemma count_len T it : count T it = iter_len T it.
Proof. by destruct T. Qed.

Lemma left_nth T it xs n :
  left_in T it xs ->
  exists it', nth item_size T n it = mret (xs !! n, it') /\ left_in T it' (drop (S n) xs).
Proof.
  intros Hl. rewrite nth_skip. destruct (skip T) as [post_inc_start|] eqn:Hk; [|by apply left_default_nth].
  unfold nth_by.
  rewrite (sized_len _ _ _ (Nat2Z.is_nonneg _) (proj2 Hl)). cbn [mbind mem_bind].
  destruct (Z.leb_spec (Z.of_nat (length xs)) (Z.of_nat n)) as [Hge|Hlt].
  - exists (exhaust T it). rewrite lookup_ge_None_2, drop_ge by lia. split; [done|].
    eapply left_exhaust; [done|apply Hl|lia].
  - destruct (left_skip _ _ _ _ n Hk Hl) as (it1 & -> & Hl1); [lia|]. cbn [mbind mem_bind].
    destruct (left_next _ _ _ Hl1) as (it' & Hn & Hl'). exists it'. rewrite Hn.
    replace (drop (S n) xs) with (tail (drop n xs)) by (by rewrite <- Nat.add_1_r, <- drop_drop; destruct (drop n xs)).
    split; [|done]. f_equal. f_equal. rewrite <- (Nat.add_0_r n) at 2. rewrite <- lookup_drop. by destruct (drop n xs).
Qed.

(** ** Any calls *)

Lemma left_calls T calls it xs :
  left_in T it xs -> make_calls item_size T calls it = mret (list_calls calls xs).
Proof.
  revert it xs. induction calls as [|c calls IH]; intros it xs Hl; [done|]. cbn [make_calls list_calls].
  pose proof (sized_len _ _ _ (Nat2Z.is_nonneg _) (proj2 Hl)) as Hlen. destruct c as [|n| | |].
  - destruct (left_next _ _ _ Hl) as (it' & -> & Hl'). cbn [mbind mem_bind mret mem_ret].
    by rewrite (IH _ _ Hl').
  - destruct (left_nth _ _ _ n Hl) as (it' & -> & Hl'). cbn [mbind mem_bind mret mem_ret].
    by rewrite (IH _ _ Hl').
  - rewrite Hlen. cbn [mbind mem_bind mret mem_ret]. by rewrite (IH _ _ Hl).
  - rewrite size_hint_len, Hlen. cbn. by rewrite (IH _ _ Hl).
  - by rewrite count_len, Hlen.
Qed.

(** The iterator of a column has the values of the column left. *)
Lemma column_iter_left T n c vs :
  depth (sql_type c) < 256 -> holds item_size T n c -> values T c = Ok vs ->
  exists it, column_iter T c = mret it /\ left_in T it vs.
Proof.
  intros Hd Hh Hv. destruct (iter_values item_size T n c c vs Hd Hh) as (it & Hit & Hy & Hs); [by intros ? ?|done|].
  exists it. split; [done|]. split; [done|]. by rewrite (values_length _ _ _ _ _ Hh Hv).
Qed.
End Calls.
