(* ===== verification/Compressed.v ===== *)
(** * Compressed blocks ([types/block/compressed.rs], the compressing branch of
      [Block::write])

    A compressed frame is a 128-bit checksum, a header of nine bytes and LZ4
    data.  [CompressedReader] is a reader over another reader: it fulfils the
    interfaces of files ReadEx, Stable and Finite, so everything proved about
    readers holds for it.

    The crates [lz4] and [clickhouse_rs_cityhash_sys] are the class [Lz4]. *)

From S2P Require Import Prelude RustStd Errors Scalars Encoder ReadEx Stable Finite.
Local Open Scope Z_scope.

(** [LZ4_compress_default(src, _, srcSize, dstCapacity)]: the bytes it writes,
    none when it fails.  [LZ4_decompress_safe(src, _, srcSize, dstCapacity)]:
    the bytes it writes, [None] for a negative status. *)
Class Lz4 := {
  city_hash_128 : bytes -> Z * Z;
  LZ4_compressBound : Z -> Z;
  LZ4_compress_default : bytes -> Z -> Z -> bytes;
  LZ4_decompress_safe : bytes -> Z -> Z -> option bytes
}.

Definition DBMS_MAX_COMPRESSED_SIZE : Z := 1073741824.

Definition raise_error (message : bytes) : Error := from_string message.

Section Compressed.
Context {P : Profile} `{Lz4}.

(** The nine bytes in front of the data. *)
Definition frame_header (compressed original : Z) : bytes :=
  marshal u8 130 ++ marshal u32 compressed ++ marshal u32 original.

(** ** Reading *)

Section Reader.
Context {R : Type} `{Read R}.

(** [buffer] has at least nine bytes: the header is written at its front
    through a cursor, which extends a shorter one. *)
Definition decompress_buffer : rd R bytes :=
  lo ← read_scalar u64;
  hi ← read_scalar u64;
  method ← read_scalar u8;
  if negb (method =? 130) then
    lift (Err (raise_error (lit "unsupported compression method " ++ show_dec method)))
  else
    compressed ← read_scalar u32;
    original ← read_scalar u32;
    if DBMS_MAX_COMPRESSED_SIZE <? compressed then
      lift (Err (raise_error (lit "compressed data too big")))
    else
      body ← read_bytes (Z.to_nat (Z.max compressed 9 - 9));
      let buffer := frame_header compressed original ++ body in
      if negb (bool_decide ((lo, hi) = city_hash_128 buffer)) then
        lift (Err (raise_error (lit "data was corrupted")))
      else
        src_size ← lift (arith_u 32 (compressed - 9));
        match LZ4_decompress_safe body (wraps 32 src_size) (wraps 32 original) with
        | None => lift (Err (raise_error (lit "can't decompress data")))
        | Some out => mret (vec_resize (Z.to_nat original) x00 out)
        end.
End Reader.

#[global] Arguments decompress_buffer : simpl never.

(** The reader and what the cursor over the decompressed bytes has left. *)
Record CompressedReader (R : Type) := CR { cr_reader : R; cr_cursor : bytes }.
Arguments CR {R}.
Arguments cr_reader {R}.
Arguments cr_cursor {R}.

Definition make {R} (reader : R) : CompressedReader R := CR reader [].

Definition is_empty {R} (self : CompressedReader R) : bool := bool_decide (cr_cursor self = []).

Definition fill {R} `{Read R} (self : CompressedReader R) : Result (CompressedReader R) :=
  '(tmp, reader) ← decompress_buffer (cr_reader self);
  Ok (CR reader tmp).

(** The first half of [io::Read::read]: an error of [fill] becomes an
    [io::Error]. *)
Definition refill {R} `{Read R} (self : CompressedReader R)
  : outcome io_error (CompressedReader R) :=
  if is_empty self then map_err into_io (fill self) else Ok self.

#[global] Instance compressed_read {R} `{Read R} : Read (CompressedReader R) := fun n self =>
  self ← refill self;
  Ok (take n (cr_cursor self), CR (cr_reader self) (drop n (cr_cursor self))).

(** ** Writing *)

(** The compressing branch of [Block::write], on the block's bytes [tmp].
    Writing past the end of [buf] would be undefined behaviour; [Lz4Laws] says
    that it does not happen. *)
Definition write_compressed (encoder : Encoder) (tmp : bytes) : Result Encoder :=
  let tmp_len := Z.of_nat (length tmp) in
  let bound := wrapu 64 (LZ4_compressBound (wraps 32 tmp_len)) in
  buf_len ← arith_u 64 (9 + bound);
  _ ← alloc 1 buf_len;
  let out := LZ4_compress_default tmp (wraps 32 tmp_len) (wraps 32 buf_len) in
  let size := Z.of_nat (length out) in
  _ ← assert_ (9 + size <=? buf_len);
  let buf := frame_header (wrapu 32 (9 + size)) (wrapu 32 tmp_len) ++ out in
  let '(lo, hi) := city_hash_128 buf in
  encoder ← write u64 encoder lo;
  encoder ← write u64 encoder hi;
  write_bytes encoder buf.

(** ** The reader's laws *)

Lemma compressed_read_eq {R} `{Read R} n (self : CompressedReader R) :
  read n self =
  match refill self with
  | Ok self' => Ok (take n (cr_cursor self'), CR (cr_reader self') (drop n (cr_cursor self')))
  | Err e => Err e
  | Panic => Panic
  | OutOfFuel => OutOfFuel
  end.
Proof. unfold read, compressed_read. by destruct (refill self). Qed.

#[global] Instance compressed_laws {R} `{Read R} : ReadLaws (CompressedReader R).
Proof.
  split.
  - intros n r bs r'. rewrite compressed_read_eq.
    destruct (refill r); try done. intros [= <- <-]. rewrite length_take. lia.
  - intros n m r bs r' Hn. rewrite !compressed_read_eq.
    destruct (refill r) as [s| | |] eqn:Hs; try done. intros [= <- <-].
    rewrite length_take. case_decide as Hl.
    + destruct m as [|m]; [by rewrite Nat.add_0_r|]. by rewrite !take_ge, !drop_ge by lia.
    + exists (CR (cr_reader s) (drop n (cr_cursor s))).
      rewrite take_take, Nat.min_l by lia. split; [done|].
      rewrite compressed_read_eq. unfold refill, is_empty; cbn [cr_cursor cr_reader].
      rewrite bool_decide_false
        by (intros He%(f_equal length); rewrite length_drop in He; cbn in He; lia).
      cbn [cr_cursor cr_reader]. by rewrite drop_drop, take_drop_commute.
Qed.

(** ** Over a growing input *)

#[global] Instance compressed_grow {R} `{Grow R} : Grow (CompressedReader R) := fun r x =>
  CR (grow (cr_reader r) x) (cr_cursor r).

Lemma stable_decompress {R} `{GrowLaws R} : stable (R:=R) decompress_buffer.
Proof. unfold decompress_buffer. stable. Qed.

Lemma refill_grow {R} `{GrowLaws R} (r : CompressedReader R) x :
  match refill r with
  | Ok s => refill (grow r x) = Ok (grow s x)
  | Err e => is_would_block (from_io e) = true \/ refill (grow r x) = Err e
  | Panic => refill (grow r x) = Panic
  | OutOfFuel => True
  end.
Proof.
  unfold refill. change (is_empty (grow r x)) with (is_empty r).
  destruct (is_empty r); [|done]. unfold fill.
  change (cr_reader (grow r x)) with (grow (cr_reader r) x).
  pose proof (stable_decompress (cr_reader r) x) as Hd.
  destruct (decompress_buffer (cr_reader r)) as [[tmp r1]|e| |];
    cbn [stable_out grow_result fst snd] in Hd; cbn [map_err mbind outcome_bind].
  - by rewrite Hd.
  - destruct Hd as [Hw| ->]; [left|by right]. by rewrite is_would_block_io_roundtrip.
  - by rewrite Hd.
  - done.
Qed.

#[global] Instance compressed_grow_laws {R} `{GrowLaws R} : GrowLaws (CompressedReader R).
Proof.
  intros n r x. revert r. induction (lt_wf n) as [n _ IH]. intros r.
  rewrite (read_bytes_unfold n r), (read_bytes_unfold n (grow r x)). case_decide as Hn; [done|].
  rewrite !compressed_read_eq. pose proof (refill_grow r x) as Hf.
  destruct (refill r) as [s|e| |].
  - rewrite Hf. change (cr_cursor (grow s x)) with (cr_cursor s).
    destruct (take n (cr_cursor s)) as [|b bs]; [by left|].
    apply (stable_out_bind (grow_result x)).
    + apply (IH (n - length (b :: bs))%nat ltac:(cbn; lia) (CR (cr_reader s) (drop n (cr_cursor s)))).
    + by intros [bs' r''].
  - destruct Hf as [Hw| ->]; [by left|by right].
  - by rewrite Hf.
  - done.
Qed.

(** ** Over a finite input *)

(** A frame of at least 25 bytes holds less than 2^32. *)
#[global] Instance compressed_size {R} `{Sized R} : Sized (CompressedReader R) := fun r =>
  2 ^ 32 * size (cr_reader r) + Z.of_nat (length (cr_cursor r)).

Lemma consumes_decompress {R} `{SizedLaws R} : consumes (R:=R) 8 decompress_buffer.
Proof.
  unfold decompress_buffer. change 8 with (Z.of_nat (buffer_size u64) + 0).
  apply consumes_bind; [done|apply consumes_scalar|]. intros lo. consumes.
Qed.

Lemma ensures_decompress {R} `{ReadLaws R} :
  ensures (R:=R) decompress_buffer (fun tmp => Z.of_nat (length tmp) < 2 ^ 32).
Proof.
  unfold decompress_buffer. do 2 (apply ensures_true; intros ?).
  apply ensures_true. intros method. case_match; [apply ensures_err|].
  apply ensures_true. intros compressed.
  eapply ensures_bind; [apply ensures_scalar|]. intros original [Ho1 Ho2]%in_u_spec.
  case_match; [apply ensures_err|]. apply ensures_true. intros body.
  case_match; [apply ensures_err|]. apply ensures_true. intros src_size.
  case_match; [|apply ensures_err]. apply ensures_ret.
  rewrite length_vec_resize. lia.
Qed.

Lemma refill_size {R} `{ReadLaws R, !Sized R, !SizedLaws R} (r : CompressedReader R) :
  size r < 2 ^ 64 ->
  refill r <> OutOfFuel /\ forall s, refill r = Ok s -> size s <= size r.
Proof.
  intros Hr. unfold refill, is_empty. case_bool_decide as He; [|split; [done|]; by intros ? [= <-]].
  unfold size, compressed_size in Hr. rewrite He in Hr. cbn in Hr. unfold fill.
  pose proof (size_pos (cr_reader r)).
  destruct (consumes_decompress (cr_reader r)) as [Ho Hs]; [lia|].
  pose proof (ensures_decompress (cr_reader r)) as Hl.
  destruct (decompress_buffer (cr_reader r)) as [[tmp r1]| | |]; try done.
  cbn. split; [done|]. intros s [= <-]. specialize (Hs _ _ eq_refl). specialize (Hl _ _ eq_refl).
  unfold size at 1 2, compressed_size; cbn. rewrite He; cbn. lia.
Qed.

#[global] Instance compressed_sized {R} `{ReadLaws R, !Sized R, !SizedLaws R} :
  SizedLaws (CompressedReader R).
Proof.
  split; [intros r; unfold size, compressed_size; pose proof (size_pos (cr_reader r)); lia|].
  intros n. induction (lt_wf n) as [n _ IH]. intros r Hr. rewrite read_bytes_unfold.
  case_decide as Hn; [split; [done|]; intros ? ? [= _ <-]; subst; lia|].
  rewrite compressed_read_eq. destruct (refill_size r Hr) as [Ho Hs].
  destruct (refill r) as [s|e| |]; try done. specialize (Hs _ eq_refl).
  destruct (take n (cr_cursor s)) as [|b bs] eqn:Ht; [done|].
  assert (length (b :: bs) <= n /\ length (b :: bs) <= length (cr_cursor s))%nat as [Hn1 Hn2].
  { rewrite <- Ht, length_take. lia. }
  assert (size (CR (cr_reader s) (drop n (cr_cursor s))) + Z.of_nat (length (b :: bs)) <= size s)
    as Hd.
  { unfold size, compressed_size; cbn [cr_reader cr_cursor]. rewrite <- Ht, length_take, length_drop. lia. }
  destruct (IH (n - length (b :: bs))%nat ltac:(cbn; lia)
    (CR (cr_reader s) (drop n (cr_cursor s)))) as [Ho' Hs']; [lia|].
  destruct (read_bytes _ (CR _ _)) as [[bs' r'']|e| |]; try done; cbn [mbind outcome_bind].
  specialize (Hs' _ _ eq_refl). split; [done|]. intros ? ? [= _ <-]. lia.
Qed.

(** ** What is written is read back *)

Definition LZ4_MAX_INPUT_SIZE : Z := 2113929216.

(** The documented behaviour of the two crates: the checksum is two [u64]s; with
    a destination as large as the bound, compressing succeeds within the bound
    and decompressing what it wrote gives the source back. *)
Class Lz4Laws : Prop := {
  hash_range bs : in_u 64 (city_hash_128 bs).1 = true /\ in_u 64 (city_hash_128 bs).2 = true;
  compress_bound n :
    0 <= n <= LZ4_MAX_INPUT_SIZE -> LZ4_compressBound n = n + n / 255 + 16;
  compress_length src capacity :
    Z.of_nat (length src) <= LZ4_MAX_INPUT_SIZE ->
    LZ4_compressBound (Z.of_nat (length src)) <= capacity < 2 ^ 31 ->
    Z.of_nat (length (LZ4_compress_default src (Z.of_nat (length src)) capacity))
    <= LZ4_compressBound (Z.of_nat (length src));
  decompress_compress src capacity :
    Z.of_nat (length src) <= LZ4_MAX_INPUT_SIZE ->
    LZ4_compressBound (Z.of_nat (length src)) <= capacity < 2 ^ 31 ->
    LZ4_decompress_safe (LZ4_compress_default src (Z.of_nat (length src)) capacity)
      (Z.of_nat (length (LZ4_compress_default src (Z.of_nat (length src)) capacity))) (Z.of_nat (length src)) = Some src
}.

(** The capacity that the code passes. *)
Definition dst_capacity (tmp : bytes) : Z :=
  9 + LZ4_compressBound (Z.of_nat (length tmp)).

Definition lz4_out (tmp : bytes) : bytes :=
  LZ4_compress_default tmp (Z.of_nat (length tmp)) (dst_capacity tmp).

(** The frame of [tmp]. *)
Definition frame_data (tmp : bytes) : bytes :=
  frame_header (9 + Z.of_nat (length (lz4_out tmp)))
    (Z.of_nat (length tmp))
  ++ lz4_out tmp.

Definition frame (tmp : bytes) : bytes :=
  marshal u64 (city_hash_128 (frame_data tmp)).1 ++ marshal u64 (city_hash_128 (frame_data tmp)).2
  ++ frame_data tmp.

(** What fits into one frame of less than a gigabyte. *)
Definition compressible (tmp : bytes) : Prop :=
  0 < Z.of_nat (length tmp) /\
  9 + Z.of_nat (length tmp) + Z.of_nat (length tmp) / 255 + 16 <= DBMS_MAX_COMPRESSED_SIZE.

Section Roundtrip.
Context `{!Lz4Laws}.

Lemma compressible_bounds tmp :
  compressible tmp ->
  Z.of_nat (length tmp) <= LZ4_MAX_INPUT_SIZE /\
  LZ4_compressBound (Z.of_nat (length tmp)) <= dst_capacity tmp < 2 ^ 31 /\
  9 + Z.of_nat (length (lz4_out tmp)) <= DBMS_MAX_COMPRESSED_SIZE.
Proof.
  unfold compressible, dst_capacity, DBMS_MAX_COMPRESSED_SIZE, LZ4_MAX_INPUT_SIZE.
  intros [Hp Hc]. assert (0 <= Z.of_nat (length tmp) / 255) by (apply Z.div_pos; lia).
  assert (Z.of_nat (length tmp) <= LZ4_MAX_INPUT_SIZE) as Hm by (unfold LZ4_MAX_INPUT_SIZE; lia).
  pose proof (compress_bound (Z.of_nat (length tmp)) ltac:(lia)) as Hb.
  assert (LZ4_compressBound (Z.of_nat (length tmp)) <= 9 + LZ4_compressBound (Z.of_nat (length tmp))
    < 2 ^ 31) as Hcap by lia.
  pose proof (compress_length tmp _ Hm Hcap).
  unfold lz4_out, dst_capacity.
  lia.
Qed.

Lemma write_compressed_ok e tmp :
  compressible tmp -> write_compressed e tmp = Ok (e ++ frame tmp).
Proof.
  intros Hc. destruct (compressible_bounds tmp Hc) as (Hm & Hb & Hl).
  pose proof (compress_bound (Z.of_nat (length tmp)) ltac:(lia)) as Heq.
  assert (0 <= Z.of_nat (length tmp) / 255) by (apply Z.div_pos; lia).
  pose proof (compress_length tmp (dst_capacity tmp) Hm Hb) as Hlen.
  change (LZ4_compress_default tmp (Z.of_nat (length tmp)) (dst_capacity tmp)) with (lz4_out tmp) in Hlen.
  unfold write_compressed, LZ4_MAX_INPUT_SIZE, DBMS_MAX_COMPRESSED_SIZE in *.
  rewrite (wraps_small 32) by (try (apply in_s_spec); lia).
  rewrite (wrapu_small 64) by (apply in_u_spec; unfold dst_capacity in Hb; lia).
  rewrite arith_u_ok by (apply in_u_spec; unfold dst_capacity in Hb; lia).
  cbn [mbind outcome_bind].
  rewrite alloc_ok by (unfold isize_max, dst_capacity in *; lia). cbn [mbind outcome_bind].
  change (9 + LZ4_compressBound (Z.of_nat (length tmp))) with (dst_capacity tmp).
  rewrite (wraps_small 32) by (try (apply in_s_spec); lia).
  change (LZ4_compress_default tmp (Z.of_nat (length tmp)) (dst_capacity tmp)) with (lz4_out tmp).
  replace (9 + Z.of_nat (length (lz4_out tmp)) <=? dst_capacity tmp)
    with true by (symmetry; apply Z.leb_le; unfold dst_capacity in *; lia).
  cbn [assert_ mbind outcome_bind].
  rewrite !(wrapu_small 32) by (apply in_u_spec; lia).
  unfold frame, frame_data. destruct (city_hash_128 _) as [lo hi]. cbn [fst snd].
  do 2 (rewrite write_ok; cbn [mbind outcome_bind]). unfold write_bytes.
  by rewrite <- !app_assoc.
Qed.

Lemma parses_frame {R} `{ReadLaws R} tmp :
  compressible tmp -> parses (R:=R) decompress_buffer (frame tmp) tmp.
Proof.
  intros Hc. destruct (compressible_bounds tmp Hc) as (Hm & Hb & Hl).
  destruct Hc as [Hpos _]. unfold LZ4_MAX_INPUT_SIZE, DBMS_MAX_COMPRESSED_SIZE in *.
  pose proof (decompress_compress tmp (dst_capacity tmp) Hm Hb) as Hd.
  change (LZ4_compress_default tmp (Z.of_nat (length tmp)) (dst_capacity tmp)) with (lz4_out tmp) in Hd.
  destruct (hash_range (frame_data tmp)) as [Hlo Hhi].
  set (out := lz4_out tmp) in *.
  assert (in_u 32 (9 + Z.of_nat (length out)) = true) as Hi1 by (apply in_u_spec; lia).
  assert (in_u 32 (Z.of_nat (length tmp)) = true) as Hi2 by (apply in_u_spec; lia).
  assert (frame_data tmp = marshal u8 130 ++ marshal u32 (9 + Z.of_nat (length out))
    ++ marshal u32 (Z.of_nat (length tmp)) ++ out) as Hfd.
  { unfold frame_data, frame_header. by rewrite <- !app_assoc. }
  unfold decompress_buffer, frame. rewrite Hfd at 3.
  do 3 (eapply parses_bind; [reflexivity|by apply parses_scalar|]).
  change (negb (130 =? 130)) with false. cbn beta iota.
  do 2 (eapply parses_bind; [reflexivity|by apply parses_scalar|]).
  destruct (Z.ltb_spec DBMS_MAX_COMPRESSED_SIZE (9 + Z.of_nat (length out)));
    [unfold DBMS_MAX_COMPRESSED_SIZE in *; lia|].
  eapply (parses_bind _ _ out [] _ out); [by rewrite app_nil_r|apply parses_read_bytes; lia|].
  change (frame_header (9 + Z.of_nat (length out)) (Z.of_nat (length tmp)) ++ out)
    with (frame_data tmp).
  rewrite <- surjective_pairing, bool_decide_true by done. cbn [negb].
  eapply parses_bind_lift; [apply arith_u_ok, in_u_spec; lia|].
  rewrite !(wraps_small 32) by (try (apply in_s_spec); lia).
  replace (9 + Z.of_nat (length out) - 9) with (Z.of_nat (length out)) by lia.
  rewrite Hd. rewrite Nat2Z.id. unfold vec_resize.
  rewrite take_ge, Nat.sub_diag, app_nil_r by lia. apply parses_ret.
Qed.

(** Frames one behind the other deliver what is in them. *)
Lemma delivers_frames {R} `{ReadLaws R} tmps (r r' : R) :
  Forall compressible tmps -> delivers r (concat (frame <$> tmps)) r' -> delivers (make r) (concat tmps) (make r').
Proof.
  intros Ht. revert r. induction Ht as [|tmp tmps Hc Ht IH]; intros r Hd; cbn [fmap list_fmap concat] in *.
  { apply delivers_nil in Hd as ->. by apply delivers_nil. }
  apply delivers_app in Hd as (r1 & Hf & Hd). apply (delivers_step _ (make r1)); [| |by apply IH].
  { destruct Hc, tmp; cbn in *; [lia|done]. }
  rewrite compressed_read_eq. unfold refill, is_empty, make, fill; cbn [cr_cursor cr_reader].
  rewrite bool_decide_true by done.
  rewrite (parses_frame tmp Hc r r1 Hf). cbn [mbind outcome_bind map_err cr_cursor cr_reader].
  by rewrite take_ge, drop_ge by lia.
Qed.

(** A reader of the decompressed bytes, run on frames. *)
Lemma parses_frames {R A} `{ReadLaws R} (m : rd (CompressedReader R) A) tmps a r r' :
  Forall compressible tmps -> parses m (concat tmps) a -> delivers r (concat (frame <$> tmps)) r' ->
  m (make r) = Ok (a, make r').
Proof. intros Hc Hm Hd. by apply Hm, delivers_frames. Qed.

(** And on a single frame. *)
Lemma parses_compressed {R A} `{ReadLaws R} (m : rd (CompressedReader R) A) tmp a r r' :
  compressible tmp -> parses m tmp a -> delivers r (frame tmp) r' ->
  m (make r) = Ok (a, make r').
Proof.
  intros Hc Hm Hd. apply (parses_frames m [tmp]); [by apply Forall_singleton|..]; cbn; by rewrite app_nil_r.
Qed.

(** Writing frames. *)
Lemma write_frames e tmps :
  Forall compressible tmps -> for_each tmps (fun tmp e => write_compressed e tmp) e = Ok (e ++ concat (frame <$> tmps)).
Proof.
  intros Ht. revert e. induction Ht as [|tmp tmps Hc Ht IH]; intros e; cbn [for_each fmap list_fmap concat].
  - by rewrite app_nil_r.
  - rewrite write_compressed_ok by done. cbn [mbind outcome_bind]. by rewrite IH, app_assoc.
Qed.
End Roundtrip.
End Compressed.
