(* ===== verification/Block.v ===== *)
(** * Blocks ([types/block/*.rs], [Column] of [types/column/mod.rs])

    A block is a list of named columns of equal length.  Its text is not
    modelled; it is compared in file Compare, cast in Cast, concatenated in
    Concat and made from vectors in ColumnFrom. *)

From S2P Require Import Prelude RustStd Errors Scalars Encoder ReadEx Stable Finite.
From S2P Require Import Protocol SqlType TypeNames DecimalNum Values StringPool Columns.
From S2P Require Import ColumnLaws Compressed.
Local Open Scope Z_scope.

Module BlockInfo.
Record t := mk { num1 : Z; is_overflows : Z; num2 : Z; bucket_num : Z; num3 : Z }.

#[global] Instance t_eq_dec : EqDecision t.
Proof. solve_decision. Defined.

Definition default : t := mk 0 0 0 (-1) 0.

Definition read_from {P : Profile} {R} `{Read R} : rd R t :=
  num1 ← read_uvarint;
  is_overflows ← read_scalar bool_;
  num2 ← read_uvarint;
  bucket_num ← read_scalar i32;
  num3 ← read_uvarint;
  mret (mk num1 is_overflows num2 bucket_num num3).

Definition write (self : t) (encoder : Encoder) : Result Encoder :=
  encoder ← uvarint encoder 1;
  encoder ← Encoder.write bool_ encoder (is_overflows self);
  encoder ← uvarint encoder 2;
  encoder ← Encoder.write i32 encoder (bucket_num self);
  uvarint encoder 0.

Definition ok (self : t) : bool :=
  prim_ok bool_ (is_overflows self) && prim_ok i32 (bucket_num self).

(** The numbers of the fields are written, whatever was read. *)
Definition received (self : t) : t := mk 1 (is_overflows self) 2 (bucket_num self) 0.

Definition bytes_of (self : t) : bytes :=
  uvarint_bytes 1 ++ marshal bool_ (is_overflows self) ++ uvarint_bytes 2
  ++ marshal i32 (bucket_num self) ++ uvarint_bytes 0.
End BlockInfo.

Section Block.
Context {P : Profile} `{ChronoTz, Combine, Lz4}.

(** ** Columns with a name *)

Record Column := mkColumn { name : bytes; data : column_data }.

Definition column_read {R} `{Read R} (size : Z) (tz : Tz) : rd R Column :=
  name ← read_string;
  type_name ← read_string;
  data ← load_data type_name size tz;
  mret (mkColumn name data).

Definition column_write (self : Column) (encoder : Encoder) : Result Encoder :=
  encoder ← string encoder (name self);
  encoder ← string encoder (to_string (sql_type (data self)));
  n ← len (data self);
  save (data self) encoder 0 n.

Definition column_slice (self : Column) (start end_ : Z) : Column :=
  mkColumn (name self) (ChunkColumnData (data self) start end_).

(** [clone_instance]: what cannot be cloned panics.  The clones of an optional
    column and of an array column share the column inside, those of decimals and
    enums clone it, too. *)
Fixpoint clone_instance (self : column_data) : Result column_data :=
  match self with
  | DecimalColumnData inner precision scale nobits =>
    inner ← clone_instance inner; Ok (DecimalColumnData inner precision scale nobits)
  | Enum8ColumnData enum_values inner =>
    inner ← clone_instance inner; Ok (Enum8ColumnData enum_values inner)
  | Enum16ColumnData enum_values inner =>
    inner ← clone_instance inner; Ok (Enum16ColumnData enum_values inner)
  | ChunkColumnData _ _ _ | ConcatColumnData _ _ _ | StringAdapter _ | FixedStringAdapter _ _
  | NullableFixedStringAdapter _ _ | DecimalAdapter _ _ _ _ | NullableDecimalAdapter _ _ _ _
  | Enum8Adapter _ _ | NullableEnum8Adapter _ _ | Enum16Adapter _ _
  | NullableEnum16Adapter _ _ | ChronoDateTimeAdapter _ _ => Panic
  | c => Ok c
  end.

(** A clone is the column again, as a value. *)
Lemma clone_instance_or c : clone_instance c = Ok c \/ clone_instance c = Panic.
Proof.
  induction c as [| | | | | | | | |c IH p s b|vs c IH|vs c IH| | | | | | | | | | | |]; cbn; auto;
    destruct IH as [->| ->]; auto.
Qed.

(** [Column::push].  A column whose data is [shared] is cloned first, and the
    clone shares the nested data with the original. *)
Definition column_push (shared : bool) (self : Column) (value : Value.t) : Result Column :=
  data ←
    (if shared then c ← clone_instance (data self); push false c value
     else push true (data self) value);
  Ok (mkColumn (name self) data).

(** ** Blocks *)

Record Block := mkBlock {
  info : BlockInfo.t;
  columns : list Column;
  capacity_ : Z
}.

Definition INSERT_BLOCK_SIZE : Z := 1048576.
Definition DEFAULT_CAPACITY : Z := 100.

Definition block_with_capacity (capacity : Z) : Block := mkBlock BlockInfo.default [] capacity.
Definition block_new : Block := block_with_capacity DEFAULT_CAPACITY.
Definition block_default : Block := mkBlock BlockInfo.default [] 0.

Definition row_count (self : Block) : Result Z :=
  match columns self with [] => Ok 0 | column :: _ => len (data column) end.

Definition column_count (self : Block) : Z := Z.of_nat (length (columns self)).

Definition block_is_empty (self : Block) : bool := bool_decide (columns self = []).

(** [append_column]: the columns must have the same length. *)
Definition append_column (self : Block) (column : Column) : Result Block :=
  column_len ← len (data column);
  n ← row_count self;
  if negb (bool_decide (columns self = [])) && negb (n =? column_len) then Panic
  else Ok (mkBlock (info self) (columns self ++ [column]) (capacity_ self)).

(** [ColumnIdx]: by position or by name. *)
Inductive ColumnIdx := ByPosition (i : Z) | ByName (s : bytes).

Definition get_index (col : ColumnIdx) (cs : list Column) : Result Z :=
  match col with
  | ByPosition i => Ok i
  | ByName s =>
    match list_find (fun c => name c = s) cs with
    | Some (i, _) => Ok (Z.of_nat i)
    | None => Err (Error.FromSql FromSqlError.OutOfRange)
    end
  end.

(** [Block::get]. *)
Definition get {A} (from_sql : FromSql A) (self : Block) (row : Z) (col : ColumnIdx) : Result A :=
  column_index ← get_index col (columns self);
  column ← indexZ (columns self) column_index;
  v ← at_ (data column) row;
  from_sql v.

Definition get_column (self : Block) (col : ColumnIdx) : Result Column :=
  column_index ← get_index col (columns self);
  indexZ (columns self) column_index.

(** ** Reading *)

Definition raw_load {R} `{Read R} (tz : Tz) : rd R Block :=
  info ← BlockInfo.read_from;
  num_columns ← read_uvarint;
  num_rows ← read_uvarint;
  rd_for (Z.to_nat num_columns)
    (fun block =>
       column ← column_read num_rows tz;
       lift (append_column block column))
    (mkBlock info [] DEFAULT_CAPACITY).

(** What the decompressing reader has left over is dropped with it. *)
Definition load {R} `{Read R} (tz : Tz) (compress : bool) : rd R Block := fun r =>
  if compress then
    '(block, cr) ← raw_load tz (make r);
    Ok (block, cr_reader _ cr)
  else raw_load tz r.

(** ** Writing *)

Definition write_plain (self : Block) (encoder : Encoder) : Result Encoder :=
  encoder ← BlockInfo.write (info self) encoder;
  encoder ← uvarint encoder (column_count self);
  n ← row_count self;
  encoder ← uvarint encoder n;
  for_each (columns self) (fun column e => column_write column e) encoder.

Definition block_write (self : Block) (encoder : Encoder) (compress : bool) : Result Encoder :=
  if compress then
    tmp ← write_plain self new;
    write_compressed encoder (get_buffer tmp)
  else write_plain self encoder.

(** ** Chunks *)

(** [result.column(name, data)] for a slice of each column. *)
Definition slice_columns (block result : Block) (start end_ : Z) : Result Block :=
  for_each (columns block) (fun column result => append_column result (column_slice column start end_))
    result.

(** [ChunkIterator::next]: the chunk and the position after it. *)
Definition chunk_next (size : Z) (block : Block) (position : Z) : Result (option (Block * Z)) :=
  m ← row_count block;
  if (m =? 0) && (position =? 0) then
    result ← slice_columns block block_default 0 0;
    Ok (Some (result, position + 1))
  else if m <=? position then Ok None
  else
    let size := Z.min size (m - position) in
    result ← slice_columns block block_new position (position + size);
    Ok (Some (result, position + size)).

(** [for chunk in self.chunks(size)]; [fuel] bounds the chunks left. *)
Fixpoint for_chunks {A} (fuel : nat) (size : Z) (block : Block) (position : Z)
  (body : Block -> A -> Result A) (a : A) : Result A :=
  match fuel with
  | O => OutOfFuel
  | S fuel =>
    r ← chunk_next size block position;
    match r with
    | None => Ok a
    | Some (chunk, position) => a ← body chunk a; for_chunks fuel size block position body a
    end
  end.

(** Enough for every chunk: [number of chunks + 1]. *)
Definition chunks_fuel (size m : Z) : nat := Z.to_nat (m / size + 3).

Definition send_data (packet : Z) (self : Block) (encoder : Encoder) (compress : bool)
  : Result Encoder :=
  encoder ← uvarint encoder packet;
  encoder ← string encoder [];
  m ← row_count self;
  for_chunks (chunks_fuel INSERT_BLOCK_SIZE m) INSERT_BLOCK_SIZE self 0
    (fun chunk e => block_write chunk e compress) encoder.

Definition send_server_data : Block -> Encoder -> bool -> Result Encoder := send_data SERVER_DATA.
Definition send_client_data : Block -> Encoder -> bool -> Result Encoder := send_data CLIENT_DATA.

(** ** Rows *)

(** [extract_timezone]. *)
Fixpoint extract_timezone (value : Value.t) : Tz :=
  match value with
  | Value.Date _ tz | Value.DateTime_ _ tz => tz
  | Value.Nullable (Right d) => extract_timezone d
  | Value.Array _ (v :: _) => extract_timezone v
  | _ => Zulu
  end.

(** [put_param]; it calls itself once after adding the missing column. *)
Fixpoint put_param_fuel (fuel : nat) (key : bytes) (value : Value.t) (block : Block)
  : Result Block :=
  match fuel with
  | O => OutOfFuel
  | S fuel =>
    match get_index (ByName key) (columns block) with
    | Ok col_index =>
      column ← indexZ (columns block) col_index;
      column ← column_push false column value;
      Ok (mkBlock (info block) (<[Z.to_nat col_index:=column]> (columns block)) (capacity_ block))
    | Err (Error.FromSql FromSqlError.OutOfRange) =>
      n ← row_count block;
      if n <=? 1 then
        d ← from_type (value_sql_type value) (extract_timezone value) (capacity_ block);
        put_param_fuel fuel key value
          (mkBlock (info block) (columns block ++ [mkColumn key d]) (capacity_ block))
      else Err (Error.FromSql FromSqlError.OutOfRange)
    | Err err => Err err
    | Panic => Panic
    | OutOfFuel => OutOfFuel
    end
  end.

Definition put_param (key : bytes) (value : Value.t) (block : Block) : Result Block :=
  put_param_fuel 2 key value block.

(** [RowBuilder::apply], for [RCons] chains and for [Vec<(String, Value)>]. *)
Definition block_push (row : list (bytes * Value.t)) (block : Block) : Result Block :=
  for_each row (fun '(k, v) block => put_param k v block) block.

(** [Rows::next]. *)
Definition rows_next (self : Block) (row : Z) : Result (option (Z * Z)) :=
  n ← row_count self;
  if n <=? row then Ok None else Ok (Some (row, row + 1)).

(** A [Row]; a [BlockRef] is the block that it borrows or owns. *)
Record Row := mkRow { row : Z; block_ref : Block }.

Definition row_get {A} (from_sql : FromSql A) (self : Row) (col : ColumnIdx) : Result A :=
  get from_sql (block_ref self) (row self) col.

Definition row_len (self : Row) : Z := column_count (block_ref self).

Definition row_is_empty (self : Row) : bool := row_len self =? 0.

Definition row_name (self : Row) (col : ColumnIdx) : Result bytes :=
  column ← get_column (block_ref self) col; Ok (name column).

Definition row_sql_type (self : Row) (col : ColumnIdx) : Result SqlType :=
  column ← get_column (block_ref self) col; Ok (sql_type (data column)).
End Block.
