(* ===== verification/Concat.v ===== *)
(** * Concatenation ([types/column/concat.rs], [Column::concat],
      [Block::concat])

    A concatenated column reads like its chunks one after the other, and a
    concatenated block has the rows of its blocks one after the other. *)

From S2P Require Import Prelude RustStd Errors Scalars SqlType TypeNames Values ChunkIndex.
From S2P Require Import Columns ColumnLaws ColumnReads PushLaws Compressed Block.
Local Open Scope Z_scope.

Section Concat.
Context {P : Profile} `{ChronoTz, Combine}.

(** ** Operations *)

(** [Column::concat]. *)
Definition column_concat (items : list Column) : Result Column :=
  match items with
  | [] => Panic
  | first_column :: _ =>
    data ← concat_columns (data <$> items); Ok (mkColumn (name first_column) data)
  end.

(** [Block::concat]. *)
Definition block_concat (blocks : list Block) : Result Block :=
  match blocks with
  | [] => Panic
  | first :: _ =>
    _ ← for_each blocks (fun block _ => assert_ (column_count first =? column_count block)) tt;
    columns ← map_outcome
      (fun i => chunks ← map_outcome (fun block => indexZ (columns block) i) blocks;
                column_concat chunks)
      (seqZ 0 (column_count first));
    capacity ← for_each blocks (fun b acc => arith_u 64 (acc + capacity_ b)) 0;
    Ok (mkBlock (info first) columns capacity)
  end.

(** ** A concatenated column *)

Lemma start_next ns k n :
  ns !! k = Some n -> start ns (Z.of_nat k + 1) = start ns (Z.of_nat k) + n.
Proof.
  intros Hn. unfold start. replace (Z.to_nat (Z.of_nat k + 1)) with (S k) by lia.
  rewrite Nat2Z.id, (take_S_r _ _ _ Hn), sum_app. unfold sum at 2. cbn. lia.
Qed.

(** The chunk of a row is unique. *)
Lemma start_unique ns j k ix :
  Forall (Z.le 0) ns -> 0 <= j -> 0 <= k ->
  start ns j <= ix < start ns (j + 1) -> start ns k <= ix < start ns (k + 1) -> j = k.
Proof.
  intros Hp Hj Hk Hjx Hkx. destruct (Z.lt_trichotomy j k) as [|[|]]; [|done|].
  - pose proof (start_mono ns Hp (j + 1) k ltac:(lia)). lia.
  - pose proof (start_mono ns Hp (k + 1) j ltac:(lia)). lia.
Qed.

(** Chunks of one type, with their lengths. *)
Record chunks_ok (ty : SqlType) (cs : list column_data) (ns : list Z) : Prop := {
  co_some : cs <> [];
  co_type : Forall (fun c => sql_type c = ty) cs;
  co_len : Forall2 (fun c n => len c = Ok n /\ 0 <= n) cs ns;
  co_count : Z.of_nat (length ns) < 2 ^ 64;
  co_sum : sum ns < 2 ^ 64
}.

Lemma chunks_nonneg ty cs ns : chunks_ok ty cs ns -> Forall (Z.le 0) ns.
Proof.
  intros [_ _ Hl _ _]. eapply Forall2_Forall_r; [exact Hl|].
  apply Forall_forall. by intros c _ n [_ ?].
Qed.

Lemma check_columns_ok ty cs :
  cs <> [] -> Forall (fun c => sql_type c = ty) cs -> check_columns cs = Ok tt.
Proof.
  intros Hne Hty. destruct Hty as [|c cs Hc Hcs]; [done|]. cbn.
  replace (forallb _ cs) with true; [done|]. symmetry. apply forallb_forall.
  intros d Hd. apply bool_decide_eq_true. rewrite Forall_forall in Hcs.
  rewrite Hc, Hcs by (by apply list_elem_of_In). done.
Qed.

Lemma concat_columns_ok ty cs ns :
  chunks_ok ty cs ns ->
  exists first rest, cs = first :: rest /\
    concat_columns cs = Ok (ConcatColumnData first rest (offsets_from 0 ns)).
Proof.
  intros Hok. pose proof (chunks_nonneg _ _ _ Hok) as Hp. destruct Hok as [Hne Hty Hl _ Hs].
  destruct cs as [|first rest]; [done|]. exists first, rest. split; [done|].
  unfold concat_columns. rewrite (check_columns_ok ty) by done. cbn [mbind outcome_bind].
  assert (map_outcome len (first :: rest) = (Ok ns : Result (list Z))) as ->.
  { apply map_outcome_Ok. eapply Forall2_impl; [exact Hl|]. by intros c n [? _]. }
  cbn [mbind outcome_bind]. by rewrite build_index_ok.
Qed.

Lemma concat_at_chunk ty first rest ns k c n i :
  chunks_ok ty (first :: rest) ns -> (first :: rest) !! k = Some c -> ns !! k = Some n ->
  0 <= i < n ->
  at_ (ConcatColumnData first rest (offsets_from 0 ns)) (start ns (Z.of_nat k) + i) = at_ c i.
Proof.
  intros Hok Hc Hn Hi. pose proof (chunks_nonneg _ _ _ Hok) as Hp.
  destruct Hok as [_ _ Hl Hcount Hs]. pose proof (Forall2_length _ _ _ Hl) as Hlen.
  pose proof (lookup_lt_Some _ _ _ Hn) as Hk.
  pose proof (start_next ns k n Hn) as Hnext.
  pose proof (start_mono ns Hp 0 (Z.of_nat k) ltac:(lia)) as Hlo. change (start ns 0) with 0 in Hlo.
  pose proof (start_mono ns Hp (Z.of_nat k + 1) (Z.of_nat (length ns)) ltac:(lia)) as Hhi.
  rewrite (start_all ns (Z.of_nat (length ns))) in Hhi by lia.
  destruct (find_chunk_found ns Hp (start ns (Z.of_nat k) + i)) as (k' & Hf & Hr & Hx); [done|lia|].
  assert (k' = Z.of_nat k) as -> by (eapply (start_unique ns); [done|lia|lia|exact Hx|lia]).
  cbn [at_]. unfold concat_at. rewrite Hf. cbn [mbind outcome_bind].
  change (at_ first :: map at_ rest) with (map at_ (first :: rest)).
  change (map at_ (first :: rest)) with (at_ <$> (first :: rest)).
  rewrite index_start by lia. rewrite indexZ_nat, Nat2Z.id by lia. rewrite list_lookup_fmap, Hc. cbn [fmap option_fmap option_map unwrap mbind outcome_bind].
  rewrite arith_u_ok by (apply in_u_spec; lia). cbn [mbind outcome_bind].
  f_equal. lia.
Qed.

(** ** A concatenated block *)

(** Blocks of the same types, with their row counts. *)
Record blocks_ok (tys : list SqlType) (blocks : list Block) (ns : list Z) : Prop := {
  bo_some : blocks <> [];
  bo_columns : Forall2 (fun b n => 0 <= n /\
    Forall2 (fun c ty => sql_type (data c) = ty /\ len (data c) = Ok n) (columns b) tys) blocks ns;
  bo_count : Z.of_nat (length ns) < 2 ^ 64;
  bo_sum : sum ns < 2 ^ 64;
  bo_capacity : Forall (Z.le 0) (capacity_ <$> blocks);
  bo_capacities : sum (capacity_ <$> blocks) < 2 ^ 64
}.

Lemma column_count_tys tys blocks ns b :
  blocks_ok tys blocks ns -> b ∈ blocks -> column_count b = Z.of_nat (length tys).
Proof.
  intros [_ Hc _ _ _ _] Hb. unfold column_count.
  apply list_elem_of_lookup in Hb as [k Hk]. destruct (Forall2_lookup_l _ _ _ _ _ Hc Hk) as (n & _ & _ & Hf).
  by rewrite (Forall2_length _ _ _ Hf).
Qed.

(** Column [j] of each block. *)
Lemma columns_at tys blocks ns j ty :
  blocks_ok tys blocks ns -> tys !! j = Some ty ->
  exists cs,
    map_outcome (fun block => indexZ (columns block) (Z.of_nat j)) blocks = (Ok cs : Result (list Column)) /\
    chunks_ok ty (data <$> cs) ns /\
    Forall2 (fun c b => columns b !! j = Some c) cs blocks.
Proof.
  intros [Hne Hb Hcount Hs _ _] Hty.
  enough (exists cs, Forall2 (fun b c => indexZ (columns b) (Z.of_nat j) = (Ok c : Result Column)) blocks cs /\
    Forall2 (fun c n => sql_type (data c) = ty /\ len (data c) = Ok n /\ 0 <= n) cs ns /\
    Forall2 (fun c b => columns b !! j = Some c) cs blocks) as (cs & Hcs & Hn & Hl).
  { exists cs. split; [by apply map_outcome_Ok|]. split; [|done]. split; [| | |done..].
    - destruct Hcs; [done|]. done.
    - apply Forall_fmap. eapply Forall2_Forall_l; [exact Hn|]. apply Forall_true. by intros n c [? _].
    - apply Forall2_fmap_l. eapply Forall2_impl; [exact Hn|]. by intros c n (_ & ? & ?). }
  clear Hne Hcount Hs. induction Hb as [|b n blocks ns (Hn & Hc) _ (cs & IH1 & IH2 & IH3)];
    [exists []; done|].
  destruct (Forall2_lookup_r _ _ _ _ _ Hc Hty) as (c & Hj & Ht & Hl).
  exists (c :: cs). split_and!; constructor; auto.
  rewrite indexZ_nat, Nat2Z.id by lia. by rewrite Hj.
Qed.

Lemma same_counts (n : Z) blocks :
  (forall b, b ∈ blocks -> column_count b = n) ->
  for_each blocks (fun block _ => assert_ (n =? column_count block)) tt = (Ok tt : Result unit).
Proof.
  induction blocks as [|b blocks IH]; intros Hb; [done|]. cbn.
  rewrite Hb by left. rewrite Z.eqb_refl. cbn. apply IH. intros c Hc. apply Hb. by right.
Qed.

Lemma sum_capacities blocks acc :
  0 <= acc -> Forall (Z.le 0) (capacity_ <$> blocks) -> acc + sum (capacity_ <$> blocks) < 2 ^ 64 ->
  for_each blocks (fun b acc => arith_u 64 (acc + capacity_ b)) acc =
    (Ok (acc + sum (capacity_ <$> blocks)) : Result Z).
Proof.
  revert acc. induction blocks as [|b blocks IH]; intros acc Ha Hp Hs.
  { cbn. by rewrite Z.add_0_r. }
  rewrite fmap_cons in *. apply Forall_cons in Hp as [Hb Hp].
  pose proof (sum_nonneg _ Hp). change (sum (?x :: ?l)) with (x + sum l) in *. cbn [for_each].
  rewrite arith_u_ok by (apply in_u_spec; lia). cbn [mbind outcome_bind].
  rewrite IH by (done || lia). f_equal. lia.
Qed.

(** Every column is the concatenation of the columns at its position. *)
Lemma block_concat_ok tys blocks ns :
  blocks_ok tys blocks ns ->
  exists c, block_concat blocks = Ok c /\ length (columns c) = length tys /\
    forall j ty, tys !! j = Some ty ->
    exists cs first rest name_,
      Forall2 (fun c b => columns b !! j = Some c) cs blocks /\
      data <$> cs = first :: rest /\ chunks_ok ty (first :: rest) ns /\
      columns c !! j = Some (mkColumn name_ (ConcatColumnData first rest (offsets_from 0 ns))).
Proof.
  intros Hok. pose proof Hok as [Hne _ _ _ Hcap Hcaps].
  destruct blocks as [|b0 blocks]; [done|]. unfold block_concat.
  rewrite (same_counts (column_count b0)).
  2: { intros b Hb. rewrite !(column_count_tys _ _ _ _ Hok) by (done || left). done. }
  cbn [mbind outcome_bind]. rewrite (column_count_tys _ _ _ b0 Hok) by left.
  assert (exists cols,
    map_outcome (fun i => chunks ← map_outcome (fun block => indexZ (columns block) i) (b0 :: blocks);
                          column_concat chunks) (seqZ 0 (Z.of_nat (length tys))) = (Ok cols : Result (list Column)) /\
    length cols = length tys /\
    forall j ty, tys !! j = Some ty ->
    exists cs first rest name_,
      Forall2 (fun c b => columns b !! j = Some c) cs (b0 :: blocks) /\
      data <$> cs = first :: rest /\ chunks_ok ty (first :: rest) ns /\
      cols !! j = Some (mkColumn name_ (ConcatColumnData first rest (offsets_from 0 ns))))
    as (cols & Hm & Hlen & Hcols); cycle 1.
  { rewrite Hm. cbn [mbind outcome_bind]. rewrite sum_capacities by (done || lia).
    eexists. split; [reflexivity|]. by split. }
  destruct (map_outcome_total
    (fun i => chunks ← map_outcome (fun block => indexZ (columns block) i) (b0 :: blocks);
              column_concat chunks) (seqZ 0 (Z.of_nat (length tys)))) as [cols Hm].
  { intros i Hi%elem_of_seqZ.
    destruct (lookup_lt_is_Some_2 tys (Z.to_nat i)) as [ty Hty]; [lia|].
    destruct (columns_at _ _ _ _ _ Hok Hty) as (cs & Hcs & Hch & _). rewrite Z2Nat.id in Hcs by lia.
    rewrite Hcs. cbn [mbind outcome_bind].
    destruct (concat_columns_ok _ _ _ Hch) as (first & rest & Hd & Hc).
    destruct cs as [|c cs]; [done|]. unfold column_concat. rewrite Hc. by eexists. }
  exists cols. split; [exact Hm|]. apply map_outcome_Ok in Hm.
  pose proof (Forall2_length _ _ _ Hm) as Hl. rewrite length_seqZ in Hl. split; [lia|].
  intros j ty Hty. destruct (columns_at _ _ _ _ _ Hok Hty) as (cs & Hcs & Hch & Hlk).
  destruct (concat_columns_ok _ _ _ Hch) as (first & rest & Hd & Hc).
  pose proof (lookup_lt_Some _ _ _ Hty).
  destruct (Forall2_lookup_l _ _ _ j (Z.of_nat j) Hm) as (col & Hj & Hcol).
  { apply lookup_seqZ. lia. }
  rewrite Hcs in Hcol. cbn [mbind outcome_bind] in Hcol. destruct cs as [|c cs]; [done|].
  unfold column_concat in Hcol. rewrite Hc in Hcol. injection Hcol as <-.
  exists (c :: cs), first, rest, (name c). split_and!; try done. by rewrite <- Hd.
Qed.
End Concat.
