(* ===== verification/BlockLaws.v ===== *)
(** * The round trip of a block

    [block_ok tz n b]: the block [b] has [n] rows, and every column can be
    stored.  Its bytes, plain or compressed, are read back as the same block,
    up to the layout of the string pools and the numbers in its info. *)

From S2P Require Import Prelude RustStd Errors Scalars Encoder ReadEx Stable Finite.
From S2P Require Import Protocol SqlType TypeNames DecimalNum Values StringPool Columns.
From S2P Require Import ColumnLaws Compressed Block.
Local Open Scope Z_scope.

(** ** BlockInfo *)

Lemma block_info_write i e :
  BlockInfo.write i e = Ok (e ++ BlockInfo.bytes_of i).
Proof.
  unfold BlockInfo.write, BlockInfo.bytes_of.
  assert (in_u 64 1 = true) by done. assert (in_u 64 2 = true) by done.
  assert (in_u 64 0 = true) by done.
  do 4 encode_field. rewrite uvarint_ok by done. by rewrite <- !app_assoc.
Qed.

Lemma parses_block_info {P : Profile} {R} `{ReadLaws R} i :
  BlockInfo.ok i = true ->
  parses (R:=R) BlockInfo.read_from (BlockInfo.bytes_of i) (BlockInfo.received i).
Proof.
  intros [Ho Hb]%andb_true_iff. unfold BlockInfo.read_from, BlockInfo.bytes_of.
  assert (in_u 64 1 = true) by done. assert (in_u 64 2 = true) by done.
  assert (in_u 64 0 = true) by done.
  do 4 parse_field. parse_last.
Qed.

Lemma stable_block_info {P : Profile} {R} `{GrowLaws R} : stable (R:=R) BlockInfo.read_from.
Proof. unfold BlockInfo.read_from. stable. Qed.

Lemma consumes_block_info {P : Profile} {R} `{SizedLaws R} :
  consumes (R:=R) 0 BlockInfo.read_from.
Proof. unfold BlockInfo.read_from. consumes. Qed.

#[export] Hint Resolve stable_block_info : stable.
#[export] Hint Resolve consumes_block_info : consumes.

Section Laws.
Context {P : Profile} `{ChronoTz, Combine, Lz4}.

(** ** Columns *)

Definition column_ok (tz : Tz) (n : Z) (c : Column) : Prop :=
  stored tz n (data c) /\ printable (sql_type (data c)) = true /\
  str_ok (name c) = true /\ str_ok (to_string (sql_type (data c))) = true.

Definition column_bytes (c : Column) : bytes :=
  string_bytes (name c) ++ string_bytes (to_string (sql_type (data c))) ++ col_bytes (data c).

#[export] Instance Column_equiv : Equiv Column := fun c1 c2 =>
  name c1 = name c2 /\ data c1 ≡ data c2.

#[export] Instance Column_equivalence : Equivalence (≡@{Column}).
Proof.
  split.
  - by intros c.
  - intros c1 c2 [Hn Hd]. by split; symmetry.
  - intros c1 c2 c3 [Hn Hd] [Hn' Hd']. split; by etrans.
Qed.

Lemma column_write_ok tz n c e :
  column_ok tz n c -> column_write c e = Ok (e ++ column_bytes c).
Proof.
  intros (Hs & _ & Hn & Ht). unfold column_write, column_bytes.
  do 2 encode_field. rewrite (len_stored tz n) by done. cbn [mbind outcome_bind].
  rewrite (save_stored tz n) by done. by rewrite <- !app_assoc.
Qed.

Lemma parses_column {R} `{ReadLaws R} tz n c :
  column_ok tz n c ->
  exists c', parses (R:=R) (column_read n tz) (column_bytes c) c' /\ c ≡ c'.
Proof.
  intros (Hs & Hp & Hn & Ht).
  destruct (load_stored (R:=R) tz n (data c) Hs _ Hp (Nat.le_refl _)) as (d & Hd & Heq).
  exists (mkColumn (name c) d). split; [|done]. unfold column_read, column_bytes.
  do 2 parse_field. eapply parses_bind; [symmetry; apply app_nil_r|exact Hd|apply parses_ret].
Qed.

(** ** Blocks *)

Record block_ok (tz : Tz) (n : Z) (b : Block) : Prop := {
  bo_columns : Forall (column_ok tz n) (columns b);
  bo_count : in_u 64 (column_count b) = true;
  bo_rows : 0 <= n < 2 ^ 64;
  bo_empty : columns b = [] -> n = 0;
  bo_info : BlockInfo.ok (info b) = true
}.

Definition block_bytes (n : Z) (b : Block) : bytes :=
  BlockInfo.bytes_of (info b) ++ uvarint_bytes (column_count b) ++ uvarint_bytes n
  ++ concat (column_bytes <$> columns b).

(** The same columns, and the info as it is received. *)
Definition same_block (b b' : Block) : Prop :=
  info b' = BlockInfo.received (info b) /\ columns b ≡ columns b'.

Lemma row_count_ok tz n b : block_ok tz n b -> row_count b = Ok n.
Proof.
  intros Hb. unfold row_count. destruct (columns b) as [|c cs] eqn:Hc.
  - by rewrite (bo_empty _ _ _ Hb Hc).
  - apply (len_stored tz). pose proof (bo_columns _ _ _ Hb) as Hall. rewrite Hc in Hall.
    by apply Forall_cons in Hall as [[Hs _] _].
Qed.

Lemma for_each_columns tz n cs e :
  Forall (column_ok tz n) cs ->
  for_each cs (fun column e => column_write column e) e =
  Ok (e ++ concat (column_bytes <$> cs)).
Proof.
  intros Hcs. revert e. induction Hcs as [|c cs Hc _ IH]; intros e; cbn [for_each].
  { cbn. by rewrite app_nil_r. }
  rewrite (column_write_ok tz n) by done. cbn [mbind outcome_bind]. rewrite IH.
  cbn. by rewrite <- app_assoc.
Qed.

Lemma write_plain_ok tz n b e :
  block_ok tz n b -> write_plain b e = Ok (e ++ block_bytes n b).
Proof.
  intros Hb. pose proof (bo_rows _ _ _ Hb) as Hn%in_u_spec.
  pose proof (bo_count _ _ _ Hb). unfold write_plain, block_bytes.
  eapply bind_eq; [apply block_info_write|]. encode_field.
  eapply bind_eq; [by apply (row_count_ok tz)|]. encode_field.
  rewrite (for_each_columns tz n) by apply Hb. by rewrite <- !app_assoc.
Qed.

(** Appending columns of the same length. *)
Lemma append_column_ok n b c :
  Forall (fun c => len (data c) = Ok n) (columns b) -> len (data c) = Ok n ->
  append_column b c = Ok (mkBlock (info b) (columns b ++ [c]) (capacity_ b)).
Proof.
  intros Hb Hc. unfold append_column, row_count. rewrite Hc. cbn [mbind outcome_bind].
  destruct (columns b) as [|c0 cs]; [done|]. apply Forall_cons in Hb as [-> _].
  cbn [mbind outcome_bind]. by rewrite Z.eqb_refl, andb_false_r.
Qed.

Lemma parses_columns {R} `{ReadLaws R} tz n cs b :
  Forall (column_ok tz n) cs -> Forall (fun c => len (data c) = Ok n) (columns b) ->
  exists cs', parses (R:=R)
    (rd_for (length cs)
      (fun block => column ← column_read n tz; lift (append_column block column)) b)
    (concat (column_bytes <$> cs)) (mkBlock (info b) (columns b ++ cs') (capacity_ b)) /\
    cs ≡ cs'.
Proof.
  intros Hcs. revert b. induction Hcs as [|c cs Hc Hcs IH]; intros b Hb.
  { exists []. rewrite app_nil_r. split; [|constructor].
    destruct b; cbn. apply parses_ret. }
  destruct (parses_column (R:=R) tz n c Hc) as (c' & Hp & Heq).
  assert (len (data c') = Ok n) as Hl.
  { destruct Heq as [_ Hd]. rewrite <- Hd. by apply (len_stored tz), Hc. }
  destruct (IH (mkBlock (info b) (columns b ++ [c']) (capacity_ b))) as (cs' & Hcs' & Heqs).
  { cbn. apply Forall_app. split; [done|]. by constructor. }
  exists (c' :: cs'). split; [|by constructor].
  cbn [length rd_for fmap list_fmap concat].
  eapply (parses_bind _ _ (column_bytes c)); [done| |].
  - eapply parses_bind; [symmetry; apply app_nil_r|exact Hp|].
    apply parses_lift. by eapply append_column_ok.
  - cbn in Hcs'. by rewrite <- app_assoc in Hcs'.
Qed.

Lemma parses_raw_load {R} `{ReadLaws R} tz n b :
  block_ok tz n b ->
  exists b', parses (R:=R) (raw_load tz) (block_bytes n b) b' /\ same_block b b'.
Proof.
  intros [Hcs Hcount Hn Hempty Hinfo].
  destruct (parses_columns (R:=R) tz n (columns b)
    (mkBlock (BlockInfo.received (info b)) [] DEFAULT_CAPACITY) Hcs) as (cs' & Hp & Heq).
  { constructor. }
  exists (mkBlock (BlockInfo.received (info b)) cs' DEFAULT_CAPACITY). split; [|done].
  unfold raw_load, block_bytes.
  eapply parses_bind; [done|by apply parses_block_info|].
  eapply parses_bind; [done|by apply parses_uvarint|].
  eapply parses_bind; [done|by apply parses_uvarint, in_u_spec|].
  unfold column_count. rewrite Nat2Z.id. exact Hp.
Qed.

(** ** Plain and compressed *)

(** The bytes of a block as it is sent. *)
Definition wire_bytes (compress : bool) (n : Z) (b : Block) : bytes :=
  if compress then frame (block_bytes n b) else block_bytes n b.

Definition sendable (compress : bool) (n : Z) (b : Block) : Prop :=
  compress = true -> compressible (block_bytes n b).

Lemma block_write_ok `{!Lz4Laws} tz n b e compress :
  block_ok tz n b -> sendable compress n b ->
  block_write b e compress = Ok (e ++ wire_bytes compress n b).
Proof.
  intros Hb Hc. unfold block_write, wire_bytes. destruct compress; [|by apply (write_plain_ok tz)].
  rewrite (write_plain_ok tz n) by done. cbn [mbind outcome_bind]. by apply write_compressed_ok, Hc.
Qed.

Lemma parses_load `{!Lz4Laws} {R} `{ReadLaws R} tz n b compress :
  block_ok tz n b -> sendable compress n b ->
  exists b', parses (R:=R) (load tz compress) (wire_bytes compress n b) b' /\ same_block b b'.
Proof.
  intros Hb Hc. unfold load, wire_bytes. destruct compress.
  - destruct (parses_raw_load (R:=CompressedReader R) tz n b Hb) as (b' & Hp & Hs).
    exists b'. split; [|done]. intros r r' Hd.
    by rewrite (parses_compressed _ _ _ _ _ (Hc eq_refl) Hp Hd).
  - destruct (parses_raw_load (R:=R) tz n b Hb) as (b' & Hp & Hs). by exists b'.
Qed.

(** A block whose bytes are cut into frames anywhere. *)
Lemma parses_load_frames `{!Lz4Laws} {R} `{ReadLaws R} tz n b tmps :
  block_ok tz n b -> Forall compressible tmps -> concat tmps = wire_bytes false n b ->
  exists b', parses (R:=R) (load tz true) (concat (frame <$> tmps)) b' /\ same_block b b'.
Proof.
  intros Hb Hc Ht. destruct (parses_raw_load (R:=CompressedReader R) tz n b Hb) as (b' & Hp & Hs).
  exists b'. split; [|done]. intros r r' Hd. unfold load. unfold wire_bytes in Ht. rewrite <- Ht in Hp.
  by rewrite (parses_frames _ _ _ _ _ Hc Hp Hd).
Qed.

(** ** A growing and finite input *)

Lemma stable_raw_load {R} `{ReadLaws R, !Grow R, !GrowLaws R} tz : stable (R:=R) (raw_load tz).
Proof.
  unfold raw_load, column_read, load_data.
  apply stable_bind; [apply stable_block_info|intros i].
  do 2 (apply stable_bind; [stable|intros ?]). apply stable_for. intros b.
  apply stable_bind; [|intros c; apply stable_lift].
  do 2 (apply stable_bind; [stable|intros ?]). apply stable_map, stable_load_data.
Qed.

Lemma stable_load {R} `{ReadLaws R, !Grow R, !GrowLaws R} tz compress :
  stable (R:=R) (load tz compress).
Proof.
  intros r x. unfold load. destruct compress; [|apply stable_raw_load].
  apply (stable_out_bind (grow_result (R:=CompressedReader R) x) (grow_result x)).
  - change (make (grow r x)) with (grow (make r) x). apply stable_raw_load.
  - by intros [b cr].
Qed.

Lemma len_fuel c : len c <> (OutOfFuel : Result Z).
Proof.
  induction c; cbn [len]; try done; unfold div_usize; try (by case_match);
    try (by destruct (last _)).
  destruct (len c) as [k| | |]; try done. cbn. by destruct (_ =? k).
Qed.

Lemma append_column_fuel b c : append_column b c <> OutOfFuel.
Proof.
  unfold append_column, row_count. apply bind_fuel; [apply len_fuel|]. intros n.
  apply bind_fuel; [case_match; [done|apply len_fuel]|]. intros m. by case_match.
Qed.

Lemma consumes_raw_load {R} `{ReadLaws R, !Sized R, !SizedLaws R} tz :
  consumes (R:=R) 0 (raw_load tz).
Proof.
  unfold raw_load, column_read, load_data.
  apply consumes_bind0; [apply consumes_block_info|intros i].
  do 2 (apply consumes_bind0; [consumes|intros ?]). apply consumes_for. intros b.
  apply consumes_bind0; [|intros c; apply consumes_lift, append_column_fuel].
  do 2 (apply consumes_bind0; [consumes|intros ?]).
  apply consumes_bind0; [|intros d; apply consumes_ret]. apply consumes_load_data. by left; lia.
Qed.

(** A frame decompresses to less than 2^32 bytes, hence the smaller bound. *)
Lemma load_total {R} `{ReadLaws R, !Sized R, !SizedLaws R} tz compress (r : R) :
  size r < 2 ^ 32 ->
  load tz compress r <> OutOfFuel /\
  forall b r', load tz compress r = Ok (b, r') -> size r' <= size r.
Proof.
  intros Hr. unfold load. pose proof (size_pos r). destruct compress.
  - destruct (consumes_raw_load (R:=CompressedReader R) tz (make r)) as [Ho Hs].
    { unfold size, compressed_size, make; cbn. lia. }
    destruct (raw_load tz (make r)) as [[b cr]| | |]; try done. cbn. split; [done|].
    intros b' r' [= _ <-]. specialize (Hs _ _ eq_refl).
    unfold size at 1 2, compressed_size, make in Hs; cbn [cr_reader cr_cursor length] in Hs. lia.
  - destruct (consumes_raw_load tz r) as [Ho Hs]; [lia|]. split; [done|].
    intros b r' Hb. specialize (Hs _ _ Hb). lia.
Qed.
End Laws.
