(* ===== verification/Chunks.v ===== *)
(** * Sending a block in chunks ([ChunkIterator], [Block::send_server_data])

    The chunks of a block cover its rows, in order and without overlap, and no
    chunk is larger than asked for.  A block of at most [INSERT_BLOCK_SIZE]
    rows is sent as one data packet, which a client reads back. *)

From S2P Require Import Prelude RustStd Errors Scalars Encoder ReadEx Protocol SqlType.
From S2P Require Import TypeNames DecimalNum Values StringPool Columns ColumnLaws.
From S2P Require Import Compressed Block BlockLaws.
Local Open Scope Z_scope.

(** ** The ranges *)

Definition ranges_from (size m p : Z) : list (Z * Z) :=
  (fun k => (p + k * size, Z.min (p + (k + 1) * size) m)) <$> seqZ 0 ((m - p + size - 1) / size).

(** The rows of each chunk; an empty block has one empty chunk. *)
Definition ranges (size m : Z) : list (Z * Z) :=
  if m =? 0 then [(0, 0)] else ranges_from size m 0.

Lemma ranges_from_nil size m p : 0 < size -> m <= p -> ranges_from size m p = [].
Proof.
  intros Hs Hp. unfold ranges_from. rewrite seqZ_nil; [done|].
  apply Z.lt_succ_r. apply Z.div_lt_upper_bound; lia.
Qed.

Lemma ranges_from_cons size m p :
  0 < size -> p < m ->
  ranges_from size m p = (p, p + Z.min size (m - p)) :: ranges_from size m (p + Z.min size (m - p)).
Proof.
  intros Hs Hp. unfold ranges_from at 1.
  assert (1 <= (m - p + size - 1) / size) by (apply Z.div_le_lower_bound; lia).
  rewrite seqZ_cons by lia. rewrite fmap_cons. f_equal; [f_equal; lia|].
  destruct (Z.le_gt_cases size (m - p)).
  - rewrite Z.min_l by lia. unfold ranges_from.
    replace (m - (p + size) + size - 1) with (m - p + size - 1 + (-1) * size) by lia.
    rewrite Z.div_add by lia.
    replace (Z.succ 0) with (1 + 0) by lia. rewrite <- fmap_add_seqZ, <- list_fmap_compose.
    apply list_fmap_ext. intros i k _. cbn. f_equal; lia.
  - rewrite Z.min_r by lia. rewrite (ranges_from_nil _ _ (p + (m - p))) by lia.
    replace ((m - p + size - 1) / size) with 1; [by rewrite seqZ_nil by lia|].
    apply (Z.div_unique_pos _ _ _ (m - p - 1)); lia.
Qed.

(** What follows from the position [p], by the chunks that are left. *)
Lemma ranges_from_ind (Q : Z -> list (Z * Z) -> Prop) size m :
  0 < size ->
  (forall p, m <= p -> Q p []) ->
  (forall p l, p < m -> Q (p + Z.min size (m - p)) l -> Q p ((p, p + Z.min size (m - p)) :: l)) ->
  forall p, Q p (ranges_from size m p).
Proof.
  intros Hs Hnil Hcons p. remember (Z.to_nat (m - p)) as k eqn:Hk. revert p Hk.
  induction (lt_wf k) as [k _ IH]; intros p ->.
  destruct (Z.le_gt_cases m p); [by rewrite ranges_from_nil; auto|].
  rewrite ranges_from_cons by lia. apply Hcons; [lia|]. eapply IH; [|done]. lia.
Qed.

Lemma ranges_bound size m :
  0 < size -> 0 <= m ->
  Forall (fun '(s, e) => 0 <= s <= e /\ e <= m /\ e - s <= size) (ranges size m).
Proof.
  intros Hs Hm. unfold ranges. destruct (Z.eqb_spec m 0); [repeat constructor; lia|].
  assert (forall p, 0 <= p ->
    Forall (fun '(s, e) => 0 <= s <= e /\ e <= m /\ e - s <= size) (ranges_from size m p)) as Hgen;
    [|by apply Hgen].
  apply (ranges_from_ind (fun p l => 0 <= p -> Forall _ l)); [done|constructor|].
  intros p l Hp IH Hp0. constructor; [lia|]. apply IH. lia.
Qed.

Lemma ranges_nonempty size m :
  0 < size -> 0 < m -> Forall (fun '(s, e) => s < e) (ranges size m).
Proof.
  intros Hs Hm. unfold ranges. rewrite (proj2 (Z.eqb_neq m 0)) by lia.
  apply (ranges_from_ind (fun _ l => Forall (fun '(s, e) => s < e) l)); [done|constructor|].
  intros p l Hp IH. constructor; [lia|done].
Qed.

Lemma ranges_length size m :
  0 < size -> 0 <= m -> Z.of_nat (length (ranges size m)) = Z.max 1 ((m + size - 1) / size).
Proof.
  intros Hs Hm. unfold ranges. destruct (Z.eqb_spec m 0) as [->|].
  - rewrite Z.div_small by lia. done.
  - assert (1 <= (m + size - 1) / size) by (apply Z.div_le_lower_bound; lia).
    unfold ranges_from. rewrite length_fmap, length_seqZ, Z.sub_0_r. lia.
Qed.

Lemma ranges_cover size m :
  0 < size -> 0 <= m ->
  concat ((fun '(s, e) => seqZ s (e - s)) <$> ranges size m) = seqZ 0 m.
Proof.
  intros Hs Hm. unfold ranges. destruct (Z.eqb_spec m 0) as [->|]; [done|].
  rewrite <- (Z.sub_0_r m) at 2.
  apply (ranges_from_ind (fun p l => concat ((fun '(s, e) => seqZ s (e - s)) <$> l) = seqZ p (m - p)));
    [done|intros p Hp; by rewrite seqZ_nil by lia|].
  intros p l Hp IH. cbn. rewrite IH.
  transitivity (seqZ p (Z.min size (m - p) + (m - p - Z.min size (m - p)))); [|f_equal; lia].
  rewrite seqZ_app by lia. f_equal; f_equal; lia.
Qed.

Section Chunks.
Context {P : Profile} `{ChronoTz, Combine, Lz4}.

(** ** The chunks *)

(** The rows from [s] to [e] of a block, as a block of their own. *)
Definition chunk_of (b : Block) (capacity s e : Z) : Block :=
  mkBlock BlockInfo.default ((fun c => column_slice c s e) <$> columns b) capacity.

Lemma slice_columns_ok b capacity s e :
  slice_columns b (block_with_capacity capacity) s e = Ok (chunk_of b capacity s e).
Proof.
  unfold slice_columns, chunk_of, block_with_capacity.
  assert (forall cs pre, Forall (fun c => len (data c) = Ok (range_len s e)) pre ->
    for_each cs (fun column result => append_column result (column_slice column s e))
      (mkBlock BlockInfo.default pre capacity) =
    Ok (mkBlock BlockInfo.default (pre ++ ((fun c => column_slice c s e) <$> cs)) capacity)) as Hgen;
    [|by apply (Hgen _ [])].
  induction cs as [|c cs IH]; intros pre Hpre; cbn [for_each fmap list_fmap].
  { by rewrite app_nil_r. }
  rewrite (append_column_ok (range_len s e)) by done. cbn [mbind outcome_bind info columns capacity_].
  rewrite IH by (apply Forall_app; split; [done|]; by constructor). by rewrite <- app_assoc.
Qed.

Lemma for_chunks_from {A} size b m (body : Block -> A -> Result A) p a fuel :
  0 < size -> row_count b = Ok m -> 0 <= p -> 0 < m + p ->
  (length (ranges_from size m p) < fuel)%nat ->
  for_chunks fuel size b p body a =
  for_each (ranges_from size m p)
    (fun '(s, e) a => body (chunk_of b DEFAULT_CAPACITY s e) a) a.
Proof.
  intros Hs Hm. revert a fuel.
  apply (ranges_from_ind (fun p l => forall a fuel, 0 <= p -> 0 < m + p ->
    (length l < fuel)%nat -> for_chunks fuel size b p body a = for_each l _ a)); [done|..].
  - intros p' Hp a [|fuel] Hp0 Hmp Hf; [lia|]. cbn. unfold chunk_next. rewrite Hm. cbn.
    destruct (Z.eqb_spec m 0), (Z.eqb_spec p' 0); try lia; cbn; by rewrite (proj2 (Z.leb_le m p')).
  - intros p' l Hp IH a [|fuel] Hp0 Hmp Hf; [lia|]. cbn in Hf. cbn [for_chunks for_each]. unfold chunk_next.
    rewrite Hm. cbn [mbind outcome_bind]. rewrite (proj2 (Z.eqb_neq m 0)) by lia. cbn [andb].
    rewrite (proj2 (Z.leb_gt m p')) by lia. unfold block_new. rewrite slice_columns_ok.
    cbn [mbind outcome_bind]. apply bind_ext. intros a' _. apply IH; lia.
Qed.

(** The chunks of the iteration, for any use of them. *)
Lemma for_chunks_ranges {A} size b m (body : Block -> A -> Result A) a :
  0 < size -> 0 <= m -> row_count b = Ok m ->
  for_chunks (chunks_fuel size m) size b 0 body a =
  for_each (ranges size m)
    (fun '(s, e) a =>
       body (chunk_of b (if m =? 0 then 0 else DEFAULT_CAPACITY) s e) a) a.
Proof.
  intros Hs Hm Hrows. unfold ranges. destruct (Z.eqb_spec m 0) as [->|Hm0].
  - unfold chunks_fuel. rewrite Zdiv_0_l. change (Z.to_nat (0 + 3)) with 3%nat.
    cbn [for_chunks for_each]. unfold chunk_next. rewrite Hrows. cbn [mbind outcome_bind].
    change ((0 =? 0) && (0 =? 0)) with true. cbn iota.
    change block_default with (block_with_capacity 0). rewrite slice_columns_ok.
    cbn [mbind outcome_bind]. by apply bind_ext.
  - apply for_chunks_from; [done..|lia|].
    unfold ranges_from, chunks_fuel. rewrite length_fmap, length_seqZ.
    assert ((m - 0 + size - 1) / size < m / size + 2).
    { apply Z.div_lt_upper_bound; [lia|]. pose proof (Z.mul_div_le m size). pose proof (Z.mod_pos_bound m size).
      pose proof (Z.div_mod m size). lia. }
    pose proof (Z.div_pos m size). lia.
Qed.

(** ** A data packet *)

(** The block as the client gets it. *)
Definition sent (b : Block) : Block := mkBlock BlockInfo.default (columns b) (capacity_ b).

Lemma sent_ok tz n b : block_ok tz n b -> block_ok tz n (sent b).
Proof. intros [Hcs Hcount Hn Hempty Hinfo]. by split. Qed.

(** The only chunk of a block writes what the block itself writes. *)
Lemma column_write_slice tz n c e :
  0 <= n < 2 ^ 64 -> column_ok tz n c -> column_write (column_slice c 0 n) e = column_write c e.
Proof.
  intros Hn (Hs & _). unfold column_write, column_slice; cbn [name data sql_type len save].
  do 2 (apply bind_ext; intros ? _). rewrite (len_stored tz n) by done.
  assert (range_len 0 n = n) as -> by (unfold range_len; case_match; lia).
  cbn [mbind outcome_bind]. unfold chunk_save. rewrite !arith_u_ok by (apply in_u_spec; lia).
  cbn [mbind outcome_bind]. f_equal; lia.
Qed.

Lemma for_each_slices tz n cs e :
  0 <= n < 2 ^ 64 -> Forall (column_ok tz n) cs ->
  for_each ((fun c => column_slice c 0 n) <$> cs) (fun column e => column_write column e) e =
  for_each cs (fun column e => column_write column e) e.
Proof.
  intros Hn Hcs. revert e. induction Hcs as [|c cs Hc _ IH]; intros e; [done|].
  cbn [fmap list_fmap for_each]. rewrite (column_write_slice tz) by done.
  apply bind_ext. intros e' _. apply IH.
Qed.

Lemma write_plain_chunk tz n b capacity e :
  block_ok tz n b -> write_plain (chunk_of b capacity 0 n) e = write_plain (sent b) e.
Proof.
  intros Hb. pose proof (bo_rows _ _ _ Hb) as Hn. unfold write_plain.
  apply bind_ext; intros e1 _. unfold column_count. cbn [columns chunk_of sent].
  rewrite length_fmap. apply bind_ext; intros e2 _.
  rewrite (row_count_ok tz n (sent b)) by (by apply sent_ok).
  assert (row_count (chunk_of b capacity 0 n) = Ok n) as ->.
  { unfold row_count, chunk_of; cbn [columns]. destruct (columns b) eqn:Hc; cbn.
    - by rewrite (bo_empty _ _ _ Hb Hc).
    - unfold range_len. case_match; f_equal; lia. }
  apply bind_ext; intros n' _. apply bind_ext; intros e3 _.
  apply (for_each_slices tz); [done|apply Hb].
Qed.

Lemma ranges_single size m : 0 < size -> 0 <= m <= size -> ranges size m = [(0, m)].
Proof.
  intros Hs Hm. unfold ranges. destruct (Z.eqb_spec m 0) as [->|]; [done|].
  rewrite ranges_from_cons, Z.min_r, ranges_from_nil by lia. do 2 f_equal; lia.
Qed.

Definition data_bytes (packet : Z) (compress : bool) (n : Z) (b : Block) : bytes :=
  uvarint_bytes packet ++ string_bytes [] ++ wire_bytes compress n (sent b).

Lemma send_data_ok `{!Lz4Laws} packet tz n b e compress :
  in_u 64 packet = true -> block_ok tz n b -> n <= INSERT_BLOCK_SIZE ->
  sendable compress n (sent b) ->
  send_data packet b e compress = Ok (e ++ data_bytes packet compress n b).
Proof.
  intros Hp Hb Hn Hc. pose proof (bo_rows _ _ _ Hb). unfold send_data, data_bytes.
  encode_field. assert (str_ok [] = true) by done. encode_field.
  eapply bind_eq; [by apply (row_count_ok tz n)|].
  rewrite (for_chunks_ranges _ _ n) by (try apply (row_count_ok tz n); done || lia).
  rewrite ranges_single by (unfold INSERT_BLOCK_SIZE in *; lia). cbn [for_each].
  unfold block_write. rewrite !(write_plain_chunk tz) by done.
  change (if compress then tmp ← write_plain (sent b) new; write_compressed ?e (get_buffer tmp)
          else write_plain (sent b) ?e) with (block_write (sent b) e compress).
  rewrite (block_write_ok tz n) by (done || by apply sent_ok). cbn [mbind outcome_bind].
  by rewrite <- !app_assoc.
Qed.
End Chunks.
