(* ===== verification/NetAddr.v ===== *)
(** * [std::net]: addresses and their text

    [from_str] and [Display] of [Ipv4Addr] and [Ipv6Addr] of the Rust standard
    library, on byte strings; an address is its octets in network order.  A parser
    returns what it read and the text left, or [None] and reads nothing.  What is
    printed is parsed as the same address. *)

From S2P Require Import Prelude RustStd.
Local Open Scope Z_scope.

Definition parser (A : Type) : Type := bytes -> option (A * bytes).

Definition hex_val (b : byte) : option Z :=
  let z := byte_to_Z b in
  if in_range 48 57 z then Some (z - 48)
  else if in_range 97 102 z then Some (z - 87)
  else if in_range 65 70 z then Some (z - 55) else None.

Definition radix_val (radix : Z) (b : byte) : option Z :=
  match hex_val b with Some d => if d <? radix then Some d else None | None => None end.

(** [read_given_char]. *)
Definition read_char (c : byte) : parser unit := fun s =>
  match s with b :: r => if decide (b = c) then Some (tt, r) else None | [] => None end.

(** The digits of [read_number]: at most [room] more of them. *)
Fixpoint read_digits (radix maxv : Z) (room : nat) (count : nat) (acc : Z) (s : bytes)
  : option (Z * nat * bytes) :=
  match s with
  | b :: r =>
    match radix_val radix b with
    | Some d =>
      match room with
      | O => None
      | S room =>
        let acc := acc * radix + d in
        if maxv <? acc then None else read_digits radix maxv room (S count) acc r
      end
    | None => Some (acc, count, s)
    end
  | [] => Some (acc, count, s)
  end.

(** [read_number(radix, Some(max_digits), allow_zero_prefix)]. *)
Definition read_number (radix maxv : Z) (max_digits : nat) (allow_zero_prefix : bool) : parser Z :=
  fun s =>
  match read_digits radix maxv max_digits 0 0 s with
  | Some (n, count, r) =>
    if decide (count = 0%nat) then None
    else if negb allow_zero_prefix && bool_decide (head s = Some "0"%byte) && bool_decide (1 < count)%nat
    then None else Some (n, r)
  | None => None
  end.

(** [read_separator(sep, index, inner)]. *)
Definition read_separator {A} (sep : byte) (index : nat) (inner : parser A) : parser A := fun s =>
  match index with
  | O => inner s
  | S _ => '(_, s) ← read_char sep s; inner s
  end.

(** [read_ipv4_addr]. *)
Fixpoint read_octets (n index : nat) : parser bytes := fun s =>
  match n with
  | O => Some ([], s)
  | S n =>
    '(d, s) ← read_separator "."%byte index (read_number 10 255 3 false) s;
    '(ds, s) ← read_octets n (S index) s;
    Some (Z_to_byte d :: ds, s)
  end.

Definition read_ipv4_addr : parser bytes := read_octets 4 0.

Definition group_bytes (g : Z) : bytes := [Z_to_byte (Z.shiftr g 8); Z_to_byte g].

(** [read_groups] with [limit] groups left; the flag: the last two groups are an
    IPv4 address. *)
Fixpoint read_groups (limit index : nat) (s : bytes) : bytes * bool * bytes :=
  match limit with
  | O => ([], false, s)
  | S limit =>
    match (if decide (limit = 0%nat) then None
           else read_separator ":"%byte index read_ipv4_addr s) with
    | Some (v4, s) => (v4, true, s)
    | None =>
      match read_separator ":"%byte index (read_number 16 65535 4 true) s with
      | Some (g, s) =>
        let '(gs, v4, s) := read_groups limit (S index) s in (group_bytes g ++ gs, v4, s)
      | None => ([], false, s)
      end
    end
  end.

(** [read_ipv6_addr]. *)
Definition read_ipv6_addr : parser bytes := fun s =>
  let '(head, head_ipv4, s) := read_groups 8 0 s in
  if decide (length head = 16%nat) then Some (head, s)
  else if head_ipv4 then None
  else
    '(_, s) ← read_char ":"%byte s;
    '(_, s) ← read_char ":"%byte s;
    let '(tail, _, s) := read_groups (7 - length head / 2) 0 s in
    Some (head ++ replicate (16 - length head - length tail) x00 ++ tail, s).

(** [parse_with]: all of the text is read. *)
Definition parse_all {A} (p : parser A) (s : bytes) : option A :=
  match p s with Some (a, []) => Some a | _ => None end.

Definition ipv4_parse (s : bytes) : option bytes :=
  if decide (15 < length s)%nat then None else parse_all read_ipv4_addr s.

Definition ipv6_parse (s : bytes) : option bytes := parse_all read_ipv6_addr s.

(** ** Display *)

Definition ipv4_text (octets : bytes) : bytes := join (lit ".") (show_dec ∘ byte_to_Z <$> octets).

(** [segments]: two octets each. *)
Fixpoint segments (octets : bytes) : list Z :=
  match octets with
  | a :: b :: octets => byte_to_Z a * 256 + byte_to_Z b :: segments octets
  | _ => []
  end.

(** A run of zeroes: where it starts and how long it is. *)
Record span := mkSpan { span_start : nat; span_len : nat }.

(** The first of the longest runs; [i]: the position of the first segment. *)
Fixpoint longest_zeroes (i : nat) (current longest : span) (ss : list Z) : span :=
  match ss with
  | [] => longest
  | s :: ss =>
    if s =? 0 then
      let current := mkSpan (if decide (span_len current = 0%nat) then i else span_start current)
                       (S (span_len current)) in
      longest_zeroes (S i) current (if (span_len longest <? span_len current)%nat then current else longest) ss
    else longest_zeroes (S i) (mkSpan 0 0) longest ss
  end.

Definition subslice_text (ss : list Z) : bytes := join (lit ":") (show_hex <$> ss).

Definition ipv6_text (octets : bytes) : bytes :=
  if decide (take 12 octets = replicate 10 x00 ++ [xff; xff])
  then lit "::ffff:" ++ ipv4_text (drop 12 octets)
  else
    let ss := segments octets in
    let longest := longest_zeroes 0 (mkSpan 0 0) (mkSpan 0 0) ss in
    if (1 <? span_len longest)%nat then
      subslice_text (take (span_start longest) ss) ++ lit "::" ++
      subslice_text (drop (span_start longest + span_len longest) ss)
    else subslice_text ss.

(** ** Lengths *)

Lemma read_octets_length n index s ds r : read_octets n index s = Some (ds, r) -> length ds = n.
Proof.
  revert index s ds r. induction n as [|n IH]; intros index s ds r; cbn.
  { by intros [= <- _]. }
  destruct (read_separator _ _ _ _) as [[d s1]|]; [|done]. cbn.
  destruct (read_octets n (S index) s1) as [[ds' s2]|] eqn:Hr; [|done]. cbn.
  intros [= <- _]. cbn. f_equal. by eapply IH.
Qed.

Lemma ipv4_parse_length s ip : ipv4_parse s = Some ip -> length ip = 4%nat.
Proof.
  unfold ipv4_parse, parse_all, read_ipv4_addr. case_decide; [done|].
  destruct (read_octets 4 0 s) as [[ds [|]]|] eqn:Hr; try done.
  intros [= <-]. by eapply read_octets_length.
Qed.

Lemma read_groups_length limit index s gs v4 r :
  read_groups limit index s = (gs, v4, r) ->
  (length gs <= 2 * limit)%nat /\ exists k, length gs = (2 * k)%nat.
Proof.
  revert index s gs v4 r. induction limit as [|limit IH]; intros index s gs v4 r; cbn [read_groups].
  { intros [= <- _ _]. split; [cbn; lia|by exists 0%nat]. }
  destruct (if decide (limit = 0%nat) then _ else _) as [p|] eqn:Hip; [destruct p as [ip s1]|].
  - intros [= <- _ _]. case_decide; [done|].
    assert (length ip = 4%nat) as ->.
    { unfold read_separator in Hip. destruct index as [|index]; [by eapply read_octets_length|].
      destruct (read_char _ s) as [[u s2]|]; [|done]. by eapply read_octets_length. }
    split; [lia|by exists 2%nat].
  - destruct (read_separator _ _ (read_number 16 65535 4 true) _) as [[g s1]|].
    + destruct (read_groups limit (S index) s1) as [[gs' v4'] r'] eqn:Hr. intros [= <- _ _].
      destruct (IH _ _ _ _ _ Hr) as [Hl [k Hk]]. cbn [length]. split; [lia|].
      exists (S k). lia.
    + intros [= <- _ _]. split; [cbn; lia|by exists 0%nat].
Qed.

Lemma ipv6_parse_length s ip : ipv6_parse s = Some ip -> length ip = 16%nat.
Proof.
  unfold ipv6_parse, parse_all, read_ipv6_addr.
  destruct (read_groups 8 0 s) as [[head v4] s1] eqn:Hh. case_decide as Hl.
  { destruct s1; [|done]. by intros [= <-]. }
  destruct v4; [done|]. destruct (read_char _ s1) as [[u1 s2]|]; [|done]. cbn [mbind option_bind].
  destruct (read_char _ s2) as [[u2 s3]|]; [|done]. cbn [mbind option_bind].
  destruct (read_groups (7 - length head / 2) 0 s3) as [[tail ?] s4] eqn:Ht.
  destruct s4; [|done]. intros [= <-].
  apply read_groups_length in Hh as [Hh [k Hk]]. apply read_groups_length in Ht as [Ht _].
  rewrite Hk in *. replace (2 * k / 2)%nat with k in Ht by (rewrite Nat.mul_comm, Nat.div_mul; lia).
  rewrite !length_app, length_replicate. lia.
Qed.

(** ** What is printed is parsed *)

(** *** Numbers *)

Lemma digits_fuel_base base n : 2 <= base -> base <= n -> (digits_fuel (n / base) < digits_fuel n)%nat.
Proof.
  intros Hb Hn. unfold digits_fuel.
  assert (0 < n / base) by (apply Z.div_str_pos; lia).
  assert (Z.log2 (n / base) < Z.log2 n); [|pose proof (Z.log2_nonneg (n / base)); lia].
  assert (Z.log2 (2 * (n / base)) <= Z.log2 n) as Hl.
  { apply Z.log2_le_mono. pose proof (Z.mul_div_le n base). nia. }
  rewrite Z.log2_double in Hl; lia.
Qed.

Lemma radix_val_digit radix d : 0 <= d < radix -> radix <= 16 -> radix_val radix (digit d) = Some d.
Proof.
  intros Hd Hr. unfold radix_val.
  assert (hex_val (digit d) = Some d) as ->; [|by replace (d <? radix) with true by lia].
  assert (Forall (fun d => hex_val (digit d) = Some d) (seqZ 0 16)) as Hall by (vm_compute; repeat constructor).
  rewrite Forall_forall in Hall. apply Hall, elem_of_seqZ. lia.
Qed.

Lemma read_digits_show radix maxv fuel n room s :
  2 <= radix <= 16 -> 0 <= n <= maxv -> (digits_fuel n <= fuel)%nat ->
  exists k, length (digits radix fuel n []) = k /\
    read_digits radix maxv (k + room) 0 0 (digits radix fuel n s) = read_digits radix maxv room k n s.
Proof.
  intros Hr. revert n room s. induction fuel as [|fuel IH]; intros n room s Hn Hf; [unfold digits_fuel in Hf; lia|].
  cbn [digits]. destruct (Z.ltb_spec n radix) as [Hlt|Hge].
  - exists 1%nat. split; [done|]. rewrite Z.mod_small by lia. cbn [Nat.add read_digits].
    rewrite radix_val_digit by lia. cbn zeta. replace (0 * radix + n) with n by lia.
    by replace (maxv <? n) with false by lia.
  - pose proof (digits_fuel_base radix n ltac:(lia) Hge).
    assert (0 <= n / radix) by (apply Z.div_pos; lia). pose proof (Z.div_mod n radix ltac:(lia)) as Hdm.
    pose proof (Z.mod_pos_bound n radix ltac:(lia)).
    destruct (IH (n / radix) (S room) (digit (n mod radix) :: s)) as (k & Hk & Hread); [nia|lia|].
    exists (S k). split; [rewrite digits_app, length_app, Hk; cbn; lia|].
    replace (S k + room)%nat with (k + S room)%nat by lia. rewrite Hread. cbn [read_digits].
    rewrite radix_val_digit by lia. cbn zeta. replace (n / radix * radix + n mod radix) with n by lia.
    by replace (maxv <? n) with false by lia.
Qed.

Lemma digits_length radix fuel n k :
  2 <= radix -> 0 <= n < radix ^ Z.of_nat k -> (0 < k)%nat -> (length (digits radix fuel n []) <= k)%nat.
Proof.
  intros Hr. revert fuel n. induction k as [|k IH]; intros fuel n Hn Hk; [lia|].
  destruct fuel as [|fuel]; cbn [digits]; [cbn; lia|].
  destruct (Z.ltb_spec n radix) as [|Hge]; [cbn; lia|].
  rewrite digits_app, length_app. cbn [length].
  destruct k as [|k]; [change (Z.of_nat 1) with 1 in Hn; lia|].
  enough (length (digits radix fuel (n / radix) []) <= S k)%nat by lia. apply IH; [|lia].
  rewrite Nat2Z.inj_succ, Z.pow_succ_r in Hn by lia.
  split; [apply Z.div_pos; lia|apply Z.div_lt_upper_bound; lia].
Qed.

(** No digit follows. *)
Definition no_hex (s : bytes) : Prop := match s with [] => True | c :: _ => hex_val c = None end.

Lemma read_hex g s : 0 <= g < 65536 -> no_hex s -> read_number 16 65535 4 true (show_hex g ++ s) = Some (g, s).
Proof.
  intros Hg Hs. unfold read_number, show_hex. rewrite <- digits_app.
  pose proof (digits_length 16 (digits_fuel g) g 4 ltac:(lia) ltac:(cbn; lia) ltac:(lia)) as Hl.
  destruct (read_digits_show 16 65535 (digits_fuel g) g (4 - length (digits 16 (digits_fuel g) g [])) s)
    as (k & Hk & Hread); [lia..|].
  rewrite Hk in *. replace (k + (4 - k))%nat with 4%nat in Hread by lia. rewrite Hread.
  assert (read_digits 16 65535 (4 - k) k g s = Some (g, k, s)) as ->.
  { destruct s as [|c s]; [by destruct (4 - k)%nat|]. cbn [no_hex] in Hs.
    unfold read_digits. destruct (4 - k)%nat; cbn; unfold radix_val; by rewrite Hs. }
  rewrite decide_False; [done|]. intros ->.
  pose proof (digits_nonempty 16 (digits_fuel g) g [] ltac:(unfold digits_fuel; lia)) as Hne.
  by destruct (digits 16 (digits_fuel g) g []).
Qed.

Lemma read_digits_stop radix maxv room count acc s c r :
  radix_val radix c = None ->
  read_digits radix maxv room count acc (s ++ c :: r) =
    match read_digits radix maxv room count acc s with
    | Some (n, k, r') => Some (n, k, r' ++ c :: r)
    | None => None
    end.
Proof.
  intros Hc. revert room count acc. induction s as [|b s IH]; intros room count acc.
  - cbn [app]. destruct room; cbn [read_digits]; by rewrite Hc.
  - cbn [app]. destruct room; cbn [read_digits]; destruct (radix_val radix b) as [d|]; try done.
    cbn zeta. by destruct (maxv <? acc * radix + d).
Qed.

Lemma read_octet b s :
  no_hex s -> read_number 10 255 3 false (show_dec (byte_to_Z b) ++ s) = Some (byte_to_Z b, s).
Proof.
  intros Hs. destruct s as [|c s]; [by destruct b|].
  assert (radix_val 10 c = None) as Hc by (unfold radix_val; cbn in Hs; by rewrite Hs).
  assert (exists k, read_digits 10 255 3 0 0 (show_dec (byte_to_Z b)) = Some (byte_to_Z b, k, []) /\
    k <> 0%nat /\ (k = 1%nat \/ head (show_dec (byte_to_Z b) ++ c :: s) <> Some "0"%byte)) as (k & Hr & Hk & Hz).
  { destruct b; eexists; (split; [vm_compute; reflexivity|]); (split; [done|]);
      first [by left|right; vm_compute; done]. }
  unfold read_number. rewrite read_digits_stop, Hr by done. rewrite decide_False by done.
  destruct Hz as [->|Hz]; [by rewrite andb_false_r|]. by rewrite (bool_decide_false _ Hz).
Qed.

(** *** IPv4 *)

(** The octets from position [index] on, each but the first behind a dot. *)
Fixpoint octets_text (index : nat) (o : bytes) : bytes :=
  match o with
  | [] => []
  | b :: o =>
    match index with O => [] | S _ => lit "." end ++ show_dec (byte_to_Z b) ++ octets_text (S index) o
  end.

Lemma octets_text_join b o index :
  octets_text index (b :: o) = match index with O => [] | S _ => lit "." end ++ ipv4_text (b :: o).
Proof.
  revert b index. induction o as [|b' o IH]; intros b index.
  - cbn. by rewrite app_nil_r.
  - change (octets_text index (b :: b' :: o)) with
      (match index with O => [] | S _ => lit "." end ++ show_dec (byte_to_Z b) ++ octets_text (S index) (b' :: o)).
    by rewrite IH.
Qed.

Lemma read_octets_text index o s :
  no_hex s -> read_octets (length o) index (octets_text index o ++ s) = Some (o, s).
Proof.
  intros Hs. revert index. induction o as [|b o IH]; intros index; [done|].
  cbn [octets_text length read_octets]. rewrite <- !app_assoc.
  assert (no_hex (octets_text (S index) o ++ s)) as Hn by by destruct o.
  assert (forall A (p : parser A) t, read_separator "."%byte index p
    (match index with O => [] | S _ => lit "." end ++ t) = p t) as Hsep by (intros A p t; by destruct index).
  rewrite Hsep, read_octet by done. cbn [mbind option_bind]. rewrite IH. cbn [mbind option_bind].
  by rewrite Z_to_byte_to_Z.
Qed.

Lemma read_ipv4_text o s : length o = 4%nat -> no_hex s -> read_ipv4_addr (ipv4_text o ++ s) = Some (o, s).
Proof.
  intros Ho Hs. unfold read_ipv4_addr. rewrite <- Ho. destruct o as [|b o]; [done|].
  pose proof (octets_text_join b o 0) as Hj. cbn [app] in Hj. rewrite <- Hj. by apply read_octets_text.
Qed.

Lemma ipv4_parse_text o : length o = 4%nat -> ipv4_parse (ipv4_text o) = Some o.
Proof.
  intros Ho. unfold ipv4_parse, parse_all. rewrite decide_False.
  - pose proof (read_ipv4_text o [] Ho I) as Hr. rewrite app_nil_r in Hr. by rewrite Hr.
  - destruct o as [|a [|b [|c [|d [|]]]]]; try done. unfold ipv4_text. cbn [fmap list_fmap join compose].
    assert (forall x, (length (show_dec (byte_to_Z x)) <= 3)%nat) as Hx by (intros []; vm_compute; lia).
    pose proof (Hx a). pose proof (Hx b). pose proof (Hx c). pose proof (Hx d).
    rewrite !length_app. change (length (lit ".")) with 1%nat. lia.
Qed.

(** *** IPv6 *)

Lemma read_digits_suffix radix maxv room count acc s n k r :
  read_digits radix maxv room count acc s = Some (n, k, r) -> exists p, s = p ++ r.
Proof.
  revert room count acc. induction s as [|b s IH]; intros room count acc.
  { destruct room; intros [= _ _ <-]; by exists []. }
  destruct room; cbn [read_digits];
    (destruct (radix_val radix b) as [d|]; [|intros [= _ _ <-]; by exists []]); [done|].
  cbn zeta. destruct (maxv <? acc * radix + d); [done|].
  intros Hr. destruct (IH _ _ _ Hr) as [p ->]. by exists (b :: p).
Qed.

Lemma read_number_suffix radix maxv k zero s d r :
  read_number radix maxv k zero s = Some (d, r) -> exists p, s = p ++ r.
Proof.
  unfold read_number. destruct (read_digits radix maxv k 0 0 s) as [[[n c] r']|] eqn:Hr; [|done].
  case_decide; [done|]. case_match; [done|]. intros [= _ <-]. by eapply read_digits_suffix.
Qed.

(** An IPv4 address has a dot. *)
Lemma read_ipv4_dot s : "."%byte ∉ s -> read_ipv4_addr s = None.
Proof.
  intros Hd. unfold read_ipv4_addr. cbn [read_octets].
  change (read_separator "." 0 (read_number 10 255 3 false) s) with (read_number 10 255 3 false s).
  destruct (read_number 10 255 3 false s) as [[d r]|] eqn:Hr; [|done].
  destruct (read_number_suffix _ _ _ _ _ _ _ Hr) as [p ->]. cbn [mbind option_bind].
  assert (read_separator "." 1 (read_number 10 255 3 false) r = None) as ->; [|done].
  destruct r as [|c r]; [done|]. cbn [read_separator read_char]. rewrite decide_False; [done|]. intros ->.
  apply Hd, elem_of_app. right. left.
Qed.

(** The groups from position [index] on, each but the first behind a colon. *)
Fixpoint groups_text (index : nat) (ss : list Z) : bytes :=
  match ss with
  | [] => []
  | s :: ss => match index with O => [] | S _ => lit ":" end ++ show_hex s ++ groups_text (S index) ss
  end.

Lemma groups_text_join s ss index :
  groups_text index (s :: ss) = match index with O => [] | S _ => lit ":" end ++ subslice_text (s :: ss).
Proof.
  revert s index. induction ss as [|s' ss IH]; intros s index.
  - cbn. by rewrite app_nil_r.
  - change (groups_text index (s :: s' :: ss)) with
      (match index with O => [] | S _ => lit ":" end ++ show_hex s ++ groups_text (S index) (s' :: ss)).
    by rewrite IH.
Qed.

Lemma subslice_groups ss : subslice_text ss = groups_text 0 ss.
Proof. destruct ss as [|s ss]; [done|]. by rewrite groups_text_join. Qed.

(** The groups end: nothing follows, or two colons. *)
Definition groups_end (r : bytes) : Prop := r = [] \/ exists t, r = lit "::" ++ t.

Lemma read_groups_end limit index r : groups_end r -> read_groups limit index r = ([], false, r).
Proof.
  intros Hr. destruct limit as [|limit]; [done|]. cbn [read_groups].
  assert (read_separator ":"%byte index (read_number 16 65535 4 true) r = None) as ->.
  { destruct Hr as [->|[t ->]]; destruct index; reflexivity. }
  assert (read_separator ":"%byte index read_ipv4_addr r = None) as ->.
  { destruct Hr as [->|[t ->]]; destruct index; reflexivity. }
  by destruct (decide (limit = 0%nat)).
Qed.

Lemma read_groups_text limit index ss r :
  Forall (fun s => 0 <= s < 65536) ss -> (length ss <= limit)%nat -> groups_end r ->
  "."%byte ∉ groups_text index ss ++ r ->
  read_groups limit index (groups_text index ss ++ r) = (concat (group_bytes <$> ss), false, r).
Proof.
  intros Hss. revert limit index. induction Hss as [|s ss Hs Hss IH]; intros limit index Hl Hr Hd.
  { by apply read_groups_end. }
  destruct limit as [|limit]; [cbn in Hl; lia|].
  set (t := groups_text (S index) ss ++ r).
  assert (groups_text index (s :: ss) ++ r =
          match index with O => [] | S _ => lit ":" end ++ show_hex s ++ t) as Ht
    by (cbn [groups_text]; by rewrite <- !app_assoc).
  assert (no_hex t) as Hnt.
  { unfold t. destruct ss; [by destruct Hr as [->|[? ->]]|done]. }
  assert ("."%byte ∉ show_hex s ++ t) as Hst.
  { intros Hin. apply Hd. rewrite Ht. apply elem_of_app. by right. }
  assert (read_groups limit (S index) t = (concat (group_bytes <$> ss), false, r)) as Hrest.
  { apply IH; [cbn in Hl; lia|done|]. intros Hin. apply Hst, elem_of_app. by right. }
  rewrite Ht. cbn [read_groups].
  assert (forall A (p : parser A), read_separator ":"%byte index p
    (match index with O => [] | S _ => lit ":" end ++ show_hex s ++ t) = p (show_hex s ++ t)) as Hsep
    by (intros A p; by destruct index).
  rewrite !Hsep, read_ipv4_dot, read_hex by done.
  rewrite Hrest. by destruct (decide (limit = 0%nat)).
Qed.

Lemma segments_spec n o :
  length o = (2 * n)%nat ->
  Forall (fun s => 0 <= s < 65536) (segments o) /\ length (segments o) = n /\
  concat (group_bytes <$> segments o) = o.
Proof.
  revert o. induction n as [|n IH]; intros o Ho; [by destruct o|].
  destruct o as [|a [|b o]]; [cbn in Ho; lia..|]. destruct (IH o) as (Hr & Hl & Hc); [cbn in Ho; lia|].
  pose proof (byte_to_Z_range a). pose proof (byte_to_Z_range b). cbn [segments].
  split_and!; [apply Forall_cons; split; [lia|done]|cbn; by rewrite Hl|].
  rewrite fmap_cons. cbn [concat]. rewrite Hc. unfold group_bytes. rewrite Z.shiftr_div_pow2 by lia.
  change (2 ^ 8) with 256. rewrite Z.div_add_l, Z.div_small, Z.add_0_r by lia.
  rewrite Z_to_byte_to_Z. cbn [app]. do 2 f_equal. apply byte_to_Z_inj.
  rewrite byte_to_Z_to_byte, Z.add_comm, Z.mod_add, Z.mod_small by lia. done.
Qed.

(** A run of zeroes of [ss]. *)
Definition zero_run (ss : list Z) (sp : span) : Prop :=
  (span_start sp + span_len sp <= length ss)%nat /\
  forall k, (span_start sp <= k < span_start sp + span_len sp)%nat -> ss !! k = Some 0.

Lemma zero_run_app ss s sp : zero_run ss sp -> zero_run (ss ++ [s]) sp.
Proof.
  intros [Hl Hz]. split; [rewrite length_app; lia|]. intros k Hk.
  rewrite lookup_app_l by lia. by apply Hz.
Qed.

Lemma longest_zeroes_run pre ss current longest :
  zero_run pre longest -> zero_run pre current ->
  (span_len current <> 0%nat -> span_start current + span_len current = length pre)%nat ->
  zero_run (pre ++ ss) (longest_zeroes (length pre) current longest ss).
Proof.
  revert pre current longest. induction ss as [|s ss IH]; intros pre current longest Hl Hc Hend.
  { by rewrite app_nil_r. }
  replace (pre ++ s :: ss) with ((pre ++ [s]) ++ ss) by by rewrite <- app_assoc.
  replace (S (length pre)) with (length (pre ++ [s])) by (rewrite length_app; cbn; lia).
  cbn [longest_zeroes]. replace (S (length pre)) with (length (pre ++ [s])) by (rewrite length_app; cbn; lia).
  destruct (Z.eqb_spec s 0) as [->|Hs].
  - set (c := mkSpan _ _).
    assert (zero_run (pre ++ [0]) c /\ (span_start c + span_len c = length (pre ++ [0%Z]))%nat) as [Hrun Hec].
    { unfold c. rewrite length_app. cbn [span_start span_len length]. case_decide as Hz.
      - split; [|rewrite Hz; lia]. split; cbn [span_start span_len]; [rewrite length_app, Hz; cbn; lia|].
        rewrite Hz. intros k Hk. replace k with (length pre) by lia.
        by rewrite lookup_app_r, Nat.sub_diag.
      - specialize (Hend Hz). split; [|lia]. split; cbn [span_start span_len]; [rewrite length_app; cbn; lia|].
        intros k Hk. destruct (decide (k = length pre)) as [->|Hne].
        + by rewrite lookup_app_r, Nat.sub_diag.
        + destruct Hc as [_ Hc]. rewrite lookup_app_l by lia. apply Hc. lia. }
    apply IH; [|done|done]. destruct (_ <? _)%nat; [done|by apply zero_run_app].
  - apply IH; [by apply zero_run_app| |done].
    split; cbn; [lia|]. intros k Hk. lia.
Qed.

(** The run, written out. *)
Lemma zero_run_split ss sp :
  zero_run ss sp ->
  ss = take (span_start sp) ss ++ replicate (span_len sp) 0 ++ drop (span_start sp + span_len sp) ss.
Proof.
  intros [Hl Hz]. rewrite <- (take_drop (span_start sp) ss) at 1. f_equal.
  rewrite <- (take_drop (span_len sp) (drop (span_start sp) ss)) at 1. rewrite drop_drop. f_equal.
  apply list_eq_same_length with (span_len sp); rewrite ?length_take, ?length_drop, ?length_replicate; [lia..|].
  intros k x y Hk Hx Hy. apply lookup_replicate in Hy as [-> _].
  rewrite lookup_take_lt, lookup_drop, Hz in Hx by lia. by simplify_eq.
Qed.

(** Hexadecimal digits are neither dots nor outside ASCII. *)
Lemma digits_hex fuel n acc :
  0 <= n -> Forall (fun b => hex_val b <> None) acc -> Forall (fun b => hex_val b <> None) (digits 16 fuel n acc).
Proof.
  revert n acc. induction fuel as [|fuel IH]; intros n acc Hn Ha; [done|]. cbn [digits].
  assert (Forall (fun b => hex_val b <> None) (digit (n mod 16) :: acc)) as Hd.
  { apply Forall_cons. split; [|done]. pose proof (Z.mod_pos_bound n 16 ltac:(lia)).
    pose proof (radix_val_digit 16 (n mod 16) ltac:(lia) ltac:(lia)) as Hr. unfold radix_val in Hr.
    by destruct (hex_val (digit (n mod 16))). }
  destruct (n <? 16); [done|]. apply IH; [apply Z.div_pos; lia|done].
Qed.

Definition addr_char (b : byte) : Prop := hex_val b <> None \/ b = ":"%byte.

Lemma groups_text_chars index ss :
  Forall (fun s => 0 <= s < 65536) ss -> Forall addr_char (groups_text index ss).
Proof.
  intros Hss. revert index. induction Hss as [|s ss Hs _ IH]; intros index; [by apply Forall_nil|].
  cbn [groups_text]. apply Forall_app. split; [|apply Forall_app; split; [|apply IH]].
  - destruct index; [by apply Forall_nil|]. apply Forall_cons; split; [by right|by apply Forall_nil].
  - eapply Forall_impl; [apply digits_hex; [lia|by apply Forall_nil]|]. intros b Hb. by left.
Qed.

Lemma addr_chars_dot s : Forall addr_char s -> "."%byte ∉ s.
Proof. intros Hs Hin. rewrite Forall_forall in Hs. by destruct (Hs _ Hin). Qed.

(** A compressed text: the groups before the zeroes and the ones behind. *)
Lemma ipv6_parse_zeroes head tail n :
  Forall (fun s => 0 <= s < 65536) head -> Forall (fun s => 0 <= s < 65536) tail ->
  (length head + n + length tail = 8)%nat -> (1 < n)%nat ->
  ipv6_parse (subslice_text head ++ lit "::" ++ subslice_text tail) =
    Some (concat (group_bytes <$> head ++ replicate n 0 ++ tail)).
Proof.
  intros Hh Ht Hn Hz. unfold ipv6_parse, parse_all, read_ipv6_addr. rewrite !subslice_groups.
  assert (forall l, length (concat (group_bytes <$> l)) = (2 * length l)%nat) as Hlen.
  { induction l as [|g l IH]; [done|]. rewrite fmap_cons. cbn [concat]. rewrite length_app, IH. cbn. lia. }
  assert (concat (group_bytes <$> replicate n 0) = replicate (2 * n) x00) as Hzero.
  { clear. induction n as [|n IH]; [done|]. cbn [replicate]. rewrite fmap_cons. cbn [concat]. rewrite IH.
    by replace (2 * S n)%nat with (S (S (2 * n))) by lia. }
  rewrite (read_groups_text 8 0 head).
  - rewrite decide_False by (rewrite Hlen; lia).
    change (lit "::" ++ groups_text 0 tail) with (":"%byte :: ":"%byte :: groups_text 0 tail).
    cbn [read_char]. rewrite decide_True by done. cbn [mbind option_bind read_char].
    rewrite decide_True by done. cbn [mbind option_bind].
    rewrite Hlen. replace (2 * length head / 2)%nat with (length head) by (rewrite Nat.mul_comm, Nat.div_mul; lia).
    pose proof (read_groups_text (7 - length head) 0 tail [] Ht ltac:(lia) ltac:(by left)) as Hr.
    rewrite app_nil_r in Hr. rewrite Hr by by apply addr_chars_dot, groups_text_chars.
    rewrite !fmap_app, !concat_app, Hlen, Hzero. do 3 f_equal. f_equal. lia.
  - done.
  - lia.
  - right. by eexists.
  - apply addr_chars_dot. rewrite !Forall_app. split_and!; [by apply groups_text_chars| |by apply groups_text_chars].
    repeat (apply Forall_cons; split; [by right|]). by apply Forall_nil.
Qed.

(** The last two groups as an IPv4 address. *)
Lemma read_groups_mapped t v :
  read_ipv4_addr t = Some (v, []) -> read_groups 7 0 (lit "ffff:" ++ t) = (xff :: xff :: v, true, []).
Proof.
  intros Hr. change (lit "ffff:" ++ t) with (show_hex 65535 ++ ":"%byte :: t). cbn [read_groups].
  change (read_separator ":" 0 read_ipv4_addr (show_hex 65535 ++ ":"%byte :: t)) with (None : option (bytes * bytes)).
  change (read_separator ":" 0 ?p ?s) with (p s).
  rewrite decide_False, read_hex by (done || lia). rewrite decide_False by done.
  change (read_separator ":" 1 read_ipv4_addr (":"%byte :: t)) with (read_ipv4_addr t). by rewrite Hr.
Qed.

Lemma ipv6_parse_text o : length o = 16%nat -> ipv6_parse (ipv6_text o) = Some o.
Proof.
  intros Ho. unfold ipv6_text. case_decide as Hm.
  - assert (length (drop 12 o) = 4%nat) as Hd by (rewrite length_drop; lia).
    rewrite <- (take_drop 12 o) at 2. rewrite Hm. unfold ipv6_parse, parse_all, read_ipv6_addr.
    pose proof (read_ipv4_text (drop 12 o) [] Hd I) as Hr. rewrite app_nil_r in Hr.
    set (t := ipv4_text (drop 12 o)) in *. clearbody t. revert Hr. generalize (drop 12 o). intros v Hr.
    change (lit "::ffff:" ++ t) with (lit "::" ++ lit "ffff:" ++ t).
    rewrite read_groups_end by (right; by eexists).
    rewrite decide_False by done. change (lit "::" ++ lit "ffff:" ++ t) with (":"%byte :: ":"%byte :: lit "ffff:" ++ t).
    cbn [read_char]. rewrite decide_True by done. cbn [mbind option_bind read_char].
    rewrite decide_True by done. cbn [mbind option_bind].
    change (7 - length [] / 2)%nat with 7%nat. rewrite (read_groups_mapped t v Hr).
    cbn [length Nat.sub app]. apply read_octets_length in Hr. by rewrite Hr.
  - destruct (segments_spec 8 o Ho) as (Hs & Hl & Hc).
    pose proof (longest_zeroes_run [] (segments o) (mkSpan 0 0) (mkSpan 0 0)) as Hrun. cbn [app length] in Hrun.
    set (sp := longest_zeroes 0 (mkSpan 0 0) (mkSpan 0 0) (segments o)) in *.
    assert (zero_run (segments o) sp) as Hz by (apply Hrun; [split; cbn; lia..|done]). clear Hrun.
    destruct (Nat.ltb_spec 1 (span_len sp)) as [Hlt|_].
    + pose proof (zero_run_split _ _ Hz) as Hsplit. destruct Hz as [Hz _].
      rewrite ipv6_parse_zeroes with (n := span_len sp); [by rewrite <- Hsplit, Hc| | | |done].
      * by apply Forall_take.
      * by apply Forall_drop.
      * rewrite length_take, length_drop. lia.
    + unfold ipv6_parse, parse_all, read_ipv6_addr. rewrite subslice_groups.
      pose proof (read_groups_text 8 0 (segments o) [] Hs ltac:(lia) ltac:(by left)) as Hr.
      rewrite app_nil_r in Hr. rewrite Hr by by apply addr_chars_dot, groups_text_chars.
      rewrite Hc. by rewrite decide_True.
Qed.
