(* ===== verification/Cast.v ===== *)
(** * Casts ([Column::cast_to], [ColumnData::cast_to], [Block::cast_to])

    A client casts its block to the server's header before it sends it.  What a
    cast changes is the type of a column: its name and its length stay. *)

From S2P Require Import Prelude RustStd Errors Scalars SqlType TypeNames DecimalNum Values.
From S2P Require Import StringPool ChunkIndex Columns ColumnLaws Compressed Block NetAddr.
Local Open Scope Z_scope.

Section Cast.
Context {P : Profile} `{ChronoTz, Combine}.

(** ** Operations *)

(** [cast_to] of the structs that implement it; a nested column gets that of its
    [inner]. *)
Definition chrono_cast_to (this : column_data) (target : SqlType) : option column_data :=
  if is_datetime target then Some (ChronoDateTimeAdapter this target) else None.

Definition nullable_cast_to (inner_cast : SqlType -> option column_data) (nulls : bytes)
  (target : SqlType) : option column_data :=
  match target with
  | Nullable inner_target => inner ← inner_cast inner_target; Some (NullableColumnData inner nulls)
  | _ => None
  end.

Definition array_cast_to (inner_cast : SqlType -> option column_data) (offsets : list Z)
  (target : SqlType) : option column_data :=
  match target with
  | Array inner_target => inner ← inner_cast inner_target; Some (ArrayColumnData inner offsets)
  | _ => None
  end.

(** [ColumnData::cast_to]: [None] for all but dates and what nests them. *)
Fixpoint data_cast_to (self : column_data) (target : SqlType) : option column_data :=
  match self with
  | ChronoDateTimeColumnData _ _ => chrono_cast_to self target
  | NullableColumnData inner nulls => nullable_cast_to (data_cast_to inner) nulls target
  | ArrayColumnData inner offsets => array_cast_to (data_cast_to inner) offsets target
  | _ => None
  end.

(** The loop over the rows of a string column that holds addresses. *)
Definition parse_addresses (parse : bytes -> option bytes) (encode : bytes -> bytes)
  (self : column_data) : Result bytes :=
  n ← len self;
  _ ← alloc 1 n;
  ips ← map_outcome
    (fun i =>
       v ← at_ self i;
       source ← unwrap_result (as_str v);
       ip ← unwrap (parse source);
       Ok (encode ip)) (seqZ 0 n);
  Ok (concat ips).

(** The last branch of [Column::cast_to]. *)
Definition cast_data (self : column_data) (dst_type src_type : SqlType) : Result column_data :=
  match data_cast_to self dst_type with
  | Some data => Ok data
  | None =>
    Err (Error.FromSql (FromSqlError.InvalidType (to_string src_type) (to_string dst_type)))
  end.

(** [Column::cast_to], on the data: the name is kept by every branch.  It calls
    itself twice, and those calls do not call it again. *)
Fixpoint cast_to_fuel (fuel : nat) (self : column_data) (dst_type : SqlType)
  : Result column_data :=
  match fuel with
  | O => OutOfFuel
  | S fuel =>
    let src_type := sql_type self in
    if decide (dst_type = src_type) then Ok self
    else
      match dst_type, src_type with
      | FixedString str_len, String_ => Ok (FixedStringAdapter self str_len)
      | Nullable (FixedString str_len), Nullable String_ =>
        Ok (NullableFixedStringAdapter self str_len)
      | String_, Array UInt8 => Ok (StringAdapter self)
      | FixedString n, Array UInt8 =>
        string_column ← cast_to_fuel fuel self String_;
        cast_to_fuel fuel string_column (FixedString n)
      | Decimal dst_p dst_s, Decimal _ _ =>
        nobits ← unwrap (from_precision dst_p);
        Ok (DecimalAdapter self dst_p dst_s nobits)
      | Enum8 enum_values, Enum8 _ => Ok (Enum8Adapter self enum_values)
      | Enum16 enum_values, Enum16 _ => Ok (Enum16Adapter self enum_values)
      | Nullable (Enum8 enum_values), Nullable (Enum8 _) =>
        Ok (NullableEnum8Adapter self enum_values)
      | Nullable (Enum16 enum_values), Nullable (Enum16 _) =>
        Ok (NullableEnum16Adapter self enum_values)
      | Nullable (Decimal dst_p dst_s), Nullable (Decimal _ _) =>
        nobits ← unwrap (from_precision dst_p);
        Ok (NullableDecimalAdapter self dst_p dst_s nobits)
      | Ipv4, String_ =>
        inner ← parse_addresses ipv4_parse reverse self; Ok (IpColumnData V4 inner)
      | Ipv6, String_ => inner ← parse_addresses ipv6_parse id self; Ok (IpColumnData V6 inner)
      | _, _ => cast_data self dst_type src_type
      end
  end.

Definition cast_to : column_data -> SqlType -> Result column_data := cast_to_fuel 2.

Definition column_cast_to (self : Column) (dst_type : SqlType) : Result Column :=
  data ← cast_to (data self) dst_type; Ok (mkColumn (name self) data).

(** [Block::cast_to]. *)
Definition block_cast_to (self header : Block) : Result Block :=
  if negb (column_count header =? column_count self) then
    Err (Error.FromSql FromSqlError.OutOfRange)
  else
    columns ← map_outcome
      (fun '(column, old_column) => column_cast_to old_column (sql_type (data column)))
      (zip (columns header) (columns self));
    Ok (mkBlock (info self) columns (capacity_ self)).

(** ** What a cast keeps *)

(** [n] rows of [k] bytes. *)
Lemma length_rows {A} (f : A -> Result bytes) xs rows k :
  map_outcome f xs = Ok rows -> (forall x y, f x = Ok y -> length y = k) ->
  length (concat rows) = (length xs * k)%nat.
Proof.
  intros Hm%map_outcome_Ok Hf. induction Hm as [|x y xs ys Hxy _ IH]; [done|].
  cbn. rewrite length_app, IH, (Hf _ _ Hxy). done.
Qed.

Lemma parse_addresses_len v parse encode self n inner :
  (forall s ip, parse s = Some ip -> Z.of_nat (length (encode ip)) = ip_size v) ->
  len self = Ok n -> 0 <= n -> parse_addresses parse encode self = Ok inner ->
  len (IpColumnData v inner) = Ok n.
Proof.
  intros Hp Hl Hn. unfold parse_addresses. rewrite Hl. cbn [mbind outcome_bind].
  destruct (alloc 1 n); try done. cbn [mbind outcome_bind].
  destruct (map_outcome _ (seqZ 0 n)) as [rows| | |] eqn:Hm; try done. cbn [mbind outcome_bind].
  intros [= <-]. eapply (length_rows _ _ _ (Z.to_nat (ip_size v))) in Hm.
  - cbn [len]. rewrite Hm, length_seqZ. pose proof (ip_size_pos v).
    rewrite Nat2Z.inj_mul, !Z2Nat.id by lia. by rewrite div_usize_mul by lia.
  - intros i y. destruct (at_ self i) as [x| | |]; try done. cbn [mbind outcome_bind].
    destruct (unwrap_result (as_str x)) as [s| | |]; try done. cbn [mbind outcome_bind].
    destruct (parse s) as [ip|] eqn:Hs; try done. cbn. intros [= <-].
    specialize (Hp _ _ Hs). lia.
Qed.

Lemma data_cast_to_keeps self target d :
  data_cast_to self target = Some d -> sql_type d = target /\ len d = len self.
Proof.
  revert target d. induction self; intros target d; cbn; try done.
  - unfold chrono_cast_to. destruct (is_datetime target); [|done]. by intros [= <-].
  - destruct target; try done. cbn. destruct (data_cast_to self target) as [i|] eqn:Hi; [|done]. cbn.
    intros [= <-]. destruct (IHself _ _ Hi) as [Ht Hl]. cbn. by rewrite Ht, Hl.
  - destruct target; try done. cbn. destruct (data_cast_to self target) as [i|] eqn:Hi; [|done]. cbn.
    intros [= <-]. destruct (IHself _ _ Hi) as [Ht Hl]. cbn. by rewrite Ht.
Qed.

Lemma decoded_sizes s ip :
  (ipv4_parse s = Some ip -> Z.of_nat (length (reverse ip)) = 4) /\
  (ipv6_parse s = Some ip -> Z.of_nat (length (id ip)) = 16).
Proof.
  split; intros Hp.
  - apply ipv4_parse_length in Hp. rewrite length_reverse. lia.
  - apply ipv6_parse_length in Hp. unfold id. lia.
Qed.

Lemma cast_fuel_keeps fuel self dst_type n d :
  len self = Ok n -> 0 <= n -> cast_to_fuel fuel self dst_type = Ok d ->
  sql_type d = dst_type /\ len d = Ok n.
Proof.
  revert self dst_type n d. induction fuel as [|fuel IH]; intros self dst_type n d Hl Hn; [done|].
  cbn [cast_to_fuel]. unfold cast_data. case_decide as Ht; [by intros [= <-]|].
  pose proof (data_cast_to_keeps self dst_type) as Hk. rewrite Hl in Hk.
  repeat case_match; try done; unfold unwrap; try (by intros [= <-]; auto);
    try (destruct (from_precision _); [cbn; by intros [= <-]|done]).
  - destruct (cast_to_fuel fuel self String_) as [sc| | |] eqn:Hc; try done. cbn.
    destruct (IH _ _ _ _ Hl Hn Hc) as [_ Hlc]. by apply IH.
  - destruct (parse_addresses _ _ self) as [inner| | |] eqn:Hp; try done. cbn [mbind outcome_bind].
    intros [= <-]. split; [done|]. eapply (parse_addresses_len V4); [|done..].
    intros s ip. apply decoded_sizes.
  - destruct (parse_addresses _ _ self) as [inner| | |] eqn:Hp; try done. cbn [mbind outcome_bind].
    intros [= <-]. split; [done|]. eapply (parse_addresses_len V6); [|done..].
    intros s ip. apply decoded_sizes.
Qed.

(** The branches call [cast_to] only on casts that return at once. *)
Lemma cast_to_fuel_enough self dst_type fuel :
  (2 <= fuel)%nat -> cast_to_fuel fuel self dst_type = cast_to self dst_type.
Proof.
  intros Hf. destruct fuel as [|[|fuel]]; [lia..|]. unfold cast_to.
  cbn [cast_to_fuel]. repeat (case_match; try done).
Qed.
End Cast.
