(* ===== verification/ColumnFrom.v ===== *)
(** * Columns made by a program ([ColumnFrom], [Block::column])

    A [source] is a vector of one of the types that implement [ColumnFrom], and
    [column_from] has one branch for each of these.  A vector that exists fits
    into memory, hence so does another vector of as many smaller elements: only
    the capacities that could be larger are checked. *)

From S2P Require Import Prelude RustStd Errors Scalars Finite SqlType TypeNames DecimalNum Values.
From S2P Require Import StringPool ChunkIndex Columns ColumnLaws ColumnReads PushLaws.
From S2P Require Import Compressed Block Iter IterLaws.
Local Open Scope Z_scope.

Section ColumnFrom.
Context {P : Profile} `{ChronoTz, Combine}.

(** ** Operations *)

(** [From<Option<T>> for Value], of a primitive. *)
Definition value_from_option (t : prim) (value : option Z) : Result Value.t :=
  match value with
  | None => default_type ← get_sql_type (HPrim t); Ok (Value.Nullable (Left default_type))
  | Some inner => v ← prim_value t inner; Ok (Value.Nullable (Right v))
  end.

(** [Vec<T>]. *)
Definition vector_from (t : prim) (source : list Z) : Result column_data :=
  data ← list_with_capacity t (Z.of_nat (length source));
  data ← for_each source (fun s data => Ok (data ++ [s])) data;
  Ok (VectorColumnData t data).

(** [Vec<Option<T>>]. *)
Definition options_from (t : prim) (source : list (option Z)) : Result column_data :=
  inner ← vector_from t [];
  for_each source (fun value data => v ← value_from_option t value; push true data v)
    (NullableColumnData inner []).

(** [to_array]. *)
Definition to_array (t : prim) (sql_type : SqlType) (vs : list Z) : Result Value.t :=
  _ ← alloc 32 (Z.of_nat (length vs));
  inner ← map_outcome (prim_value t) vs;
  Ok (Value.Array sql_type inner).

(** The loop [for array in source] over a new [ArrayColumnData]. *)
Definition arrays_from {A} (inner : column_data) (to_array : SqlType -> A -> Result Value.t)
  (source : list A) : Result column_data :=
  for_each source (fun array data => v ← to_array (sql_type inner) array; push true data v)
    (ArrayColumnData inner []).

(** [Vec<Vec<T>>]. *)
Definition vectors_from (t : prim) (source : list (list Z)) : Result column_data :=
  inner ← vector_from t [];
  arrays_from inner (to_array t) source.

(** [Vec<String>], [Vec<&str>] and [Vec<&[u8]>]. *)
Definition strings_from (source : list bytes) : Result column_data :=
  pool ← from_vec source; Ok (StringColumnData pool).

(** [make_array_of_array]. *)
Definition make_array_of_array (source : list (list bytes)) : Result column_data :=
  inner ← strings_from [];
  arrays_from inner
    (fun sql_type vs =>
       _ ← alloc 32 (Z.of_nat (length vs));
       Ok (Value.Array sql_type (Value.String_ <$> vs))) source.

(** [make_opt_column]. *)
Definition make_opt_column (source : list (option bytes)) : Result column_data :=
  pool ← StringPool.with_capacity (Z.of_nat (length source));
  for_each source
    (fun value data =>
       push true data
         (Value.Nullable (match value with Some v => Right (Value.String_ v) | None => Left String_ end)))
    (NullableColumnData (StringColumnData pool) []).

(** [Vec<Date<Tz>>]. *)
Definition dates_from (source : list AppDate) : Result column_data :=
  data ← for_each source (fun s data => Ok (data ++ [get_days s])) [];
  Ok (DateColumnData D16 data Zulu).

(** [Value::Date(u16::get_days(d), d.timezone())]. *)
Definition date_value (d : AppDate) : Value.t := Value.Date (get_days d) (date_timezone d).

(** [Vec<Vec<Date<Tz>>>] and [Vec<Option<Date<Tz>>>]. *)
Definition date_arrays_from (source : list (list AppDate)) : Result column_data :=
  inner ← dates_from [];
  arrays_from inner
    (fun sql_type vs =>
       _ ← alloc 32 (Z.of_nat (length vs));
       Ok (Value.Array sql_type (date_value <$> vs))) source.

Definition option_dates_from (source : list (option AppDate)) : Result column_data :=
  inner ← dates_from [];
  for_each source
    (fun value data =>
       push true data
         (Value.Nullable (match value with Some d => Right (date_value d) | None => Left Date end)))
    (NullableColumnData inner []).

(** [Vec<DateTime<Tz>>]. *)
Definition datetimes_from (data : list DateTime) : column_data :=
  ChronoDateTimeColumnData data (match data with [] => Zulu | d :: _ => dt_timezone d end).

(** [Vec<Vec<DateTime<Tz>>>]. *)
Definition datetime_arrays_from (source : list (list DateTime)) : Result column_data :=
  arrays_from (datetimes_from [])
    (fun sql_type vs =>
       _ ← alloc 32 (Z.of_nat (length vs));
       Ok (Value.Array sql_type
             ((fun v => Value.DateTime_ (wrapu 32 (dt_timestamp v)) (dt_timezone v)) <$> vs))) source.

(** [Vec<Option<DateTime<Tz>>>]: the zone is that of the first instant. *)
Definition option_datetimes_from (source : list (option DateTime)) : Result column_data :=
  let tz := match omap id source with v :: _ => dt_timezone v | [] => Zulu end in
  '(values, nulls) ← for_each source
    (fun time '(values, nulls) =>
       match time with
       | None => v ← timestamp tz 0 0; Ok (values ++ [v], nulls ++ [x01])
       | Some time => Ok (values ++ [time], nulls ++ [x00])
       end) ([], []);
  Ok (NullableColumnData (datetimes_from values) nulls).

(** The octets of an address as the wire has them. *)
Definition encode_ip (v : ip_version) (octets : bytes) : bytes :=
  match v with V4 => reverse octets | V6 => octets | VUuid => uuid_halves octets end.

(** [Vec<Ipv4Addr>], [Vec<Ipv6Addr>], [Vec<Uuid>]. *)
Definition ips_from (v : ip_version) (data : list bytes) : Result column_data :=
  inner ← for_each data (fun ip inner => Ok (inner ++ encode_ip v ip)) [];
  Ok (IpColumnData v inner).

(** [Vec<Option<Ipv4Addr>>], [Vec<Option<Ipv6Addr>>], [Vec<Option<Uuid>>]. *)
Definition option_ips_from (v : ip_version) (source : list (option bytes)) : Result column_data :=
  '(inner, nulls) ← for_each source
    (fun ip '(inner, nulls) =>
       match ip with
       | None => Ok (inner ++ replicate (Z.to_nat (ip_size v)) x00, nulls ++ [x01])
       | Some ip => Ok (inner ++ encode_ip v ip, nulls ++ [x00])
       end) ([], []);
  Ok (NullableColumnData (IpColumnData v inner) nulls).

(** The precision and the scale of the decimals so far: all scales must agree. *)
Definition decimal_step (s : Decimal.t) (acc : Z * option Z) : Result (Z * option Z) :=
  let '(precision, opt_scale) := acc in
  match opt_scale with
  | Some old_scale =>
    if old_scale =? Decimal.scale s
    then Ok (Z.max precision (Decimal.precision s), opt_scale) else Panic
  | None => Ok (Z.max precision (Decimal.precision s), Some (Decimal.scale s))
  end.

Definition decimal_column (data : list Z) (acc : Z * option Z) : column_data :=
  let '(precision, opt_scale) := acc in
  DecimalColumnData (VectorColumnData i64 data) precision (default 4 opt_scale) N64.

(** [Vec<Decimal>] and [Vec<Option<Decimal>>]. *)
Definition decimals_from (source : list Decimal.t) : Result column_data :=
  data ← list_with_capacity i64 (Z.of_nat (length source));
  '(data, acc) ← for_each source
    (fun s '(data, acc) =>
       acc ← decimal_step s acc; Ok (data ++ [Decimal.internal N64 s], acc))
    (data, (18, None));
  Ok (decimal_column data acc).

Definition option_decimals_from (source : list (option Decimal.t)) : Result column_data :=
  data ← list_with_capacity i64 (Z.of_nat (length source));
  '(data, nulls, acc) ← for_each source
    (fun os '(data, nulls, acc) =>
       match os with
       | Some s =>
         acc ← decimal_step s acc; Ok (data ++ [Decimal.internal N64 s], nulls ++ [x00], acc)
       | None => Ok (data ++ [0], nulls ++ [x01], acc)
       end)
    (data, [], (18, None));
  Ok (NullableColumnData (decimal_column data acc) nulls).

(** [Vec<Enum8>] and [Vec<Enum16>]. *)
Definition enum8s_from (source : list Z) : Result column_data :=
  inner ← vector_from i8 source; Ok (Enum8ColumnData [] inner).

Definition enum16s_from (source : list Z) : Result column_data :=
  inner ← vector_from i16 source; Ok (Enum16ColumnData [] inner).

(** [Vec<Option<Enum8>>] and [Vec<Option<Enum16>>]. *)
Definition option_enums_from (t : prim) (enum : column_data -> column_data)
  (source : list (option Z)) : Result column_data :=
  data ← list_with_capacity t (Z.of_nat (length source));
  '(nulls, data) ← for_each source
    (fun os '(nulls, data) =>
       match os with
       | Some s => Ok (nulls ++ [x00], data ++ [s])
       | None => Ok (nulls ++ [x01], data ++ [0])
       end) ([], data);
  Ok (NullableColumnData (enum (VectorColumnData t data)) nulls).

Definition option_enum8s_from : list (option Z) -> Result column_data :=
  option_enums_from i8 (Enum8ColumnData []).

Definition option_enum16s_from : list (option Z) -> Result column_data :=
  option_enums_from i16 (Enum16ColumnData []).

(** The types that implement [ColumnFrom]. *)
Inductive source :=
| FromPrims (t : prim) (xs : list Z)
| FromPrimOptions (t : prim) (xs : list (option Z))
| FromPrimVecs (t : prim) (xs : list (list Z))
| FromStrings (xs : list bytes)
| FromStringOptions (xs : list (option bytes))
| FromStringVecs (xs : list (list bytes))
| FromDates (xs : list AppDate)
| FromDateOptions (xs : list (option AppDate))
| FromDateVecs (xs : list (list AppDate))
| FromDateTimes (xs : list DateTime)
| FromDateTimeOptions (xs : list (option DateTime))
| FromDateTimeVecs (xs : list (list DateTime))
| FromIps (v : ip_version) (xs : list bytes)
| FromIpOptions (v : ip_version) (xs : list (option bytes))
| FromDecimals (xs : list Decimal.t)
| FromDecimalOptions (xs : list (option Decimal.t))
| FromEnum8s (xs : list Z) | FromEnum8Options (xs : list (option Z))
| FromEnum16s (xs : list Z) | FromEnum16Options (xs : list (option Z))
| FromColumn (c : Column).

Definition column_from (s : source) : Result column_data :=
  match s with
  | FromPrims t xs => vector_from t xs
  | FromPrimOptions t xs => options_from t xs
  | FromPrimVecs t xs => vectors_from t xs
  | FromStrings xs => strings_from xs
  | FromStringOptions xs => make_opt_column xs
  | FromStringVecs xs => make_array_of_array xs
  | FromDates xs => dates_from xs
  | FromDateOptions xs => option_dates_from xs
  | FromDateVecs xs => date_arrays_from xs
  | FromDateTimes xs => Ok (datetimes_from xs)
  | FromDateTimeOptions xs => option_datetimes_from xs
  | FromDateTimeVecs xs => datetime_arrays_from xs
  | FromIps v xs => ips_from v xs
  | FromIpOptions v xs => option_ips_from v xs
  | FromDecimals xs => decimals_from xs
  | FromDecimalOptions xs => option_decimals_from xs
  | FromEnum8s xs => enum8s_from xs
  | FromEnum8Options xs => option_enum8s_from xs
  | FromEnum16s xs => enum16s_from xs
  | FromEnum16Options xs => option_enum16s_from xs
  | FromColumn c => Ok (data c)
  end.

(** [Block::column] and [Block::add_column]. *)
Definition block_column (self : Block) (name : bytes) (values : source) : Result Block :=
  data ← column_from values; append_column self (mkColumn name data).
End ColumnFrom.
