(* ===== verification/FromLaws.v ===== *)
(** * A column made from a vector holds that vector

    [leaf T] is what the loops over optional and nested values need of the
    column they push into; the columns of the primitives and of the strings
    implement it.  Together with the laws of the iterators: a program gets back
    the vector that it made a column from. *)

From S2P Require Import Prelude RustStd Errors Scalars Finite SqlType TypeNames DecimalNum Values.
From S2P Require Import StringPool ChunkIndex Columns ColumnLaws ColumnReads PushLaws.
From S2P Require Import Compressed Block Iter IterLaws ColumnFrom.
Local Open Scope Z_scope.

Section FromLaws.
Context {P : Profile} `{ChronoTz, Combine, !InstantLayout} (item_size : iterable -> Z).

(** ** The column below *)

(** [lf_is c xs]: the column [c] holds the items [xs]. *)
Record leaf (T : iterable) := {
  lf_is : column_data -> list (item T) -> Prop;
  lf_good : item T -> Prop;
  lf_value : item T -> Value.t;
  lf_null : item T;
  lf_null_good : lf_good lf_null;
  lf_flat c xs : lf_is c xs -> cdepth c = 1%nat /\ depth (sql_type c) = 0;
  lf_default c xs : lf_is c xs -> value_default (sql_type c) = Ok (lf_value lf_null);
  lf_push fuel arcs c xs x :
    lf_is c xs -> lf_good x ->
    exists c', push_fuel (S fuel) arcs c (lf_value x) = Ok c' /\ lf_is c' (xs ++ [x]) /\
      sql_type c' = sql_type c;
  lf_holds c xs :
    lf_is c xs -> Z.of_nat (length xs) < 2 ^ 64 ->
    holds item_size T (Z.of_nat (length xs)) c /\ values T c = Ok xs
}.
#[local] Arguments lf_is {T}.
#[local] Arguments lf_good {T}.
#[local] Arguments lf_value {T}.
#[local] Arguments lf_null {T}.

Definition prim_val (t : prim) (x : Z) : Value.t :=
  match prim_value (E:=Error) t x with Ok v => v | _ => Value.UInt8 0 end.

Lemma prim_value_val {E} t x : t <> bool_ -> prim_value (E:=E) t x = Ok (prim_val t x).
Proof. by destruct t. Qed.

Program Definition prim_leaf (t : prim) (Ht : t <> bool_) : leaf (TPrim t) := {|
  lf_is c xs := c = VectorColumnData t xs;
  lf_good _ := True;
  lf_value := prim_val t;
  lf_null := 0
|}.
Next Obligation. done. Qed.
Next Obligation. intros t Ht c xs ->. by destruct t. Qed.
Next Obligation. intros t Ht c xs ->. by destruct t. Qed.
Next Obligation.
  intros t Ht fuel arcs c xs x -> _. exists (VectorColumnData t (xs ++ [x])).
  split_and!; [by destruct t|done..].
Qed.
Next Obligation. intros t Ht c xs -> _. done. Qed.

Program Definition string_leaf : leaf TBytes := {|
  lf_is c xs := exists pool, c = StringColumnData pool /\ wf pool /\ roomy pool /\ contents pool = xs;
  lf_good s := Z.of_nat (length s) <= isize_max;
  lf_value := Value.String_;
  lf_null := []
|}.
Next Obligation. done. Qed.
Next Obligation. by intros c xs (pool & -> & _). Qed.
Next Obligation. by intros c xs (pool & -> & _). Qed.
Next Obligation.
  intros fuel arcs c xs s (pool & -> & Hwf & Hr & Hc) Hs.
  destruct (push_string_ok (E:=Error) pool s Hwf Hr Hs) as (pool' & Hp & Hwf' & Hc' & Hcap).
  exists (StringColumnData pool'). cbn [push_fuel value_bytes mbind outcome_bind]. rewrite Hp. split_and!; try done.
  exists pool'. split_and!; try done; [unfold roomy; by rewrite Hcap|]. by rewrite Hc', Hc.
Qed.
Next Obligation.
  intros c xs (pool & -> & Hwf & _ & <-) Hl. cbn. rewrite length_contents in *. done.
Qed.

(** One level of [push]. *)
Lemma push_nullable_step arcs c nulls v :
  push arcs (NullableColumnData c nulls) v = nullable_push (push_fuel (cdepth c) arcs) arcs c nulls v.
Proof. done. Qed.

Lemma push_array_step arcs c offsets v :
  push arcs (ArrayColumnData c offsets) v = array_push (push_fuel (cdepth c) arcs) arcs c offsets v.
Proof. done. Qed.

(** ** Optional values *)

Section Leaf.
Context {T : iterable} (L : leaf T).

Definition opt_value (ty : SqlType) (o : option (item T)) : Value.t :=
  Value.Nullable (match o with Some x => Right (lf_value L x) | None => Left ty end).

Lemma push_opt ty c ys nulls o :
  lf_is L c ys -> sql_type c = ty -> from_option (lf_good L) True o ->
  exists c', push true (NullableColumnData c nulls) (opt_value ty o) =
      Ok (NullableColumnData c' (nulls ++ null_map [o])) /\
    lf_is L c' (ys ++ [default (lf_null L) o]) /\ sql_type c' = ty.
Proof.
  intros Hc Ht Ho. destruct (lf_flat _ L c ys Hc) as [Hd _]. rewrite push_nullable_step, Hd.
  destruct o as [x|]; cbn [opt_value nullable_push assert_ mbind outcome_bind].
  - destruct (lf_push _ L 0 true c ys x Hc Ho) as (c' & -> & Hc' & Ht'). exists c'. cbn.
    split_and!; congruence || done.
  - subst ty. rewrite (lf_default _ L c ys Hc). cbn [mbind outcome_bind].
    destruct (lf_push _ L 0 true c ys (lf_null L) Hc (lf_null_good _ L)) as (c' & -> & Hc' & Ht').
    exists c'. cbn. split_and!; congruence || done.
Qed.

Lemma push_opts (f : option (item T) -> column_data -> Result column_data) ty xs c ys nulls :
  (forall o c, f o c = push true c (opt_value ty o)) ->
  lf_is L c ys -> sql_type c = ty -> Forall (from_option (lf_good L) True) xs ->
  exists c', for_each xs f (NullableColumnData c nulls) =
      Ok (NullableColumnData c' (nulls ++ null_map xs)) /\
    lf_is L c' (ys ++ (default (lf_null L) <$> xs)) /\ sql_type c' = ty.
Proof.
  intros Hf Hc Ht Hxs. revert c ys nulls Hc Ht. induction Hxs as [|o xs Ho _ IH]; intros c ys nulls Hc Ht.
  { exists c. cbn. rewrite !app_nil_r. done. }
  destruct (push_opt ty c ys nulls o) as (c1 & Hp & Hc1 & Ht1); try done.
  destruct (IH c1 _ (nulls ++ null_map [o]) Hc1 Ht1) as (c' & Hr & Hc' & Ht').
  exists c'. cbn [for_each]. rewrite Hf, Hp. cbn [mbind outcome_bind]. rewrite Hr.
  split_and!; [by rewrite <- app_assoc|by rewrite <- app_assoc in Hc'|done].
Qed.

Lemma zip_opt_items {A} (null : A) (xs : list (option A)) :
  zip_with opt_item (null_map xs) (default null <$> xs) = xs.
Proof.
  unfold null_map. induction xs as [|[x|] xs IH]; cbn; [done|..];
    unfold opt_item in *; by rewrite IH.
Qed.

Lemma null_map_flags {A} (xs : list (option A)) :
  Forall (fun flag => flag = x00 \/ flag = x01) (null_map xs).
Proof. apply Forall_fmap, Forall_forall. intros [x|] _; cbn; auto. Qed.

(** The items of a column of optional items. *)
Lemma opts_hold c xs :
  lf_is L c (default (lf_null L) <$> xs) -> Z.of_nat (length xs) < 2 ^ 64 ->
  holds item_size (TOption T) (Z.of_nat (length xs)) (NullableColumnData c (null_map xs)) /\
  values (TOption T) (NullableColumnData c (null_map xs)) = Ok xs.
Proof.
  intros Hc Hl. destruct (lf_holds _ L _ _ Hc) as [Hh Hv]; [by rewrite length_fmap|].
  rewrite length_fmap in Hh. split.
  - cbn [holds]. split_and!; [unfold null_map; by rewrite length_fmap|apply null_map_flags|done].
  - cbn [values]. rewrite Hv. cbn [mbind outcome_bind]. f_equal. apply zip_opt_items.
Qed.

(** ** Nested values *)

Fixpoint ends {A} (acc : Z) (xss : list (list A)) : list Z :=
  match xss with
  | [] => []
  | xs :: xss => (acc + Z.of_nat (length xs)) :: ends (acc + Z.of_nat (length xs)) xss
  end.

Definition total {A} (xss : list (list A)) : Z := Z.of_nat (length (concat xss)).

Lemma length_ends {A} acc (xss : list (list A)) : length (ends acc xss) = length xss.
Proof. revert acc. induction xss as [|xs xss IH]; intros acc; cbn; [done|]. by rewrite IH. Qed.

Lemma ends_ascending {A} acc (xss : list (list A)) : ascending acc (ends acc xss).
Proof. revert acc. induction xss as [|xs xss IH]; intros acc; cbn; [done|]. split; [lia|apply IH]. Qed.

Lemma last_ends {A} acc (xss : list (list A)) :
  default acc (last (ends acc xss)) = acc + total xss.
Proof.
  unfold total. revert acc. induction xss as [|xs xss IH]; intros acc; cbn [ends concat length]; [cbn; lia|].
  specialize (IH (acc + Z.of_nat (length xs))). rewrite length_app.
  destruct (ends _ xss) as [|e es] eqn:He.
  - cbn in *. lia.
  - rewrite last_cons_cons. destruct (last (e :: es)) eqn:Hl; [cbn in *; lia|by apply last_None in Hl].
Qed.

Lemma offset_of_ends {A} (xss : list (list A)) : offset_of (ends 0 xss) = total xss.
Proof. unfold offset_of. rewrite last_ends. lia. Qed.

Lemma cut_ends {A} acc (xss : list (list A)) : cut acc (ends acc xss) (concat xss) = xss.
Proof.
  revert acc. induction xss as [|xs xss IH]; intros acc; cbn; [done|].
  replace (Z.to_nat (acc + Z.of_nat (length xs) - acc)) with (length xs) by lia.
  by rewrite take_app_length, drop_app_length, IH.
Qed.

Lemma push_items arcs c ys xs :
  lf_is L c ys -> Forall (lf_good L) xs ->
  exists c', for_each (lf_value L <$> xs) (fun v c => push_fuel 1 arcs c v) c = Ok c' /\
    lf_is L c' (ys ++ xs) /\ sql_type c' = sql_type c.
Proof.
  intros Hc Hxs. revert c ys Hc. induction Hxs as [|x xs Hx _ IH]; intros c ys Hc.
  { exists c. by rewrite app_nil_r. }
  destruct (lf_push _ L 0 arcs c ys x Hc Hx) as (c1 & Hp & Hc1 & Ht1).
  destruct (IH c1 _ Hc1) as (c' & Hf & Hc' & Ht').
  exists c'. rewrite fmap_cons. cbn [for_each]. rewrite Hp. cbn [mbind outcome_bind]. rewrite Hf.
  rewrite <- app_assoc in Hc'. split_and!; congruence || done.
Qed.

Definition array_value (ty : SqlType) (xs : list (item T)) : Value.t :=
  Value.Array ty (lf_value L <$> xs).

Lemma push_arrays (to_array : SqlType -> list (item T) -> Result Value.t) ty inner xss c ys offsets :
  (forall xs, xs ∈ xss -> to_array ty xs = Ok (array_value ty xs)) ->
  lf_is L c ys -> sql_type c = ty -> sql_type inner = ty -> Forall (Forall (lf_good L)) xss ->
  0 <= offset_of offsets -> offset_of offsets + total xss < 2 ^ 64 ->
  exists c', for_each xss
      (fun array data => v ← to_array (sql_type inner) array; push true data v)
      (ArrayColumnData c offsets) =
      Ok (ArrayColumnData c' (offsets ++ ends (offset_of offsets) xss)) /\
    lf_is L c' (ys ++ concat xss) /\ sql_type c' = ty.
Proof.
  intros Ha Hc Ht Hi Hxss. revert c ys offsets Ha Hc Ht.
  induction Hxss as [|xs xss Hxs _ IH]; intros c ys offsets Ha Hc Ht Ho Hb.
  { exists c. cbn. rewrite !app_nil_r. done. }
  unfold total in Hb. cbn [concat] in Hb. rewrite length_app in Hb.
  destruct (push_items true c ys xs Hc Hxs) as (c1 & Hp & Hc1 & Ht1).
  destruct (IH c1 (ys ++ xs) (offsets ++ [offset_of offsets + Z.of_nat (length xs)]))
    as (c' & Hf & Hc' & Ht'); [by intros; apply Ha; right|done|congruence| | |].
  { rewrite offset_of_app. lia. }
  { rewrite offset_of_app. unfold total. lia. }
  exists c'. cbn [for_each]. rewrite Hi, Ha by left. cbn [mbind outcome_bind]. 
  rewrite push_array_step. destruct (lf_flat _ L c ys Hc) as [-> _].
  unfold array_push, array_value. cbn [assert_ mbind outcome_bind].
  fold (offset_of offsets). rewrite length_fmap. rewrite arith_u_ok by (apply in_u_spec; lia).
  cbn [mbind outcome_bind]. rewrite Hp. cbn [mbind outcome_bind]. rewrite Hi in Hf. rewrite Hf.
  rewrite offset_of_app, <- app_assoc. rewrite <- app_assoc in Hc'. by split_and!.
Qed.

(** The items of a column of arrays. *)
Lemma arrays_hold c xss :
  lf_is L c (concat xss) -> Z.of_nat (length xss) < 2 ^ 64 -> total xss * 32 <= isize_max ->
  0 <= item_size T -> total xss * item_size T <= isize_max ->
  holds item_size (TVec T) (Z.of_nat (length xss)) (ArrayColumnData c (ends 0 xss)) /\
  values (TVec T) (ArrayColumnData c (ends 0 xss)) = Ok xss.
Proof.
  intros Hc Hl H32 Hs Hb. unfold isize_max in H32.
  destruct (lf_holds _ L _ _ Hc) as [Hh Hv]; [unfold total in *; lia|]. split.
  - cbn [holds]. rewrite length_ends, offset_of_ends. split_and!; try done; [apply ends_ascending|lia].
  - cbn [values]. rewrite Hv. cbn [mbind outcome_bind]. f_equal. apply cut_ends.
Qed.
End Leaf.

(** ** Addresses *)

Lemma pieces_concat (k : nat) xs :
  Forall (fun x => length x = k) xs -> pieces k (length xs) (concat xs) = xs.
Proof.
  induction 1 as [|x xs Hx _ IH]; [done|]. cbn [length pieces concat].
  rewrite take_app_le, take_ge, drop_app_ge by lia.
  by rewrite Hx, Nat.sub_diag, drop_0, IH.
Qed.

Lemma length_concat_const (k : nat) (xs : list bytes) :
  Forall (fun x => length x = k) xs -> length (concat xs) = (length xs * k)%nat.
Proof. induction 1 as [|x xs Hx _ IH]; [done|]. cbn. rewrite length_app, IH. lia. Qed.

Lemma addresses_concat (k : nat) xs :
  (0 < k)%nat -> Forall (fun x => length x = k) xs -> addresses k (concat xs) = xs.
Proof.
  intros Hk Hxs. unfold addresses. rewrite (length_concat_const k) by done.
  rewrite Nat.div_mul by lia. by apply pieces_concat.
Qed.

Definition ip_bytes (v : ip_version) : nat := Z.to_nat (ip_size v).

Definition decode_ip (v : ip_version) : bytes -> bytes :=
  match v with V4 => decode_ipv4 | V6 => decode_ipv6 | VUuid => uuid_halves end.

Lemma length_uuid_halves row : length (uuid_halves row) = length row.
Proof. unfold uuid_halves. rewrite length_app, !length_reverse, length_take, length_drop. lia. Qed.

Lemma decode_encode_ip v x : length x = ip_bytes v -> decode_ip v (encode_ip v x) = x.
Proof.
  intros Hx. destruct v; cbn; [apply reverse_involutive|done|by apply uuid_halves_invol].
Qed.

Lemma length_encode_ip v x : length (encode_ip v x) = length x.
Proof. destruct v; cbn; [apply length_reverse|done|apply length_uuid_halves]. Qed.

Lemma decode_encode_ips v xs :
  Forall (fun x => length x = ip_bytes v) xs ->
  decode_ip v <$> addresses (ip_bytes v) (concat (encode_ip v <$> xs)) = xs.
Proof.
  intros Hxs. rewrite addresses_concat.
  - rewrite <- list_fmap_compose. rewrite <- (list_fmap_id xs) at 2.
    apply list_fmap_ext. intros i x Hx%(Forall_lookup_1 _ _ _ _ Hxs). by apply decode_encode_ip.
  - unfold ip_bytes. pose proof (ip_size_pos v). lia.
  - apply Forall_fmap. eapply Forall_impl; [exact Hxs|]. intros x Hx. cbn.
    by rewrite length_encode_ip.
Qed.

Definition ip_iterable (v : ip_version) : iterable :=
  match v with V4 => TIpv4 | V6 => TIpv6 | VUuid => TUuid end.

(** Their items are octets. *)
Definition ip_items (v : ip_version) : list bytes -> list (item (ip_iterable v)) :=
  match v with V4 | V6 | VUuid => fun xs => xs end.

Definition ip_options (v : ip_version) : list (option bytes) -> list (option (item (ip_iterable v))) :=
  match v with V4 | V6 | VUuid => fun xs => xs end.

Lemma ips_hold v xs :
  Forall (fun x => length x = ip_bytes v) xs ->
  holds item_size (ip_iterable v) (Z.of_nat (length xs)) (IpColumnData v (concat (encode_ip v <$> xs))) /\
  values (ip_iterable v) (IpColumnData v (concat (encode_ip v <$> xs))) = Ok (ip_items v xs).
Proof.
  intros Hxs.
  assert (length (concat (encode_ip v <$> xs)) = (length xs * ip_bytes v)%nat) as Hl.
  { rewrite (length_concat_const (ip_bytes v)); [by rewrite length_fmap|]. apply Forall_fmap.
    eapply Forall_impl; [exact Hxs|]. intros x Hx. cbn. by rewrite length_encode_ip. }
  pose proof (decode_encode_ips v xs Hxs) as Hd. split.
  - unfold ip_bytes in Hl.
    destruct v; cbn [holds ip_iterable ip_of]; (split_and!; [done|lia|]); rewrite Hl, Nat2Z.inj_mul,
      Z2Nat.id by done; done.
  - destruct v; cbn [values ip_iterable ip_items]; f_equal; exact Hd.
Qed.

(** ** The loops *)

Lemma for_each_snoc {E A B} (f : A -> B) xs ys :
  for_each xs (fun s data => Ok (data ++ [f s])) ys = (Ok (ys ++ (f <$> xs)) : outcome E (list B)).
Proof.
  revert ys. induction xs as [|x xs IH]; intros ys; cbn; [by rewrite app_nil_r|].
  by rewrite IH, <- app_assoc.
Qed.

Lemma vector_from_ok t xs :
  Z.of_nat (length xs) * size_of t <= isize_max -> vector_from t xs = Ok (VectorColumnData t xs).
Proof.
  intros Hl. unfold vector_from, list_with_capacity. pose proof (size_of_pos t).
  rewrite alloc_ok by nia. cbn [mbind outcome_bind].
  rewrite (for_each_snoc id). cbn. by rewrite list_fmap_id.
Qed.

Lemma ips_from_ok v xs : ips_from v xs = Ok (IpColumnData v (concat (encode_ip v <$> xs))).
Proof.
  unfold ips_from.
  assert (forall acc, for_each xs (fun ip inner => Ok (inner ++ encode_ip v ip)) acc =
    (Ok (acc ++ concat (encode_ip v <$> xs)) : Result bytes)) as Hf.
  { induction xs as [|x xs IH]; intros acc; cbn; [by rewrite app_nil_r|].
    by rewrite IH, <- app_assoc. }
  by rewrite Hf.
Qed.

Lemma option_ips_from_ok v xs :
  option_ips_from v xs =
    Ok (NullableColumnData
      (IpColumnData v (concat (from_option (encode_ip v) (replicate (ip_bytes v) x00) <$> xs)))
      (null_map xs)).
Proof.
  unfold option_ips_from.
  assert (forall acc nulls, for_each xs
    (fun ip '(inner, nulls) =>
       match ip with
       | None => Ok (inner ++ replicate (ip_bytes v) x00, nulls ++ [x01])
       | Some ip => Ok (inner ++ encode_ip v ip, nulls ++ [x00])
       end) (acc, nulls) =
    (Ok (acc ++ concat (from_option (encode_ip v) (replicate (ip_bytes v) x00) <$> xs),
         nulls ++ null_map xs) : Result (bytes * bytes))) as Hf.
  { induction xs as [|[x|] xs IH]; intros acc nulls; cbn; [by rewrite !app_nil_r|..];
      by rewrite IH, <- !app_assoc. }
  unfold ip_bytes in Hf. by rewrite Hf.
Qed.

Lemma option_ips_hold v xs :
  Forall (from_option (fun x => length x = ip_bytes v) True) xs ->
  exists c, option_ips_from v xs = Ok c /\
    depth (sql_type c) < 256 /\
    holds item_size (TOption (ip_iterable v)) (Z.of_nat (length xs)) c /\
    values (TOption (ip_iterable v)) c = Ok (ip_options v xs).
Proof.
  intros Hxs. rewrite option_ips_from_ok. eexists. split; [reflexivity|].
  set (zero := replicate (ip_bytes v) x00).
  assert (from_option (encode_ip v) zero <$> xs =
    encode_ip v <$> (default zero <$> xs)) as ->.
  { rewrite <- list_fmap_compose. apply list_fmap_ext. intros i [x|] _; [done|]. cbn.
    by destruct v. }
  destruct (ips_hold v (default zero <$> xs)) as [Hh Hv].
  { apply Forall_fmap. eapply Forall_impl; [exact Hxs|]. intros [x|] Hx; cbn in *; [done|].
    apply length_replicate. }
  rewrite length_fmap in Hh. split; [by destruct v|]. split.
  - cbn [holds]. split_and!; [unfold null_map; by rewrite length_fmap|apply null_map_flags|done].
  - cbn [values]. rewrite Hv. cbn [mbind outcome_bind]. f_equal.
    destruct v; apply zip_opt_items.
Qed.

Definition short (s : bytes) : Prop := Z.of_nat (length s) <= isize_max.

(** The nested vectors [xss] fit into memory, as [Value]s and as items of [T]. *)
Definition arrays_fit {A} (T : iterable) (xss : list (list A)) : Prop :=
  Z.of_nat (length xss) < 2 ^ 64 /\ total xss * 32 <= isize_max /\
  0 <= item_size T /\ total xss * item_size T <= isize_max.

(** The sources whose column can be iterated over, with the items. *)
Inductive makes : source -> forall T, list (item T) -> Prop :=
| makes_prims t xs :
  t <> bool_ -> Z.of_nat (length xs) * size_of t <= isize_max -> makes (FromPrims t xs) (TPrim t) xs
| makes_prim_options t xs :
  t <> bool_ -> Z.of_nat (length xs) < 2 ^ 64 ->
  makes (FromPrimOptions t xs) (TOption (TPrim t)) xs
| makes_prim_vecs t xs :
  t <> bool_ -> arrays_fit (TPrim t) xs -> makes (FromPrimVecs t xs) (TVec (TPrim t)) xs
| makes_strings xs :
  Forall short xs -> Z.of_nat (length xs) * AVG_STR_SIZE <= isize_max ->
  makes (FromStrings xs) TBytes xs
| makes_string_options xs :
  Forall (from_option short True) xs -> Z.of_nat (length xs) * AVG_STR_SIZE <= isize_max ->
  makes (FromStringOptions xs) (TOption TBytes) xs
| makes_string_vecs xs :
  Forall (Forall short) xs -> arrays_fit TBytes xs -> makes (FromStringVecs xs) (TVec TBytes) xs
| makes_ips v xs :
  Forall (fun x => length x = ip_bytes v) xs -> makes (FromIps v xs) (ip_iterable v) (ip_items v xs)
| makes_ip_options v xs :
  Forall (from_option (fun x => length x = ip_bytes v) True) xs ->
  makes (FromIpOptions v xs) (TOption (ip_iterable v)) (ip_options v xs).

Definition holds_items (c : column_data) (T : iterable) (xs : list (item T)) : Prop :=
  depth (sql_type c) < 256 /\ holds item_size T (Z.of_nat (length xs)) c /\ values T c = Ok xs.

Lemma empty_pool_ok capacity :
  0 <= capacity * AVG_STR_SIZE <= isize_max ->
  StringPool.with_capacity capacity = (Ok (Pool [] [] 0 capacity) : Result StringPool) /\
  lf_is string_leaf (StringColumnData (Pool [] [] 0 capacity)) [].
Proof.
  intros Hc. unfold AVG_STR_SIZE in Hc. unfold StringPool.with_capacity. rewrite alloc_ok by lia.
  split; [done|]. exists (Pool [] [] 0 capacity). split_and!; [done| |exact Hc|done].
  by split; cbn; [constructor|].
Qed.

Lemma array_of_short {A} (xss : list (list A)) xs :
  total xss * 32 <= isize_max -> xs ∈ xss -> 0 <= 32 * Z.of_nat (length xs) <= isize_max.
Proof.
  intros Hb [l1 [l2 ->]]%list_elem_of_split. unfold total in Hb.
  rewrite concat_app, length_app in Hb. cbn in Hb. rewrite length_app in Hb. lia.
Qed.

Lemma options_from_makes t xs :
  t <> bool_ -> Z.of_nat (length xs) < 2 ^ 64 ->
  exists c, options_from t xs = Ok c /\ holds_items c (TOption (TPrim t)) xs.
Proof.
  intros Ht Hl. unfold options_from. rewrite vector_from_ok by done. cbn [mbind outcome_bind].
  edestruct (push_opts (prim_leaf t Ht)
    (fun value data => v ← value_from_option t value; push true data v) (vector_sql_type t) xs
    (VectorColumnData t []) [] []) as (c & Hf & Hc & Hty); [|done|done|..].
  - intros [x|] c; cbn; [|by destruct t]. by rewrite prim_value_val by done.
  - apply Forall_forall. by intros [x|] _.
  - cbn [item] in Hf. rewrite Hf. eexists. split; [reflexivity|]. cbn [app].
    destruct (opts_hold (prim_leaf t Ht) c xs Hc Hl) as [Hh Hv].
    split_and!; [|done..]. cbn. rewrite Hty. by destruct t.
Qed.

Lemma make_opt_column_makes xs :
  Forall (from_option short True) xs -> Z.of_nat (length xs) * AVG_STR_SIZE <= isize_max ->
  exists c, make_opt_column xs = Ok c /\ holds_items c (TOption TBytes) xs.
Proof.
  intros Hs Hl. unfold make_opt_column.
  destruct (empty_pool_ok (Z.of_nat (length xs))) as [-> Hp]; [unfold AVG_STR_SIZE in *; lia|].
  cbn [mbind outcome_bind].
  edestruct (push_opts string_leaf (fun value data => push true data (opt_value string_leaf String_ value))
    String_ xs (StringColumnData (Pool [] [] 0 (Z.of_nat (length xs)))) [] []) as (c & Hf & Hc & Hty);
    [done|exact Hp|done|exact Hs|].
  unfold opt_value in Hf. cbn [lf_value string_leaf item] in Hf. rewrite Hf.
  eexists. split; [reflexivity|]. cbn [app].
  assert (Z.of_nat (length xs) < 2 ^ 64) as Hb by (unfold AVG_STR_SIZE, isize_max in *; lia).
  destruct (opts_hold string_leaf c xs Hc Hb) as [Hh Hv].
  split_and!; [|done..]. cbn. by rewrite Hty.
Qed.

(** A loop over nested vectors. *)
Lemma arrays_from_makes {T} (L : leaf T) to_array c xss :
  lf_is L c [] -> (forall xs, xs ∈ xss -> to_array (sql_type c) xs = Ok (array_value L (sql_type c) xs)) ->
  Forall (Forall (lf_good L)) xss -> arrays_fit T xss ->
  exists c', arrays_from c to_array xss = Ok c' /\ holds_items c' (TVec T) xss.
Proof.
  intros Hc Ha Hg (Hl & H32 & Hs & Hb).
  destruct (push_arrays L to_array (sql_type c) c xss c [] []) as (c' & Hf & Hc' & Ht);
    [done..|unfold offset_of; cbn; lia|unfold offset_of, isize_max in *; cbn; lia|].
  exists (ArrayColumnData c' (ends 0 xss)). split; [exact Hf|].
  destruct (arrays_hold L c' xss) as [Hh Hv]; [done..|].
  split_and!; [|done..]. cbn [sql_type depth]. destruct (lf_flat _ L _ _ Hc') as [_ ->]. lia.
Qed.

Lemma column_from_makes s T xs :
  makes s T xs -> exists c, column_from s = Ok c /\ holds_items c T xs.
Proof.
  intros [t ys Ht Hl|t ys Ht Hl|t ys Ht Hfit|ys Hs Hl|ys Hs Hl|ys Hs Hfit|v ys Hl|v ys Hl];
    cbn [column_from].
  - rewrite vector_from_ok by done. eexists. split; [reflexivity|].
    unfold holds_items. cbn. split_and!; try done. by destruct t.
  - by apply options_from_makes.
  - unfold vectors_from. rewrite vector_from_ok by done. cbn [mbind outcome_bind].
    apply (arrays_from_makes (prim_leaf t Ht)); try done.
    + intros zs Hz. unfold to_array. destruct Hfit as (_ & H32 & _).
      rewrite alloc_ok by (by eapply array_of_short). cbn [mbind outcome_bind].
      assert (map_outcome (prim_value t) zs = (Ok (prim_val t <$> zs) : Result (list Value.t))) as ->.
      { apply map_outcome_Ok, Forall2_map. intros z. by apply prim_value_val. }
      done.
    + apply Forall_forall. intros zs _. by apply Forall_forall.
  - unfold strings_from. destruct (from_vec_ok (E:=Error) ys Hs Hl) as (pool & -> & Hwf & Hc).
    eexists. split; [reflexivity|]. unfold holds_items. cbn. rewrite Hc.
    rewrite <- length_contents, Hc. unfold AVG_STR_SIZE, isize_max in Hl. split_and!; (done || lia).
  - by apply make_opt_column_makes.
  - unfold make_array_of_array, strings_from, from_vec.
    destruct (empty_pool_ok (Z.of_nat (@length bytes []))) as [-> Hp]; [done|].
    cbn [mbind outcome_bind for_each].
    apply (arrays_from_makes string_leaf); try done.
    intros zs Hz. destruct Hfit as (_ & H32 & _). by rewrite alloc_ok by (by eapply array_of_short).
  - rewrite ips_from_ok. eexists. split; [reflexivity|]. destruct (ips_hold v ys Hl) as [Hh Hv].
    split_and!; [by destruct v| |done]. by destruct v.
  - destruct (option_ips_hold v ys Hl) as (c & Hc & Hd & Hh & Hv). exists c. split; [done|].
    split_and!; [done| |done]. by destruct v.
Qed.
End FromLaws.
