(* ===== verification/CastLaws.v ===== *)
(** * What a cast writes and reads

    A string column that is cast to a fixed string is written like the column of
    its strings, cut or padded; one that is cast to addresses reads as the
    addresses that its strings spell. *)

From S2P Require Import Prelude RustStd Errors Scalars Encoder SqlType TypeNames DecimalNum Values.
From S2P Require Import StringPool ChunkIndex Columns ColumnLaws ColumnReads PushLaws.
From S2P Require Import Compressed Block NetAddr Cast Iter IterLaws ColumnFrom FromLaws.
Local Open Scope Z_scope.

Section CastLaws.
Context {P : Profile} `{ChronoTz, Combine}.

(** The rows of a string column. *)
Lemma string_row pool i s :
  wf pool -> contents pool !! i = Some s ->
  at_ (StringColumnData pool) (Z.of_nat i) = Ok (ValueRef.String_ s).
Proof. intros Hwf Hs. cbn [at_]. by rewrite Nat2Z.id, wf_get, Hs. Qed.

Lemma rows_seqZ {A} (xs : list A) (n : Z) :
  n = Z.of_nat (length xs) -> Forall2 (fun i x => 0 <= i /\ xs !! Z.to_nat i = Some x) (seqZ 0 n) xs.
Proof.
  intros ->. apply Forall2_same_length_lookup_2; [by rewrite length_seqZ, Nat2Z.id|].
  intros i x y Hx Hy. apply lookup_seqZ in Hx as [-> _]. rewrite Z.add_0_l, Nat2Z.id.
  split; [lia|done].
Qed.

Lemma for_each_rows {X B} (R : X -> B -> Prop) (f : X -> Encoder -> Result Encoder) (g : B -> bytes) is_ xs e :
  (forall i x e, R i x -> f i e = Ok (e ++ g x)) -> Forall2 R is_ xs ->
  for_each is_ f e = Ok (e ++ concat (g <$> xs)).
Proof.
  intros Hf Hr. revert e. induction Hr as [|i x is_ xs Hi _ IH]; intros e; cbn; [by rewrite app_nil_r|].
  rewrite (Hf i x) by done. cbn. by rewrite IH, <- app_assoc.
Qed.

(** ** Fixed strings *)

(** The strings cut or padded to [k] bytes. *)
Definition fixed_rows (k : Z) (ss : list bytes) : list bytes := vec_resize (Z.to_nat k) x00 <$> ss.

Definition fixed_column (k : Z) (ss : list bytes) : column_data :=
  FixedStringColumnData (concat (fixed_rows k ss)) k.

Lemma fixed_adapter_rows pool k n e :
  wf pool -> Z.of_nat (StringPool.len pool) = n -> 0 <= k <= isize_max ->
  save (FixedStringAdapter (StringColumnData pool) k) e 0 n =
    Ok (e ++ concat (fixed_rows k (contents pool))).
Proof.
  intros Hwf Hn Hk. cbn [save]. unfold fixed_adapter_save. rewrite alloc_ok by lia.
  cbn [mbind outcome_bind]. rewrite Z.sub_0_r.
  apply (for_each_rows (fun i s => 0 <= i /\ contents pool !! Z.to_nat i = Some s)
    _ (vec_resize (Z.to_nat k) x00)).
  - intros i s e' [Hi Hs]. rewrite <- (Z2Nat.id i) by done. rewrite (string_row pool _ s) by done. done.
  - apply rows_seqZ. rewrite length_contents. lia.
Qed.

Lemma length_fixed_rows k ss : 0 <= k ->
  Z.of_nat (length (concat (fixed_rows k ss))) = Z.of_nat (length ss) * k.
Proof.
  intros Hk. rewrite (length_concat_const (Z.to_nat k)).
  - unfold fixed_rows. rewrite length_fmap. lia.
  - apply Forall_fmap, Forall_forall. intros s _. apply length_vec_resize.
Qed.

Lemma fixed_column_stored tz k ss :
  0 < k -> Z.of_nat (length ss) * k <= isize_max ->
  stored tz (Z.of_nat (length ss)) (fixed_column k ss).
Proof.
  intros Hk Hf. cbn. rewrite length_fixed_rows by lia. unfold fits. split_and!; (done || lia).
Qed.

(** What is read from it. *)
Lemma fixed_column_values item_size k ss :
  0 < k -> Z.of_nat (length ss) * k <= isize_max ->
  holds item_size TBytes (Z.of_nat (length ss)) (fixed_column k ss) /\
  values TBytes (fixed_column k ss) = Ok (fixed_rows k ss).
Proof.
  intros Hk Hf. split.
  - cbn. rewrite length_fixed_rows by lia. split_and!; (done || lia).
  - cbn [values fixed_column]. f_equal. rewrite length_fixed_rows, Z.div_mul, Nat2Z.id by lia.
    rewrite <- (length_fmap (vec_resize (Z.to_nat k) x00) ss). apply pieces_concat.
    apply Forall_fmap, Forall_forall. intros s _. apply length_vec_resize.
Qed.

Lemma cast_fixed_writes tz name_ pool k e :
  wf pool -> 0 < k -> Z.of_nat (StringPool.len pool) * k <= isize_max -> k <= isize_max ->
  exists c, cast_to (StringColumnData pool) (FixedString k) = Ok c /\
    sql_type c = FixedString k /\
    stored tz (Z.of_nat (StringPool.len pool)) (fixed_column k (contents pool)) /\
    column_write (mkColumn name_ c) e = column_write (mkColumn name_ (fixed_column k (contents pool))) e.
Proof.
  intros Hwf Hk Hf Hk'. exists (FixedStringAdapter (StringColumnData pool) k).
  pose proof (fixed_column_stored tz k (contents pool) Hk) as Hst. rewrite length_contents in Hst.
  specialize (Hst Hf). split_and!; [done|done|exact Hst|].
  unfold column_write. cbn [name data sql_type fixed_column].
  fold (fixed_column k (contents pool)). apply bind_ext. intros e1 _. apply bind_ext. intros e2 _.
  rewrite (len_stored tz _ _ Hst). cbn [len mbind outcome_bind].
  rewrite fixed_adapter_rows by (done || lia). by rewrite (save_stored tz _ _ _ Hst).
Qed.

(** ** Addresses *)

Definition parse_ip (v : ip_version) : bytes -> option bytes :=
  match v with V4 => ipv4_parse | V6 => ipv6_parse | VUuid => fun _ => None end.

(** A text and the address that it spells. *)
Definition spells (v : ip_version) (s ip : bytes) : Prop :=
  utf8_ok s = true /\ parse_ip v s = Some ip.

Lemma spells_length v s ip : spells v s ip -> length ip = ip_bytes v.
Proof.
  intros [_ Hp]. destruct v; [by apply ipv4_parse_length in Hp|by apply ipv6_parse_length in Hp|done].
Qed.

Lemma parse_addresses_ok v pool ips :
  wf pool -> Z.of_nat (StringPool.len pool) <= isize_max -> Forall2 (spells v) (contents pool) ips ->
  parse_addresses (parse_ip v) (encode_ip v) (StringColumnData pool) =
    Ok (concat (encode_ip v <$> ips)).
Proof.
  intros Hwf Hl Hips. unfold parse_addresses. cbn [len mbind outcome_bind].
  rewrite alloc_ok by lia. cbn [mbind outcome_bind].
  assert (map_outcome
    (fun i => v0 ← at_ (StringColumnData pool) i; source ← unwrap_result (as_str v0);
              ip ← unwrap (parse_ip v source); Ok (encode_ip v ip))
    (seqZ 0 (Z.of_nat (StringPool.len pool))) = (Ok (encode_ip v <$> ips) : Result (list bytes))) as ->; [|done].
  apply map_outcome_Ok.
  pose proof (rows_seqZ (contents pool) (Z.of_nat (StringPool.len pool))
    ltac:(by rewrite length_contents)) as Hrows.
  apply Forall2_same_length_lookup. split.
  { rewrite length_fmap, <- (Forall2_length _ _ _ Hips). by apply Forall2_length in Hrows. }
  intros j i y Hi Hy. rewrite list_lookup_fmap in Hy.
  destruct (ips !! j) as [ip|] eqn:Hip; [|done]. injection Hy as <-.
  destruct (Forall2_lookup_l _ _ _ _ _ Hrows Hi) as (s & Hs & Hi0 & Hsi).
  destruct (Forall2_lookup_lr _ _ _ _ _ _ Hips Hs Hip) as [Hu Hp].
  rewrite <- (Z2Nat.id i) by done. rewrite (string_row pool _ s) by done. cbn [mbind outcome_bind as_str].
  unfold str_from_utf8. apply utf8_ok_spec in Hu. rewrite Hu. cbn [unwrap_result mbind outcome_bind].
  by rewrite Hp.
Qed.

(** The addresses that the strings spell are the values of the column. *)
Lemma cast_ip_values item_size v pool ips :
  v <> VUuid -> wf pool -> Z.of_nat (StringPool.len pool) <= isize_max ->
  Forall2 (spells v) (contents pool) ips ->
  exists c, cast_to (StringColumnData pool) (ip_sql_type v) = Ok c /\
    holds item_size (ip_iterable v) (Z.of_nat (StringPool.len pool)) c /\
    values (ip_iterable v) c = Ok (ip_items v ips).
Proof.
  intros Hv Hwf Hl Hips. exists (IpColumnData v (concat (encode_ip v <$> ips))).
  destruct (ips_hold item_size v ips) as [Hh Hvs].
  { eapply Forall2_Forall_r; [exact Hips|]. apply Forall_forall. intros s _ ip. apply spells_length. }
  rewrite <- (Forall2_length _ _ _ Hips), length_contents in Hh.
  split_and!; [|done..]. pose proof (parse_addresses_ok v pool ips Hwf Hl Hips) as Hp.
  destruct v; [..|done]; cbn -[parse_addresses].
  - exact (f_equal (fun o => inner ← o; Ok (IpColumnData V4 inner)) Hp).
  - exact (f_equal (fun o => inner ← o; Ok (IpColumnData V6 inner)) Hp).
Qed.

(** ** Blocks *)

Lemma column_cast_keeps c dst n c' :
  len (data c) = Ok n -> 0 <= n -> column_cast_to c dst = Ok c' ->
  name c' = name c /\ sql_type (data c') = dst /\ len (data c') = Ok n.
Proof.
  intros Hl Hn. unfold column_cast_to, cast_to. destruct (cast_to_fuel 2 (data c) dst) as [d| | |] eqn:Hd; try done.
  cbn. intros [= <-]. by destruct (cast_fuel_keeps _ _ _ _ _ Hl Hn Hd).
Qed.

Lemma block_cast_keeps b header n b' :
  Forall (fun c => len (data c) = Ok n) (columns b) -> 0 <= n -> block_cast_to b header = Ok b' ->
  info b' = info b /\
  Forall2 (fun h c => sql_type (data c) = sql_type (data h)) (columns header) (columns b') /\
  Forall2 (fun c c' => name c' = name c /\ len (data c') = Ok n) (columns b) (columns b').
Proof.
  intros Hl Hn. unfold block_cast_to, column_count.
  destruct (Z.eqb_spec (Z.of_nat (length (columns header))) (Z.of_nat (length (columns b)))) as [Hc|]; [|done].
  apply Nat2Z.inj in Hc. cbn [negb].
  destruct (map_outcome _ (zip _ _)) as [cs| | |] eqn:Hm; try done. cbn. intros [= <-]. cbn [info columns].
  split; [done|]. apply map_outcome_Ok in Hm.
  revert cs Hm Hl Hc. generalize (columns b) as xs. induction (columns header) as [|h hs IH];
    intros [|x xs] cs Hm Hl Hc; try done; cbn [zip zip_with] in Hm.
  { inversion Hm. split; constructor. }
  apply Forall2_cons_inv_l in Hm as (c & cs' & Hx & Hm & ->).
  apply Forall_cons in Hl as [Hlx Hl]. injection Hc as Hc.
  destruct (IH xs cs' Hm Hl Hc) as [H1 H2].
  destruct (column_cast_keeps _ _ _ _ Hlx Hn Hx) as (? & ? & ?). split; by constructor.
Qed.
End CastLaws.
