(* ===== verification/Compare.v ===== *)
(** * Comparing values, columns and blocks ([PartialEq])

    [Value], [ValueRef], [Column] and [Block] are compared by hand-written
    [eq]s, which build instants and rescale decimals and so can panic.  A cell
    that is [comparable] equals itself; addresses, UUIDs and NaNs do not. *)

From S2P Require Import Prelude RustStd Errors Scalars SqlType TypeNames DecimalNum Values.
From S2P Require Import StringPool ChunkIndex Columns ColumnLaws ColumnReads PushLaws Compressed Block BlockLaws.
Local Open Scope Z_scope.

(** ** Enum values ([types/enums.rs])

    [Enum8] and [Enum16] wrap an integer; columns and values hold it bare. *)

Module Enum8.
Definition default : Z := 0.
Definition of_ (source : Z) : Z := source.
Definition internal (self : Z) : Z := self.
Definition eq (self other : Z) : bool := self =? other.
Definition to_string (self : Z) : bytes := lit "Enum8(" ++ show_dec self ++ lit ")".
End Enum8.

Module Enum16.
Definition default : Z := 0.
Definition of_ (source : Z) : Z := source.
Definition internal (self : Z) : Z := self.
Definition eq (self other : Z) : bool := self =? other.
Definition to_string (self : Z) : bytes := lit "Enum(" ++ show_dec self ++ lit ")".
End Enum16.

(** ** Floats

    [==] on bit patterns: a NaN equals nothing, the two zeroes are equal. *)

Definition is_nan (w exponent x : Z) : bool := exponent <? x mod 2 ^ (w - 1).

Definition float_eq (w exponent a b : Z) : bool :=
  if is_nan w exponent a || is_nan w exponent b then false
  else (a =? b) || ((a mod 2 ^ (w - 1) =? 0) && (b mod 2 ^ (w - 1) =? 0)).

(** The bits of the exponent. *)
Definition EXP32 : Z := 2139095040.
Definition EXP64 : Z := 9218868437227405312.

Definition f32_eq : Z -> Z -> bool := float_eq 32 EXP32.
Definition f64_eq : Z -> Z -> bool := float_eq 64 EXP64.

(** [slice == slice]: the lengths first, then the elements up to a difference. *)
Definition slice_eq {A} (eq : A -> A -> Result bool) (xs ys : list A) : Result bool :=
  if decide (length xs = length ys) then
    (fix go xs ys :=
       match xs, ys with
       | x :: xs, y :: ys => b ← eq x y; if b : bool then go xs ys else Ok false
       | _, _ => Ok true
       end) xs ys
  else Ok false.

Section Compare.
Context {P : Profile} `{ChronoTz, Combine}.

(** ** Values *)

Definition date_time (v : Z) (tz : Tz) : Result DateTime := timestamp tz (v * 24 * 3600) 0.

(** Two dates, two instants. *)
Definition dates_eq (a : Z) (tz_a : Tz) (b : Z) (tz_b : Tz) : Result bool :=
  time_a ← date_time a tz_a;
  time_b ← date_time b tz_b;
  Ok (date_eqb (dt_date time_a) (dt_date time_b)).

Definition datetimes_eq (a : Z) (tz_a : Tz) (b : Z) (tz_b : Tz) : Result bool :=
  time_a ← timestamp tz_a a 0;
  time_b ← timestamp tz_b b 0;
  Ok (dt_eqb time_a time_b).

(** [Value::eq]. *)
Fixpoint value_eq (self other : Value.t) : Result bool :=
  match self, other with
  | Value.UInt8 a, Value.UInt8 b | Value.UInt16 a, Value.UInt16 b
  | Value.UInt32 a, Value.UInt32 b | Value.UInt64 a, Value.UInt64 b
  | Value.Int8 a, Value.Int8 b | Value.Int16 a, Value.Int16 b
  | Value.Int32 a, Value.Int32 b | Value.Int64 a, Value.Int64 b => Ok (a =? b)
  | Value.String_ a, Value.String_ b => Ok (bool_decide (a = b))
  | Value.Float32 a, Value.Float32 b => Ok (f32_eq a b)
  | Value.Float64 a, Value.Float64 b => Ok (f64_eq a b)
  | Value.Date a tz_a, Value.Date b tz_b => dates_eq a tz_a b tz_b
  | Value.DateTime_ a tz_a, Value.DateTime_ b tz_b => datetimes_eq a tz_a b tz_b
  | Value.Nullable (Left a), Value.Nullable (Left b) => Ok (bool_decide (a = b))
  | Value.Nullable (Right a), Value.Nullable (Right b) => value_eq a b
  | Value.Array ta a, Value.Array tb b =>
    if decide (ta = tb) then slice_eq value_eq a b else Ok false
  | Value.Decimal_ a, Value.Decimal_ b => Decimal.eq a b
  | Value.Enum16 values_a val_a, Value.Enum16 values_b val_b =>
    Ok (bool_decide (values_a = values_b) && Enum16.eq val_a val_b)
  | _, _ => Ok false
  end.

(** [ValueRef::eq]. *)
Fixpoint value_ref_eq (self other : ValueRef.t) : Result bool :=
  match self, other with
  | ValueRef.UInt8 a, ValueRef.UInt8 b | ValueRef.UInt16 a, ValueRef.UInt16 b
  | ValueRef.UInt32 a, ValueRef.UInt32 b | ValueRef.UInt64 a, ValueRef.UInt64 b
  | ValueRef.Int8 a, ValueRef.Int8 b | ValueRef.Int16 a, ValueRef.Int16 b
  | ValueRef.Int32 a, ValueRef.Int32 b | ValueRef.Int64 a, ValueRef.Int64 b => Ok (a =? b)
  | ValueRef.String_ a, ValueRef.String_ b => Ok (bool_decide (a = b))
  | ValueRef.Float32 a, ValueRef.Float32 b => Ok (f32_eq a b)
  | ValueRef.Float64 a, ValueRef.Float64 b => Ok (f64_eq a b)
  | ValueRef.Date a tz_a, ValueRef.Date b tz_b => dates_eq a tz_a b tz_b
  | ValueRef.DateTime_ a tz_a, ValueRef.DateTime_ b tz_b => datetimes_eq a tz_a b tz_b
  | ValueRef.Nullable (Left a), ValueRef.Nullable (Left b) => Ok (bool_decide (a = b))
  | ValueRef.Nullable (Right a), ValueRef.Nullable (Right b) => value_ref_eq a b
  | ValueRef.Array ta a, ValueRef.Array tb b =>
    if decide (ta = tb) then slice_eq value_ref_eq a b else Ok false
  | ValueRef.Decimal_ a, ValueRef.Decimal_ b => Decimal.eq a b
  | ValueRef.Enum8 a0 a1, ValueRef.Enum8 b0 b1 =>
    Ok (Enum8.eq a1 b1 && bool_decide (a0 = b0))
  | ValueRef.Enum16 a0 a1, ValueRef.Enum16 b0 b1 =>
    Ok (Enum16.eq a1 b1 && bool_decide (a0 = b0))
  | ValueRef.DateTime64 this (this_precision, this_tz), ValueRef.DateTime64 that (that_precision, that_tz) =>
    this_time ← to_datetime this this_precision this_tz;
    that_time ← to_datetime that that_precision that_tz;
    Ok (dt_eqb this_time that_time)
  | _, _ => Ok false
  end.

(** ** Columns and blocks *)

(** [for i in 0..n { if differ(i) { return false } } true]. *)
Fixpoint all_equal (eq : Z -> Result bool) (is_ : list Z) : Result bool :=
  match is_ with
  | [] => Ok true
  | i :: is_ => b ← eq i; if b : bool then all_equal eq is_ else Ok false
  end.

(** [Column::eq], which does not look at the names. *)
Definition column_eq (self other : column_data) : Result bool :=
  n ← len self;
  m ← len other;
  if negb (n =? m) then Ok false
  else if negb (bool_decide (sql_type self = sql_type other)) then Ok false
  else all_equal (fun i => a ← at_ self i; b ← at_ other i; value_ref_eq a b) (seqZ 0 n).

(** [Block::eq]. *)
Definition block_eq (self other : Block) : Result bool :=
  if negb (column_count self =? column_count other) then Ok false
  else
    all_equal
      (fun i =>
         a ← indexZ (columns self) i; b ← indexZ (columns other) i; column_eq (data a) (data b))
      (seqZ 0 (column_count self)).

(** ** Equal to itself *)

(** The cells that are equal to themselves: instants that exist, no NaN, no
    address and no UUID. *)
Fixpoint comparable (v : ValueRef.t) : bool :=
  match v with
  | ValueRef.Float32 x => negb (is_nan 32 EXP32 x)
  | ValueRef.Float64 x => negb (is_nan 64 EXP64 x)
  | ValueRef.Date x tz => is_ok (date_time x tz)
  | ValueRef.DateTime_ x tz => is_ok (timestamp (E:=Error) tz x 0)
  | ValueRef.DateTime64 x (precision, tz) => is_ok (to_datetime (E:=Error) x precision tz)
  | ValueRef.Nullable (Right v) => comparable v
  | ValueRef.Array _ vs => forallb comparable vs
  | ValueRef.Ipv4 _ | ValueRef.Ipv6 _ | ValueRef.Uuid _ => false
  | _ => true
  end.

(** [==] of instants and dates is reflexive, and symmetric. *)
Class ChronoEq := {
  dt_eqb_refl d : dt_eqb d d = true;
  date_eqb_refl d : date_eqb d d = true;
  dt_eqb_sym d1 d2 : dt_eqb d1 d2 = dt_eqb d2 d1;
  date_eqb_sym d1 d2 : date_eqb d1 d2 = date_eqb d2 d1
}.

Lemma float_eq_refl w exponent x : float_eq w exponent x x = negb (is_nan w exponent x).
Proof. unfold float_eq. rewrite Z.eqb_refl. by destruct (is_nan w exponent x). Qed.

Lemma slice_eq_all {A} (eq : A -> A -> Result bool) xs :
  (forall x, x ∈ xs -> eq x x = Ok true) -> slice_eq eq xs xs = Ok true.
Proof.
  intros Heq. unfold slice_eq. rewrite decide_True by done.
  induction xs as [|x xs IH]; [done|]. rewrite Heq by left. cbn.
  apply IH. intros y Hy. apply Heq. by right.
Qed.

(** The first element that differs from itself decides. *)
Lemma slice_eq_self_inv {A} (eq : A -> A -> Result bool) xs x :
  slice_eq eq xs xs = Ok true -> x ∈ xs -> eq x x = Ok true.
Proof.
  unfold slice_eq. rewrite decide_True by done.
  induction xs as [|y xs IH]; intros Hs Hx; [by apply not_elem_of_nil in Hx|].
  destruct (eq y y) as [[|]| | |] eqn:Hy; try done.
  apply elem_of_cons in Hx as [->|Hx]; [done|]. by apply IH.
Qed.

Lemma value_ref_eq_refl `{!ChronoEq} v : value_ref_eq v v = Ok true <-> comparable v = true.
Proof.
  revert v. fix IH 1.
  intros [x|x|x|x|x|x|x|x|s|x|x|x tz|x tz|x [p tz]|[ty|v]|ty vs|d|ip|ip|ip|vals x|vals x];
    cbn [value_ref_eq comparable];
    try (rewrite Z.eqb_refl; done); try done.
  - by rewrite bool_decide_true.
  - unfold f32_eq. rewrite float_eq_refl. destruct (is_nan _ _ _); (split; congruence).
  - unfold f64_eq. rewrite float_eq_refl. destruct (is_nan _ _ _); (split; congruence).
  - unfold dates_eq. destruct (date_time x tz); cbn; try (split; congruence). by rewrite date_eqb_refl.
  - unfold datetimes_eq. destruct (timestamp tz x 0); cbn; try (split; congruence). by rewrite dt_eqb_refl.
  - destruct (to_datetime x p tz); cbn; try (split; congruence). by rewrite dt_eqb_refl.
  - by rewrite bool_decide_true.
  - rewrite decide_True by done. unfold slice_eq. rewrite decide_True by done.
    induction vs as [|v vs IHvs]; [done|]. cbn [forallb]. specialize (IH v).
    rewrite andb_true_iff, <- IHvs, <- IH. split.
    + destruct (value_ref_eq v v) as [[|]| | |]; cbn; try done.
    + intros [-> Hvs]. done.
  - unfold Decimal.eq. rewrite Z.compare_refl, Z.eqb_refl. done.
  - unfold Enum16.eq. rewrite Z.eqb_refl, bool_decide_true by done. done.
  - unfold Enum8.eq. rewrite Z.eqb_refl, bool_decide_true by done. done.
Qed.

(** ** Symmetry *)

Lemma float_eq_sym w exponent a b : float_eq w exponent a b = float_eq w exponent b a.
Proof.
  unfold float_eq. rewrite orb_comm, Z.eqb_sym. by rewrite (andb_comm (a mod _ =? 0)).
Qed.

Lemma decimal_eq_sym (a b : Decimal.t) : Decimal.eq (E:=Error) a b = Decimal.eq b a.
Proof.
  unfold Decimal.eq. rewrite (Z.compare_antisym (Decimal.scale a) (Decimal.scale b)).
  destruct (Z.compare (Decimal.scale a) (Decimal.scale b)); cbn; [by rewrite Z.eqb_sym|done..].
Qed.

Lemma bool_decide_sym {A} `{EqDecision A} (a b : A) : bool_decide (a = b) = bool_decide (b = a).
Proof. apply bool_decide_ext. split; congruence. Qed.

(** Comparing returns a result or panics. *)
Definition no_err {A} (x : Result A) : Prop :=
  match x with Ok _ | Panic => True | _ => False end.

Lemma no_err_bind {A B} (x : Result A) (f : A -> Result B) :
  no_err x -> (forall a, no_err (f a)) -> no_err (x ≫= f).
Proof. destruct x; cbn; auto. Qed.

Lemma no_err_timestamp tz s n : no_err (timestamp (E:=Error) tz s n).
Proof. unfold timestamp. by destruct (tz_timestamp tz s n). Qed.

Lemma no_err_arith_s w z : no_err (arith_s (E:=Error) w z).
Proof. unfold arith_s. by repeat case_match. Qed.

Lemma no_err_to_datetime x p tz : no_err (to_datetime (E:=Error) x p tz).
Proof.
  unfold to_datetime. apply no_err_bind; [|intros; apply no_err_timestamp].
  case_match; [|done]. apply no_err_bind; [|intros; apply no_err_arith_s].
  apply no_err_bind; [unfold arith_u; by repeat case_match|intros; apply no_err_arith_s].
Qed.

Lemma bind_sym {A B} (x y : Result A) (f g : A -> A -> B) :
  no_err x -> no_err y -> (forall a b, f a b = g b a) ->
  (a ← x; b ← y; Ok (f a b) : Result B) = (b ← y; a ← x; Ok (g b a)).
Proof. intros Hx Hy Hfg. destruct x, y; try done. cbn. by rewrite Hfg. Qed.

Lemma slice_eq_sym {A} (eq : A -> A -> Result bool) xs ys :
  (forall x y, x ∈ xs -> eq x y = eq y x) -> slice_eq eq xs ys = slice_eq eq ys xs.
Proof.
  intros Heq. unfold slice_eq. destruct (decide (length xs = length ys)) as [Hl|Hl];
    [rewrite decide_True by done|by rewrite decide_False by congruence].
  clear Hl. revert ys. induction xs as [|x xs IH]; intros [|y ys]; try done.
  rewrite (Heq x y) by left. destruct (eq y x) as [[|]| | |]; try done. cbn.
  apply IH. intros. apply Heq. by right.
Qed.

Lemma value_ref_eq_sym `{!ChronoEq} a b : value_ref_eq a b = value_ref_eq b a.
Proof.
  revert a b. fix IH 1. intros a b.
  destruct a as [x|x|x|x|x|x|x|x|s|x|x|x tz|x tz|x [p tz]|[ty|v]|ty vs|d|ip|ip|ip|vals x|vals x];
    destruct b as [x'|x'|x'|x'|x'|x'|x'|x'|s'|x'|x'|x' tz'|x' tz'|x' [p' tz']|[ty'|v']|ty' vs'|d'|ip'|ip'|ip'|vals' x'|vals' x'];
    try reflexivity; cbn [value_ref_eq]; try (by rewrite Z.eqb_sym); try (by rewrite bool_decide_sym);
    try (unfold f32_eq, f64_eq; by rewrite float_eq_sym); try apply decimal_eq_sym.
  - unfold dates_eq, date_time. apply bind_sym; [apply no_err_timestamp..|]. intros; apply date_eqb_sym.
  - unfold datetimes_eq. apply bind_sym; [apply no_err_timestamp..|]. intros; apply dt_eqb_sym.
  - apply bind_sym; [apply no_err_to_datetime..|]. intros; apply dt_eqb_sym.
  - apply IH.
  - destruct (decide (ty = ty')) as [->|Hty]; [rewrite decide_True by done|by rewrite decide_False by congruence].
    unfold slice_eq. destruct (decide (length vs = length vs')) as [Hl|Hl];
      [rewrite decide_True by done|by rewrite decide_False by congruence].
    clear Hl. revert vs'. induction vs as [|v vs IHvs]; intros [|v' vs']; try done.
    rewrite (IH v v'). destruct (value_ref_eq v' v) as [[|]| | |]; try done. apply IHvs.
  - unfold Enum16.eq. by rewrite Z.eqb_sym, bool_decide_sym.
  - unfold Enum8.eq. by rewrite Z.eqb_sym, bool_decide_sym.
Qed.

(** ** Columns *)

Lemma all_equal_true (eq : Z -> Result bool) is_ :
  (forall i, i ∈ is_ -> eq i = Ok true) -> all_equal eq is_ = Ok true.
Proof.
  induction is_ as [|i is_ IH]; intros Heq; [done|]. cbn. rewrite Heq by left. cbn.
  apply IH. intros j Hj. apply Heq. by right.
Qed.

Lemma all_equal_ext (eq eq' : Z -> Result bool) is_ :
  (forall i, i ∈ is_ -> eq i = eq' i) -> all_equal eq is_ = all_equal eq' is_.
Proof.
  induction is_ as [|i is_ IH]; intros Heq; [done|]. cbn. rewrite Heq by left.
  destruct (eq' i) as [[|]| | |]; try done. cbn. apply IH. intros j Hj. apply Heq. by right.
Qed.

(** Comparing does not see the layout of string pools. *)
#[export] Instance column_eq_proper : Proper ((≡@{column_data}) ==> (≡) ==> (=)) column_eq.
Proof.
  intros c1 c2 Hc d1 d2 Hd. unfold column_eq.
  rewrite (len_proper _ _ Hc), (len_proper _ _ Hd), (sql_type_proper _ _ Hc), (sql_type_proper _ _ Hd).
  do 2 (apply bind_ext; intros ? _). do 2 (case_match; [done|]). apply all_equal_ext.
  intros i _. rewrite (at_proper _ _ Hc i i eq_refl). by rewrite (at_proper _ _ Hd i i eq_refl).
Qed.

(** The cells of a column that is equal to itself. *)
Definition comparable_column (n : Z) (c : column_data) : Prop :=
  len c = Ok n /\ forall i, 0 <= i < n -> exists v, at_ c i = Ok v /\ comparable v = true.

(** Deciding it. *)
Lemma comparable_column_check n c :
  len c = Ok n ->
  forallb (fun i => match at_ c i with Ok v => comparable v | _ => false end) (seqZ 0 n) = true ->
  comparable_column n c.
Proof.
  intros Hl Hf. split; [done|]. intros i Hi. rewrite forallb_forall in Hf.
  specialize (Hf i). destruct (at_ c i) as [v| | |]; try (by exists v; split; [|apply Hf, list_elem_of_In, elem_of_seqZ; lia]);
    exfalso; (enough (false = true) by done); apply Hf, list_elem_of_In, elem_of_seqZ; lia.
Qed.

Lemma column_eq_refl `{!ChronoEq} n c : comparable_column n c -> column_eq c c = Ok true.
Proof.
  intros [Hl Hc]. unfold column_eq. rewrite Hl. cbn [mbind outcome_bind].
  rewrite Z.eqb_refl, bool_decide_true by done. cbn [negb]. apply all_equal_true.
  intros i Hi%elem_of_seqZ. destruct (Hc i) as (v & Hv & Hcv); [lia|].
  rewrite Hv. cbn [mbind outcome_bind]. by apply value_ref_eq_refl.
Qed.

(** A column whose first cell is not comparable differs from itself. *)
Lemma column_eq_differs `{!ChronoEq} n c v :
  len c = Ok n -> 0 < n -> at_ c 0 = Ok v -> comparable v = false -> column_eq c c <> Ok true.
Proof.
  intros Hl Hn Hv Hcv. unfold column_eq. rewrite Hl. cbn [mbind outcome_bind].
  rewrite Z.eqb_refl, bool_decide_true by done. cbn [negb]. rewrite seqZ_cons by done. cbn [all_equal].
  rewrite Hv. cbn [mbind outcome_bind]. pose proof (value_ref_eq_refl v) as Hr.
  destruct (value_ref_eq v v) as [[|]| | |]; try done. destruct Hr as [Hr _].
  specialize (Hr eq_refl). congruence.
Qed.

(** Equivalent blocks have equivalent columns. *)
Lemma columns_lookup_equiv (cs cs' : list Column) i c' :
  cs ≡ cs' -> cs' !! i = Some c' -> exists c, cs !! i = Some c /\ data c ≡ data c'.
Proof.
  intros Hcs Hc'. pose proof (list_lookup_proper i _ _ Hcs) as Hlk. rewrite Hc' in Hlk.
  inversion Hlk as [c ? [_ Hd] Hc|]. by exists c.
Qed.

Lemma comparable_columns_equiv n (cs cs' : list Column) :
  cs ≡ cs' -> Forall (fun c => comparable_column n (data c)) cs ->
  Forall (fun c => comparable_column n (data c)) cs'.
Proof.
  intros Hcs Hc. apply Forall_lookup_2. intros i c' Hc'.
  destruct (columns_lookup_equiv cs cs' i c' Hcs Hc') as (c & Hi & Hd).
  destruct (Forall_lookup_1 _ _ _ _ Hc Hi) as [Hl Hcells]. split; [by rewrite <- (len_proper _ _ Hd)|].
  intros j Hj. destruct (Hcells j Hj) as (v & Hv & Hcv). exists v. split; [|done].
  by rewrite <- (at_proper _ _ Hd j j eq_refl).
Qed.

Lemma block_eq_ok `{!ChronoEq} n b b' :
  columns b ≡ columns b' -> Forall (fun c => comparable_column n (data c)) (columns b) ->
  block_eq b b' = Ok true.
Proof.
  intros Hb Hc. unfold block_eq, column_count. rewrite <- (length_proper _ _ Hb), Z.eqb_refl. cbn [negb].
  apply all_equal_true. intros i Hi%elem_of_seqZ.
  destruct (lookup_lt_is_Some_2 (columns b) (Z.to_nat i)) as [c Hci]; [lia|].
  destruct (columns_lookup_equiv (columns b') (columns b) (Z.to_nat i) c) as (c' & Hci' & Hcc); [by symmetry|done|].
  rewrite !indexZ_nat, Hci, Hci' by lia. cbn [unwrap mbind outcome_bind].
  rewrite Hcc. eapply column_eq_refl. by eapply Forall_lookup_1 in Hc.
Qed.
End Compare.
