(* ===== verification/Text.v ===== *)
(** * What a program prints ([Display] of values, [Debug] of blocks)

    A value and a borrowed value are printed by hand-written [Display]s that
    differ in their dates and enums; a block is printed as a table.  [alternate]
    is the flag of [{:#}].  Texts of chrono and of uuid are parameters. *)

From S2P Require Import Prelude RustStd Errors Scalars SqlType TypeNames Floats DecimalNum Values.
From S2P Require Import StringPool ChunkIndex Columns Compressed Block NetAddr Compare.
Local Open Scope Z_scope.

(** [Display] of dates, instants and UUIDs, [%Y-%m-%d], [%Y-%m-%d %H:%M:%S] and
    RFC 2822. *)
Class TextCrates `{ChronoTz} := {
  date_text : AppDate -> bytes;
  date_ymd : AppDate -> bytes;
  datetime_text : DateTime -> bytes;
  datetime_ymd_hms : DateTime -> bytes;
  to_rfc2822 : DateTime -> bytes;
  uuid_text : bytes -> bytes
}.

(** ** Values *)

(** [{:?}] of a [Vec<u8>]. *)
Definition bytes_debug (v : bytes) : bytes :=
  lit "[" ++ join (lit ", ") (show_dec ∘ byte_to_Z <$> v) ++ lit "]".

Definition string_text (v : bytes) : bytes := if utf8_ok v then v else bytes_debug v.

Definition array_text (cells : list bytes) : bytes := lit "[" ++ join (lit ", ") cells ++ lit "]".

Section Text.
Context {P : Profile} `{TextCrates}.

(** [Display] of [Value]. *)
Fixpoint value_text (alternate : bool) (self : Value.t) : Result bytes :=
  match self with
  | Value.UInt8 v | Value.UInt16 v | Value.UInt32 v | Value.UInt64 v
  | Value.Int8 v | Value.Int16 v | Value.Int32 v | Value.Int64 v => Ok (show_dec v)
  | Value.String_ v => Ok (string_text v)
  | Value.Float32 v => Ok (float_text F32 v)
  | Value.Float64 v => Ok (float_text F64 v)
  | Value.DateTime_ u tz =>
    time ← timestamp tz u 0;
    Ok (if alternate then datetime_text time else to_rfc2822 time)
  | Value.DateTime64 value (precision, tz) =>
    time ← to_datetime value precision tz; Ok (to_rfc2822 time)
  | Value.Date v tz =>
    time ← timestamp tz (v * 24 * 3600) 0;
    Ok (if alternate then date_text (dt_date time) else date_ymd (dt_date time))
  | Value.Nullable (Left _) => Ok (lit "NULL")
  | Value.Nullable (Right data) => value_text alternate data
  | Value.Array _ vs => cells ← map_outcome (value_text false) vs; Ok (array_text cells)
  | Value.Decimal_ v => Ok (Decimal.decimal2str v)
  | Value.Ipv4 v => Ok (ipv4_text (decode_ipv4 v))
  | Value.Ipv6 v => Ok (ipv6_text (decode_ipv6 v))
  | Value.Uuid v => Ok (uuid_text (uuid_halves v))
  | Value.Enum8 _ v => Ok (lit "Enum8, " ++ Enum8.to_string v)
  | Value.Enum16 _ v => Ok (lit "Enum16, " ++ Enum16.to_string v)
  end.

(** [Display] of [ValueRef]. *)
Fixpoint value_ref_text (alternate : bool) (self : ValueRef.t) : Result bytes :=
  match self with
  | ValueRef.UInt8 v | ValueRef.UInt16 v | ValueRef.UInt32 v | ValueRef.UInt64 v
  | ValueRef.Int8 v | ValueRef.Int16 v | ValueRef.Int32 v | ValueRef.Int64 v => Ok (show_dec v)
  | ValueRef.String_ v => Ok (string_text v)
  | ValueRef.Float32 v => Ok (float_text F32 v)
  | ValueRef.Float64 v => Ok (float_text F64 v)
  | ValueRef.Date v tz =>
    time ← timestamp tz (v * 24 * 3600) 0;
    Ok (if alternate then date_text (dt_date time) else date_ymd (dt_date time))
  | ValueRef.DateTime_ u tz =>
    time ← timestamp tz u 0;
    Ok (if alternate then to_rfc2822 time else datetime_ymd_hms time)
  | ValueRef.DateTime64 u (precision, tz) =>
    time ← to_datetime u precision tz; Ok (datetime_ymd_hms time)
  | ValueRef.Nullable (Left _) => Ok (lit "NULL")
  | ValueRef.Nullable (Right inner) => value_ref_text false inner
  | ValueRef.Array _ vs => cells ← map_outcome (value_ref_text false) vs; Ok (array_text cells)
  | ValueRef.Decimal_ v => Ok (Decimal.decimal2str v)
  | ValueRef.Ipv4 v => Ok (ipv4_text (decode_ipv4 v))
  | ValueRef.Ipv6 v => Ok (ipv6_text (decode_ipv6 v))
  | ValueRef.Uuid v => Ok (uuid_text (uuid_halves v))
  | ValueRef.Enum8 _ v => Ok (Enum8.to_string v)
  | ValueRef.Enum16 _ v => Ok (Enum16.to_string v)
  end.

(** ** Blocks *)

(** [s.chars().count()]: the bytes that do not continue a character. *)
Definition char_count (s : bytes) : nat := length (filter (fun b => is_cont b = false) s).

(** [{:>width$}]: spaces, or another character, on the left. *)
Definition pad_left (fill s : bytes) (width : nat) : bytes :=
  concat (replicate (width - char_count s) fill) ++ s.

Definition column_width (column : list bytes) : nat :=
  foldr (fun cell w => Nat.max (length cell) w) 0%nat column.

(** [text_cells]. *)
Definition text_cells (data : column_data) : Result (list bytes) :=
  n ← len data;
  map_outcome (fun i => v ← at_ data i; value_ref_text false v) (seqZ 0 n).

Definition print_line (lens : list nat) (left center right : bytes) : bytes :=
  left ++ join center ((fun len => pad_left (lit "─") [] (len + 2)) <$> lens) ++ right.

(** A cell of the table: [write!(f, "│{:>width$} ", ...)]. *)
Definition print_cell (cell : bytes) (len : nat) : bytes :=
  lit "│" ++ pad_left (lit " ") cell (len + 1) ++ lit " ".

(** The cells of row [j]. *)
Definition print_row (cells : list (list bytes)) (lens : list nat) (j : nat) : Result bytes :=
  row ← map_outcome (fun col => Prelude.index col j) cells;
  Ok (concat (zip_with print_cell row lens) ++ lit "│").

(** [Debug] of [Block]. *)
Definition block_debug (self : Block) : Result bytes :=
  let titles := name <$> columns self in
  cells ← map_outcome (fun column => text_cells (data column)) (columns self);
  let titles_len := zip_with (fun t w => Nat.max (char_count t) (column_width w)) titles cells in
  row_count ← row_count self;
  rows ← map_outcome (fun j => print_row cells titles_len (Z.to_nat j)) (seqZ 0 row_count);
  let newline := [x0a] in
  Ok (print_line titles_len (newline ++ lit "┌") (lit "┬") (lit "┐" ++ newline) ++
      concat (zip_with print_cell titles titles_len) ++ lit "│" ++
      (if 0 <? row_count
       then print_line titles_len (newline ++ lit "├") (lit "┼") (lit "┤" ++ newline) else []) ++
      join newline rows ++
      print_line titles_len (newline ++ lit "└") (lit "┴") (lit "┘")).
End Text.

(** ** Laws *)
Section Laws.
Context {P : Profile} `{TextCrates}.

(** The values that a [Value] and a [ValueRef] print alike. *)
Fixpoint same_text (v : Value.t) : bool :=
  match v with
  | Value.DateTime_ _ _ | Value.DateTime64 _ _ | Value.Enum8 _ _ | Value.Enum16 _ _ => false
  | Value.Nullable (Right v) => same_text v
  | Value.Array _ vs => forallb same_text vs
  | _ => true
  end.

Lemma value_ref_text_same v :
  same_text v = true -> value_ref_text false (to_value_ref v) = value_text false v.
Proof.
  revert v. fix IH 1. intros [| | | | | | | | | | | | | | | | |[ty|v]|ty vs| | |]; cbn; try done.
  - apply IH.
  - intros Hv. f_equal. induction vs as [|v vs IHvs]; [done|].
    cbn in *. apply andb_true_iff in Hv as [Hv Hvs]. by rewrite IH, IHvs.
Qed.
End Laws.

(** *** The table *)

Lemma char_count_app s t : char_count (s ++ t) = (char_count s + char_count t)%nat.
Proof. unfold char_count. by rewrite filter_app, length_app. Qed.

Lemma char_count_le s : (char_count s <= length s)%nat.
Proof. apply length_filter. Qed.

Lemma char_count_pad fill s width :
  char_count fill = 1%nat -> (char_count s <= width)%nat -> char_count (pad_left fill s width) = width.
Proof.
  intros Hf Hs. unfold pad_left. rewrite char_count_app.
  enough (forall n, char_count (concat (replicate n fill)) = n) as -> by lia.
  induction n as [|n IH]; [done|]. cbn [replicate concat]. by rewrite char_count_app, IH, Hf.
Qed.

Lemma column_width_le cell column : cell ∈ column -> (length cell <= column_width column)%nat.
Proof. unfold column_width. induction 1; cbn [foldr]; lia. Qed.

(** The characters of a line of the table: three for each cell, and one more. *)
Definition line_width (lens : list nat) : nat := S (sum_list_with (fun len => len + 3) lens)%nat.

Lemma char_count_line lens left center right :
  lens <> [] -> char_count left = 1%nat -> char_count center = 1%nat -> char_count right = 1%nat ->
  char_count (print_line lens left center right) = line_width lens.
Proof.
  intros Hlens Hl Hc Hr. unfold print_line, line_width. rewrite !char_count_app, Hl, Hr.
  destruct lens as [|len lens]; [done|]. clear Hlens. revert len.
  induction lens as [|len' lens IH]; intros len.
  - cbn [fmap list_fmap join sum_list_with]. rewrite char_count_pad by (done || (change (char_count []) with 0%nat; lia)). lia.
  - cbn [fmap list_fmap join sum_list_with] in *. rewrite !char_count_app, Hc, char_count_pad by (done || (change (char_count []) with 0%nat; lia)).
    specialize (IH len'). lia.
Qed.

Lemma char_count_cells cells lens :
  Forall2 (fun cell len => (char_count cell <= len)%nat) cells lens ->
  char_count (concat (zip_with print_cell cells lens) ++ lit "│") = line_width lens.
Proof.
  intros Hc. rewrite char_count_app. unfold line_width. change (char_count (lit "│")) with 1%nat.
  induction Hc as [|cell len cells lens Hl Hc IH]; [done|].
  cbn [zip_with concat sum_list_with]. unfold print_cell at 1.
  rewrite !char_count_app, char_count_pad by (done || lia). 
  change (char_count (lit "│")) with 1%nat. change (char_count (lit " ")) with 1%nat. lia.
Qed.

Lemma join_lines (newline : bytes) lines :
  lines <> [] -> newline ++ join newline lines = concat ((fun l => newline ++ l) <$> lines).
Proof.
  induction lines as [|l lines IH]; [done|]. intros _. destruct lines as [|l' lines].
  - cbn. by rewrite app_nil_r.
  - cbn [join fmap list_fmap concat] in *. rewrite <- IH by done. by rewrite <- !app_assoc.
Qed.

(** A text without a line break. *)
Definition one_line (s : bytes) : Prop := x0a ∉ s.

Lemma one_line_app s t : one_line (s ++ t) <-> one_line s /\ one_line t.
Proof. unfold one_line. by rewrite not_elem_of_app. Qed.

Lemma one_line_concat ls : Forall one_line ls -> one_line (concat ls).
Proof.
  induction 1 as [|l ls Hl _ IH]; [apply not_elem_of_nil|]. cbn [concat]. by apply one_line_app.
Qed.

Lemma one_line_pad fill s width : one_line fill -> one_line s -> one_line (pad_left fill s width).
Proof.
  intros Hf Hs. unfold pad_left. apply one_line_app. split; [|done].
  by apply one_line_concat, Forall_replicate.
Qed.

Ltac one_line_lit := apply (bool_decide_unpack _); vm_compute; exact I.

Lemma one_line_print_line lens left center right :
  one_line left -> one_line center -> one_line right -> one_line (print_line lens left center right).
Proof.
  intros Hl Hc Hr. unfold print_line. rewrite !one_line_app. split_and!; [done| |done].
  assert (forall n, one_line (pad_left (lit "─") [] n)) as Hpad
    by (intros n; apply one_line_pad; [one_line_lit|apply not_elem_of_nil]).
  induction lens as [|len lens IH]; [apply not_elem_of_nil|]. destruct lens as [|len' lens].
  - cbn [fmap list_fmap join]. apply Hpad.
  - cbn [fmap list_fmap join] in *. by rewrite !one_line_app.
Qed.

Lemma one_line_cells cells lens :
  Forall one_line cells -> one_line (concat (zip_with print_cell cells lens) ++ lit "│").
Proof.
  intros Hc. apply one_line_app. split; [|one_line_lit]. revert lens.
  induction Hc as [|cell cells Hcell _ IH]; intros [|len lens]; try apply not_elem_of_nil.
  cbn [zip_with concat]. unfold print_cell at 1. rewrite !one_line_app.
  split_and!; [one_line_lit|apply one_line_pad; [one_line_lit|done]|one_line_lit|apply IH].
Qed.

Section Table.
Context {P : Profile} `{TextCrates}.

Lemma text_cells_length c n cells : len c = Ok n -> text_cells c = Ok cells -> length cells = Z.to_nat n.
Proof.
  intros Hl. unfold text_cells. rewrite Hl. cbn [mbind outcome_bind].
  intros Hm%map_outcome_Ok%Forall2_length. by rewrite length_seqZ in Hm.
Qed.

(** A row of the table, as wide as its lines. *)
Lemma print_row_ok cellss lens m j :
  Forall2 (fun cells len => length cells = m /\ (column_width cells <= len)%nat) cellss lens ->
  (j < m)%nat ->
  exists row, print_row cellss lens j = Ok row /\
    (char_count row = line_width lens /\ (Forall (Forall one_line) cellss -> one_line row)).
Proof.
  intros Hc Hj. unfold print_row.
  assert (exists row, map_outcome (fun col => Prelude.index col j) cellss = (Ok row : Result (list bytes)) /\
    Forall2 (fun cell len => (char_count cell <= len)%nat) row lens /\
    (Forall (Forall one_line) cellss -> Forall one_line row)) as (row & -> & Hrow & Hone).
  { induction Hc as [|cells len cellss lens [Hl Hw] _ (row & Hr & Hf & Ho)]; [by exists []|].
    destruct (lookup_lt_is_Some_2 cells j) as [cell Hcell]; [lia|].
    exists (cell :: row). split.
    - assert (Prelude.index cells j = (Ok cell : Result bytes)) as Hi by (unfold Prelude.index; by rewrite Hcell).
      cbn [map_outcome]. rewrite Hi. cbn [mbind outcome_bind]. by rewrite Hr.
    - split.
      + constructor; [|done]. pose proof (char_count_le cell).
        pose proof (column_width_le cell cells (list_elem_of_lookup_2 _ _ _ Hcell)). lia.
      + intros [Hcells Hcellss]%Forall_cons. constructor; [|by apply Ho].
        by eapply Forall_lookup_1. }
  cbn [mbind outcome_bind]. eexists. split; [reflexivity|]. split; [by apply char_count_cells|].
  intros Hcells. by apply one_line_cells, Hone.
Qed.

Lemma map_outcome_all {X Y} (f : X -> Result Y) (Q : Y -> Prop) xs :
  Forall (fun x => exists y, f x = Ok y /\ Q y) xs ->
  exists ys, map_outcome f xs = Ok ys /\ length ys = length xs /\ Forall Q ys.
Proof.
  induction 1 as [|x xs (y & Hy & HQ) _ (ys & Hys & Hl & HQs)]; [by exists []|].
  exists (y :: ys). cbn [map_outcome]. rewrite Hy. cbn [mbind outcome_bind]. rewrite Hys.
  split_and!; [done|cbn; lia|by constructor].
Qed.

(** The titles and the cells fit into their columns. *)
Lemma table_fits n cs cellss :
  Forall2 (fun c cells => len (data c) = Ok n /\ text_cells (data c) = Ok cells) cs cellss ->
  let lens := zip_with (fun t w => Nat.max (char_count t) (column_width w)) (name <$> cs) cellss in
  Forall2 (fun cell len => (char_count cell <= len)%nat) (name <$> cs) lens /\
  Forall2 (fun cells len => length cells = Z.to_nat n /\ (column_width cells <= len)%nat) cellss lens.
Proof.
  induction 1 as [|c cells cs cellss [Hl Ht] _ [IHt IHc]]; [by split|].
  cbn. split; constructor; try done; [lia|]. split; [|lia]. by eapply text_cells_length.
Qed.

(** A block with columns is printed as lines of one width, each behind a line
    break: three for the frame and the titles, and, when there are rows, one for
    each and one above them.  They have no other line breaks than the titles and
    the cells. *)
Lemma block_debug_lines n b cellss :
  columns b <> [] -> 0 <= n ->
  Forall2 (fun c cells => len (data c) = Ok n /\ text_cells (data c) = Ok cells) (columns b) cellss ->
  exists lines width,
    block_debug b = Ok (concat ((fun l => [x0a] ++ l) <$> lines)) /\
    Forall (fun l => char_count l = width) lines /\
    Z.of_nat (length lines) = 3 + (if 0 <? n then 1 + n else 0) /\
    (Forall one_line (name <$> columns b) -> Forall (Forall one_line) cellss -> Forall one_line lines).
Proof.
  intros Hne Hn Hc. destruct (table_fits n _ _ Hc) as [Hfit Hcells].
  unfold block_debug. assert (map_outcome (fun column => text_cells (data column)) (columns b) = Ok cellss) as ->.
  { apply map_outcome_Ok. eapply Forall2_impl; [exact Hc|]. by intros c cells [_ ?]. }
  assert (row_count b = Ok n) as ->.
  { unfold row_count. destruct (columns b) as [|c cs]; [done|].
    inversion Hc as [|? ? ? ? [Hl _]]. by subst. }
  cbn [mbind outcome_bind].
  set (lens := zip_with _ (name <$> columns b) cellss) in *.
  assert (lens <> []) as Hlens.
  { unfold lens. destruct (columns b); [done|]. by inversion Hc. }
  destruct (map_outcome_all (fun j => print_row cellss lens (Z.to_nat j))
    (fun l => char_count l = line_width lens /\ (Forall (Forall one_line) cellss -> one_line l))
    (seqZ 0 n)) as (rows & -> & Hlr & Hrows).
  { apply Forall_seqZ. intros j Hj. eapply print_row_ok; [exact Hcells|lia]. }
  cbn [mbind outcome_bind]. rewrite length_seqZ in Hlr.
  set (bottom := print_line lens (lit "└") (lit "┴") (lit "┘")).
  exists (print_line lens (lit "┌") (lit "┬") (lit "┐") ::
     (concat (zip_with print_cell (name <$> columns b) lens) ++ lit "│") ::
     (if 0 <? n then print_line lens (lit "├") (lit "┼") (lit "┤") :: rows else []) ++ [bottom]), (line_width lens).
  split_and!.
  - f_equal. unfold bottom, print_line. rewrite !fmap_cons, fmap_app, concat_cons, concat_cons, concat_app.
    cbn [fmap list_fmap concat]. rewrite app_nil_r.
    destruct (Z.ltb_spec 0 n) as [Hp|Hz].
    + rewrite fmap_cons, concat_cons, <- join_lines by (intros ->; cbn in Hlr; lia).
      by rewrite <- !app_assoc.
    + destruct rows; [|cbn in Hlr; lia]. by rewrite <- !app_assoc.
  - repeat apply Forall_cons_2; [by apply char_count_line|by apply char_count_cells|].
    apply Forall_app_2; [|apply Forall_cons_2; [by apply char_count_line|by apply Forall_nil]].
    destruct (0 <? n); [|by apply Forall_nil]. apply Forall_cons_2; [by apply char_count_line|].
    eapply Forall_impl; [exact Hrows|]. by intros l [? _].
  - cbn [length]. rewrite length_app. cbn [length]. destruct (Z.ltb_spec 0 n); cbn [length]; lia.
  - intros Ht Ho. repeat apply Forall_cons_2; [apply one_line_print_line; one_line_lit|by apply one_line_cells|].
    apply Forall_app_2;
      [|apply Forall_cons_2; [apply one_line_print_line; one_line_lit|by apply Forall_nil]].
    destruct (0 <? n); [|by apply Forall_nil].
    apply Forall_cons_2; [apply one_line_print_line; one_line_lit|].
    eapply Forall_impl; [exact Hrows|]. intros l [_ Hl]. by apply Hl.
Qed.
End Table.
