(* ===== verification/TextLaws.v ===== *)
(** * Addresses through their texts

    The cells of a column of addresses are printed, and a string column of these
    texts is cast back to the column. *)

From S2P Require Import Prelude RustStd Errors Scalars Encoder SqlType TypeNames DecimalNum Values.
From S2P Require Import StringPool ChunkIndex Columns ColumnLaws ColumnReads PushLaws.
From S2P Require Import Compressed Block NetAddr Cast Iter IterLaws ColumnFrom FromLaws CastLaws.
From S2P Require Import Compare Text.
Local Open Scope Z_scope.

(** The text of an address. *)
Definition ip_text (v : ip_version) : bytes -> bytes :=
  match v with V4 => ipv4_text | V6 => ipv6_text | VUuid => id end.

Lemma addr_char_ascii b : addr_char b \/ b = "."%byte \/ is_digit b = true -> is_ascii b = true.
Proof.
  intros Hb. destruct b; try reflexivity; exfalso;
    destruct Hb as [[Hb|Hb]|[Hb|Hb]]; vm_compute in Hb; congruence.
Qed.

Lemma ipv4_text_chars o : Forall (fun b => is_ascii b = true) (ipv4_text o).
Proof.
  assert (Forall (fun b => is_ascii b = true) (octets_text 0 o)) as Ho.
  { generalize 0%nat as i. induction o as [|b o IH]; intros i; [by apply Forall_nil|].
    cbn [octets_text]. rewrite !Forall_app. split_and!; [by destruct i; repeat constructor| |apply IH].
    by destruct b; repeat constructor. }
  destruct o as [|b o]; [by apply Forall_nil|]. by rewrite octets_text_join in Ho.
Qed.

Lemma subslice_text_chars ss :
  Forall (fun s => 0 <= s < 65536) ss -> Forall (fun b => is_ascii b = true) (subslice_text ss).
Proof.
  intros Hs. rewrite subslice_groups. eapply Forall_impl; [by apply groups_text_chars|].
  intros b Hb. apply addr_char_ascii. by left.
Qed.

Lemma ip_text_utf8 v o : v <> VUuid -> length o = ip_bytes v -> utf8_ok (ip_text v o) = true.
Proof.
  intros Hv Ho. apply utf8_ok_ascii, forallb_forall. intros b Hb%list_elem_of_In. revert b Hb.
  apply Forall_forall. destruct v; [apply ipv4_text_chars| |done]. cbn [ip_text]. unfold ipv6_text.
  destruct (segments_spec 8 o Ho) as (Hs & _ & _). case_decide.
  - apply Forall_app. split; [by repeat constructor|apply ipv4_text_chars].
  - case_match; [|by apply subslice_text_chars]. rewrite !Forall_app.
    split_and!; [by apply subslice_text_chars, Forall_take|by repeat constructor|by apply subslice_text_chars, Forall_drop].
Qed.

Lemma ip_text_spells v o : v <> VUuid -> length o = ip_bytes v -> spells v (ip_text v o) o.
Proof.
  intros Hv Ho. split; [by apply ip_text_utf8|].
  destruct v; [by apply ipv4_parse_text|by apply ipv6_parse_text|done].
Qed.

Lemma ipv4_text_length o : length o = 4%nat -> (length (ipv4_text o) <= 15)%nat.
Proof.
  intros Ho. pose proof (ipv4_parse_text o Ho) as Hp. unfold ipv4_parse in Hp. case_decide; [done|lia].
Qed.

Lemma subslice_text_length ss :
  Forall (fun s => 0 <= s < 65536) ss -> (length (subslice_text ss) <= 5 * length ss)%nat.
Proof.
  rewrite subslice_groups. intros Hs.
  enough (forall i, (length (groups_text i ss) <= 5 * length ss)%nat) as Hi by apply Hi.
  induction Hs as [|s ss Hs _ IH]; intros i; [cbn; lia|]. cbn [groups_text]. rewrite !length_app.
  pose proof (digits_length 16 (digits_fuel s) s 4 ltac:(lia) ltac:(cbn; lia) ltac:(lia)).
  specialize (IH (S i)). unfold show_hex. cbn [length].
  enough (length (match i with 0%nat => [] | S _ => lit ":" end) <= 1)%nat by lia.
  destruct i; cbn; lia.
Qed.

Lemma ip_text_length v o :
  v <> VUuid -> length o = ip_bytes v -> (length (ip_text v o) <= 42)%nat.
Proof.
  intros Hv Ho. destruct v; [| |done].
  - pose proof (ipv4_text_length o Ho). cbn [ip_text]. lia.
  - cbn [ip_text]. unfold ipv6_text. destruct (segments_spec 8 o Ho) as (Hs & Hl & _). case_decide.
    + rewrite length_app. pose proof (ipv4_text_length (drop 12 o)).
      change (length (lit "::ffff:")) with 7%nat. rewrite length_drop, Ho in *. 
      change (ip_bytes V6) with 16%nat in *. lia.
    + case_match.
      * rewrite !length_app. change (length (lit "::")) with 2%nat.
        pose proof (subslice_text_length _ (Forall_take _ (span_start (longest_zeroes 0 (mkSpan 0 0) (mkSpan 0 0) (segments o))) _ Hs)).
        pose proof (subslice_text_length _ (Forall_drop _ (span_start (longest_zeroes 0 (mkSpan 0 0) (mkSpan 0 0) (segments o)) +
           span_len (longest_zeroes 0 (mkSpan 0 0) (mkSpan 0 0) (segments o))) _ Hs)).
        rewrite length_take, length_drop, Hl in *. lia.
      * pose proof (subslice_text_length _ Hs). lia.
Qed.

Section Addresses.
Context {P : Profile} `{TextCrates, !Combine}.

(** A cell that is read as an address is printed as its text. *)
Lemma ip_cell_text v c i ip :
  v <> VUuid ->
  (x ← at_ c i; match v with V4 => from_sql_ipv4 x | _ => from_sql_ipv6 x end) = Ok ip ->
  (x ← at_ c i; value_ref_text false x) = Ok (ip_text v ip).
Proof.
  intros Hv. rewrite !bind_Ok. intros (x & Hx & Hip). exists x. split; [done|].
  by destruct v, x; try done; injection Hip as <-.
Qed.

Lemma ip_column_texts v ips :
  v <> VUuid -> Forall (fun ip => length ip = ip_bytes v) ips ->
  text_cells (IpColumnData v (concat (encode_ip v <$> ips))) = Ok (ip_text v <$> ips).
Proof.
  intros Hv Hips. destruct (ips_hold (fun _ => 0) v ips Hips) as [Hh Hvs].
  unfold text_cells. rewrite (holds_len _ _ _ _ Hh). cbn [mbind outcome_bind]. apply map_outcome_Ok.
  apply Forall2_same_length_lookup. split; [rewrite length_seqZ, length_fmap; lia|].
  intros j i s Hi Hs. apply lookup_seqZ in Hi as [-> Hj]. rewrite list_lookup_fmap in Hs.
  destruct (ips !! j) as [ip|] eqn:Hip; [|done]. injection Hs as <-. cbn [Z.add].
  apply ip_cell_text; [done|].
  destruct v; [| |done].
  - exact (values_read _ TIpv4 _ _ _ j ip Hh Hvs Hip).
  - exact (values_read _ TIpv6 _ _ _ j ip Hh Hvs Hip).
Qed.

(** Addresses survive being printed and cast back. *)
Lemma ip_texts_cast v ips :
  v <> VUuid -> Forall (fun ip => length ip = ip_bytes v) ips ->
  Z.of_nat (length ips) * AVG_STR_SIZE <= isize_max ->
  exists s, strings_from (ip_text v <$> ips) = Ok s /\
    cast_to s (ip_sql_type v) = Ok (IpColumnData v (concat (encode_ip v <$> ips))).
Proof.
  intros Hv Hips Hl.
  destruct (from_vec_ok (E:=Error) (ip_text v <$> ips)) as (pool & Hpool & Hwf & Hc).
  { apply Forall_fmap. eapply Forall_impl; [exact Hips|]. intros ip Hip. cbn.
    pose proof (ip_text_length v ip Hv Hip). unfold isize_max. lia. }
  { by rewrite length_fmap. }
  exists (StringColumnData pool). unfold strings_from. rewrite Hpool. split; [done|].
  assert (Z.of_nat (StringPool.len pool) <= isize_max) as Hlp.
  { rewrite <- length_contents, Hc, length_fmap. unfold AVG_STR_SIZE in Hl. lia. }
  assert (Forall2 (spells v) (contents pool) ips) as Hsp.
  { rewrite Hc. apply Forall2_fmap_l, Forall_Forall2_diag. eapply Forall_impl; [exact Hips|].
    intros ip Hip. by apply ip_text_spells. }
  pose proof (parse_addresses_ok v pool ips Hwf Hlp Hsp) as Hp.
  destruct v; [..|done]; cbn -[parse_addresses].
  - exact (f_equal (fun o => inner ← o; Ok (IpColumnData V4 inner)) Hp).
  - exact (f_equal (fun o => inner ← o; Ok (IpColumnData V6 inner)) Hp).
Qed.
End Addresses.
