(* ===== verification/ClientOptions.v ===== *)
(** * Connection options and queries ([types/options.rs], [types/query.rs])

    A URL is parsed into options by the crate [url], a parameter of the model;
    the parameters of the query part are parsed here.  The fields of the feature
    [tls] are left out, which is off unless asked for. *)

From Stdlib Require Import Permutation.
From S2P Require Import Prelude RustStd Errors.
Local Open Scope Z_scope.

(** [url::Url], with the methods that the code calls; [None] of [set_port] is
    its error. *)
Class UrlCrate := {
  Url : Type;
  url_parse : bytes -> bytes + Url;
  scheme : Url -> bytes;
  cannot_be_a_base : Url -> bool;
  has_host : Url -> bool;
  url_username : Url -> bytes;
  url_password : Url -> option bytes;
  path_segments : Url -> option (list bytes);
  port : Url -> option Z;
  query_pairs : Url -> list (bytes * bytes);
  set_path : Url -> bytes -> Url;
  set_query : Url -> option bytes -> Url;
  set_port : Url -> option Z -> option Url
}.

(** [std::time::Duration]: seconds, and nanoseconds below one second. *)
Record Duration := mkDuration { secs : Z; nanos : Z }.

#[global] Instance Duration_eq_dec : EqDecision Duration.
Proof. solve_decision. Defined.

Definition from_secs (n : Z) : Duration := mkDuration n 0.
Definition from_millis (n : Z) : Duration := mkDuration (n / 1000) (n mod 1000 * 1000000).

(** ** Queries *)

Module Query.
Record t := mk { sql : bytes; id : bytes }.

Definition new (sql : bytes) : t := mk sql [].
Definition with_id (self : t) (id : bytes) : t := mk (sql self) id.
(** [From<T> for Query]. *)
Definition from (source : bytes) : t := new source.
Definition get_sql (self : t) : bytes := sql self.
Definition get_id (self : t) : bytes := id self.
Definition map_sql (self : t) (f : bytes -> bytes) : t := mk (f (sql self)) (id self).
End Query.

(** ** Options *)

Module Options.
Record t `{UrlCrate} := mk {
  addr : Url;
  database : bytes;
  username : bytes;
  password : bytes;
  compression : bool;
  pool_min : Z;
  pool_max : Z;
  nodelay : bool;
  keepalive : option Duration;
  ping_before_query : bool;
  send_retries : Z;
  retry_timeout : Duration;
  ping_timeout : Duration;
  connection_timeout : Duration;
  query_timeout : Duration;
  insert_timeout : option Duration;
  execute_timeout : option Duration;
  readonly : option Z;
  alt_hosts : list Url
}.
#[global] Arguments mk {_}.
End Options.

Section Parse.
Context `{UrlCrate}.

(** ** Setters *)

(** [property!]; every other field is kept. *)
Definition set_addr (v : Url) (self : Options.t) : Options.t :=
  let '(Options.mk _ f1 f2 f3 f4 f5 f6 f7 f8 f9 f10 f11 f12 f13 f14 f15 f16 f17 f18) := self in
  Options.mk v f1 f2 f3 f4 f5 f6 f7 f8 f9 f10 f11 f12 f13 f14 f15 f16 f17 f18.
Definition set_database (v : bytes) (self : Options.t) : Options.t :=
  let '(Options.mk f0 _ f2 f3 f4 f5 f6 f7 f8 f9 f10 f11 f12 f13 f14 f15 f16 f17 f18) := self in
  Options.mk f0 v f2 f3 f4 f5 f6 f7 f8 f9 f10 f11 f12 f13 f14 f15 f16 f17 f18.
Definition set_username (v : bytes) (self : Options.t) : Options.t :=
  let '(Options.mk f0 f1 _ f3 f4 f5 f6 f7 f8 f9 f10 f11 f12 f13 f14 f15 f16 f17 f18) := self in
  Options.mk f0 f1 v f3 f4 f5 f6 f7 f8 f9 f10 f11 f12 f13 f14 f15 f16 f17 f18.
Definition set_password (v : bytes) (self : Options.t) : Options.t :=
  let '(Options.mk f0 f1 f2 _ f4 f5 f6 f7 f8 f9 f10 f11 f12 f13 f14 f15 f16 f17 f18) := self in
  Options.mk f0 f1 f2 v f4 f5 f6 f7 f8 f9 f10 f11 f12 f13 f14 f15 f16 f17 f18.
Definition set_compression (v : bool) (self : Options.t) : Options.t :=
  let '(Options.mk f0 f1 f2 f3 _ f5 f6 f7 f8 f9 f10 f11 f12 f13 f14 f15 f16 f17 f18) := self in
  Options.mk f0 f1 f2 f3 v f5 f6 f7 f8 f9 f10 f11 f12 f13 f14 f15 f16 f17 f18.
Definition set_pool_min (v : Z) (self : Options.t) : Options.t :=
  let '(Options.mk f0 f1 f2 f3 f4 _ f6 f7 f8 f9 f10 f11 f12 f13 f14 f15 f16 f17 f18) := self in
  Options.mk f0 f1 f2 f3 f4 v f6 f7 f8 f9 f10 f11 f12 f13 f14 f15 f16 f17 f18.
Definition set_pool_max (v : Z) (self : Options.t) : Options.t :=
  let '(Options.mk f0 f1 f2 f3 f4 f5 _ f7 f8 f9 f10 f11 f12 f13 f14 f15 f16 f17 f18) := self in
  Options.mk f0 f1 f2 f3 f4 f5 v f7 f8 f9 f10 f11 f12 f13 f14 f15 f16 f17 f18.
Definition set_nodelay (v : bool) (self : Options.t) : Options.t :=
  let '(Options.mk f0 f1 f2 f3 f4 f5 f6 _ f8 f9 f10 f11 f12 f13 f14 f15 f16 f17 f18) := self in
  Options.mk f0 f1 f2 f3 f4 f5 f6 v f8 f9 f10 f11 f12 f13 f14 f15 f16 f17 f18.
Definition set_keepalive (v : option Duration) (self : Options.t) : Options.t :=
  let '(Options.mk f0 f1 f2 f3 f4 f5 f6 f7 _ f9 f10 f11 f12 f13 f14 f15 f16 f17 f18) := self in
  Options.mk f0 f1 f2 f3 f4 f5 f6 f7 v f9 f10 f11 f12 f13 f14 f15 f16 f17 f18.
Definition set_ping_before_query (v : bool) (self : Options.t) : Options.t :=
  let '(Options.mk f0 f1 f2 f3 f4 f5 f6 f7 f8 _ f10 f11 f12 f13 f14 f15 f16 f17 f18) := self in
  Options.mk f0 f1 f2 f3 f4 f5 f6 f7 f8 v f10 f11 f12 f13 f14 f15 f16 f17 f18.
Definition set_send_retries (v : Z) (self : Options.t) : Options.t :=
  let '(Options.mk f0 f1 f2 f3 f4 f5 f6 f7 f8 f9 _ f11 f12 f13 f14 f15 f16 f17 f18) := self in
  Options.mk f0 f1 f2 f3 f4 f5 f6 f7 f8 f9 v f11 f12 f13 f14 f15 f16 f17 f18.
Definition set_retry_timeout (v : Duration) (self : Options.t) : Options.t :=
  let '(Options.mk f0 f1 f2 f3 f4 f5 f6 f7 f8 f9 f10 _ f12 f13 f14 f15 f16 f17 f18) := self in
  Options.mk f0 f1 f2 f3 f4 f5 f6 f7 f8 f9 f10 v f12 f13 f14 f15 f16 f17 f18.
Definition set_ping_timeout (v : Duration) (self : Options.t) : Options.t :=
  let '(Options.mk f0 f1 f2 f3 f4 f5 f6 f7 f8 f9 f10 f11 _ f13 f14 f15 f16 f17 f18) := self in
  Options.mk f0 f1 f2 f3 f4 f5 f6 f7 f8 f9 f10 f11 v f13 f14 f15 f16 f17 f18.
Definition set_connection_timeout (v : Duration) (self : Options.t) : Options.t :=
  let '(Options.mk f0 f1 f2 f3 f4 f5 f6 f7 f8 f9 f10 f11 f12 _ f14 f15 f16 f17 f18) := self in
  Options.mk f0 f1 f2 f3 f4 f5 f6 f7 f8 f9 f10 f11 f12 v f14 f15 f16 f17 f18.
Definition set_query_timeout (v : Duration) (self : Options.t) : Options.t :=
  let '(Options.mk f0 f1 f2 f3 f4 f5 f6 f7 f8 f9 f10 f11 f12 f13 _ f15 f16 f17 f18) := self in
  Options.mk f0 f1 f2 f3 f4 f5 f6 f7 f8 f9 f10 f11 f12 f13 v f15 f16 f17 f18.
Definition set_insert_timeout (v : option Duration) (self : Options.t) : Options.t :=
  let '(Options.mk f0 f1 f2 f3 f4 f5 f6 f7 f8 f9 f10 f11 f12 f13 f14 _ f16 f17 f18) := self in
  Options.mk f0 f1 f2 f3 f4 f5 f6 f7 f8 f9 f10 f11 f12 f13 f14 v f16 f17 f18.
Definition set_execute_timeout (v : option Duration) (self : Options.t) : Options.t :=
  let '(Options.mk f0 f1 f2 f3 f4 f5 f6 f7 f8 f9 f10 f11 f12 f13 f14 f15 _ f17 f18) := self in
  Options.mk f0 f1 f2 f3 f4 f5 f6 f7 f8 f9 f10 f11 f12 f13 f14 f15 v f17 f18.
Definition set_readonly (v : option Z) (self : Options.t) : Options.t :=
  let '(Options.mk f0 f1 f2 f3 f4 f5 f6 f7 f8 f9 f10 f11 f12 f13 f14 f15 f16 _ f18) := self in
  Options.mk f0 f1 f2 f3 f4 f5 f6 f7 f8 f9 f10 f11 f12 f13 f14 f15 f16 v f18.
Definition set_alt_hosts (v : list Url) (self : Options.t) : Options.t :=
  let '(Options.mk f0 f1 f2 f3 f4 f5 f6 f7 f8 f9 f10 f11 f12 f13 f14 f15 f16 f17 _) := self in
  Options.mk f0 f1 f2 f3 f4 f5 f6 f7 f8 f9 f10 f11 f12 f13 f14 f15 f16 f17 v.

Definition with_compression : Options.t -> Options.t := set_compression true.

Definition DEFAULT_MIN_CONNS : Z := 10.
Definition DEFAULT_MAX_CONNS : Z := 20.

(** [Options::default]; parsing its address must succeed. *)
Definition options_default : Result Options.t :=
  match url_parse (lit "tcp://default@127.0.0.1:9000") with
  | inl _ => Panic
  | inr addr =>
    Ok {|
      Options.addr := addr;
      Options.database := lit "default";
      Options.username := lit "default";
      Options.password := [];
      Options.compression := false;
      Options.pool_min := DEFAULT_MIN_CONNS;
      Options.pool_max := DEFAULT_MAX_CONNS;
      Options.nodelay := true;
      Options.keepalive := None;
      Options.ping_before_query := true;
      Options.send_retries := 3;
      Options.retry_timeout := from_secs 5;
      Options.ping_timeout := from_millis 500;
      Options.connection_timeout := from_millis 500;
      Options.query_timeout := from_secs 180;
      Options.insert_timeout := Some (from_secs 180);
      Options.execute_timeout := Some (from_secs 180);
      Options.readonly := None;
      Options.alt_hosts := []
    |}
  end.

Definition options_new (addr : Url) : Result Options.t :=
  d ← options_default; Ok (set_addr addr d).

(** ** Parsers of parameters *)

Definition usize_from_str : bytes -> option Z := parse_uint (2 ^ 64 - 1).

Definition bool_from_str (s : bytes) : option bool :=
  if decide (s = lit "true") then Some true
  else if decide (s = lit "false") then Some false else None.

Fixpoint take_digits (source : bytes) : bytes * bytes :=
  match source with
  | c :: r => if is_digit c then let '(l, r) := take_digits r in (c :: l, r) else ([], source)
  | [] => ([], [])
  end.

Definition parse_duration (source : bytes) : option Duration :=
  let '(digits, unit_) := take_digits source in
  num ← parse_uint (2 ^ 64 - 1) digits;
  if decide (unit_ = lit "s") then Some (from_secs num)
  else if decide (unit_ = lit "ms") then Some (from_millis num) else None.

Definition parse_opt_duration (source : bytes) : option (option Duration) :=
  if decide (source = lit "none") then Some None
  else duration ← parse_duration source; Some (Some duration).

Definition parse_opt_u8 (source : bytes) : option (option Z) :=
  if decide (source = lit "none") then Some None
  else duration ← parse_uint 255 source; Some (Some duration).

Definition parse_compression (source : bytes) : option bool :=
  if decide (source = lit "none") then Some false
  else if decide (source = lit "lz4") then Some true else None.

Definition parse_hosts (source : bytes) : option (list Url) :=
  mapM (fun host => match url_parse (lit "tcp://" ++ host) with inr url => Some url | inl _ => None end)
    (split_on "," source).

(** ** Options from a URL *)

Definition parse_param {T} (param value : bytes) (parse : bytes -> option T) : UrlError.t + T :=
  match parse value with
  | Some value => inr value
  | None => inl (UrlError.InvalidParamValue param value)
  end.

(** [options.field = parse_param(key, value, parse)?]. *)
Definition assign {T} (key value : bytes) (parse : bytes -> option T)
  (set : T -> Options.t -> Options.t) (options : Options.t) : UrlError.t + Options.t :=
  match parse_param key value parse with inl e => inl e | inr v => inr (set v options) end.

(** The body of the loop of [set_params]. *)
Definition set_param (key value : bytes) : Options.t -> UrlError.t + Options.t :=
  if decide (key = lit "pool_min") then assign key value usize_from_str set_pool_min
  else if decide (key = lit "pool_max") then assign key value usize_from_str set_pool_max
  else if decide (key = lit "nodelay") then assign key value bool_from_str set_nodelay
  else if decide (key = lit "keepalive") then assign key value parse_opt_duration set_keepalive
  else if decide (key = lit "ping_before_query") then assign key value bool_from_str set_ping_before_query
  else if decide (key = lit "send_retries") then assign key value usize_from_str set_send_retries
  else if decide (key = lit "retry_timeout") then assign key value parse_duration set_retry_timeout
  else if decide (key = lit "ping_timeout") then assign key value parse_duration set_ping_timeout
  else if decide (key = lit "connection_timeout") then assign key value parse_duration set_connection_timeout
  else if decide (key = lit "query_timeout") then assign key value parse_duration set_query_timeout
  else if decide (key = lit "insert_timeout") then assign key value parse_opt_duration set_insert_timeout
  else if decide (key = lit "execute_timeout") then assign key value parse_opt_duration set_execute_timeout
  else if decide (key = lit "compression") then assign key value parse_compression set_compression
  else if decide (key = lit "readonly") then assign key value parse_opt_u8 set_readonly
  else if decide (key = lit "alt_hosts") then assign key value parse_hosts set_alt_hosts
  else fun _ => inl (UrlError.UnknownParameter key).

Fixpoint set_params (options : Options.t) (iter : list (bytes * bytes)) : UrlError.t + Options.t :=
  match iter with
  | [] => inr options
  | (key, value) :: iter =>
    match set_param key value options with
    | inl e => inl e
    | inr options => set_params options iter
    end
  end.

Definition url_result {A} (r : UrlError.t + A) : Result A :=
  match r with inl e => Err (Error.Url e) | inr a => Ok a end.

Definition get_username_from_url (url : Url) : option bytes :=
  if decide (url_username url = []) then None else Some (url_username url).

Definition get_database_from_url (url : Url) : Result (option bytes) :=
  match path_segments url with
  | None => Ok None
  | Some [] => Ok None
  | Some [head] => Ok (if decide (head = []) then None else Some head)
  | Some (_ :: _ :: _) => Err (Error.Url UrlError.Invalid)
  end.

(** [if let Some(v) = o { options.field = v }]. *)
Definition set_some {T} (set : T -> Options.t -> Options.t) (o : option T) (options : Options.t) :=
  match o with Some v => set v options | None => options end.

Definition from_url (url_str : bytes) : Result Options.t :=
  match url_parse url_str with
  | inl text => Err (from_parse_error text)
  | inr url =>
    if negb (bool_decide (scheme url = lit "tcp"))
    then Err (Error.Url (UrlError.UnsupportedScheme (scheme url)))
    else if cannot_be_a_base url || negb (has_host url) then Err (Error.Url UrlError.Invalid)
    else
      options ← options_default;
      let options := set_some set_username (get_username_from_url url) options in
      let options := set_some set_password (url_password url) options in
      let addr := set_query (set_path url []) None in
      let port := match port url with Some p => Some p | None => Some 9000 end in
      addr ← url_result (match set_port addr port with
                         | Some addr => inr addr
                         | None => inl UrlError.Invalid
                         end);
      let options := set_addr addr options in
      database ← get_database_from_url url;
      let options := set_some set_database database options in
      url_result (set_params options (query_pairs url))
  end.

(** ** OptionsSource *)

(** [FromStr for Options]. *)
Definition from_str (url : bytes) : Result Options.t := from_url url.

Inductive State := Raw (options : Options.t) | UrlState (url : bytes).

(** The state behind the mutex of an [OptionsSource] with [IntoOptions] and
    [Default]. *)
Definition options_into_src (options : Options.t) : State := Raw options.
Definition str_into_src (url : bytes) : State := UrlState url.
Definition source_default : Result State := options ← options_default; Ok (Raw options).

(** [OptionsSource::get] and the state after it, which an error leaves as it
    was: the URL is parsed at most once, in the first round of two. *)
Fixpoint get_fuel (fuel : nat) (state : State) : Result Options.t * State :=
  match fuel with
  | O => (OutOfFuel, state)
  | S fuel =>
    match state with
    | Raw options => (Ok options, state)
    | UrlState url =>
      match from_url url with
      | Ok options => get_fuel fuel (Raw options)
      | r => (r, state)
      end
    end
  end.

Definition source_get : State -> Result Options.t * State := get_fuel 2.

(** ** Laws *)

Lemma take_digits_app ds unit_ :
  Forall (fun c => is_digit c = true) ds -> (forall c r, unit_ = c :: r -> is_digit c = false) ->
  take_digits (ds ++ unit_) = (ds, unit_).
Proof.
  intros Hd Hu. induction Hd as [|c ds Hc _ IH].
  - destruct unit_ as [|c r]; [done|]. cbn. by rewrite (Hu c r).
  - cbn. by rewrite Hc, IH.
Qed.

(** The text of a number of seconds or milliseconds is parsed as it. *)
Lemma parse_duration_show n unit_ d :
  0 <= n < 2 ^ 64 -> (unit_, d) ∈ [(lit "s", from_secs n); (lit "ms", from_millis n)] ->
  parse_duration (show_dec n ++ unit_) = Some d.
Proof.
  intros Hn Hd. unfold parse_duration. rewrite take_digits_app.
  - rewrite parse_uint_show by lia. cbn [mbind option_bind].
    apply elem_of_cons in Hd as [[= -> ->]|[[= -> ->]|Hd]%elem_of_cons]; [done|done|].
    by apply not_elem_of_nil in Hd.
  - apply Forall_forall. intros c Hc. eapply forallb_forall; [apply (show_dec_digits n); lia|].
    by apply list_elem_of_In.
  - intros c r ->. apply elem_of_cons in Hd as [[= -> ->]|[[= -> ->]|Hd]%elem_of_cons]; [done|done|].
    by apply not_elem_of_nil in Hd.
Qed.

Lemma parse_digits_range maxv acc s n :
  0 <= acc <= maxv -> parse_digits maxv acc s = Some n -> 0 <= n <= maxv.
Proof.
  revert acc. induction s as [|c s IH]; intros acc Ha; cbn [parse_digits]; [by intros [= <-]|].
  unfold digit_val. destruct (in_range 48 57 (byte_to_Z c)) eqn:Hr; [|done]. cbn zeta.
  match goal with |- context [if ?m <? ?a then _ else _] => destruct (Z.ltb_spec m a) end; [done|].
  apply IH. unfold in_range in Hr. lia.
Qed.

Lemma parse_uint_range maxv s n : 0 <= maxv -> parse_uint maxv s = Some n -> 0 <= n <= maxv.
Proof.
  intros Hm. unfold parse_uint. destruct s as [|c [|c' s]]; [done|..]; case_decide; try done;
    intros Hp; (eapply parse_digits_range; [|exact Hp]; lia).
Qed.

(** Both parsers return a duration whose parts are in range. *)
Lemma parse_duration_range s d :
  parse_duration s = Some d -> 0 <= secs d < 2 ^ 64 /\ 0 <= nanos d < 1000000000.
Proof.
  unfold parse_duration. destruct (take_digits s) as [ds unit_].
  destruct (parse_uint _ ds) as [num|] eqn:Hp; [|done]. cbn [mbind option_bind].
  apply parse_uint_range in Hp; [|lia]. repeat case_decide; intros [= <-]; cbn; [lia|].
  pose proof (Z.mod_pos_bound num 1000 ltac:(lia)).
  pose proof (Z.div_pos num 1000 ltac:(lia) ltac:(lia)).
  pose proof (Z.div_le_upper_bound num 1000 num ltac:(lia) ltac:(lia)). lia.
Qed.

(** What a parameter does to the options. *)
Inductive updates : bytes -> (Options.t -> Options.t) -> Prop :=
| up_pool_min v : updates (lit "pool_min") (set_pool_min v)
| up_pool_max v : updates (lit "pool_max") (set_pool_max v)
| up_nodelay v : updates (lit "nodelay") (set_nodelay v)
| up_keepalive v : updates (lit "keepalive") (set_keepalive v)
| up_ping_before_query v : updates (lit "ping_before_query") (set_ping_before_query v)
| up_send_retries v : updates (lit "send_retries") (set_send_retries v)
| up_retry_timeout v : updates (lit "retry_timeout") (set_retry_timeout v)
| up_ping_timeout v : updates (lit "ping_timeout") (set_ping_timeout v)
| up_connection_timeout v : updates (lit "connection_timeout") (set_connection_timeout v)
| up_query_timeout v : updates (lit "query_timeout") (set_query_timeout v)
| up_insert_timeout v : updates (lit "insert_timeout") (set_insert_timeout v)
| up_execute_timeout v : updates (lit "execute_timeout") (set_execute_timeout v)
| up_compression v : updates (lit "compression") (set_compression v)
| up_readonly v : updates (lit "readonly") (set_readonly v)
| up_alt_hosts v : updates (lit "alt_hosts") (set_alt_hosts v).

Lemma set_param_updates key value :
  (exists e, forall o, set_param key value o = inl e) \/
  (exists f, updates key f /\ forall o, set_param key value o = inr (f o)).
Proof.
  unfold set_param, assign, parse_param.
  repeat (case_decide as Hk;
    [subst key; match goal with |- context [match ?p value with Some _ => _ | None => _ end] =>
                  destruct (p value) end;
     [right; eexists; split; [constructor|reflexivity]|left; eexists; reflexivity]
    |clear Hk]).
  left. eexists. reflexivity.
Qed.

(** Two parameters with different names set different fields. *)
Lemma updates_comm k1 f1 k2 f2 o :
  updates k1 f1 -> updates k2 f2 -> k1 <> k2 -> f1 (f2 o) = f2 (f1 o).
Proof. intros [] []; first [by intros []|intros _; by destruct o]. Qed.

Lemma set_param_comm k1 v1 k2 v2 o o1 o2 :
  k1 <> k2 -> set_param k1 v1 o = inr o1 -> set_param k2 v2 o1 = inr o2 ->
  exists o1', set_param k2 v2 o = inr o1' /\ set_param k1 v1 o1' = inr o2.
Proof.
  intros Hk. destruct (set_param_updates k1 v1) as [[e He]|(f & Hf & He)]; rewrite He; [done|].
  destruct (set_param_updates k2 v2) as [[e He2]|(g & Hg & He2)]; rewrite He2; [done|].
  intros [= <-] [= <-]. exists (g o). rewrite He2, He. split; [done|]. f_equal. by eapply updates_comm.
Qed.

(** The order of parameters with different names does not matter. *)
Lemma set_params_permutation ps qs o o' :
  NoDup ps.*1 -> ps ≡ₚ qs -> set_params o ps = inr o' -> set_params o qs = inr o'.
Proof.
  intros Hnd Hp. revert o. induction Hp as [|[k v] ps qs Hp IH|[k1 v1] [k2 v2] ps|ps qs rs Hp1 IH1 Hp2 IH2];
    intros o.
  - done.
  - cbn. apply NoDup_cons in Hnd as [_ Hnd]. destruct (set_param k v o); [done|]. by apply IH.
  - cbn in *. apply NoDup_cons in Hnd as [Hn _].
    destruct (set_param k2 v2 o) as [|o1] eqn:H2; [done|].
    destruct (set_param k1 v1 o1) as [|o2] eqn:H1; [done|]. intros Hs.
    destruct (set_param_comm k2 v2 k1 v1 o o1 o2) as (o1' & -> & ->); try done.
    intros ->. apply Hn. left.
  - intros Hs. apply IH2; [|by apply IH1]. by rewrite <- Hp1.
Qed.

(** A source that was read holds the options that it returned. *)
Lemma source_get_ok s o s' : source_get s = (Ok o, s') -> s' = Raw o /\ source_get s' = (Ok o, Raw o).
Proof.
  destruct s as [o0|url]; cbn; [by intros [= <- <-]|].
  destruct (from_url url); cbn; intros Hg; by simplify_eq.
Qed.
End Parse.
