(* ===== verification/TypeCache.v ===== *)
(** * References to types ([TYPES_CACHE] of [types/mod.rs]) and the infos there

    A [&'static SqlType] comes from a cache of pinned boxes, and the conversion
    extends the lifetime of a reference into a box by a [transmute].  This is
    sound as long as no box is ever freed.  The heap of the boxes is explicit
    here: inserting under a key that is present frees the box of that key, as
    [HashMap::insert] does.  The other files use a type itself for a reference to
    it, which [as_statics_spec] of this file justifies. *)

From stdpp Require Import gmap.
From S2P Require Import Prelude RustStd Errors Scalars SqlType ClientOptions.
Local Open Scope Z_scope.

Section TypeCache.
Context `{ChronoTz}.

(** ** The cache *)

(** A [&'static SqlType]: a constant of the program or the contents of a box. *)
Inductive type_ref := Constant (t : SqlType) | Boxed (l : nat).

#[global] Instance type_ref_eq_dec : EqDecision type_ref.
Proof. solve_decision. Defined.

(** The boxes that live, and the map from types to boxes. *)
Record Cache := mkCache { heap : gmap nat SqlType; entries : list (SqlType * nat) }.

Definition empty_cache : Cache := mkCache ∅ [].

(** [guard.get(value)]: the box of an equal key. *)
Definition cache_get (c : Cache) (value : SqlType) : option nat :=
  snd <$> (snd <$> list_find (fun e => e.1 = value) (entries c)).

(** [guard.insert(value, Box::pin(value))]: a new box; the box that the key had
    is dropped. *)
Definition cache_insert (c : Cache) (value : SqlType) : Cache :=
  let l := fresh (dom (heap c)) in
  let old := cache_get c value in
  mkCache
    (<[l:=value]> (match old with Some o => delete o (heap c) | None => heap c end))
    ((value, l) :: filter (fun e => e.1 <> value) (entries c)).

(** The loop of the conversion; [fuel] bounds its rounds. *)
Fixpoint lookup_or_insert (fuel : nat) (c : Cache) (value : SqlType) : option (type_ref * Cache) :=
  match fuel with
  | O => None
  | S fuel =>
    match cache_get c value with
    | Some l => Some (Boxed l, c)
    | None => lookup_or_insert fuel (cache_insert c value) value
    end
  end.

(** [impl From<SqlType> for &'static SqlType]. *)
Definition as_static (value : SqlType) (c : Cache) : option (type_ref * Cache) :=
  match value with
  | UInt8 | UInt16 | UInt32 | UInt64 | Int8 | Int16 | Int32 | Int64
  | String_ | Float32 | Float64 | Date => Some (Constant value, c)
  | _ => lookup_or_insert 2 c value
  end.

(** The type behind a reference; none when its box was freed. *)
Definition deref (c : Cache) (r : type_ref) : option SqlType :=
  match r with Constant t => Some t | Boxed l => heap c !! l end.

(** ** The invariant *)

(** Each type has one box, which lives and holds it. *)
Record cache_inv (c : Cache) : Prop := {
  ci_keys : NoDup (entries c).*1;
  ci_boxes : Forall (fun e => heap c !! e.2 = Some e.1) (entries c)
}.

Lemma empty_cache_inv : cache_inv empty_cache.
Proof. split; constructor. Qed.

Lemma cache_get_Some c value l :
  cache_inv c -> cache_get c value = Some l -> heap c !! l = Some value /\ (value, l) ∈ entries c.
Proof.
  intros [_ Hb]. unfold cache_get. destruct (list_find _ _) as [[i [k l']]|] eqn:Hf; [|done].
  intros [= ->]. apply list_find_Some in Hf as (Hi & Hk & _). cbn in Hk. subst k.
  rewrite Forall_lookup in Hb. split; [exact (Hb i _ Hi)|by eapply list_elem_of_lookup_2].
Qed.

Lemma cache_get_None c value : cache_get c value = None -> value ∉ (entries c).*1.
Proof.
  unfold cache_get. destruct (list_find _ _) as [[i e]|] eqn:Hf; [done|]. intros _.
  apply list_find_None in Hf. rewrite Forall_forall in Hf.
  intros ([k l] & -> & Hin)%list_elem_of_fmap. by apply (Hf (k, l)).
Qed.

(** A cache that only grew. *)
Definition grows (c c' : Cache) : Prop := heap c ⊆ heap c' /\ entries c ⊆ entries c'.

#[global] Instance grows_preorder : PreOrder grows.
Proof. split; [by split|]. intros c1 c2 c3 [??] [??]. split; by etrans. Qed.

(** The conversion inserts only what is absent: nothing is dropped. *)
Lemma insert_absent c value :
  cache_inv c -> cache_get c value = None ->
  let c' := cache_insert c value in
  cache_inv c' /\ grows c c' /\ exists l, cache_get c' value = Some l.
Proof.
  intros Hi Hn. pose proof (cache_get_None c value Hn) as Hk.
  assert (filter (fun e => e.1 <> value) (entries c) = entries c) as Hf.
  { clear -Hk. induction (entries c) as [|[k l] es IH]; [done|]. cbn [fmap list_fmap fst] in Hk.
    apply not_elem_of_cons in Hk as [Hne Hk]. rewrite filter_cons_True by (cbn; congruence). by rewrite IH. }
  assert (fresh (dom (heap c)) ∉ dom (heap c)) as Hfresh by apply is_fresh.
  unfold cache_insert. rewrite Hn, Hf. cbv zeta. split_and!.
  - destruct Hi as [Hnd Hb]. split; cbn [entries heap fmap list_fmap].
    + by apply NoDup_cons.
    + apply Forall_cons. split; [by rewrite lookup_insert_eq|].
      eapply Forall_impl; [exact Hb|]. intros [k l] Hl. cbn in *.
      rewrite lookup_insert_ne; [done|]. intros <-. apply Hfresh, elem_of_dom. by exists k.
  - split; [apply insert_subseteq, not_elem_of_dom, Hfresh|]. by apply list_subseteq_cons.
  - exists (fresh (dom (heap c))). unfold cache_get. cbn [entries list_find]. by rewrite decide_True.
Qed.

(** ** The conversion *)

(** What a reference to [value] is. *)
Definition refers (c : Cache) (r : type_ref) (value : SqlType) : Prop :=
  match value, r with
  | (UInt8 | UInt16 | UInt32 | UInt64 | Int8 | Int16 | Int32 | Int64
    | String_ | Float32 | Float64 | Date), Constant t => t = value
  | (UInt8 | UInt16 | UInt32 | UInt64 | Int8 | Int16 | Int32 | Int64
    | String_ | Float32 | Float64 | Date), Boxed _ => False
  | _, Constant _ => False
  | _, Boxed l => (value, l) ∈ entries c
  end.

Lemma refers_deref c r value : cache_inv c -> refers c r value -> deref c r = Some value.
Proof.
  intros [_ Hb]. rewrite Forall_forall in Hb.
  destruct r as [t|l]; [destruct value; cbn; (done || by intros ->)|].
  intros Hr. assert ((value, l) ∈ entries c) as Hin by (by destruct value). by apply (Hb (value, l)).
Qed.

Lemma refers_grows c c' r value : grows c c' -> refers c r value -> refers c' r value.
Proof. intros [_ He]. destruct value, r; cbn; try done; apply He. Qed.

(** Equal types have the same reference, and others have others. *)
Lemma refers_same c r r' value value' :
  cache_inv c -> refers c r value -> refers c r' value' -> r = r' <-> value = value'.
Proof.
  intros Hi Hr Hr'. split.
  - intros <-. pose proof (refers_deref _ _ _ Hi Hr). pose proof (refers_deref _ _ _ Hi Hr'). congruence.
  - intros <-. destruct Hi as [Hk _].
    destruct r as [t|l], r' as [t'|l']; try (destruct value; cbn in *; congruence || done).
    assert ((value, l) ∈ entries c /\ (value, l') ∈ entries c) as [H1 H2] by (by destruct value).
    f_equal. apply list_elem_of_lookup in H1 as [i Hil], H2 as [j Hjl].
    assert (i = j) as <-.
    { eapply NoDup_lookup; [exact Hk|..]; rewrite list_lookup_fmap; [by rewrite Hil|by rewrite Hjl]. }
    congruence.
Qed.

(** The conversion ends, with a reference to an equal type. *)
Lemma as_static_spec value c :
  cache_inv c -> exists r c', as_static value c = Some (r, c') /\ cache_inv c' /\ grows c c' /\ refers c' r value.
Proof.
  intros Hi.
  assert (exists l c', lookup_or_insert 2 c value = Some (Boxed l, c') /\
    cache_inv c' /\ grows c c' /\ (value, l) ∈ entries c') as (l & c' & Hl & Hb).
  { cbn [lookup_or_insert]. destruct (cache_get c value) as [l|] eqn:Hg.
    - exists l, c. split_and!; try done. by apply cache_get_Some.
    - destruct (insert_absent c value Hi Hg) as (Hi' & Hs & l & Hl). rewrite Hl.
      exists l, (cache_insert c value). split_and!; try done. by apply cache_get_Some. }
  destruct value; first [exists (Boxed l), c'; done|eexists _, c; split_and!; done].
Qed.

(** Conversions one after the other, each with its reference. *)
Fixpoint as_statics (values : list SqlType) (c : Cache) : option (list type_ref * Cache) :=
  match values with
  | [] => Some ([], c)
  | value :: values =>
    '(r, c) ← as_static value c;
    '(rs, c) ← as_statics values c;
    Some (r :: rs, c)
  end.

Lemma as_statics_spec values c :
  cache_inv c -> exists rs c', as_statics values c = Some (rs, c') /\ cache_inv c' /\ grows c c' /\
    Forall2 (refers c') rs values.
Proof.
  revert c. induction values as [|v values IH]; intros c Hi; cbn [as_statics].
  - by exists [], c.
  - destruct (as_static_spec v c Hi) as (r & c1 & -> & Hi1 & Hg1 & Hr).
    destruct (IH c1 Hi1) as (rs & c2 & Hrs & Hi2 & Hg2 & Hd2). cbn. rewrite Hrs. cbn.
    exists (r :: rs), c2. split_and!; [done|done|by etrans|].
    constructor; [by eapply refers_grows|done].
Qed.
End TypeCache.

(** ** Infos *)

Section Infos.
Context `{ChronoTz, UrlCrate}.

Record ProfileInfo := mkProfileInfo {
  pi_rows : Z;
  pi_bytes : Z;
  pi_blocks : Z;
  applied_limit : bool;
  rows_before_limit : Z;
  calculated_rows_before_limit : bool
}.

Definition profile_info_default : ProfileInfo := mkProfileInfo 0 0 0 false 0 false.

Record ServerInfo := mkServerInfo {
  si_name : bytes;
  si_revision : Z;
  minor_version : Z;
  major_version : Z;
  si_timezone : Tz
}.

Definition server_info_default : ServerInfo := mkServerInfo [] 0 0 0 Zulu.

(** [impl Debug for ServerInfo]. *)
Definition server_info_text (self : ServerInfo) : bytes :=
  si_name self ++ lit " " ++ show_dec (major_version self) ++ lit "." ++ show_dec (minor_version self)
  ++ lit "." ++ show_dec (si_revision self) ++ lit " (" ++ tz_debug (si_timezone self) ++ lit ")".

(** The client's [Context]. *)
Record Context := mkClientContext {
  server_info : ServerInfo;
  hostname : bytes;
  options_source : State
}.

(** [Context::default], on a host of the name that [hostname::get] returns. *)
Definition context_default (host : bytes + unit) : Result Context :=
  match host with
  | inl hostname =>
    options ← source_default;
    Ok (mkClientContext server_info_default hostname options)
  | inr _ => Panic
  end.
End Infos.
