(* ===== verification/Conversions.v ===== *)
(** * Conversions of Rust values, and rows ([types/value.rs],
      [types/value_ref.rs], [types/block/builder.rs], [types/block/row.rs], [lib.rs])

    The [From] implementations that make a [Value] or a [ValueRef] of a Rust
    value, and those that take one apart; the chains of [RCons] that the macro
    [row!] builds, and the [BlockRef] of a row.  Those that other files use are
    there: [prim_value], [value_prim] and so on in Values, [date_value] in
    ColumnFrom. *)

From S2P Require Import Prelude RustStd Errors Scalars SqlType TypeNames DecimalNum Values.
From S2P Require Import StringPool Columns Compressed Block Compare ColumnFrom.
Local Open Scope Z_scope.

Section Conversions.
Context {P : Profile} `{ChronoTz, Combine}.

(** ** Values of Rust values *)

(** [From<String>], [From<&str>], [From<Vec<u8>>] and [From<&[u8]>]. *)
Definition value_of_bytes (v : bytes) : Value.t := Value.String_ v.

(** [From<Enum8>], [From<Enum16>]: no names. *)
Definition value_of_enum8 (v : Z) : Value.t := Value.Enum8 [] v.
Definition value_of_enum16 (v : Z) : Value.t := Value.Enum16 [] v.

(** [From<Decimal>], by the macro [value_from!]. *)
Definition value_of_decimal (v : Decimal.t) : Value.t := Value.Decimal_ v.

(** [From<AppDateTime>]: the seconds are cut to 32 bits. *)
Definition value_of_datetime (v : DateTime) : Value.t :=
  Value.DateTime_ (wrapu 32 (dt_timestamp v)) (dt_timezone v).

(** [From<Option<T>>]. *)
Definition value_of_option {A} (h : has_sql_type) (into : A -> Result Value.t) (value : option A)
  : Result Value.t :=
  match value with
  | None => default_type ← get_sql_type h; Ok (Value.Nullable (Left default_type))
  | Some inner => v ← into inner; Ok (Value.Nullable (Right v))
  end.

(** ** Borrowed cells *)

(** [From<&str>] and [From<&[u8]> for ValueRef]. *)
Definition value_ref_of_bytes (s : bytes) : ValueRef.t := ValueRef.String_ s.

(** [from_number!]. *)
Definition prim_value_ref (t : prim) (v : Z) : Result ValueRef.t :=
  match t with
  | u8 => Ok (ValueRef.UInt8 v) | u16 => Ok (ValueRef.UInt16 v)
  | u32 => Ok (ValueRef.UInt32 v) | u64 => Ok (ValueRef.UInt64 v)
  | i8 => Ok (ValueRef.Int8 v) | i16 => Ok (ValueRef.Int16 v)
  | i32 => Ok (ValueRef.Int32 v) | i64 => Ok (ValueRef.Int64 v)
  | f32 => Ok (ValueRef.Float32 v) | f64 => Ok (ValueRef.Float64 v)
  | bool_ => Panic
  end.

(** [From<ValueRef> for AppDate] and [for AppDateTime]: other variants panic. *)
Definition value_ref_date (value : ValueRef.t) : Result AppDate :=
  match value with
  | ValueRef.Date v tz => time ← timestamp tz (v * 24 * 3600) 0; Ok (dt_date time)
  | _ => Panic
  end.

Definition value_ref_datetime (value : ValueRef.t) : Result DateTime :=
  match value with
  | ValueRef.DateTime_ x tz => timestamp tz x 0
  | ValueRef.DateTime64 x (precision, tz) => to_datetime x precision tz
  | _ => Panic
  end.

(** [Sliceable::slice_type]; other types do not implement it. *)
Definition slice_type (t : prim) : Result SqlType :=
  match t with
  | u8 => Ok UInt8 | u16 => Ok UInt16 | u32 => Ok UInt32 | u64 => Ok UInt64
  | i8 => Ok Int8 | i16 => Ok Int16 | i32 => Ok Int32 | i64 => Ok Int64
  | _ => Panic
  end.

(** ** There and back *)

(** The Rust types that become a [Value] and are read back with [FromSql]. *)
Inductive host :=
| HostPrim (t : prim) | HostString | HostBytes | HostDecimal | HostEnum8 | HostEnum16
| HostOption (h : host).

Fixpoint host_value (h : host) : Type :=
  match h with
  | HostPrim _ | HostEnum8 | HostEnum16 => Z
  | HostString | HostBytes => bytes
  | HostDecimal => Decimal.t
  | HostOption h => option (host_value h)
  end.

(** The type that [HasSqlType] gives; types without it have no options. *)
Definition host_sql_type (h : host) : Result SqlType :=
  match h with
  | HostPrim t => get_sql_type (HPrim t)
  | HostString => get_sql_type HString
  | _ => Panic
  end.

(** The values that exist: a [String] is valid UTF-8. *)
Fixpoint host_ok (h : host) : host_value h -> Prop :=
  match h with
  | HostString => fun s => utf8_ok s = true
  | HostOption h => fun v => match v with Some x => host_ok h x | None => True end
  | _ => fun _ => True
  end.

Fixpoint host_into (h : host) : host_value h -> Result Value.t :=
  match h with
  | HostPrim t => prim_value t
  | HostString | HostBytes => fun s => Ok (value_of_bytes s)
  | HostDecimal => fun d => Ok (value_of_decimal d)
  | HostEnum8 => fun v => Ok (value_of_enum8 v)
  | HostEnum16 => fun v => Ok (value_of_enum16 v)
  | HostOption h => fun v =>
    match v with
    | None => default_type ← host_sql_type h; Ok (Value.Nullable (Left default_type))
    | Some inner => v ← host_into h inner; Ok (Value.Nullable (Right v))
    end
  end.

Fixpoint host_from (h : host) : FromSql (host_value h) :=
  match h with
  | HostPrim t => from_sql_prim t
  | HostString => from_sql_str
  | HostBytes => from_sql_bytes
  | HostDecimal => from_sql_decimal
  | HostEnum8 => from_sql_enum8
  | HostEnum16 => from_sql_enum16
  | HostOption h => from_sql_option (lit "Option") (host_from h)
  end.

Lemma host_roundtrips h x v :
  host_ok h x -> host_into h x = Ok v -> host_from h (to_value_ref v) = Ok x.
Proof.
  revert v. induction h as [t| | | | | |h IH]; intros v Hok Hv; cbn [host_into host_from host_value host_ok] in *.
  - destruct t; cbn in Hv; try done; by injection Hv as <-.
  - injection Hv as <-. cbn. unfold str_from_utf8. unfold utf8_ok in Hok. by apply bool_decide_eq_true in Hok as ->.
  - by injection Hv as <-.
  - by injection Hv as <-.
  - by injection Hv as <-.
  - by injection Hv as <-.
  - destruct x as [x|].
    + destruct (host_into h x) as [w| | |] eqn:Hw; try done. injection Hv as <-. cbn.
      by rewrite (IH x w Hok Hw).
    + destruct (host_sql_type h); try done. by injection Hv as <-.
Qed.

(** ** Row builders *)

(** [RNil] and [RCons]. *)
Inductive row_builder := RNil | RCons (key : bytes) (value : Value.t) (tail : row_builder).

(** [RNil::put] and [RCons::put]. *)
Definition row_put (self : row_builder) (key : bytes) (value : Value.t) : row_builder := RCons key value self.

(** [RowBuilder::apply]. *)
Fixpoint row_apply (self : row_builder) (block : Block) : Result Block :=
  match self with
  | RNil => Ok block
  | RCons key value tail => block ← put_param key value block; row_apply tail block
  end.

(** The macro [row!], of its fields in the order in which they are written. *)
Fixpoint row_macro (fields : list (bytes * Value.t)) : row_builder :=
  match fields with
  | [] => RNil
  | (k, v) :: tail => row_put (row_macro tail) k v
  end.

(** A row that the macro makes is applied field by field, as a vector is. *)
Lemma row_macro_apply fields block : row_apply (row_macro fields) block = block_push fields block.
Proof.
  revert block. unfold block_push. induction fields as [|[k v] fields IH]; intros block; [done|].
  cbn [row_macro row_put row_apply for_each]. by destruct (put_param k v block); cbn; rewrite ?IH.
Qed.

(** ** The block of a row *)

(** [BlockRef]; an owned block is behind an [Arc]. *)
Inductive BlockRef := Borrowed (block : Block) | Owned (block : Block).

Definition block_of (self : BlockRef) : Block := match self with Borrowed block | Owned block => block end.

Definition ref_clone (self : BlockRef) : BlockRef :=
  match self with Borrowed block => Borrowed block | Owned block => Owned block end.

Definition ref_row_count (self : BlockRef) : Result Z :=
  match self with Borrowed block => row_count block | Owned block => row_count block end.

Definition ref_column_count (self : BlockRef) : Z :=
  match self with Borrowed block => column_count block | Owned block => column_count block end.

Definition ref_get {A} (from_sql : FromSql A) (self : BlockRef) (row : Z) (col : ColumnIdx) : Result A :=
  match self with
  | Borrowed block => get from_sql block row col
  | Owned block => get from_sql block row col
  end.

Definition ref_get_column (self : BlockRef) (col : ColumnIdx) : Result Column :=
  match self with
  | Borrowed block => column_index ← get_index col (columns block); indexZ (columns block) column_index
  | Owned block => column_index ← get_index col (columns block); indexZ (columns block) column_index
  end.

(** [Rows::next], over a [BlockRef]: the row has a clone of it. *)
Definition ref_rows_next (self : BlockRef) (row : Z) : Result (option (Z * BlockRef * Z)) :=
  n ← ref_row_count self;
  if n <=? row then Ok None else Ok (Some (row, ref_clone self, row + 1)).

(** [Block::rows]. *)
Definition block_rows (self : Block) : Z * BlockRef := (0, Borrowed self).

(** [Block::clone] and [Block::as_ref]. *)
Definition block_clone (self : Block) : Block := mkBlock (info self) (id <$> columns self) (capacity_ self).

(** The rows that are left from [row] on, with the cells of a column. *)
Fixpoint ref_cells {A} (fuel : nat) (from_sql : FromSql A) (self : BlockRef) (row : Z) (col : ColumnIdx)
  : Result (list A) :=
  match fuel with
  | O => OutOfFuel
  | S fuel =>
    r ← ref_rows_next self row;
    match r with
    | None => Ok []
    | Some (row, block_ref, next) =>
      x ← ref_get from_sql block_ref row col;
      xs ← ref_cells fuel from_sql self next col;
      Ok (x :: xs)
    end
  end.

Lemma block_clone_same block : block_clone block = block.
Proof. destruct block as [i cs c]. unfold block_clone. cbn. by rewrite list_fmap_id. Qed.

Lemma ref_block {A} (from_sql : FromSql A) self row col :
  ref_get from_sql self row col = get from_sql (block_of self) row col /\
  ref_row_count self = row_count (block_of self) /\
  ref_column_count self = column_count (block_of self) /\
  ref_get_column self col = get_column (block_of self) col /\ ref_clone self = self.
Proof. by destruct self. Qed.

Lemma ref_cells_S {A} fuel (from_sql : FromSql A) self row col :
  ref_cells (S fuel) from_sql self row col =
  r ← ref_rows_next self row;
  match r with
  | None => Ok []
  | Some (row, block_ref, next) =>
    x ← ref_get from_sql block_ref row col;
    xs ← ref_cells fuel from_sql self next col;
    Ok (x :: xs)
  end.
Proof. reflexivity. Qed.

(** Iterating over the rows reads the column from top to bottom. *)
Lemma ref_cells_column {A} (from_sql : FromSql A) self n col (f : Z -> A) :
  row_count (block_of self) = Ok n -> 0 <= n ->
  (forall i, 0 <= i < n -> get from_sql (block_of self) i col = Ok (f i)) ->
  ref_cells (S (Z.to_nat n)) from_sql self 0 col = Ok (f <$> seqZ 0 n).
Proof.
  intros Hn Hpos0 Hf.
  assert (forall k row, Z.of_nat k + row = n -> 0 <= row ->
    ref_cells (S k) from_sql self row col = Ok (f <$> seqZ row (Z.of_nat k))) as Hk.
  { induction k as [|k IH]; intros row Hr Hpos; rewrite ref_cells_S; unfold ref_rows_next;
      rewrite (proj1 (proj2 (ref_block from_sql self row col))), Hn; cbn [mbind outcome_bind].
    - by replace (n <=? row) with true by lia.
    - replace (n <=? row) with false by lia. cbn [mbind outcome_bind].
      replace (ref_clone self) with self by (by destruct self).
      rewrite (proj1 (ref_block from_sql self row col)), Hf by lia. cbn [mbind outcome_bind].
      rewrite (IH (row + 1)) by lia. cbn [mbind outcome_bind].
      rewrite (seqZ_cons row (Z.of_nat (S k))) by lia.
      replace (Z.pred (Z.of_nat (S k))) with (Z.of_nat k) by lia. done. }
  specialize (Hk (Z.to_nat n) 0). rewrite Z2Nat.id in Hk by lia. apply Hk; lia.
Qed.
End Conversions.
