(* ===== verification/ArcHeap.v ===== *)
(** * Shared columns ([Column::push] of [types/column/mod.rs])

    The data of a column are behind an [Arc], as are the columns inside a nullable
    column or an array; the clones of a block share them, and [Column::push]
    copies what is shared before it changes it.  Here the [Arc]s are explicit: a
    heap of nodes with the number of references to each.  [Block.column_push]
    takes a flag instead, which the laws of this file justify; and they show that
    a push is not seen through any other reference. *)

From stdpp Require Import gmap.
From S2P Require Import Prelude RustStd Errors Scalars SqlType TypeNames DecimalNum Values.
From S2P Require Import StringPool Columns Compressed Block FromLaws.
Local Open Scope Z_scope.

Section ArcHeap.
Context {P : Profile} `{ChronoTz, Combine}.

(** ** The heap *)

(** What is behind an [Arc]: [Plain] data have no [Arc] of their own. *)
Inductive node :=
| Plain (c : column_data)
| NullableNode (inner : nat) (nulls : bytes)
| ArrayNode (inner : nat) (offsets : list Z).

(** Each node with the number of its references. *)
Abbreviation Heap := (gmap nat (node * nat)).

Definition children (n : node) : list nat :=
  match n with Plain _ => [] | NullableNode inner _ | ArrayNode inner _ => [inner] end.

(** [Arc::new], [Arc::clone], and dropping a reference that is not the last. *)
Definition arc_new (n : node) (h : Heap) : nat * Heap :=
  let l := fresh (dom h) in (l, <[l:=(n, 1%nat)]> h).

Definition arc_clone (l : nat) (h : Heap) : Heap := alter (fun x => (x.1, S x.2)) l h.

Definition arc_drop (l : nat) (h : Heap) : Heap := alter (fun x => (x.1, pred x.2)) l h.

(** [Arc::get_mut]. *)
Definition get_mut (l : nat) (h : Heap) : option node :=
  match h !! l with Some (n, 1%nat) => Some n | _ => None end.

(** ** Pushing *)

(** The value that the column inside a nullable column gets, and its null mark. *)
Definition nullable_item (value : Value.t) : Result (Value.t * byte) :=
  match value with
  | Value.Nullable (Left sql_type) => d ← value_default sql_type; Ok (d, x01)
  | Value.Nullable (Right v) => Ok (v, x00)
  | v => Ok (v, x00)
  end.

(** [ColumnData::push] of the node at [l], to which there is a mutable reference;
    [fuel] bounds the nesting. *)
Fixpoint heap_push (fuel : nat) (l : nat) (value : Value.t) (h : Heap) : Result Heap :=
  match fuel with
  | O => OutOfFuel
  | S fuel =>
    match h !! l with
    | Some (Plain c, k) => c ← push true c value; Ok (<[l:=(Plain c, k)]> h)
    | Some (NullableNode inner nulls, k) =>
      _ ← unwrap (get_mut inner h);
      '(v, null) ← nullable_item value;
      h ← heap_push fuel inner v h;
      Ok (<[l:=(NullableNode inner (nulls ++ [null]), k)]> h)
    | Some (ArrayNode inner offsets, k) =>
      match value with
      | Value.Array _ vs =>
        _ ← unwrap (get_mut inner h);
        offset ← arith_u 64 (default 0 (last offsets) + Z.of_nat (length vs));
        h ← for_each vs (heap_push fuel inner) h;
        Ok (<[l:=(ArrayNode inner (offsets ++ [offset]), k)]> h)
      | _ => Panic
      end
    | None => Panic
    end
  end.

(** [clone_instance] of a node: the clone shares the columns inside. *)
Definition node_clone (n : node) (h : Heap) : Result (nat * Heap) :=
  match n with
  | Plain c => c ← clone_instance c; Ok (arc_new (Plain c) h)
  | NullableNode inner nulls => Ok (arc_new (NullableNode inner nulls) (arc_clone inner h))
  | ArrayNode inner offsets => Ok (arc_new (ArrayNode inner offsets) (arc_clone inner h))
  end.

(** [Column::push] on the data at [l]: the data afterwards. *)
Definition column_push_at (l : nat) (value : Value.t) (h : Heap) : Result (nat * Heap) :=
  match get_mut l h with
  | Some _ => h ← heap_push (size h) l value h; Ok (l, h)
  | None =>
    match h !! l with
    | Some (n, _) =>
      '(l', h) ← node_clone n h;
      h ← heap_push (size h) l' value (arc_drop l h);
      Ok (l', h)
    | None => Panic
    end
  end.

(** ** What is behind a reference *)

(** Data without references of their own; the columns inside decimals and enums
    are in boxes. *)
Fixpoint plain (c : column_data) : bool :=
  match c with
  | NullableColumnData _ _ | ArrayColumnData _ _ => false
  | DecimalColumnData inner _ _ _ | Enum8ColumnData _ inner | Enum16ColumnData _ inner => plain inner
  | _ => true
  end.

(** The nodes that a column is made of. *)
Fixpoint levels (c : column_data) : nat :=
  match c with NullableColumnData inner _ | ArrayColumnData inner _ => S (levels inner) | _ => 1%nat end.

(** The column at [l]. *)
Inductive repr (h : Heap) : nat -> column_data -> Prop :=
| repr_plain l c k : h !! l = Some (Plain c, k) -> plain c = true -> repr h l c
| repr_nullable l inner nulls k c :
  h !! l = Some (NullableNode inner nulls, k) -> repr h inner c -> repr h l (NullableColumnData c nulls)
| repr_array l inner offsets k c :
  h !! l = Some (ArrayNode inner offsets, k) -> repr h inner c -> repr h l (ArrayColumnData c offsets).

(** [m] is reached from [l]. *)
Inductive inside (h : Heap) (l : nat) : nat -> Prop :=
| inside_self : inside h l l
| inside_child m n k inner : inside h l m -> h !! m = Some (n, k) -> inner ∈ children n -> inside h l inner.

(** All that is strictly inside has one reference. *)
Inductive sole (h : Heap) : nat -> Prop :=
| sole_plain l c k : h !! l = Some (Plain c, k) -> sole h l
| sole_inner l n k inner m :
  h !! l = Some (n, k) -> children n = [inner] -> h !! inner = Some (m, 1%nat) -> sole h inner -> sole h l.

Lemma inside_trans h l m x : inside h l m -> inside h m x -> inside h l x.
Proof. intros Hl. induction 1 as [|x n k inner _ IH Hn Hc]; [done|]. by eapply inside_child. Qed.

(** A column depends on what is inside only. *)
Lemma repr_frame h h' l c :
  (forall m, inside h l m -> fst <$> h' !! m = fst <$> h !! m) -> repr h l c -> repr h' l c.
Proof.
  intros Hm Hc. assert (forall m n k, inside h l m -> h !! m = Some (n, k) -> exists k', h' !! m = Some (n, k')) as Hn.
  { intros m n k Hi Hn. specialize (Hm m Hi). rewrite Hn in Hm.
    destruct (h' !! m) as [[n' k']|]; [|done]. injection Hm as ->. by exists k'. }
  clear Hm. induction Hc as [l c k Hl Hp|l inner nulls k c Hl _ IH|l inner offsets k c Hl _ IH];
    destruct (Hn l _ _ (inside_self h l) Hl) as [k' Hl'].
  - by eapply repr_plain.
  - eapply repr_nullable; [done|]. apply IH. intros m n k1 Hi. apply Hn. eapply inside_trans; [|done].
    eapply inside_child; [constructor|done|by left].
  - eapply repr_array; [done|]. apply IH. intros m n k1 Hi. apply Hn. eapply inside_trans; [|done].
    eapply inside_child; [constructor|done|by left].
Qed.

Lemma repr_unique h l c1 c2 : repr h l c1 -> repr h l c2 -> c1 = c2.
Proof.
  intros H1. revert c2.
  induction H1 as [l c k Hl Hp|l inner nulls k c Hl _ IH|l inner offsets k c Hl _ IH]; intros c2 H2;
    inversion H2; simplify_eq; [done|f_equal; by apply IH..].
Qed.

(** What is inside is a part of the column. *)
Lemma inside_part h l m c :
  inside h l m -> repr h l c -> exists cm, repr h m cm /\ (cdepth cm <= cdepth c)%nat.
Proof.
  intros Hi Hc. induction Hi as [|m n k inner _ (cm & Hcm & Hd) Hn Hin]; [by exists c|].
  destruct Hcm as [m cm k' Hm _|m inner' nulls k' cm Hm Hcm|m inner' offsets k' cm Hm Hcm];
    rewrite Hm in Hn; injection Hn as <- <-; [by apply not_elem_of_nil in Hin|..];
    apply list_elem_of_singleton in Hin as ->; exists cm; cbn in *; split; done || lia.
Qed.

(** The column below a node. *)
Lemma repr_child h l n k inner c :
  h !! l = Some (n, k) -> children n = [inner] -> repr h l c ->
  exists ci, repr h inner ci /\ cdepth c = S (cdepth ci).
Proof.
  intros Hl Hn Hc. destruct Hc as [l c k' Hl' _|l i nulls k' c Hl' Hc|l i offsets k' c Hl' Hc];
    rewrite Hl in Hl'; injection Hl' as -> ->; [done|..]; injection Hn as ->; by exists c.
Qed.

Lemma repr_child_levels h l n k inner c :
  h !! l = Some (n, k) -> children n = [inner] -> repr h l c ->
  exists ci, repr h inner ci /\ levels c = S (levels ci).
Proof.
  intros Hl Hn Hc. destruct Hc as [l c k' Hl' _|l i nulls k' c Hl' Hc|l i offsets k' c Hl' Hc];
    rewrite Hl in Hl'; injection Hl' as -> ->; [done|..]; injection Hn as ->; by exists c.
Qed.

(** Nothing is inside itself. *)
Lemma inside_acyclic h l n k inner c :
  h !! l = Some (n, k) -> children n = [inner] -> repr h l c -> ~ inside h inner l.
Proof.
  intros Hl Hn Hc Hi. destruct (repr_child _ _ _ _ _ _ Hl Hn Hc) as (ci & Hci & Hd).
  destruct (inside_part _ _ _ _ Hi Hci) as (cm & Hcm & Hle). rewrite (repr_unique _ _ _ _ Hcm Hc) in Hle. lia.
Qed.

(** ** What a push changes *)

(** The same nodes, up to their rows. *)
Definition same_shape (h h' : Heap) : Prop :=
  forall m, (fun x => (children x.1, x.2)) <$> h' !! m = (fun x => (children x.1, x.2)) <$> h !! m.

Lemma same_shape_sym h h' : same_shape h h' -> same_shape h' h.
Proof. by intros Hs m. Qed.

Lemma same_shape_trans h1 h2 h3 : same_shape h1 h2 -> same_shape h2 h3 -> same_shape h1 h3.
Proof. intros H12 H23 m. by rewrite H23, H12. Qed.

Lemma same_shape_insert h l n n' k :
  h !! l = Some (n, k) -> children n' = children n -> same_shape h (<[l:=(n', k)]> h).
Proof.
  intros Hl Hn m. destruct (decide (m = l)) as [->|Hm].
  - rewrite lookup_insert_eq, Hl. cbn. by rewrite Hn.
  - by rewrite lookup_insert_ne.
Qed.

Lemma same_shape_lookup h h' m n k :
  same_shape h h' -> h !! m = Some (n, k) -> exists n', h' !! m = Some (n', k) /\ children n' = children n.
Proof.
  intros Hs Hm. specialize (Hs m). rewrite Hm in Hs. destruct (h' !! m) as [[n' k']|]; [|done].
  cbn in Hs. injection Hs as Hc ->. by exists n'.
Qed.

Lemma inside_shape h h' l m : same_shape h h' -> inside h l m -> inside h' l m.
Proof.
  intros Hs. induction 1 as [|m n k inner _ IH Hn Hin]; [constructor|].
  destruct (same_shape_lookup _ _ _ _ _ Hs Hn) as (n' & Hn' & Hc).
  eapply inside_child; [exact IH|exact Hn'|by rewrite Hc].
Qed.

Lemma sole_shape h h' l : same_shape h h' -> sole h l -> sole h' l.
Proof.
  intros Hs. induction 1 as [l c k Hl|l n k inner m Hl Hn Hi _ IH].
  - destruct (same_shape_lookup _ _ _ _ _ Hs Hl) as ([] & Hl' & Hc); try done. by eapply sole_plain.
  - destruct (same_shape_lookup _ _ _ _ _ Hs Hl) as (n' & Hl' & Hc).
    destruct (same_shape_lookup _ _ _ _ _ Hs Hi) as (m' & Hi' & _).
    eapply sole_inner; [exact Hl'|by rewrite Hc|exact Hi'|done].
Qed.

(** What a push does to the heap: nothing outside of [l]; inside, rows. *)
Definition local (l : nat) (h h' : Heap) : Prop :=
  same_shape h h' /\ forall m, ~ inside h l m -> h' !! m = h !! m.

Lemma local_refl l h : local l h h.
Proof. by split. Qed.

Lemma local_trans l h1 h2 h3 : local l h1 h2 -> local l h2 h3 -> local l h1 h3.
Proof.
  intros [Hs12 Hm12] [Hs23 Hm23]. split; [by eapply same_shape_trans|].
  intros m Hm. rewrite Hm23, Hm12; [done..|]. intros Hi. apply Hm.
  eapply inside_shape; [by apply same_shape_sym|done].
Qed.

Lemma local_insert l h n n' k :
  h !! l = Some (n, k) -> children n' = children n -> local l h (<[l:=(n', k)]> h).
Proof.
  intros Hl Hn. split; [by apply (same_shape_insert _ _ n)|]. intros m Hm.
  rewrite lookup_insert_ne; [done|]. intros <-. apply Hm. constructor.
Qed.

(** A push to the node below, and then to the node itself. *)
Lemma local_inner l h n k inner h' n' :
  h !! l = Some (n, k) -> inner ∈ children n -> children n' = children n -> local inner h h' ->
  ~ inside h inner l -> local l h (<[l:=(n', k)]> h') /\ h' !! l = Some (n, k).
Proof.
  intros Hl Hin Hn [Hs Hm] Hi. assert (h' !! l = Some (n, k)) as Hl' by (by rewrite Hm).
  split; [|done]. apply (local_trans _ _ h'); [|by eapply local_insert]. split; [done|].
  intros m Hout. apply Hm. intros Hi'. apply Hout. eapply inside_trans; [|exact Hi'].
  eapply inside_child; [constructor|done..].
Qed.

(** ** A push to a column of one's own *)

(** A push leaves the kind of a column as it is. *)
Lemma push_kind fuel arcs c v c' :
  push_fuel fuel arcs c v = Ok c' -> cdepth c' = cdepth c /\ levels c' = levels c /\ plain c' = plain c.
Proof.
  revert c v c'. induction fuel as [|fuel IH]; intros c v c'; [done|].
  assert (forall vs c c', for_each vs (fun v c => push_fuel fuel arcs c v) c = Ok c' ->
    cdepth c' = cdepth c /\ levels c' = levels c) as IHs.
  { induction vs as [|w vs IHvs]; intros c1 c2; cbn [for_each]; [by intros [= <-]|].
    rewrite bind_Ok. intros (c3 & (Hd & Hl & _)%IH & [Hd' Hl']%IHvs). split; congruence. }
  destruct c; cbn [push_fuel]; try done;
    unfold date_push, datetime64_push, chrono_push, nullable_push, array_push, decimal_push, enum8_push, enum16_push;
    repeat case_match; try done;
    repeat (rewrite bind_Ok; intros (? & ? & Hr); revert Hr); try (by intros [= <-]).
  all: intros [= <-]; cbn; repeat match goal with
    | Hp : push_fuel _ _ _ _ = Ok _ |- _ => apply IH in Hp as (? & ? & ?)
    | Hp : for_each _ _ _ = Ok _ |- _ => apply IHs in Hp as [? ?] end; split_and!; congruence.
Qed.

(** The heap does as the column did; unless it is [strict], it may also panic. *)
Definition agrees (strict : bool) (h : Heap) (l : nat) (r : Result column_data) (r' : Result Heap) : Prop :=
  (strict = false /\ r' = Panic) \/
  match r with
  | Ok c' => exists h', r' = Ok h' /\ repr h' l c' /\ local l h h'
  | Err e => r' = Err e
  | Panic => r' = Panic
  | OutOfFuel => r' = OutOfFuel
  end.

Lemma agrees_Ok strict h h' l c : repr h' l c -> local l h h' -> agrees strict h l (Ok c) (Ok h').
Proof. right. by exists h'. Qed.

Lemma agrees_bind strict h l {A} (m : Result A) f g :
  (forall a, m = Ok a -> agrees strict h l (f a) (g a)) -> agrees strict h l (m ≫= f) (m ≫= g).
Proof. intros Hf. destruct m; [by apply Hf|by right..]. Qed.

(** One push after the other. *)
Lemma agrees_then strict h l r r' f f' :
  agrees strict h l r r' ->
  (forall c1 h1, r = Ok c1 -> repr h1 l c1 -> local l h h1 -> agrees strict h1 l (f c1) (f' h1)) ->
  agrees strict h l (r ≫= f) (r' ≫= f').
Proof.
  intros [[-> ->]|Hr] Hf; [by left|]. destruct r as [c1|e| |]; [|by rewrite Hr; right..].
  destruct Hr as (h1 & -> & Hc1 & Hl1). destruct (Hf c1 h1 eq_refl Hc1 Hl1) as [[-> Hp]|H2]; [by left|].
  right. cbn [mbind outcome_bind]. destruct (f c1); try done.
  destruct H2 as (h2 & -> & Hc2 & Hl2). exists h2. split_and!; [done..|by eapply local_trans].
Qed.

Lemma for_each_agrees strict fuel inner d n vs h c :
  (forall v h c, repr h inner c -> (strict = true -> sole h inner) -> cdepth c = d -> levels c = n ->
    agrees strict h inner (push_fuel d true c v) (heap_push fuel inner v h)) ->
  repr h inner c -> (strict = true -> sole h inner) -> cdepth c = d -> levels c = n ->
  agrees strict h inner (for_each vs (fun v c => push_fuel d true c v) c) (for_each vs (heap_push fuel inner) h).
Proof.
  intros Hp. revert h c. induction vs as [|v vs IH]; intros h c Hc Hs Hd Hn; cbn [for_each].
  - apply agrees_Ok; [done|apply local_refl].
  - apply agrees_then; [by apply Hp|]. intros c1 h1 (Hd1 & Hn1 & _)%push_kind Hc1 Hl1.
    apply IH; [done| |congruence..]. intros Hst. eapply sole_shape; [apply Hl1|by apply Hs].
Qed.

Lemma sole_child h l n k inner :
  h !! l = Some (n, k) -> children n = [inner] -> sole h l ->
  exists m, h !! inner = Some (m, 1%nat) /\ sole h inner.
Proof.
  intros Hl Hn Hs. destruct Hs as [l c k' Hl'|l n' k' inner' m Hl' Hn' Hi Hs]; rewrite Hl in Hl'; simplify_eq; try done.
  rewrite Hn in Hn'. injection Hn' as <-. by exists m.
Qed.

(** The inner column can be changed, or the push panics. *)
Lemma sole_get_mut strict h l n k inner :
  h !! l = Some (n, k) -> children n = [inner] -> (strict = true -> sole h l) ->
  (strict = false /\ get_mut inner h = None) \/
  exists m, get_mut inner h = Some m /\ (strict = true -> sole h inner).
Proof.
  intros Hl Hn Hs. unfold get_mut. destruct strict.
  - destruct (sole_child _ _ _ _ _ Hl Hn (Hs eq_refl)) as (m & -> & Hi). right. by exists m.
  - destruct (h !! inner) as [[m [|[|k']]]|]; [by left|right; by exists m|by left..].
Qed.

(** [heap_push] for the two kinds of nodes with a column inside. *)
Lemma inner_agrees strict h l n k inner c ci (mk : column_data -> column_data) (mkn : node) r r' :
  h !! l = Some (n, k) -> children n = [inner] -> repr h l c -> children mkn = [inner] ->
  (forall h' c', repr h' inner c' -> h' !! l = Some (mkn, k) -> repr h' l (mk c')) ->
  repr h inner ci -> agrees strict h inner r r' ->
  agrees strict h l (c' ← r; Ok (mk c')) (h' ← r'; Ok (<[l:=(mkn, k)]> h')).
Proof.
  intros Hl Hn Hc Hm Hmk Hci [[-> ->]|Hr]; [by left|]. pose proof (inside_acyclic _ _ _ _ _ _ Hl Hn Hc) as Hout.
  destruct r as [c'|e| |]; [|by rewrite Hr; right..].
  destruct Hr as (h' & -> & Hc' & Hl'). cbn [mbind outcome_bind].
  destruct (local_inner l h n k inner h' mkn Hl) as [Hl2 Hlk]; [rewrite Hn; by left|congruence|done|done|].
  apply agrees_Ok; [|done]. apply Hmk; [|by rewrite lookup_insert_eq].
  eapply repr_frame; [|exact Hc']. intros x Hx. rewrite lookup_insert_ne; [done|]. intros <-.
  apply Hout. eapply inside_shape; [apply same_shape_sym, Hl'|done].
Qed.

(** [nullable_push] in two steps. *)
Lemma nullable_push_item push_inner inner nulls value :
  nullable_push push_inner true inner nulls value =
  '(v, null) ← nullable_item value; inner ← push_inner inner v; Ok (NullableColumnData inner (nulls ++ [null])).
Proof. destruct value as [| | | | | | | | | | | | | | | | |[ty|v]| | | |]; try done. cbn. by destruct (value_default ty). Qed.

Lemma heap_push_agrees strict fuel h l c v :
  repr h l c -> (strict = true -> sole h l) -> (levels c <= fuel)%nat ->
  agrees strict h l (push true c v) (heap_push fuel l v h).
Proof.
  unfold push. revert h l c v. induction fuel as [|fuel IH]; intros h l c v Hc Hs Hd.
  { destruct c; cbn in Hd; lia. }
  destruct Hc as [l c k Hl Hp|l inner nulls k c Hl Hc|l inner offsets k c Hl Hc]; cbn [heap_push]; rewrite Hl.
  - pose proof (push_kind (cdepth c) true c v) as Hk. unfold push.
    destruct (push_fuel (cdepth c) true c v) as [c'| | |]; [|by right..].
    apply agrees_Ok; [|by eapply local_insert].
    eapply repr_plain; [by rewrite lookup_insert_eq|]. destruct (Hk c' eq_refl) as (_ & _ & ->). done.
  - destruct (sole_get_mut _ _ _ _ _ inner Hl eq_refl Hs) as [[-> ->]|(m & -> & Hs')]; [by left|].
    cbn [unwrap cdepth push_fuel mbind outcome_bind].
    rewrite nullable_push_item. apply agrees_bind. intros [w null] _.
    eapply (inner_agrees strict h l _ k inner); try done; [by eapply repr_nullable| |].
    + intros h' c' Hc' Hl'. by eapply repr_nullable.
    + apply IH; [done..|]. cbn in Hd. lia.
  - cbn [cdepth push_fuel]. unfold array_push. destruct v; try (by right).
    destruct (sole_get_mut _ _ _ _ _ inner Hl eq_refl Hs) as [[-> ->]|(m & -> & Hs')]; [by left|].
    cbn [unwrap assert_ mbind outcome_bind]. apply agrees_bind. intros offset _.
    eapply (inner_agrees strict h l _ k inner _ c (fun c' => ArrayColumnData c' (offsets ++ [offset]))); try done.
    + by eapply repr_array.
    + intros h' c' Hc' Hl'. by eapply repr_array.
    + eapply (for_each_agrees _ _ _ _ (levels c)); try done. intros w h1 c1 Hc1 Hs1 Hd1 Hn1. rewrite <- Hd1. apply IH; try done.
      cbn in Hd. lia.
Qed.

(** The nodes are enough fuel. *)
Lemma levels_size h l c : repr h l c -> (levels c <= size h)%nat.
Proof.
  intros Hc. remember (size h) as n eqn:Hn. revert h l c Hc Hn. induction n as [|n IH]; intros h l c Hc Hn.
  { assert (exists x, h !! l = Some x) as [x Hx] by (destruct Hc; by eexists).
    symmetry in Hn. apply map_size_empty_inv in Hn as ->. by rewrite lookup_empty in Hx. }
  assert (forall node k inner ci, h !! l = Some (node, k) -> children node = [inner] -> repr h inner ci ->
    (levels ci <= n)%nat) as Hin.
  { intros node k inner ci Hl Hch Hci. apply (IH (delete l h) inner); [|].
    - eapply repr_frame; [|exact Hci]. intros m Hm. rewrite lookup_delete_ne; [done|]. intros <-.
      by apply (inside_acyclic _ _ _ _ _ _ Hl Hch Hc).
    - rewrite map_size_delete, Hl. lia. }
  inversion Hc as [l' c' k Hl Hp|l' inner nulls k ci Hl Hci|l' inner offsets k ci Hl Hci]; subst.
  - destruct c; cbn in *; lia || done.
  - cbn. specialize (Hin _ _ inner ci Hl eq_refl Hci). lia.
  - cbn. specialize (Hin _ _ inner ci Hl eq_refl Hci). lia.
Qed.

(** ** Counting the references *)

(** The references to [m] among the children [cs] of the nodes. *)
Definition refs_of (cs : gmap nat (list nat)) (m : nat) : nat :=
  map_fold (fun _ c acc => count_occ Nat.eq_dec c m + acc)%nat 0%nat cs.

Definition links (h : Heap) : gmap nat (list nat) := (fun x => children x.1) <$> h.

Definition refs (h : Heap) (m : nat) : nat := refs_of (links h) m.

Definition count_of (h : Heap) (m : nat) : nat := match h !! m with Some (_, k) => k | None => 0%nat end.

(** Each count is the number of references, from columns and from nodes; the
    columns that live are [roots]. *)
Definition counted (h : Heap) (roots : list nat) : Prop :=
  forall m, count_of h m = (refs h m + count_occ Nat.eq_dec roots m)%nat.

Lemma refs_of_delete cs p c m :
  cs !! p = Some c -> refs_of cs m = (count_occ Nat.eq_dec c m + refs_of (delete p cs) m)%nat.
Proof. intros Hp. unfold refs_of. rewrite (map_fold_delete_L _ _ p c); [done| |done]. intros; lia. Qed.

Lemma refs_of_insert cs p c m :
  cs !! p = None -> refs_of (<[p:=c]> cs) m = (count_occ Nat.eq_dec c m + refs_of cs m)%nat.
Proof. intros Hp. unfold refs_of. rewrite map_fold_insert_L; [done| |done]. intros; lia. Qed.

Lemma links_lookup h p n k : h !! p = Some (n, k) -> links h !! p = Some (children n).
Proof. intros Hp. unfold links. by rewrite lookup_fmap, Hp. Qed.

Lemma occ_in l ls : l ∈ ls -> (0 < count_occ Nat.eq_dec ls l)%nat.
Proof. rewrite list_elem_of_In. apply count_occ_In. Qed.

(** A child has its parent's reference. *)
Lemma refs_parent h p n k m : h !! p = Some (n, k) -> m ∈ children n -> (0 < refs h m)%nat.
Proof. intros Hp%links_lookup Hm%occ_in. unfold refs. rewrite (refs_of_delete _ _ _ _ Hp). lia. Qed.

Lemma refs_parents h p1 n1 k1 p2 n2 k2 m :
  h !! p1 = Some (n1, k1) -> h !! p2 = Some (n2, k2) -> m ∈ children n1 -> m ∈ children n2 -> p1 <> p2 ->
  (1 < refs h m)%nat.
Proof.
  intros H1%links_lookup H2%links_lookup Hm1%occ_in Hm2%occ_in Hne. unfold refs.
  rewrite (refs_of_delete _ _ _ _ H1), (refs_of_delete _ p2 (children n2)); [lia|].
  by rewrite lookup_delete_ne.
Qed.

Lemma counted_shape h h' roots : same_shape h h' -> counted h roots -> counted h' roots.
Proof.
  intros Hs Hc m. assert (links h' = links h) as Hl.
  { apply map_eq. intros i. unfold links. rewrite !lookup_fmap. specialize (Hs i).
    destruct (h' !! i) as [[]|], (h !! i) as [[]|]; cbn in *; congruence. }
  unfold refs. rewrite Hl. specialize (Hc m). unfold refs in Hc. rewrite <- Hc.
  unfold count_of. specialize (Hs m). destruct (h' !! m) as [[]|], (h !! m) as [[]|]; cbn in *; congruence.
Qed.

(** ** Pushes are not seen elsewhere *)

(** A node with one reference is inside a column only together with its parent. *)
Lemma only_parent h roots r p n k m j :
  counted h roots -> r ∈ roots -> h !! p = Some (n, k) -> m ∈ children n -> h !! m = Some (j, 1%nat) ->
  inside h r m -> inside h r p.
Proof.
  intros Hc Hr%occ_in Hp Hm Hone Hi. pose proof (Hc m) as Hcm. unfold count_of in Hcm. rewrite Hone in Hcm.
  pose proof (refs_parent _ _ _ _ _ Hp Hm). destruct Hi as [|q nq kq m Hi Hq Hin]; [lia|].
  destruct (decide (p = q)) as [->|Hne]; [done|].
  pose proof (refs_parents _ _ _ _ _ _ _ _ Hp Hq Hm Hin Hne). lia.
Qed.

(** The heap beyond [l] as [r] sees it. *)
Definition unseen (r : nat) (h h' : Heap) : Prop :=
  same_shape h h' /\ forall m, inside h r m -> h' !! m = h !! m.

Lemma unseen_trans r h1 h2 h3 : unseen r h1 h2 -> unseen r h2 h3 -> unseen r h1 h3.
Proof.
  intros [Hs12 Hm12] [Hs23 Hm23]. split; [by eapply same_shape_trans|].
  intros m Hm. rewrite Hm23, Hm12; [done..|]. by eapply inside_shape.
Qed.

Lemma unseen_insert r h l n n' k :
  h !! l = Some (n, k) -> children n' = children n -> ~ inside h r l -> unseen r h (<[l:=(n', k)]> h).
Proof.
  intros Hl Hn Hi. split; [by apply (same_shape_insert _ _ n)|]. intros m Hm.
  rewrite lookup_insert_ne; [done|]. by intros <-.
Qed.

Lemma heap_push_unseen fuel roots r l v h h' :
  counted h roots -> r ∈ roots -> ~ inside h r l -> heap_push fuel l v h = Ok h' -> unseen r h h'.
Proof.
  revert l v h h'. induction fuel as [|fuel IH]; intros l v h h' Hc Hr Hout; [done|]. cbn [heap_push].
  assert (forall n n' k inner h1, h !! l = Some (n, k) -> children n = [inner] -> children n' = [inner] ->
    unseen r h h1 -> unseen r h (<[l:=(n', k)]> h1)) as Hafter.
  { intros n n' k inner h1 Hl Hn Hn' Hu. eapply unseen_trans; [exact Hu|].
    destruct Hu as [Hs Hm]. destruct (same_shape_lookup _ _ _ _ _ Hs Hl) as (n1 & Hl1 & Hc1).
    eapply unseen_insert; [exact Hl1|congruence|]. intros Hi. apply Hout.
    eapply inside_shape; [by apply same_shape_sym|done]. }
  assert (forall n k inner, h !! l = Some (n, k) -> children n = [inner] -> is_Some (get_mut inner h) ->
    ~ inside h r inner) as Hinner.
  { intros n k inner Hl Hn [j Hj] Hi. apply Hout. unfold get_mut in Hj.
    destruct (h !! inner) as [[j' [|[|]]]|] eqn:Hj'; try done.
    eapply only_parent; [done|done|exact Hl| |exact Hj'|done]. rewrite Hn. by left. }
  destruct (h !! l) as [[[c|inner nulls|inner offsets] k]|] eqn:Hl; [..|done].
  - rewrite bind_Ok. intros (c' & _ & [= <-]). by eapply unseen_insert.
  - destruct (get_mut inner h) as [j|] eqn:Hg; [|done]. cbn [unwrap mbind outcome_bind].
    destruct (nullable_item v) as [[w null]| | |]; try done. cbn [mbind outcome_bind].
    rewrite bind_Ok. intros (h1 & H1 & [= <-]). eapply Hafter; [done..|].
    eapply IH; [done|done| |exact H1]. eapply Hinner; [done..|by exists j].
  - destruct v; try done. destruct (get_mut inner h) as [j|] eqn:Hg; [|done]. cbn [unwrap mbind outcome_bind].
    destruct (arith_u 64 _); try done. cbn [mbind outcome_bind].
    rewrite bind_Ok. intros (h1 & H1 & [= <-]). eapply Hafter; [done..|].
    assert (~ inside h r inner) as Hi by (eapply Hinner; [done..|by exists j]).
    clear -IH H1 Hc Hr Hi. revert h Hc Hi H1. induction vs as [|w vs IHvs]; intros h Hc Hi; cbn [for_each].
    { intros [= <-]. by split. }
    rewrite bind_Ok. intros (h2 & H2 & H3). pose proof (IH _ _ _ _ Hc Hr Hi H2) as Hu.
    eapply unseen_trans; [exact Hu|]. apply IHvs; [by eapply counted_shape; [apply Hu|]| |done].
    intros Hi2. apply Hi. eapply inside_shape; [apply same_shape_sym, Hu|done].
Qed.

(** ** [Column::push] *)

(** A new node, after the references in it were made. *)
Lemma arc_new_refs n h l h' m :
  arc_new n h = (l, h') ->
  refs h' m = (count_occ Nat.eq_dec (children n) m + refs h m)%nat /\ h !! l = None /\ h' = <[l:=(n, 1%nat)]> h.
Proof.
  unfold arc_new. intros [= <- <-].
  assert (h !! fresh (dom h) = None) as Hn by apply not_elem_of_dom, is_fresh.
  split_and!; [|done|done]. unfold refs, links. rewrite fmap_insert. apply refs_of_insert.
  by rewrite lookup_fmap, Hn.
Qed.

(** Changing a count changes no reference. *)
Lemma alter_links (f : nat -> nat) l h : links (alter (fun x => (x.1, f x.2)) l h) = links h.
Proof.
  apply map_eq. intros i. unfold links. rewrite !lookup_fmap. destruct (decide (i = l)) as [->|Hi].
  - rewrite lookup_alter_eq. by destruct (h !! l).
  - by rewrite lookup_alter_ne.
Qed.

Lemma alter_count (f : nat -> nat) l h m :
  f 0%nat = 0%nat \/ is_Some (h !! l) ->
  count_of (alter (fun x => (x.1, f x.2)) l h) m = if decide (m = l) then f (count_of h m) else count_of h m.
Proof.
  intros Hf. unfold count_of. case_decide as Hm; [subst|by rewrite lookup_alter_ne].
  rewrite lookup_alter_eq. destruct (h !! l) as [[n k]|]; [done|]. destruct Hf as [->|[]]; done.
Qed.

Lemma occ_insert i l l' roots m :
  roots !! i = Some l ->
  (count_occ Nat.eq_dec (<[i:=l']> roots) m + count_occ Nat.eq_dec [l] m =
   count_occ Nat.eq_dec roots m + count_occ Nat.eq_dec [l'] m)%nat.
Proof.
  intros Hi. rewrite insert_take_drop by (by eapply lookup_lt_Some).
  rewrite <- (take_drop_middle roots i l Hi) at 3. rewrite !count_occ_app.
  change (l' :: drop (S i) roots) with ([l'] ++ drop (S i) roots).
  change (l :: drop (S i) roots) with ([l] ++ drop (S i) roots). rewrite !count_occ_app. lia.
Qed.

(** The clone of a shared column takes its place among the roots. *)
Lemma node_clone_counted h roots i l n k l' h1 :
  counted h roots -> roots !! i = Some l -> h !! l = Some (n, k) -> node_clone n h = Ok (l', h1) ->
  counted (arc_drop l h1) (<[i:=l']> roots) /\ h !! l' = None /\
  (exists n', children n' = children n /\ h1 !! l' = Some (n', 1%nat)) /\
  (forall m, m <> l' -> fst <$> arc_drop l h1 !! m = fst <$> h !! m).
Proof.
  intros Hc Hi Hl Hn.
  assert (exists n' h0, arc_new n' h0 = (l', h1) /\ children n' = children n /\ links h0 = links h /\
    (forall m, count_of h0 m = count_of h m + count_occ Nat.eq_dec (children n) m)%nat /\
    (forall m, fst <$> h0 !! m = fst <$> h !! m)) as (n' & h0 & Hnew & Hch & Hli & Hco & Hfst).
  { destruct n as [c|inner nulls|inner offsets]; unfold node_clone in Hn.
    - destruct (clone_instance c) as [c'| | |]; try done. cbn [mbind outcome_bind] in Hn. exists (Plain c'), h.
      split_and!; [congruence|done..|intros m; cbn; lia|done].
    - exists (NullableNode inner nulls), (arc_clone inner h).
      pose proof (refs_parent _ _ _ _ inner Hl ltac:(by left)) as Hr. pose proof (Hc inner) as Hci.
      split_and!; [congruence|done|apply alter_links|..]; intros m.
      + unfold arc_clone. rewrite alter_count.
        * cbn. repeat case_decide; destruct (Nat.eq_dec inner m); lia || congruence.
        * right. unfold count_of in Hci. destruct (h !! inner); [by eexists|lia].
      + unfold arc_clone. destruct (decide (m = inner)) as [->|Hm]; [|by rewrite lookup_alter_ne].
        rewrite lookup_alter_eq. by destruct (h !! inner).
    - exists (ArrayNode inner offsets), (arc_clone inner h).
      pose proof (refs_parent _ _ _ _ inner Hl ltac:(by left)) as Hr. pose proof (Hc inner) as Hci.
      split_and!; [congruence|done|apply alter_links|..]; intros m.
      + unfold arc_clone. rewrite alter_count.
        * cbn. repeat case_decide; destruct (Nat.eq_dec inner m); lia || congruence.
        * right. unfold count_of in Hci. destruct (h !! inner); [by eexists|lia].
      + unfold arc_clone. destruct (decide (m = inner)) as [->|Hm]; [|by rewrite lookup_alter_ne].
        rewrite lookup_alter_eq. by destruct (h !! inner). }
  destruct (arc_new_refs _ _ _ _ l' Hnew) as (_ & Hnone & ->).
  assert (h !! l' = None) as Hnone' by (specialize (Hfst l'); rewrite Hnone in Hfst; by destruct (h !! l')).
  assert (l <> l') as Hne by congruence.
  split_and!; [|done|exists n'; split; [done|by rewrite lookup_insert_eq]|].
  - intros m. destruct (arc_new_refs _ _ _ _ m Hnew) as (Hr & _ & _).
    unfold arc_drop. rewrite alter_count by (by left). unfold refs in *. rewrite alter_links, Hr, Hli, Hch.
    pose proof (occ_insert i l l' roots m Hi) as Ho. pose proof (Hc m) as Hcm. specialize (Hco m).
    unfold refs in Hcm. cbn [count_occ] in Ho.
    assert (count_of (<[l':=(n', 1%nat)]> h0) m = if decide (m = l') then 1%nat else count_of h0 m) as ->.
    { unfold count_of. case_decide; [subst; by rewrite lookup_insert_eq|by rewrite lookup_insert_ne]. }
    assert (count_of h l' = 0%nat) as Hz by (unfold count_of; by rewrite Hnone').
    assert (count_of h0 l' = 0%nat) as Hz0 by (unfold count_of; by rewrite Hnone).
    repeat case_decide; repeat (destruct (Nat.eq_dec _ _)); subst; try congruence; try lia.
  - intros m Hm. unfold arc_drop. destruct (decide (m = l)) as [->|Hml].
    + rewrite lookup_alter_eq, lookup_insert_ne by done. rewrite <- Hfst. by destruct (h0 !! l).
    + rewrite lookup_alter_ne, lookup_insert_ne by done. apply Hfst.
Qed.

Lemma root_not_inside h roots i j l r n :
  counted h roots -> h !! l = Some (n, 1%nat) -> roots !! i = Some l -> roots !! j = Some r -> i <> j ->
  ~ inside h r l.
Proof.
  intros Hc Hl Hi Hj Hne Hin. pose proof (Hc l) as Hcl. unfold count_of in Hcl. rewrite Hl in Hcl.
  assert (l ∈ roots) as Ho%occ_in by (by eapply list_elem_of_lookup_2).
  inversion Hin as [Hrl|p np kp l' Hin' Hp Hch Hll]; subst.
  - (* two of the roots *)
    pose proof (occ_insert i l (S l) roots l Hi) as Hoi. cbn [count_occ] in Hoi.
    destruct (Nat.eq_dec (S l) l); [lia|]. destruct (Nat.eq_dec l l); [|done].
    assert (l ∈ <[i:=S l]> roots) as Hr%occ_in; [|lia].
    apply (list_elem_of_lookup_2 _ j). by rewrite list_lookup_insert_ne.
  - pose proof (refs_parent _ _ _ _ _ Hp Hch). lia.
Qed.

(** A push keeps the nodes that there are. *)
Lemma heap_push_shape fuel l v h h' : heap_push fuel l v h = Ok h' -> same_shape h h'.
Proof.
  revert l v h h'. induction fuel as [|fuel IH]; intros l v h h'; [done|]. cbn [heap_push].
  assert (forall n n' k h1, h !! l = Some (n, k) -> children n' = children n -> same_shape h h1 ->
    same_shape h (<[l:=(n', k)]> h1)) as Hafter.
  { intros n n' k h1 Hl Hn Hs. eapply same_shape_trans; [exact Hs|].
    destruct (same_shape_lookup _ _ _ _ _ Hs Hl) as (n1 & Hl1 & Hc1).
    eapply same_shape_insert; [exact Hl1|congruence]. }
  destruct (h !! l) as [[[c|inner nulls|inner offsets] k]|] eqn:Hl; [..|done].
  - rewrite bind_Ok. intros (c' & _ & [= <-]). by eapply Hafter.
  - destruct (get_mut inner h) as [j|]; [|done]. cbn [unwrap mbind outcome_bind].
    destruct (nullable_item v) as [[w null]| | |]; try done. cbn [mbind outcome_bind].
    rewrite bind_Ok. intros (h1 & H1 & [= <-]). eapply Hafter; [done..|]. by eapply IH.
  - destruct v; try done. destruct (get_mut inner h) as [j|]; [|done]. cbn [unwrap mbind outcome_bind].
    destruct (arith_u 64 _); try done. cbn [mbind outcome_bind].
    rewrite bind_Ok. intros (h1 & H1 & [= <-]). eapply Hafter; [done..|].
    clear -IH H1. revert h H1. induction vs as [|w vs IHvs]; intros h; cbn [for_each]; [by intros [= <-]|].
    rewrite bind_Ok. intros (h2 & H2%IH & H3). eapply same_shape_trans; [exact H2|by apply IHvs].
Qed.

(** What a root shows while another root, of one reference, is pushed to. *)
Lemma other_roots fuel h roots i l v n h' j r c :
  counted h roots -> roots !! i = Some l -> h !! l = Some (n, 1%nat) -> heap_push fuel l v h = Ok h' ->
  j <> i -> roots !! j = Some r -> repr h r c -> repr h' r c.
Proof.
  intros Hc Hi Hl Hp Hj Hr Hrc.
  assert (unseen r h h') as [_ Hm].
  { eapply heap_push_unseen; [exact Hc|by eapply list_elem_of_lookup_2| |exact Hp].
    by eapply root_not_inside. }
  eapply repr_frame; [|exact Hrc]. intros m Hin. by rewrite Hm.
Qed.

(** A column is what its nodes are. *)
Lemma repr_nodes h h' l c : (forall m, is_Some (h !! m) -> fst <$> h' !! m = fst <$> h !! m) -> repr h l c -> repr h' l c.
Proof.
  intros Hm. assert (forall m n k, h !! m = Some (n, k) -> exists k', h' !! m = Some (n, k')) as Hn.
  { intros m n k Hn. specialize (Hm m ltac:(by eexists)). rewrite Hn in Hm.
    destruct (h' !! m) as [[n' k']|]; [|done]. injection Hm as ->. by exists k'. }
  induction 1 as [l c k Hl Hp|l inner nulls k c Hl _ IH|l inner offsets k c Hl _ IH];
    destruct (Hn l _ _ Hl) as [k' Hl'];
    [by eapply repr_plain|by eapply repr_nullable|by eapply repr_array].
Qed.

(** A push to one column changes no other, shared or not, and keeps the counts. *)
Lemma push_isolated h roots i l v l' h' :
  counted h roots -> roots !! i = Some l -> column_push_at l v h = Ok (l', h') ->
  counted h' (<[i:=l']> roots) /\
  forall j r c, j <> i -> roots !! j = Some r -> repr h r c -> repr h' r c.
Proof.
  intros Hc Hi. unfold column_push_at.
  destruct (get_mut l h) as [n|] eqn:Hg.
  - unfold get_mut in Hg. destruct (h !! l) as [[n' [|[|]]]|] eqn:Hl; try done.
    rewrite bind_Ok. intros (h1 & Hp & [= <- <-]). rewrite list_insert_id by done. split.
    + eapply counted_shape; [by eapply heap_push_shape|done].
    + intros j r c Hj Hr Hrc. exact (other_roots _ _ _ _ _ _ _ _ _ _ _ Hc Hi Hl Hp Hj Hr Hrc).
  - destruct (h !! l) as [[n k]|] eqn:Hl; [|done].
    rewrite bind_Ok. intros ([l1 h1] & Hn & Hr). rewrite bind_Ok in Hr. destruct Hr as (h2 & Hp & [= <- <-]).
    destruct (node_clone_counted _ _ _ _ _ _ _ _ Hc Hi Hl Hn) as (Hc1 & Hnone & (n' & _ & Hl1) & Hfst).
    assert (arc_drop l h1 !! l1 = Some (n', 1%nat)) as Hl2
      by (unfold arc_drop; rewrite lookup_alter_ne; [done|congruence]).
    assert (<[i:=l1]> roots !! i = Some l1) as Hi1 by (apply list_lookup_insert_eq; by eapply lookup_lt_Some).
    split; [by eapply counted_shape; [eapply heap_push_shape|]|].
    intros j r c Hj Hr Hrc. eapply other_roots; [exact Hc1|exact Hi1|exact Hl2|exact Hp|exact Hj| |].
    + by rewrite list_lookup_insert_ne.
    + eapply repr_nodes; [|exact Hrc]. intros m [x Hx]. apply Hfst. intros ->. congruence.
Qed.
(** ** [Column::push] of the blocks *)

Lemma push_plain fuel c v : plain c = true -> push_fuel fuel false c v = push_fuel fuel true c v.
Proof.
  revert c v. induction fuel as [|fuel IH]; intros c v Hp; [done|]. destruct c; try done; cbn [push_fuel].
  - unfold decimal_push. destruct v; try done. by rewrite IH.
  - unfold enum8_push. destruct v; try done. by rewrite IH.
  - unfold enum16_push. destruct v; try done. by rewrite IH.
Qed.

Lemma push_shared_inner c nulls offsets v :
  push false (NullableColumnData c nulls) v = Panic /\ push false (ArrayColumnData c offsets) v = Panic.
Proof. split; [done|by destruct v]. Qed.

(** The data of the column at the outcome's reference. *)
Definition column_agrees (strict : bool) (r : Result column_data) (r' : Result (nat * Heap)) : Prop :=
  (strict = false /\ r' = Panic) \/
  match r with
  | Ok c' => exists l' h', r' = Ok (l', h') /\ repr h' l' c'
  | Err e => r' = Err e
  | Panic => r' = Panic
  | OutOfFuel => r' = OutOfFuel
  end.

(** A push through a reference to data that no other has. *)
Lemma own_agrees strict h l n c v :
  h !! l = Some (n, 1%nat) -> repr h l c -> (strict = true -> sole h l) ->
  column_agrees strict (push true c v) (h' ← heap_push (size h) l v h; Ok (l, h')).
Proof.
  intros Hl Hr Hs. destruct (heap_push_agrees strict (size h) h l c v Hr Hs) as [[-> ->]|Ha];
    [by eapply levels_size|by left|]. right.
  destruct (push true c v) as [c'| | |]; [|by rewrite Ha..].
  destruct Ha as (h' & -> & Hc' & _). by exists l, h'.
Qed.

Lemma get_mut_shared h l n k : h !! l = Some (n, k) -> k <> 1%nat -> get_mut l h = None.
Proof. intros Hl Hk. unfold get_mut. rewrite Hl. by destruct k as [|[|]]. Qed.

(** Pushing to the clone of data without references. *)
Lemma shared_plain strict h l c k v :
  h !! l = Some (Plain c, k) -> k <> 1%nat -> plain c = true ->
  column_agrees strict (c ← clone_instance c; push false c v) (column_push_at l v h).
Proof.
  intros Hl Hk Hp. unfold column_push_at. rewrite (get_mut_shared _ _ _ _ Hl Hk), Hl. unfold node_clone.
  destruct (clone_instance_or c) as [->| ->]; [|by right].
  cbn [mbind outcome_bind arc_new]. set (l' := fresh (dom h)).
  assert (l' <> l) as Hne.
  { intros He. assert (l' ∉ dom h) as Hn by apply is_fresh. apply Hn, elem_of_dom. rewrite He. eauto. }
  unfold push at 1. rewrite push_plain by done. fold (push true c v).
  set (h1 := arc_drop l (<[l':=(Plain c, 1%nat)]> h)).
  assert (h1 !! l' = Some (Plain c, 1%nat)) as Hl1
    by (unfold h1, arc_drop; rewrite lookup_alter_ne by done; apply lookup_insert_eq).
  replace (size (<[l':=(Plain c, 1%nat)]> h)) with (size h1).
  - eapply own_agrees; [exact Hl1|by eapply repr_plain|intros _; by eapply sole_plain].
  - unfold h1, arc_drop. rewrite <- !size_dom. by rewrite dom_alter_L.
Qed.

(** A push to a node whose inner column is shared. *)
Lemma heap_push_shared fuel l v h n k inner :
  h !! l = Some (n, k) -> children n = [inner] -> get_mut inner h = None -> heap_push (S fuel) l v h = Panic.
Proof.
  intros Hl Hn Hg. cbn [heap_push]. rewrite Hl. destruct n; try done; injection Hn as ->; rewrite Hg; by destruct v.
Qed.

(** The clone of a node still shares what is inside. *)
Lemma shared_inner h roots l n k inner c v :
  counted h roots -> h !! l = Some (n, k) -> children n = [inner] ->
  node_clone n h = Ok (arc_new n (arc_clone inner h)) -> repr h l c -> k <> 1%nat ->
  column_push_at l v h = Panic.
Proof.
  intros Hc Hl Hn Hclone Hr Hk.
  pose proof (inside_acyclic _ _ _ _ _ _ Hl Hn Hr) as Hout.
  assert (l <> inner) as Hli by (intros ->; apply Hout; constructor).
  pose proof (refs_parent _ _ _ _ inner Hl ltac:(rewrite Hn; by left)) as Hp.
  pose proof (Hc inner) as Hci. unfold count_of in Hci.
  destruct (h !! inner) as [[ni ki]|] eqn:Hi; [|lia].
  unfold column_push_at. rewrite (get_mut_shared _ _ _ _ Hl Hk), Hl, Hclone. cbn [mbind outcome_bind arc_new].
  set (l' := fresh _).
  assert (l' ∉ dom (arc_clone inner h)) as Hnew by apply is_fresh.
  assert (l' <> l /\ l' <> inner) as [H1 H2].
  { split; intros He; apply Hnew; unfold arc_clone; rewrite dom_alter, elem_of_dom, He; eauto. }
  rewrite map_size_insert_None by (by apply not_elem_of_dom).
  unfold arc_drop. rewrite (heap_push_shared _ l' v _ n 1%nat inner); [done| |done|].
  - rewrite lookup_alter_ne by done. apply lookup_insert_eq.
  - unfold get_mut. rewrite lookup_alter_ne, lookup_insert_ne by done. unfold arc_clone. rewrite lookup_alter_eq, Hi.
    cbn. by destruct ki; [lia|].
Qed.

(** The heap's push is [Block.column_push], whose flag says whether there is
    another reference to the data. *)
Lemma column_push_agrees strict h roots l c s v :
  counted h roots -> repr h l c -> (strict = true -> count_of h l = 1%nat -> sole h l) ->
  column_agrees strict (data <$> column_push (negb (count_of h l =? 1)%nat) (mkColumn s c) v) (column_push_at l v h).
Proof.
  intros Hc Hr Hs. unfold column_push. cbn [data].
  set (r := if negb _ then _ else _).
  assert (column_agrees strict r (column_push_at l v h)) as Ha; [|by destruct r].
  subst r. destruct (count_of h l =? 1)%nat eqn:Hk; cbn [negb].
  - apply Nat.eqb_eq in Hk. unfold column_push_at, get_mut. unfold count_of in Hk, Hs.
    destruct (h !! l) as [[n k]|] eqn:Hl; [|done]. subst k. eapply own_agrees; [done..|]. intros Hst. by apply Hs.
  - apply Nat.eqb_neq in Hk. destruct Hr as [l c k Hl Hp|l inner nulls k c Hl Hr|l inner offsets k c Hl Hr];
      unfold count_of in Hk; rewrite Hl in Hk.
    + by eapply shared_plain.
    + right. eapply shared_inner; [done|exact Hl|reflexivity|reflexivity|by eapply repr_nullable|done].
    + change (column_agrees strict (push false (ArrayColumnData c offsets) v) (column_push_at l v h)).
      rewrite (proj2 (push_shared_inner c [] offsets v)). right.
      eapply shared_inner; [done|exact Hl|reflexivity|reflexivity|by eapply repr_array|done].
Qed.

(** A push that needs no nested column to itself that it does not have. *)
Definition pushable (h : Heap) (l : nat) (c : column_data) : Prop :=
  if (count_of h l =? 1)%nat then sole h l else plain c = true /\ clone_instance c = Ok c.

(** What the heap's push gives is what a push to a column of one's own gives. *)
Lemma column_push_value strict h roots l c v :
  counted h roots -> repr h l c -> (strict = true -> pushable h l c) ->
  column_agrees strict (push true c v) (column_push_at l v h).
Proof.
  intros Hc Hr Hready. unfold pushable in Hready. destruct (count_of h l =? 1)%nat eqn:Hk.
  - pose proof (column_push_agrees strict h roots l c [] v Hc Hr (fun Hst _ => Hready Hst)) as Ha.
    rewrite Hk in Ha. unfold column_push in Ha. cbn [negb data] in Ha. by destruct (push true c v).
  - apply Nat.eqb_neq in Hk. destruct Hr as [l c k Hl Hp|l inner nulls k c Hl Hr|l inner offsets k c Hl Hr];
      unfold count_of in Hk; rewrite Hl in Hk.
    + pose proof (shared_plain strict h l c k v Hl Hk Hp) as Ha. unfold push in Ha |- *.
      destruct (clone_instance_or c) as [Hcl|Hcl];
        rewrite Hcl in Ha; cbn [mbind outcome_bind] in Ha; [by rewrite push_plain in Ha|].
      destruct Ha as [Ha| ->]; [by left|]. destruct strict; [|by left]. destruct (Hready eq_refl). congruence.
    + destruct strict; [by destruct (Hready eq_refl)|]. left. split; [done|].
      eapply shared_inner; [done|exact Hl|reflexivity|reflexivity|by eapply repr_nullable|done].
    + destruct strict; [by destruct (Hready eq_refl)|]. left. split; [done|].
      eapply shared_inner; [done|exact Hl|reflexivity|reflexivity|by eapply repr_array|done].
Qed.
End ArcHeap.
