(* ===== verification/ArcPrograms.v ===== *)
(** * Programs with shared columns

    Any sequence of making columns, wrapping them, cloning them, taking a
    reference to what is inside one, pushing and dropping, on the heap of ArcHeap:
    the columns are then as if each were a value of its own, which is how the other
    files treat them. *)

From stdpp Require Import gmap.
From S2P Require Import Prelude RustStd Errors Scalars SqlType TypeNames DecimalNum Values.
From S2P Require Import StringPool Columns Compressed Block FromLaws ArcHeap.
Local Open Scope Z_scope.

Section ArcPrograms.
Context {P : Profile} `{ChronoTz, Combine}.

(** ** The operations *)

Abbreviation Heap := (gmap nat (node * nat)).

(** The columns that a program has are numbered. *)
Inductive column_op :=
| New (c : column_data)
| WrapNullable (i : nat) (nulls : bytes)
| WrapArray (i : nat) (offsets : list Z)
| Clone (i : nat)
| Inside (i : nat)
| Push (i : nat) (value : Value.t)
| Drop_ (i : nat).

(** Dropping a reference; the last one drops the node and its references. *)
Fixpoint arc_release (fuel : nat) (l : nat) (h : Heap) : Result Heap :=
  match fuel with
  | O => OutOfFuel
  | S fuel =>
    match h !! l with
    | Some (n, 1%nat) => for_each (children n) (arc_release fuel) (delete l h)
    | Some _ => Ok (arc_drop l h)
    | None => Panic
    end
  end.

Definition heap_op (op : column_op) (s : list nat * Heap) : Result (list nat * Heap) :=
  let '(roots, h) := s in
  match op with
  | New c => _ ← assert_ (plain c); let '(l, h) := arc_new (Plain c) h in Ok (roots ++ [l], h)
  | WrapNullable i nulls =>
    l ← unwrap (roots !! i); let '(l', h) := arc_new (NullableNode l nulls) h in Ok (<[i:=l']> roots, h)
  | WrapArray i offsets =>
    l ← unwrap (roots !! i); let '(l', h) := arc_new (ArrayNode l offsets) h in Ok (<[i:=l']> roots, h)
  | Clone i => l ← unwrap (roots !! i); Ok (roots ++ [l], arc_clone l h)
  | Inside i =>
    l ← unwrap (roots !! i);
    match fst <$> h !! l with
    | Some (NullableNode inner _ | ArrayNode inner _) => Ok (roots ++ [inner], arc_clone inner h)
    | _ => Panic
    end
  | Push i value =>
    l ← unwrap (roots !! i); '(l', h) ← column_push_at l value h; Ok (<[i:=l']> roots, h)
  | Drop_ i => l ← unwrap (roots !! i); h ← arc_release (size h) l h; Ok (delete i roots, h)
  end.

(** The same on values. *)
Definition value_op (op : column_op) (cs : list column_data) : Result (list column_data) :=
  match op with
  | New c => _ ← assert_ (plain c); Ok (cs ++ [c])
  | WrapNullable i nulls => c ← unwrap (cs !! i); Ok (<[i:=NullableColumnData c nulls]> cs)
  | WrapArray i offsets => c ← unwrap (cs !! i); Ok (<[i:=ArrayColumnData c offsets]> cs)
  | Clone i => c ← unwrap (cs !! i); Ok (cs ++ [c])
  | Inside i =>
    c ← unwrap (cs !! i);
    match c with
    | NullableColumnData inner _ | ArrayColumnData inner _ => Ok (cs ++ [inner])
    | _ => Panic
    end
  | Push i value => c ← unwrap (cs !! i); c ← push true c value; Ok (<[i:=c]> cs)
  | Drop_ i => _ ← unwrap (cs !! i); Ok (delete i cs)
  end.

(** ** The invariant *)

(** Each column is there, and each reference is counted. *)
Definition holds (s : list nat * Heap) (cs : list column_data) : Prop :=
  counted s.2 s.1 /\ Forall2 (repr s.2) s.1 cs.

Lemma holds_empty : holds ([], ∅) [].
Proof. split; [|constructor]. intros m. reflexivity. Qed.

Lemma counted_perm h roots roots' : roots ≡ₚ roots' -> counted h roots -> counted h roots'.
Proof.
  intros Hp Hc m. rewrite (Hc m). f_equal. clear Hc.
  induction Hp; cbn; repeat destruct (Nat.eq_dec _ _); congruence || lia.
Qed.

(** A new node, which takes over the references to its children. *)
Lemma counted_new h roots n l h' :
  counted h (children n ++ roots) -> arc_new n h = (l, h') -> counted h' (l :: roots).
Proof.
  intros Hc Hn m. destruct (arc_new_refs _ _ _ _ m Hn) as (-> & Hl & ->).
  pose proof (Hc m) as Hm. rewrite count_occ_app in Hm. unfold count_of in *.
  cbn [count_occ]. destruct (Nat.eq_dec l m) as [<-|Hne].
  - rewrite lookup_insert_eq. rewrite Hl in Hm. lia.
  - rewrite lookup_insert_ne by done. lia.
Qed.

Lemma counted_clone h roots l n k :
  counted h roots -> h !! l = Some (n, k) -> counted (arc_clone l h) (l :: roots).
Proof.
  intros Hc Hl m. unfold arc_clone. rewrite alter_count by (rewrite Hl; eauto).
  unfold refs. rewrite alter_links. fold (refs h m). pose proof (Hc m). cbn [count_occ].
  destruct (Nat.eq_dec l m); case_decide; congruence || lia.
Qed.

Lemma repr_new h n l h' r c : arc_new n h = (l, h') -> repr h r c -> repr h' r c.
Proof.
  intros Hn. destruct (arc_new_refs _ _ _ _ 0%nat Hn) as (_ & Hl & ->). apply repr_nodes.
  intros m [x Hm]. rewrite lookup_insert_ne; [done|congruence].
Qed.

Lemma repr_clone h l r c : repr h r c -> repr (arc_clone l h) r c.
Proof.
  apply repr_nodes. intros m _. unfold arc_clone. destruct (decide (m = l)) as [->|Hm].
  - rewrite lookup_alter_eq. by destruct (h !! l).
  - by rewrite lookup_alter_ne.
Qed.

Lemma repr_drop h l r c : repr h r c -> repr (arc_drop l h) r c.
Proof.
  apply repr_nodes. intros m _. unfold arc_drop. destruct (decide (m = l)) as [->|Hm].
  - rewrite lookup_alter_eq. by destruct (h !! l).
  - by rewrite lookup_alter_ne.
Qed.

(** ** Dropping *)

(** A root that nothing else refers to is inside no other. *)
Lemma sole_root h l n roots r :
  counted h (l :: roots) -> h !! l = Some (n, 1%nat) -> r ∈ roots -> ~ inside h r l.
Proof.
  intros Hc Hl [j Hj]%list_elem_of_lookup. by eapply (root_not_inside h (l :: roots) 0 (S j)).
Qed.

Lemma counted_delete h l n roots :
  counted h (l :: roots) -> h !! l = Some (n, 1%nat) -> counted (delete l h) (children n ++ roots).
Proof.
  intros Hc Hl m. pose proof (Hc m) as Hm. unfold count_of in *. unfold refs in *. rewrite count_occ_app.
  rewrite (refs_of_delete _ _ _ m (links_lookup _ _ _ _ Hl)) in Hm.
  assert (links (delete l h) = delete l (links h)) as -> by apply fmap_delete.
  cbn [count_occ] in Hm. destruct (Nat.eq_dec l m) as [<-|Hne].
  - rewrite lookup_delete_eq. rewrite Hl in Hm. lia.
  - rewrite lookup_delete_ne by done. lia.
Qed.

Lemma release_ok fuel l h roots c :
  counted h (l :: roots) -> repr h l c -> (levels c <= fuel)%nat ->
  exists h', arc_release fuel l h = Ok h' /\ counted h' roots /\
    forall r cr, r ∈ roots -> repr h r cr -> repr h' r cr.
Proof.
  revert l h roots c. induction fuel as [|fuel IH]; intros l h roots c Hc Hr Hf.
  { destruct c; cbn in Hf; lia. }
  cbn [arc_release]. assert (exists n k, h !! l = Some (n, k)) as (n & k & Hl) by (destruct Hr; eauto).
  rewrite Hl. destruct (decide (k = 1%nat)) as [->|Hk].
  - pose proof (counted_delete _ _ _ _ Hc Hl) as Hc'.
    assert (forall r cr, r ∈ roots -> repr h r cr -> repr (delete l h) r cr) as Hothers.
    { intros r cr Hin. apply repr_frame. intros m Hm. rewrite lookup_delete_ne; [done|]. intros <-.
      by eapply sole_root. }
    destruct (children n) as [|inner []] eqn:Hch; cbn [for_each].
    + exists (delete l h). split_and!; [done|done|apply Hothers].
    + destruct (repr_child_levels _ _ _ _ _ _ Hl Hch Hr) as (ci & Hci & Hlv).
      destruct (IH inner (delete l h) roots ci Hc') as (h' & Hrel & Hcnt & Hrest).
      * eapply repr_frame; [|exact Hci]. intros m Hm. rewrite lookup_delete_ne; [done|]. intros <-.
        by apply (inside_acyclic _ _ _ _ _ _ Hl Hch Hr).
      * lia.
      * exists h'. rewrite Hrel. split_and!; [done|done|]. intros r cr Hin Hrr. apply Hrest; [done|by apply Hothers].
    + by destruct n.
  - exists (arc_drop l h). split_and!.
    + by destruct k as [|[|]].
    + intros m. unfold arc_drop. rewrite alter_count by (by left).
      unfold refs. rewrite alter_links. fold (refs h m). pose proof (Hc m) as Hm. cbn [count_occ] in Hm.
      destruct (Nat.eq_dec l m); case_decide; congruence || lia.
    + intros r cr _. apply repr_drop.
Qed.
(** ** The operations on the heap and on values *)

Definition ready (op : column_op) (s : list nat * Heap) (cs : list column_data) : Prop :=
  match op with
  | Push i _ => forall l c, s.1 !! i = Some l -> cs !! i = Some c -> pushable s.2 l c
  | _ => True
  end.

(** The outcome of the heap is that of the values; unless it is [strict], it may
    also panic. *)
Definition same_outcome (strict : bool) (r : Result (list nat * Heap)) (r' : Result (list column_data)) : Prop :=
  (strict = false /\ r = Panic) \/
  match r' with
  | Ok cs => exists s, r = Ok s /\ holds s cs
  | Err e => r = Err e
  | Panic => r = Panic
  | OutOfFuel => r = OutOfFuel
  end.

Lemma same_Ok strict s cs : counted s.2 s.1 -> Forall2 (repr s.2) s.1 cs -> same_outcome strict (Ok s) (Ok cs).
Proof. intros Hc Hr. right. by exists s. Qed.

(** The column with a number. *)
Lemma same_lookup strict roots h cs i (f : nat -> Result (list nat * Heap)) (g : column_data -> Result (list column_data)) :
  holds (roots, h) cs ->
  (forall l c, roots !! i = Some l -> cs !! i = Some c -> repr h l c -> same_outcome strict (f l) (g c)) ->
  same_outcome strict (l ← unwrap (roots !! i); f l) (c ← unwrap (cs !! i); g c).
Proof.
  intros [_ Hr] Hf. cbn in Hr. destruct (roots !! i) as [l|] eqn:Hl.
  - destruct (Forall2_lookup_l _ _ _ _ _ Hr Hl) as (c & Hc & Hrc). rewrite Hc. by apply Hf.
  - apply lookup_ge_None in Hl. rewrite (Forall2_length _ _ _ Hr) in Hl. apply lookup_ge_None in Hl as ->. by right.
Qed.

Lemma others_hold (R R' : nat -> column_data -> Prop) roots cs i l' c' :
  Forall2 R roots cs -> (forall j r c, j <> i -> roots !! j = Some r -> R r c -> R' r c) -> R' l' c' ->
  Forall2 R' (<[i:=l']> roots) (<[i:=c']> cs).
Proof.
  intros HR Hothers Hi. apply Forall2_same_length_lookup. split; [by rewrite !length_insert, (Forall2_length _ _ _ HR)|].
  intros j r c Hr Hc. apply list_lookup_insert_Some in Hr as [(-> & <- & _)|[Hj Hr]];
    apply list_lookup_insert_Some in Hc as [(Hij & <- & _)|[Hij Hc]]; [done|congruence|congruence|].
  eapply Hothers; [done|exact Hr|by eapply Forall2_lookup_lr].
Qed.

Lemma insert_perm (roots : list nat) i l l' : roots !! i = Some l -> <[i:=l']> roots ≡ₚ l' :: delete i roots.
Proof.
  intros Hi. rewrite insert_take_drop by (by eapply lookup_lt_Some).
  rewrite delete_take_drop. by rewrite <- Permutation_middle.
Qed.

(** A node around the column [i]. *)
Lemma wrap_holds strict roots h cs i l c n c' :
  holds (roots, h) cs -> roots !! i = Some l -> children n = [l] ->
  (forall l' h', arc_new n h = (l', h') -> repr h' l' c') -> repr h l c ->
  same_outcome strict (let '(l', h) := arc_new n h in Ok (<[i:=l']> roots, h)) (Ok (<[i:=c']> cs)).
Proof.
  intros [Hc Hr] Hl Hn Hc' Hrc. destruct (arc_new n h) as [l' h'] eqn:Hnew. apply same_Ok; cbn in *.
  - eapply counted_perm; [symmetry; by apply (insert_perm _ _ l)|]. eapply counted_new; [|exact Hnew].
    rewrite Hn. cbn. eapply counted_perm; [by apply delete_Permutation|done].
  - eapply others_hold; [exact Hr| |by eapply Hc']. intros j r cr _ _. by apply (repr_new _ _ _ _ _ _ Hnew).
Qed.

(** One more reference to the column at [l]. *)
Lemma clone_holds strict roots h cs l c :
  holds (roots, h) cs -> repr h l c -> same_outcome strict (Ok (roots ++ [l], arc_clone l h)) (Ok (cs ++ [c])).
Proof.
  intros [Hc Hr] Hrc. assert (exists n k, h !! l = Some (n, k)) as (n & k & Hl) by (destruct Hrc; eauto).
  apply same_Ok; cbn in *.
  - eapply counted_perm; [apply Permutation_cons_append|]. by eapply counted_clone.
  - apply Forall2_app; [|by constructor; [apply repr_clone|]]. eapply Forall2_impl; [exact Hr|]. intros; by apply repr_clone.
Qed.

Lemma new_holds strict roots h cs c :
  holds (roots, h) cs -> plain c = true ->
  same_outcome strict (let '(l, h) := arc_new (Plain c) h in Ok (roots ++ [l], h)) (Ok (cs ++ [c])).
Proof.
  intros [Hc Hr] Hp. destruct (arc_new (Plain c) h) as [l h'] eqn:Hnew. apply same_Ok; cbn in *.
  - eapply counted_perm; [apply Permutation_cons_append|]. eapply (counted_new h roots (Plain c)); [exact Hc|exact Hnew].
  - apply Forall2_app; [eapply Forall2_impl; [exact Hr|]; intros; by eapply repr_new|].
    destruct (arc_new_refs _ _ _ _ 0%nat Hnew) as (_ & _ & ->).
    constructor; [|done]. eapply repr_plain; [by rewrite lookup_insert_eq|done].
Qed.

(** A push. *)
Lemma push_same strict roots h cs i l c v :
  holds (roots, h) cs -> roots !! i = Some l -> repr h l c -> (strict = true -> pushable h l c) ->
  same_outcome strict ('(l', h) ← column_push_at l v h; Ok (<[i:=l']> roots, h)) (c ← push true c v; Ok (<[i:=c]> cs)).
Proof.
  intros [Hc Hr] Hl Hrc Hready. cbn in Hc, Hr.
  destruct (column_push_value strict h roots l c v Hc Hrc Hready) as [[-> ->]|Ha]; [by left|].
  destruct (push true c v) as [c'| | |]; [|by rewrite Ha; right..]. destruct Ha as (l' & h' & Hp & Hc'). rewrite Hp.
  destruct (push_isolated _ _ _ _ _ _ _ Hc Hl Hp) as [Hc2 Hothers].
  apply same_Ok; [exact Hc2|]. eapply others_hold; [exact Hr|exact Hothers|exact Hc'].
Qed.

(** Each operation. *)
Lemma op_same strict op s cs :
  holds s cs -> (strict = true -> ready op s cs) -> same_outcome strict (heap_op op s) (value_op op cs).
Proof.
  destruct s as [roots h]. intros Hh Hready. destruct op as [c|i nulls|i offsets|i|i|i v|i]; cbn [heap_op value_op].
  - destruct (plain c) eqn:Hp; cbn [assert_ mbind outcome_bind]; [by apply new_holds|by right].
  - apply (same_lookup strict _ h); [done|]. intros l c Hl Hc Hrc. eapply wrap_holds; [done|done|done| |done].
    intros l' h' Hn. pose proof (repr_new _ _ _ _ _ _ Hn Hrc). destruct (arc_new_refs _ _ _ _ 0%nat Hn) as (_ & _ & ->).
    eapply repr_nullable; [by rewrite lookup_insert_eq|done].
  - apply (same_lookup strict _ h); [done|]. intros l c Hl Hc Hrc. eapply wrap_holds; [done|done|done| |done].
    intros l' h' Hn. pose proof (repr_new _ _ _ _ _ _ Hn Hrc). destruct (arc_new_refs _ _ _ _ 0%nat Hn) as (_ & _ & ->).
    eapply repr_array; [by rewrite lookup_insert_eq|done].
  - apply (same_lookup strict _ h); [done|]. intros l c Hl Hc Hrc. by apply clone_holds.
  - apply (same_lookup strict _ h); [done|]. intros l c Hl Hc Hrc.
    destruct Hrc as [l c k Hn Hp|l inner nulls k c Hn Hrc|l inner offsets k c Hn Hrc]; rewrite Hn; cbn [fmap option_fmap option_map fst].
    + right. by destruct c.
    + by apply clone_holds.
    + by apply clone_holds.
  - apply (same_lookup strict _ h); [done|]. intros l c Hl Hc Hrc. apply push_same; try done.
    intros Hst. by apply (Hready Hst).
  - apply (same_lookup strict _ h); [done|]. intros l c Hl Hc Hrc. destruct Hh as [Hcnt Hr]. cbn in Hcnt, Hr.
    destruct (release_ok (size h) l h (delete i roots) c) as (h' & -> & Hc' & Hothers);
      [by eapply counted_perm; [apply delete_Permutation|]|done|by eapply levels_size|].
    apply same_Ok; [done|]. cbn. apply Forall2_same_length_lookup.
    pose proof (Forall2_delete _ _ _ i Hr) as Hd. split; [by eapply Forall2_length|].
    intros j r cr Hj Hjc. apply Hothers; [by eapply list_elem_of_lookup_2|by eapply Forall2_lookup_lr].
Qed.

(** ** Programs *)

Definition heap_run (ops : list column_op) (s : list nat * Heap) : Result (list nat * Heap) := for_each ops heap_op s.

Definition value_run (ops : list column_op) (cs : list column_data) : Result (list column_data) := for_each ops value_op cs.

(** Each push of the program is ready when it is its turn. *)
Fixpoint ready_run (ops : list column_op) (s : list nat * Heap) (cs : list column_data) : Prop :=
  match ops with
  | [] => True
  | op :: ops =>
    ready op s cs /\ forall s' cs', heap_op op s = Ok s' -> value_op op cs = Ok cs' -> ready_run ops s' cs'
  end.

Lemma run_same strict ops s cs :
  holds s cs -> (strict = true -> ready_run ops s cs) ->
  same_outcome strict (heap_run ops s) (value_run ops cs).
Proof.
  unfold heap_run, value_run. revert s cs. induction ops as [|op ops IH]; intros s cs Hh Hready; cbn [for_each].
  - destruct Hh. by apply same_Ok.
  - destruct (op_same strict op s cs Hh) as [[-> ->]|Ho]; [by intros [Hr _]%Hready|by left|].
    destruct (value_op op cs) as [cs'| | |] eqn:Hv; [|by rewrite Ho; right..].
    destruct Ho as (s' & Hs & Hh'). rewrite Hs. apply IH; [done|]. intros [_ Hr]%Hready. by apply Hr.
Qed.
(** ** Deciding readiness *)

Fixpoint sole_b (fuel : nat) (h : Heap) (l : nat) : bool :=
  match fuel with
  | O => false
  | S fuel =>
    match h !! l with
    | Some (Plain _, _) => true
    | Some (NullableNode inner _, _) | Some (ArrayNode inner _, _) =>
      (count_of h inner =? 1)%nat && sole_b fuel h inner
    | None => false
    end
  end.

Definition pushable_b (h : Heap) (l : nat) (c : column_data) : bool :=
  if (count_of h l =? 1)%nat then sole_b (size h) h l
  else plain c && match clone_instance c with Ok _ => true | _ => false end.

Definition ready_b (op : column_op) (s : list nat * Heap) (cs : list column_data) : bool :=
  match op with
  | Push i _ => match s.1 !! i, cs !! i with Some l, Some c => pushable_b s.2 l c | _, _ => true end
  | _ => true
  end.

Fixpoint ready_run_b (ops : list column_op) (s : list nat * Heap) (cs : list column_data) : bool :=
  match ops with
  | [] => true
  | op :: ops =>
    ready_b op s cs &&
    match heap_op op s, value_op op cs with Ok s, Ok cs => ready_run_b ops s cs | _, _ => true end
  end.

Lemma sole_b_sound fuel h l : sole_b fuel h l = true -> sole h l.
Proof.
  revert l. induction fuel as [|fuel IH]; intros l; [done|]. cbn [sole_b]. unfold count_of.
  destruct (h !! l) as [[[c|inner nulls|inner offsets] k]|] eqn:Hl; [|..|done].
  - intros _. by eapply sole_plain.
  - intros [Hk Hs]%andb_prop. destruct (h !! inner) as [[m ki]|] eqn:Hi; [|done]. apply Nat.eqb_eq in Hk as ->.
    eapply sole_inner; [exact Hl|done|exact Hi|by apply IH].
  - intros [Hk Hs]%andb_prop. destruct (h !! inner) as [[m ki]|] eqn:Hi; [|done]. apply Nat.eqb_eq in Hk as ->.
    eapply sole_inner; [exact Hl|done|exact Hi|by apply IH].
Qed.

Lemma ready_b_sound op s cs : ready_b op s cs = true -> ready op s cs.
Proof.
  destruct op; try done. cbn. intros Hb l c Hl Hc. rewrite Hl, Hc in Hb. unfold pushable, pushable_b in *.
  destruct (count_of s.2 l =? 1)%nat; [by eapply sole_b_sound|]. apply andb_prop in Hb as [Hp Hcl].
  split; [done|]. by destruct (clone_instance_or c) as [Hc1|Hc1]; rewrite Hc1 in Hcl |- *.
Qed.

Lemma ready_run_b_sound ops s cs : ready_run_b ops s cs = true -> ready_run ops s cs.
Proof.
  revert s cs. induction ops as [|op ops IH]; intros s cs; [done|]. cbn [ready_run_b ready_run].
  intros [Hr%ready_b_sound Hrest]%andb_prop. split; [done|]. intros s' cs' Hs Hc. rewrite Hs, Hc in Hrest. by apply IH.
Qed.
End ArcPrograms.
