(* ===== verification/Objects.v ===== *)
(** * The trait [ColumnData] and the structs that implement it

    [column_data] of file Columns is a trait object, [dyn ColumnData]: one
    constructor for each struct, one function for each method, and a call on an
    object is a match on its struct.  Here are the trait itself as a class, the
    structs as records and each [impl] as an instance, whose nested columns are
    trait objects; [dyn] makes an object of a struct.  The class [Object] says
    what dynamic dispatch promises: a method of the object is the method of the
    struct.  What is generic in the trait, [append] and the column wrappers, is
    proved against that interface. *)

From S2P Require Import Prelude RustStd Errors Scalars Encoder SqlType TypeNames DecimalNum.
From S2P Require Import Values StringPool ChunkIndex Columns Iter Compressed Block NetAddr Cast.
From S2P Require Import ArcHeap.
Local Open Scope Z_scope.

(** ** The trait *)

Class ColumnData `{ChronoTz} (S : Type) := {
  cd_sql_type : S -> SqlType;
  cd_save : S -> Encoder -> Z -> Z -> Result Encoder;
  cd_len : S -> Result Z;
  (* whether the [Arc]s of nested columns are the only ones *)
  cd_push : bool -> S -> Value.t -> Result S;
  cd_at : S -> Z -> Result ValueRef.t;
  cd_clone_instance : S -> Result column_data;
  cd_get_internal : S -> slots -> Z -> Result slots;
  cd_cast_to : S -> column_data -> SqlType -> option column_data
}.

(** A struct as a trait object. *)
Class Unsize `{ChronoTz} (S : Type) := dyn : S -> column_data.

(** ** [List<T>] ([types/column/list.rs]) *)

Record List (T : prim) := mkList { list_data : list Z }.
#[global] Arguments mkList T : clear implicits.
#[global] Arguments list_data {T}.

Section Lists.
Context {T : prim}.

Definition list_len (self : List T) : Z := Z.of_nat (length (list_data self)).
Definition list_at (self : List T) (index : Z) : Result Z := indexZ (list_data self) index.
Definition list_push (self : List T) (value : Z) : List T := mkList T (list_data self ++ [value]).

(** [Vec::resize]: cut, or filled up with [value]. *)
Definition list_resize (self : List T) (new_len : Z) (value : Z) : List T :=
  mkList T (vec_resize (Z.to_nat new_len) value (list_data self)).

(** [AsRef<[u8]>]: the memory of the elements. *)
Definition list_as_ref (self : List T) : bytes := list_bytes T (list_data self).
End Lists.

(** ** The structs *)

Section Structs.
Context `{ChronoTz}.

Record VectorColumnData (T : prim) := mkVector { vector_data : List T }.
Record StringColumnData := mkString { string_pool : StringPool }.
Record FixedStringColumnData := mkFixedString { fixed_buffer : bytes; fixed_str_len : Z }.
Record DateColumnData (T : date_repr) := mkDate { date_data : List (date_prim T); date_zone : Tz }.
Record DateTime64ColumnData := mkDateTime64 { datetime64_data : List i64; datetime64_params : Z * Tz }.
Record ChronoDateTimeColumnData := mkChronoDateTime { chrono_data : list DateTime; chrono_zone : Tz }.
Record IpColumnData (V : ip_version) := mkIp { ip_inner : bytes }.
Record NullableColumnData := mkNullable { nullable_inner : column_data; nullable_nulls : bytes }.
Record ArrayColumnData := mkArray { array_inner : column_data; array_offsets : List u64 }.
Record DecimalColumnData := mkDecimal
  { decimal_inner : column_data; decimal_precision : Z; decimal_scale : Z; decimal_nobits : NoBits }.
Record Enum8ColumnData := mkEnum8 { enum8_values : list (bytes * Z); enum8_inner : column_data }.
Record Enum16ColumnData := mkEnum16 { enum16_values : list (bytes * Z); enum16_inner : column_data }.
Record ChunkColumnData := mkChunk { chunk_data : column_data; chunk_start : Z; chunk_end : Z }.

(** [data] is not empty: [concat] asserts it. *)
Record ConcatColumnData := mkConcat
  { concat_first : column_data; concat_rest : list column_data; concat_index : list Z }.

Record StringAdapter := mkStringAdapter { sa_column : Column }.
Record FixedStringAdapter := mkFixedStringAdapter { fa_column : Column; fa_str_len : Z }.
Record NullableFixedStringAdapter := mkNullableFixedStringAdapter { nfa_column : Column; nfa_str_len : Z }.
Record DecimalAdapter := mkDecimalAdapter
  { da_column : Column; da_precision : Z; da_scale : Z; da_nobits : NoBits }.
Record NullableDecimalAdapter := mkNullableDecimalAdapter
  { nda_column : Column; nda_precision : Z; nda_scale : Z; nda_nobits : NoBits }.
Record Enum8Adapter := mkEnum8Adapter { e8_column : Column; e8_values : list (bytes * Z) }.
Record NullableEnum8Adapter := mkNullableEnum8Adapter { ne8_column : Column; ne8_values : list (bytes * Z) }.
Record Enum16Adapter := mkEnum16Adapter { e16_column : Column; e16_values : list (bytes * Z) }.
Record NullableEnum16Adapter := mkNullableEnum16Adapter { ne16_column : Column; ne16_values : list (bytes * Z) }.
Record ChronoDateTimeAdapter := mkChronoAdapter { ca_column : column_data; ca_dst_type : SqlType }.
End Structs.

#[global] Arguments mkVector T : clear implicits.
#[global] Arguments vector_data {T}.
#[global] Arguments mkDate {_} T.
#[global] Arguments date_data {_ T}.
#[global] Arguments date_zone {_ T}.
#[global] Arguments mkIp V : clear implicits.
#[global] Arguments ip_inner {V}.

Section Unsized.
Context `{ChronoTz}.

#[global] Instance dyn_vector T : Unsize (VectorColumnData T) := fun s =>
  Columns.VectorColumnData T (list_data (vector_data s)).
#[global] Instance dyn_string : Unsize StringColumnData := fun s =>
  Columns.StringColumnData (string_pool s).
#[global] Instance dyn_fixed : Unsize FixedStringColumnData := fun s =>
  Columns.FixedStringColumnData (fixed_buffer s) (fixed_str_len s).
#[global] Instance dyn_date T : Unsize (DateColumnData T) := fun s =>
  Columns.DateColumnData T (list_data (date_data s)) (date_zone s).
#[global] Instance dyn_datetime64 : Unsize DateTime64ColumnData := fun s =>
  Columns.DateTime64ColumnData (list_data (datetime64_data s)) (datetime64_params s).
#[global] Instance dyn_chrono : Unsize ChronoDateTimeColumnData := fun s =>
  Columns.ChronoDateTimeColumnData (chrono_data s) (chrono_zone s).
#[global] Instance dyn_ip V : Unsize (IpColumnData V) := fun s => Columns.IpColumnData V (ip_inner s).
#[global] Instance dyn_nullable : Unsize NullableColumnData := fun s =>
  Columns.NullableColumnData (nullable_inner s) (nullable_nulls s).
#[global] Instance dyn_array : Unsize ArrayColumnData := fun s =>
  Columns.ArrayColumnData (array_inner s) (list_data (array_offsets s)).
#[global] Instance dyn_decimal : Unsize DecimalColumnData := fun s =>
  Columns.DecimalColumnData (decimal_inner s) (decimal_precision s) (decimal_scale s) (decimal_nobits s).
#[global] Instance dyn_enum8 : Unsize Enum8ColumnData := fun s =>
  Columns.Enum8ColumnData (enum8_values s) (enum8_inner s).
#[global] Instance dyn_enum16 : Unsize Enum16ColumnData := fun s =>
  Columns.Enum16ColumnData (enum16_values s) (enum16_inner s).
#[global] Instance dyn_chunk : Unsize ChunkColumnData := fun s =>
  Columns.ChunkColumnData (chunk_data s) (chunk_start s) (chunk_end s).
#[global] Instance dyn_concat : Unsize ConcatColumnData := fun s =>
  Columns.ConcatColumnData (concat_first s) (concat_rest s) (concat_index s).
#[global] Instance dyn_string_adapter : Unsize StringAdapter := fun s =>
  Columns.StringAdapter (data (sa_column s)).
#[global] Instance dyn_fixed_adapter : Unsize FixedStringAdapter := fun s =>
  Columns.FixedStringAdapter (data (fa_column s)) (fa_str_len s).
#[global] Instance dyn_nullable_fixed : Unsize NullableFixedStringAdapter := fun s =>
  Columns.NullableFixedStringAdapter (data (nfa_column s)) (nfa_str_len s).
#[global] Instance dyn_decimal_adapter : Unsize DecimalAdapter := fun s =>
  Columns.DecimalAdapter (data (da_column s)) (da_precision s) (da_scale s) (da_nobits s).
#[global] Instance dyn_nullable_decimal : Unsize NullableDecimalAdapter := fun s =>
  Columns.NullableDecimalAdapter (data (nda_column s)) (nda_precision s) (nda_scale s) (nda_nobits s).
#[global] Instance dyn_enum8_adapter : Unsize Enum8Adapter := fun s =>
  Columns.Enum8Adapter (data (e8_column s)) (e8_values s).
#[global] Instance dyn_nullable_enum8 : Unsize NullableEnum8Adapter := fun s =>
  Columns.NullableEnum8Adapter (data (ne8_column s)) (ne8_values s).
#[global] Instance dyn_enum16_adapter : Unsize Enum16Adapter := fun s =>
  Columns.Enum16Adapter (data (e16_column s)) (e16_values s).
#[global] Instance dyn_nullable_enum16 : Unsize NullableEnum16Adapter := fun s =>
  Columns.NullableEnum16Adapter (data (ne16_column s)) (ne16_values s).
#[global] Instance dyn_chrono_adapter : Unsize ChronoDateTimeAdapter := fun s =>
  Columns.ChronoDateTimeAdapter (ca_column s) (ca_dst_type s).
End Unsized.

(** ** The impls *)

Section Impls.
Context {P : Profile} `{ChronoTz, Combine}.

(** The default methods. *)
Definition default_get_internal (pointers : slots) (level_ : Z) : Result slots := Err unsupported_operation.
Definition default_cast_to (this : column_data) (target : SqlType) : option column_data := None.

#[global] Instance impl_vector T : ColumnData (VectorColumnData T) := {|
  cd_sql_type self := vector_sql_type T;
  cd_save self encoder start end_ := save_data T (list_data (vector_data self)) encoder start end_;
  cd_len self := Ok (list_len (vector_data self));
  cd_push arcs self value := x ← value_prim T value; Ok (mkVector T (list_push (vector_data self) x));
  cd_at self index := v ← list_at (vector_data self) index; vector_value_ref T v;
  cd_clone_instance self := Ok (dyn (mkVector T (vector_data self)));
  cd_get_internal self := vector_internal T (list_data (vector_data self));
  cd_cast_to self := default_cast_to
|}.

#[global] Instance impl_string : ColumnData StringColumnData := {|
  cd_sql_type self := String_;
  cd_save self encoder start end_ := string_save (string_pool self) encoder start end_;
  cd_len self := Ok (Z.of_nat (StringPool.len (string_pool self)));
  cd_push arcs self value :=
    s ← value_bytes value; pool ← push_string (string_pool self) s; Ok (mkString pool);
  cd_at self index := s ← StringPool.get (string_pool self) (Z.to_nat index); Ok (ValueRef.String_ s);
  cd_clone_instance self := Ok (dyn (mkString (string_pool self)));
  cd_get_internal self := string_internal (string_pool self);
  cd_cast_to self := default_cast_to
|}.

#[global] Instance impl_fixed : ColumnData FixedStringColumnData := {|
  cd_sql_type self := FixedString (fixed_str_len self);
  cd_save self encoder start end_ :=
    fixed_save (fixed_buffer self) (fixed_str_len self) encoder start end_;
  cd_len self := div_usize (Z.of_nat (length (fixed_buffer self))) (fixed_str_len self);
  cd_push arcs self value :=
    bs ← value_string value;
    buffer ← push_fixed (fixed_buffer self) (fixed_str_len self) bs;
    Ok (mkFixedString buffer (fixed_str_len self));
  cd_at self index := fixed_at (fixed_buffer self) (fixed_str_len self) index;
  cd_clone_instance self := Ok (dyn (mkFixedString (fixed_buffer self) (fixed_str_len self)));
  cd_get_internal self := fixed_internal (fixed_buffer self) (fixed_str_len self);
  cd_cast_to self := default_cast_to
|}.

#[global] Instance impl_date T : ColumnData (DateColumnData T) := {|
  cd_sql_type self := date_type T;
  cd_save self encoder start end_ := save_data (date_prim T) (list_data (date_data self)) encoder start end_;
  cd_len self := Ok (list_len (date_data self));
  cd_push arcs self value :=
    x ← (match T with D16 => get_stamp16 value | D32 => get_stamp32 value end);
    Ok (mkDate T (list_push (date_data self) x) (date_zone self));
  cd_at self index := date_at T (list_data (date_data self)) (date_zone self) index;
  cd_clone_instance self := Ok (dyn (mkDate T (date_data self) (date_zone self)));
  cd_get_internal self := date_internal T (list_data (date_data self)) (date_zone self);
  cd_cast_to self := default_cast_to
|}.

#[global] Instance impl_datetime64 : ColumnData DateTime64ColumnData := {|
  cd_sql_type self :=
    let '(precision, tz) := datetime64_params self in DateTime_ (DateTime64 precision tz);
  cd_save self encoder start end_ := Panic;
  cd_len self := Ok (list_len (datetime64_data self));
  cd_push arcs self value :=
    let '(precision, tz) := datetime64_params self in
    time ← value_datetime value;
    stamp ← from_datetime (dt_with_timezone time tz) precision;
    Ok (mkDateTime64 (list_push (datetime64_data self) stamp) (precision, tz));
  cd_at self index := datetime64_at (list_data (datetime64_data self)) (datetime64_params self) index;
  cd_clone_instance self := Ok (dyn (mkDateTime64 (datetime64_data self) (datetime64_params self)));
  cd_get_internal self := datetime64_internal (list_data (datetime64_data self)) (datetime64_params self);
  cd_cast_to self := default_cast_to
|}.

#[global] Instance impl_chrono : ColumnData ChronoDateTimeColumnData := {|
  cd_sql_type self := DateTime_ Chrono;
  cd_save self encoder start end_ := Panic;
  cd_len self := Ok (Z.of_nat (length (chrono_data self)));
  cd_push arcs self value :=
    time ← value_datetime value; Ok (mkChronoDateTime (chrono_data self ++ [time]) (chrono_zone self));
  cd_at self index := chrono_at (chrono_data self) index;
  cd_clone_instance self := Ok (dyn (mkChronoDateTime (chrono_data self) (chrono_zone self)));
  cd_get_internal self := chrono_internal (chrono_data self) (chrono_zone self);
  cd_cast_to self := chrono_cast_to
|}.

#[global] Instance impl_ip V : ColumnData (IpColumnData V) := {|
  cd_sql_type self := ip_sql_type V;
  cd_save self encoder start end_ := ip_save V (ip_inner self) encoder start end_;
  cd_len self := div_usize (Z.of_nat (length (ip_inner self))) (ip_size V);
  cd_push arcs self value := inner ← ip_push V (ip_inner self) value; Ok (mkIp V inner);
  cd_at self index := ip_get V (ip_inner self) index;
  cd_clone_instance self := Ok (dyn (mkIp V (ip_inner self)));
  cd_get_internal self := ip_internal (ip_inner self);
  cd_cast_to self := default_cast_to
|}.

(** What [NullableColumnData::push] pushes inside, and its flag. *)
Definition nullable_value (value : Value.t) : Result (Value.t * byte) :=
  match value with
  | Value.Nullable (Left sql_type) => default_value ← value_default sql_type; Ok (default_value, x01)
  | Value.Nullable (Right inner) => Ok (inner, x00)
  | value => Ok (value, x00)
  end.

#[global] Instance impl_nullable : ColumnData NullableColumnData := {|
  cd_sql_type self := Nullable (sql_type (nullable_inner self));
  cd_save self encoder start end_ :=
    nullable_save (save (nullable_inner self)) (nullable_nulls self) encoder start end_;
  cd_len self := nullable_len (len (nullable_inner self)) (nullable_nulls self);
  cd_push arcs self value :=
    _ ← assert_ arcs;
    '(v, flag) ← nullable_value value;
    inner ← push arcs (nullable_inner self) v;
    Ok (mkNullable inner (nullable_nulls self ++ [flag]));
  cd_at self index :=
    nullable_at (sql_type (nullable_inner self)) (at_ (nullable_inner self)) (nullable_nulls self) index;
  cd_clone_instance self := Ok (dyn (mkNullable (nullable_inner self) (nullable_nulls self)));
  cd_get_internal self :=
    nullable_internal (get_internal (nullable_inner self)) (dyn self) (nullable_nulls self);
  cd_cast_to self this target :=
    nullable_cast_to (data_cast_to (nullable_inner self)) (nullable_nulls self) target
|}.

#[global] Instance impl_array : ColumnData ArrayColumnData := {|
  cd_sql_type self := Array (sql_type (array_inner self));
  cd_save self encoder start end_ :=
    array_save (save (array_inner self)) (list_data (array_offsets self)) encoder start end_;
  cd_len self := Ok (list_len (array_offsets self));
  cd_push arcs self value :=
    match value with
    | Value.Array _ vs =>
      let offsets_len := list_len (array_offsets self) in
      prev ← (if offsets_len =? 0 then Ok 0 else list_at (array_offsets self) (offsets_len - 1));
      _ ← assert_ arcs;
      offset ← arith_u 64 (prev + Z.of_nat (length vs));
      inner ← for_each vs (fun v inner => push arcs inner v) (array_inner self);
      Ok (mkArray inner (list_push (array_offsets self) offset))
    | _ => Panic
    end;
  cd_at self index :=
    array_at (sql_type (array_inner self)) (at_ (array_inner self)) (list_data (array_offsets self)) index;
  cd_clone_instance self := Ok (dyn (mkArray (array_inner self) (array_offsets self)));
  cd_get_internal self :=
    array_internal (get_internal (array_inner self)) (dyn self) (list_data (array_offsets self));
  cd_cast_to self this target :=
    array_cast_to (data_cast_to (array_inner self)) (list_data (array_offsets self)) target
|}.

#[global] Instance impl_decimal : ColumnData DecimalColumnData := {|
  cd_sql_type self := Decimal (decimal_precision self) (decimal_scale self);
  cd_save self := save (decimal_inner self);
  cd_len self := len (decimal_inner self);
  cd_push arcs self value :=
    match value with
    | Value.Decimal_ d =>
      inner ← push arcs (decimal_inner self)
        (match decimal_nobits self with
         | N32 => Value.Int32 (Decimal.internal N32 d)
         | N64 => Value.Int64 (Decimal.internal N64 d)
         end);
      Ok (mkDecimal inner (decimal_precision self) (decimal_scale self) (decimal_nobits self))
    | _ => Panic
    end;
  cd_at self index :=
    decimal_at (at_ (decimal_inner self)) (decimal_precision self) (decimal_scale self)
      (decimal_nobits self) index;
  cd_clone_instance self :=
    inner ← clone_instance (decimal_inner self);
    Ok (dyn (mkDecimal inner (decimal_precision self) (decimal_scale self) (decimal_nobits self)));
  cd_get_internal self := decimal_internal (get_internal (decimal_inner self)) (decimal_nobits self);
  cd_cast_to self := default_cast_to
|}.

#[global] Instance impl_enum8 : ColumnData Enum8ColumnData := {|
  cd_sql_type self := Enum8 (enum8_values self);
  cd_save self := save (enum8_inner self);
  cd_len self := len (enum8_inner self);
  cd_push arcs self value :=
    match value with
    | Value.Enum8 _ enum_value =>
      inner ← push arcs (enum8_inner self) (Value.Int8 enum_value); Ok (mkEnum8 (enum8_values self) inner)
    | _ => Panic
    end;
  cd_at self index := enum8_at (enum8_values self) (at_ (enum8_inner self)) index;
  cd_clone_instance self :=
    inner ← clone_instance (enum8_inner self); Ok (dyn (mkEnum8 (enum8_values self) inner));
  cd_get_internal self := default_get_internal;
  cd_cast_to self := default_cast_to
|}.

#[global] Instance impl_enum16 : ColumnData Enum16ColumnData := {|
  cd_sql_type self := Enum16 (enum16_values self);
  cd_save self := save (enum16_inner self);
  cd_len self := len (enum16_inner self);
  cd_push arcs self value :=
    match value with
    | Value.Enum16 _ enum_value =>
      inner ← push arcs (enum16_inner self) (Value.Int16 enum_value);
      Ok (mkEnum16 (enum16_values self) inner)
    | _ => Panic
    end;
  cd_at self index := enum16_at (enum16_values self) (at_ (enum16_inner self)) index;
  cd_clone_instance self :=
    inner ← clone_instance (enum16_inner self); Ok (dyn (mkEnum16 (enum16_values self) inner));
  cd_get_internal self := default_get_internal;
  cd_cast_to self := default_cast_to
|}.

#[global] Instance impl_chunk : ColumnData ChunkColumnData := {|
  cd_sql_type self := sql_type (chunk_data self);
  cd_save self encoder start end_ :=
    chunk_save (save (chunk_data self)) (chunk_start self) (chunk_end self) encoder start end_;
  cd_len self := Ok (range_len (chunk_start self) (chunk_end self));
  cd_push arcs self value := Panic;
  cd_at self index := chunk_at (at_ (chunk_data self)) (chunk_start self) (chunk_end self) index;
  cd_clone_instance self := Panic;
  cd_get_internal self := default_get_internal;
  cd_cast_to self := default_cast_to
|}.

#[global] Instance impl_concat : ColumnData ConcatColumnData := {|
  cd_sql_type self := sql_type (concat_first self);
  cd_save self encoder start end_ := Panic;
  cd_len self := unwrap (last (concat_index self));
  cd_push arcs self value := Panic;
  cd_at self index :=
    concat_at (at_ (concat_first self) :: map at_ (concat_rest self)) (concat_index self) index;
  cd_clone_instance self := Panic;
  cd_get_internal self := concat_internal (concat_first self) (concat_rest self);
  cd_cast_to self := default_cast_to
|}.

(** The adapters of a cast; [self.column.at] is [at] of its data. *)

#[global] Instance impl_string_adapter : ColumnData StringAdapter := {|
  cd_sql_type self := String_;
  cd_save self encoder start end_ :=
    string_adapter_save (at_ (data (sa_column self))) encoder start end_;
  cd_len self := len (data (sa_column self));
  cd_push arcs self value := Panic;
  cd_at self index := at_ (data (sa_column self)) index;
  cd_clone_instance self := Panic;
  cd_get_internal self := default_get_internal;
  cd_cast_to self := default_cast_to
|}.

#[global] Instance impl_fixed_adapter : ColumnData FixedStringAdapter := {|
  cd_sql_type self := FixedString (fa_str_len self);
  cd_save self encoder start end_ :=
    fixed_adapter_save (at_ (data (fa_column self))) (fa_str_len self) encoder start end_;
  cd_len self := len (data (fa_column self));
  cd_push arcs self value := Panic;
  cd_at self index := at_ (data (fa_column self)) index;
  cd_clone_instance self := Panic;
  cd_get_internal self := default_get_internal;
  cd_cast_to self := default_cast_to
|}.

#[global] Instance impl_nullable_fixed : ColumnData NullableFixedStringAdapter := {|
  cd_sql_type self := Nullable (FixedString (nfa_str_len self));
  cd_save self encoder start end_ :=
    nullable_fixed_save (at_ (data (nfa_column self))) (nfa_str_len self) encoder start end_;
  cd_len self := len (data (nfa_column self));
  cd_push arcs self value := Panic;
  cd_at self index := at_ (data (nfa_column self)) index;
  cd_clone_instance self := Panic;
  cd_get_internal self := default_get_internal;
  cd_cast_to self := default_cast_to
|}.

(** Where [save] calls [self.at]. *)
Definition da_at (self : DecimalAdapter) : Z -> Result ValueRef.t :=
  decimal_adapter_at (at_ (data (da_column self))) (da_precision self) (da_scale self) (da_nobits self).

#[global] Instance impl_decimal_adapter : ColumnData DecimalAdapter := {|
  cd_sql_type self := Decimal (da_precision self) (da_scale self);
  cd_save self encoder start end_ :=
    decimal_adapter_save (da_at self) (da_nobits self) encoder start end_;
  cd_len self := len (data (da_column self));
  cd_push arcs self value := Panic;
  cd_at := da_at;
  cd_clone_instance self := Panic;
  cd_get_internal self := default_get_internal;
  cd_cast_to self := default_cast_to
|}.

Definition nda_at (self : NullableDecimalAdapter) : Z -> Result ValueRef.t :=
  nullable_decimal_at (at_ (data (nda_column self))) (nda_precision self) (nda_scale self) (nda_nobits self).

#[global] Instance impl_nullable_decimal : ColumnData NullableDecimalAdapter := {|
  cd_sql_type self := Nullable (Decimal (nda_precision self) (nda_scale self));
  cd_save self encoder start end_ :=
    nullable_decimal_save (nda_at self) (nda_nobits self) encoder start end_;
  cd_len self := len (data (nda_column self));
  cd_push arcs self value := Panic;
  cd_at := nda_at;
  cd_clone_instance self := Panic;
  cd_get_internal self := default_get_internal;
  cd_cast_to self := default_cast_to
|}.

Definition e8_at (self : Enum8Adapter) : Z -> Result ValueRef.t :=
  enum8_adapter_at (at_ (data (e8_column self))).

#[global] Instance impl_enum8_adapter : ColumnData Enum8Adapter := {|
  cd_sql_type self := Enum8 (e8_values self);
  cd_save self encoder start end_ := enum8_adapter_save (e8_at self) encoder start end_;
  cd_len self := len (data (e8_column self));
  cd_push arcs self value := Panic;
  cd_at := e8_at;
  cd_clone_instance self := Panic;
  cd_get_internal self := default_get_internal;
  cd_cast_to self := default_cast_to
|}.

Definition ne8_at (self : NullableEnum8Adapter) : Z -> Result ValueRef.t :=
  nullable_enum8_at (at_ (data (ne8_column self))) (ne8_values self).

#[global] Instance impl_nullable_enum8 : ColumnData NullableEnum8Adapter := {|
  cd_sql_type self := Nullable (Enum8 (ne8_values self));
  cd_save self encoder start end_ := nullable_enum8_save (ne8_at self) encoder start end_;
  cd_len self := len (data (ne8_column self));
  cd_push arcs self value := Panic;
  cd_at := ne8_at;
  cd_clone_instance self := Panic;
  cd_get_internal self := default_get_internal;
  cd_cast_to self := default_cast_to
|}.

Definition e16_at (self : Enum16Adapter) : Z -> Result ValueRef.t :=
  enum16_adapter_at (at_ (data (e16_column self))).

#[global] Instance impl_enum16_adapter : ColumnData Enum16Adapter := {|
  cd_sql_type self := Enum16 (e16_values self);
  cd_save self encoder start end_ := enum16_adapter_save (e16_at self) encoder start end_;
  cd_len self := len (data (e16_column self));
  cd_push arcs self value := Panic;
  cd_at := e16_at;
  cd_clone_instance self := Panic;
  cd_get_internal self := default_get_internal;
  cd_cast_to self := default_cast_to
|}.

Definition ne16_at (self : NullableEnum16Adapter) : Z -> Result ValueRef.t :=
  nullable_enum16_at (at_ (data (ne16_column self))) (ne16_values self).

#[global] Instance impl_nullable_enum16 : ColumnData NullableEnum16Adapter := {|
  cd_sql_type self := Nullable (Enum16 (ne16_values self));
  cd_save self encoder start end_ := nullable_enum16_save (ne16_at self) encoder start end_;
  cd_len self := len (data (ne16_column self));
  cd_push arcs self value := Panic;
  cd_at := ne16_at;
  cd_clone_instance self := Panic;
  cd_get_internal self := default_get_internal;
  cd_cast_to self := default_cast_to
|}.

(** [is_chrono_datetime] and [get_date_slice]. *)
Definition is_chrono_datetime (column : column_data) : bool :=
  bool_decide (sql_type column = DateTime_ Chrono).

Definition get_date_slice (column : column_data) : Result (list DateTime) :=
  pointers ← get_internal column (replicate 3 None) 0;
  match pointers !! 0%nat, pointers !! 1%nat, pointers !! 2%nat with
  | Some (Some (ChronoPtr data)), Some (Some (TzPtr _)), Some (Some (SizeVal n)) =>
    Ok (take (Z.to_nat n) data)
  | _, _, _ => Panic
  end.

#[global] Instance impl_chrono_adapter : ColumnData ChronoDateTimeAdapter := {|
  cd_sql_type self := ca_dst_type self;
  cd_save self encoder start end_ :=
    _ ← assert_ (is_chrono_datetime (ca_column self));
    dates ← unwrap_result (get_date_slice (ca_column self));
    save_chrono dates (ca_dst_type self) encoder start end_;
  cd_len self := len (ca_column self);
  cd_push arcs self value := Panic;
  cd_at self index := Panic;
  cd_clone_instance self := Panic;
  cd_get_internal self pointers level_ := Panic;
  cd_cast_to self := default_cast_to
|}.
End Impls.

(** ** Dynamic dispatch *)

(** The methods of an object are those of its struct. *)
Class Object `{ChronoTz} {P : Profile} (S : Type) {C : ColumnData S} {U : Unsize S} : Prop := {
  dyn_sql_type s : sql_type (dyn s) = cd_sql_type s;
  dyn_save s encoder start end_ : save (dyn s) encoder start end_ = cd_save s encoder start end_;
  dyn_len s : len (dyn s) = cd_len s;
  dyn_push arcs s value : push arcs (dyn s) value = (s' ← cd_push arcs s value; Ok (dyn s'));
  dyn_at s index : at_ (dyn s) index = cd_at s index;
  dyn_clone_instance s : clone_instance (dyn s) = cd_clone_instance s;
  dyn_get_internal s pointers level_ : get_internal (dyn s) pointers level_ = cd_get_internal s pointers level_;
  dyn_cast_to s target : data_cast_to (dyn s) target = cd_cast_to s (dyn s) target
}.

Section Dispatch.
Context {P : Profile} `{ChronoTz, Combine}.

(** Each call that can fail, on both sides. *)
Ltac by_outcome :=
  cbn; repeat (match goal with |- mbind _ ?m = _ => destruct m; cbn end); try reflexivity.

Ltac object := split; intros; try reflexivity; cbn; unfold push; by_outcome.

#[global] Instance vector_object T : Object (VectorColumnData T).
Proof. object. Qed.

#[global] Instance string_object : Object StringColumnData.
Proof. object. Qed.

#[global] Instance fixed_object : Object FixedStringColumnData.
Proof. object. Qed.

#[global] Instance date_object T : Object (DateColumnData T).
Proof. object. unfold date_push. by_outcome. Qed.

#[global] Instance datetime64_object : Object DateTime64ColumnData.
Proof.
  split; intros; try reflexivity; destruct s as [data [precision tz]]; try reflexivity.
  unfold push. cbn. unfold datetime64_push. by_outcome.
Qed.

#[global] Instance chrono_object : Object ChronoDateTimeColumnData.
Proof. object. unfold chrono_push. by_outcome. Qed.

#[global] Instance ip_object V : Object (IpColumnData V).
Proof. object. Qed.

#[global] Instance nullable_object : Object NullableColumnData.
Proof.
  object. unfold nullable_push, nullable_value. destruct arcs; [|done].
  destruct value; try by_outcome. destruct e; by_outcome.
Qed.

(** A push keeps the nesting, so the loop of an array has fuel enough. *)
Lemma push_all_fuel arcs fuel vs c :
  (forall c v, cdepth c = fuel -> push_fuel fuel arcs c v = push arcs c v) -> cdepth c = fuel ->
  for_each vs (fun v inner => push_fuel fuel arcs inner v) c = for_each vs (fun v inner => push arcs inner v) c.
Proof.
  intros Hf. revert c. induction vs as [|v vs IH]; intros c Hc; [done|]. cbn [for_each].
  rewrite Hf by done. destruct (push arcs c v) as [c'| | |] eqn:Hp; [|done..]. cbn [mbind outcome_bind].
  apply IH. apply push_kind in Hp as [-> _]. done.
Qed.

(** The last offset, by its index. *)
Lemma prev_offset (offsets : List u64) :
  (if list_len offsets =? 0 then Ok 0 else list_at offsets (list_len offsets - 1)) =
    (Ok (default 0 (last (list_data offsets))) : Result Z).
Proof.
  destruct offsets as [os]. unfold list_len, list_at; cbn [list_data].
  destruct os as [|o os _] using rev_ind; [done|]. rewrite length_app, last_snoc, Nat.add_1_r.
  rewrite (proj2 (Z.eqb_neq _ _)) by lia. rewrite indexZ_nat by lia.
  replace (Z.to_nat _) with (length os) by lia. by rewrite lookup_app_r, Nat.sub_diag by lia.
Qed.

#[global] Instance array_object : Object ArrayColumnData.
Proof.
  object. unfold array_push. destruct value; try done. rewrite prev_offset. destruct arcs; [|done].
  cbn. destruct (arith_u 64 _); try done. cbn. rewrite push_all_fuel; [unfold push; by_outcome|by intros c v <-|done].
Qed.

#[global] Instance decimal_object : Object DecimalColumnData.
Proof. object. unfold decimal_push. destruct value; try done. destruct (decimal_nobits s); by_outcome. Qed.

#[global] Instance enum8_object : Object Enum8ColumnData.
Proof. object. unfold enum8_push. destruct value; try done. by_outcome. Qed.

#[global] Instance enum16_object : Object Enum16ColumnData.
Proof. object. unfold enum16_push. destruct value; try done. by_outcome. Qed.

#[global] Instance chunk_object : Object ChunkColumnData.
Proof. object. Qed.

#[global] Instance concat_object : Object ConcatColumnData.
Proof. object. Qed.

#[global] Instance string_adapter_object : Object StringAdapter.
Proof. object. Qed.

#[global] Instance fixed_adapter_object : Object FixedStringAdapter.
Proof. object. Qed.

#[global] Instance nullable_fixed_object : Object NullableFixedStringAdapter.
Proof. object. Qed.

#[global] Instance decimal_adapter_object : Object DecimalAdapter.
Proof. object. Qed.

#[global] Instance nullable_decimal_object : Object NullableDecimalAdapter.
Proof. object. Qed.

#[global] Instance enum8_adapter_object : Object Enum8Adapter.
Proof. object. Qed.

#[global] Instance nullable_enum8_object : Object NullableEnum8Adapter.
Proof. object. Qed.

#[global] Instance enum16_adapter_object : Object Enum16Adapter.
Proof. object. Qed.

#[global] Instance nullable_enum16_object : Object NullableEnum16Adapter.
Proof. object. Qed.

(** Only a column of instants writes the pointers that [get_date_slice] wants. *)
Lemma date_slice column :
  is_chrono_datetime column = true ->
  (exists data tz, column = Columns.ChronoDateTimeColumnData data tz /\ get_date_slice column = Ok data) \/
  (forall data tz, column <> Columns.ChronoDateTimeColumnData data tz) /\
    unwrap_result (get_date_slice column) = Panic.
Proof.
  unfold is_chrono_datetime. rewrite bool_decide_eq_true.
  destruct column; cbn; try done; try (by right).
  - by destruct params.
  - intros _. left. exists data, tz. split; [done|].
    transitivity (Ok (take (Z.to_nat (Z.of_nat (length data))) data) : Result (list DateTime)); [reflexivity|].
    by rewrite Nat2Z.id, firstn_all.
Qed.

#[global] Instance chrono_adapter_object : Object ChronoDateTimeAdapter.
Proof.
  split; intros; try reflexivity. cbn. destruct (is_chrono_datetime (ca_column s)) eqn:Hc.
  - cbn. destruct (date_slice _ Hc) as [(data & tz & -> & ->)|[Hne ->]]; [done|].
    destruct (ca_column s); try done. by edestruct Hne.
  - by destruct (ca_column s).
Qed.

(** The structs of the crate that implement the trait. *)
Inductive implements : forall S, ColumnData S -> Unsize S -> Prop :=
| implements_vector T : implements (VectorColumnData T) (impl_vector T) (dyn_vector T)
| implements_string : implements StringColumnData impl_string dyn_string
| implements_fixed : implements FixedStringColumnData impl_fixed dyn_fixed
| implements_date T : implements (DateColumnData T) (impl_date T) (dyn_date T)
| implements_datetime64 : implements DateTime64ColumnData impl_datetime64 dyn_datetime64
| implements_chrono : implements ChronoDateTimeColumnData impl_chrono dyn_chrono
| implements_ip V : implements (IpColumnData V) (impl_ip V) (dyn_ip V)
| implements_nullable : implements NullableColumnData impl_nullable dyn_nullable
| implements_array : implements ArrayColumnData impl_array dyn_array
| implements_decimal : implements DecimalColumnData impl_decimal dyn_decimal
| implements_enum8 : implements Enum8ColumnData impl_enum8 dyn_enum8
| implements_enum16 : implements Enum16ColumnData impl_enum16 dyn_enum16
| implements_chunk : implements ChunkColumnData impl_chunk dyn_chunk
| implements_concat : implements ConcatColumnData impl_concat dyn_concat
| implements_string_adapter : implements StringAdapter impl_string_adapter dyn_string_adapter
| implements_fixed_adapter : implements FixedStringAdapter impl_fixed_adapter dyn_fixed_adapter
| implements_nullable_fixed : implements NullableFixedStringAdapter impl_nullable_fixed dyn_nullable_fixed
| implements_decimal_adapter : implements DecimalAdapter impl_decimal_adapter dyn_decimal_adapter
| implements_nullable_decimal : implements NullableDecimalAdapter impl_nullable_decimal dyn_nullable_decimal
| implements_enum8_adapter : implements Enum8Adapter impl_enum8_adapter dyn_enum8_adapter
| implements_nullable_enum8 : implements NullableEnum8Adapter impl_nullable_enum8 dyn_nullable_enum8
| implements_enum16_adapter : implements Enum16Adapter impl_enum16_adapter dyn_enum16_adapter
| implements_nullable_enum16 : implements NullableEnum16Adapter impl_nullable_enum16 dyn_nullable_enum16
| implements_chrono_adapter : implements ChronoDateTimeAdapter impl_chrono_adapter dyn_chrono_adapter.

Lemma implements_object S (C : ColumnData S) (U : Unsize S) : implements S C U -> Object S.
Proof. destruct 1; apply _. Qed.

(** Every object is one of these. *)
Lemma every_object (c : column_data) :
  exists (S : Type) (C : ColumnData S) (U : Unsize S) (s : S), implements S C U /\ dyn s = c.
Proof.
  pose (named := fun d => mkColumn [] d).
  destruct c as [t d|p|b l|k d tz|d ps|d tz|v i|i n|i o|i p s b|vs i|vs i|d s e|f r i|c|c l|c l|c p s b|c p s b|c vs|c vs|c vs|c vs|c ty].
  - by exists (VectorColumnData t), _, _, (mkVector t (mkList t d)); split; [constructor|].
  - by exists StringColumnData, _, _, (mkString p); split; [constructor|].
  - by exists FixedStringColumnData, _, _, (mkFixedString b l); split; [constructor|].
  - by exists (DateColumnData k), _, _, (mkDate k (mkList (date_prim k) d) tz); split; [constructor|].
  - by exists DateTime64ColumnData, _, _, (mkDateTime64 (mkList i64 d) ps); split; [constructor|].
  - by exists ChronoDateTimeColumnData, _, _, (mkChronoDateTime d tz); split; [constructor|].
  - by exists (IpColumnData v), _, _, (mkIp v i); split; [constructor|].
  - by exists NullableColumnData, _, _, (mkNullable i n); split; [constructor|].
  - by exists ArrayColumnData, _, _, (mkArray i (mkList u64 o)); split; [constructor|].
  - by exists DecimalColumnData, _, _, (mkDecimal i p s b); split; [constructor|].
  - by exists Enum8ColumnData, _, _, (mkEnum8 vs i); split; [constructor|].
  - by exists Enum16ColumnData, _, _, (mkEnum16 vs i); split; [constructor|].
  - by exists ChunkColumnData, _, _, (mkChunk d s e); split; [constructor|].
  - by exists ConcatColumnData, _, _, (mkConcat f r i); split; [constructor|].
  - by exists StringAdapter, _, _, (mkStringAdapter (named c)); split; [constructor|].
  - by exists FixedStringAdapter, _, _, (mkFixedStringAdapter (named c) l); split; [constructor|].
  - by exists NullableFixedStringAdapter, _, _, (mkNullableFixedStringAdapter (named c) l); split; [constructor|].
  - by exists DecimalAdapter, _, _, (mkDecimalAdapter (named c) p s b); split; [constructor|].
  - by exists NullableDecimalAdapter, _, _, (mkNullableDecimalAdapter (named c) p s b); split; [constructor|].
  - by exists Enum8Adapter, _, _, (mkEnum8Adapter (named c) vs); split; [constructor|].
  - by exists NullableEnum8Adapter, _, _, (mkNullableEnum8Adapter (named c) vs); split; [constructor|].
  - by exists Enum16Adapter, _, _, (mkEnum16Adapter (named c) vs); split; [constructor|].
  - by exists NullableEnum16Adapter, _, _, (mkNullableEnum16Adapter (named c) vs); split; [constructor|].
  - by exists ChronoDateTimeAdapter, _, _, (mkChronoAdapter c ty); split; [constructor|].
Qed.

(** ** Code that is generic in the trait *)

(** [ColumnDataExt::append]. *)
Definition append {S A} `{ColumnData S} (into : A -> Result Value.t) (arcs : bool) (self : S) (value : A)
  : Result S :=
  value ← into value; cd_push arcs self value.

(** [ColumnWrapper]: what [ColumnFrom::column_from] makes of the struct that it
    has filled. *)
Class ColumnWrapper := {
  Wrapper : Type;
  wrap : forall {S}, Unsize S -> S -> Wrapper;
  wrap_arc : column_data -> Result Wrapper
}.

(** [ArcColumnWrapper] and [BoxColumnWrapper]: an [Arc] or a [Box] of an object
    is the object. *)
Definition ArcColumnWrapper : ColumnWrapper := {|
  Wrapper := column_data;
  wrap S U column := dyn column;
  wrap_arc data := Ok data
|}.

Definition BoxColumnWrapper : ColumnWrapper := {|
  Wrapper := column_data;
  wrap S U column := dyn column;
  wrap_arc data := Panic
|}.

(** [ColumnFrom for Column<K>]. *)
Definition column_from_column (W : ColumnWrapper) (source : Column) : Result Wrapper :=
  wrap_arc (data source).

(** [new_column]. *)
Definition new_column (name : bytes) (data : column_data) : Column := mkColumn name data.

(** [ChunkColumnData::new], [ChronoDateTimeAdapter::new], [StringColumnData::with_capacity]. *)
Definition chunk_new (data : column_data) (start end_ : Z) : ChunkColumnData := mkChunk data start end_.
Definition chrono_adapter_new (column : column_data) (dst_type : SqlType) : ChronoDateTimeAdapter :=
  mkChronoAdapter column dst_type.
Definition string_with_capacity (capacity : Z) : Result StringColumnData :=
  pool ← StringPool.with_capacity capacity; Ok (mkString pool).

(** The methods of [Column] that call those of its data, and its [clone]. *)
Definition column_name (self : Column) : bytes := name self.
Definition column_sql_type (self : Column) : SqlType := sql_type (data self).
Definition column_at (self : Column) (index : Z) : Result ValueRef.t := at_ (data self) index.
Definition column_len (self : Column) : Result Z := len (data self).
Definition column_get_internal (self : Column) (pointers : slots) (level_ : Z) : Result slots :=
  get_internal (data self) pointers level_.
Definition column_clone (self : Column) : Column := mkColumn (name self) (data self).

(** Pushes to a struct, and then an object of it, are pushes to the object. *)
Lemma dyn_pushes S (C : ColumnData S) (U : Unsize S) arcs vs s :
  Object S ->
  for_each vs (fun v c => push arcs c v) (dyn s) =
    (s' ← for_each vs (fun v s => cd_push arcs s v) s; Ok (dyn s')).
Proof.
  intros Ho. revert s. induction vs as [|v vs IH]; intros s; [done|]. cbn [for_each].
  rewrite dyn_push. destruct (cd_push arcs s v); try done. cbn [mbind outcome_bind]. apply IH.
Qed.

(** [append] in a loop, as the loops of [column_from] and the tests do it. *)
Lemma dyn_appends S (C : ColumnData S) (U : Unsize S) {A} (into : A -> Result Value.t) arcs xs vs s :
  Object S -> map_outcome into xs = Ok vs ->
  for_each vs (fun v c => push arcs c v) (dyn s) =
    (s' ← for_each xs (fun x s => append into arcs s x) s; Ok (dyn s')).
Proof.
  intros Ho Hm. rewrite (dyn_pushes S C U) by done. f_equal. apply map_outcome_Ok in Hm.
  revert s. induction Hm as [|x v xs vs Hx _ IH]; intros s; [done|]. cbn [for_each].
  change (append into arcs s x) with (value ← into x; cd_push arcs s value). rewrite Hx.
  cbn [mbind outcome_bind].
  destruct (cd_push arcs s v); try done. cbn [mbind outcome_bind]. apply IH.
Qed.

(** Every [dyn ColumnData] is an object of one of the structs of the crate,
    and a method call on it is the method of that struct; pushes to a struct that
    is made an object afterwards are pushes to the object. *)
Lemma dynamic_dispatch (c : column_data) :
  exists S (C : ColumnData S) (U : Unsize S) (s : S), implements S C U /\ dyn s = c /\
    sql_type c = cd_sql_type s /\ len c = cd_len s /\
    (forall encoder start end_, save c encoder start end_ = cd_save s encoder start end_) /\
    (forall index, at_ c index = cd_at s index) /\
    clone_instance c = cd_clone_instance s /\
    (forall pointers level_, get_internal c pointers level_ = cd_get_internal s pointers level_) /\
    (forall target, data_cast_to c target = cd_cast_to s c target) /\
    forall arcs vs, for_each vs (fun v c => push arcs c v) c =
      (s' ← for_each vs (fun v s => cd_push arcs s v) s; Ok (dyn s')).
Proof.
  destruct (every_object c) as (S & C & U & s & Hi & <-). pose proof (implements_object S C U Hi) as Ho.
  exists S, C, U, s. split_and!; [done|done|apply Ho..|].
  intros arcs vs. by apply (dyn_pushes S C U).
Qed.
End Dispatch.
