(* ===== verification/Connection.v ===== *)
(** * The connection ([binary/parser.rs], [connection.rs])

    A connection collects the bytes that arrive, parses packets out of them and
    writes the server's messages.  [Tokio] stands for the parts of the crate
    [tokio] that the query state holds: the sender of a channel of blocks and a
    [Notify], with the state [Tasks] of the tasks behind them. *)

From S2P Require Import Prelude RustStd Errors Scalars Encoder ReadEx Stable Finite.
From S2P Require Import Protocol SqlType TypeNames DecimalNum Values StringPool Columns.
From S2P Require Import ColumnLaws Compressed Block BlockLaws Chunks.
Local Open Scope Z_scope.

(** ** Packets *)

Section Parser.
Context {P : Profile} `{ChronoTz, Combine, Lz4}.

Inductive Packet :=
| Ping
| Cancel
| Hello (hello : HelloRequest.t)
| Query (query : QueryRequest.t)
| Data (block : Block).

(** The parser's methods; its reader is the reader they run on. *)
Section Methods.
Context {R : Type} `{Read R} (tz : Tz).

Definition parse_hello : rd R Packet :=
  hello ← HelloRequest.read_from;
  mret (Hello hello).

Definition parse_query (hello : option HelloRequest.t) : rd R Packet :=
  match hello with
  | Some hello => query ← QueryRequest.read_from hello; mret (Query query)
  | None => lift (Err (Error.Driver DriverError.UnexpectedPacket))
  end.

Definition parse_data (compress : bool) : rd R Packet :=
  _ ← read_string;
  block ← load tz compress;
  mret (Data block).

Definition parse_packet (hello : option HelloRequest.t) (compress : bool) : rd R Packet :=
  packet ← read_uvarint;
  if packet =? CLIENT_PING then mret Ping
  else if packet =? CLIENT_CANCEL then mret Cancel
  else if (packet =? CLIENT_DATA) || (packet =? CLIENT_SCALAR) then parse_data compress
  else if packet =? CLIENT_QUERY then parse_query hello
  else if packet =? CLIENT_HELLO then parse_hello
  else lift (Err (Error.Driver (DriverError.UnknownPacket packet))).
End Methods.

#[global] Arguments parse_packet : simpl never.

(** *** More bytes do not change what was parsed *)

Lemma stable_packet {R} `{ReadLaws R, !Grow R, !GrowLaws R} tz hello compress :
  stable (R:=R) (parse_packet tz hello compress).
Proof.
  pose proof (stable_load (R:=R)). pose proof (QueryRequest.stable_query (R:=R)).
  pose proof (HelloRequest.stable_hello (R:=R)).
  unfold parse_packet, parse_data, parse_query, parse_hello. stable.
Qed.

(** *** Parsing ends *)

Lemma packet_total {R} `{ReadLaws R, !Sized R, !SizedLaws R} tz hello compress (r : R) :
  size r < 2 ^ 32 -> parse_packet tz hello compress r <> OutOfFuel.
Proof.
  intros Hr. unfold parse_packet. destruct (consumes_uvarint r) as [Ho Hs]; [lia|].
  unfold mbind at 1, rd_bind. destruct (read_uvarint r) as [[packet r1]| | |]; try done.
  specialize (Hs _ _ eq_refl). cbn [mbind outcome_bind].
  destruct (_ =? CLIENT_PING); [done|]. destruct (_ =? CLIENT_CANCEL); [done|].
  destruct (_ || _).
  { unfold parse_data, mbind, rd_bind. destruct (consumes_string0 r1) as [Ho1 Hs1]; [lia|].
    destruct (read_string r1) as [[s r2]| | |]; try done. specialize (Hs1 _ _ eq_refl). cbn.
    destruct (load_total tz compress r2) as [Ho2 _]; [lia|].
    by destruct (load tz compress r2) as [[b r3]| | |]. }
  destruct (_ =? CLIENT_QUERY); [destruct hello as [h|]; [|done]|].
  { unfold parse_query, mbind, rd_bind.
    destruct (QueryRequest.consumes_query h r1) as [Ho1 _]; [lia|].
    by destruct (QueryRequest.read_from h r1) as [[b r3]| | |]. }
  destruct (_ =? CLIENT_HELLO); [|done]. unfold parse_hello, mbind, rd_bind.
  destruct (HelloRequest.consumes_hello r1) as [Ho1 _]; [lia|].
  by destruct (HelloRequest.read_from r1) as [[b r3]| | |].
Qed.

(** *** What a client sends *)

(** The requests of a client; [ss] are the settings of a query, [table] the
    name in front of the data. *)
Inductive request :=
| RPing
| RCancel
| RHello (hello : HelloRequest.t)
| RQuery (query : QueryRequest.t) (ss : list (QueryRequest.setting * Z))
| RData (scalar : bool) (table : bytes) (rows : Z) (block : Block).

(** A client that said [hello] first. *)
Definition request_bytes (hello : HelloRequest.t) (compress : bool) (q : request) : bytes :=
  match q with
  | RPing => uvarint_bytes CLIENT_PING
  | RCancel => uvarint_bytes CLIENT_CANCEL
  | RHello h => uvarint_bytes CLIENT_HELLO ++ HelloRequest.encode h
  | RQuery q ss => uvarint_bytes CLIENT_QUERY ++ QueryRequest.encode hello q ss
  | RData scalar table n b =>
    uvarint_bytes (if scalar then CLIENT_SCALAR else CLIENT_DATA)
    ++ string_bytes table ++ wire_bytes compress n b
  end.

Definition request_ok (tz : Tz) (compress : bool) (q : request) : Prop :=
  match q with
  | RPing | RCancel => True
  | RHello h => HelloRequest.ok h = true
  | RQuery q ss =>
    QueryRequest.ok q = true /\ Forall (fun sv => in_u 64 sv.2 = true) ss /\
    Z.of_nat (length ss) < 2 ^ 64
  | RData _ table n b => str_ok table = true /\ block_ok tz n b /\ sendable compress n b
  end.

(** The packet that the server should see. *)
Definition receives (hello : HelloRequest.t) (q : request) (p : Packet) : Prop :=
  match q, p with
  | RPing, Ping | RCancel, Cancel => True
  | RHello h, Hello h' => h' = h
  | RQuery q _, Query q' => q' = QueryRequest.received hello q
  | RData _ _ _ b, Data b' => same_block b b'
  | _, _ => False
  end.

Lemma parses_number {R} `{ReadLaws R} tz hello compress n bs p :
  in_u 64 n = true ->
  parses (R:=R) (if n =? CLIENT_PING then mret Ping
    else if n =? CLIENT_CANCEL then mret Cancel
    else if (n =? CLIENT_DATA) || (n =? CLIENT_SCALAR) then parse_data tz compress
    else if n =? CLIENT_QUERY then parse_query hello
    else if n =? CLIENT_HELLO then parse_hello
    else lift (Err (Error.Driver (DriverError.UnknownPacket n)))) bs p ->
  parses (R:=R) (parse_packet tz hello compress) (uvarint_bytes n ++ bs) p.
Proof. intros Hn Hp. eapply parses_bind; [done|by apply parses_uvarint|exact Hp]. Qed.

Lemma parses_packet `{!Lz4Laws} {R} `{ReadLaws R} tz h hello compress q :
  request_ok tz compress q -> match q with RQuery _ _ => hello = Some h | _ => True end ->
  exists p, parses (R:=R) (parse_packet tz hello compress) (request_bytes h compress q) p /\
    receives h q p.
Proof.
  intros Hq Hh. destruct q as [| |h'|q ss|scalar table n b]; cbn [request_ok request_bytes] in *.
  - exists Ping. split; [|done]. rewrite <- (app_nil_r (uvarint_bytes _)).
    apply parses_number; [done|apply parses_ret].
  - exists Cancel. split; [|done]. rewrite <- (app_nil_r (uvarint_bytes _)).
    apply parses_number; [done|apply parses_ret].
  - exists (Hello h'). split; [|done]. apply parses_number; [done|].
    eapply parses_bind; [symmetry; apply app_nil_r| |apply parses_ret].
    by apply HelloRequest.parses_hello.
  - subst hello. exists (Query (QueryRequest.received h q)). split; [|done].
    destruct Hq as (Hok & Hss & Hl). apply parses_number; [done|].
    eapply parses_bind; [symmetry; apply app_nil_r| |apply parses_ret].
    by apply QueryRequest.parses_query.
  - destruct Hq as (Ht & Hb & Hs). destruct (parses_load (R:=R) tz n b compress Hb Hs) as (b' & Hp & Heq).
    exists (Data b'). split; [|done]. apply parses_number; [by destruct scalar|].
    assert (parses (R:=R) (parse_data tz compress) (string_bytes table ++ wire_bytes compress n b)
      (Data b')) by (eapply parses_bind; [done|by apply str_ok_parses|];
        eapply parses_bind; [symmetry; apply app_nil_r|exact Hp|apply parses_ret]).
    by destruct scalar.
Qed.
End Parser.

(** ** The query state *)

(** A sender of blocks and a [Notify] of the crate [tokio].  [send_poll]: none
    when the channel has no room yet, an error when its receiver is gone.
    [notified_poll]: none while no notification has arrived.  [new_notify]
    makes a [Notify]; [drop_sender] drops a sender. *)
Class Tokio (Block : Type) := {
  Tasks : Type;
  Sender : Type;
  Notify : Type;
  new_notify : Tasks -> Notify * Tasks;
  send_poll : Sender -> Block -> Tasks -> option (Tasks + unit);
  drop_sender : Sender -> Tasks -> Tasks;
  notified_poll : Notify -> Tasks -> option Tasks
}.

Section Connection.
Context {P : Profile} `{ChronoTz, Combine, Lz4} `{!Tokio Block}.

Record QueryState := mkState {
  query_id : bytes;
  stage : Stage;
  compression : Z;
  query : bytes;
  is_cancelled : bool;
  is_connection_closed : bool;
  is_empty_ : bool;
  sent_all_data : Notify;
  out : option Sender
}.

(** [QueryState::reset]; the sender that it overwrites is dropped. *)
Definition reset (self : QueryState) (tasks : Tasks) : QueryState * Tasks :=
  (mkState (query_id self) Stage_Default (compression self) (query self) false false false
     (sent_all_data self) None,
   match out self with Some sender => drop_sender sender tasks | None => tasks end).

Record CHContext := mkContext {
  state : QueryState;
  client_revision : Z;
  hello : option HelloRequest.t
}.

(** [QueryState::default()] and [CHContext::new]. *)
Definition state_default (tasks : Tasks) : QueryState * Tasks :=
  let '(notify, tasks) := new_notify tasks in
  (mkState [] Stage_Default 0 [] false false false notify None, tasks).

Definition context_new (state : QueryState) : CHContext := mkContext state 0 None.

(** ** The connection *)

(** The socket.  [incoming] are the results of the next calls of [read_buf]:
    the bytes received, none at the end of the stream; [outgoing] is what was
    flushed; [faults] are the results of the next writes, which succeed when
    there are none. *)
Record Stream := mkStream {
  incoming : list (bytes + io_error);
  outgoing : bytes;
  faults : list (option io_error)
}.

Record Connection := mkConnection {
  buffer : bytes;
  stream : Stream;
  tz : Tz;
  with_stack_trace : bool;
  compress : bool
}.

Definition connection_new (stream : Stream) (timezone : bytes) : Result Connection :=
  match tz_parse timezone with
  | inr tz => Ok (mkConnection [] stream tz false true)
  | inl e => Err (from_string e)
  end.

Definition set_buffer (self : Connection) (b : bytes) (c : bool) : Connection :=
  mkConnection b (stream self) (tz self) (with_stack_trace self) c.

Definition set_stream (self : Connection) (s : Stream) : Connection :=
  mkConnection (buffer self) s (tz self) (with_stack_trace self) (compress self).

(** [Connection::parse_packet]: no packet when the buffer holds too little. *)
Definition conn_parse_packet (self : Connection) (ctx : CHContext)
  : Result (option Packet * Connection) :=
  match parse_packet (tz self) (hello ctx) (compress self) (buffer self) with
  | Ok (packet, rest) =>
    let compress :=
      match packet with
      | Query query => 0 <? QueryRequest.compression query
      | _ => compress self
      end in
    Ok (Some packet, set_buffer self rest compress)
  | Err err => if is_would_block err then Ok (None, self) else Err err
  | Panic => Panic
  | OutOfFuel => OutOfFuel
  end.

(** A future that was polled. *)
Inductive poll (A : Type) := Ready (a : A) | Pending.
#[global] Arguments Ready {A}.
#[global] Arguments Pending {A}.

(** [read_packet], by the reads that it does; it is pending when the buffer
    holds no packet and nothing more has arrived. *)
Fixpoint read_packet (self : Connection) (ctx : CHContext) (reads : list (bytes + io_error))
  : Connection * list (bytes + io_error) * poll (Result (option Packet)) :=
  match conn_parse_packet self ctx with
  | Ok (Some packet, self) => (self, reads, Ready (Ok (Some packet)))
  | Err e => (self, reads, Ready (Err e))
  | Panic => (self, reads, Ready Panic)
  | OutOfFuel => (self, reads, Ready OutOfFuel)
  | Ok (None, self) =>
    match reads with
    | [] => (self, [], Pending)
    | inr e :: reads => (self, reads, Ready (Err (from_io e)))
    | inl [] :: reads =>
      (self, reads,
       Ready (if bool_decide (buffer self = []) then Ok None
              else Err (from_string (lit "connection reset by peer"))))
    | inl bs :: reads => read_packet (set_buffer self (buffer self ++ bs) (compress self)) ctx reads
    end
  end.

(** [stream.write_all] and [stream.flush].  How much of a failing write
    arrives is left open: the connection ends. *)
Definition write_bytes (self : Connection) (bs : bytes) : Result unit * Connection :=
  let s := stream self in
  match faults s with
  | Some e :: fs => (Err (from_io e), set_stream self (mkStream (incoming s) (outgoing s) fs))
  | None :: fs => (Ok tt, set_stream self (mkStream (incoming s) (outgoing s ++ bs) fs))
  | [] => (Ok tt, set_stream self (mkStream (incoming s) (outgoing s ++ bs) []))
  end.

(** Encoding a message first; encoding does not touch the connection. *)
Definition write_message (self : Connection) (m : Result Encoder) : Result unit * Connection :=
  match m with
  | Ok encoder => write_bytes self (get_buffer encoder)
  | Err e => (Err e, self)
  | Panic => (Panic, self)
  | OutOfFuel => (OutOfFuel, self)
  end.

Definition write_block (self : Connection) (block : Block) : Result unit * Connection :=
  write_message self (send_server_data block new (compress self)).

Definition write_progress (self : Connection) (progress : Progress.t) (client_revision : Z)
  : Result unit * Connection :=
  write_message self (Progress.write progress new client_revision).

Definition write_end_of_stream (self : Connection) : Result unit * Connection :=
  write_message self (uvarint new SERVER_END_OF_STREAM).

Definition write_error (self : Connection) (err : Error) : Result unit * Connection :=
  write_message self (ExceptionResponse.write new err (with_stack_trace self)).

(** ** A packet does not depend on how its bytes arrive *)

(** What the parse [o] of all the bytes, which are in the buffer of [all], says
    about the outcome of [read_packet]. *)
Definition agrees (o : Result (option Packet * Connection)) (all : Connection)
  (r : Connection * list (bytes + io_error) * poll (Result (option Packet))) : Prop :=
  match o with
  | Ok (Some packet, self') =>
    exists chunks' rest,
      r = (set_buffer self' rest (compress self'), inl <$> chunks', Ready (Ok (Some packet))) /\
      rest ++ concat chunks' = buffer self'
  | Ok (None, _) => r = (all, [], Pending)
  | Err e => r.2 = Ready (Err e)
  | Panic => r.2 = Ready Panic
  | OutOfFuel => False
  end.

(** The connection once all of [chunks] has arrived. *)
Definition filled (self : Connection) (chunks : list bytes) : Connection :=
  set_buffer self (buffer self ++ concat chunks) (compress self).

Lemma set_buffer_same self : set_buffer self (buffer self) (compress self) = self.
Proof. by destruct self. Qed.

Lemma filled_nil self : filled self [] = self.
Proof. unfold filled. cbn. by rewrite app_nil_r, set_buffer_same. Qed.

Lemma filled_cons self c chunks : filled self (c :: chunks) = filled (filled self [c]) chunks.
Proof. unfold filled. cbn. by rewrite app_nil_r, <- app_assoc. Qed.

Lemma filled_concat self c chunks : filled self [c ++ concat chunks] = filled self (c :: chunks).
Proof. unfold filled. cbn. by rewrite app_nil_r. Qed.

Lemma set_buffer_filled self chunks b c : set_buffer (filled self chunks) b c = set_buffer self b c.
Proof. reflexivity. Qed.

Lemma buffer_filled self chunks : buffer (filled self chunks) = buffer self ++ concat chunks.
Proof. reflexivity. Qed.

Lemma compress_filled self chunks : compress (filled self chunks) = compress self.
Proof. reflexivity. Qed.

(** A connection whose buffer has grown by [x]. *)
Lemma conn_parse_grow self ctx x :
  Z.of_nat (length (buffer self)) < 2 ^ 32 ->
  match conn_parse_packet self ctx with
  | Ok (Some p, self') => conn_parse_packet (filled self [x]) ctx = Ok (Some p, filled self' [x])
  | Ok (None, self') => self' = self
  | Err e => conn_parse_packet (filled self [x]) ctx = Err e
  | Panic => conn_parse_packet (filled self [x]) ctx = Panic
  | OutOfFuel => False
  end.
Proof.
  intros Hl. unfold conn_parse_packet; cbn [tz filled set_buffer compress buffer].
  rewrite concat_cons, concat_nil, app_nil_r.
  pose proof (stable_packet (tz self) (hello ctx) (compress self) (buffer self) x) as Hs.
  pose proof (packet_total (tz self) (hello ctx) (compress self) (buffer self) Hl) as Ho.
  change (grow (buffer self) x) with (buffer self ++ x) in Hs.
  destruct (parse_packet _ _ _ (buffer self)) as [[p rest]|e| |]; cbn [stable_out] in Hs; try done.
  - rewrite Hs. unfold filled. cbn. by rewrite app_nil_r.
  - destruct (is_would_block e) eqn:Hw; [done|]. destruct Hs as [?| ->]; [congruence|]. by rewrite Hw.
  - by rewrite Hs.
Qed.

(** One round of the loop. *)
Lemma read_packet_nil self ctx :
  read_packet self ctx [] =
  match conn_parse_packet self ctx with
  | Ok (Some packet, self) => (self, [], Ready (Ok (Some packet)))
  | Err e => (self, [], Ready (Err e))
  | Panic => (self, [], Ready Panic)
  | OutOfFuel => (self, [], Ready OutOfFuel)
  | Ok (None, self) => (self, [], Pending)
  end.
Proof. reflexivity. Qed.

Lemma read_packet_cons self ctx c reads :
  c <> [] ->
  read_packet self ctx (inl c :: reads) =
  match conn_parse_packet self ctx with
  | Ok (Some packet, self) => (self, inl c :: reads, Ready (Ok (Some packet)))
  | Err e => (self, inl c :: reads, Ready (Err e))
  | Panic => (self, inl c :: reads, Ready Panic)
  | OutOfFuel => (self, inl c :: reads, Ready OutOfFuel)
  | Ok (None, self) => read_packet (filled self [c]) ctx reads
  end.
Proof. intros Hc. unfold filled. cbn [concat]. rewrite app_nil_r. by destruct c. Qed.

Lemma agrees_nil self ctx :
  Z.of_nat (length (buffer self)) < 2 ^ 32 ->
  agrees (conn_parse_packet self ctx) self (read_packet self ctx []).
Proof.
  intros Hl. rewrite read_packet_nil. pose proof (conn_parse_grow self ctx [] Hl) as Hg.
  destruct (conn_parse_packet self ctx) as [[[p|] self']| | |]; try done; cbn [agrees].
  - exists [], (buffer self'). by rewrite set_buffer_same, app_nil_r.
  - by subst.
Qed.

Lemma agrees_cons self ctx c chunks :
  c <> [] -> Z.of_nat (length (buffer self)) < 2 ^ 32 ->
  agrees (conn_parse_packet (filled (filled self [c]) chunks) ctx) (filled (filled self [c]) chunks)
    (read_packet (filled self [c]) ctx (inl <$> chunks)) ->
  agrees (conn_parse_packet (filled self (c :: chunks)) ctx) (filled self (c :: chunks))
    (read_packet self ctx (inl <$> c :: chunks)).
Proof.
  intros Hne Hl IH. rewrite filled_cons, fmap_cons, read_packet_cons by done.
  pose proof (conn_parse_grow self ctx (c ++ concat chunks) Hl) as Hg.
  rewrite (filled_concat self), (filled_cons self) in Hg.
  destruct (conn_parse_packet self ctx) as [[[p|] self']|e| |]; [..|done].
  - rewrite Hg. exists (c :: chunks), (buffer self').
    by rewrite compress_filled, set_buffer_filled, set_buffer_same, filled_concat, buffer_filled.
  - by rewrite Hg.
  - by rewrite Hg.
  - by rewrite Hg.
Qed.

Lemma read_packet_agrees self ctx chunks :
  Forall (fun c => c <> []) chunks ->
  Z.of_nat (length (buffer self ++ concat chunks)) < 2 ^ 32 ->
  agrees (conn_parse_packet (filled self chunks) ctx) (filled self chunks)
    (read_packet self ctx (inl <$> chunks)).
Proof.
  intros Hc. revert self. induction Hc as [|c chunks Hne _ IH]; intros self Hl.
  - rewrite filled_nil, fmap_nil. apply agrees_nil. rewrite length_app in Hl. lia.
  - rewrite concat_cons in Hl. apply agrees_cons; [done|rewrite length_app in Hl; lia|].
    apply IH. by rewrite buffer_filled, concat_cons, concat_nil, app_nil_r, <- app_assoc.
Qed.
End Connection.
