(* ===== verification/Server.v ===== *)
(** * The server ([cmd.rs], [lib.rs])

    [ClickHouseServer::run] reads packets and applies them until the connection
    ends.  It waits at three points: for bytes, for room in the channel of an
    insert, and for the notification that the insert is finished.  [run_step] is
    the server's progress from one such point to the next; [step] interleaves it
    with the arrival of bytes and with the other tasks. *)

From stdpp Require Import relations.
From S2P Require Import Prelude RustStd Errors Scalars Encoder ReadEx Stable Finite.
From S2P Require Import Protocol SqlType TypeNames DecimalNum Values StringPool Columns.
From S2P Require Import ColumnLaws Compressed Block BlockLaws Chunks Connection.
Local Open Scope Z_scope.

Section Server.
Context {P : Profile} `{ChronoTz, Combine, Lz4} `{!Tokio Block}.

(** ** The session *)

(** [trait ClickHouseSession].  [execute_query] is the code of the server's
    user; it may change the context and the connection, write messages and
    start tasks. *)
Class ClickHouseSession := {
  execute_query : CHContext -> Connection -> Tasks -> Result unit * CHContext * Connection * Tasks;
  session_with_stack_trace : bool;
  dbms_name : bytes;
  dbms_version_major : Z;
  dbms_version_minor : Z;
  dbms_tcp_protocol_version : Z;
  timezone : bytes;
  server_display_name : bytes;
  dbms_version_patch : Z;
  get_progress : Progress.t
}.

(** The trait's default methods. *)
Definition session_defaults
  (execute_query : CHContext -> Connection -> Tasks -> Result unit * CHContext * Connection * Tasks)
  : ClickHouseSession := {|
  execute_query := execute_query;
  session_with_stack_trace := false;
  dbms_name := lit "clickhouse-server";
  dbms_version_major := 19;
  dbms_version_minor := 17;
  dbms_tcp_protocol_version := 54428;
  timezone := lit "UTC";
  server_display_name := lit "clickhouse-server";
  dbms_version_patch := 1;
  get_progress := Progress.mk 0 0 0
|}.

Context `{!ClickHouseSession}.

(** ** The state *)

(** Where the server waits. *)
Inductive point :=
| Reading
| Sending (block : Block)
| Draining
| Finished (r : Result unit).

Record Server := mkServer {
  pc : point;
  ctx : CHContext;
  connection : Connection;
  tasks : Tasks
}.

Definition set_stage (c : CHContext) (s : Stage) : CHContext :=
  let q := state c in
  mkContext
    (mkState (query_id q) s (compression q) (query q) (is_cancelled q) (is_connection_closed q)
       (is_empty_ q) (sent_all_data q) (out q))
    (client_revision c) (hello c).

Definition set_query (c : CHContext) (text : bytes) (compression : Z) : CHContext :=
  let q := state c in
  mkContext
    (mkState (query_id q) (stage q) compression text (is_cancelled q) (is_connection_closed q)
       (is_empty_ q) (sent_all_data q) (out q))
    (client_revision c) (hello c).

Definition reset_context (c : CHContext) (t : Tasks) : CHContext * Tasks :=
  let '(q, t) := reset (state c) t in (mkContext q (client_revision c) (hello c), t).

(** After an [await?]: on with the loop, or out of [run]. *)
Definition goes_on (r : Result unit) : point :=
  match r with Ok _ => Reading | r => Finished r end.

(** ** [Cmd::apply] *)

(** The end of [apply]: what was encoded is written. *)
Definition flush (encoder : Result Encoder) (c : CHContext) (conn : Connection) (t : Tasks)
  : Server :=
  match encoder with
  | Ok encoder =>
    if bool_decide (get_buffer encoder = []) then mkServer Reading c conn t
    else let '(r, conn) := write_bytes conn (get_buffer encoder) in mkServer (goes_on r) c conn t
  | Err e => mkServer (Finished (Err e)) c conn t
  | Panic => mkServer (Finished Panic) c conn t
  | OutOfFuel => mkServer (Finished OutOfFuel) c conn t
  end.

Definition hello_response : HelloResponse.t :=
  HelloResponse.mk dbms_name dbms_version_major dbms_version_minor dbms_tcp_protocol_version
    timezone server_display_name dbms_version_patch.

Definition apply_hello (h : HelloRequest.t) (c : CHContext) (conn : Connection) (t : Tasks)
  : Server :=
  let revision := Z.min dbms_tcp_protocol_version (HelloRequest.client_revision h) in
  let c := mkContext (state c) revision (Some h) in
  flush (HelloResponse.encode hello_response new revision) c conn t.

Definition apply_query (q : QueryRequest.t) (c : CHContext) (conn : Connection) (t : Tasks)
  : Server :=
  let c := set_query c (QueryRequest.query q) (QueryRequest.compression q) in
  let '(r, c, conn, t) := execute_query c conn t in
  match r with
  | Ok _ =>
    match out (state c) with
    | Some _ => mkServer Reading (set_stage c InsertPrepare) conn t
    | None => let '(r, conn) := write_end_of_stream conn in mkServer (goes_on r) c conn t
    end
  | r => mkServer (Finished r) c conn t
  end.

(** The first [await] of each branch ends here: at [Sending] or [Draining]. *)
Definition apply_data (block : Block) (c : CHContext) (conn : Connection) (t : Tasks) : Server :=
  if block_is_empty block then
    match stage (state c) with
    | InsertPrepare => mkServer Reading (set_stage c InsertStarted) conn t
    | InsertStarted => let '(c, t) := reset_context c t in mkServer Draining c conn t
    | _ => mkServer Reading c conn t
    end
  else
    match out (state c) with
    | Some _ => mkServer (Sending block) c conn t
    | None => mkServer Reading c conn t
    end.

Definition apply (packet : Packet) (c : CHContext) (conn : Connection) (t : Tasks) : Server :=
  match packet with
  | Ping => flush (uvarint new SERVER_PONG) c conn t
  | Cancel => flush (Ok new) c conn t
  | Hello h => apply_hello h c conn t
  | Query q => apply_query q c conn t
  | Data block => apply_data block c conn t
  end.

(** ** [run] *)

Definition set_incoming (conn : Connection) (reads : list (bytes + io_error)) : Connection :=
  set_stream conn (mkStream reads (outgoing (stream conn)) (faults (stream conn))).

(** [read_packet] and what [run] does with its result. *)
Definition read_step (c : CHContext) (conn : Connection) (t : Tasks) : option Server :=
  let arrived := incoming (stream conn) in
  let '(conn, reads, p) := read_packet conn c arrived in
  match p with
  | Pending =>
    if bool_decide (arrived = []) then None
    else Some (mkServer Reading c (set_incoming conn reads) t)
  | Ready (Ok (Some packet)) => Some (apply packet c (set_incoming conn reads) t)
  | Ready (Ok None) =>
    let '(c, t) := reset_context c t in
    Some (mkServer (Finished (Ok tt)) c (set_incoming conn reads) t)
  | Ready (Err e) =>
    let '(c, t) := reset_context c t in
    let '(r, conn) := write_error (set_incoming conn reads) e in
    Some (mkServer (Finished (match r with Ok _ => Err e | r => r end)) c conn t)
  | Ready Panic => Some (mkServer (Finished Panic) c (set_incoming conn reads) t)
  | Ready OutOfFuel => Some (mkServer (Finished OutOfFuel) c (set_incoming conn reads) t)
  end.

(** None: the server waits, or has finished. *)
Definition run_step (s : Server) : option Server :=
  let '(mkServer p c conn t) := s in
  match p with
  | Reading => read_step c conn t
  | Sending block =>
    match out (state c) with
    | Some sender =>
      match send_poll sender block t with
      | Some (inl t) => Some (mkServer Reading c conn t)
      | Some (inr _) => Some (mkServer (Finished Panic) c conn t)
      | None => None
      end
    | None => None
    end
  | Draining =>
    match notified_poll (sent_all_data (state c)) t with
    | Some t =>
      let '(r, conn) := write_end_of_stream conn in
      Some (match r with
            | Ok _ => mkServer Reading (set_stage c Stage_Default) conn t
            | r => mkServer (Finished r) c conn t
            end)
    | None => None
    end
  | Finished _ => None
  end.

(** The start of [run]. *)
Definition run (s : Stream) (t : Tasks) : Result Server :=
  let '(q, t) := state_default t in
  conn ← connection_new s timezone;
  Ok (mkServer Reading (context_new q) conn t).

(** [n] steps of the server. *)
Fixpoint run_steps (n : nat) (s : Server) : option Server :=
  match n with
  | O => Some s
  | S n => match run_step s with Some s => run_steps n s | None => None end
  end.
End Server.
