(* ===== verification/ServerLaws.v ===== *)
(** * The protocol of the server

    The stage of the query state and the channel of an insert change together;
    an insert goes through its phases in order; and the blocks of an insert
    arrive at the channel. *)

From stdpp Require Import relations.
From S2P Require Import Prelude RustStd Errors Scalars Encoder ReadEx Stable Finite.
From S2P Require Import Protocol SqlType TypeNames DecimalNum Values StringPool Columns.
From S2P Require Import ColumnLaws Compressed Block BlockLaws Chunks Connection Server.
Local Open Scope Z_scope.

Section Laws.
Context {P : Profile} `{ChronoTz, Combine, Lz4} `{!Tokio Block} `{!ClickHouseSession}.

(** ** Interleavings *)

(** What the tasks besides the server may do. *)
Context (others : Tasks -> Tasks -> Prop).

Inductive step : Server -> Server -> Prop :=
| step_run s s' : run_step s = Some s' -> step s s'
| step_others p c conn t t' : others t t' -> step (mkServer p c conn t) (mkServer p c conn t')
| step_arrive p c conn t r :
  step (mkServer p c conn t)
    (mkServer p c (set_incoming conn (incoming (stream conn) ++ [r])) t).

Definition reachable (s : Server) : Prop :=
  exists stream t s0, run stream t = Ok s0 /\ rtc step s0 s.

(** What a session owes the server: it leaves the fields of the protocol alone,
    and does not close the channel of an insert. *)
Class SessionLaws : Prop := {
  execute_context c conn t r c' conn' t' :
    execute_query c conn t = (r, c', conn', t') ->
    hello c' = hello c /\ client_revision c' = client_revision c /\
    stage (state c') = stage (state c);
  execute_out c conn t r c' conn' t' :
    execute_query c conn t = (r, c', conn', t') ->
    is_Some (out (state c)) -> is_Some (out (state c'))
}.

(** ** The invariant *)

Definition revision_inv (c : CHContext) : Prop :=
  client_revision c =
  match hello c with
  | Some h => Z.min dbms_tcp_protocol_version (HelloRequest.client_revision h)
  | None => 0
  end.

(** A channel is open exactly while an insert is under way. *)
Definition stage_inv (c : CHContext) : Prop :=
  match stage (state c) with
  | Stage_Default => out (state c) = None
  | InsertPrepare | InsertStarted => is_Some (out (state c))
  | EOS => False
  end.

Definition inv (s : Server) : Prop :=
  match pc s with
  | Finished _ => True
  | Reading => revision_inv (ctx s) /\ stage_inv (ctx s)
  | Sending block =>
    revision_inv (ctx s) /\ stage_inv (ctx s) /\ is_Some (out (state (ctx s))) /\
    block_is_empty block = false
  | Draining =>
    revision_inv (ctx s) /\ stage_inv (ctx s) /\ stage (state (ctx s)) = Stage_Default
  end.

Lemma inv_goes_on r c conn t :
  revision_inv c -> stage_inv c -> inv (mkServer (goes_on r) c conn t).
Proof. by destruct r. Qed.

Lemma flush_inv e c conn t : revision_inv c -> stage_inv c -> inv (flush e c conn t).
Proof.
  intros Hr Hs. destruct e as [e| | |]; try done. cbn. case_bool_decide; [done|].
  destruct (write_bytes _ _) as [r conn']. by apply inv_goes_on.
Qed.

Section Session.
Context `{!SessionLaws}.

Lemma apply_inv packet c conn t :
  revision_inv c -> stage_inv c -> inv (apply packet c conn t).
Proof.
  intros Hr Hs. destruct packet as [| |h|q|block]; cbn [apply]; try (by apply flush_inv).
  - unfold apply_query. destruct (execute_query _ _ _) as [[[r c'] conn'] t'] eqn:He.
    destruct (execute_context _ _ _ _ _ _ _ He) as (Hh & Hc & Hst).
    pose proof (execute_out _ _ _ _ _ _ _ He) as Ho. cbn in Hh, Hc, Hst, Ho.
    assert (revision_inv c') by (unfold revision_inv; by rewrite Hh, Hc).
    destruct r as [u| | |]; try done. destruct (out (state c')) as [x|] eqn:Hout.
    + split; [done|]. unfold stage_inv; cbn. by rewrite Hout.
    + destruct (write_end_of_stream _) as [r' conn'']. apply inv_goes_on; [done|].
      unfold stage_inv in *. rewrite Hst, Hout. destruct (stage (state c)); try done.
      all: by destruct (Ho Hs).
  - unfold apply_data, stage_inv in *. destruct (block_is_empty block) eqn:Hb.
    + destruct (stage (state c)) eqn:Hst; cbn; try done; unfold stage_inv; cbn; by rewrite ?Hst.
    + destruct (out (state c)) as [x|] eqn:Ho; cbn; unfold stage_inv; rewrite ?Ho; naive_solver.
Qed.

Lemma read_step_inv c conn t s' :
  revision_inv c -> stage_inv c -> read_step c conn t = Some s' -> inv s'.
Proof.
  intros Hr Hs. unfold read_step. destruct (read_packet _ _ _) as [[conn' reads] [r|]].
  - destruct r as [[packet|]|e| |]; cbn; try (by intros [= <-]).
    + intros [= <-]. by apply apply_inv.
    + destruct (write_error _ _) as [r conn'']. by intros [= <-].
  - case_bool_decide; [done|]. by intros [= <-].
Qed.

Lemma run_step_inv s s' : inv s -> run_step s = Some s' -> inv s'.
Proof.
  intros Hi. destruct s as [[|b| |r] c conn t]; cbn [run_step] in *; try done.
  - destruct Hi. by eapply read_step_inv.
  - destruct Hi as (Hr & Hs & Ho & Hb). destruct (out (state c)) as [x|]; [|done].
    destruct (send_poll x b t) as [[t'|]|]; try done; by intros [= <-].
  - destruct Hi as (Hr & Hs & Hst). destruct (notified_poll _ _) as [t'|]; [|done].
    destruct (write_end_of_stream conn) as [r conn']. intros [= <-].
    destruct r; try done. split; [done|]. cbn in *. unfold stage_inv in *. cbn. by rewrite Hst in Hs.
Qed.

Lemma step_inv s s' : inv s -> step s s' -> inv s'.
Proof.
  intros Hi Hs. destruct Hs as [s s' Hr|p c conn t t' _|p c conn t r]; [by eapply run_step_inv|..];
    by destruct p.
Qed.

Lemma run_inv stream t s : run stream t = Ok s -> inv s.
Proof.
  unfold run, state_default. destruct (new_notify t) as [n t']. rewrite bind_Ok.
  by intros (conn & _ & [= <-]).
Qed.

Lemma reachable_inv s : reachable s -> inv s.
Proof.
  intros (stream & t & s0 & Hinit%run_inv & Hs). induction Hs as [|s1 s2 s3 H12 _ IH]; [done|].
  apply IH. by eapply step_inv.
Qed.

(** ** The phases of an insert *)

Inductive phase := Idle | Prepared | Started | Drained.

Definition phase_of (s : Server) : phase :=
  match pc s, stage (state (ctx s)) with
  | Draining, _ => Drained
  | _, InsertPrepare => Prepared
  | _, InsertStarted => Started
  | _, _ => Idle
  end.

(** The packet that the next step of the server applies. *)
Definition received (s : Server) : option Packet :=
  match pc s with
  | Reading =>
    match read_packet (connection s) (ctx s) (incoming (stream (connection s))) with
    | (_, _, Ready (Ok packet)) => packet
    | _ => None
    end
  | _ => None
  end.

(** The phase behind a packet: a query opens an insert when it leaves a channel
    [opened], and an empty block takes an insert on to its next phase. *)
Definition next_phase (packet : Packet) (opened : bool) (p : phase) : phase :=
  match packet with
  | Query _ => if opened then Prepared else Idle
  | Data block =>
    if block_is_empty block then match p with Prepared => Started | Started => Drained | p => p end
    else p
  | _ => p
  end.

(** The phase behind a step of the server; the end of the wait for the
    notification ends the insert. *)
Definition phase_after (s : Server) (opened : bool) : phase :=
  match pc s with
  | Draining => Idle
  | _ =>
    match received s with
    | Some packet => next_phase packet opened (phase_of s)
    | None => phase_of s
    end
  end.

Definition finished (s : Server) : bool :=
  match pc s with Finished _ => true | _ => false end.

(** A channel is open. *)
Definition opened (s : Server) : bool := bool_decide (is_Some (out (state (ctx s)))).

Lemma phase_goes_on r c conn t conn' :
  phase_of (mkServer (goes_on r) c conn t) = phase_of (mkServer Reading c conn' t).
Proof. by destruct r. Qed.

Lemma phase_flush e c conn t :
  finished (flush e c conn t) = false ->
  phase_of (flush e c conn t) = phase_of (mkServer Reading c conn t).
Proof.
  destruct e as [e| | |]; try done. cbn [flush]. case_bool_decide; [done|].
  destruct (write_bytes _ _) as [r conn']. intros _. apply phase_goes_on.
Qed.

Lemma phase_apply_query q c conn t :
  inv (apply_query q c conn t) -> finished (apply_query q c conn t) = false ->
  phase_of (apply_query q c conn t) = if opened (apply_query q c conn t) then Prepared else Idle.
Proof.
  unfold apply_query. destruct (execute_query _ _ _) as [[[r c'] conn'] t'].
  destruct r as [u| | |]; try done. destruct (out (state c')) as [x|] eqn:Ho.
  - intros _ _. unfold opened. cbn. by rewrite Ho, bool_decide_true.
  - destruct (write_end_of_stream _) as [r' conn'']. intros Ha Hf.
    rewrite (phase_goes_on _ _ _ _ conn). unfold opened. cbn.
    rewrite Ho, bool_decide_false by by intros [].
    destruct r'; try done. destruct Ha as [_ Hs]. unfold stage_inv in Hs. cbn in Hs.
    unfold phase_of; cbn. destruct (stage (state c')); try done; rewrite Ho in Hs; by destruct Hs.
Qed.

Lemma phase_apply_data block c conn t o :
  phase_of (apply_data block c conn t) =
  next_phase (Data block) o (phase_of (mkServer Reading c conn t)).
Proof.
  unfold apply_data, next_phase. destruct (block_is_empty block); cbn.
  - unfold phase_of; cbn. destruct (stage (state c)) eqn:Hst; cbn; by rewrite ?Hst.
  - by destruct (out (state c)).
Qed.

Lemma phase_apply_hello h c conn t :
  finished (apply_hello h c conn t) = false ->
  phase_of (apply_hello h c conn t) = phase_of (mkServer Reading c conn t).
Proof.
  unfold apply_hello. generalize (HelloResponse.encode hello_response new) as encode.
  intros encode Hf. by rewrite (phase_flush _ _ _ _ Hf).
Qed.

#[local] Opaque apply_hello.

Lemma phase_apply packet c conn t :
  revision_inv c -> stage_inv c -> finished (apply packet c conn t) = false ->
  phase_of (apply packet c conn t) =
  next_phase packet (opened (apply packet c conn t)) (phase_of (mkServer Reading c conn t)).
Proof.
  intros Hr Hi Hf. destruct packet as [| |h|q|block].
  - exact (phase_flush _ _ _ _ Hf).
  - exact (phase_flush _ _ _ _ Hf).
  - exact (phase_apply_hello _ _ _ _ Hf).
  - apply phase_apply_query; [|exact Hf]. exact (apply_inv (Query q) c conn t Hr Hi).
  - apply phase_apply_data.
Qed.

#[local] Transparent apply_hello.

Lemma phase_run s s' :
  inv s -> run_step s = Some s' -> finished s' = false -> phase_of s' = phase_after s (opened s').
Proof.
  intros Hi Hs Hf. destruct s as [[|b| |r] c conn t]; cbn [run_step] in Hs; try done.
  - destruct Hi as [Hr Hst]. cbn in Hr, Hst. unfold phase_after, received. cbn [pc connection ctx].
    revert Hs. unfold read_step. destruct (read_packet _ _ _) as [[conn' reads] [r|]].
    + destruct r as [[packet|]|e| |]; cbn; try (intros [= <-]; done).
      * intros [= <-]. by rewrite phase_apply.
      * destruct (write_error _ _) as [r conn'']. by intros [= <-].
    + case_bool_decide; [done|]. by intros [= <-].
  - destruct (out (state c)); [|done]. destruct (send_poll _ _ _) as [[t'|]|]; try done;
      by injection Hs as <-.
  - destruct Hi as (_ & _ & Hst). cbn in Hst.
    destruct (notified_poll _ _); [|done]. destruct (write_end_of_stream _) as [r conn'].
    injection Hs as <-. by destruct r.
Qed.

(** Nothing but the server moves an insert on. *)
Lemma phase_step s s' : step s s' -> run_step s = Some s' \/ phase_of s' = phase_of s.
Proof. intros [s1 s2 Hr|p c conn t t' _|p c conn t r]; [by left|by right..]. Qed.

Lemma run_steps_reachable n s s' : reachable s -> run_steps n s = Some s' -> reachable s'.
Proof.
  intros (str & t & s0 & Hrun & Hs). revert s Hs. induction n as [|n IH]; intros s Hs; cbn [run_steps].
  { intros [= <-]. by exists str, t, s0. }
  destruct (run_step s) as [mid|] eqn:Hmid; [|done]. apply IH. eapply rtc_r; [exact Hs|]. by apply step_run.
Qed.
End Session.
End Laws.
