(* ===== verification/Liveness.v ===== *)
(** * The server comes to an end

    Every step of the server uses up bytes of the client, a read, or one wait.
    So a server whose client ends the stream finishes, provided that the tasks
    behind an insert make room in its channel and notify the server in the end. *)

From stdpp Require Import relations.
From S2P Require Import Prelude RustStd Errors Scalars Encoder ReadEx Stable Finite.
From S2P Require Import Protocol SqlType TypeNames DecimalNum Values StringPool Columns.
From S2P Require Import ColumnLaws Compressed Block BlockLaws Chunks Connection Server ServerLaws.
Local Open Scope Z_scope.

(** ** A packet is at least one byte *)

Section Packets.
Context {P : Profile} `{ChronoTz, Combine, Lz4} `{!Tokio Block}.

Lemma consumes_packet {R} `{ReadLaws R, !Sized R, !SizedLaws R} tz hello compress (r : R) p r' :
  size r < 2 ^ 32 -> parse_packet tz hello compress r = Ok (p, r') -> size r' + 1 <= size r.
Proof.
  intros Hr. unfold parse_packet. destruct (consumes_uvarint r) as [_ Hs]; [lia|].
  unfold mbind at 1, rd_bind. destruct (read_uvarint r) as [[packet r1]| | |]; try done.
  specialize (Hs _ _ eq_refl). cbn [mbind outcome_bind].
  destruct (_ =? CLIENT_PING); [intros [= <- <-]; lia|].
  destruct (_ =? CLIENT_CANCEL); [intros [= <- <-]; lia|].
  destruct (_ || _).
  { unfold parse_data, mbind, rd_bind. destruct (consumes_string0 r1) as [_ Hs1]; [lia|].
    destruct (read_string r1) as [[s r2]| | |]; try done. specialize (Hs1 _ _ eq_refl). cbn.
    destruct (load_total tz compress r2) as [_ Hs2]; [lia|].
    destruct (load tz compress r2) as [[b r3]| | |]; try done. cbn.
    specialize (Hs2 _ _ eq_refl). intros [= <- <-]. lia. }
  destruct (_ =? CLIENT_QUERY); [destruct hello as [h|]; [|done]|].
  { unfold parse_query, mbind, rd_bind.
    destruct (QueryRequest.consumes_query h r1) as [_ Hs2]; [lia|].
    destruct (QueryRequest.read_from h r1) as [[b r3]| | |]; try done. cbn.
    specialize (Hs2 _ _ eq_refl). intros [= <- <-]. lia. }
  destruct (_ =? CLIENT_HELLO); [|done]. unfold parse_hello, mbind, rd_bind.
  destruct (HelloRequest.consumes_hello r1) as [_ Hs2]; [lia|].
  destruct (HelloRequest.read_from r1) as [[b r3]| | |]; try done. cbn.
  specialize (Hs2 _ _ eq_refl). intros [= <- <-]. lia.
Qed.

(** The bytes of the reads. *)
Definition arriving (reads : list (bytes + io_error)) : Z :=
  foldr (fun r n => match r with inl bs => Z.of_nat (length bs) | inr _ => 0 end + n) 0 reads.

Lemma arriving_nonneg reads : 0 <= arriving reads.
Proof. unfold arriving. induction reads as [|[bs|e] reads IH]; cbn [foldr]; lia. Qed.

Lemma parse_uses self ctx p self' :
  Z.of_nat (length (buffer self)) < 2 ^ 32 -> conn_parse_packet self ctx = Ok (Some p, self') ->
  Z.of_nat (length (buffer self')) + 1 <= Z.of_nat (length (buffer self)).
Proof.
  intros Hl. unfold conn_parse_packet.
  pose proof (consumes_packet (R:=bytes) (tz self) (hello ctx) (compress self) (buffer self)) as Hp.
  destruct (parse_packet _ _ _ _) as [[q r]|e| |]; try done.
  - intros [= <- <-]. cbn [buffer set_buffer]. exact (Hp q r Hl eq_refl).
  - by destruct (is_would_block e).
Qed.

Lemma parse_waits self ctx self' : conn_parse_packet self ctx = Ok (None, self') -> self' = self.
Proof.
  unfold conn_parse_packet. destruct (parse_packet _ _ _ _) as [[q r]|e| |]; try done.
  destruct (is_would_block e); [by intros [= <-]|done].
Qed.

(** What [read_packet] leaves of the bytes and of the reads. *)
Lemma read_packet_uses self ctx reads self' reads' r :
  Z.of_nat (length (buffer self)) + arriving reads < 2 ^ 32 ->
  read_packet self ctx reads = (self', reads', r) ->
  match r with
  | Ready (Ok (Some _)) =>
    Z.of_nat (length (buffer self')) + arriving reads' + 1 <= Z.of_nat (length (buffer self)) + arriving reads /\
    (exists used, reads = used ++ reads' /\ inl [] ∉ used)
  | Pending =>
    reads' = [] /\ Z.of_nat (length (buffer self')) = Z.of_nat (length (buffer self)) + arriving reads /\
    inl [] ∉ reads
  | _ => True
  end.
Proof.
  revert self. induction reads as [|c reads IH]; intros self Hb; cbn [read_packet arriving foldr] in *.
  - pose proof (parse_uses self ctx) as Hu. pose proof (parse_waits self ctx) as Hw.
    destruct (conn_parse_packet self ctx) as [[[p|] s]|e| |]; intros [= <- <- <-]; try done.
    + specialize (Hu p s ltac:(lia) eq_refl). cbn. split; [lia|]. exists []. split; [done|apply not_elem_of_nil].
    + rewrite (Hw s eq_refl). split_and!; [done|lia|apply not_elem_of_nil].
  - fold (arriving reads) in *. pose proof (arriving_nonneg reads).
    pose proof (parse_uses self ctx) as Hu. pose proof (parse_waits self ctx) as Hw.
    destruct (conn_parse_packet self ctx) as [[[p|] s]|e| |]; try (by intros [= <- <- <-]).
    + intros [= <- <- <-]. specialize (Hu p s ltac:(destruct c; lia) eq_refl).
      cbn [arriving foldr]. fold (arriving reads). split; [lia|]. exists []. split; [done|apply not_elem_of_nil].
    + rewrite (Hw s eq_refl). clear Hu Hw. destruct c as [[|b bs]|e].
      * intros [= <- <- <-]. by case_bool_decide.
      * intros Hr. specialize (IH (set_buffer self (buffer self ++ b :: bs) (compress self))).
        cbn [buffer set_buffer] in IH. rewrite length_app in IH. cbn [length] in *.
        specialize (IH ltac:(lia) Hr). destruct r as [[[q|]|e| |]|]; try done.
        -- destruct IH as [Hi (used & -> & Hn)]. split; [lia|]. exists (inl (b :: bs) :: used).
           split; [done|]. intros [?|?]%elem_of_cons; [done|by apply Hn].
        -- destruct IH as (-> & Hi & Hn). split_and!; [done|lia|].
           intros [?|?]%elem_of_cons; [done|by apply Hn].
      * by intros [= <- <- <-].
Qed.
End Packets.

(** ** The measure *)

Section Live.
Context {P : Profile} `{ChronoTz, Combine, Lz4} `{!Tokio Block} `{!ClickHouseSession}.

(** A session that only writes to the connection. *)
Class SessionWrites : Prop := {
  execute_reads c conn t r c' conn' t' :
    execute_query c conn t = (r, c', conn', t') ->
    buffer conn' = buffer conn /\ incoming (stream conn') = incoming (stream conn)
}.

(** The other tasks can make room in a channel, and can notify the server once
    it has dropped its sender. *)
Class TokioLive (others : Tasks -> Tasks -> Prop) : Prop := {
  send_live tx b t : exists t', rtc others t t' /\ is_Some (send_poll tx b t');
  notified_live n tx t t' :
    rtc others (drop_sender tx t) t' -> exists t'', rtc others t' t'' /\ is_Some (notified_poll n t'')
}.

Definition pending_bytes (s : Server) : Z :=
  Z.of_nat (length (buffer (connection s))) + arriving (incoming (stream (connection s))).

(** The steps that the server has left, at most. *)
Definition measure (s : Server) : Z :=
  2 * pending_bytes s + Z.of_nat (length (incoming (stream (connection s)))) +
  match pc s with Sending _ | Draining => 1 | _ => 0 end.

(** The last read is the end of the stream. *)
Definition ended (s : Server) : Prop := last (incoming (stream (connection s))) = Some (inl []).

Lemma measure_nonneg s : 0 <= measure s.
Proof.
  unfold measure, pending_bytes. pose proof (arriving_nonneg (incoming (stream (connection s)))).
  destruct (pc s); lia.
Qed.

(** Both sides have the same to read. *)
Definition same_input (conn conn' : Connection) : Prop :=
  buffer conn' = buffer conn /\ incoming (stream conn') = incoming (stream conn).

Lemma write_bytes_input conn bs : same_input conn (write_bytes conn bs).2.
Proof. unfold write_bytes. by destruct (faults (stream conn)) as [|[e|] fs]. Qed.

Lemma write_message_input conn m : same_input conn (write_message conn m).2.
Proof. destruct m; cbn [write_message]; [apply write_bytes_input|done..]. Qed.

Lemma flush_input e c conn t : same_input conn (connection (flush e c conn t)).
Proof.
  destruct e as [e| | |]; try done. cbn [flush]. case_bool_decide; [done|].
  pose proof (write_bytes_input conn (get_buffer e)) as Hw.
  by destruct (write_bytes conn (get_buffer e)) as [r conn'].
Qed.

Lemma apply_input `{!SessionWrites} packet c conn t : same_input conn (connection (apply packet c conn t)).
Proof.
  destruct packet as [| |h|q|block]; cbn [apply]; try apply flush_input.
  - unfold apply_query. destruct (execute_query _ _ _) as [[[r c'] conn'] t'] eqn:He.
    apply execute_reads in He. destruct r as [u| | |]; try done.
    destruct (out (state c')); [done|]. pose proof (write_message_input conn' (uvarint new SERVER_END_OF_STREAM)) as Hw.
    unfold write_end_of_stream. destruct (write_message conn' _) as [r' conn''].
    destruct He as [Hb Hi], Hw as [Hb' Hi']. cbn in Hb', Hi'.
    split; cbn; congruence.
  - unfold apply_data. destruct (block_is_empty block).
    + by destruct (stage (state c)).
    + by destruct (out (state c)).
Qed.

Lemma last_behind {A} (used reads : list A) x :
  last (used ++ reads) = Some x -> x ∉ used -> last reads = Some x.
Proof.
  intros Hl Hn. destruct reads as [|y reads].
  - rewrite app_nil_r in Hl. destruct Hn. by apply last_Some_elem_of.
  - rewrite last_app_cons in Hl. done.
Qed.

Definition done_or_closer (s s' : Server) : Prop :=
  finished s' = true \/
  (measure s' < measure s /\ pending_bytes s' <= pending_bytes s /\ ended s').

Lemma read_step_closer `{!SessionWrites} c conn t :
  let s := mkServer Reading c conn t in
  ended s -> pending_bytes s < 2 ^ 32 ->
  exists s', read_step c conn t = Some s' /\ done_or_closer s s'.
Proof.
  cbv zeta. unfold ended, pending_bytes. cbn [connection]. intros He Hb.
  unfold read_step. destruct (read_packet conn c (incoming (stream conn))) as [[conn' reads] r] eqn:Hr.
  pose proof (read_packet_uses _ _ _ _ _ _ Hb Hr) as Hu.
  destruct r as [[[packet|]|e| |]|]; try (eexists; split; [reflexivity|by left]).
  - eexists. split; [reflexivity|]. right. destruct Hu as [Hu (used & Hused & Hn)].
    pose proof (apply_input packet c (set_incoming conn' reads) t) as [Hbuf Hinc].
    unfold done_or_closer, measure, pending_bytes, ended. rewrite Hbuf, Hinc.
    cbn [buffer stream incoming set_incoming set_stream connection pc].
    rewrite Hused in *. rewrite length_app. split_and!; [|lia|by eapply last_behind].
    destruct (pc (apply _ _ _ _)); lia.
  - destruct (reset_context c t). destruct (write_error _ _) as [r conn'']. eexists.
    split; [reflexivity|]. by left.
  - destruct Hu as (_ & _ & Hn). destruct Hn. by apply last_Some_elem_of.
Qed.

(** ** The waits end *)

Section Others.
Context (others : Tasks -> Tasks -> Prop).

(** While the server waits for the notification, its sender is gone. *)
Definition drained (s : Server) : Prop :=
  match pc s with
  | Draining => exists tx t, rtc others (drop_sender tx t) (tasks s)
  | _ => True
  end.

Lemma flush_reading e c conn t :
  match pc (flush e c conn t) with Sending _ | Draining => False | _ => True end.
Proof.
  destruct e as [e| | |]; try done. cbn [flush]. case_bool_decide; [done|].
  destruct (write_bytes _ _) as [r conn']. by destruct r.
Qed.

Lemma apply_drained packet c conn t : stage_inv c -> drained (apply packet c conn t).
Proof.
  intros Hs. unfold drained. destruct packet as [| |h|q|block]; cbn [apply].
  - pose proof (flush_reading (uvarint new SERVER_PONG) c conn t) as Hf. by destruct (pc _).
  - pose proof (flush_reading (Ok new) c conn t) as Hf. by destruct (pc _).
  - unfold apply_hello. cbv zeta.
    match goal with |- context [flush ?e ?c ?conn ?t] => pose proof (flush_reading e c conn t) as Hf end.
    by destruct (pc _).
  - unfold apply_query. destruct (execute_query _ _ _) as [[[r c'] conn'] t'].
    destruct r as [u| | |]; try done. destruct (out (state c')); [done|].
    destruct (write_end_of_stream _) as [r' conn'']. by destruct r'.
  - unfold apply_data, stage_inv in *. destruct (block_is_empty block).
    + destruct (stage (state c)) eqn:Hst; try done. destruct Hs as [tx Htx].
      unfold reset_context, reset. rewrite Htx. cbn. exists tx, t. apply rtc_refl.
    + by destruct (out (state c)).
Qed.

Lemma run_step_drained s s' : inv s -> run_step s = Some s' -> drained s'.
Proof.
  intros Hi. destruct s as [[|b| |r] c conn t]; cbn [run_step]; try done.
  - unfold read_step. destruct (read_packet _ _ _) as [[conn' reads] [r|]].
    + destruct r as [[packet|]|e| |]; cbn; try (by intros [= <-]).
      * intros [= <-]. apply apply_drained. by destruct Hi.
      * destruct (write_error _ _) as [r conn'']. by intros [= <-].
    + case_bool_decide; [done|]. by intros [= <-].
  - destruct (out (state c)); [|done]. destruct (send_poll _ _ _) as [[t'|]|]; try done;
      by intros [= <-].
  - destruct (notified_poll _ _); [|done]. destruct (write_end_of_stream _) as [r conn'].
    intros [= <-]. by destruct r.
Qed.

Lemma step_drained s s' : inv s -> drained s -> step others s s' -> drained s'.
Proof.
  intros Hi Hd Hs. destruct Hs as [s s' Hr|p c conn t t' Ht|p c conn t r];
    [by apply (run_step_drained s)| |done].
  destruct p; try done. destruct Hd as (tx & t0 & Hr). exists tx, t0. by eapply rtc_r.
Qed.

Lemma reachable_drained `{!SessionLaws} s : reachable others s -> drained s.
Proof.
  intros (stream & t & s0 & Hinit & Hs).
  assert (inv s0) as Hi by by eapply run_inv.
  assert (drained s0) as Hd.
  { revert Hinit. unfold run, state_default. destruct (new_notify t) as [n t'].
    rewrite bind_Ok. by intros (conn & _ & [= <-]). }
  clear Hinit. induction Hs as [|s1 s2 s3 H12 _ IH]; [done|].
  apply IH; [by eapply step_inv|by eapply step_drained].
Qed.

Lemma others_steps p c conn t t' :
  rtc others t t' -> rtc (step others) (mkServer p c conn t) (mkServer p c conn t').
Proof. apply (rtc_congruence (fun t => mkServer p c conn t)). intros. by constructor. Qed.

(** The server comes closer to its end, after a wait at most. *)
Lemma steps_closer `{!SessionWrites, !TokioLive others} s :
  inv s -> drained s -> ended s -> pending_bytes s < 2 ^ 32 -> finished s = false ->
  exists s', rtc (step others) s s' /\ done_or_closer s s'.
Proof.
  intros Hi Hd He Hb Hf. destruct s as [[|b| |r] c conn t]; try done.
  - destruct (read_step_closer c conn t He Hb) as (s' & Hs & Hc). exists s'.
    split; [|done]. apply rtc_once. by constructor.
  - destruct Hi as (_ & _ & Ho & _). cbn in Ho. destruct (out (state c)) as [tx|] eqn:Hout; [|by destruct Ho].
    destruct (send_live tx b t) as (t1 & Ht1 & [[t2|[]] Hsend]).
    + exists (mkServer Reading c conn t2). split.
      * etrans; [by apply others_steps|]. apply rtc_once. constructor. cbn. by rewrite Hout, Hsend.
      * right. unfold measure, pending_bytes, ended in *. cbn in *. split_and!; (done || lia).
    + exists (mkServer (Finished Panic) c conn t1). split; [|by left].
      etrans; [by apply others_steps|]. apply rtc_once. constructor. cbn. by rewrite Hout, Hsend.
  - destruct Hd as (tx & t0 & Ht0). cbn in Ht0.
    destruct (notified_live (sent_all_data (state c)) tx t0 t Ht0) as (t1 & Ht1 & [t2 Hnot]).
    pose proof (write_message_input conn (uvarint new SERVER_END_OF_STREAM)) as [Hbuf Hinc].
    destruct (write_end_of_stream conn) as [r conn'] eqn:Hw. unfold write_end_of_stream in Hw.
    rewrite Hw in Hbuf, Hinc. cbn [snd] in *.
    eexists. split.
    { etrans; [by apply others_steps|]. apply rtc_once. constructor. cbn [run_step]. rewrite Hnot.
      unfold write_end_of_stream. rewrite Hw. reflexivity. }
    destruct r; try by left. right.
    unfold measure, pending_bytes, ended in *. cbn [connection pc] in *. rewrite Hbuf, Hinc.
    split_and!; (done || lia).
Qed.

Lemma steps_invs `{!SessionLaws} s s' :
  rtc (step others) s s' -> inv s /\ drained s -> inv s' /\ drained s'.
Proof.
  induction 1 as [|s1 s2 s3 H12 _ IH]; [done|]. intros [Hi Hd]. apply IH.
  split; [by eapply step_inv|by eapply step_drained].
Qed.

(** A server whose stream ends can always finish. *)
Lemma server_ends `{!SessionLaws, !SessionWrites, !TokioLive others} s :
  inv s -> drained s -> ended s -> pending_bytes s < 2 ^ 32 ->
  exists s', rtc (step others) s s' /\ finished s' = true.
Proof.
  remember (Z.to_nat (measure s)) as m eqn:Hm. revert s Hm.
  induction (lt_wf m) as [m _ IH]. intros s -> Hi Hd He Hb.
  destruct (finished s) eqn:Hf; [by exists s|]. pose proof (measure_nonneg s).
  destruct (steps_closer s Hi Hd He Hb Hf) as (s1 & Hs1 & [Hfin|(Hlt & Hle & He1)]); [by exists s1|].
  pose proof (measure_nonneg s1). destruct (steps_invs s s1 Hs1) as [Hi1 Hd1]; [done|].
  destruct (IH (Z.to_nat (measure s1)) ltac:(lia) s1) as (s' & Hr & Hfin'); [done..|lia|].
  exists s'. split; [by etrans|done].
Qed.
End Others.
End Live.
