(* ===== verification/Insert.v ===== *)
(** * An insert, from its packets to the channel

    A client that inserts sends an empty block, the data and an empty block.  The
    server hands every block of the data to the channel, in order, closes the
    channel and answers with the end of the stream once the session has
    notified it. *)

From S2P Require Import Prelude RustStd Errors Scalars Encoder ReadEx Stable Finite.
From S2P Require Import Protocol SqlType TypeNames DecimalNum Values StringPool Columns.
From S2P Require Import ColumnLaws Compressed Block BlockLaws Chunks Connection Server.
Local Open Scope Z_scope.

Section Insert.
Context {P : Profile} `{ChronoTz, Combine, Lz4, !Lz4Laws} `{!Tokio Block} `{!ClickHouseSession}.

(** ** One request *)

Definition with_buffer (conn : Connection) (b : bytes) : Connection :=
  set_buffer conn b (compress conn).

Lemma read_step_packet c conn t rest packet bs :
  parses (R:=bytes) (parse_packet (tz conn) (hello c) (compress conn)) bs packet ->
  (forall q, packet <> Query q) ->
  read_step c (with_buffer conn (bs ++ rest)) t =
  Some (apply packet c (with_buffer conn rest) t).
Proof.
  intros Hp Hq. apply (parses_cursor _ _ _ rest) in Hp.
  assert (conn_parse_packet (with_buffer conn (bs ++ rest)) c =
    Ok (Some packet, with_buffer conn rest)) as Hc.
  { unfold conn_parse_packet. cbn [tz compress buffer with_buffer set_buffer]. rewrite Hp.
    by destruct packet; [..|destruct (Hq query)|]. }
  unfold read_step. destruct (incoming (stream (with_buffer conn (bs ++ rest)))) as [|r reads] eqn:Hi;
    cbn [read_packet]; rewrite Hc; do 2 f_equal; destruct conn as [? [] ? ? ?]; cbn in *; by subst.
Qed.

(** A data packet of the client is applied. *)
Lemma read_step_data c conn rest table n b h :
  hello c = Some h -> request_ok (tz conn) (compress conn) (RData false table n b) ->
  exists b', same_block b b' /\ forall t,
    read_step c
      (with_buffer conn (request_bytes h (compress conn) (RData false table n b) ++ rest)) t =
    Some (apply_data b' c (with_buffer conn rest) t).
Proof.
  intros Hh Hok.
  destruct (parses_packet (R:=bytes) (tz conn) h (hello c) (compress conn) _ Hok I)
    as (p & Hp & Hr).
  destruct p as [| | | |b']; try done. exists b'. split; [done|]. intros t'.
  by apply (read_step_packet c conn t' rest (Data b')).
Qed.

Lemma same_block_empty b b' : same_block b b' -> block_is_empty b' = block_is_empty b.
Proof.
  intros [_ Hc]. unfold block_is_empty. apply bool_decide_ext.
  split; intros He; rewrite He in Hc; inversion Hc; done.
Qed.

(** ** The data *)

(** The channel takes the blocks one after the other. *)
Fixpoint sends (tx : Sender) (bs : list Block) (t : Tasks) : option Tasks :=
  match bs with
  | [] => Some t
  | b :: bs =>
    match send_poll tx b t with Some (inl t) => sends tx bs t | _ => None end
  end.

Definition data_request (x : bytes * Z * Block) : request :=
  let '(table, n, b) := x in RData false table n b.

Definition data_ok (conn : Connection) (x : bytes * Z * Block) : Prop :=
  request_ok (tz conn) (compress conn) (data_request x) /\ block_is_empty x.2 = false.

Definition requests_bytes (h : HelloRequest.t) (conn : Connection) (xs : list (bytes * Z * Block))
  : bytes :=
  concat ((fun x => request_bytes h (compress conn) (data_request x)) <$> xs).

Lemma run_steps_app n m s s' :
  run_steps n s = Some s' -> run_steps (n + m) s = run_steps m s'.
Proof.
  revert s. induction n as [|n IH]; intros s; cbn [run_steps Nat.add]; [by intros [= ->]|].
  destruct (run_step s); [apply IH|done].
Qed.

(** Two steps for every block: reading it and sending it. *)
Lemma run_data c conn h tx rest xs :
  hello c = Some h -> out (state c) = Some tx -> Forall (data_ok conn) xs ->
  exists bs, Forall2 same_block xs.*2 bs /\ forall t t',
    sends tx bs t = Some t' ->
    run_steps (2 * length xs)
      (mkServer Reading c (with_buffer conn (requests_bytes h conn xs ++ rest)) t) =
    Some (mkServer Reading c (with_buffer conn rest) t').
Proof.
  intros Hh Ho Hxs. induction Hxs as [|[[table n] b] xs [Hok Hne] _ IH].
  { exists []. split; [constructor|]. by intros t t' [= ->]. }
  destruct IH as (bs & Hbs & IH). cbn in Hne.
  destruct (read_step_data c conn (requests_bytes h conn xs ++ rest) table n b h Hh Hok)
    as (b' & Hb & Hread).
  exists (b' :: bs). split; [by constructor|]. intros t t' Hs. cbn [sends] in Hs.
  destruct (send_poll tx b' t) as [[t1|]|] eqn:Hsend; try done.
  replace (2 * length ((table, n, b) :: xs))%nat with (2 + 2 * length xs)%nat by (cbn; lia).
  erewrite run_steps_app; [by apply IH|].
  unfold requests_bytes. cbn [fmap list_fmap concat run_steps run_step]. rewrite <- app_assoc.
  unfold data_request at 1. fold (requests_bytes h conn xs). rewrite Hread.
  unfold apply_data. rewrite (same_block_empty _ _ Hb), Hne, Ho. cbn [run_step].
  by rewrite Ho, Hsend.
Qed.

(** ** The whole insert *)

(** An empty block, as a client sends it. *)
Definition empty_ok (conn : Connection) (x : bytes * Z * Block) : Prop :=
  request_ok (tz conn) (compress conn) (data_request x) /\ block_is_empty x.2 = true.

Definition insert_bytes (h : HelloRequest.t) (conn : Connection) (first last : bytes * Z * Block)
  (xs : list (bytes * Z * Block)) : bytes :=
  requests_bytes h conn [first] ++ requests_bytes h conn xs ++ requests_bytes h conn [last].

(** The empty block in front of the data, and the one behind it. *)
Lemma run_empty c conn h x rest t :
  hello c = Some h -> empty_ok conn x ->
  run_steps 1 (mkServer Reading c (with_buffer conn (requests_bytes h conn [x] ++ rest)) t) =
  Some (match stage (state c) with
        | InsertPrepare => mkServer Reading (set_stage c InsertStarted) (with_buffer conn rest) t
        | InsertStarted =>
          mkServer Draining (reset_context c t).1 (with_buffer conn rest) (reset_context c t).2
        | _ => mkServer Reading c (with_buffer conn rest) t
        end).
Proof.
  intros Hh [Hok Hemp]. destruct x as [[table n] b]. cbn in Hemp.
  destruct (read_step_data c conn rest table n b h Hh Hok) as (b' & Hb & Hread).
  unfold requests_bytes. cbn [fmap list_fmap concat run_steps run_step]. rewrite app_nil_r.
  unfold data_request. rewrite Hread. unfold apply_data. rewrite (same_block_empty _ _ Hb), Hemp.
  by destruct (stage (state c)).
Qed.

Lemma run_insert c conn h tx first xs last rest :
  hello c = Some h -> stage (state c) = InsertPrepare -> out (state c) = Some tx ->
  empty_ok conn first -> Forall (data_ok conn) xs -> empty_ok conn last ->
  exists bs, Forall2 same_block xs.*2 bs /\ forall t t',
    sends tx bs t = Some t' ->
    exists c',
    run_steps (1 + (2 * length xs + 1))
      (mkServer Reading c (with_buffer conn (insert_bytes h conn first last xs ++ rest)) t) =
    Some (mkServer Draining c' (with_buffer conn rest) (drop_sender tx t')) /\
    out (state c') = None /\ stage (state c') = Stage_Default /\
    sent_all_data (state c') = sent_all_data (state c).
Proof.
  intros Hh Hst Ho Hf Hxs Hl. set (c1 := set_stage c InsertStarted).
  destruct (run_data c1 conn h tx (requests_bytes h conn [last] ++ rest) xs) as (bs & Hbs & Hrun);
    [done..|].
  exists bs. split; [done|]. intros t t' Hs. exists (reset_context c1 t').1.
  split; [|done]. unfold insert_bytes. rewrite <- !app_assoc.
  erewrite run_steps_app; [|by apply run_empty]. rewrite Hst. fold c1.
  erewrite run_steps_app; [|by apply Hrun]. rewrite run_empty by done.
  unfold c1 at 1. cbn [stage state set_stage]. by unfold reset_context; cbn; rewrite Ho.
Qed.

(** A server whose writes succeed, after it wrote [bs]. *)
Definition wrote (conn : Connection) (bs : bytes) : Connection :=
  set_stream conn (mkStream (incoming (stream conn)) (outgoing (stream conn) ++ bs) []).

(** The notification ends the insert. *)
Lemma run_notified c conn t t' :
  notified_poll (sent_all_data (state c)) t = Some t' -> faults (stream conn) = [] ->
  run_step (mkServer Draining c conn t) =
  Some (mkServer Reading (set_stage c Stage_Default)
    (wrote conn (uvarint_bytes SERVER_END_OF_STREAM)) t').
Proof.
  intros Hn Hf. cbn [run_step]. rewrite Hn. unfold write_end_of_stream, write_message.
  rewrite uvarint_ok by done. unfold write_bytes. by rewrite Hf.
Qed.

(** ** The other requests *)

Lemma flush_ok e c conn t bs :
  e = Ok bs -> bs <> [] -> faults (stream conn) = [] ->
  flush e c conn t = mkServer Reading c (wrote conn bs) t.
Proof.
  intros -> Hne Hf. cbn [flush]. unfold get_buffer. rewrite bool_decide_false by done.
  unfold write_bytes. by rewrite Hf.
Qed.

Lemma run_ping c conn t rest :
  faults (stream conn) = [] ->
  run_step (mkServer Reading c (with_buffer conn (uvarint_bytes CLIENT_PING ++ rest)) t) =
  Some (mkServer Reading c (wrote (with_buffer conn rest) (uvarint_bytes SERVER_PONG)) t).
Proof.
  intros Hf. cbn [run_step]. rewrite (read_step_packet c conn t rest Ping); [|..|done].
  - cbn [apply]. by rewrite (flush_ok _ _ _ _ (uvarint_bytes SERVER_PONG)) by (done || by apply uvarint_ok).
  - rewrite <- (app_nil_r (uvarint_bytes _)). apply parses_number; [done|apply parses_ret].
Qed.

(** A hello is answered in the revision that both sides know. *)
Lemma run_hello c conn t h rest :
  faults (stream conn) = [] -> HelloRequest.ok h = true -> HelloResponse.ok hello_response = true ->
  let revision := Z.min dbms_tcp_protocol_version (HelloRequest.client_revision h) in
  run_step (mkServer Reading c
    (with_buffer conn (uvarint_bytes CLIENT_HELLO ++ HelloRequest.encode h ++ rest)) t) =
  Some (mkServer Reading (mkContext (state c) revision (Some h))
    (wrote (with_buffer conn rest) (HelloResponse.bytes_of revision hello_response)) t).
Proof.
  intros Hf Hok Hresp revision. rewrite app_assoc. cbn [run_step].
  rewrite (read_step_packet c conn t rest (Hello h)); [|..|done].
  - cbn [apply]. unfold apply_hello. fold revision.
    rewrite (flush_ok _ _ _ _ (HelloResponse.bytes_of revision hello_response)); [done|..|done].
    + by rewrite HelloResponse.hello_encode_bytes.
    + done.
  - apply parses_number; [done|]. eapply parses_bind; [symmetry; apply app_nil_r| |apply parses_ret].
    by apply HelloRequest.parses_hello.
Qed.

(** A query that the session answers itself is ended by the server. *)
Lemma apply_select q c conn t c' conn' t' :
  execute_query (set_query c (QueryRequest.query q) (QueryRequest.compression q)) conn t =
    (Ok tt, c', conn', t') ->
  out (state c') = None -> faults (stream conn') = [] ->
  apply (Query q) c conn t =
  mkServer Reading c' (wrote conn' (uvarint_bytes SERVER_END_OF_STREAM)) t'.
Proof.
  intros He Ho Hf. cbn [apply]. unfold apply_query. rewrite He, Ho.
  unfold write_end_of_stream, write_message. rewrite uvarint_ok by done.
  unfold write_bytes. by rewrite Hf.
Qed.
End Insert.
