(* ===== verification/Spec.v ===== *)
(** * What the server promises

    The server as its client and its session see it: a machine over whole
    packets, messages and blocks, without buffers, pieces of packets or polling.
    Bytes arrive at one end; packets are received out of them, each is answered,
    and the blocks of an insert are stored.  File Refinement proves that the
    server of file Server implements it. *)

From stdpp Require Import relations.
From S2P Require Import Prelude RustStd Errors Scalars Encoder ReadEx Finite Protocol SqlType TypeNames.
From S2P Require Import Block Connection Server Compressed.
Local Open Scope Z_scope.

(** A session's answers to a query of the given text, on a connection that
    compresses or not, to a client of the given revision, while a channel is open
    or not: the bytes it writes, its result, and whether a channel is open then. *)
Class Answers := answers : bytes -> bool -> Z -> bool -> bytes -> Result unit -> bool -> Prop.

Section Spec.
Context {P : Profile} `{ChronoTz, Combine, Lz4} `{!Tokio Block} `{!ClickHouseSession, !Answers}.

(** The time zone of the connection, and whether exceptions come with a trace. *)
Context (zone : Tz) (traced : bool).

(** ** States *)

Inductive status :=
| Quiet
| Announced
| Loading
| Storing (block : Block) (loading : bool)
| Emptying
| Over (r : Result unit).

(** The end of the input: the client closed it, or an error. *)
Definition ending : Type := option io_error.

Record proto := mkProto {
  now : status;
  greeting : option HelloRequest.t;
  compressed : bool;
  unread : bytes;
  ended_by : option ending
}.

Definition set_now (p : proto) (s : status) : proto :=
  mkProto s (greeting p) (compressed p) (unread p) (ended_by p).

(** The connection is over: nothing that was or will be heard matters. *)
Definition over (r : Result unit) : proto := mkProto (Over r) None true [] (Some None).

(** Is the server about to receive? *)
Definition receptive (s : status) : bool :=
  match s with Quiet | Announced | Loading => true | _ => false end.

(** Is an insert under way? *)
Definition inserting (s : status) : bool :=
  match s with Announced | Loading => true | _ => false end.

Definition revision (p : proto) : Z :=
  match greeting p with
  | Some h => Z.min dbms_tcp_protocol_version (HelloRequest.client_revision h)
  | None => 0
  end.

Definition receive (p : proto) : Result (Packet * bytes) :=
  parse_packet zone (greeting p) (compressed p) (unread p).

Definition received_packet (p : proto) (packet : Packet) (rest : bytes) : proto :=
  mkProto (now p) (greeting p)
    (match packet with Query q => 0 <? QueryRequest.compression q | _ => compressed p end)
    rest (ended_by p).

(** ** Actions *)

Inductive action :=
| Arrive (bs : bytes)
| End (how : ending)
| Receive (packet : Packet)
| Write (bs : bytes)
| Lose (bs : bytes)
| Store (block : Block)
| HangUp.

(** A message is written, is lost because the socket failed, or cannot be
    encoded; an empty one is not written. *)
Inductive says (m : Result Encoder) (p : proto) : list action -> proto -> Prop :=
| says_written e : m = Ok e -> says m p [Write (get_buffer e)] p
| says_nothing e : m = Ok e -> get_buffer e = [] -> says m p [] p
| says_lost e err : m = Ok e -> says m p [Lose (get_buffer e)] (over (Err (from_io err)))
| says_error err : m = Err err -> says m p [] (over (Err err))
| says_panic : m = Panic -> says m p [] (over Panic)
| says_stuck : m = OutOfFuel -> says m p [] (over OutOfFuel).

(** The answer to a packet. *)
Inductive answer (p : proto) : Packet -> list action -> proto -> Prop :=
| answer_ping acts p' : says (uvarint new SERVER_PONG) p acts p' -> answer p Ping acts p'
| answer_cancel : answer p Cancel [] p
| answer_hello h acts p' :
  let p1 := mkProto (now p) (Some h) (compressed p) (unread p) (ended_by p) in
  says (HelloResponse.encode hello_response new (revision p1)) p1 acts p' ->
  answer p (Hello h) acts p'
| answer_insert q bs :
  answers (QueryRequest.query q) (compressed p) (revision p) (inserting (now p)) bs (Ok tt) true ->
  answer p (Query q) [Write bs] (set_now p Announced)
| answer_select q bs acts p' :
  now p = Quiet ->
  answers (QueryRequest.query q) (compressed p) (revision p) (inserting (now p)) bs (Ok tt) false ->
  says (uvarint new SERVER_END_OF_STREAM) p acts p' ->
  answer p (Query q) (Write bs :: acts) p'
| answer_failure q bs r opened :
  r <> Ok tt ->
  answers (QueryRequest.query q) (compressed p) (revision p) (inserting (now p)) bs r opened ->
  answer p (Query q) [Write bs] (over r)
| answer_block b :
  block_is_empty b = false -> inserting (now p) = true ->
  answer p (Data b) [] (set_now p (Storing b (match now p with Loading => true | _ => false end)))
| answer_begin b :
  block_is_empty b = true -> now p = Announced -> answer p (Data b) [] (set_now p Loading)
| answer_end b :
  block_is_empty b = true -> now p = Loading -> answer p (Data b) [HangUp] (set_now p Emptying)
| answer_stray b : now p = Quiet -> answer p (Data b) [] p.

(** What ends a connection with an exception: bytes that are no packet, an error
    of the socket, a packet that breaks off. *)
Inductive breaks (p : proto) : Error -> Prop :=
| breaks_garbled e : receive p = Err e -> is_would_block e = false -> breaks p e
| breaks_io e err :
  receive p = Err e -> is_would_block e = true -> ended_by p = Some (Some err) ->
  breaks p (from_io err)
| breaks_off e :
  receive p = Err e -> is_would_block e = true -> ended_by p = Some None -> unread p <> [] ->
  breaks p (from_string (lit "connection reset by peer")).

(** The sender of an insert is dropped. *)
Definition hang_up (p : proto) : list action := if inserting (now p) then [HangUp] else [].

(** ** Steps *)

Inductive serve : proto -> list action -> proto -> Prop :=
| serve_arrive p bs :
  ended_by p = None ->
  serve p [Arrive bs] (mkProto (now p) (greeting p) (compressed p) (unread p ++ bs) None)
| serve_ended p how :
  ended_by p = None ->
  serve p [End how] (mkProto (now p) (greeting p) (compressed p) (unread p) (Some how))
| serve_packet p packet rest acts p' :
  receptive (now p) = true -> receive p = Ok (packet, rest) ->
  answer (received_packet p packet rest) packet acts p' ->
  serve p (Receive packet :: acts) p'
| serve_store p b loading :
  now p = Storing b loading ->
  serve p [Store b] (set_now p (if loading then Loading else Announced))
| serve_refused p b loading : now p = Storing b loading -> serve p [] (over Panic)
| serve_emptied p acts p' :
  now p = Emptying -> says (uvarint new SERVER_END_OF_STREAM) (set_now p Quiet) acts p' ->
  serve p acts p'
| serve_closed p e :
  receptive (now p) = true -> receive p = Err e -> is_would_block e = true ->
  ended_by p = Some None -> unread p = [] ->
  serve p (hang_up p) (over (Ok tt))
| serve_broken p e acts p' :
  receptive (now p) = true -> breaks p e ->
  says (ExceptionResponse.write new e traced) (over (Err e)) acts p' ->
  serve p (hang_up p ++ acts) p'
| serve_panic p : receptive (now p) = true -> receive p = Panic -> serve p [] (over Panic)
| serve_stuck p :
  receptive (now p) = true -> 2 ^ 32 <= Z.of_nat (length (unread p)) ->
  serve p [] (over OutOfFuel).

(** A run, with what was done. *)
Inductive serves : proto -> list action -> proto -> Prop :=
| serves_refl p : serves p [] p
| serves_step p1 a1 p2 a2 p3 : serves p1 a1 p2 -> serve p2 a2 p3 -> serves p1 (a1 ++ a2) p3.

Lemma serves_once p acts p' : serve p acts p' -> serves p acts p'.
Proof. intros Hs. change acts with ([] ++ acts). eapply serves_step; [constructor|done]. Qed.

Lemma serves_trans p1 a1 p2 a2 p3 : serves p1 a1 p2 -> serves p2 a2 p3 -> serves p1 (a1 ++ a2) p3.
Proof.
  intros H12 H23. revert H12. induction H23 as [|p2 b1 p b2 p3 _ IH Hs]; intros H12.
  - by rewrite app_nil_r.
  - rewrite app_assoc. eapply serves_step; [by apply IH|done].
Qed.

(** ** What a run shows *)

(** The bytes written, the packets received, the blocks stored. *)
Definition written (acts : list action) : bytes :=
  concat ((fun a => match a with Write bs => bs | _ => [] end) <$> acts).

Definition packets (acts : list action) : list Packet :=
  omap (fun a => match a with Receive packet => Some packet | _ => None end) acts.

Definition stored (acts : list action) : list Block :=
  omap (fun a => match a with Store b => Some b | _ => None end) acts.

(** The blocks with data among the packets. *)
Definition data_blocks (ps : list Packet) : list Block :=
  omap (fun q => match q with
                 | Data b => if block_is_empty b then None else Some b
                 | _ => None
                 end) ps.

Lemma written_app a1 a2 : written (a1 ++ a2) = written a1 ++ written a2.
Proof. unfold written. by rewrite fmap_app, concat_app. Qed.

Lemma packets_app a1 a2 : packets (a1 ++ a2) = packets a1 ++ packets a2.
Proof. apply omap_app. Qed.

Lemma stored_app a1 a2 : stored (a1 ++ a2) = stored a1 ++ stored a2.
Proof. apply omap_app. Qed.

Lemma data_blocks_app a1 a2 : data_blocks (a1 ++ a2) = data_blocks a1 ++ data_blocks a2.
Proof. apply omap_app. Qed.

(** ** Every run *)

(** No query is parsed before a hello. *)
Lemma parse_no_query compress :
  ensures (parse_packet (R:=bytes) zone None compress) (fun packet => forall q, packet <> Query q).
Proof.
  unfold parse_packet. apply ensures_true. intros n.
  repeat case_match; unfold parse_data, parse_hello, parse_query;
    repeat (apply ensures_true; intros ?); by apply ensures_ret || apply ensures_err.
Qed.

Lemma query_after_hello p q rest : receive p = Ok (Query q, rest) -> is_Some (greeting p).
Proof.
  unfold receive. destruct (greeting p); [by eexists|]. intros Hp.
  by destruct (parse_no_query _ _ _ _ Hp q).
Qed.

(** The block on its way to the channel. *)
Definition waiting (p : proto) : list Block :=
  match now p with Storing b _ => [b] | _ => [] end.

(** An insert has begun and not ended. *)
Definition busy (p : proto) : bool :=
  match now p with Quiet | Over _ => false | _ => true end.

(** What an action in state [p] that leads to [p'] may do when [ps] is received. *)
Record effect (p : proto) (ps : list Packet) (acts : list action) (p' : proto) : Prop := {
  ef_packets : packets acts = ps;
  ef_stored : sublist (stored acts ++ waiting p') (waiting p ++ data_blocks ps);
  ef_greeting : is_Some (greeting p') -> is_Some (greeting p) \/ exists h, Hello h ∈ ps;
  ef_busy : busy p' = true -> busy p = true \/ exists q, Query q ∈ ps;
  ef_busy_stored : stored acts <> [] -> busy p = true
}.

(** A message says nothing of packets and blocks, and can end the connection. *)
Lemma says_quiet m p acts p' :
  says m p acts p' -> packets acts = [] /\ stored acts = [] /\ (p' = p \/ exists r, p' = over r).
Proof. destruct 1; split_and!; try done; (by left) || (right; by eexists). Qed.

(** Nothing was received. *)
Lemma effect_nothing p acts p' :
  packets acts = [] -> sublist (stored acts ++ waiting p') (waiting p) ->
  (is_Some (greeting p') -> is_Some (greeting p)) -> (busy p' = true -> busy p = true) ->
  (stored acts <> [] -> busy p = true) ->
  effect p [] acts p'.
Proof. intros Hp Hs Hg Hb Hsb. split; rewrite ?app_nil_r; auto. Qed.

Lemma effect_over p acts r :
  packets acts = [] -> stored acts = [] -> effect p [] acts (over r).
Proof.
  intros Hp Hs. apply effect_nothing; rewrite ?Hs; try done; [apply sublist_nil_l|by intros []].
Qed.

(** A packet is received, and no block is stored. *)
Lemma effect_receive p packet acts p1 :
  receptive (now p) = true -> packets acts = [] -> stored acts = [] ->
  sublist (waiting p1) (data_blocks [packet]) ->
  (is_Some (greeting p1) -> is_Some (greeting p) \/ exists h, packet = Hello h) ->
  (busy p1 = true -> busy p = true \/ exists q, packet = Query q) ->
  effect p [packet] (Receive packet :: acts) p1.
Proof.
  intros Hr Hpa Hsa Hs Hg Hb. split; cbn [packets stored omap list_omap];
    fold (packets acts) (stored acts); rewrite ?Hpa, ?Hsa; try done.
  - etrans; [exact Hs|]. unfold waiting. by destruct (now p).
  - intros Hi%Hg. destruct Hi as [?|[h ->]]; [by left|]. right. exists h. by apply list_elem_of_singleton.
  - intros Hi%Hb. destruct Hi as [?|[q ->]]; [by left|]. right. exists q. by apply list_elem_of_singleton.
Qed.

Lemma receptive_waiting p : receptive (now p) = true -> waiting p = [].
Proof. unfold waiting. by destruct (now p). Qed.

(** What is said in answer changes the state to the end, or not at all. *)
Lemma effect_answer m p packet acts p1 acts' p' :
  receptive (now p) = true -> says m p1 acts' p' -> now p1 = now p ->
  packets acts = [] -> stored acts = [] ->
  (is_Some (greeting p1) -> is_Some (greeting p) \/ exists h, packet = Hello h) ->
  effect p [packet] (Receive packet :: acts ++ acts') p'.
Proof.
  intros Hr (Hpa & Hsa & Hp')%says_quiet Hn Ha1 Ha2 Hg.
  apply effect_receive; rewrite ?packets_app, ?stored_app, ?Ha1, ?Ha2; try done;
    destruct Hp' as [->|[r ->]]; try done.
  - unfold waiting. rewrite Hn. fold (waiting p). rewrite receptive_waiting by done. apply sublist_nil_l.
  - apply sublist_nil_l.
  - by intros [].
  - unfold busy. rewrite Hn. by left.
Qed.

Lemma answer_effect p packet acts p' :
  receptive (now p) = true -> answer p packet acts p' -> effect p [packet] (Receive packet :: acts) p'.
Proof.
  intros Hr Ha. pose proof (receptive_waiting p Hr) as Hw.
  destruct Ha as [acts p' Hm| |h acts p' p1 Hm|q bs _|q bs acts p' Hq _ Hm|q bs r o _ _|b Hb Hi|b Hb Hn
    |b Hb Hn|b Hn].
  - apply (effect_answer _ p Ping [] p acts p' Hr Hm); auto.
  - apply effect_receive; rewrite ?Hw; auto using sublist_nil_l.
  - apply (effect_answer _ p (Hello h) [] p1 acts p' Hr Hm); eauto.
  - apply effect_receive; eauto using sublist_nil_l.
  - apply (effect_answer _ p (Query q) [Write bs] p acts p' Hr Hm); eauto.
  - apply effect_receive; eauto using sublist_nil_l; by intros [].
  - apply effect_receive; auto; [cbn; rewrite Hb; by cbn|]. left. unfold busy. by destruct (now p).
  - apply effect_receive; auto; [apply sublist_nil_l|]. left. unfold busy. by rewrite Hn.
  - apply effect_receive; auto; [apply sublist_nil_l|]. left. unfold busy. by rewrite Hn.
  - apply effect_receive; rewrite ?Hw; auto using sublist_nil_l.
Qed.

Lemma effect_received p packet rest ps acts p' :
  effect (received_packet p packet rest) ps acts p' -> effect p ps acts p'.
Proof. by intros [? ? ? ? ?]. Qed.

Lemma hang_up_quiet p : packets (hang_up p) = [] /\ stored (hang_up p) = [].
Proof. unfold hang_up. by destruct (inserting (now p)). Qed.

(** A message behind silent actions. *)
Lemma effect_said m p acts p1 acts' p' :
  says m p1 acts' p' -> packets acts = [] -> stored acts = [] -> waiting p1 = [] ->
  (is_Some (greeting p1) -> is_Some (greeting p)) -> (busy p1 = true -> busy p = true) ->
  effect p [] (acts ++ acts') p'.
Proof.
  intros (Hpa & Hsa & Hp')%says_quiet Ha1 Ha2 Hw Hg Hb.
  destruct Hp' as [->|[r ->]];
    [apply effect_nothing|apply effect_over]; rewrite ?packets_app, ?stored_app, ?Ha1, ?Ha2; try done.
  rewrite Hsa, Hw. apply sublist_nil_l.
Qed.

Lemma serve_effect p acts p' :
  serve p acts p' -> exists ps, effect p ps acts p' /\
    (forall packet, packet ∈ ps -> exists rest, receive p = Ok (packet, rest)) /\ (length ps <= 1)%nat.
Proof.
  intros Hs. destruct Hs as [p bs He|p how He|p packet rest acts p' Hr Hp Ha|p b l Hn|p b l Hn
    |p acts p' Hn Hm|p e Hr Hp Hw He Hu|p e acts p' Hr Hb Hm|p Hr Hp|p Hr Hl].
  3: { exists [packet]. split_and!; [by eapply effect_received, answer_effect| |done].
       intros ? ->%list_elem_of_singleton. by exists rest. }
  all: exists []; split_and!; [|by intros ? ?%not_elem_of_nil|cbn; lia].
  - by apply effect_nothing.
  - by apply effect_nothing.
  - apply effect_nothing; try done; unfold waiting, busy; rewrite Hn; try done; by destruct l.
  - by apply effect_over.
  - apply (effect_said _ p [] (set_now p Quiet) acts p' Hm); done.
  - destruct (hang_up_quiet p). by apply effect_over.
  - destruct (hang_up_quiet p) as [Hh1 Hh2].
    apply (effect_said _ p (hang_up p) _ acts p' Hm); try done. by intros [].
  - by apply effect_over.
  - by apply effect_over.
Qed.

(** ** Safety *)

(** The blocks stored and waiting are blocks received, once each and in order;
    an insert goes back to a query; every query comes behind a hello. *)
Record sound (acts : list action) (p : proto) : Prop := {
  sound_blocks : sublist (stored acts ++ waiting p) (data_blocks (packets acts));
  sound_insert : busy p = true \/ stored acts <> [] -> exists q, Query q ∈ packets acts;
  sound_greeting : is_Some (greeting p) -> exists h, Hello h ∈ packets acts;
  sound_query : forall before q after, packets acts = before ++ Query q :: after ->
    exists h, Hello h ∈ before
}.

Lemma sound_serve acts1 p acts2 p' : sound acts1 p -> serve p acts2 p' -> sound (acts1 ++ acts2) p'.
Proof.
  intros [Hb Hi Hg Hq] (ps & [Hps Hs Hgr Hbu Hst] & Hrec & Hlen)%serve_effect.
  split; rewrite packets_app, Hps, ?stored_app.
  - rewrite data_blocks_app, <- app_assoc. etrans; [by apply sublist_app|]. rewrite app_assoc. by apply sublist_app.
  - assert (busy p = true \/ stored acts1 <> [] \/ (exists q, Query q ∈ ps) ->
      exists q, Query q ∈ packets acts1 ++ ps) as Hc.
    { intros [Hc|[Hc|[q Hc]]].
      3: { exists q. rewrite elem_of_app. by right. }
      all: destruct Hi as [q Hc']; [by (left + right)|]; exists q; rewrite elem_of_app; by left. }
    intros [Hn|Hn]; apply Hc.
    + destruct (Hbu Hn) as [?|?]; auto.
    + destruct (stored acts1); [|by auto]. left. by apply Hst.
  - intros [[h Hh]%Hg|[h Hh]]%Hgr; exists h; rewrite elem_of_app; auto.
  - intros before q after Heq. destruct ps as [|packet [|]]; [|..|cbn in Hlen; lia].
    { rewrite app_nil_r in Heq. by eapply Hq. }
    assert (packet = Query q -> exists h, Hello h ∈ packets acts1) as Hnew.
    { intros ->. destruct (Hrec (Query q)) as [rest Hrest]; [left|].
      apply Hg. by eapply query_after_hello. }
    apply app_eq_app in Heq as (l & [[Hl1 Hl]|[Hl1 Hl]]).
    + destruct l as [|x l]; injection Hl as <- Hl; [|by eapply Hq].
      rewrite app_nil_r in Hl1. rewrite <- Hl1. by apply Hnew.
    + destruct l as [|x l]; injection Hl as -> Hl; [|by destruct l].
      rewrite Hl1, app_nil_r. by apply Hnew.
Qed.

Lemma sound_begin p : now p = Quiet -> greeting p = None -> sound [] p.
Proof.
  intros Hn Hg. split; unfold waiting, busy; rewrite ?Hn, ?Hg; try done.
  - by intros [?|[]].
  - by intros [] ? ?.
Qed.

Lemma sound_serves p acts p' :
  now p = Quiet -> greeting p = None -> serves p acts p' -> sound acts p'.
Proof. intros Hn Hg. induction 1; [by apply sound_begin|]. eapply sound_serve; eauto. Qed.
End Spec.
