(* ===== verification/Refinement.v ===== *)
(** * The server implements its specification

    Every step of the server of file Server, whatever the pieces in which the
    bytes arrive and whatever the other tasks do in between, is a step of the
    machine of file Spec or none at all: the server writes what the machine
    writes and stores what the machine stores. *)

From stdpp Require Import relations.
From S2P Require Import Prelude RustStd Errors Scalars Encoder ReadEx Stable Finite.
From S2P Require Import Protocol SqlType TypeNames DecimalNum Values StringPool Columns.
From S2P Require Import ColumnLaws Compressed Block BlockLaws Chunks Connection Server ServerLaws.
From S2P Require Import Spec.
Local Open Scope Z_scope.

(** ** What has arrived *)

(** The bytes of the reads up to the end of the stream or an error. *)
Fixpoint upcoming (reads : list (bytes + io_error)) : bytes * option ending :=
  match reads with
  | [] => ([], None)
  | inl [] :: _ => ([], Some None)
  | inr e :: _ => ([], Some (Some e))
  | inl bs :: reads => let '(more, how) := upcoming reads in (bs ++ more, how)
  end.

Lemma upcoming_cons bs reads :
  bs <> [] -> upcoming (inl bs :: reads) = (bs ++ (upcoming reads).1, (upcoming reads).2).
Proof. intros Hb. cbn. destruct bs; [done|]. by destruct (upcoming reads). Qed.

Section Refinement.
Context {P : Profile} `{ChronoTz, Combine, Lz4} `{!Tokio Block} `{!ClickHouseSession}.

(** ** The session and the channels *)

(** The session answers as it promises, and only writes to the connection. *)
Class SessionContract `{!Answers} : Prop :=
  execute_answers c conn t r c' conn' t' :
    execute_query c conn t = (r, c', conn', t') ->
    exists bs faults,
      answers (query (state c)) (compress conn) (client_revision c)
        (bool_decide (is_Some (out (state c)))) bs r (bool_decide (is_Some (out (state c')))) /\
      conn' = set_stream conn
        (mkStream (incoming (stream conn)) (outgoing (stream conn) ++ bs) faults).

(** The blocks that were put in a channel, so far. *)
Class Deliveries (others : Tasks -> Tasks -> Prop) := {
  delivered : Tasks -> list Block;
  delivered_send tx b t t' : send_poll tx b t = Some (inl t') -> delivered t' = delivered t ++ [b];
  delivered_drop tx t : delivered (drop_sender tx t) = delivered t;
  delivered_notified n t t' : notified_poll n t = Some t' -> delivered t' = delivered t;
  delivered_notify n t t' : new_notify t = (n, t') -> delivered t' = delivered t;
  delivered_query c conn t r c' conn' t' :
    execute_query c conn t = (r, c', conn', t') -> delivered t' = delivered t;
  delivered_others t t' : others t t' -> delivered t' = delivered t
}.

(** ** The state of the machine *)

Definition status_of (s : Server) : status :=
  match pc s, stage (state (ctx s)) with
  | Reading, InsertPrepare => Announced
  | Reading, InsertStarted => Loading
  | Reading, _ => Quiet
  | Sending b, InsertStarted => Storing b true
  | Sending b, _ => Storing b false
  | Draining, _ => Emptying
  | Finished r, _ => Over r
  end.

Definition heard (s : status) (ctx : CHContext) (conn : Connection)
  (reads : list (bytes + io_error)) : proto :=
  mkProto s (hello ctx) (compress conn) (buffer conn ++ (upcoming reads).1) (upcoming reads).2.

Definition proto_of (s : Server) : proto :=
  match pc s with
  | Finished r => over r
  | _ => heard (status_of s) (ctx s) (connection s) (incoming (stream (connection s)))
  end.

(** ** Reading a packet *)

Section Reading.
Context (zone : Tz).

Lemma parse_more h k b x :
  match parse_packet (R:=bytes) zone h k b with
  | Ok (packet, rest) => parse_packet (R:=bytes) zone h k (b ++ x) = Ok (packet, rest ++ x)
  | Err e => is_would_block e = true \/ parse_packet (R:=bytes) zone h k (b ++ x) = Err e
  | Panic => parse_packet (R:=bytes) zone h k (b ++ x) = Panic
  | OutOfFuel => 2 ^ 32 <= Z.of_nat (length b)
  end.
Proof.
  pose proof (stable_packet zone h k b x) as Hs. change (grow b x) with (b ++ x) in Hs.
  destruct (parse_packet zone h k b) as [[p rest]|e| |] eqn:Hp; cbn [stable_out] in Hs; try done.
  apply Z.le_ngt. intros Hl. by apply (packet_total zone h k b Hl).
Qed.

(** What [read_packet] makes of what was heard. *)
Definition reads_as (s : status) (c : CHContext) (conn : Connection)
  (reads : list (bytes + io_error)) (conn' : Connection) (reads' : list (bytes + io_error))
  (r : poll (Result (option Packet))) : Prop :=
  let p := heard s c conn reads in
  match r with
  | Pending => heard s c conn' reads' = p
  | Ready (Ok (Some packet)) => exists rest,
      receive zone p = Ok (packet, rest) /\ heard s c conn' reads' = received_packet p packet rest
  | Ready (Ok None) => exists e,
      receive zone p = Err e /\ is_would_block e = true /\ ended_by p = Some None /\ unread p = []
  | Ready (Err e) => breaks zone p e
  | Ready Panic => receive zone p = Panic
  | Ready OutOfFuel => 2 ^ 32 <= Z.of_nat (length (unread p))
  end.

Lemma conn_parse_heard s c conn reads :
  tz conn = zone ->
  let p := heard s c conn reads in
  match conn_parse_packet conn c with
  | Ok (Some packet, conn') => exists rest,
      receive zone p = Ok (packet, rest) /\ heard s c conn' reads = received_packet p packet rest /\
      exists b k, conn' = set_buffer conn b k
  | Ok (None, conn') => conn' = conn /\ exists e,
      parse_packet (R:=bytes) zone (hello c) (compress conn) (buffer conn) = Err e /\ is_would_block e = true
  | Err e => receive zone p = Err e /\ is_would_block e = false
  | Panic => receive zone p = Panic
  | OutOfFuel => 2 ^ 32 <= Z.of_nat (length (unread p))
  end.
Proof.
  intros Ht. cbv zeta. unfold conn_parse_packet, receive, heard. rewrite Ht.
  cbn [greeting compressed unread].
  pose proof (parse_more (hello c) (compress conn) (buffer conn) (upcoming reads).1) as Hm.
  destruct (parse_packet _ _ _ (buffer conn)) as [[packet rest]|e| |] eqn:Hp; try done.
  - exists (rest ++ (upcoming reads).1). rewrite Hm. split_and!; [done| |by eexists _, _].
    unfold received_packet. cbn. by destruct packet.
  - destruct (is_would_block e) eqn:Hw; [split; [done|by exists e]|]. destruct Hm as [?| ->]; [congruence|done].
  - rewrite length_app. lia.
Qed.

Lemma heard_cons s c conn bs reads :
  bs <> [] ->
  heard s c conn (inl bs :: reads) =
  heard s c (set_buffer conn (buffer conn ++ bs) (compress conn)) reads.
Proof. intros Hb. unfold heard. rewrite upcoming_cons by done. cbn. by rewrite <- app_assoc. Qed.

Definition rebuffered (conn conn' : Connection) : Prop :=
  conn' = set_buffer conn (buffer conn') (compress conn').

Lemma reads_ready s c conn reads r :
  r <> Ok None -> (forall packet, r <> Ok (Some packet)) ->
  match conn_parse_packet conn c with
  | Err e => r = Err e | Panic => r = Panic | OutOfFuel => r = OutOfFuel | Ok _ => False
  end ->
  tz conn = zone ->
  reads_as s c conn reads conn reads (Ready r).
Proof.
  intros Hn Hp Hr Ht. pose proof (conn_parse_heard s c conn reads Ht) as Hc. cbv zeta in Hc.
  destruct (conn_parse_packet conn c) as [?|e| |]; subst; try done.
  destruct Hc. by apply breaks_garbled.
Qed.

Lemma read_packet_reads s c conn reads conn' reads' r :
  tz conn = zone -> read_packet conn c reads = (conn', reads', r) ->
  reads_as s c conn reads conn' reads' r /\ rebuffered conn conn'.
Proof.
  revert conn. induction reads as [|x reads IH]; intros conn Ht; cbn [read_packet].
  all: pose proof (conn_parse_heard s c conn) as Hc; cbv zeta in Hc;
    assert (rebuffered conn conn) as Hre by (by destruct conn).
  - specialize (Hc [] Ht). pose proof (reads_ready s c conn []) as Hr.
    destruct (conn_parse_packet conn c) as [[[packet|] self]|e| |]; intros [= <- <- <-].
    + destruct Hc as (rest & Hp & Hh & b & k & ->). split; [by exists rest|done].
    + by destruct Hc as [-> _].
    + split; [by apply Hr|done].
    + split; [by apply Hr|done].
    + split; [by apply Hr|done].
  - specialize (Hc (x :: reads) Ht). pose proof (reads_ready s c conn (x :: reads)) as Hr.
    destruct (conn_parse_packet conn c) as [[[packet|] self]|e| |].
    + intros [= <- <- <-]. destruct Hc as (rest & Hp & Hh & b & k & ->). split; [by exists rest|done].
    + destruct Hc as (-> & e & Hp & Hw). destruct x as [[|b bs]|err].
      * intros [= <- <- <-]. split; [|done]. unfold heard in *. case_bool_decide as Hb; cbn [reads_as].
        -- exists e. unfold receive. cbn. by rewrite app_nil_r.
        -- eapply breaks_off; [|done|done|]; unfold receive; cbn; rewrite app_nil_r; done.
      * intros Hread. specialize (IH (set_buffer conn (buffer conn ++ b :: bs) (compress conn)) Ht Hread).
        destruct IH as [IH Hre']. split; [|by destruct conn, conn'].
        unfold reads_as in *. by rewrite heard_cons.
      * intros [= <- <- <-]. split; [|done]. cbn [reads_as].
        eapply breaks_io; [|done|done]. unfold receive, heard; cbn. by rewrite app_nil_r.
    + intros [= <- <- <-]. split; [by apply Hr|done].
    + intros [= <- <- <-]. split; [by apply Hr|done].
    + intros [= <- <- <-]. split; [by apply Hr|done].
Qed.
End Reading.

(** ** Writing a message *)

(** [conn'] is [conn] after it wrote [bs]. *)
Definition outputs (conn conn' : Connection) (bs : bytes) : Prop :=
  exists faults, conn' = set_stream conn
    (mkStream (incoming (stream conn)) (outgoing (stream conn) ++ bs) faults).

Lemma outputs_nil conn : outputs conn conn [].
Proof. exists (faults (stream conn)). destruct conn as [? [] ? ? ?]. cbn. by rewrite app_nil_r. Qed.

Lemma outputs_trans conn1 conn2 conn3 bs1 bs2 :
  outputs conn1 conn2 bs1 -> outputs conn2 conn3 bs2 -> outputs conn1 conn3 (bs1 ++ bs2).
Proof. intros [f ->] [f' ->]. exists f'. cbn. by rewrite app_assoc. Qed.

Definition said (p : proto) (r : Result unit) : proto :=
  match r with Ok _ => p | r => over r end.

Lemma write_message_says m conn r conn' p :
  write_message conn m = (r, conn') ->
  exists acts, says m p acts (said p r) /\ outputs conn conn' (written acts) /\ stored acts = [].
Proof.
  intros Hw. destruct m as [e|e| |]; cbn in Hw.
  - unfold write_bytes in Hw. destruct (faults (stream conn)) as [|[err|] fs]; injection Hw as <- <-.
    + exists [Write (get_buffer e)]. split_and!; [by apply says_written| |done].
      eexists. cbn. by rewrite app_nil_r.
    + exists [Lose (get_buffer e)]. split_and!; [by apply says_lost| |done].
      eexists. cbn. by rewrite app_nil_r.
    + exists [Write (get_buffer e)]. split_and!; [by apply says_written| |done].
      eexists. cbn. by rewrite app_nil_r.
  - injection Hw as <- <-. exists []. split_and!; [by constructor|apply outputs_nil|done].
  - injection Hw as <- <-. exists []. split_and!; [by constructor|apply outputs_nil|done].
  - injection Hw as <- <-. exists []. split_and!; [by constructor|apply outputs_nil|done].
Qed.

Lemma proto_reading c conn t :
  proto_of (mkServer Reading c conn t) =
  heard (match stage (state c) with InsertPrepare => Announced | InsertStarted => Loading | _ => Quiet end)
    c conn (incoming (stream conn)).
Proof. reflexivity. Qed.

Lemma proto_finished r c conn t : proto_of (mkServer (Finished r) c conn t) = over r.
Proof. reflexivity. Qed.

(** Going on behind a message. *)
Lemma proto_goes_on r c conn conn' bs t :
  outputs conn conn' bs ->
  proto_of (mkServer (goes_on r) c conn' t) = said (proto_of (mkServer Reading c conn t)) r.
Proof. intros [f ->]. by destruct r. Qed.

(** ** What a step does *)

Context (others : Tasks -> Tasks -> Prop).
Context `{!Answers, !SessionContract, !SessionLaws, !Deliveries others}.

(** From a connection and tasks to the server [s], by the actions [acts]. *)
Record does (conn : Connection) (t : Tasks) (acts : list action) (s : Server) : Prop := {
  does_write : outgoing (stream (connection s)) = outgoing (stream conn) ++ written acts;
  does_store : delivered (tasks s) = delivered t ++ stored acts;
  does_zone : tz (connection s) = tz conn;
  does_traced : with_stack_trace (connection s) = with_stack_trace conn
}.

Lemma does_outputs conn conn' t t' acts p c :
  outputs conn conn' (written acts) -> delivered t' = delivered t -> stored acts = [] ->
  does conn t acts (mkServer p c conn' t').
Proof. intros [f ->] Ht Hs. split; cbn; [done|by rewrite Hs, app_nil_r|done..]. Qed.

Lemma does_nothing conn t t' p c :
  delivered t' = delivered t -> does conn t [] (mkServer p c conn t').
Proof. intros Ht. apply does_outputs; [apply outputs_nil|done..]. Qed.

Lemma flush_says m c conn t :
  exists acts, says m (proto_of (mkServer Reading c conn t)) acts (proto_of (flush m c conn t)) /\
    does conn t acts (flush m c conn t).
Proof.
  unfold flush. destruct m as [e|e| |].
  - case_bool_decide as He.
    + exists []. split; [by eapply says_nothing|by apply does_nothing].
    + destruct (write_bytes conn (get_buffer e)) as [r conn'] eqn:Hw.
      destruct (write_message_says (Ok e) conn r conn' (proto_of (mkServer Reading c conn t)) Hw)
        as (acts & Hs & Ho & Hst).
      exists acts. split; [by rewrite (proto_goes_on r c _ _ _ t Ho)|by apply does_outputs].
  - exists []. split; [exact (says_error (Err e) (proto_of (mkServer Reading c conn t)) e eq_refl)|by apply does_nothing].
  - exists []. split; [exact (says_panic Panic (proto_of (mkServer Reading c conn t)) eq_refl)|by apply does_nothing].
  - exists []. split; [exact (says_stuck OutOfFuel (proto_of (mkServer Reading c conn t)) eq_refl)|by apply does_nothing].
Qed.

(** A query. *)
Lemma apply_query_answers q c conn t :
  revision_inv c -> stage_inv c -> compress conn = (0 <? QueryRequest.compression q) ->
  exists acts,
    answer (proto_of (mkServer Reading c conn t)) (Query q) acts (proto_of (apply_query q c conn t)) /\
    does conn t acts (apply_query q c conn t).
Proof.
  intros Hr Hs Hk. unfold apply_query.
  set (c0 := set_query c (QueryRequest.query q) (QueryRequest.compression q)).
  destruct (execute_query c0 conn t) as [[[r c'] conn'] t'] eqn:He.
  pose proof (delivered_query _ _ _ _ _ _ _ He) as Hd.
  destruct (execute_context _ _ _ _ _ _ _ He) as (Hh & _ & Hst).
  pose proof (execute_out _ _ _ _ _ _ _ He) as Hout.
  destruct (execute_answers _ _ _ _ _ _ _ He) as (bs & fs & Ha & ->).
  cbn in Hh, Hst, Hout. set (p := proto_of (mkServer Reading c conn t)).
  assert (client_revision c0 = revision p) as Hrev by (unfold c0; cbn; by rewrite Hr).
  assert (bool_decide (is_Some (out (state c0))) = inserting (now p)) as Hins.
  { change (out (state c0)) with (out (state c)). unfold p. rewrite proto_reading.
    unfold stage_inv in Hs. destruct (stage (state c)); try done; cbn;
      by rewrite ?bool_decide_eq_true, ?bool_decide_eq_false, ?Hs. }
  rewrite Hrev, Hins in Ha. change (query (state c0)) with (QueryRequest.query q) in Ha.
  change (compress conn) with (compressed p) in Ha.
  set (conn1 := set_stream conn _). assert (outputs conn conn1 bs) as Hw by by eexists.
  assert (written [Write bs] = bs) as Hbs by (cbn; apply app_nil_r).
  assert (forall r, r <> Ok tt -> answers (QueryRequest.query q) (compressed p) (revision p) (inserting (now p)) bs r
      (bool_decide (is_Some (out (state c')))) -> exists acts,
    answer p (Query q) acts (proto_of (mkServer (Finished r) c' conn1 t')) /\
    does conn t acts (mkServer (Finished r) c' conn1 t')) as Hfail.
  { intros r' Hne Ha'. exists [Write bs]. split.
    - by eapply answer_failure.
    - apply does_outputs; rewrite ?Hbs; done. }
  destruct r as [[]|e| |]; [|by apply Hfail..]. clear Hfail.
  destruct (out (state c')) as [tx|] eqn:Hoc.
  - exists [Write bs]. split.
    + replace (proto_of _) with (set_now p Announced); [by apply answer_insert|].
      unfold p, proto_of, heard, set_now. cbn. by rewrite Hh.
    + apply does_outputs; rewrite ?Hbs; done.
  - destruct (write_end_of_stream conn1) as [r conn2] eqn:Hend.
    destruct (write_message_says _ _ _ _ p Hend) as (acts & Hsays & Ho & Hsa).
    exists (Write bs :: acts). split.
    + assert (stage (state c) = Stage_Default) as Hdef.
      { unfold stage_inv in Hs. destruct (stage (state c)); try done; by destruct (Hout Hs). }
      replace (proto_of _) with (said p r).
      * apply answer_select; [by unfold p, proto_of, heard; cbn; rewrite Hdef|exact Ha|exact Hsays].
      * rewrite (proto_goes_on r c' conn1 conn2 (written acts) t' Ho). f_equal. unfold p.
        rewrite !proto_reading. unfold heard. by rewrite Hh, Hst.
    + apply does_outputs; [|done..]. change (Write bs :: acts) with ([Write bs] ++ acts).
      rewrite written_app, Hbs. by eapply outputs_trans.
Qed.

(** Any packet. *)
Lemma apply_answers packet c conn t :
  revision_inv c -> stage_inv c ->
  (forall q, packet = Query q -> compress conn = (0 <? QueryRequest.compression q)) ->
  exists acts,
    answer (proto_of (mkServer Reading c conn t)) packet acts (proto_of (apply packet c conn t)) /\
    does conn t acts (apply packet c conn t).
Proof.
  intros Hr Hs Hq. destruct packet as [| |h|q|b]; cbn [apply].
  - destruct (flush_says (uvarint new SERVER_PONG) c conn t) as (acts & Hm & Hd).
    exists acts. split; [by apply answer_ping|done].
  - exists []. split; [apply answer_cancel|by apply does_nothing].
  - destruct (flush_says (HelloResponse.encode hello_response new
      (Z.min dbms_tcp_protocol_version (HelloRequest.client_revision h)))
      (mkContext (state c) (Z.min dbms_tcp_protocol_version (HelloRequest.client_revision h)) (Some h)) conn t)
      as (acts & Hm & Hd).
    exists acts. split; [by apply answer_hello|done].
  - by apply apply_query_answers; [..|apply Hq].
  - unfold apply_data. destruct (block_is_empty b) eqn:Hb.
    + unfold stage_inv in Hs. destruct (stage (state c)) eqn:Hst; try done.
      * exists []. split; [|by apply does_nothing]. apply answer_stray. unfold proto_of, heard; cbn. by rewrite Hst.
      * exists []. split; [|by apply does_nothing].
        replace (proto_of (mkServer Reading (set_stage c InsertStarted) conn t))
          with (set_now (proto_of (mkServer Reading c conn t)) Loading) by (rewrite !proto_reading; done).
        apply answer_begin; [done|]. rewrite proto_reading. by rewrite Hst.
      * destruct (reset_context c t) as [c' t'] eqn:Hre. exists [HangUp].
        injection Hre as <- <-. destruct Hs as [tx Htx]. split.
        -- apply (answer_end (proto_of (mkServer Reading c conn t))); [done|].
           rewrite proto_reading. by rewrite Hst.
        -- apply does_outputs; [apply outputs_nil| |done]. rewrite Htx. apply delivered_drop.
    + destruct (out (state c)) as [tx|] eqn:Ho; exists [].
      * split; [|by apply does_nothing]. unfold stage_inv in Hs. rewrite Ho in Hs.
        pose proof (answer_block (proto_of (mkServer Reading c conn t)) b Hb) as Ha.
        rewrite proto_reading in *. unfold proto_of. cbn [pc ctx connection status_of].
        destruct (stage (state c)); try done; by apply Ha.
      * split; [|by apply does_nothing]. apply answer_stray. rewrite proto_reading.
        unfold stage_inv in Hs. rewrite Ho in Hs. destruct (stage (state c)); try done; by destruct Hs.
Qed.

(** ** Steps *)

Context (zone : Tz) (traced : bool).

Lemma does_rebuffered conn conn' reads t acts s :
  rebuffered conn conn' -> does (set_incoming conn' reads) t acts s -> does conn t acts s.
Proof. intros -> [Hw Hs Hz Ht]. by split. Qed.

(** The sender of an insert is dropped when the connection is over. *)
Lemma reset_hangs_up c conn t p :
  stage_inv c -> proto_of (mkServer Reading c conn t) = p ->
  let '(c', t') := reset_context c t in
  hello c' = hello c /\ delivered t' = delivered t /\ written (hang_up p) = [] /\ stored (hang_up p) = [].
Proof.
  intros _ _. cbn. split_and!; [done| |unfold hang_up; by destruct (inserting _)..].
  destruct (out (state c)); [apply delivered_drop|done].
Qed.

Lemma status_receptive c conn t :
  receptive (now (proto_of (mkServer Reading c conn t))) = true.
Proof. rewrite proto_reading. cbn. by destruct (stage (state c)). Qed.

Lemma read_step_serves c conn t s' :
  tz conn = zone -> with_stack_trace conn = traced -> revision_inv c -> stage_inv c ->
  read_step c conn t = Some s' ->
  exists acts, serves zone traced (proto_of (mkServer Reading c conn t)) acts (proto_of s') /\
    does conn t acts s'.
Proof.
  intros Hz Htr Hr Hs. pose proof (status_receptive c conn t) as Hrec.
  pose proof (proto_reading c conn t) as Hp. unfold read_step.
  destruct (read_packet conn c (incoming (stream conn))) as [[conn' reads] r] eqn:Hread.
  edestruct (read_packet_reads zone) as [Has Hre]; [done|exact Hread|].
  unfold reads_as in Has. rewrite <- Hp in Has.
  pose proof (reset_hangs_up c conn t _ Hs eq_refl) as Hreset.
  destruct (reset_context c t) as [c' t'] eqn:Hrc. destruct Hreset as (Hh & Hd & Hwh & Hsh).
  destruct r as [[[packet|]|e| |]|].
  - intros [= <-]. destruct Has as (rest & Hrv & Hheard).
    destruct (apply_answers packet c (set_incoming conn' reads) t Hr Hs) as (acts & Ha & Hdo).
    { intros q ->. by injection Hheard. }
    exists (Receive packet :: acts). split; [|eapply does_rebuffered; [done|]; by destruct Hdo].
    apply serves_once. eapply serve_packet; [done|exact Hrv|]. rewrite <- Hheard. exact Ha.
  - intros [= <-]. destruct Has as (e & Hrv & Hw & He & Hu). exists (hang_up (proto_of (mkServer Reading c conn t))).
    split; [apply serves_once; by eapply serve_closed|].
    eapply does_rebuffered; [done|]. apply does_outputs; [rewrite Hwh; apply outputs_nil|done..].
  - destruct (write_error (set_incoming conn' reads) e) as [r conn2] eqn:Hwe. intros [= <-].
    destruct (write_message_says _ _ _ _ (over (Err e)) Hwe)
      as (acts & Hm & Ho & Hsa).
    exists (hang_up (proto_of (mkServer Reading c conn t)) ++ acts). split.
    + apply serves_once. eapply serve_broken; [done|exact Has|].
      cbn [set_incoming set_stream with_stack_trace] in Hm.
      replace (with_stack_trace conn') with traced in Hm by (rewrite Hre; by cbn).
      by destruct r.
    + eapply does_rebuffered; [done|].
      apply does_outputs; rewrite ?written_app, ?stored_app, ?Hwh, ?Hsh; done.
  - intros [= <-]. exists []. split; [|eapply does_rebuffered; [done|]; by apply does_nothing].
    apply serves_once. by apply serve_panic.
  - intros [= <-]. exists []. split; [|eapply does_rebuffered; [done|]; by apply does_nothing].
    apply serves_once. by apply serve_stuck.
  - case_bool_decide; [done|]. intros [= <-]. exists [].
    split; [|eapply does_rebuffered; [done|]; by apply does_nothing].
    rewrite !proto_reading in *. cbn [set_incoming set_stream connection stream incoming].
    change (heard ?s c (set_incoming ?k reads) reads) with (heard s c k reads).
    rewrite Has. constructor.
Qed.

Lemma run_step_serves s s' :
  tz (connection s) = zone -> with_stack_trace (connection s) = traced -> inv s ->
  run_step s = Some s' ->
  exists acts, serves zone traced (proto_of s) acts (proto_of s') /\
    does (connection s) (tasks s) acts s'.
Proof.
  intros Hz Ht Hi. destruct s as [[|b| |r] c conn t]; cbn [run_step connection tasks] in *; try done.
  - destruct Hi. by apply read_step_serves.
  - destruct Hi as (_ & Hs & Ho & _). cbn [ctx] in *. unfold stage_inv in Hs.
    destruct (out (state c)) as [tx|] eqn:Htx; [|by destruct Ho].
    set (p := proto_of (mkServer (Sending b) c conn t)).
    assert (exists l, now p = Storing b l /\ forall t',
      proto_of (mkServer Reading c conn t') = set_now p (if l then Loading else Announced)) as (l & Hl & Hp).
    { unfold p, proto_of, heard, status_of. cbn. destruct (stage (state c)) eqn:Hst; try done;
        eexists; split; try reflexivity; by intros. }
    destruct (send_poll tx b t) as [[t'|[]]|] eqn:Hsend; intros [= <-].
    + exists [Store b]. split; [rewrite Hp; apply serves_once; by apply serve_store|].
      split; cbn; [by rewrite app_nil_r|by eapply delivered_send|done..].
    + exists []. split; [apply serves_once; by eapply serve_refused|by apply does_nothing].
  - destruct (notified_poll _ _) as [t'|] eqn:Hn; [|done]. apply delivered_notified in Hn.
    destruct (write_end_of_stream conn) as [r conn'] eqn:Hw. intros [= <-].
    set (p := proto_of (mkServer Draining c conn t)).
    destruct (write_message_says _ _ _ _ (set_now p Quiet) Hw) as (acts & Hm & Ho & Hsa).
    exists acts. split.
    + apply serves_once, serve_emptied; [done|]. destruct Ho as [f ->]. by destruct r.
    + destruct r; by apply does_outputs.
Qed.

(** The constant parts of the connection. *)
Definition steady (s : Server) : Prop :=
  tz (connection s) = zone /\ with_stack_trace (connection s) = traced.

(** A read that arrives behind the others. *)
Lemma upcoming_snoc reads r :
  upcoming (reads ++ [r]) =
  match (upcoming reads).2 with
  | Some _ => upcoming reads
  | None => ((upcoming reads).1 ++ (upcoming [r]).1, (upcoming [r]).2)
  end.
Proof.
  induction reads as [|[[|b bs]|e] reads IH]; try done; [by destruct r as [[]|]|].
  change ((inl (b :: bs) :: reads) ++ [r]) with (inl (b :: bs) :: (reads ++ [r])).
  rewrite !upcoming_cons, IH by done. destruct (upcoming reads) as [more [how|]]; cbn [fst snd]; [done|].
  by rewrite app_assoc.
Qed.

Lemma heard_arrives st c conn reads r :
  exists acts, serves zone traced (heard st c conn reads) acts (heard st c conn (reads ++ [r])) /\
    written acts = [] /\ stored acts = [].
Proof.
  unfold heard. rewrite upcoming_snoc. destruct (upcoming reads) as [more [how|]]; cbn [fst snd].
  { exists []. split; [constructor|done]. }
  destruct r as [[|b bs]|e].
  - exists [End None]. split; [|done]. apply serves_once. cbn [upcoming fst snd]. rewrite app_nil_r.
    by apply (serve_ended zone traced (mkProto st _ _ _ None)).
  - exists [Arrive (b :: bs)]. split; [|done]. apply serves_once. cbn [upcoming fst snd].
    rewrite app_assoc, (app_nil_r (b :: bs)). by apply (serve_arrive zone traced (mkProto st _ _ _ None)).
  - exists [End (Some e)]. split; [|done]. apply serves_once. cbn [upcoming fst snd]. rewrite app_nil_r.
    by apply (serve_ended zone traced (mkProto st _ _ _ None)).
Qed.

Lemma step_serves s s' :
  inv s -> steady s -> step others s s' ->
  exists acts, serves zone traced (proto_of s) acts (proto_of s') /\
    does (connection s) (tasks s) acts s'.
Proof.
  intros Hi [Hz Ht] Hs. destruct Hs as [s s' Hr|p c conn t t' Ho|p c conn t r].
  - by apply run_step_serves.
  - exists []. split; [|apply does_nothing; by eapply delivered_others].
    destruct p; constructor.
  - destruct (heard_arrives (status_of (mkServer p c conn t)) c conn (incoming (stream conn)) r)
      as (acts & Ha & Hw & Hst).
    destruct p as [|b| |q]; [exists acts..|exists []].
    all: split; [first [exact Ha|constructor]|].
    all: split; rewrite ?Hw, ?Hst, ?app_nil_r; try done; cbn; by rewrite ?app_nil_r.
Qed.

(** Every run of the server is a run of the machine. *)
Lemma steps_serve s s' :
  rtc (step others) s s' -> inv s -> steady s ->
  exists acts, serves zone traced (proto_of s) acts (proto_of s') /\
    does (connection s) (tasks s) acts s'.
Proof.
  induction 1 as [s|s1 s2 s3 H12 _ IH]; intros Hi Hs.
  - exists []. split; [constructor|]. destruct s. by apply does_nothing.
  - destruct (step_serves s1 s2 Hi Hs H12) as (a1 & Hs1 & [Hw1 Hd1 Hz1 Ht1]).
    destruct IH as (a2 & Hs2 & [Hw2 Hd2 Hz2 Ht2]).
    { by eapply step_inv. }
    { destruct Hs as [Hz Ht]. by split; rewrite ?Hz1, ?Ht1. }
    exists (a1 ++ a2). split; [by eapply serves_trans|]. split.
    + by rewrite Hw2, Hw1, written_app, app_assoc.
    + by rewrite Hd2, Hd1, stored_app, app_assoc.
    + by rewrite Hz2.
    + by rewrite Ht2.
Qed.
End Refinement.

Section Run.
Context {P : Profile} `{ChronoTz, Combine, Lz4} `{!Tokio Block} `{!ClickHouseSession}.
Context (others : Tasks -> Tasks -> Prop).
Context `{!Answers, !SessionContract, !SessionLaws, !Deliveries others}.

(** The machine before anything was received. *)
Definition begin (s : Stream) : proto :=
  mkProto Quiet None true (upcoming (incoming s)).1 (upcoming (incoming s)).2.

Lemma run_serves stream t s0 s zone :
  tz_parse timezone = inr zone -> run stream t = Ok s0 -> rtc (step others) s0 s ->
  exists acts, serves zone false (begin stream) acts (proto_of s) /\
    outgoing (Connection.stream (connection s)) = outgoing stream ++ written acts /\
    delivered (tasks s) = delivered t ++ stored acts.
Proof.
  intros Hz Hrun Hs. pose proof (run_inv _ _ _ Hrun) as Hi. revert Hrun.
  unfold run, state_default, connection_new. destruct (new_notify t) as [n t'] eqn:Hn.
  apply delivered_notify in Hn. rewrite Hz. intros [= <-].
  destruct (steps_serve others zone false _ _ Hs Hi) as (acts & Ha & [Hw Hd _ _]); [done|].
  exists acts. cbn in Hw, Hd. rewrite Hn in Hd. by split_and!.
Qed.
End Run.
