(* ===== verification/Simple.v ===== *)
(** * The example server ([examples/simple.rs])

    A session for the server: it answers a query that begins with [INSERT] by
    taking the blocks that follow and counting their rows in a task of its own,
    and every other query with ten blocks of a column [abc].  [Runtime] stands for
    what it uses of the crate [tokio] and of the clock, besides what the server
    uses. *)

From stdpp Require Import relations.
From S2P Require Import Prelude RustStd Errors Scalars Encoder ReadEx Stable Finite.
From S2P Require Import Protocol SqlType TypeNames DecimalNum Values StringPool Columns.
From S2P Require Import ColumnLaws Compressed Block BlockLaws Chunks ColumnFrom Connection Server ServerLaws.
From S2P Require Import Spec Refinement.
Local Open Scope Z_scope.

(** The block that [tokio::spawn] runs for an insert, with its receiver and its
    [Notify]: it counts rows, has ended, or panicked. *)
Inductive task (Receiver Notify : Type) :=
| Counting (rows : Z) (rec : Receiver) (sent_all_data : Notify)
| Counted (rows : Z)
| Panicked.
#[global] Arguments Counting {Receiver Notify}.
#[global] Arguments Counted {Receiver Notify}.
#[global] Arguments Panicked {Receiver Notify}.

Section Simple.
Context {P : Profile} `{ChronoTz, Combine, Lz4} `{!Tokio Block}.

(** The receivers of [mpsc::channel], and the clock.  [recv_poll]: none while the
    channel is empty, no block when its senders are gone. *)
Class Runtime := {
  Receiver : Type;
  mpsc_channel : Z -> Tasks -> Sender * Receiver * Tasks;
  recv_poll : Receiver -> Tasks -> option (option Block * Tasks);
  drop_receiver : Receiver -> Tasks -> Tasks;
  notify_one : Notify -> Tasks -> Tasks;
  Instant : Type;
  elapsed : Instant -> Tasks -> Z;
  sleep : Z -> Tasks -> Tasks
}.

Context `{!Runtime}.

(** ** The task of an insert *)

Definition insert_task : Type := task Receiver Notify.

(** [tokio::spawn]; [spawned] are the tasks started so far, and [set_spawned]
    replaces one of them. *)
Class Spawn := {
  spawn : insert_task -> Tasks -> Tasks;
  spawned : Tasks -> list insert_task;
  set_spawned : nat -> insert_task -> Tasks -> Tasks
}.

(** One round of its loop; none while it waits or when it is over. *)
Definition task_step (task : insert_task) (t : Tasks) : option (insert_task * Tasks) :=
  match task with
  | Counting rows rec sent_all_data =>
    match recv_poll rec t with
    | Some (Some block, t) =>
      match (n ← row_count block; arith_u (E:=Error) 64 (rows + n)) with
      | Ok rows => Some (Counting rows rec sent_all_data, t)
      | _ => Some (Panicked, drop_receiver rec t)
      end
    | Some (None, t) => Some (Counted rows, drop_receiver rec (notify_one sent_all_data t))
    | None => None
    end
  | _ => None
  end.

Context `{!Spawn}.

(** The other tasks of the server are the tasks of its inserts. *)
Inductive insert_tasks : Tasks -> Tasks -> Prop :=
| insert_tasks_step i task t task' t' :
  spawned t !! i = Some task -> task_step task t = Some (task', t') ->
  insert_tasks t (set_spawned i task' t').

(** ** The blocks of a query *)

Record SimpleBlockStream := mkStream_ { idx : Z; start_ : Z; end_ : Z; blocks : Z }.

Definition set_idx (self : SimpleBlockStream) (i : Z) : SimpleBlockStream :=
  mkStream_ i (start_ self) (end_ self) (blocks self).

(** The column [abc]. *)
Definition abc_block (xs : list Z) : Result Block :=
  block_column block_new (lit "abc") (FromPrims u32 xs).

(** [poll_next]; it never waits. *)
Definition poll_next (self : SimpleBlockStream) (t : Tasks)
  : Result (option (Result Block) * SimpleBlockStream * Tasks) :=
  i ← arith_u 32 (idx self + 1);
  let self := set_idx self i in
  if blocks self <? i then Ok (None, self, t)
  else
    block ← abc_block (seqZ (start_ self) (end_ self - start_ self));
    Ok (Some (Ok block), self, sleep 100000000 t).

(** ** The session *)

(** The struct [Session]. *)
Context (last_progress_send : Instant).

Definition simple_progress : Progress.t := Progress.mk 100 1000 1000.

(** The loop over the stream; [fuel] bounds the blocks left. *)
Fixpoint send_blocks (fuel : nat) (stream : SimpleBlockStream) (client_revision : Z)
  (conn : Connection) (t : Tasks) : Result unit * Connection * Tasks :=
  match fuel with
  | O => (OutOfFuel, conn, t)
  | S fuel =>
    match poll_next stream t with
    | Ok (None, _, t) => (Ok tt, conn, t)
    | Ok (Some (Ok block), stream, t) =>
      match write_block conn block with
      | (Ok _, conn) =>
        if 10000000 <=? elapsed last_progress_send t then
          match write_progress conn simple_progress client_revision with
          | (Ok _, conn) => send_blocks fuel stream client_revision conn t
          | (r, conn) => (r, conn, t)
          end
        else send_blocks fuel stream client_revision conn t
      | (r, conn) => (r, conn, t)
      end
    | Ok (Some (Err e), _, t) => (Err e, conn, t)
    | Ok (Some Panic, _, t) => (Panic, conn, t)
    | Ok (Some OutOfFuel, _, t) => (OutOfFuel, conn, t)
    | Err e => (Err e, conn, t)
    | Panic => (Panic, conn, t)
    | OutOfFuel => (OutOfFuel, conn, t)
    end
  end.

Definition is_insert (query : bytes) : bool :=
  starts_with query (lit "INSERT") || starts_with query (lit "insert").

(** [ctx.state.out = Some(sender)]; a sender that was there is dropped. *)
Definition set_out (c : CHContext) (sender : Sender) (t : Tasks) : CHContext * Tasks :=
  let q := state c in
  (mkContext
     (mkState (query_id q) (stage q) (compression q) (query q) (is_cancelled q)
        (is_connection_closed q) (is_empty_ q) (sent_all_data q) (Some sender))
     (client_revision c) (hello c),
   match out q with Some old => drop_sender old t | None => t end).

Definition simple_insert (c : CHContext) (conn : Connection) (t : Tasks)
  : Result unit * CHContext * Connection * Tasks :=
  match abc_block [] with
  | Ok sample_block =>
    let '(sender, rec, t) := mpsc_channel 4 t in
    let '(c, t) := set_out c sender t in
    match write_block conn sample_block with
    | (Ok _, conn) => (Ok tt, c, conn, spawn (Counting 0 rec (sent_all_data (state c))) t)
    | (r, conn) => (r, c, conn, drop_receiver rec t)
    end
  | Err e => (Err e, c, conn, t)
  | Panic => (Panic, c, conn, t)
  | OutOfFuel => (OutOfFuel, c, conn, t)
  end.

Definition simple_stream : SimpleBlockStream := mkStream_ 0 10 24 10.

Definition simple_select (c : CHContext) (conn : Connection) (t : Tasks)
  : Result unit * CHContext * Connection * Tasks :=
  let '(r, conn, t) := send_blocks 11 simple_stream (client_revision c) conn t in
  (r, c, conn, t).

(** [execute_query]. *)
Definition simple_query (c : CHContext) (conn : Connection) (t : Tasks)
  : Result unit * CHContext * Connection * Tasks :=
  if is_insert (query (state c)) then simple_insert c conn t else simple_select c conn t.

Definition simple_session : ClickHouseSession := {|
  execute_query := simple_query;
  session_with_stack_trace := false;
  dbms_name := lit "ClickHouse-X";
  dbms_version_major := 2021;
  dbms_version_minor := 5;
  dbms_tcp_protocol_version := 54405;
  timezone := lit "UTC";
  server_display_name := lit "ClickHouse-X";
  dbms_version_patch := 0;
  get_progress := simple_progress
|}.
End Simple.
