(* ===== verification/SimpleLaws.v ===== *)
(** * What the example server answers

    The session of file Simple keeps the contract of file Refinement, so that the
    server with this session refines the machine of file Spec with its answers.
    Its client reads ten blocks of the numbers 10 to 23, with reports of the
    progress in between, and then the end of the stream. *)

From stdpp Require Import relations.
From S2P Require Import Prelude RustStd Errors Scalars Encoder ReadEx Stable Finite.
From S2P Require Import Protocol SqlType TypeNames DecimalNum Values StringPool Columns.
From S2P Require Import ColumnLaws Compressed Block BlockLaws Chunks ColumnFrom Connection Server ServerLaws.
From S2P Require Import Insert Spec Refinement Simple.
Local Open Scope Z_scope.

Section Laws.
Context {P : Profile} `{ChronoTz, Combine, Lz4} `{!Tokio Block} `{!Runtime, !Spawn}.
Context (last_progress_send : Instant).

Local Abbreviation session := (simple_session last_progress_send).

(** ** The blocks *)

Definition abc (xs : list Z) : Block :=
  mkBlock BlockInfo.default [mkColumn (lit "abc") (VectorColumnData u32 xs)] DEFAULT_CAPACITY.

Lemma abc_block_ok xs :
  4 * Z.of_nat (length xs) <= isize_max -> abc_block xs = Ok (abc xs).
Proof.
  intros Hl. unfold abc_block, block_column, column_from, vector_from, list_with_capacity.
  rewrite alloc_ok by (change (size_of u32) with 4; lia). cbn [mbind outcome_bind].
  assert (forall acc, for_each xs (fun s data => Ok (data ++ [s])) acc = (Ok (acc ++ xs) : Result (list Z))) as ->.
  { clear. induction xs as [|x xs IH]; intros acc; cbn; [by rewrite app_nil_r|].
    rewrite IH. by rewrite <- app_assoc. }
  reflexivity.
Qed.

(** The blocks that the stream sends. *)
Definition numbers : Block := abc (seqZ 10 14).

Lemma poll_next_ok n t :
  (n < 10)%nat ->
  poll_next (mkStream_ (9 - Z.of_nat n) 10 24 10) t =
  Ok (Some (Ok numbers), mkStream_ (10 - Z.of_nat n) 10 24 10, sleep 100000000 t).
Proof.
  intros Hn. unfold poll_next. cbn [idx blocks start_ end_ set_idx].
  replace (9 - Z.of_nat n + 1) with (10 - Z.of_nat n) by lia.
  unfold arith_u. replace (in_u 32 (10 - Z.of_nat n)) with true by (symmetry; apply in_u_spec; lia).
  cbn [mbind outcome_bind]. replace (10 <? 10 - Z.of_nat n) with false by lia.
  unfold set_idx; cbn [start_ end_ blocks]. rewrite abc_block_ok by done. reflexivity.
Qed.

Lemma poll_next_done t : exists s, poll_next (mkStream_ 10 10 24 10) t = Ok (None, s, t).
Proof. by eexists. Qed.

(** ** What is written *)

(** The bytes of a message; none when it cannot be encoded. *)
Definition part (m : Result Encoder) : bytes := match m with Ok e => get_buffer e | _ => [] end.

Definition data_message (compress : bool) (b : Block) : Result Encoder := send_server_data b new compress.

Definition progress_message (revision : Z) : Result Encoder := Progress.write simple_progress new revision.

(** A block, with the progress when the last report is too long ago. *)
Definition reply (compress : bool) (revision : Z) (late : bool) : bytes :=
  part (data_message compress numbers) ++ (if late then part (progress_message revision) else []).

(** [r] and [bs] are the result of writing [all]: the bytes written are all of
    it, or a part at its front when the result is an error. *)
Definition wrote_of (all : bytes) (r : Result unit) (bs : bytes) : Prop :=
  (r = Ok tt -> bs = all) /\ bs `prefix_of` all.

Lemma write_message_part m conn r conn' :
  write_message conn m = (r, conn') ->
  exists bs, outputs conn conn' bs /\ wrote_of (part m) r bs.
Proof.
  intros Hw. assert ([] `prefix_of` part m) as Hnil by apply prefix_nil.
  destruct m as [e|e| |]; cbn in Hw; [|injection Hw as <- <-; exists []; by split; [apply outputs_nil|]..].
  unfold write_bytes in Hw. destruct (faults (stream conn)) as [|[err|] fs]; injection Hw as <- <-.
  - exists (get_buffer e). split; [by eexists|done].
  - exists []. split; [|done]. eexists. cbn. by rewrite app_nil_r.
  - exists (get_buffer e). split; [by eexists|done].
Qed.

(** One write behind another. *)
Lemma wrote_of_app all1 all2 r bs1 bs2 :
  bs1 = all1 -> wrote_of all2 r bs2 -> wrote_of (all1 ++ all2) r (bs1 ++ bs2).
Proof. intros -> [Hr Hp]. split; [intros ?%Hr; by subst|by apply prefix_app]. Qed.

Lemma wrote_of_stop all1 all2 r bs1 :
  r <> Ok tt -> bs1 `prefix_of` all1 -> wrote_of (all1 ++ all2) r bs1.
Proof. intros Hr Hp. split; [done|]. by apply prefix_app_r. Qed.

Lemma outputs_compress conn conn' bs : outputs conn conn' bs -> compress conn' = compress conn.
Proof. by intros [f ->]. Qed.

Lemma send_blocks_writes n revision conn t r conn' t' :
  (n <= 10)%nat ->
  send_blocks last_progress_send (S n) (mkStream_ (10 - Z.of_nat n) 10 24 10) revision conn t = (r, conn', t') ->
  exists lates bs, length lates = n /\ outputs conn conn' bs /\
    wrote_of (concat (reply (compress conn) revision <$> lates)) r bs.
Proof.
  revert conn t. induction n as [|n IH]; intros conn t Hn.
  - cbn [send_blocks]. intros [= <- <- <-]. exists [], []. split_and!; [done|apply outputs_nil|done].
  - remember (S n) as n1. cbn [send_blocks]. subst n1.
    replace (10 - Z.of_nat (S n)) with (9 - Z.of_nat n) by lia. rewrite poll_next_ok by lia.
    unfold write_block. destruct (write_message conn _) as [r1 conn1] eqn:Hw1.
    apply write_message_part in Hw1 as (bs1 & Ho1 & Hr1 & Hp1).
    set (t1 := sleep 100000000 t). set (late := 10000000 <=? elapsed last_progress_send t1).
    assert (r1 <> Ok tt -> (r1, conn1, t1) = (r, conn', t') -> exists lates bs,
      length lates = S n /\ outputs conn conn' bs /\
      wrote_of (concat (reply (compress conn) revision <$> lates)) r bs) as Hstop.
    { intros Hne [= <- <- <-]. exists (replicate (S n) false), bs1.
      split_and!; [by rewrite length_replicate|done|]. cbn. apply wrote_of_stop; [done|].
      by apply prefix_app_r. }
    destruct r1 as [[]|e| |]; [|by apply Hstop..]. clear Hstop. specialize (Hr1 eq_refl).
    rewrite <- (outputs_compress _ _ _ Ho1) in *.
    destruct late eqn:Hlate.
    + destruct (write_progress conn1 _ revision) as [r2 conn2] eqn:Hw2.
      apply write_message_part in Hw2 as (bs2 & Ho2 & Hr2 & Hp2).
      assert (r2 <> Ok tt -> (r2, conn2, t1) = (r, conn', t') -> exists lates bs,
        length lates = S n /\ outputs conn conn' bs /\
        wrote_of (concat (reply (compress conn1) revision <$> lates)) r bs) as Hstop.
      { intros Hne [= <- <- <-]. exists (true :: replicate n false), (bs1 ++ bs2).
        split_and!; [by cbn; rewrite length_replicate|by eapply outputs_trans|]. cbn.
        apply wrote_of_stop; [done|]. unfold reply. rewrite Hr1. by apply prefix_app. }
      destruct r2 as [[]|e| |]; [|by apply Hstop..]. clear Hstop. specialize (Hr2 eq_refl).
      rewrite <- (outputs_compress _ _ _ Ho2) in *.
      intros (lates & bs & Hl & Ho & Hwr)%IH; [|lia].
      exists (true :: lates), ((bs1 ++ bs2) ++ bs).
      split_and!; [by cbn; rewrite Hl|by do 2 (eapply outputs_trans; [|done])|].
      cbn. apply wrote_of_app; [|done]. unfold reply. by rewrite Hr1, Hr2.
    + intros (lates & bs & Hl & Ho & Hwr)%IH; [|lia].
      exists (false :: lates), (bs1 ++ bs).
      split_and!; [by cbn; rewrite Hl|by eapply outputs_trans|].
      cbn. apply wrote_of_app; [|done]. unfold reply. by rewrite Hr1, app_nil_r.
Qed.

(** ** The contract *)

Definition simple_answers : Answers := fun text compress revision was_open bs r opened =>
  if is_insert text then opened = true /\ wrote_of (part (data_message compress (abc []))) r bs
  else opened = was_open /\ exists lates, length lates = 10%nat /\
    wrote_of (concat (reply compress revision <$> lates)) r bs.

#[local] Existing Instance simple_answers.

Lemma simple_contract : @SessionContract _ _ session simple_answers.
Proof.
  intros c conn t r c' conn' t'. cbn [execute_query simple_session]. unfold simple_query, answers, simple_answers.
  destruct (is_insert (query (state c))).
  - unfold simple_insert. rewrite abc_block_ok by done. destruct (mpsc_channel 4 t) as [[tx rec] t1].
    destruct (set_out c tx t1) as [c1 t2] eqn:Hset. unfold write_block.
    destruct (write_message conn _) as [r1 conn1] eqn:Hw.
    apply write_message_part in Hw as (bs & [fs ->] & Hr). injection Hset as <- <-.
    intros Heq. exists bs, fs. destruct r1 as [[]|e| |]; injection Heq as <- <- <- <-; done.
  - unfold simple_select.
    destruct (send_blocks _ _ _ _ _ _) as [[r1 conn1] t1] eqn:Hs. intros [= <- <- <- <-].
    apply (send_blocks_writes 10) in Hs as (lates & bs & Hl & [fs ->] & Hw); [|done].
    exists bs, fs. split; [|done]. split; [done|]. by exists lates.
Qed.

Lemma simple_laws : @SessionLaws _ _ session.
Proof.
  split; intros c conn t r c' conn' t'; cbn [execute_query simple_session]; unfold simple_query.
  all: destruct (is_insert _); [unfold simple_insert; rewrite abc_block_ok by done|unfold simple_select].
  1, 3: destruct (mpsc_channel 4 t) as [[tx rec] t1]; unfold set_out, write_block;
    destruct (write_message conn _) as [[[]|e| |] conn1]; by intros [= <- <- <- <-].
  all: destruct (send_blocks _ _ _ _ _ _) as [[r1 conn1] t1]; by intros [= <- <- <- <-].
Qed.

(** ** A query without faults *)

Lemma wrote_wrote conn bs1 bs2 : wrote (wrote conn bs1) bs2 = wrote conn (bs1 ++ bs2).
Proof. unfold wrote. cbn. by rewrite app_assoc. Qed.

Lemma wrote_nil conn : faults (stream conn) = [] -> wrote conn [] = conn.
Proof. destruct conn as [? [i o f] ? ? ?]. cbn. intros ->. unfold wrote. cbn. by rewrite app_nil_r. Qed.

Lemma write_message_ok m e conn :
  m = Ok e -> faults (stream conn) = [] -> write_message conn m = (Ok tt, wrote conn (part m)).
Proof. intros -> Hf. cbn. unfold write_bytes. by rewrite Hf. Qed.

Section Client.
Context `{!Lz4Laws}.

Lemma progress_message_ok revision : progress_message revision = Ok (Progress.bytes_of revision simple_progress).
Proof. unfold progress_message. by rewrite Progress.progress_write_bytes. Qed.

Lemma numbers_typed tz : block_ok tz 14 numbers.
Proof.
  split; [|reflexivity|lia|done|reflexivity]. apply Forall_singleton. split; [|by vm_compute].
  split; [done|]. split; [done|]. split; [split; [lia|by apply Z.leb_le]|].
  apply Forall_forall. intros x (i & Hi)%list_elem_of_lookup. apply lookup_seqZ in Hi as [-> Hi].
  apply in_u_spec. lia.
Qed.

Lemma numbers_sendable compress : sendable compress 14 (sent numbers).
Proof. intros _. by split; [apply Z.ltb_lt|apply Z.leb_le]; vm_compute. Qed.

Lemma data_message_ok compress :
  data_message compress numbers = Ok (data_bytes SERVER_DATA compress 14 numbers).
Proof.
  unfold data_message, send_server_data. by rewrite (send_data_ok SERVER_DATA Zulu 14) by
    (done || apply numbers_typed || apply numbers_sendable).
Qed.

Lemma send_blocks_ok n revision conn t :
  (n <= 10)%nat -> faults (stream conn) = [] ->
  exists lates t', length lates = n /\
    send_blocks last_progress_send (S n) (mkStream_ (10 - Z.of_nat n) 10 24 10) revision conn t =
      (Ok tt, wrote conn (concat (reply (compress conn) revision <$> lates)), t').
Proof.
  revert conn t. induction n as [|n IH]; intros conn t Hn Hf.
  - exists [], t. split; [done|]. cbn [fmap list_fmap concat]. by rewrite wrote_nil.
  - remember (S n) as n1. cbn [send_blocks]. subst n1.
    replace (10 - Z.of_nat (S n)) with (9 - Z.of_nat n) by lia. rewrite poll_next_ok by lia.
    unfold write_block, write_progress. fold (data_message (compress conn) numbers) (progress_message revision).
    rewrite (write_message_ok _ _ _ (data_message_ok (compress conn)) Hf). cbn [fst snd].
    set (t1 := sleep 100000000 t).
    destruct (10000000 <=? elapsed last_progress_send t1).
    + rewrite (write_message_ok _ _ _ (progress_message_ok revision)) by done. rewrite wrote_wrote.
      destruct (IH (wrote conn (part (data_message (compress conn) numbers) ++ part (progress_message revision))) t1)
        as (lates & t' & Hl & ->); [lia|done|].
      exists (true :: lates), t'. split; [by cbn; rewrite Hl|]. by rewrite wrote_wrote.
    + destruct (IH (wrote conn (part (data_message (compress conn) numbers))) t1)
        as (lates & t' & Hl & ->); [lia|done|].
      exists (false :: lates), t'. split; [by cbn; rewrite Hl|]. rewrite wrote_wrote.
      assert (reply (compress conn) revision false = part (data_message (compress conn) numbers)) as Hr
        by apply app_nil_r.
      by rewrite <- Hr.
Qed.

(** ** The client *)

Inductive server_packet := PData (b : Block) | PProgress (p : Progress.t).

(** What a client of revision [revision] reads up to the end of the stream;
    [fuel] bounds the packets. *)
Fixpoint client_answer {R} `{Read R} (fuel : nat) (tz : Tz) (compress : bool) (revision : Z)
  : rd R (list server_packet) :=
  match fuel with
  | O => lift OutOfFuel
  | S fuel =>
    packet ← read_uvarint;
    if packet =? SERVER_DATA then
      _ ← read_string;
      block ← load tz compress;
      rest ← client_answer fuel tz compress revision;
      mret (PData block :: rest)
    else if packet =? SERVER_PROGRESS then
      rows ← read_uvarint;
      bytes ← read_uvarint;
      total ← read_uvarint;
      _ ← (if DBMS_MIN_REVISION_WITH_CLIENT_WRITE_INFO <=? revision
           then _ ← read_uvarint; read_uvarint else mret 0);
      rest ← client_answer fuel tz compress revision;
      mret (PProgress (Progress.mk rows bytes total) :: rest)
    else if packet =? SERVER_END_OF_STREAM then mret []
    else lift (Err (Error.Driver (DriverError.UnknownPacket packet)))
  end.

(** The answer: the numbers ten times, with progress where it was late. *)
Definition answered (numbers' : Block) (lates : list bool) : list server_packet :=
  concat ((fun late : bool => PData numbers' :: if late then [PProgress simple_progress] else []) <$> lates).

Lemma parses_data {R} `{ReadLaws R} tz compress revision fuel numbers' more rest :
  parses (R:=R) (load tz compress) (wire_bytes compress 14 (sent numbers)) numbers' ->
  parses (R:=R) (client_answer fuel tz compress revision) more rest ->
  parses (R:=R) (client_answer (S fuel) tz compress revision)
    (part (data_message compress numbers) ++ more) (PData numbers' :: rest).
Proof.
  intros Hl Hm. rewrite data_message_ok. unfold part, get_buffer, data_bytes. rewrite <- !app_assoc.
  cbn [client_answer]. eapply parses_bind; [done|by apply parses_uvarint|]. cbn beta.
  change (SERVER_DATA =? SERVER_DATA) with true. cbv iota.
  eapply parses_bind; [done|by apply str_ok_parses|].
  eapply parses_bind; [done|exact Hl|].
  eapply parses_bind; [symmetry; apply app_nil_r|exact Hm|apply parses_ret].
Qed.

Lemma parses_late {R} `{ReadLaws R} tz compress revision fuel more rest :
  parses (R:=R) (client_answer fuel tz compress revision) more rest ->
  parses (R:=R) (client_answer (S fuel) tz compress revision)
    (part (progress_message revision) ++ more) (PProgress simple_progress :: rest).
Proof.
  intros Hm. rewrite progress_message_ok. unfold part, get_buffer, Progress.bytes_of. rewrite <- !app_assoc.
  cbn [client_answer]. eapply parses_bind; [done|by apply parses_uvarint|]. cbn beta.
  change (SERVER_PROGRESS =? SERVER_DATA) with false. change (SERVER_PROGRESS =? SERVER_PROGRESS) with true.
  cbv iota. do 3 (eapply parses_bind; [done|by apply parses_uvarint|]).
  eapply (parses_bind _ _ _ more _ 0); [reflexivity| |].
  - case_match; [|apply parses_ret].
    eapply parses_bind; [done|by apply parses_uvarint|by apply parses_uvarint].
  - eapply parses_bind; [symmetry; apply app_nil_r|exact Hm|apply parses_ret].
Qed.

Lemma parses_answered {R} `{ReadLaws R} tz compress revision lates :
  exists numbers', same_block (sent numbers) numbers' /\
    parses (R:=R) (client_answer (S (2 * length lates)) tz compress revision)
      (concat (reply compress revision <$> lates) ++ uvarint_bytes SERVER_END_OF_STREAM)
      (answered numbers' lates).
Proof.
  destruct (parses_load (R:=R) tz 14 (sent numbers) compress) as (numbers' & Hl & Hs);
    [apply sent_ok, numbers_typed|apply numbers_sendable|].
  exists numbers'. split; [done|].
  assert (forall fuel, parses (R:=R) (client_answer (S (2 * length lates + fuel)) tz compress revision)
    (concat (reply compress revision <$> lates) ++ uvarint_bytes SERVER_END_OF_STREAM)
    (answered numbers' lates)) as Hp; [|by rewrite <- (Nat.add_0_r (2 * length lates))].
  induction lates as [|late lates IH]; intros fuel.
  - cbn [length Nat.mul Nat.add client_answer fmap list_fmap concat app].
    eapply parses_bind; [symmetry; apply app_nil_r|by apply parses_uvarint|]. apply parses_ret.
  - replace (S (2 * length (late :: lates) + fuel)) with (S (S (2 * length lates + S fuel)))
      by (cbn [length]; lia).
    cbn [fmap list_fmap concat]. unfold reply at 1, answered. rewrite <- !app_assoc. cbn [fmap list_fmap concat].
    apply parses_data; [done|]. destruct late.
    + apply parses_late. replace (2 * length lates + S fuel)%nat with (S (2 * length lates + fuel)) by lia.
      apply IH.
    + apply IH.
Qed.

(** A query that is not an insert, on a connection that accepts what is written. *)
Lemma simple_select_answers c conn t :
  is_insert (query (state c)) = false -> faults (stream conn) = [] -> out (state c) = None ->
  exists lates t', length lates = 10%nat /\
    simple_query last_progress_send c conn t =
      (Ok tt, c, wrote conn (concat (reply (compress conn) (client_revision c) <$> lates)), t').
Proof.
  intros Hi Hf Ho. unfold simple_query, simple_select. rewrite Hi.
  destruct (send_blocks_ok 10 (client_revision c) conn t) as (lates & t' & Hl & Hs); [done|done|].
  exists lates, t'. split; [done|]. change (10 - Z.of_nat 10) with 0 in Hs. unfold simple_stream. by rewrite Hs.
Qed.
End Client.

(** ** The task of an insert *)

(** [n] rounds of the task. *)
Fixpoint task_steps (n : nat) (task : insert_task) (t : Tasks) : option (insert_task * Tasks) :=
  match n with
  | O => Some (task, t)
  | S n => match task_step task t with Some (task, t) => task_steps n task t | None => None end
  end.

(** A receiver as a queue: the blocks that wait, and whether the senders are gone. *)
Class Queues := {
  waiting_blocks : Receiver -> Tasks -> list Block;
  hung_up : Receiver -> Tasks -> Prop;
  recv_block rec b bs t :
    waiting_blocks rec t = b :: bs ->
    exists t', recv_poll rec t = Some (Some b, t') /\ waiting_blocks rec t' = bs /\
      (hung_up rec t -> hung_up rec t');
  recv_end rec t :
    waiting_blocks rec t = [] -> hung_up rec t -> exists t', recv_poll rec t = Some (None, t')
}.

(** The rows of some blocks together. *)
Definition total_rows (ns : list Z) : Z := foldr Z.add 0 ns.

Lemma task_counts `{!Queues} rec n bs ns rows t :
  waiting_blocks rec t = bs -> hung_up rec t ->
  Forall2 (fun b k => row_count b = Ok k /\ 0 <= k) bs ns -> 0 <= rows ->
  rows + total_rows ns < 2 ^ 64 ->
  exists t', task_steps (S (length bs)) (Counting rows rec n) t =
    Some (Counted (rows + total_rows ns), drop_receiver rec (notify_one n t')).
Proof.
  intros Hw Hh Hbs. revert rows t Hw Hh. induction Hbs as [|b k bs ns [Hk Hpos] Hbs IH]; intros rows t Hw Hh Hr Hm.
  - destruct (recv_end rec t Hw Hh) as (t' & Ht). exists t'. cbn. rewrite Ht. by rewrite Z.add_0_r.
  - destruct (recv_block rec b bs t Hw) as (t1 & Ht & Hw1 & Hh1).
    assert (0 <= total_rows ns) as Hns.
    { clear -Hbs. induction Hbs as [|? ? ? ? [_ ?] _ IH]; cbn; [lia|]. unfold total_rows in IH. lia. }
    cbn [total_rows foldr] in Hm. fold (total_rows ns) in Hm.
    destruct (IH (rows + k) t1 Hw1 (Hh1 Hh)) as (t' & Hsteps); [lia|lia|].
    exists t'. cbn [length task_steps task_step]. rewrite Ht, Hk. cbn [mbind outcome_bind].
    unfold arith_u. replace (in_u 64 (rows + k)) with true by (symmetry; apply in_u_spec; lia).
    cbn [task_steps] in Hsteps. rewrite Hsteps. change (total_rows (k :: ns)) with (k + total_rows ns). by rewrite Z.add_assoc.
Qed.
End Laws.
