(* ===== verification/Conversation.v ===== *)
(** * A conversation with the example server

    A client says hello and sends pings and queries, in pieces of any size, and
    then closes its side.  The server answers everything in its order and ends.
    This puts together the framing of packets, the parser, the handshake, the
    compression that each query asks for, and the answers of the session. *)

From stdpp Require Import relations.
From S2P Require Import Prelude RustStd Errors Scalars Encoder ReadEx Stable Finite.
From S2P Require Import Protocol SqlType TypeNames DecimalNum Values StringPool Columns.
From S2P Require Import ColumnLaws Compressed Block BlockLaws Chunks Connection Server ServerLaws.
From S2P Require Import Insert Spec Refinement Simple SimpleLaws.
Local Open Scope Z_scope.

Section Reading.
Context {P : Profile} `{ChronoTz, Combine, Lz4} `{!Tokio Block}.

(** ** Pieces of a packet *)

(** Reads behind those that make up a packet stay unread. *)
Lemma read_packet_more self ctx reads more :
  match read_packet self ctx reads with
  | (self', rest, Ready r) =>
    read_packet self ctx (reads ++ more) = (self', rest ++ more, Ready r) /\ exists used, reads = used ++ rest
  | (_, _, Pending) => True
  end.
Proof.
  revert self. induction reads as [|x reads IH]; intros self; cbn [app read_packet].
  - destruct (conn_parse_packet self ctx) as [[[p|] self']| | |] eqn:Hp; try done;
      (split; [|by exists []]); destruct more as [|[[|]|] ?]; cbn [read_packet]; by rewrite Hp.
  - destruct (conn_parse_packet self ctx) as [[[p|] self']| | |] eqn:Hp; try (by split; [|exists []]).
    destruct x as [[|b bs]|e]; [by split; [|exists [inl []]]| |by split; [|exists [inr e]]].
    specialize (IH (set_buffer self' (buffer self' ++ b :: bs) (compress self'))).
    destruct (read_packet _ _ reads) as [[self2 rest] [r|]]; [|done].
    destruct IH as [IH [used ->]]. split; [exact IH|]. by exists (inl (b :: bs) :: used).
Qed.

(** A connection that has [rest] to read, in its buffer and in pieces, before the
    client closes its side; what is written is accepted. *)
Record holding (conn : Connection) (chunks : list bytes) (rest : bytes) : Prop := {
  ho_incoming : incoming (stream conn) = (inl <$> chunks) ++ [inl []];
  ho_faults : faults (stream conn) = [];
  ho_pieces : Forall (fun c => c <> []) chunks;
  ho_rest : buffer conn ++ concat chunks = rest;
  ho_small : Z.of_nat (length rest) < 2 ^ 32
}.

Lemma wrote_holding conn chunks rest bs : holding conn chunks rest -> holding (wrote conn bs) chunks rest.
Proof. intros []. by split. Qed.

Context `{!ClickHouseSession}.

(** The next packet, whatever the pieces that it comes in. *)
Lemma read_step_holding c conn t chunks bs rest packet :
  holding conn chunks (bs ++ rest) ->
  parses (R:=bytes) (parse_packet (tz conn) (hello c) (compress conn)) bs packet ->
  exists conn' chunks', read_step c conn t = Some (apply packet c conn' t) /\ holding conn' chunks' rest /\
    tz conn' = tz conn /\ outgoing (stream conn') = outgoing (stream conn) /\
    compress conn' = match packet with Query q => 0 <? QueryRequest.compression q | _ => compress conn end.
Proof.
  intros [Hi Hf Hp Hr Hs] Hparse. apply (parses_cursor _ _ _ rest) in Hparse.
  pose proof (read_packet_agrees conn c chunks Hp ltac:(by rewrite Hr)) as Ha.
  pose proof (read_packet_more conn c (inl <$> chunks) [inl []]) as Hmore.
  set (k := match packet with Query q => 0 <? QueryRequest.compression q | _ => compress conn end).
  assert (conn_parse_packet (filled conn chunks) c = Ok (Some packet, set_buffer conn rest k)) as Hc.
  { unfold conn_parse_packet, filled. cbn [set_buffer tz compress buffer]. by rewrite Hr, Hparse. }
  rewrite Hc in Ha.
  destruct Ha as (chunks' & buf & Hread & Hbuf). rewrite Hread in Hmore. destruct Hmore as [Hmore [used Hused]].
  unfold read_step. rewrite Hi, Hmore. eexists _, chunks'. split; [reflexivity|].
  cbn in Hbuf. split; [|by split_and!]. split; cbn; [done|done| |done|].
  - apply Forall_forall. intros x Hx. rewrite Forall_forall in Hp. apply Hp.
    assert (inl x ∈ (inl <$> chunks : list (bytes + io_error))) as Hin.
    { rewrite Hused. apply elem_of_app. right. by apply list_elem_of_fmap_2. }
    apply list_elem_of_fmap in Hin as (y & [= ->] & Hy). done.
  - rewrite length_app in Hs. lia.
Qed.

(** The end of the stream behind the last packet. *)
Lemma read_step_end c conn t chunks :
  holding conn chunks [] ->
  exists s, read_step c conn t = Some s /\ pc s = Finished (Ok tt) /\
    outgoing (stream (connection s)) = outgoing (stream conn).
Proof.
  intros [Hi _ Hp Hr _]. apply app_eq_nil in Hr as [Hb Hc].
  destruct chunks as [|x chunks]; [|by apply Forall_cons in Hp as [Hx _]; destruct x].
  unfold read_step. rewrite Hi. cbn [fmap list_fmap app read_packet].
  assert (conn_parse_packet conn c = Ok (None, conn)) as ->.
  { unfold conn_parse_packet. by rewrite Hb. }
  rewrite bool_decide_true by done. destruct (reset_context c t) as [c' t']. eexists. by split_and!.
Qed.
End Reading.

(** ** The client *)

Inductive heard `{ChronoTz} := HPong | HAnswer (packets : list server_packet).

Section Client.
Context {P : Profile} `{ChronoTz, Combine, Lz4} {R} `{Read R}.

(** What a client of the example server asks for: pings, and queries that are no
    inserts. *)
Definition ask_ok (tz : Tz) (q : request) : Prop :=
  match q with
  | RPing => True
  | RQuery q ss => request_ok tz false (RQuery q ss) /\ is_insert (QueryRequest.query q) = false
  | _ => False
  end.

(** How it reads the answer. *)
Definition hear (tz : Tz) (revision : Z) (q : request) : rd R heard :=
  match q with
  | RQuery q _ =>
    packets ← client_answer 21 tz (0 <? QueryRequest.compression q) revision; mret (HAnswer packets)
  | _ =>
    packet ← read_uvarint;
    if packet =? SERVER_PONG then mret HPong
    else lift (Err (Error.Driver (DriverError.UnknownPacket packet)))
  end.

Fixpoint hear_all (tz : Tz) (revision : Z) (qs : list request) : rd R (list heard) :=
  match qs with
  | [] => mret []
  | q :: qs => x ← hear tz revision q; xs ← hear_all tz revision qs; mret (x :: xs)
  end.

(** The answer to the hello, and those to what follows. *)
Definition client_conversation (tz : Tz) (revision : Z) (qs : list request)
  : rd R (Z * HelloResponse.t * list heard) :=
  response ← HelloResponse.client_read revision;
  answers ← hear_all tz revision qs;
  mret (response, answers).
End Client.

(** Ten blocks of the numbers, with progress behind some of them. *)
Definition answers `{ChronoTz} (q : request) (x : heard) : Prop :=
  match q, x with
  | RPing, HPong => True
  | RQuery _ _, HAnswer packets =>
    exists numbers' lates, length lates = 10%nat /\ same_block (sent numbers) numbers' /\
      packets = answered numbers' lates
  | _, _ => False
  end.

Section Talk.
Context {P : Profile} `{ChronoTz, Combine, Lz4, !Lz4Laws} `{!Tokio Block} `{!Runtime, !Spawn}.
Context (last_progress_send : Instant).

#[local] Instance talker : ClickHouseSession := simple_session last_progress_send.

(** ** One request *)

(** The server before a request: it said hello, and no insert is open. *)
Definition greeted (h : HelloRequest.t) (revision : Z) (c : CHContext) : Prop :=
  hello c = Some h /\ client_revision c = revision /\ out (state c) = None.

Lemma run_ask h revision zone c conn t chunks q rest :
  greeted h revision c -> holding conn chunks (request_bytes h false q ++ rest) -> ask_ok (tz conn) q ->
  exists c' conn' chunks' t' bs x, run_step (mkServer Reading c conn t) = Some (mkServer Reading c' (wrote conn' bs) t') /\
    greeted h revision c' /\ holding conn' chunks' rest /\ tz conn' = tz conn /\
    outgoing (stream conn') = outgoing (stream conn) /\
    parses (R:=bytes) (hear zone revision q) bs x /\ answers q x.
Proof.
  intros (Hh & Hrev & Ho) Hc Hq. destruct q as [| |h'|q ss|scalar table n b]; try done; cbn [request_bytes] in Hc.
  - destruct (read_step_holding c conn t chunks (uvarint_bytes CLIENT_PING) rest Ping Hc)
      as (conn' & chunks' & Hs & Hc' & Htz & Hout & _).
    { rewrite <- (app_nil_r (uvarint_bytes _)). apply parses_number; [done|apply parses_ret]. }
    exists c, conn', chunks', t, (uvarint_bytes SERVER_PONG), HPong. split_and!; try done.
    + cbn [run_step]. rewrite Hs. cbn [apply].
      by rewrite (flush_ok _ _ _ _ (uvarint_bytes SERVER_PONG)) by (done || by apply uvarint_ok || apply Hc').
    + cbn [hear]. eapply parses_bind; [symmetry; apply app_nil_r|by apply parses_uvarint|]. apply parses_ret.
  - destruct Hq as [Hok Hi].
    destruct (parses_packet (R:=bytes) (tz conn) h (hello c) (compress conn) (RQuery q ss) Hok Hh) as (p & Hp & Hr).
    destruct p as [| | |q'|]; try done. cbn [receives] in Hr. subst q'.
    destruct (read_step_holding c conn t chunks _ rest _ Hc Hp) as (conn' & chunks' & Hs & Hc' & Htz & Hout & Hk).
    change (QueryRequest.compression (QueryRequest.received h q)) with (QueryRequest.compression q) in Hk.
    set (c' := set_query c (QueryRequest.query q) (QueryRequest.compression q)).
    destruct (simple_select_answers last_progress_send c' conn' t) as (lates & t' & Hl & Hans); [done|apply Hc'|done|].
    destruct (parses_answered (R:=bytes) zone (compress conn') revision lates) as (numbers' & Hsame & Hparse).
    set (bs := concat (reply (compress conn') (client_revision c') <$> lates)) in Hans.
    exists c', conn', chunks', t', (bs ++ uvarint_bytes SERVER_END_OF_STREAM), (HAnswer (answered numbers' lates)).
    split_and!; try done.
    + cbn [run_step]. rewrite Hs.
      rewrite (apply_select (QueryRequest.received h q) c conn' t c' (wrote conn' bs) t'); [|exact Hans|done|done].
      by rewrite wrote_wrote.
    + cbn [hear]. rewrite <- Hk. rewrite Hl in Hparse. subst bs. change (client_revision c') with (client_revision c).
      rewrite Hrev. eapply parses_bind; [symmetry; apply app_nil_r|exact Hparse|]. apply parses_ret.
    + by exists numbers', lates.
Qed.

(** ** All of them *)

Definition asks_bytes (h : HelloRequest.t) (qs : list request) : bytes := concat (request_bytes h false <$> qs).

Lemma run_asks h revision zone c conn t chunks qs :
  greeted h revision c -> holding conn chunks (asks_bytes h qs) -> Forall (ask_ok (tz conn)) qs ->
  exists s bs xs, run_steps (S (length qs)) (mkServer Reading c conn t) = Some s /\ pc s = Finished (Ok tt) /\
    outgoing (stream (connection s)) = outgoing (stream conn) ++ bs /\
    parses (R:=bytes) (hear_all zone revision qs) bs xs /\ Forall2 answers qs xs.
Proof.
  revert c conn t chunks. induction qs as [|q qs IH]; intros c conn t chunks Hg Hc Hqs.
  - destruct (read_step_end c conn t chunks Hc) as (s & Hs & Hp & Hout).
    exists s, [], []. cbn [length run_steps run_step]. rewrite Hs. split_and!; [done|done|by rewrite app_nil_r|apply parses_ret|constructor].
  - apply Forall_cons in Hqs as [Hq Hqs]. unfold asks_bytes in Hc. cbn [fmap list_fmap concat] in Hc.
    destruct (run_ask h revision zone c conn t chunks q _ Hg Hc Hq)
      as (c' & conn' & chunks' & t' & bs & x & Hs & Hg' & Hc' & Htz & Hout & Hp & Hx).
    destruct (IH c' (wrote conn' bs) t' chunks') as (s & bs' & xs & Hn & Hfin & Hout' & Hps & Hxs);
      [done|by apply wrote_holding|by rewrite <- Htz in Hqs|].
    exists s, (bs ++ bs'), (x :: xs). split_and!; [|done| | |by constructor].
    + change (run_steps (S (length (q :: qs))) (mkServer Reading c conn t))
        with (match run_step (mkServer Reading c conn t) with Some s => run_steps (S (length qs)) s | None => None end).
      by rewrite Hs.
    + rewrite Hout'. cbn [wrote set_stream stream outgoing]. by rewrite Hout, app_assoc.
    + cbn [hear_all]. eapply parses_bind; [reflexivity|exact Hp|].
      eapply parses_bind; [symmetry; apply app_nil_r|exact Hps|apply parses_ret].
Qed.

(** What the client sends, in pieces, before it closes its side. *)
Definition client_stream (chunks : list bytes) : Stream := mkStream ((inl <$> chunks) ++ [inl []]) [] [].

Lemma run_conversation h zone zone' chunks qs t :
  tz_parse (lit "UTC") = inr zone ->
  HelloRequest.ok h = true -> Forall (ask_ok zone) qs ->
  Forall (fun c => c <> []) chunks -> Z.of_nat (length (concat chunks)) < 2 ^ 32 ->
  concat chunks = request_bytes h false (RHello h) ++ asks_bytes h qs ->
  let revision := Z.min 54405 (HelloRequest.client_revision h) in
  exists s0 s xs, run (client_stream chunks) t = Ok s0 /\
    run_steps (2 + length qs) s0 = Some s /\ pc s = Finished (Ok tt) /\
    client_conversation (R:=bytes) zone' revision qs (outgoing (stream (connection s))) =
      Ok (SERVER_HELLO, HelloResponse.visible revision hello_response, xs, []) /\
    Forall2 answers qs xs.
Proof.
  intros Hz Hh Hqs Hpieces Hsmall Hbytes revision.
  unfold run, connection_new. cbn [timezone talker simple_session]. rewrite Hz.
  unfold state_default. destruct (new_notify t) as [n t1]. cbn [mbind outcome_bind].
  set (q0 := mkState _ _ _ _ _ _ _ _ _). set (conn0 := mkConnection _ _ _ _ _).
  assert (holding conn0 chunks (request_bytes h false (RHello h) ++ asks_bytes h qs)) as Hc
    by (split; [done..|by rewrite <- Hbytes]).
  destruct (read_step_holding (context_new q0) conn0 t1 chunks _ _ (Hello h) Hc)
    as (conn1 & chunks1 & Hs1 & Hc1 & Htz1 & Hout1 & _).
  { cbn [request_bytes]. apply parses_number; [done|].
    eapply parses_bind; [symmetry; apply app_nil_r| |apply parses_ret]. by apply HelloRequest.parses_hello. }
  set (c1 := mkContext q0 revision (Some h)).
  set (hb := HelloResponse.bytes_of revision hello_response).
  destruct (run_asks h revision zone' c1 (wrote conn1 hb) t1 chunks1 qs) as (s & bs & xs & Hn & Hfin & Hout & Hp & Hxs);
    [by split_and!|by apply wrote_holding|by (change (tz (wrote conn1 hb)) with (tz conn1); rewrite Htz1)|].
  eexists _, s, xs. split; [reflexivity|]. split_and!; [|done| |done].
  - change (run_steps (2 + length qs) (mkServer Reading (context_new q0) conn0 t1))
      with (match run_step (mkServer Reading (context_new q0) conn0 t1) with
            | Some s => run_steps (S (length qs)) s | None => None end).
    cbn [run_step]. rewrite Hs1. cbn [apply]. unfold apply_hello. fold revision.
    by rewrite (flush_ok _ _ _ _ hb) by (done || apply Hc1 || by rewrite HelloResponse.hello_encode_bytes).
  - rewrite Hout. cbn [wrote set_stream stream outgoing]. rewrite Hout1. cbn [app conn0 stream client_stream outgoing].
    rewrite <- (app_nil_r (hb ++ bs)). apply parses_cursor. unfold client_conversation.
    eapply parses_bind; [reflexivity|by apply HelloResponse.hello_client_reads|].
    eapply parses_bind; [symmetry; apply app_nil_r|exact Hp|apply parses_ret].
Qed.
End Talk.
