(* ===== verification/Instances.v ===== *)
(** * Instances of the parameters

    Concrete functions for the third-party code that the other files take as
    parameters, each satisfying what is assumed of it: instants as nanoseconds,
    character parsers with one character of lookahead, a compressor that stores,
    a channel with a consumer.  They show that the hypotheses can hold. *)

From S2P Require Import Prelude RustStd Errors Scalars Encoder ReadEx Protocol SqlType.
From S2P Require Import TypeNames DecimalNum Values StringPool Columns ColumnLaws.
From stdpp Require Import relations.
From S2P Require Import Compressed Block BlockLaws Compare Text ClientOptions.
From S2P Require Iter.
From S2P Require Import Connection Server ServerLaws Liveness Spec Refinement Simple SimpleLaws.
Local Open Scope Z_scope.

(** The two build profiles. *)
Definition release : Profile := false.
Definition debug : Profile := true.

(** ** Time *)

Inductive zone := ZUTC | ZShanghai | ZLima.

#[global] Instance zone_eq_dec : EqDecision zone.
Proof. solve_decision. Defined.

(** The seconds that local time is ahead. *)
Definition zone_offset (z : zone) : Z :=
  match z with ZUTC => 0 | ZShanghai => 28800 | ZLima => -18000 end.

(** An instant is its nanoseconds since the epoch, with a zone; a date is its
    days since the epoch, with a zone. *)
Definition chrono : ChronoTz := {|
  Tz := zone;
  tz_debug z :=
    match z with
    | ZUTC => lit "UTC" | ZShanghai => lit "Asia/Shanghai" | ZLima => lit "America/Lima"
    end;
  tz_parse s :=
    if decide (s = lit "UTC") then inr ZUTC
    else if decide (s = lit "Asia/Shanghai") then inr ZShanghai
    else if decide (s = lit "America/Lima") then inr ZLima
    else inl (lit "not a valid timezone");
  Zulu := ZUTC;
  DateTime := Z * zone;
  tz_timestamp z s n := Some (s * 1000000000 + n, z);
  dt_timezone d := d.2;
  dt_with_timezone d z := (d.1, z);
  dt_timestamp d := d.1 / 1000000000;
  dt_timestamp_nanos d := if in_s 64 d.1 then Some d.1 else None;
  dt_eqb d1 d2 := d1.1 =? d2.1;
  AppDate := Z * zone;
  dt_date d := ((d.1 / 1000000000 + zone_offset d.2) / 86400, d.2);
  date_timezone d := d.2;
  num_days_from_ce d := d.1 + 719163;
  date_eqb d1 d2 := d1.1 =? d2.1
|}.

(** The days and the seconds and nanoseconds of the day, four bytes each, the
    number of the zone and two bytes of padding. *)
Definition instants : @Iter.InstantLayout chrono := fun d =>
  let '(ns, z) := d in
  (Some <$> marshal i32 (ns / 86400000000000) ++ marshal u32 (ns / 1000000000 mod 86400) ++
            marshal u32 (ns mod 1000000000) ++
            marshal u16 (match z with ZUTC => 0 | ZShanghai => 1 | ZLima => 2 end)) ++ [None; None].

(** ** Parsers *)

(** The value and the rest, or a failure; the flag: input was consumed. *)
Definition ll1 (A : Type) : Type := bytes -> option (A * bytes) * bool.

Definition ll1_satisfy (f : byte -> bool) : ll1 bytes := fun s =>
  match s with
  | b :: s => if f b then (Some ([b], s), true) else (None, false)
  | [] => (None, false)
  end.

Definition ll1_bind {A B} (p : ll1 A) (f : A -> ll1 B) : ll1 B := fun s =>
  match p s with
  | (Some (a, s), c) => let '(r, c') := f a s in (r, c || c')
  | (None, c) => (None, c)
  end.

Definition ll1_ret {A} (a : A) : ll1 A := fun s => (Some (a, s), false).

Definition ll1_or {A} (p q : ll1 A) : ll1 A := fun s =>
  match p s with (None, false) => q s | r => r end.

Fixpoint ll1_many (fuel : nat) (p : ll1 bytes) : ll1 bytes :=
  match fuel with
  | O => ll1_ret []
  | S fuel =>
    ll1_or (ll1_bind p (fun b => ll1_bind (ll1_many fuel p) (fun bs => ll1_ret (b ++ bs))))
      (ll1_ret [])
  end.

Fixpoint ll1_sep {A B} (fuel : nat) (p : ll1 A) (q : ll1 B) : ll1 (list A) :=
  match fuel with
  | O => ll1_ret []
  | S fuel =>
    ll1_or (ll1_bind q (fun _ => ll1_bind p (fun a =>
      ll1_bind (ll1_sep fuel p q) (fun l => ll1_ret (a :: l))))) (ll1_ret [])
  end.

Fixpoint ll1_string (w : bytes) : ll1 bytes :=
  match w with
  | [] => ll1_ret []
  | b :: w => ll1_bind (ll1_satisfy (fun c => bool_decide (c = b)))
                (fun x => ll1_bind (ll1_string w) (fun y => ll1_ret (x ++ y)))
  end.

Definition combine_ll1 : Combine := {|
  parser := ll1;
  token w := ll1_string w;
  any := ll1_satisfy (fun _ => true);
  none_of ws := ll1_satisfy (fun b => bool_decide ([b] ∉ ws));
  digit_ := ll1_satisfy (fun b => is_digit b);
  spaces := fun s => ll1_bind (ll1_many (length s) (ll1_satisfy (fun b => bool_decide (b = x20))))
                       (fun _ => ll1_ret tt) s;
  string_ := ll1_string;
  many p := fun s => ll1_many (length s) p s;
  many1 p := fun s =>
    ll1_bind p (fun x => ll1_bind (ll1_many (length s) p) (fun y => ll1_ret (x ++ y))) s;
  optional A p := ll1_or (ll1_bind p (fun a => ll1_ret (Some a))) (ll1_ret None);
  sep_by1 A B p q := fun s =>
    ll1_bind p (fun a => ll1_bind (ll1_sep (length s) p q) (fun l => ll1_ret (a :: l))) s;
  and_ A B p q := ll1_bind p (fun a => ll1_bind q (fun b => ll1_ret (a, b)));
  with_ A B p q := ll1_bind p (fun _ => q);
  skip A B p q := ll1_bind p (fun a => ll1_bind q (fun _ => ll1_ret a));
  or_ A p q := ll1_or p q;
  and_then A B p f :=
    fun s => match p s with
             | (Some (a, s), c) => (match f a with Some b => Some (b, s) | None => None end, c)
             | (None, c) => (None, c)
             end;
  parse A p s := (p s).1
|}.

(** ** Compression *)

(** A checksum of the bytes, and blocks that are stored as they are. *)
Definition store : Lz4 := {|
  city_hash_128 bs := (wrapu 64 (le_Z bs), Z.of_nat (length bs) mod 2 ^ 64);
  LZ4_compressBound n := if (0 <=? n) && (n <=? LZ4_MAX_INPUT_SIZE) then n + n / 255 + 16 else 0;
  LZ4_compress_default src _ capacity := if Z.of_nat (length src) <=? capacity then src else [];
  LZ4_decompress_safe src _ _ := Some src
|}.

Lemma store_laws : @Lz4Laws store.
Proof.
  assert (forall n, 0 <= n -> 0 <= n / 255) as Hdiv by (intros; apply Z.div_pos; lia).
  split; cbn.
  - intros bs. unfold wrapu. split; apply in_u_spec, Z.mod_pos_bound; lia.
  - intros n Hn. by replace ((0 <=? n) && (n <=? LZ4_MAX_INPUT_SIZE)) with true by lia.
  - intros src capacity Hl.
    replace ((0 <=? Z.of_nat (length src)) && (Z.of_nat (length src) <=? LZ4_MAX_INPUT_SIZE))
      with true by lia.
    pose proof (Hdiv (Z.of_nat (length src))). case_match; cbn; lia.
  - intros src capacity Hl.
    replace ((0 <=? Z.of_nat (length src)) && (Z.of_nat (length src) <=? LZ4_MAX_INPUT_SIZE))
      with true by lia.
    pose proof (Hdiv (Z.of_nat (length src))). intros Hc.
    by replace (Z.of_nat (length src) <=? capacity) with true by lia.
Qed.

(** ** Tasks *)

#[local] Existing Instances release chrono combine_ll1 store.

(** One channel for four blocks, the blocks that its receiver took, whether the
    sender is still there, and the permit of the [Notify]. *)
Record sink := mkSink {
  queue : list Block;
  taken : list Block;
  sender_alive : bool;
  permit : bool
}.

Definition tokio : Tokio Block := {|
  Tasks := sink;
  Sender := unit;
  Notify := unit;
  new_notify t := (tt, t);
  send_poll _ b t :=
    if (length (queue t) <? 4)%nat
    then Some (inl (mkSink (queue t ++ [b]) (taken t) (sender_alive t) (permit t))) else None;
  drop_sender _ t := mkSink (queue t) (taken t) false (permit t);
  notified_poll _ t :=
    if permit t then Some (mkSink (queue t) (taken t) (sender_alive t) false) else None
|}.

(** The task that a session starts for an insert: it takes the blocks, and
    notifies the server when the sender is gone. *)
Inductive consumer : sink -> sink -> Prop :=
| consumer_take b q tk a p : consumer (mkSink (b :: q) tk a p) (mkSink q (tk ++ [b]) a p)
| consumer_done tk p : consumer (mkSink [] tk false p) (mkSink [] tk false true).

#[local] Existing Instance tokio.

(** A session that accepts inserts and answers everything else with nothing. *)
Definition insert_query (c : CHContext) (conn : Connection) (t : sink)
  : Result unit * CHContext * Connection * sink :=
  let q := state c in
  if starts_with (query q) (lit "INSERT") then
    (Ok tt,
     mkContext (mkState (query_id q) (stage q) (compression q) (query q) (is_cancelled q)
       (is_connection_closed q) (is_empty_ q) (sent_all_data q) (Some tt))
       (client_revision c) (hello c), conn, mkSink (queue t) (taken t) true (permit t))
  else (Ok tt, c, conn, t).

Definition session : ClickHouseSession := session_defaults insert_query.

#[local] Existing Instance session.

Lemma session_laws : SessionLaws.
Proof.
  split; cbn; unfold insert_query; intros c conn t r c' conn' t'; case_match; by intros [= <- <- <- <-].
Qed.

(** The task takes every block that waits, and notifies the server. *)
Lemma consumer_takes q tk a p :
  rtc consumer (mkSink q tk a p) (mkSink [] (tk ++ q) a p).
Proof.
  revert tk. induction q as [|b q IH]; intros tk; [by rewrite app_nil_r|].
  eapply rtc_l; [constructor|]. replace (tk ++ b :: q) with ((tk ++ [b]) ++ q) by by rewrite <- app_assoc.
  apply IH.
Qed.

Lemma consumer_alive t t' : rtc consumer t t' -> sender_alive t = false -> sender_alive t' = false.
Proof. induction 1 as [|t1 t2 t3 H12 _ IH]; [done|]. intros Ha. apply IH. by destruct H12. Qed.

Lemma consumer_live : TokioLive consumer.
Proof.
  split.
  - intros [] b [q tk a p]. eexists. split; [apply consumer_takes|]. by eexists.
  - intros [] [] t t' Ht. apply consumer_alive in Ht; [|done]. destruct t' as [q tk a p]. cbn in Ht. subst a.
    exists (mkSink [] (tk ++ q) false true). split; [|by eexists].
    eapply rtc_r; [apply consumer_takes|constructor].
Qed.

Lemma session_writes : SessionWrites.
Proof.
  split; cbn; unfold insert_query; intros c conn t r c' conn' t'; case_match; by intros [= <- <- <- <-].
Qed.

(** It writes nothing. *)
Definition session_answers : Answers := fun text _ _ was_open bs r opened =>
  bs = [] /\ r = Ok tt /\ opened = was_open || starts_with text (lit "INSERT").

#[local] Existing Instance session_answers.

Lemma session_contract : SessionContract.
Proof.
  intros c conn t r c' conn' t'. cbn [execute_query session session_defaults]. unfold insert_query.
  intros Hq. exists [], (faults (stream conn)).
  assert (conn' = conn /\ r = Ok tt) as [-> ->] by (case_match; by injection Hq as <- <- <- <-).
  split; [|destruct conn as [? [] ? ? ?]; cbn; by rewrite app_nil_r].
  split_and!; [done..|]. case_match; injection Hq as <- <-; by rewrite ?orb_true_r, ?orb_false_r.
Qed.

(** The blocks taken and those that wait. *)
Definition deliveries : Deliveries consumer.
Proof.
  refine {| delivered t := taken t ++ queue t |}.
  - intros tx b t t'. cbn. case_match; [|done]. intros [= <-]. cbn. by rewrite app_assoc.
  - done.
  - intros n t t'. cbn. case_match; [|done]. by intros [= <-].
  - intros n t t'. cbn. by intros [= <- <-].
  - intros c conn t r c' conn' t'. cbn. unfold insert_query. case_match; by intros [= <- <- <- <-].
  - intros t t' []; cbn; by rewrite <- ?app_assoc.
Defined.

(** ** The runtime of the example server *)

(** The channel, and the tasks that were started. *)
Record world := mkWorld { channel : sink; running : list (task unit unit) }.

Definition set_channel (w : world) (s : sink) : world := mkWorld s (running w).

Definition tokio_world : Tokio Block := {|
  Tasks := world;
  Sender := unit;
  Notify := unit;
  new_notify w := (tt, w);
  send_poll _ b w :=
    match @send_poll _ tokio tt b (channel w) with
    | Some (inl s) => Some (inl (set_channel w s))
    | Some (inr e) => Some (inr e)
    | None => None
    end;
  drop_sender _ w := set_channel w (@drop_sender _ tokio tt (channel w));
  notified_poll _ w := set_channel w <$> @notified_poll _ tokio tt (channel w)
|}.

(** The clock stands still at the instants' own times. *)
Definition runtime : @Runtime chrono tokio_world :=
  @Build_Runtime chrono tokio_world unit
    (fun _ w => (tt, tt, set_channel w (mkSink [] [] true (permit (channel w)))))
    (fun _ w =>
       match queue (channel w) with
       | b :: q =>
         Some (Some b, set_channel w
           (mkSink q (taken (channel w) ++ [b]) (sender_alive (channel w)) (permit (channel w))))
       | [] => if sender_alive (channel w) then None else Some (None, w)
       end)
    (fun _ w => w)
    (fun _ w => set_channel w (mkSink (queue (channel w)) (taken (channel w)) (sender_alive (channel w)) true))
    Z (fun i _ => i) (fun _ w => w).

Definition spawner : @Spawn chrono tokio_world runtime :=
  @Build_Spawn chrono tokio_world runtime
    (fun task w => mkWorld (channel w) (running w ++ [task]))
    running
    (fun i task w => mkWorld (channel w) (<[i:=task]> (running w))).

Definition queues : @Queues chrono tokio_world runtime.
Proof.
  refine (@Build_Queues chrono tokio_world runtime (fun _ w => queue (channel w))
    (fun _ w => sender_alive (channel w) = false) _ _).
  - intros rec b bs w Hw. cbn. rewrite Hw. by eexists.
  - intros rec w Hw Ha. cbn. rewrite Hw, Ha. by eexists.
Defined.

(** ** Comparisons and URLs *)

Lemma chrono_eq : @ChronoEq chrono.
Proof. split; cbn; intros; by rewrite ?Z.eqb_refl, 1?Z.eqb_sym. Qed.

(** The URLs [tcp://host?key=value&...]: the host and the parameters. *)
Definition pair_of (s : bytes) : bytes * bytes :=
  match split_on "=" s with k :: v :: _ => (k, v) | _ => (s, []) end.

Definition plain_url : UrlCrate := {|
  Url := bytes * list (bytes * bytes);
  url_parse s :=
    if starts_with s (lit "tcp://") then
      match split_on "?" (drop 6 s) with
      | [h; q] => inr (h, pair_of <$> split_on "&" q)
      | _ => inr (drop 6 s, [])
      end
    else inl (lit "relative URL without a base");
  scheme _ := lit "tcp";
  cannot_be_a_base _ := false;
  has_host _ := true;
  url_username _ := [];
  url_password _ := None;
  path_segments _ := Some [];
  port _ := None;
  query_pairs u := u.2;
  set_path u _ := u;
  ClientOptions.set_query u _ := (u.1, []);
  set_port u _ := Some u
|}.

(** ** Texts *)

(** Dates and instants as numbers. *)
Definition plain_text : @TextCrates chrono := {|
  date_text d := show_dec d.1;
  date_ymd d := show_dec d.1;
  datetime_text d := show_dec d.1;
  datetime_ymd_hms d := show_dec (d.1 / 1000000000);
  to_rfc2822 d := show_dec d.1;
  uuid_text u := concat (show_hex ∘ byte_to_Z <$> u)
|}.
