(* ===== verification/UnitTests.v ===== *)
(** * The unit tests of the repository

    The tests next to the code, as programs of the model: each is the [Result] of
    its assertions, and runs to its end here as it does there.  They are run with
    the instances of file Instances, so the tests of what third-party code does
    (the calendar of chrono, the digests of cityhash, the parts of a URL) are not
    among them.  A test with random inputs is a program of its input, and passes
    for every input of the type. *)

From S2P Require Import Prelude RustStd Errors Scalars Encoder ReadEx SqlType TypeNames Floats.
From S2P Require Import DecimalNum Values StringPool ChunkIndex Columns Iter Compressed Block Concat.
From S2P Require Import ColumnFrom Compare Text ClientOptions Conversions Instances.
Local Open Scope Z_scope.

#[local] Existing Instances debug chrono combine_ll1 store plain_text plain_url instants.

(** ** Assertions *)

Definition assert_eq {A} `{EqDecision A} (a b : A) : Result unit := assert_ (bool_decide (a = b)).

Definition assert_text (expected : bytes) (actual : Result bytes) : Result unit :=
  actual ← actual; assert_eq expected actual.

Definition assert_value (a b : Value.t) : Result unit := e ← value_eq a b; assert_ e.

Definition assert_block (a b : Block) : Result unit := e ← block_eq a b; assert_ e.

(** A test that has no assertion left. *)
Definition passed (test : Result unit) : bool := match test with Ok _ => true | _ => false end.

(** The tests of a file, one after the other. *)
Definition all_pass (tests : list (Result unit)) : bool := forallb passed tests.

(** ** [binary/uvarint.rs], [binary/read_ex.rs] *)

Module UvarintTests.
Definition test_put_uvarint : Result unit :=
  let expected : bytes := Z_to_byte <$> [148; 145; 6; 0; 0; 0; 0; 0; 0; 0] in
  let buffer : bytes := replicate 10 (Z_to_byte 0) in
  '(buffer, actual) ← put_uvarint buffer 100500;
  _ ← assert_eq actual 3%nat;
  assert_eq buffer expected.

Definition test_read_uvarint : Result unit :=
  let cursor : bytes := Z_to_byte <$> [194; 10] in
  '(actual, _) ← read_uvarint (R := bytes) cursor;
  assert_eq actual 1346.

Example uvarint_tests : all_pass [test_put_uvarint; test_read_uvarint] = true.
Proof. vm_compute. reflexivity. Qed.
End UvarintTests.

(** ** [types/marshal.rs] *)

Module MarshalTests.
(** One round of the test, for the random value [v]. *)
Definition test_some (t : prim) (v : Z) : Result unit :=
  let buffer := marshal t v in
  u ← unmarshal t buffer;
  assert_eq v u.

Definition test_u8 : Z -> Result unit := test_some u8.
Definition test_u16 : Z -> Result unit := test_some u16.
Definition test_u32 : Z -> Result unit := test_some u32.
Definition test_u64 : Z -> Result unit := test_some u64.
Definition test_i8 : Z -> Result unit := test_some i8.
Definition test_i16 : Z -> Result unit := test_some i16.
Definition test_i32 : Z -> Result unit := test_some i32.
Definition test_i64 : Z -> Result unit := test_some i64.
Definition test_f32 : Z -> Result unit := test_some f32.
Definition test_f64 : Z -> Result unit := test_some f64.
Definition test_bool : Z -> Result unit := test_some bool_.

Lemma test_some_passes t v : prim_ok t v = true -> test_some t v = Ok tt.
Proof.
  intros Hv. unfold test_some. cbn zeta. rewrite unmarshal_marshal by done.
  cbn. unfold assert_eq, assert_. by rewrite bool_decide_true.
Qed.
End MarshalTests.

(** ** [types/value.rs] *)

Module ValueTests.
(** One round of the test, for the random value [value]. *)
Definition test_from_rnd (t : prim) (value : Z) : Result unit :=
  v ← prim_value t value;
  a ← value_prim t v;
  assert_eq a value.

Lemma test_from_rnd_passes t value v :
  prim_value (E := Error) t value = Ok v -> test_from_rnd t value = Ok tt.
Proof.
  intros Hv. unfold test_from_rnd. rewrite Hv. cbn.
  rewrite (value_prim_prim_value _ _ _ Hv). cbn.
  unfold assert_eq, assert_. by rewrite bool_decide_true.
Qed.

Definition test_string : Result unit :=
  let value := lit "284222f9-aba2-4b05-bcf5-e4e727fe34d1" in
  a ← value_string (value_of_bytes value);
  assert_eq a value.

Definition test_from_u32 : Result unit := u ← value_prim u32 (Value.UInt32 32); assert_eq u 32.

Definition test_string_from : Result unit :=
  u ← value_string (Value.String_ (lit "df47a455-bb3c-4bd6-b2f2-a24be3db36ab"));
  assert_eq (lit "df47a455-bb3c-4bd6-b2f2-a24be3db36ab") u.

Definition test_into_string : Result unit :=
  u ← value_string (Value.String_ (lit "d2384838-dfe8-43ea-b1f7-63fb27b91088"));
  assert_eq (lit "d2384838-dfe8-43ea-b1f7-63fb27b91088") u.

Definition test_into_vec : Result unit :=
  u ← value_bytes (Value.String_ [x01; x02; x03]); assert_eq [x01; x02; x03] u.

Definition test_display : Result unit :=
  let display v := value_text false v in
  _ ← assert_text (lit "42") (display (Value.UInt8 42));
  _ ← assert_text (lit "42") (display (Value.UInt16 42));
  _ ← assert_text (lit "42") (display (Value.UInt32 42));
  _ ← assert_text (lit "42") (display (Value.UInt64 42));
  _ ← assert_text (lit "42") (display (Value.Int8 42));
  _ ← assert_text (lit "42") (display (Value.Int16 42));
  _ ← assert_text (lit "42") (display (Value.Int32 42));
  _ ← assert_text (lit "42") (display (Value.Int64 42));
  _ ← assert_text (lit "text") (display (Value.String_ (lit "text")));
  _ ← assert_text [x01; x02; x03] (display (Value.String_ [x01; x02; x03]));
  _ ← assert_text (lit "NULL") (display (Value.Nullable (Left UInt8)));
  _ ← assert_text (lit "42") (display (Value.Nullable (Right (Value.UInt8 42))));
  assert_text (lit "[1, 2, 3]")
    (display (Value.Array Int32 [Value.Int32 1; Value.Int32 2; Value.Int32 3])).

Definition test_default_fixed_str : Result unit :=
  for_each (seqZ 0 1000) (fun n _ =>
    actual ← value_default (FixedString n);
    actual_str ← value_string actual;
    _ ← assert_eq (Z.of_nat (length actual_str)) n;
    for_each actual_str (fun ch _ => assert_eq ch x00) tt) tt.

Definition test_from_some : Result unit :=
  one ← value_of_option (HPrim u32) (prim_value u32) (Some 1);
  _ ← assert_value one (Value.Nullable (Right (Value.UInt32 1)));
  text ← value_of_option HStr (fun s => Ok (value_of_bytes s)) (Some (lit "text"));
  _ ← assert_value text (Value.Nullable (Right (Value.String_ (lit "text"))));
  float ← value_of_option (HPrim f64) (prim_value f64) (Some 0x4008CCCCCCCCCCCD);
  _ ← assert_value float (Value.Nullable (Right (Value.Float64 0x4008CCCCCCCCCCCD)));
  time ← timestamp ZUTC 1546300800 0;
  date ← value_of_option HDateTime (fun d => Ok (value_of_datetime d)) (Some time);
  assert_value date (Value.Nullable (Right (Value.DateTime_ 1546300800 ZUTC))).

Example value_tests : all_pass
  [test_string; test_from_u32; test_string_from; test_into_string; test_into_vec; test_display;
   test_default_fixed_str; test_from_some] = true.
Proof. vm_compute. reflexivity. Qed.
End ValueTests.

(** ** [types/value_ref.rs] *)

Module ValueRefTests.
Definition two : Result Decimal.t := Decimal.of_ (Decimal.Bfloat F64) 0x4000000000000000 2.
Definition two4 : Result Decimal.t := Decimal.of_ (Decimal.Bfloat F64) 0x4000000000000000 4.

Definition three_refs : ValueRef.t := ValueRef.Array Int32 [ValueRef.Int32 1; ValueRef.Int32 2; ValueRef.Int32 3].

(** Up to the dates. *)
Definition test_display : Result unit :=
  let display v := value_ref_text false v in
  _ ← assert_text (lit "[0, 159, 146, 150]") (display (ValueRef.String_ [x00; x9f; x92; x96]));
  _ ← assert_text (lit "text") (display (ValueRef.String_ (lit "text")));
  _ ← assert_text (lit "42") (display (ValueRef.UInt8 42));
  _ ← assert_text (lit "42") (display (ValueRef.UInt16 42));
  _ ← assert_text (lit "42") (display (ValueRef.UInt32 42));
  _ ← assert_text (lit "42") (display (ValueRef.UInt64 42));
  _ ← assert_text (lit "42") (display (ValueRef.Int8 42));
  _ ← assert_text (lit "42") (display (ValueRef.Int16 42));
  _ ← assert_text (lit "42") (display (ValueRef.Int32 42));
  _ ← assert_text (lit "42") (display (ValueRef.Int64 42));
  _ ← assert_text (lit "42") (display (ValueRef.Float32 0x42280000));
  _ ← assert_text (lit "42") (display (ValueRef.Float64 0x4045000000000000));
  _ ← assert_text (lit "NULL") (display (ValueRef.Nullable (Left UInt8)));
  _ ← assert_text (lit "42") (display (ValueRef.Nullable (Right (ValueRef.UInt8 42))));
  _ ← assert_text (lit "[1, 2, 3]") (display three_refs);
  d ← two;
  assert_text (lit "2.00") (display (ValueRef.Decimal_ d)).

Definition test_value_from_ref : Result unit :=
  let from v := to_value v in
  _ ← assert_value (from (ValueRef.UInt8 42)) (Value.UInt8 42);
  _ ← assert_value (from (ValueRef.UInt16 42)) (Value.UInt16 42);
  _ ← assert_value (from (ValueRef.UInt32 42)) (Value.UInt32 42);
  _ ← assert_value (from (ValueRef.UInt64 42)) (Value.UInt64 42);
  _ ← assert_value (from (ValueRef.Int8 42)) (Value.Int8 42);
  _ ← assert_value (from (ValueRef.Int16 42)) (Value.Int16 42);
  _ ← assert_value (from (ValueRef.Int32 42)) (Value.Int32 42);
  _ ← assert_value (from (ValueRef.Int64 42)) (Value.Int64 42);
  _ ← assert_value (from (ValueRef.Float32 0x42280000)) (Value.Float32 0x42280000);
  _ ← assert_value (from (ValueRef.Float64 0x4045000000000000)) (Value.Float64 0x4045000000000000);
  _ ← assert_value (from (ValueRef.Date 42 Zulu)) (Value.Date 42 Zulu);
  _ ← assert_value (from (ValueRef.DateTime_ 42 Zulu)) (Value.DateTime_ 42 Zulu);
  d ← two4;
  _ ← assert_value (from (ValueRef.Decimal_ d)) (Value.Decimal_ d);
  assert_value (from three_refs) (Value.Array Int32 [Value.Int32 1; Value.Int32 2; Value.Int32 3]).

Definition test_get_sql_type : Result unit :=
  let from v := value_ref_sql_type v in
  _ ← assert_eq (from (ValueRef.UInt8 42)) UInt8;
  _ ← assert_eq (from (ValueRef.UInt16 42)) UInt16;
  _ ← assert_eq (from (ValueRef.UInt32 42)) UInt32;
  _ ← assert_eq (from (ValueRef.UInt64 42)) UInt64;
  _ ← assert_eq (from (ValueRef.Int8 42)) Int8;
  _ ← assert_eq (from (ValueRef.Int16 42)) Int16;
  _ ← assert_eq (from (ValueRef.Int32 42)) Int32;
  _ ← assert_eq (from (ValueRef.Int64 42)) Int64;
  _ ← assert_eq (from (ValueRef.Float32 0x42280000)) Float32;
  _ ← assert_eq (from (ValueRef.Float64 0x4045000000000000)) Float64;
  _ ← assert_eq (from (ValueRef.String_ [])) String_;
  _ ← assert_eq (from (ValueRef.Date 42 Zulu)) Date;
  _ ← assert_eq (from (ValueRef.DateTime_ 42 Zulu)) (DateTime_ DateTime32);
  d ← two4;
  _ ← assert_eq (from (ValueRef.Decimal_ d)) (SqlType.Decimal 18 4);
  _ ← assert_eq (from three_refs) (Array Int32);
  _ ← assert_eq (from (ValueRef.Nullable (Left UInt8))) (Nullable UInt8);
  assert_eq (from (ValueRef.Nullable (Right (ValueRef.Int8 42)))) (Nullable Int8).

Example value_ref_tests : all_pass [test_display; test_value_from_ref; test_get_sql_type] = true.
Proof. vm_compute. reflexivity. Qed.
End ValueRefTests.

(** ** [types/from_sql.rs] *)

Module FromSqlTests.
Definition test_u8 : Result unit :=
  v ← prim_value_ref u8 42; actual ← from_sql_prim u8 v; assert_eq actual 42.

Definition test_bad_convert : Result unit :=
  v ← prim_value_ref u16 42;
  match from_sql_prim u32 v with
  | Err e => assert_eq (lit "From SQL error: `SqlType::UInt16 cannot be cast to u32.`") (Errors.to_string e)
  | _ => Panic
  end.

Definition null_to_datetime : Result unit :=
  date ← from_sql_option (lit "Option") from_sql_datetime (ValueRef.Nullable (Left (DateTime_ DateTime32)));
  match date with None => Ok tt | Some _ => Panic end.

Example from_sql_tests : all_pass [test_u8; test_bad_convert; null_to_datetime] = true.
Proof. vm_compute. reflexivity. Qed.
End FromSqlTests.

(** ** [types/decimal.rs] *)

Module DecimalTests.
Definition f64_2 : Z := 0x4000000000000000.
Definition f64_3 : Z := 0x4008000000000000.

(** The decimals of the tests. *)
Definition of_f64 (source scale : Z) : Result Decimal.t := Decimal.of_ (Decimal.Bfloat F64) source scale.
Definition of_i32 (source scale : Z) : Result Decimal.t := Decimal.of_ Decimal.Bi32 source scale.

Definition same (expected : bool) (a b : Result Decimal.t) : Result unit :=
  a ← a; b ← b; e ← Decimal.eq a b; assert_eq e expected.

Definition test_new : Result unit :=
  _ ← same true (Decimal.new 2 1) (of_f64 0x3FC999999999999A 1);
  same true (Decimal.new 2 5) (of_f64 0x3EF4F8B588E368F1 5).

Definition shows (text : bytes) (d : Result Decimal.t) : Result unit :=
  d ← d; assert_eq (Decimal.decimal2str d) text.

Definition test_display : Result unit :=
  _ ← shows (lit "2.1000") (Decimal.of_ (Decimal.Bfloat F32) 0x40066666 4);
  _ ← shows (lit "0.2000") (of_f64 0x3FC999999999999A 4);
  _ ← shows (lit "2.0000") (of_i32 2 4);
  shows (lit "2.0000") (of_i32 2 4).

Definition test_eq : Result unit :=
  _ ← same true (of_f64 f64_2 4) (of_f64 f64_2 4);
  _ ← same false (of_f64 f64_3 4) (of_f64 f64_2 4);
  _ ← same true (of_f64 f64_2 4) (of_f64 f64_2 2);
  _ ← same false (of_f64 f64_2 4) (of_f64 f64_3 2);
  _ ← same true (of_f64 f64_2 2) (of_f64 f64_2 4);
  same false (of_f64 f64_3 2) (of_f64 f64_2 4).

Definition test_internal32 : Result unit :=
  d ← of_i32 2 4; assert_eq (Decimal.internal N32 d) 20000.

Definition test_internal64 : Result unit :=
  d ← of_i32 2 4; assert_eq (Decimal.internal N64 d) 20000.

Definition test_scale : Result unit := d ← of_i32 2 4; assert_eq (Decimal.scale d) 4.

(** The difference to 2 is nothing. *)
Definition test_from_f32 : Result unit :=
  d ← of_i32 2 4; value ← Decimal.to_float F32 d; assert_eq value 0x40000000.

Definition test_from_f64 : Result unit :=
  d ← of_i32 2 4; value ← Decimal.to_float F64 d; assert_eq value f64_2.

Definition set_scale1 : Result unit :=
  a ← of_i32 12 3; b ← Decimal.set_scale a 2;
  _ ← assert_eq 2 (Decimal.scale b); assert_eq 1200 (Decimal.underlying b).

Definition set_scale2 : Result unit :=
  a ← of_i32 12 3; b ← Decimal.set_scale a 4;
  _ ← assert_eq 4 (Decimal.scale b); assert_eq 120000 (Decimal.underlying b).

Definition test_decimal2str : Result unit := shows (lit "0.00001") (of_f64 0x3EE4F8B588E368F1 5).

Example decimal_tests : all_pass
  [test_new; test_display; test_eq; test_internal32; test_internal64; test_scale; test_from_f32;
   test_from_f64; set_scale1; set_scale2; test_decimal2str] = true.
Proof. vm_compute. reflexivity. Qed.
End DecimalTests.

(** ** [types/options.rs] *)

Module OptionsTests.
(** [unwrap] and [unwrap_err] of a parser's result. *)
Definition parsed {A} `{EqDecision A} (r : option A) (expected : A) : Result unit :=
  match r with Some a => assert_eq a expected | None => Panic end.

Definition refused {A} (r : option A) : Result unit := match r with None => Ok tt | Some _ => Panic end.

Definition test_parse_hosts : Result unit :=
  match parse_hosts (lit "host2:9000,host3:9000"), url_parse (lit "tcp://host2:9000"), url_parse (lit "tcp://host3:9000") with
  | Some actual, inr host2, inr host3 => assert_ (bool_decide ((actual : list (bytes * list (bytes * bytes))) = [host2; host3]))
  | _, _, _ => Panic
  end.

Definition test_parse_default : Result unit :=
  options ← from_url (lit "tcp://host1");
  _ ← assert_eq (Options.database options) (lit "default");
  _ ← assert_eq (Options.username options) (lit "default");
  assert_eq (Options.password options) [].

(** The tests that should panic in [unwrap]. *)
Definition should_panic (url : bytes) : Result unit :=
  match from_url url with Err _ => Ok tt | _ => Panic end.

Definition test_parse_invalid_url : Result unit := should_panic (lit "ʘ_ʘ").

Definition test_parse_with_unknown_url : Result unit := should_panic (lit "tcp://localhost:9000/foo?bar=baz").

Definition test_parse_duration : Result unit :=
  _ ← parsed (parse_duration (lit "3s")) (from_secs 3);
  _ ← parsed (parse_duration (lit "123ms")) (from_millis 123);
  _ ← refused (parse_duration (lit "ms"));
  refused (parse_duration (lit "1ss")).

Definition test_parse_opt_duration : Result unit :=
  _ ← parsed (parse_opt_duration (lit "3s")) (Some (from_secs 3));
  parsed (parse_opt_duration (lit "none")) None.

Definition test_parse_compression : Result unit :=
  _ ← parsed (parse_compression (lit "none")) false;
  _ ← parsed (parse_compression (lit "lz4")) true;
  refused (parse_compression (lit "?")).

Example options_tests : all_pass
  [test_parse_hosts; test_parse_default; test_parse_invalid_url; test_parse_with_unknown_url;
   test_parse_duration; test_parse_opt_duration; test_parse_compression] = true.
Proof. vm_compute. reflexivity. Qed.
End OptionsTests.

(** ** [types/column/concat.rs] *)

Module ConcatTests.
Definition test_build_index : Result unit :=
  index ← build_index [2; 3; 4]; assert_eq index [0; 2; 5; 9].

(** [find_chunk] of each number. *)
Definition finds (index : list Z) (cases : list (Z * Z)) : Result unit :=
  for_each cases (fun '(ix, chunk) _ => found ← find_chunk index ix; assert_eq found chunk) tt.

Definition test_find_chunk : Result unit :=
  _ ← finds [0; 2; 5; 9] [(0, 0); (1, 0); (2, 1); (3, 1); (4, 1); (5, 2); (6, 2); (7, 2)];
  finds [0] [(7, 0)].

Definition test_find_chunk2 : Result unit :=
  finds [0; 0; 5] [(0, 1); (1, 1); (2, 1); (3, 1); (4, 1); (5, 0)].

Definition test_find_chunk5 : Result unit :=
  let index := [0; 0; 3; 6; 9; 12; 15; 18; 21; 24; 27; 30; 33; 36; 39; 42; 45; 48; 51; 54; 57; 60; 63; 66; 69] in
  finds index ((fun i => (i, 1 + i / 3)) <$> seqZ 0 69).

Definition first_uuid : bytes := lit "13298a5f-6a10-4fbe-9644-807f7ebf82cc".
Definition second_uuid : bytes := lit "df0e62bb-c0db-4728-a558-821f8e8da38c".

(** [ColumnDataExt::append]. *)
Definition append (data : column_data) (value : Value.t) : Result column_data := push true data value.

Definition make_string_column : Result column_data :=
  pool ← StringPool.with_capacity 1;
  data ← append (StringColumnData pool) (value_of_bytes first_uuid);
  append data (value_of_bytes second_uuid).

Definition make_num_column : Result column_data :=
  data ← vector_with_capacity u32 1;
  data ← append data (Value.UInt32 1);
  append data (Value.UInt32 2).

Definition test_concat_column : Result unit :=
  x ← make_string_column; y ← make_string_column;
  actual ← concat_columns [x; y];
  let at_str i := v ← at_ actual i; as_str v in
  _ ← assert_text first_uuid (at_str 0);
  _ ← assert_text second_uuid (at_str 1);
  _ ← assert_text first_uuid (at_str 2);
  _ ← assert_text second_uuid (at_str 3);
  n ← Columns.len actual;
  assert_eq n 4.

Definition test_concat_num_column : Result unit :=
  x ← make_num_column; y ← make_num_column;
  actual ← concat_columns [x; y];
  let at_u32 i expected := v ← at_ actual i; n ← value_ref_prim u32 v; assert_eq n expected in
  _ ← at_u32 0 1;
  _ ← at_u32 1 2;
  _ ← at_u32 2 1;
  _ ← at_u32 3 2;
  n ← Columns.len actual;
  assert_eq n 4.

Example concat_tests : all_pass
  [test_build_index; test_find_chunk; test_find_chunk2; test_find_chunk5; test_concat_column;
   test_concat_num_column] = true.
Proof. vm_compute. reflexivity. Qed.
End ConcatTests.

(** ** [types/column/factory.rs] *)

Module FactoryTests.
Definition decimal (source : bytes) : Result (option (Z * Z * NoBits)) := parse_decimal source.

Definition parses {A} `{EqDecision A} (actual : Result A) (expected : A) : Result unit :=
  actual ← actual; assert_eq actual expected.

Definition test_parse_decimal : Result unit :=
  _ ← parses (decimal (lit "Decimal(9, 4)")) (Some (9, 4, N32));
  _ ← parses (decimal (lit "Decimal(10, 4)")) (Some (10, 4, N64));
  _ ← parses (decimal (lit "Decimal(20, 4)")) None;
  _ ← parses (decimal (lit "Decimal(2000, 4)")) None;
  _ ← parses (decimal (lit "Decimal(3, 4)")) None;
  _ ← parses (decimal (lit "Decimal(20, -4)")) None;
  _ ← parses (decimal (lit "Decimal(0)")) None;
  _ ← parses (decimal (lit "Decimal(1, 2, 3)")) None;
  parses (decimal (lit "Decimal64(9)")) (Some (18, 9, N64)).

Definition test_parse_array_type : Result unit :=
  parses (parse_array_type (lit "Array(UInt8)")) (Some (lit "UInt8")).

Definition test_parse_nullable_type : Result unit :=
  _ ← parses (parse_nullable_type (lit "Nullable(Int8)")) (Some (lit "Int8"));
  _ ← parses (parse_nullable_type (lit "Int8")) None;
  parses (parse_nullable_type (lit "Nullable(Nullable(Int8))")) None.

Definition test_parse_fixed_string : Result unit :=
  _ ← parses (parse_fixed_string (lit "FixedString(8)")) (Some 8);
  _ ← parses (parse_fixed_string (lit "FixedString(zz)")) None;
  parses (parse_fixed_string (lit "Int8")) None.

Definition enum8 (source : bytes) (expected : option (list (bytes * Z))) : Result unit :=
  assert_eq (parse_enum8 source) expected.

Definition enum16 (source : bytes) (expected : option (list (bytes * Z))) : Result unit :=
  assert_eq (parse_enum16 source) expected.

Definition test_parse_enum8 : Result unit :=
  enum8 (lit "Enum8 ('a' = 1, 'b' = 2)") (Some [(lit "a", 1); (lit "b", 2)]).

Definition test_parse_enum16_special_chars : Result unit :=
  enum16 (lit "Enum16('a_' = -128, 'b&' = 0)") (Some [(lit "a_", -128); (lit "b&", 0)]).

Definition test_parse_enum8_single : Result unit := enum8 (lit "Enum8 ('a' = 1)") (Some [(lit "a", 1)]).

Definition test_parse_enum8_empty_id : Result unit :=
  enum8 (lit "Enum8 ('' = 1, '' = 2)") (Some [([], 1); ([], 2)]).

Definition test_parse_enum8_single_empty_id : Result unit := enum8 (lit "Enum8 ('' = 1)") (Some [([], 1)]).

Definition test_parse_enum8_extra_comma : Result unit := enum8 (lit "Enum8 ('a' = 1, 'b' = 2,)") None.

Definition test_parse_enum8_empty : Result unit := enum8 (lit "Enum8 ()") None.

Definition test_parse_enum8_no_value : Result unit := enum8 (lit "Enum8 ('a' =)") None.

Definition test_parse_enum8_no_ident : Result unit := enum8 (lit "Enum8 ( = 1)") None.

Definition test_parse_enum8_starting_comma : Result unit := enum8 (lit "Enum8 ( , 'a' = 1)") None.

Definition test_parse_enum16 : Result unit :=
  enum16 (lit "Enum16 ('a' = 1, 'b' = 2)") (Some [(lit "a", 1); (lit "b", 2)]).

Definition test_parse_enum16_single : Result unit := enum16 (lit "Enum16 ('a' = 1)") (Some [(lit "a", 1)]).

Definition test_parse_enum16_empty_id : Result unit :=
  enum16 (lit "Enum16 ('' = 1, '' = 2)") (Some [([], 1); ([], 2)]).

Definition test_parse_enum16_single_empty_id : Result unit := enum16 (lit "Enum16 ('' = 1)") (Some [([], 1)]).

Definition test_parse_enum16_extra_comma : Result unit := enum16 (lit "Enum16 ('a' = 1, 'b' = 2,)") None.

Definition test_parse_enum16_empty : Result unit := enum16 (lit "Enum16 ()") None.

Definition test_parse_enum16_no_value : Result unit := enum16 (lit "Enum16 ('a' =)") None.

Definition test_parse_enum16_no_ident : Result unit := enum16 (lit "Enum16 ( = 1)") None.

Definition test_parse_enum16_starting_comma : Result unit := enum16 (lit "Enum16 ( , 'a' = 1)") None.

Definition test_parse_date_time64 : Result unit :=
  assert_eq (parse_date_time64 (lit " DateTime64 ( 3 , 'Europe/Moscow' )")) (Some (3, Some (lit "Europe/Moscow"))).

Definition test_parse_date_time64_without_timezone : Result unit :=
  assert_eq (parse_date_time64 (lit " DateTime64( 5 )")) (Some (5, None)).

Example factory_tests : all_pass
  [test_parse_decimal; test_parse_array_type; test_parse_nullable_type; test_parse_fixed_string;
   test_parse_enum8; test_parse_enum16_special_chars; test_parse_enum8_single; test_parse_enum8_empty_id;
   test_parse_enum8_single_empty_id; test_parse_enum8_extra_comma; test_parse_enum8_empty;
   test_parse_enum8_no_value; test_parse_enum8_no_ident; test_parse_enum8_starting_comma;
   test_parse_enum16; test_parse_enum16_single; test_parse_enum16_empty_id;
   test_parse_enum16_single_empty_id; test_parse_enum16_extra_comma; test_parse_enum16_empty;
   test_parse_enum16_no_value; test_parse_enum16_no_ident; test_parse_enum16_starting_comma;
   test_parse_date_time64; test_parse_date_time64_without_timezone] = true.
Proof. vm_compute. reflexivity. Qed.
End FactoryTests.

(** ** [types/block/mod.rs] *)

Module BlockTests.
(** [Block::new().column(name, values)]. *)
Definition column (name : bytes) (values : source) (block : Result Block) : Result Block :=
  block ← block; block_column block name values.

Definition test_write_default : Result unit :=
  encoder ← block_write block_default new false;
  assert_eq (get_buffer encoder) (Z_to_byte <$> [1; 0; 2; 255; 255; 255; 255; 0; 0; 0]).

Definition test_read_empty_block : Result unit :=
  '(block, _) ← load (R:=bytes) Zulu false (Z_to_byte <$> [1; 0; 2; 255; 255; 255; 255; 0; 0; 0]);
  assert_ (block_is_empty block).

Definition test_empty : Result unit := assert_ (block_is_empty block_default).

Definition hello_block : Result Block :=
  column (lit "value") (FromStrings [lit "lol"; lit "zuz"])
    (column (lit "hello_id") (FromPrims u64 [5; 6]) (Ok block_new)).

Definition test_column_and_rows : Result unit :=
  block ← hello_block;
  _ ← assert_eq (column_count block) 2;
  n ← row_count block;
  assert_eq n 2.

Definition test_from_sql : Result unit :=
  block ← hello_block;
  v ← Block.get (from_sql_prim u64) block 0 (ByName (lit "hello_id"));
  assert_eq v 5.

Definition make_block : Result Block :=
  column (lit "9b96ad8b-488a-4fef-8087-8a9ae4800f00")
    (FromStrings [lit "5446d186-4e90-4dd8-8ec1-f9a436834613"; lit "f7cf31f4-7f37-4e27-91c0-5ac0ad0b145b"])
    (Ok block_new).

Definition test_concat : Result unit :=
  block_a ← make_block; block_b ← make_block;
  actual ← block_concat [block_a; block_b];
  n ← row_count actual;
  _ ← assert_eq n 4;
  _ ← assert_eq (column_count actual) 1;
  let cell i := Block.get from_sql_str actual i (ByPosition 0) in
  _ ← assert_text (lit "5446d186-4e90-4dd8-8ec1-f9a436834613") (cell 0);
  _ ← assert_text (lit "f7cf31f4-7f37-4e27-91c0-5ac0ad0b145b") (cell 1);
  _ ← assert_text (lit "5446d186-4e90-4dd8-8ec1-f9a436834613") (cell 2);
  assert_text (lit "f7cf31f4-7f37-4e27-91c0-5ac0ad0b145b") (cell 3).

Definition a_block (xs : list Z) : Result Block := column (lit "A") (FromPrims i32 xs) (Ok block_new).

(** The chunk from [position] on is [expected]; what is behind it. *)
Definition next_is (block : Block) (expected : Result Block) (position : Z) : Result Z :=
  expected ← expected;
  r ← chunk_next 2 block position;
  match r with
  | Some (chunk, position) => _ ← assert_block expected chunk; Ok position
  | None => Panic
  end.

Definition test_chunks : Result unit :=
  block ← a_block [1; 2; 3; 4; 5];
  position ← next_is block (a_block [1; 2]) 0;
  position ← next_is block (a_block [3; 4]) position;
  position ← next_is block (a_block [5]) position;
  r ← chunk_next 2 block position;
  match r with None => Ok tt | Some _ => Panic end.

Definition test_chunks_of_empty_block : Result unit :=
  count ← for_chunks 3 100500 block_default 0 (fun _ n => Ok (n + 1)) 0;
  _ ← assert_eq 1 count;
  r ← chunk_next 100500 block_default 0;
  match r with Some (chunk, _) => assert_block (block_clone block_default) chunk | None => Panic end.

Definition test_rows : Result unit :=
  block ← column (lit "A") (FromPrims u8 [1; 2; 3]) (Ok block_new);
  let '(row, block_ref) := block_rows block in
  actual ← ref_cells 4 (from_sql_prim u8) block_ref row (ByName (lit "A"));
  assert_eq [1; 2; 3] actual.

(** Writing a block and reading it. *)
Definition write_and_read (block : Result Block) : Result unit :=
  block ← block;
  encoder ← block_write block new false;
  '(rblock, _) ← load (R:=bytes) Zulu false (get_buffer encoder);
  assert_block block rblock.

Definition test_write_and_read : Result unit :=
  write_and_read (column (lit "y") (FromPrimOptions u8 [Some 1; None]) (Ok block_new)).

Example block_tests : all_pass
  [test_write_default; test_read_empty_block; test_empty; test_column_and_rows; test_from_sql;
   test_concat; test_chunks; test_chunks_of_empty_block; test_rows; test_write_and_read] = true.
Proof. vm_compute. reflexivity. Qed.
End BlockTests.

(** ** [types/column/array.rs], [types/column/iter/mod.rs] *)

Module ColumnTests.
Definition test_write_and_read : Result unit :=
  BlockTests.write_and_read
    (BlockTests.column (lit "vals") (FromPrimVecs u32 [[7; 8]; [9; 1; 2]; [3; 4; 5; 6]]) (Ok block_new)).

(** The items that an iterator has left; [fuel] bounds them. *)
Fixpoint collect {I A} (fuel : nat) (next : I -> mem (option A * I)) (self : I) : mem (list A) :=
  match fuel with
  | O => Def OutOfFuel
  | S fuel =>
    '(r, self) ← next self;
    match r with
    | None => mret []
    | Some x => xs ← collect fuel next self; mret (x :: xs)
    end
  end.

Definition collected {A} `{EqDecision A} (actual : mem (list A)) (expected : list A) : Result unit :=
  match actual with Def xs => xs ← xs; assert_eq xs expected | Undefined => Panic end.

(** The size of an item is not looked at for these. *)
Definition word_size (T : iterable) : Z := 8.

Definition test_complex_iter : Result unit :=
  lo ← BlockTests.column (lit "?") (FromPrims u32 [1; 2]) (Ok block_new);
  hi ← BlockTests.column (lit "?") (FromPrims u32 [3; 4; 5]) (Ok block_new);
  block ← block_concat [lo; hi];
  first ← indexZ (columns block) 0;
  _ ← collected (A:=Z) (it ← complex_iter (TPrim u32) (data first); collect 6 (complex_next word_size) it) [1; 2; 3; 4; 5];
  null_u32 ← BlockTests.column (lit "?") (FromPrimOptions u32 [Some 3; Some 4; None]) (Ok block_new);
  first ← indexZ (columns null_u32) 0;
  collected (A:=option Z) (it ← column_iter (TOption (TPrim u32)) (data first); collect 4 (next word_size _) it)
    [Some 3; Some 4; None].

Example column_tests : all_pass [test_write_and_read; test_complex_iter] = true.
Proof. vm_compute. reflexivity. Qed.
End ColumnTests.

(** ** [types/block/builder.rs] *)

Module BuilderTests.
(** The days of 2016-10-22 and the seconds of 2014-07-08 14:00:00. *)
Definition date_days : Z := 17096.
Definition date_time_secs : Z := 1404828000.

Definition str_option (value : option bytes) : Result Value.t :=
  value_of_option HStr (fun s => Ok (value_of_bytes s)) value.

Definition fields : Result (list (bytes * Value.t)) :=
  decimal ← Decimal.of_ (Decimal.Bfloat F64) 0x4000000000000000 4;
  opt_field ← str_option (Some (lit "text"));
  nil_field ← str_option None;
  date_time ← timestamp ZUTC date_time_secs 0;
  Ok [
    (lit "i8_field", Value.Int8 1); (lit "i16_field", Value.Int16 1);
    (lit "i32_field", Value.Int32 1); (lit "i64_field", Value.Int64 1);
    (lit "u8_field", Value.UInt8 1); (lit "u16_field", Value.UInt16 1);
    (lit "u32_field", Value.UInt32 1); (lit "u64_field", Value.UInt64 1);
    (lit "f32_field", Value.Float32 0x40951EB8); (lit "f64_field", Value.Float64 0x4005AE147AE147AE);
    (lit "str_field", value_of_bytes (lit "text"));
    (lit "opt_filed", opt_field); (lit "nil_filed", nil_field);
    (lit "date_field", date_value (date_days, ZUTC)); (lit "date_time_field", value_of_datetime date_time);
    (lit "decimal_field", value_of_decimal decimal)
  ].

Definition test_push_row : Result unit :=
  fields ← fields;
  block ← row_apply (row_macro fields) block_new;
  n ← row_count block;
  _ ← assert_eq n 1;
  assert_eq (sql_type ∘ data <$> columns block)
    [Int8; Int16; Int32; Int64; UInt8; UInt16; UInt32; UInt64; Float32; Float64; String_;
     Nullable String_; Nullable String_; Date; DateTime_ DateTime32; SqlType.Decimal 18 4].

Example builder_tests : all_pass [test_push_row] = true.
Proof. vm_compute. reflexivity. Qed.
End BuilderTests.

(** ** [types/column/string_pool.rs] *)

Module StringPoolTests.
(** The bytes of a pointer. *)
Definition buffer_of (pool : StringPool) (p : StringPtr) : Result bytes := unwrap (get_by_pointer pool p).

Definition test_allocate : Result unit :=
  pool ← StringPool.with_capacity 10;
  _ ← for_each (seqZ 1 999) (fun i pool =>
    '(pool, p) ← allocate pool i;
    buffer ← buffer_of pool p;
    _ ← assert_eq (Z.of_nat (length buffer)) i;
    first ← index buffer 0;
    _ ← assert_eq first x00;
    Ok (write_at pool p [x01])) pool;
  Ok tt.

Definition text_of (i : Z) : bytes := lit "text-" ++ show_dec i.

Definition test_get : Result unit :=
  pool ← StringPool.with_capacity 10;
  pool ← for_each (seqZ 0 1000) (fun i pool =>
    let s := text_of i in
    '(pool, p) ← allocate pool (Z.of_nat (length s));
    buffer ← buffer_of pool p;
    _ ← assert_eq (length buffer) (length s);
    Ok (write_at pool p s)) pool;
  for_each (seqZ 0 1000) (fun i _ =>
    bs ← StringPool.get pool (Z.to_nat i);
    s ← string_from_utf8 bs;
    assert_eq s (text_of i)) tt.

Example string_pool_tests : all_pass [test_allocate; test_get] = true.
Proof. vm_compute. reflexivity. Qed.
End StringPoolTests.

(** ** [errors.rs], [types/mod.rs] *)

Module ErrorTests.
Definition to_std_error_without_recursion : Result unit :=
  assert_eq (Errors.to_string (from_string (lit "Somth went wrong."))) (lit "Other error: `Somth went wrong.`").

Definition to_io_error_without_recursion : Result unit :=
  assert_eq (io_message (into_io (from_string (lit "Somth went wrong.")))) (lit "Other error: `Somth went wrong.`").

Definition test_display : Result unit := assert_eq (lit "UInt8") (SqlType.to_string UInt8).

Definition test_to_string : Result unit := assert_eq (lit "Nullable(UInt8)") (SqlType.to_string (Nullable UInt8)).

Example error_tests : all_pass
  [to_std_error_without_recursion; to_io_error_without_recursion; test_display; test_to_string] = true.
Proof. vm_compute. reflexivity. Qed.
End ErrorTests.
