(* ===== verification/WireProperties.v ===== *)
(** * Properties of numbers, values and type names *)

From S2P Require Import Prelude RustStd Errors Scalars Encoder ReadEx Varint Finite Protocol.
From S2P Require Import SqlType TypeNames DecimalNum Values Instances.
Local Open Scope Z_scope.

#[local] Existing Instances debug chrono combine_ll1.

(** ** Variable-length integers *)

(** C34: every [u64] that [Encoder::uvarint] writes takes at most ten bytes, and
    [read_uvarint] gives it back and leaves the bytes behind it. *)
Theorem uvarint_roundtrip {P : Profile} v rest :
  in_u 64 v = true ->
  exists bs, uvarint new v = (Ok bs : Result Encoder) /\ (length bs <= MAX_VARINT_LEN64)%nat /\
    read_uvarint (R:=bytes) (bs ++ rest) = Ok (v, rest).
Proof.
  intros Hv. exists (uvarint_bytes v). split_and!.
  - by apply uvarint_ok.
  - apply length_uvarint_bytes_fuel.
  - by apply parses_cursor, parses_uvarint.
Qed.

Lemma uvarint_roundtrip_witness :
  in_u 64 (2 ^ 64 - 1) = true /\
  exists bs, uvarint new (2 ^ 64 - 1) = (Ok bs : Result Encoder) /\
    (length bs <= MAX_VARINT_LEN64)%nat /\
    read_uvarint (R:=bytes) (bs ++ [x2a]) = Ok (2 ^ 64 - 1, [x2a]).
Proof. split; [reflexivity|]. apply uvarint_roundtrip. reflexivity. Defined.

(** C35: how far [read_uvarint] reads.  Groups of seven bits are read as their
    number when there are at most nine, or ten and the number fits 64 bits; ten
    that do not fit are an [Overflow].  More than ten are not: a build with
    overflow checks panics in the eleventh byte, whatever follows, and one without
    reads a number of eleven bytes as the lowest 64 bits of the first ten groups,
    with the eleventh over the bits from the sixth on. *)
Theorem uvarint_bounds {P : Profile} cs b rest :
  Forall group cs -> group b ->
  let r := read_uvarint (R:=bytes) (groups_bytes cs b ++ rest) in
  ((length cs < 9)%nat -> r = Ok (groups_value cs b, rest)) /\
  (length cs = 9%nat ->
    r = if groups_value cs b <? 2 ^ 64 then Ok (groups_value cs b, rest)
        else Err (Error.Driver DriverError.Overflow)) /\
  ((10 <= length cs)%nat -> overflow_checks = true -> r = Panic) /\
  (length cs = 10%nat -> overflow_checks = false ->
    r = Ok (Z.lor (groups_value cs 0 mod 2 ^ 64) (64 * b), rest)).
Proof.
  intros Hc Hb. cbn zeta. unfold groups_bytes. rewrite <- app_assoc. cbn [app].
  pose proof (groups_value_bound cs 0 Hc ltac:(lia)) as Hv.
  pose proof (groups_value_last cs b) as Hlast. split_and!.
  - intros Hl. rewrite read_short by (done || lia). rewrite Hlast.
    by replace (Z.of_nat (length cs) =? 9) with false by lia.
  - intros Hl. rewrite read_short by (done || lia). rewrite Hlast, Hl in *.
    change (7 * Z.of_nat 9) with 63 in *. unfold group in Hb. cbn [andb].
    destruct (Z.ltb_spec 1 b), (Z.ltb_spec (groups_value cs 0 + b * 2 ^ 63) (2 ^ 64)); try done; lia.
  - intros Hl Ho. rewrite <- (take_drop 10 cs), fmap_app, <- app_assoc.
    pose proof (Forall_take _ 10 _ Hc) as Hc10. apply (Forall_drop _ 10) in Hc.
    destruct (drop 10 cs) as [|c cs'].
    + rewrite (read_long _ Panic) by (try (rewrite length_take; lia); try done; cbn [fmap list_fmap app]; by rewrite read_eleventh, Ho).
      done.
    + apply Forall_cons in Hc as [Hc _].
      rewrite (read_long _ Panic) by (try (rewrite length_take; lia); try done; cbn [fmap list_fmap app]; by apply read_eleventh_more).
      done.
  - intros Hl Ho. erewrite read_long; [|done..|by rewrite read_eleventh, Ho|done]. done.
Qed.

(** The number [2 ^ 70]: ten groups of no bit and the bit one. *)
Lemma uvarint_bounds_witness :
  Forall group (replicate 10 0) /\ group 1 /\ groups_value (replicate 10 0) 1 = 2 ^ 70 /\
  @read_uvarint release bytes _ (groups_bytes (replicate 10 0) 1 ++ [x2a]) = Ok (64, [x2a]) /\
  @read_uvarint debug bytes _ (groups_bytes (replicate 10 0) 1 ++ [x2a]) = Panic.
Proof.
  assert (Forall group (replicate 10 0)) as Hc by (apply Forall_replicate; unfold group; lia).
  assert (group 1) as Hb by (unfold group; lia).
  split; [exact Hc|]. split; [exact Hb|]. split; [reflexivity|]. split.
  - apply (@uvarint_bounds release (replicate 10 0) 1 [x2a] Hc Hb); reflexivity.
  - apply (@uvarint_bounds debug (replicate 10 0) 1 [x2a] Hc Hb); [cbn; lia|reflexivity].
Defined.

(** ** Scalars *)

(** Every scalar is read back from the bytes that [marshal] writes. *)
Theorem marshal_roundtrip {P : Profile} t v rest :
  prim_ok t v = true ->
  write t new v = (Ok (marshal t v) : Result Encoder) /\
  read_scalar (R:=bytes) t (marshal t v ++ rest) = Ok (v, rest).
Proof.
  intros Hv. split; [by rewrite write_ok|]. by apply parses_cursor, parses_scalar.
Qed.

Lemma marshal_roundtrip_witness :
  prim_ok i16 (-2) = true /\
  write i16 new (-2) = (Ok (marshal i16 (-2)) : Result Encoder) /\
  read_scalar (R:=bytes) i16 (marshal i16 (-2) ++ [x07]) = Ok (-2, [x07]).
Proof. split; [reflexivity|]. apply marshal_roundtrip. reflexivity. Defined.

(** The shifts and masks of [marshal] and [unmarshal] are the little-endian
    encoding of the value at its width, and its inverse. *)
Theorem marshal_little_endian t v bs :
  marshal t v = le_bytes (buffer_size t) v /\
  (length bs = buffer_size t -> unmarshal t bs = (Ok (of_bits t (le_Z bs)) : Result Z)).
Proof. split; [apply marshal_le|apply unmarshal_le]. Qed.

(** ** Type names *)

(** The name that a type is written with selects the loader of that type,
    with its parameters. *)
Theorem type_name_selects `{ChronoTz, Combine} t :
  printable t = true -> classify (to_string t) = Ok (named_of t).
Proof. apply classify_printed. Qed.

Lemma type_name_selects_witness :
  let t := @Array chrono (Nullable (Enum8 [(lit "a", 1); (lit "b", -2)])) in
  printable t = true /\ classify (to_string t) = Ok (named_of t).
Proof.
  split; [vm_compute; reflexivity|].
  apply type_name_selects. vm_compute. reflexivity.
Defined.

(** A type name that a client sends is sliced before its brackets are
    looked for, so that a truncated name makes the server panic instead of
    reporting an unsupported type. *)
Theorem truncated_type_names_panic `{Combine} name :
  name ∈ [lit "Nullable"; lit "Nullable("; lit "FixedString"; lit "FixedString(";
          lit "Array"; lit "Array("] ->
  classify name = Panic.
Proof. intros Hn. repeat (apply elem_of_cons in Hn as [->|Hn]; [reflexivity|]). by apply elem_of_nil in Hn. Qed.

Lemma truncated_type_names_panic_witness : classify (lit "Array(") = Panic.
Proof. apply truncated_type_names_panic. vm_compute. repeat constructor. Defined.

(** [SqlType::level] counts the arrays and nullables around a type; it fits
    into its [u8] for every type nested less than 256 times. *)
Theorem level_is_depth {P : Profile} `{ChronoTz} t :
  depth t < 256 -> level t = (Ok (depth t) : Result Z).
Proof. apply level_depth. Qed.

Lemma level_is_depth_witness :
  let t := @Nullable chrono (Array (Array String_)) in
  depth t < 256 /\ level t = (Ok (depth t) : Result Z).
Proof. split; [reflexivity|]. apply level_is_depth. reflexivity. Defined.

(** ** Decimals *)

(** Two decimals are equal exactly when they are the same number, at
    whatever scales, unless rescaling one of them overflows. *)
Theorem decimal_eq_numbers {P : Profile} a b :
  Decimal.ok a = true -> Decimal.ok b = true ->
  in_s 64 (Decimal.underlying a * 10 ^ (Decimal.scale b - Decimal.scale a)) = true ->
  in_s 64 (Decimal.underlying b * 10 ^ (Decimal.scale a - Decimal.scale b)) = true ->
  Decimal.eq a b =
  (Ok (bool_decide (Decimal.underlying a * 10 ^ Decimal.scale b =
                    Decimal.underlying b * 10 ^ Decimal.scale a)) : Result bool).
Proof. apply Decimal.eq_ok. Qed.

Lemma decimal_eq_numbers_witness :
  let a := Decimal.mk 150 N32 5 2 in let b := Decimal.mk 15 N64 18 1 in
  Decimal.ok a = true /\ Decimal.ok b = true /\
  Decimal.eq (E:=Error) a b = Ok (bool_decide (150 * 10 ^ 1 = 15 * 10 ^ 2)).
Proof.
  split; [reflexivity|]. split; [reflexivity|].
  apply (decimal_eq_numbers (Decimal.mk 150 N32 5 2) (Decimal.mk 15 N64 18 1)); reflexivity.
Defined.

(** [set_scale] multiplies by a power of ten, or divides by one and rounds
    towards zero; it keeps the precision and the width. *)
Theorem decimal_set_scale {P : Profile} d s :
  Decimal.ok d = true -> 0 <= s <= 18 ->
  in_s 64 (Decimal.underlying d * 10 ^ (s - Decimal.scale d)) = true ->
  Decimal.set_scale d s =
  (Ok (Decimal.mk
     (if Decimal.scale d <=? s then Decimal.underlying d * 10 ^ (s - Decimal.scale d)
      else Z.quot (Decimal.underlying d) (10 ^ (Decimal.scale d - s)))
     (Decimal.nobits d) (Decimal.precision d) s) : Result Decimal.t).
Proof. apply Decimal.set_scale_ok. Qed.

Lemma decimal_set_scale_witness :
  let d := Decimal.mk (-159) N32 5 2 in
  Decimal.ok d = true /\ Decimal.set_scale (E:=Error) d 1 = Ok (Decimal.mk (-15) N32 5 1).
Proof.
  split; [reflexivity|].
  apply (decimal_set_scale (Decimal.mk (-159) N32 5 2) 1); [reflexivity|lia|reflexivity].
Defined.

(** A nonnegative decimal is printed as its integral part, a point and
    exactly [scale] digits. *)
Theorem decimal_text d :
  0 <= Decimal.underlying d -> 0 <= Decimal.scale d ->
  Decimal.decimal2str d =
  show_dec (Decimal.underlying d / 10 ^ Decimal.scale d) ++ lit "." ++
  Decimal.last_digits (Z.to_nat (Decimal.scale d)) (Decimal.underlying d).
Proof. apply Decimal.decimal2str_nonneg. Qed.

Lemma decimal_text_witness :
  Decimal.decimal2str (Decimal.mk 10005 N32 9 3) =
  show_dec (10005 / 10 ^ 3) ++ lit "." ++ Decimal.last_digits 3 10005.
Proof. apply (decimal_text (Decimal.mk 10005 N32 9 3)); cbn; lia. Defined.

(** ** Values *)

(** A value and its borrowed form are the same: converting either way and
    back changes nothing, and both forms have the same type. *)
Theorem value_ref_roundtrip `{ChronoTz} v r :
  to_value (to_value_ref v) = v /\ to_value_ref (to_value r) = r /\
  value_sql_type (to_value r) = value_ref_sql_type r.
Proof.
  split_and!; [apply to_value_to_value_ref|apply to_value_ref_to_value|apply to_value_sql_type].
Qed.

(** The default value of a type has that type. *)
Theorem value_default_typed {P : Profile} `{ChronoTz} t v :
  self_typed t = true -> value_default t = Ok v -> value_sql_type v = t.
Proof. apply value_default_sql_type. Qed.

Lemma value_default_typed_witness :
  self_typed (Nullable String_) = true /\
  value_sql_type (Value.Nullable (Left String_)) = Nullable String_.
Proof.
  split; [reflexivity|].
  apply (value_default_typed (Nullable String_)); reflexivity.
Defined.
