(* ===== verification/ColumnProperties.v ===== *)
(** * Properties of string pools, columns and blocks *)

From S2P Require Import Prelude RustStd Errors Scalars Encoder ReadEx Finite Protocol.
From S2P Require Import SqlType TypeNames DecimalNum Values StringPool Columns.
From S2P Require Import ColumnLaws ColumnReads PushLaws Compressed Block BlockLaws Chunks.
From S2P Require Import Instances.
Local Open Scope Z_scope.

#[local] Existing Instances debug chrono combine_ll1 store store_laws.

(** ** Blocks *)

(** The columns of the examples: numbers, nullable strings and arrays. *)
Definition sample_pool : StringPool :=
  match from_vec (E:=Error) [lit "abc"; []] with Ok p => p | _ => Pool [] [] 0 0 end.

Definition sample_columns : list Column := [
  mkColumn (lit "id") (VectorColumnData u32 [1; 4294967295]);
  mkColumn (lit "name") (NullableColumnData (StringColumnData sample_pool) [x00; x01]);
  mkColumn (lit "tags") (ArrayColumnData (VectorColumnData i8 [-1; 2; 3]) [1; 3])
].

Definition sample_block : Block := mkBlock BlockInfo.default sample_columns 100.

Lemma sample_pool_wf : wf sample_pool.
Proof.
  split; [|vm_compute; repeat split; lia]. vm_compute.
  repeat constructor; eexists; (split; [reflexivity|]); cbn; lia.
Qed.

Lemma sample_contents : contents sample_pool = [lit "abc"; []].
Proof. vm_compute. reflexivity. Qed.

(** A condition on concrete data. *)
Ltac concrete :=
  lazymatch goal with
  | |- _ = _ => vm_compute; reflexivity
  | |- _ /\ _ => split; concrete
  | |- (_ <= _)%Z => apply Z.leb_le; vm_compute; reflexivity
  | |- (_ < _)%Z => apply Z.ltb_lt; vm_compute; reflexivity
  | |- Forall _ (_ :: _) => apply Forall_cons; concrete
  | |- Forall _ _ => by apply Forall_nil
  | |- _ <> _ => discriminate
  | _ => idtac
  end.

Lemma sample_columns_ok : Forall (column_ok ZUTC 2) sample_columns.
Proof.
  unfold sample_columns. repeat (apply Forall_cons; split); [..|by apply Forall_nil];
    (split; [cbn [data stored]; unfold list_ok, fits; rewrite ?sample_contents|concrete]); concrete.
  apply sample_pool_wf.
Qed.

Lemma sample_block_ok : block_ok ZUTC 2 sample_block.
Proof. split; [apply sample_columns_ok|reflexivity|lia|done|reflexivity]. Qed.

Lemma sample_block_sendable compress : sendable compress 2 sample_block.
Proof. intros _. unfold compressible. concrete. Qed.

(** C9: a block that was written, plain or compressed, is read back by
    [Block::load] as the same columns, and nothing behind it is consumed. *)
Theorem block_roundtrip {P : Profile} `{ChronoTz, Combine, Lz4, !Lz4Laws} tz n b compress rest :
  block_ok tz n b -> sendable compress n b ->
  exists bs b', block_write b new compress = Ok bs /\
    load (R:=bytes) tz compress (bs ++ rest) = Ok (b', rest) /\ same_block b b'.
Proof.
  intros Hb Hs. destruct (parses_load (R:=bytes) tz n b compress Hb Hs) as (b' & Hp & Heq).
  exists (wire_bytes compress n b), b'. split_and!; [exact (block_write_ok tz n b new compress Hb Hs)| |done].
  by apply parses_cursor.
Qed.

Lemma block_roundtrip_witness :
  block_ok ZUTC 2 sample_block /\
  exists bs b', block_write sample_block new true = Ok bs /\
    load (R:=bytes) ZUTC true (bs ++ [x01]) = Ok (b', [x01]) /\ same_block sample_block b'.
Proof.
  split; [apply sample_block_ok|].
  apply (@block_roundtrip debug chrono combine_ll1 store store_laws ZUTC 2); [apply sample_block_ok|apply sample_block_sendable].
Defined.

(** What a client does with a data packet: its number, the name of the table and
    the block. *)
Definition client_read_data {P : Profile} `{ChronoTz, Combine, Lz4} {R} `{Read R} (tz : Tz) (compress : bool)
  : rd R (Z * bytes * Block) :=
  packet ← read_uvarint;
  table ← read_string;
  block ← load tz compress;
  mret (packet, table, block).

(** C10: a result of at most [INSERT_BLOCK_SIZE] rows is sent as one data packet,
    which a client reads back as the same columns. *)
Theorem data_packet_roundtrip {P : Profile} `{ChronoTz, Combine, Lz4, !Lz4Laws} tz n b compress rest :
  block_ok tz n b -> n <= INSERT_BLOCK_SIZE -> sendable compress n (sent b) ->
  exists bs b', send_server_data b new compress = Ok bs /\
    client_read_data (R:=bytes) tz compress (bs ++ rest) = Ok ((SERVER_DATA, [], b'), rest) /\
    same_block (sent b) b'.
Proof.
  intros Hb Hn Hs.
  destruct (parses_load (R:=bytes) tz n (sent b) compress (sent_ok tz n b Hb) Hs) as (b' & Hp & Heq).
  exists (data_bytes SERVER_DATA compress n b), b'.
  split_and!; [by apply (send_data_ok SERVER_DATA tz n b new compress)| |done].
  apply parses_cursor. unfold client_read_data, data_bytes.
  eapply parses_bind; [done|by apply parses_uvarint|].
  eapply parses_bind; [done|by apply str_ok_parses|].
  eapply parses_bind; [symmetry; apply app_nil_r|exact Hp|apply parses_ret].
Qed.

Lemma data_packet_roundtrip_witness :
  block_ok ZUTC 2 sample_block /\
  exists bs b', send_server_data sample_block new false = Ok bs /\
    client_read_data (R:=bytes) ZUTC false (bs ++ []) = Ok ((SERVER_DATA, [], b'), []) /\
    same_block (sent sample_block) b'.
Proof.
  split; [apply sample_block_ok|].
  apply (@data_packet_roundtrip debug chrono combine_ll1 store store_laws ZUTC 2); [apply sample_block_ok|done|done].
Defined.

(** What [Block::write] compresses, [decompress_buffer] gives back, after
    checking the method, the size and the checksum. *)
Theorem frame_roundtrip {P : Profile} `{Lz4, !Lz4Laws} tmp rest :
  compressible tmp ->
  exists bs, write_compressed new tmp = Ok bs /\
    decompress_buffer (R:=bytes) (bs ++ rest) = Ok (tmp, rest).
Proof.
  intros Hc. exists (frame tmp). split; [exact (write_compressed_ok new tmp Hc)|].
  by apply parses_cursor, parses_frame.
Qed.

Lemma frame_roundtrip_witness :
  compressible (lit "hello") /\
  exists bs, write_compressed new (lit "hello") = Ok bs /\
    decompress_buffer (R:=bytes) (bs ++ [x00]) = Ok (lit "hello", [x00]).
Proof. split; [unfold compressible; concrete|]. apply frame_roundtrip. unfold compressible. concrete. Defined.

(** C13: a block whose bytes are cut into compressed frames at any place is
    loaded as one block: [CompressedReader] takes the frames one after the
    other, and what follows the last frame stays in the input. *)
Theorem frames_roundtrip {P : Profile} `{ChronoTz, Combine, Lz4, !Lz4Laws} tz n b tmps rest :
  block_ok tz n b -> write_plain b new = Ok (concat tmps) -> Forall compressible tmps ->
  exists bs b', for_each tmps (fun tmp e => write_compressed e tmp) new = Ok bs /\
    load (R:=bytes) tz true (bs ++ rest) = Ok (b', rest) /\ same_block b b'.
Proof.
  intros Hb Hw Hc. rewrite (write_plain_ok tz n b new Hb) in Hw. injection Hw as Hw.
  destruct (parses_load_frames (R:=bytes) tz n b tmps Hb Hc (eq_sym Hw)) as (b' & Hp & Hs).
  exists (concat (frame <$> tmps)), b'. split_and!; [exact (write_frames new tmps Hc)| |done].
  by apply parses_cursor.
Qed.

(** The bytes of the sample block, cut after the tenth. *)
Definition sample_halves : list bytes :=
  match write_plain (P:=debug) sample_block new with Ok bs => [take 10 bs; drop 10 bs] | _ => [] end.

Lemma frames_roundtrip_witness :
  block_ok ZUTC 2 sample_block /\
  exists bs b', for_each sample_halves (fun tmp e => write_compressed e tmp) new = Ok bs /\
    load (R:=bytes) ZUTC true (bs ++ [x01]) = Ok (b', [x01]) /\ same_block sample_block b'.
Proof.
  split; [apply sample_block_ok|].
  apply (@frames_roundtrip debug chrono combine_ll1 store store_laws ZUTC 2); [apply sample_block_ok|reflexivity|].
  repeat (apply Forall_cons; split); [..|by apply Forall_nil]; unfold compressible; concrete.
Defined.

(** C36: the chunks of a block cover its rows, in order and each row once.  No
    chunk has more rows than asked for, there are as few chunks as that allows,
    and none is empty, but for the one chunk of an empty block. *)
Theorem chunks_partition {P : Profile} `{ChronoTz, Combine, Lz4} {A} size b m (body : Block -> A -> Result A) a :
  0 < size -> 0 <= m -> row_count b = Ok m ->
  exists rs,
    for_chunks (chunks_fuel size m) size b 0 body a =
      for_each rs
        (fun '(s, e) a => body (chunk_of b (if m =? 0 then 0 else DEFAULT_CAPACITY) s e) a) a /\
    concat ((fun '(s, e) => seqZ s (e - s)) <$> rs) = seqZ 0 m /\
    Forall (fun '(s, e) => 0 <= s <= e /\ e <= m /\ e - s <= size) rs /\
    Z.of_nat (length rs) = Z.max 1 ((m + size - 1) / size) /\
    (0 < m -> Forall (fun '(s, e) => s < e) rs) /\ (m = 0 -> rs = [(0, 0)]).
Proof.
  intros Hs Hm Hr. exists (ranges size m).
  split_and!; [by apply for_chunks_ranges|by apply ranges_cover|by apply ranges_bound|
    by apply ranges_length|by apply ranges_nonempty|by intros ->].
Qed.

Lemma chunks_partition_witness :
  row_count sample_block = Ok 2 /\
  exists rs,
    for_chunks (chunks_fuel 1 2) 1 sample_block 0 (fun b l => Ok (l ++ [b])) [] =
      for_each rs (fun '(s, e) l => Ok (l ++ [chunk_of sample_block DEFAULT_CAPACITY s e])) [] /\
    concat ((fun '(s, e) => seqZ s (e - s)) <$> rs) = seqZ 0 2 /\
    Forall (fun '(s, e) => 0 <= s <= e /\ e <= 2 /\ e - s <= 1) rs /\
    Z.of_nat (length rs) = 2 /\
    (0 < 2 -> Forall (fun '(s, e) => s < e) rs) /\ (2 = 0 -> rs = [(0, 0)]).
Proof.
  split; [reflexivity|].
  apply (chunks_partition 1 sample_block 2 (fun b l => Ok (l ++ [b]))); [lia|lia|reflexivity].
Defined.

(** ** Columns *)

(** C11: the bytes that a column saves are loaded under the name of its type as a
    column with the same cells. *)
Theorem column_roundtrip {P : Profile} `{ChronoTz, Combine} tz n c rest :
  stored tz n c -> printable (sql_type c) = true ->
  exists bs c', save c new 0 n = Ok bs /\
    load_data (R:=bytes) (to_string (sql_type c)) n tz (bs ++ rest) = Ok (c', rest) /\
    sql_type c' = sql_type c /\ len c' = Ok n /\ forall i, at_ c' i = at_ c i.
Proof.
  intros Hs Hp.
  destruct (load_stored (R:=bytes) tz n c Hs _ Hp (Nat.le_refl _)) as (c' & Hl & Heq).
  exists (col_bytes c), c'. split_and!.
  - exact (save_stored tz n c new Hs).
  - by apply parses_cursor.
  - by rewrite Heq.
  - rewrite <- Heq. by apply (len_stored tz).
  - intros i. by rewrite Heq.
Qed.

Lemma column_roundtrip_witness :
  let c := ArrayColumnData (VectorColumnData i8 [-1; 2; 3]) [1; 3] in
  stored ZUTC 2 c /\
  exists bs c', save c new 0 2 = Ok bs /\
    load_data (R:=bytes) (lit "Array(Int8)") 2 ZUTC (bs ++ []) = Ok (c', []) /\
    sql_type c' = sql_type c /\ len c' = Ok 2 /\ forall i, at_ c' i = at_ c i.
Proof.
  assert (stored ZUTC 2 (ArrayColumnData (VectorColumnData i8 [-1; 2; 3]) [1; 3])) as Hs
    by (cbn [stored]; unfold list_ok, fits; concrete).
  split; [exact Hs|]. apply (@column_roundtrip debug chrono combine_ll1 ZUTC 2 _ [] Hs). reflexivity.
Defined.

(** C32: every cell of a stored column is read without a panic. *)
Theorem stored_cells_readable {P : Profile} `{ChronoTz, Combine} tz n c i :
  stored tz n c -> ordered c -> 0 <= i < n -> exists v, at_ c i = Ok v.
Proof. intros Hs Ho Hi. by apply (at_stored tz n c). Qed.

Lemma stored_cells_readable_witness :
  let c := NullableColumnData (StringColumnData sample_pool) [x00; x01] in
  stored ZUTC 2 c /\ exists v, at_ c 1 = Ok v.
Proof.
  assert (stored ZUTC 2 (NullableColumnData (StringColumnData sample_pool) [x00; x01])) as Hs.
  { cbn [stored]. unfold fits. rewrite sample_contents. concrete. apply sample_pool_wf. }
  split; [exact Hs|].
  apply (@stored_cells_readable debug chrono combine_ll1 ZUTC 2 _ 1 Hs); [exact I|lia].
Defined.

(** C37: a value that a column takes is appended as one row: [push] succeeds,
    [len] grows by one and the rows before it are read as before, at every nesting
    of arrays and nullables; strings of a fixed length, where this fails, are not
    taken.  A number, string, address, enum value or decimal of the type of the
    column is read back as it is; a value without an option is read as one with
    it from an optional column; a date or an instant is read as the day or the
    time that [get_stamp] made of it, and a decimal of another scale as its digits
    at the scale of the column ([cell]). *)
Theorem push_appends_row {P : Profile} `{ChronoTz, Combine} n c v :
  shape n c -> accepts c v = true -> room (elements v) c ->
  exists c', push true c v = Ok c' /\ shape (n + 1) c' /\
    len c' = Ok (n + 1) /\ sql_type c' = sql_type c /\
    (forall i, 0 <= i < n -> at_ c' i = at_ c i) /\
    (addressable c' -> at_ c' n = cell c v) /\
    (addressable c' -> exact c v = true -> at_ c' n = Ok (to_value_ref v)).
Proof.
  intros Hs Hok Hr. rewrite <- (Z.add_0_r (elements v)) in Hr.
  destruct (push_appends (cdepth c) 0 n c v) as (c' & Hp & [Hs' Ht _ _ _ _ Ho Hn] & _); [done..|].
  exists c'. split_and!; [done|done|by apply shape_len|done..|].
  intros Ha He. rewrite (Hn Ha). by apply cell_exact.
Qed.

(** An [Array(Nullable(String))] column with the row [NULL, ""]. *)
Definition sample_words : column_data :=
  ArrayColumnData (NullableColumnData (StringColumnData sample_pool) [x01; x00]) [2].

Definition sample_value : Value.t :=
  Value.Array (Nullable String_)
    [Value.Nullable (Right (Value.String_ (lit "x"))); Value.Nullable (Left String_); Value.Nullable (Right (Value.String_ []))].

Lemma push_appends_row_witness :
  shape 1 sample_words /\ accepts sample_words sample_value = true /\
  room (elements sample_value) sample_words /\
  exists c', push true sample_words sample_value = Ok c' /\ shape 2 c' /\
    len c' = Ok 2 /\ sql_type c' = sql_type sample_words /\
    (forall i, 0 <= i < 1 -> at_ c' i = at_ sample_words i) /\
    (addressable c' -> at_ c' 1 = cell sample_words sample_value) /\
    (addressable c' -> exact sample_words sample_value = true -> at_ c' 1 = Ok (to_value_ref sample_value)).
Proof.
  assert (shape 1 sample_words) as Hs.
  { cbn [shape sample_words]. concrete. apply sample_pool_wf. }
  assert (room (elements sample_value) sample_words) as Hr.
  { unfold sample_words, sample_value. cbn [room elements]. unfold roomy. concrete. }
  split; [exact Hs|]. split; [vm_compute; reflexivity|]. split; [exact Hr|].
  apply (@push_appends_row debug chrono combine_ll1 1 sample_words sample_value Hs);
    [vm_compute; reflexivity|exact Hr].
Defined.

(** [FixedStringColumnData::push] resizes the buffer to
    [old_len + (str_len - l)], where [l] bytes were just appended: a value of at
    least [str_len] bytes is appended and cut off again, so the column does not
    change. *)
Theorem push_fixed_drops {P : Profile} buffer str_len bs :
  0 <= str_len <= Z.of_nat (length bs) -> Z.of_nat (length buffer) <= isize_max ->
  push_fixed buffer str_len bs = (Ok buffer : Result bytes).
Proof.
  intros Hs Hb. unfold push_fixed. rewrite Z.min_r, Z.sub_diag, Z.add_0_r by lia.
  unfold isize_max in *. rewrite arith_u_ok by (apply in_u_spec; lia). cbn [mbind outcome_bind].
  rewrite alloc_ok by (unfold isize_max; lia). cbn [mbind outcome_bind].
  unfold vec_resize. rewrite Nat2Z.id, take_app_length, length_app.
  by replace (_ - _)%nat with 0%nat by lia; rewrite app_nil_r.
Qed.

Lemma push_fixed_drops_witness :
  push_fixed (lit "ab") 2 (lit "cd") = (Ok (lit "ab") : Result bytes).
Proof. apply (@push_fixed_drops debug); [cbn; lia|vm_compute; discriminate]. Defined.

(** A client may send a column of type [FixedString(0)]; it is loaded, and
    asking for its length divides by zero. *)
Theorem fixed_string_zero_panics {P : Profile} `{ChronoTz, Combine} tz (rest : bytes) :
  exists c, load_data (lit "FixedString(0)") 0 tz rest = Ok (c, rest) /\ len c = Panic.
Proof. exists (FixedStringColumnData [] 0). split; reflexivity. Qed.

(** ** String pools *)

(** C29: a pool made of strings is that list of strings: [len], [get] and the
    iterator say the same as the list. *)
Theorem string_pool_refines {P : Profile} ss :
  Forall (fun s => Z.of_nat (length s) <= isize_max) ss ->
  Z.of_nat (length ss) * AVG_STR_SIZE <= isize_max ->
  exists pool, from_vec ss = (Ok pool : Result StringPool) /\
    StringPool.len pool = length ss /\
    (forall i, StringPool.get pool i = (unwrap (ss !! i) : Result bytes)) /\
    strings pool = (Ok ss : Result (list bytes)).
Proof.
  intros Hss Hl. destruct (from_vec_ok (E:=Error) ss Hss Hl) as (pool & Hf & Hwf & Hc).
  exists pool. split_and!; [done|..].
  - by rewrite <- length_contents, Hc.
  - intros i. by rewrite wf_get, Hc.
  - by rewrite wf_strings, Hc.
Qed.

Lemma string_pool_refines_witness :
  Forall (fun s => Z.of_nat (length s) <= isize_max) [lit "abc"; []] /\
  exists pool, from_vec [lit "abc"; []] = (Ok pool : Result StringPool) /\
    StringPool.len pool = 2%nat /\
    (forall i, StringPool.get pool i = (unwrap ([lit "abc"; []] !! i) : Result bytes)) /\
    strings pool = (Ok [lit "abc"; []] : Result (list bytes)).
Proof.
  assert (Forall (fun s => Z.of_nat (length s) <= isize_max) [lit "abc"; []]) as Hf by concrete.
  split; [exact Hf|]. apply (@string_pool_refines debug _ Hf). vm_compute. discriminate.
Defined.

(** C30: pushing a string keeps every pointer of the pool inside its chunk, keeps
    the strings already there and adds the new one; it fails only by a panic. *)
Theorem string_pool_push_safe {P : Profile} pool s :
  wf pool ->
  push_string pool s = (Panic : Result StringPool) \/
  exists pool', push_string pool s = (Ok pool' : Result StringPool) /\ wf pool' /\
    contents pool' = contents pool ++ [s].
Proof.
  intros Hwf. destruct (push_string_wf (E:=Error) pool s Hwf) as [?|(pool' & ? & ? & ? & _)];
    [by left|right]. by exists pool'.
Qed.

Lemma string_pool_push_safe_witness :
  wf sample_pool /\
  (push_string sample_pool (lit "xy") = (Panic : Result StringPool) \/
   exists pool', push_string sample_pool (lit "xy") = (Ok pool' : Result StringPool) /\ wf pool' /\
     contents pool' = contents sample_pool ++ [lit "xy"]).
Proof.
  split; [apply sample_pool_wf|]. apply (@string_pool_push_safe debug). apply sample_pool_wf.
Defined.

(** C31: [allocate] calls itself at most once: the chunk that it reserves is large
    enough. *)
Theorem allocate_terminates {P : Profile} pool size :
  allocate pool size <> (OutOfFuel : Result (StringPool * StringPtr)).
Proof. apply allocate_total. Qed.
