(* ===== verification/ClientProperties.v ===== *)
(** * Properties of what a program does with columns and blocks

    Columns made from vectors, iterators, concatenation, casts, comparison, texts
    and the options of a connection. *)

From Stdlib Require Import Permutation.
From S2P Require Import Prelude RustStd Errors Scalars Encoder ReadEx Finite Protocol.
From S2P Require Import SqlType TypeNames DecimalNum Values StringPool ChunkIndex Columns.
From S2P Require Import ColumnLaws ColumnReads PushLaws Iter IterLaws IterCalls Compressed Block Concat.
From S2P Require Import BlockLaws NetAddr Cast ColumnFrom FromLaws CastLaws Compare ClientOptions.
From S2P Require Import Text TextLaws.
From S2P Require Import Instances ColumnProperties.
Local Open Scope Z_scope.

#[local] Existing Instances debug chrono combine_ll1 store store_laws chrono_eq instants.

(** The size of a [String] on a 64-bit machine. *)
Definition item_words (T : iterable) : Z := 24.

(** ** Columns made from vectors *)

(** C14: a program gets back what it put in: iterating over the column that
    [ColumnFrom] makes of a vector, of numbers, strings or addresses, plain,
    optional or nested, yields that vector, by defined reads only. *)
Theorem column_from_iterates {P : Profile} `{ChronoTz, Combine, !InstantLayout} item_size s T xs :
  makes item_size s T xs ->
  exists c it, column_from s = Ok c /\ column_iter T c = mret it /\
    yields (next item_size T) it xs /\ iter_len T it = Ok (Z.of_nat (length xs)).
Proof.
  intros Hs. destruct (column_from_makes item_size s T xs Hs) as (c & Hc & Hd & Hh & Hv).
  destruct (column_iter_left item_size T _ c xs Hd Hh Hv) as (it & Hit & Hy & Hl).
  exists c, it. split_and!; [done..|]. by apply sized_len; [lia|].
Qed.

Definition sample_options : list (option bytes) := [Some (lit "abc"); None; Some []].

Lemma sample_makes : makes item_words (FromStringOptions sample_options) (TOption TBytes) sample_options.
Proof.
  constructor; [|concrete]. unfold sample_options, short.
  repeat (apply Forall_cons; split; [cbn; first [exact I|unfold isize_max; lia]|]). by apply Forall_nil.
Qed.

Lemma column_from_iterates_witness :
  makes item_words (FromStringOptions sample_options) (TOption TBytes) sample_options /\
  exists c it, column_from (FromStringOptions sample_options) = Ok c /\
    column_iter (TOption TBytes) c = mret it /\
    yields (next item_words (TOption TBytes)) it sample_options /\
    iter_len (TOption TBytes) it = Ok 3.
Proof.
  split; [apply sample_makes|].
  apply (@column_from_iterates debug chrono combine_ll1 instants item_words _ (TOption TBytes)), sample_makes.
Defined.

(** C15: iterating over a column is reading its cells: the iterator of [n] rows
    yields [n] items, whatever calls of [next], [nth] and [len] are made, it
    answers like the list of these items, and the item of a row is the cell that
    [at] returns there, converted by [FromSql]. *)
Theorem iterator_reads_cells {P : Profile} `{ChronoTz, Combine, !InstantLayout} item_size T n c vs :
  depth (sql_type c) < 256 -> holds item_size T n c -> values T c = Ok vs ->
  exists it, column_iter T c = mret it /\ yields (next item_size T) it vs /\
    (forall calls, make_calls item_size T calls it = mret (list_calls calls vs)) /\
    Z.of_nat (length vs) = n /\
    forall i x, vs !! i = Some x -> read_cell T c (Z.of_nat i) = Ok x.
Proof.
  intros Hd Hh Hv. destruct (column_iter_left item_size T n c vs Hd Hh Hv) as (it & Hit & Hl).
  exists it. split_and!; [done|apply Hl|intros calls; by apply left_calls|by eapply values_length|].
  intros i x. by eapply values_read.
Qed.

Definition sample_dates : column_data := DateColumnData D16 [0; 18262] ZShanghai.

Lemma iterator_reads_cells_witness :
  depth (sql_type sample_dates) < 256 /\ holds item_words TDate 2 sample_dates /\
  values TDate sample_dates = Ok [(0, ZShanghai); (18262, ZShanghai)] /\
  exists it, column_iter TDate sample_dates = mret it /\
    yields (next item_words TDate) it [(0, ZShanghai); (18262, ZShanghai)] /\
    (forall calls, make_calls item_words TDate calls it =
       mret (list_calls calls [(0, ZShanghai); (18262, ZShanghai)])) /\ 2 = 2 /\
    forall i x, [(0, ZShanghai); (18262, ZShanghai)] !! i = Some x ->
      read_cell TDate sample_dates (Z.of_nat i) = Ok x.
Proof.
  split; [concrete|]. split; [reflexivity|]. split; [concrete|].
  apply (@iterator_reads_cells debug chrono combine_ll1 instants item_words TDate 2 sample_dates
           [(0, ZShanghai); (18262, ZShanghai)]); [concrete|reflexivity|concrete].
Defined.

(** C39: an iterator of instants over the column that [ColumnFrom] makes of a
    vector of instants is not an iterator over the vector: the type of the column
    passes the check, but the memory of the [DateTime]s is read as 32-bit numbers.
    However the compiler lays out an instant, in eight bytes or more, the iterator
    has as many items as the vector and reads all of them from the first half of
    it: two vectors that agree there, whatever is in the second half, have the
    same iterator. *)
Theorem chrono_iterator_misreads {P : Profile} `{ChronoTz, Combine, !InstantLayout} k ds ds' :
  (forall d, length (instant_bytes d) = k) -> (8 <= k)%nat ->
  length ds = length ds' -> half ds = half ds' ->
  exists c c' it,
    column_from (FromDateTimes ds) = Ok c /\ column_from (FromDateTimes ds') = Ok c' /\
    sql_type c = DateTime_ Chrono /\ sql_type c' = DateTime_ Chrono /\
    column_iter TDateTime c = mret it /\ column_iter TDateTime c' = mret it /\
    iter_len TDateTime it = Ok (Z.of_nat (length ds)).
Proof.
  intros Hk H8 Hl Hh. do 3 eexists. split_and!; [done..|by apply (chrono_iter_half k)| |].
  - unfold datetimes_from. rewrite (chrono_iter_half k), <- Hl, <- Hh by done. do 2 f_equal.
    destruct ds, ds'; by simplify_eq/=.
  - cbn. unfold datetime_iter_len. cbn. by rewrite length_split_places.
Qed.

(** Of two instants, the second is not read. *)
Lemma chrono_iterator_misreads_witness :
  let ds := [(0, ZUTC); (1000000000, ZUTC)] in let ds' := [(0, ZUTC); (86400000000000, ZLima)] in
  (forall d, length (instant_bytes d) = 16%nat) /\ ds <> ds' /\
  exists c c' it,
    column_from (FromDateTimes ds) = Ok c /\ column_from (FromDateTimes ds') = Ok c' /\
    sql_type c = DateTime_ Chrono /\ sql_type c' = DateTime_ Chrono /\
    column_iter TDateTime c = mret it /\ column_iter TDateTime c' = mret it /\
    iter_len TDateTime it = Ok 2.
Proof.
  assert (forall d, length (instant_bytes d) = 16%nat) as Hk by by intros [ns z].
  split; [exact Hk|]. split; [discriminate|].
  apply (@chrono_iterator_misreads debug chrono combine_ll1 instants 16
           [(0, ZUTC); (1000000000, ZUTC)] [(0, ZUTC); (86400000000000, ZLima)]);
    [exact Hk|lia|reflexivity|reflexivity].
Defined.

(** ** Days and time zones *)

(** The days of chrono: the offset of a zone's local time from UTC at an instant,
    less than a day, and the local day that it puts the instant on. *)
Class ChronoDays `{ChronoTz} := {
  utc_offset : Tz -> Z -> Z;
  utc_offset_bound tz s : -86400 < utc_offset tz s < 86400;
  timestamp_total tz s : 0 <= s < 2 ^ 33 -> exists t, tz_timestamp tz s 0 = Some t;
  local_day tz s t :
    tz_timestamp tz s 0 = Some t ->
    num_days_from_ce (dt_date t) = 719163 + (s + utc_offset tz s) / 86400
}.

(** The day that midnight UTC of the day of [d] falls on in the zone of [d]. *)
Definition day_of_midnight `{ChronoDays} (d : AppDate) : Z :=
  if utc_offset (date_timezone d) (get_days d * 86400) <? 0 then get_days d - 1 else get_days d.

Lemma get_days_midnight `{ChronoDays} d :
  0 < get_days d ->
  exists t, timestamp (E:=Error) (date_timezone d) (get_days d * 24 * 3600) 0 = Ok t /\
    get_days (dt_date t) = day_of_midnight d.
Proof.
  intros Hd. assert (get_days d < 65536) as Hm by (unfold get_days, wrapu; apply Z.mod_pos_bound; lia).
  destruct (timestamp_total (date_timezone d) (get_days d * 24 * 3600)) as [t Ht]; [lia|].
  exists t. split; [unfold timestamp; by rewrite Ht|].
  unfold day_of_midnight. replace (get_days d * 24 * 3600) with (get_days d * 86400) in Ht by lia.
  pose proof (utc_offset_bound (date_timezone d) (get_days d * 86400)).
  unfold get_days at 1. rewrite (local_day _ _ _ Ht), Z.div_add_l by lia. unfold wrapu.
  destruct (Z.ltb_spec (utc_offset (date_timezone d) (get_days d * 86400)) 0);
    rewrite Z.mod_small; Z.div_mod_to_equations; lia.
Qed.

Lemma push_dates {P : Profile} `{ChronoTz, Combine, !ChronoDays} ds days nulls :
  Forall (fun d => 0 < get_days d) ds ->
  for_each (Some <$> ds)
    (fun value data =>
       push true data
         (Value.Nullable (match value with Some d => Right (date_value d) | None => Left Date end)))
    (NullableColumnData (DateColumnData D16 days Zulu) nulls) =
  Ok (NullableColumnData (DateColumnData D16 (days ++ (day_of_midnight <$> ds)) Zulu)
        (nulls ++ replicate (length ds) x00)).
Proof.
  intros Hd. revert days nulls. induction Hd as [|d ds Hd _ IH]; intros days nulls.
  { cbn. by rewrite !app_nil_r. }
  rewrite fmap_cons. cbn [for_each]. rewrite push_nullable_step.
  cbn [nullable_push assert_ mbind outcome_bind cdepth push_fuel date_push date_value].
  destruct (get_days_midnight d Hd) as (t & Ht & Hg).
  unfold get_stamp16, value_date, date_value. rewrite Ht. cbn [mbind outcome_bind].
  rewrite Hg, IH, <- !app_assoc. done.
Qed.

(** C40: an optional date is not stored as its day.  [Vec<Date<Tz>>] stores the
    day of each date; [Vec<Option<Date<Tz>>>] stores the day that midnight UTC of
    that day has in the time zone of the date: the day before it where local time
    is behind UTC, and the day itself elsewhere. *)
Theorem optional_dates_shift {P : Profile} `{ChronoTz, Combine, !ChronoDays} ds :
  Forall (fun d => 0 < get_days d) ds ->
  column_from (FromDates ds) = Ok (DateColumnData D16 (get_days <$> ds) Zulu) /\
  column_from (FromDateOptions (Some <$> ds)) =
    Ok (NullableColumnData
          (DateColumnData D16
             ((fun d => if utc_offset (date_timezone d) (get_days d * 86400) <? 0
                        then get_days d - 1 else get_days d) <$> ds) Zulu)
          (replicate (length ds) x00)).
Proof.
  intros Hd. split.
  - cbn [column_from]. unfold dates_from. by rewrite for_each_snoc.
  - cbn [column_from]. unfold option_dates_from, dates_from. cbn [for_each mbind outcome_bind].
    by rewrite (push_dates ds).
Qed.

#[local] Instance chrono_days : @ChronoDays chrono.
Proof.
  refine {| utc_offset (z : @Tz chrono) _ := zone_offset z |}.
  - by intros [].
  - intros tz s _. by eexists.
  - intros tz s t [= <-]. cbn. rewrite Z.add_0_r, Z.div_mul by lia. lia.
Defined.

(** Day 18262 is stored as day 18261 in Lima, and as itself in Shanghai. *)
Lemma optional_dates_shift_witness :
  let ds := [(18262, ZLima); (18262, ZShanghai)] in
  Forall (fun d => 0 < get_days d) ds /\
  column_from (FromDates ds) = Ok (DateColumnData D16 [18262; 18262] ZUTC) /\
  column_from (FromDateOptions (Some <$> ds)) =
    Ok (NullableColumnData (DateColumnData D16 [18261; 18262] ZUTC) [x00; x00]).
Proof.
  assert (Forall (fun d => 0 < @get_days chrono d) [(18262, ZLima); (18262, ZShanghai)]) as Hd
    by (repeat (apply Forall_cons; split; [reflexivity|]); apply Forall_nil_2).
  split; [exact Hd|]. exact (@optional_dates_shift debug chrono combine_ll1 chrono_days _ Hd).
Defined.

(** ** Concatenation *)

(** C18: a concatenated block has the rows of its blocks, one block after the
    other: row [i] of block [k] is found at the rows of the blocks before it plus
    [i], in every column and as every type. *)
Theorem block_concat_rows {P : Profile} `{ChronoTz, Combine} tys blocks ns :
  blocks_ok tys blocks ns ->
  exists c, block_concat blocks = Ok c /\ column_count c = Z.of_nat (length tys) /\
    (tys <> [] -> row_count c = Ok (sum ns)) /\
    forall k b n j i A (from_sql : FromSql A),
      blocks !! k = Some b -> ns !! k = Some n -> (j < length tys)%nat -> 0 <= i < n ->
      get from_sql c (start ns (Z.of_nat k) + i) (ByPosition (Z.of_nat j)) =
      get from_sql b i (ByPosition (Z.of_nat j)).
Proof.
  intros Hok. destruct (block_concat_ok tys blocks ns Hok) as (c & Hc & Hl & Hcols).
  exists c. split_and!; [done|unfold column_count; lia|..].
  - intros Hne. destruct tys as [|ty tys]; [done|].
    destruct (Hcols 0%nat ty eq_refl) as (cs & first & rest & nm & _ & _ & _ & Hcol).
    unfold row_count. destruct (columns c) as [|col cols]; [done|]. injection Hcol as ->.
    cbn [data len]. by rewrite last_offsets.
  - intros k b n j i A from_sql Hb Hn [ty Hty]%lookup_lt_is_Some_2 Hi.
    destruct (Hcols j ty Hty) as (cs & first & rest & nm & Hcs & Hd & Hch & Hj).
    destruct (Forall2_lookup_r _ _ _ _ _ Hcs Hb) as (col & Hcol & Hbj).
    unfold get. cbn [get_index mbind outcome_bind]. rewrite !indexZ_nat, !Nat2Z.id, Hj, Hbj by lia.
    cbn [unwrap mbind outcome_bind data].
    rewrite (concat_at_chunk ty first rest ns k (data col) n i); try done.
    rewrite <- Hd, list_lookup_fmap, Hcol. done.
Qed.

(** One row, then two. *)
Definition first_half : Block :=
  mkBlock BlockInfo.default [mkColumn (lit "id") (VectorColumnData u32 [7])] 100.
Definition second_half : Block :=
  mkBlock BlockInfo.default [mkColumn (lit "id") (VectorColumnData u32 [8; 9])] 100.

Lemma halves_ok : blocks_ok [UInt32] [first_half; second_half] [1; 2].
Proof.
  split; [done| |concrete|concrete| |concrete].
  - repeat (apply Forall2_cons; split;
      [split; [lia|]; apply Forall2_cons; split; [done|apply Forall2_nil_2]|]). apply Forall2_nil_2.
  - repeat (apply Forall_cons; split; [cbn; lia|]). by apply Forall_nil.
Qed.

Lemma block_concat_rows_witness :
  blocks_ok [UInt32] [first_half; second_half] [1; 2] /\
  exists c, block_concat [first_half; second_half] = Ok c /\ column_count c = 1 /\
    ([UInt32] <> [] -> row_count c = Ok 3) /\
    forall k b n j i A (from_sql : FromSql A),
      [first_half; second_half] !! k = Some b -> [1; 2] !! k = Some n -> (j < 1)%nat -> 0 <= i < n ->
      get from_sql c (start [1; 2] (Z.of_nat k) + i) (ByPosition (Z.of_nat j)) =
      get from_sql b i (ByPosition (Z.of_nat j)).
Proof. split; [apply halves_ok|]. exact (@block_concat_rows debug chrono combine_ll1 _ _ _ halves_ok). Defined.

(** C27: an iterator over a concatenated column yields the items of its chunks,
    one chunk after the other, empty chunks included. *)
Theorem concat_iterates {P : Profile} `{ChronoTz, Combine, !InstantLayout} item_size T ty cs ns vss :
  depth ty < 256 -> chunks_ok ty cs ns ->
  Forall2 (fun c vs => values T c = Ok vs /\ exists n, holds item_size T n c) cs vss ->
  exists c it, concat_columns cs = Ok c /\ complex_iter T c = mret it /\
    yields (complex_next item_size) it (concat vss).
Proof.
  intros Hd Hok Hvs. destruct (concat_columns_ok ty cs ns Hok) as (first & rest & -> & Hc).
  eexists _, _. split; [exact Hc|]. split; [reflexivity|].
  assert (sql_type first = ty) as Hty by (pose proof (co_type _ _ _ Hok) as Hall; by apply Forall_cons in Hall as [? _]).
  cbn [sql_type]. rewrite Hty. apply complex_yields; [done|].
  pose proof (co_type _ _ _ Hok) as Hall. clear Hc Hok.
  induction Hvs as [|c vs cs vss Hv Hvs IH]; [constructor|].
  apply Forall_cons in Hall as [? Hall]. constructor; [done|]. by apply IH.
Qed.

Definition numbers (xs : list Z) : column_data := VectorColumnData u32 xs.

Lemma numbers_ok : chunks_ok UInt32 [numbers [7]; numbers []; numbers [8; 9]] [1; 0; 2].
Proof.
  split; [done|by repeat constructor| |concrete|concrete].
  repeat (apply Forall2_cons; split; [split; [reflexivity|lia]|]). apply Forall2_nil_2.
Qed.

Lemma numbers_hold :
  Forall2 (fun c vs => values (TPrim u32) c = Ok vs /\ exists n, holds item_words (TPrim u32) n c)
    [numbers [7]; numbers []; numbers [8; 9]] [[7]; []; [8; 9]].
Proof.
  repeat (apply Forall2_cons; split; [split; [reflexivity|by eexists]|]). apply Forall2_nil_2.
Qed.

Lemma concat_iterates_witness :
  chunks_ok UInt32 [numbers [7]; numbers []; numbers [8; 9]] [1; 0; 2] /\
  exists c it, concat_columns [numbers [7]; numbers []; numbers [8; 9]] = Ok c /\
    complex_iter (TPrim u32) c = mret it /\ yields (complex_next item_words) it [7; 8; 9].
Proof.
  split; [apply numbers_ok|].
  apply (@concat_iterates debug chrono combine_ll1 instants item_words (TPrim u32) UInt32 _ [1; 0; 2] [[7]; []; [8; 9]]);
    [concrete|apply numbers_ok|apply numbers_hold].
Defined.

(** ** Casts *)

(** C19: a string column that is cast to [FixedString(k)] is written, name, type
    and rows, exactly like the fixed-string column of its strings cut or padded
    to [k] bytes, which a server reads back. *)
Theorem fixed_cast_writes {P : Profile} `{ChronoTz, Combine} tz name_ pool k e :
  wf pool -> 0 < k <= isize_max -> Z.of_nat (StringPool.len pool) * k <= isize_max ->
  exists c, cast_to (StringColumnData pool) (FixedString k) = Ok c /\
    sql_type c = FixedString k /\
    stored tz (Z.of_nat (StringPool.len pool)) (fixed_column k (contents pool)) /\
    values TBytes (fixed_column k (contents pool)) = Ok (fixed_rows k (contents pool)) /\
    column_write (mkColumn name_ c) e = column_write (mkColumn name_ (fixed_column k (contents pool))) e.
Proof.
  intros Hwf [Hk Hk'] Hf. destruct (cast_fixed_writes tz name_ pool k e Hwf Hk Hf Hk') as (c & Hc & Ht & Hs & Hw).
  exists c. split_and!; try done.
  by apply (fixed_column_values (fun _ => 0)); rewrite ?length_contents.
Qed.

Lemma fixed_cast_writes_witness :
  wf sample_pool /\
  exists c, cast_to (StringColumnData sample_pool) (FixedString 2) = Ok c /\
    sql_type c = FixedString 2 /\
    stored ZUTC 2 (fixed_column 2 (contents sample_pool)) /\
    values TBytes (fixed_column 2 (contents sample_pool)) = Ok (fixed_rows 2 (contents sample_pool)) /\
    column_write (mkColumn (lit "s") c) new =
      column_write (mkColumn (lit "s") (fixed_column 2 (contents sample_pool))) new.
Proof.
  split; [apply sample_pool_wf|].
  apply (@fixed_cast_writes debug chrono combine_ll1 ZUTC (lit "s") sample_pool 2 new);
    [apply sample_pool_wf|concrete|concrete].
Defined.

(** A column of texts of addresses that is cast to [IPv4] or [IPv6] has the
    addresses that [str::parse] reads in them: each row comes back as its address. *)
Theorem ip_cast_reads {P : Profile} `{ChronoTz, Combine} v pool ips :
  v <> VUuid -> wf pool -> Z.of_nat (StringPool.len pool) <= isize_max ->
  Forall2 (spells v) (contents pool) ips ->
  exists c, cast_to (StringColumnData pool) (ip_sql_type v) = Ok c /\
    values (ip_iterable v) c = Ok (ip_items v ips) /\
    forall i ip, ip_items v ips !! i = Some ip -> read_cell (ip_iterable v) c (Z.of_nat i) = Ok ip.
Proof.
  intros Hv Hwf Hl Hips.
  destruct (cast_ip_values (fun _ => 0) v pool ips Hv Hwf Hl Hips) as (c & Hc & Hh & Hvs).
  exists c. split_and!; [done..|]. intros i ip. by eapply values_read.
Qed.

Definition address_pool : StringPool :=
  match from_vec (E:=Error) [lit "127.0.0.1"; lit "10.0.0.255"] with Ok p => p | _ => Pool [] [] 0 0 end.

Definition addresses_read : list bytes := [[x7f; x00; x00; x01]; [x0a; x00; x00; xff]].

Lemma address_pool_wf : wf address_pool.
Proof.
  split; [|vm_compute; repeat split; lia]. vm_compute.
  repeat constructor; eexists; (split; [reflexivity|]); cbn; lia.
Qed.

Lemma address_spells : Forall2 (spells V4) (contents address_pool) addresses_read.
Proof.
  replace (contents address_pool) with [lit "127.0.0.1"; lit "10.0.0.255"] by (vm_compute; reflexivity).
  repeat (apply Forall2_cons; split; [split; vm_compute; reflexivity|]). apply Forall2_nil_2.
Qed.

Lemma ip_cast_reads_witness :
  Forall2 (spells V4) (contents address_pool) addresses_read /\
  exists c, cast_to (StringColumnData address_pool) Ipv4 = Ok c /\
    values TIpv4 c = Ok addresses_read /\
    forall i ip, addresses_read !! i = Some ip -> read_cell TIpv4 c (Z.of_nat i) = Ok ip.
Proof.
  split; [apply address_spells|].
  apply (@ip_cast_reads debug chrono combine_ll1 V4 address_pool addresses_read);
    [discriminate|apply address_pool_wf|concrete|apply address_spells].
Defined.

(** C21: casting a block to a header succeeds only with the types of the header,
    and keeps the names, the number of rows and the block information. *)
Theorem block_cast_typed {P : Profile} `{ChronoTz, Combine} b header n b' :
  Forall (fun c => len (data c) = Ok n) (columns b) -> 0 <= n -> block_cast_to b header = Ok b' ->
  info b' = info b /\
  Forall2 (fun h c => sql_type (data c) = sql_type (data h)) (columns header) (columns b') /\
  Forall2 (fun c c' => name c' = name c /\ len (data c') = Ok n) (columns b) (columns b').
Proof. apply block_cast_keeps. Qed.

Definition texts : Block := mkBlock BlockInfo.default [mkColumn (lit "s") (StringColumnData sample_pool)] 100.
Definition fixed_header : Block := mkBlock BlockInfo.default [mkColumn (lit "t") (fixed_column 2 [])] 100.
Definition texts_cast : Block :=
  mkBlock BlockInfo.default [mkColumn (lit "s") (FixedStringAdapter (StringColumnData sample_pool) 2)] 100.

Lemma block_cast_typed_witness :
  block_cast_to texts fixed_header = Ok texts_cast /\
  info texts_cast = info texts /\
  Forall2 (fun h c => sql_type (data c) = sql_type (data h)) (columns fixed_header) (columns texts_cast) /\
  Forall2 (fun c c' => name c' = name c /\ len (data c') = Ok 2) (columns texts) (columns texts_cast).
Proof.
  split; [reflexivity|].
  apply (@block_cast_typed debug chrono combine_ll1 texts fixed_header 2 texts_cast); [|lia|reflexivity].
  apply Forall_cons. split; [reflexivity|by apply Forall_nil].
Defined.

(** ** Comparison *)

(** C24: a block that was written, plain or compressed, and read back compares
    equal to the original with the code's own [==], in both directions, when its
    cells are comparable. *)
Theorem read_block_compares_equal {P : Profile} `{ChronoTz, Combine, Lz4, !Lz4Laws, !ChronoEq}
  tz n b compress rest :
  block_ok tz n b -> sendable compress n b ->
  Forall (fun c => comparable_column n (data c)) (columns b) ->
  exists bs b', block_write b new compress = Ok bs /\
    load (R:=bytes) tz compress (bs ++ rest) = Ok (b', rest) /\
    block_eq b b' = Ok true /\ block_eq b' b = Ok true.
Proof.
  intros Hb Hs Hc. destruct (parses_load (R:=bytes) tz n b compress Hb Hs) as (b' & Hp & _ & Heq).
  exists (wire_bytes compress n b), b'. split_and!.
  - exact (block_write_ok tz n b new compress Hb Hs).
  - by apply parses_cursor.
  - by apply (block_eq_ok n).
  - apply (block_eq_ok n); [by symmetry|]. by eapply comparable_columns_equiv.
Qed.

Lemma sample_comparable : Forall (fun c => comparable_column 2 (data c)) sample_columns.
Proof.
  unfold sample_columns. repeat (apply Forall_cons; split); [..|by apply Forall_nil];
    apply comparable_column_check; concrete.
Qed.

Lemma read_block_compares_equal_witness :
  block_ok ZUTC 2 sample_block /\
  exists bs b', block_write sample_block new true = Ok bs /\
    load (R:=bytes) ZUTC true (bs ++ [x01]) = Ok (b', [x01]) /\
    block_eq sample_block b' = Ok true /\ block_eq b' sample_block = Ok true.
Proof.
  split; [apply sample_block_ok|].
  apply (@read_block_compares_equal debug chrono combine_ll1 store store_laws chrono_eq ZUTC 2);
    [apply sample_block_ok|apply sample_block_sendable|apply sample_comparable].
Defined.

(** C28: comparing two cells does not depend on their order, and a cell equals
    itself exactly when it is comparable: no instant that the time zone lacks, no
    NaN, and no address and no UUID. *)
Theorem cell_equality {P : Profile} `{ChronoTz, !ChronoEq} :
  (forall a b, value_ref_eq a b = value_ref_eq b a) /\
  (forall v, value_ref_eq v v = Ok true <-> comparable v = true).
Proof. split; [apply value_ref_eq_sym|apply value_ref_eq_refl]. Qed.

Lemma cell_equality_witness :
  (forall a b, @value_ref_eq debug chrono a b = value_ref_eq b a) /\
  (forall v, @value_ref_eq debug chrono v v = Ok true <-> comparable v = true).
Proof. apply (@cell_equality debug chrono chrono_eq). Defined.

(** [Column::push] panics on an optional column or an array column that is
    shared, whatever the value: the clone that it pushes to still shares the
    nested column. *)
Theorem shared_push_panics {P : Profile} `{ChronoTz, Combine} s inner nulls offsets value :
  column_push true (mkColumn s (NullableColumnData inner nulls)) value = Panic /\
  column_push true (mkColumn s (ArrayColumnData inner offsets)) value = Panic.
Proof. split; [reflexivity|by destruct value]. Qed.

(** ** Texts *)

(** C20: addresses survive their text: the cells of the column that [ColumnFrom]
    makes of IPv4 or IPv6 addresses are printed by [Display], the strings are made
    a column, and casting that to the type of the addresses gives the first column
    again. *)
Theorem addresses_survive_text {P : Profile} `{TextCrates, !Combine} v ips :
  v <> VUuid -> Forall (fun ip => length ip = ip_bytes v) ips ->
  Z.of_nat (length ips) * AVG_STR_SIZE <= isize_max ->
  exists c texts s, column_from (FromIps v ips) = Ok c /\ text_cells c = Ok texts /\
    column_from (FromStrings texts) = Ok s /\ cast_to s (ip_sql_type v) = Ok c.
Proof.
  intros Hv Hips Hl. destruct (ip_texts_cast v ips Hv Hips Hl) as (s & Hs & Hc).
  eexists _, _, s. split; [exact (ips_from_ok v ips)|]. split; [by apply ip_column_texts|by split].
Qed.

(** A loopback address, an address that is printed as IPv4, and one without
    zeroes. *)
Definition six_addresses : list bytes := [
  replicate 15 x00 ++ [x01];
  replicate 10 x00 ++ [xff; xff; x7f; x00; x00; x01];
  concat (replicate 8 [x20; x01])
].

Example six_texts :
  ipv6_text <$> six_addresses =
    [lit "::1"; lit "::ffff:127.0.0.1"; lit "2001:2001:2001:2001:2001:2001:2001:2001"].
Proof. vm_compute. reflexivity. Qed.

Lemma addresses_survive_text_witness :
  Forall (fun ip => length ip = 16%nat) six_addresses /\
  exists c texts s, column_from (FromIps V6 six_addresses) = Ok c /\
    @text_cells debug chrono plain_text c = Ok texts /\
    column_from (FromStrings texts) = Ok s /\ cast_to s Ipv6 = Ok c.
Proof.
  assert (Forall (fun ip => length ip = 16%nat) six_addresses) as Hl by by repeat constructor.
  split; [exact Hl|].
  apply (@addresses_survive_text debug chrono plain_text combine_ll1 V6 six_addresses); [discriminate|exact Hl|concrete].
Defined.

(** C26: a block with columns is printed as a table of pieces, each behind a line
    break, that have the same number of characters: three for the frame and the
    titles and, when there are rows, one for each row and one above them.  The
    only other line breaks are those of the titles and the cells: when these have
    none, the pieces are the lines of the text. *)
Theorem table_aligned {P : Profile} `{TextCrates, !Combine} n b cellss :
  columns b <> [] -> 0 <= n ->
  Forall2 (fun c cells => len (data c) = Ok n /\ text_cells (data c) = Ok cells) (columns b) cellss ->
  exists lines width,
    block_debug b = Ok (concat ((fun l => [x0a] ++ l) <$> lines)) /\
    Forall (fun l => char_count l = width) lines /\
    Z.of_nat (length lines) = 3 + (if 0 <? n then 1 + n else 0) /\
    (Forall one_line (name <$> columns b) -> Forall (Forall one_line) cellss -> Forall one_line lines).
Proof. apply block_debug_lines. Qed.

Definition sample_cells : list (list bytes) :=
  [[lit "1"; lit "4294967295"]; [lit "abc"; lit "NULL"]; [lit "[-1]"; lit "[2, 3]"]].

Lemma table_aligned_witness :
  Forall2 (fun c cells => len (data c) = Ok 2 /\ @text_cells debug chrono plain_text (data c) = Ok cells)
    sample_columns sample_cells /\
  exists lines width,
    @block_debug debug chrono plain_text sample_block = Ok (concat ((fun l => [x0a] ++ l) <$> lines)) /\
    Forall (fun l => char_count l = width) lines /\ Z.of_nat (length lines) = 6 /\
    (Forall one_line (name <$> sample_columns) -> Forall (Forall one_line) sample_cells -> Forall one_line lines).
Proof.
  assert (Forall2 (fun c cells => len (data c) = Ok 2 /\ @text_cells debug chrono plain_text (data c) = Ok cells)
    sample_columns sample_cells) as Hc.
  { repeat (apply Forall2_cons; split; [split; vm_compute; reflexivity|]). apply Forall2_nil_2. }
  split; [exact Hc|].
  apply (@table_aligned debug chrono plain_text combine_ll1 2 sample_block sample_cells); [discriminate|lia|exact Hc].
Defined.

(** ** Options *)

(** C25: the order of the parameters of a URL does not matter.  Two URLs that
    differ only in the order of their parameters, with different names, give the
    same options. *)
Theorem params_order `{UrlCrate} s s' u u' o :
  url_parse s = inr u -> url_parse s' = inr u' -> 
  scheme u' = scheme u -> cannot_be_a_base u' = cannot_be_a_base u -> has_host u' = has_host u ->
  url_username u' = url_username u -> url_password u' = url_password u ->
  path_segments u' = path_segments u -> port u' = port u ->
  set_query (set_path u' []) None = set_query (set_path u []) None ->
  NoDup (query_pairs u).*1 -> query_pairs u ≡ₚ query_pairs u' ->
  from_url s = Ok o -> from_url s' = Ok o.
Proof.
  unfold from_url, get_username_from_url, get_database_from_url.
  intros -> -> -> -> -> -> -> -> -> -> Hnd Hp.
  do 2 (case_match; [done|]). rewrite !bind_Ok. intros (o1 & Ho1 & Ho). exists o1. split; [done|]. revert Ho.
  rewrite !bind_Ok. intros (a & Ha & Ho). exists a. split; [done|]. revert Ho.
  rewrite !bind_Ok. intros (d & Hd & Ho). exists d. split; [done|]. revert Ho. unfold url_result.
  destruct (set_params _ (query_pairs u)) as [|o'] eqn:Hs; [done|].
  by rewrite (set_params_permutation _ _ _ _ Hnd Hp Hs).
Qed.

(** Two limits of the pool, in both orders. *)
Definition min_first : bytes := lit "tcp://host?pool_min=2&pool_max=5".
Definition max_first : bytes := lit "tcp://host?pool_max=5&pool_min=2".

Lemma params_order_witness :
  exists o, @from_url plain_url min_first = Ok o /\ Options.pool_max o = 5 /\
    @from_url plain_url max_first = Ok o.
Proof.
  eexists. split_and!; [reflexivity..|].
  eapply (@params_order plain_url min_first max_first); [reflexivity..| | |reflexivity].
  - apply NoDup_cons. split; [|apply NoDup_singleton]. by intros [=]%list_elem_of_singleton.
  - constructor.
Defined.
