(* ===== verification/ServerProperties.v ===== *)
(** * Properties of the connection and the server *)

From stdpp Require Import relations.
From S2P Require Import Prelude RustStd Errors Scalars Encoder ReadEx Stable Finite.
From S2P Require Import Protocol SqlType TypeNames DecimalNum Values StringPool Columns.
From S2P Require Import ColumnLaws Compressed Block BlockLaws Chunks Connection Server.
From S2P Require Import ServerLaws Liveness Insert Instances ColumnProperties.
Local Open Scope Z_scope.

#[local] Existing Instances debug chrono combine_ll1 store store_laws tokio session.

(** A server that has just said hello, and the client's hello. *)
Definition hello_info : HelloRequest.t :=
  HelloRequest.mk (lit "client") 20 8 54428 (lit "default") (lit "user") [] 0.

Definition idle_state : QueryState :=
  mkState [] Stage_Default 0 [] false false false (tt : Notify) None.

Definition insert_state : QueryState :=
  mkState [] InsertPrepare 0 (lit "INSERT") false false false (tt : Notify) (Some (tt : Sender)).

Definition idle_context : CHContext := mkContext idle_state 54428 (Some hello_info).
Definition insert_context : CHContext := mkContext insert_state 54428 (Some hello_info).

Definition quiet : Connection := mkConnection [] (mkStream [] [] []) ZUTC false false.
Definition no_tasks : Tasks := mkSink [] [] false false.

(** ** Packets *)

(** C3: the packet that [read_packet] returns does not depend on how its bytes
    arrive.  Parsing all the bytes at once gives a packet: then reading them in
    chunks gives the same packet and leaves the same bytes.  It lacks bytes:
    then [read_packet] waits with everything in the buffer.  It fails: then
    [read_packet] fails with the same error. *)
Theorem packet_framing {P : Profile} `{ChronoTz, Combine, Lz4, !Tokio Block} self ctx chunks :
  Forall (fun c => c <> []) chunks ->
  Z.of_nat (length (buffer self ++ concat chunks)) < 2 ^ 32 ->
  agrees (conn_parse_packet (filled self chunks) ctx) (filled self chunks)
    (read_packet self ctx (inl <$> chunks)).
Proof. apply read_packet_agrees. Qed.

Lemma packet_framing_witness :
  let chunks := [[x00; x06]; lit "cli"; lit "ent"; [x14]] in
  Forall (fun c => c <> []) chunks /\
  agrees (conn_parse_packet (filled quiet chunks) idle_context) (filled quiet chunks)
    (read_packet quiet idle_context (inl <$> chunks)).
Proof.
  assert (Forall (fun c => c <> []) [[x00; x06]; lit "cli"; lit "ent"; [x14]]) as Hf
    by (repeat (apply Forall_cons; split; [discriminate|]); by apply Forall_nil).
  split; [exact Hf|].
  apply (@packet_framing debug chrono combine_ll1 store tokio quiet idle_context _ Hf). reflexivity.
Defined.

(** C4: every request that a client sends is parsed as the packet that it meant,
    and the bytes behind it stay in the buffer. *)
Theorem request_roundtrip {P : Profile} `{ChronoTz, Combine, Lz4, !Lz4Laws, !Tokio Block}
  self ctx h q rest :
  request_ok (tz self) (compress self) q ->
  match q with RQuery _ _ => hello ctx = Some h | _ => True end ->
  buffer self = request_bytes h (compress self) q ++ rest ->
  exists packet self', conn_parse_packet self ctx = Ok (Some packet, self') /\
    receives h q packet /\ buffer self' = rest.
Proof.
  intros Hok Hh Hb.
  destruct (parses_packet (R:=bytes) (tz self) h (hello ctx) (compress self) q Hok Hh)
    as (packet & Hp & Hr).
  apply (parses_cursor _ _ _ rest) in Hp. unfold conn_parse_packet. rewrite Hb, Hp.
  by eexists packet, _.
Qed.

Definition sample_query : QueryRequest.t :=
  QueryRequest.mk (lit "id") QueryClientInfo.default 2 1 (lit "SELECT 1").

Lemma request_roundtrip_witness :
  let q := RQuery sample_query [(QueryRequest.max_threads, 8)] in
  let conn := with_buffer quiet (request_bytes hello_info false q ++ [x04]) in
  request_ok (tz conn) (compress conn) q /\
  exists packet self', conn_parse_packet conn idle_context = Ok (Some packet, self') /\
    receives hello_info q packet /\ buffer self' = [x04].
Proof.
  split; [split_and!; [reflexivity|by repeat constructor|cbn; lia]|].
  apply (@request_roundtrip debug chrono combine_ll1 store store_laws tokio);
    [split_and!; [reflexivity|by repeat constructor|cbn; lia]|reflexivity|reflexivity].
Defined.

(** C12: parsing a packet ends, whatever the bytes: none of the loops that the
    code leaves unbounded runs for ever on less than four gigabytes. *)
Theorem parsing_terminates {P : Profile} `{ChronoTz, Combine, Lz4, !Tokio Block} self ctx :
  Z.of_nat (length (buffer self)) < 2 ^ 32 -> conn_parse_packet self ctx <> OutOfFuel.
Proof.
  intros Hl. pose proof (conn_parse_grow self ctx [] Hl) as Hg.
  by destruct (conn_parse_packet self ctx) as [[[]]| | |].
Qed.

Lemma parsing_terminates_witness :
  conn_parse_packet (with_buffer quiet (replicate 20 xff)) idle_context <> OutOfFuel.
Proof. apply (@parsing_terminates debug chrono combine_ll1 store tokio). reflexivity. Defined.

(** The connection compresses and decompresses from the query on that asks
    for it; no other packet changes that. *)
Theorem compression_follows_query {P : Profile} `{ChronoTz, Combine, Lz4, !Tokio Block}
  self ctx packet self' :
  conn_parse_packet self ctx = Ok (Some packet, self') ->
  compress self' =
    match packet with Query q => 0 <? QueryRequest.compression q | _ => compress self end /\
  tz self' = tz self /\ stream self' = stream self /\
  with_stack_trace self' = with_stack_trace self.
Proof.
  unfold conn_parse_packet. destruct (parse_packet _ _ _ _) as [[p r]|e| |]; try done.
  - by intros [= <- <-].
  - by destruct (is_would_block e).
Qed.

Lemma compression_follows_query_witness :
  let conn := with_buffer quiet [x04] in
  conn_parse_packet conn idle_context = Ok (Some Ping, quiet) /\
  compress quiet = compress conn /\ tz quiet = tz conn /\ stream quiet = stream conn /\
  with_stack_trace quiet = with_stack_trace conn.
Proof.
  split; [reflexivity|].
  apply (@compression_follows_query debug chrono combine_ll1 store tokio
           (with_buffer quiet [x04]) idle_context Ping quiet). reflexivity.
Defined.

(** ** Inserts *)

(** C5: an insert is handled completely.  The client sends an empty block, its
    data and an empty block, all of it in the buffer.  When the channel takes
    the blocks, the server sends it every block of the data, in order, and closes
    it; when the session notifies, the server answers with the end of the stream
    and reads on. *)
Theorem insert_delivers {P : Profile} `{ChronoTz, Combine, Lz4, !Lz4Laws, !Tokio Block, !ClickHouseSession}
  c conn h tx first xs last rest :
  hello c = Some h -> stage (state c) = InsertPrepare -> out (state c) = Some tx ->
  faults (stream conn) = [] ->
  empty_ok conn first -> Forall (data_ok conn) xs -> empty_ok conn last ->
  exists bs, Forall2 same_block xs.*2 bs /\ forall t t',
    sends tx bs t = Some t' ->
    exists c',
      run_steps (1 + (2 * length xs + 1))
        (mkServer Reading c (with_buffer conn (insert_bytes h conn first last xs ++ rest)) t) =
        Some (mkServer Draining c' (with_buffer conn rest) (drop_sender tx t')) /\
      out (state c') = None /\
      forall t1 t2, notified_poll (sent_all_data (state c)) t1 = Some t2 ->
      exists c'' conn',
        run_step (mkServer Draining c' (with_buffer conn rest) t1) = Some (mkServer Reading c'' conn' t2) /\
        stage (state c'') = Stage_Default /\ out (state c'') = None /\ buffer conn' = rest /\
        outgoing (stream conn') = outgoing (stream conn) ++ uvarint_bytes SERVER_END_OF_STREAM.
Proof.
  intros Hh Hst Ho Hf Hfirst Hxs Hlast.
  destruct (run_insert c conn h tx first xs last rest) as (bs & Hbs & Hrun); [done..|].
  exists bs. split; [done|]. intros t t' Hs. destruct (Hrun t t' Hs) as (c' & Hr & Hout & _ & Hn).
  exists c'. split_and!; [done..|]. intros t1 t2 Hnot. rewrite <- Hn in Hnot.
  eexists _, _. split_and!; [exact (run_notified c' (with_buffer conn rest) t1 t2 Hnot Hf)|done..].
Qed.

Definition no_rows : bytes * Z * Block := ([], 0, block_default).
Definition some_rows : bytes * Z * Block := ([], 2, sample_block).

Lemma no_rows_ok : empty_ok quiet no_rows.
Proof. split; [|reflexivity]. split_and!; [reflexivity| |discriminate]. by split. Qed.

Lemma some_rows_ok : Forall (data_ok quiet) [some_rows].
Proof.
  apply Forall_cons. split; [|by apply Forall_nil]. split; [|reflexivity].
  split_and!; [reflexivity|apply sample_block_ok|discriminate].
Qed.

Lemma insert_delivers_witness :
  empty_ok quiet no_rows /\
  exists bs, Forall2 same_block [sample_block] bs /\ forall t t',
    sends tt bs t = Some t' ->
    exists c',
      run_steps 4
        (mkServer Reading insert_context
           (with_buffer quiet (insert_bytes hello_info quiet no_rows no_rows [some_rows] ++ [])) t) =
        Some (mkServer Draining c' (with_buffer quiet []) (drop_sender tt t')) /\
      out (state c') = None /\
      forall t1 t2, notified_poll tt t1 = Some t2 ->
      exists c'' conn',
        run_step (mkServer Draining c' (with_buffer quiet []) t1) = Some (mkServer Reading c'' conn' t2) /\
        stage (state c'') = Stage_Default /\ out (state c'') = None /\ buffer conn' = [] /\
        outgoing (stream conn') = [] ++ uvarint_bytes SERVER_END_OF_STREAM.
Proof.
  split; [apply no_rows_ok|].
  apply (@insert_delivers debug chrono combine_ll1 store store_laws tokio session
           insert_context quiet hello_info tt no_rows [some_rows] no_rows []);
    [reflexivity..|apply no_rows_ok|apply some_rows_ok|apply no_rows_ok].
Defined.

(** C7: along every interleaving of the server, the arrival of bytes and the other
    tasks, an insert goes through its phases in order, and each step of the server
    moves it exactly as the packet says that the step reads.  A query opens an
    insert, or opens one anew before it is drained, when the session leaves a
    channel open, and finds or leaves the server idle otherwise; an empty block
    starts a prepared insert, drains a started one, and does nothing else; other
    packets and full blocks leave the phase; a drained insert ends when the
    notification comes.  No other task and no arriving byte changes the phase. *)
Theorem insert_phases {P : Profile} `{ChronoTz, Combine, Lz4, !Tokio Block, !ClickHouseSession}
  others `{!SessionLaws} s s' :
  reachable others s -> step others s s' ->
  (run_step s = Some s' \/ phase_of s' = phase_of s) /\
  (run_step s = Some s' -> finished s' = false ->
    phase_of s' = phase_after s (opened s') /\
    (phase_of s = Drained -> is_Some (notified_poll (sent_all_data (state (ctx s))) (tasks s)))).
Proof.
  intros Hr Hs. split; [by eapply phase_step|]. intros Hrun Hf.
  apply (reachable_inv others) in Hr. split; [by apply phase_run|].
  destruct s as [[|b| |r] c conn t]; unfold phase_of; cbn in *; try (by destruct (stage (state c))).
  intros _. destruct (notified_poll _ _); [by eexists|done].
Qed.

Definition start : Server :=
  mkServer Reading (context_new idle_state) (mkConnection [] (mkStream [] [] []) ZUTC false true)
    no_tasks.

Lemma start_reachable : reachable consumer start.
Proof. exists (mkStream [] [] []), no_tasks, start. split; [reflexivity|]. apply rtc_refl. Qed.

(** The hello, an insert query and an empty block. *)
Definition insert_query_request : QueryRequest.t :=
  QueryRequest.mk [] QueryClientInfo.default 2 0 (lit "INSERT INTO t VALUES").

Definition insert_stream : Stream :=
  mkStream
    [inl (request_bytes hello_info false (RHello hello_info) ++
          request_bytes hello_info false (RQuery insert_query_request []) ++
          request_bytes hello_info false (RData false [] 0 block_default))] [] [].

Definition insert_start : Server :=
  mkServer Reading (context_new idle_state) (mkConnection [] insert_stream ZUTC false true) no_tasks.

(** The server before and after the empty block. *)
Lemma insert_phases_witness :
  exists s s', reachable consumer s /\ run_step s = Some s' /\
    phase_of s = Prepared /\ phase_of s' = Started.
Proof.
  assert (exists s s', run_steps 2 insert_start = Some s /\ run_step s = Some s' /\
    phase_of s = Prepared /\ finished s' = false /\ phase_after s (opened s') = Started)
    as (s & s' & Hs & Hs' & Hp & Hf & Ha).
  { do 2 eexists. split; [reflexivity|]. split; [reflexivity|]. split; [reflexivity|]. by split. }
  exists s, s'. assert (reachable consumer s) as Hr.
  { eapply (@run_steps_reachable debug chrono combine_ll1 store tokio session consumer 2 insert_start); [|exact Hs].
    exists insert_stream, no_tasks, insert_start. split; [reflexivity|]. apply rtc_refl. }
  split; [exact Hr|]. split; [exact Hs'|]. split; [exact Hp|].
  rewrite <- Ha.
  assert (step consumer s s') as Hstep by (apply step_run; exact Hs').
  exact (proj1 (proj2
    (@insert_phases debug chrono combine_ll1 store tokio session consumer session_laws s s' Hr Hstep) Hs' Hf)).
Defined.

(** C8: as long as the server runs, a channel is open exactly in the stages of an
    insert, and the revision of the connection is the lower one of the server's and
    the client's once the client has said hello, zero before. *)
Theorem server_invariant {P : Profile} `{ChronoTz, Combine, Lz4, !Tokio Block, !ClickHouseSession}
  others `{!SessionLaws} s :
  reachable others s -> finished s = false ->
  match stage (state (ctx s)) with
  | Stage_Default => out (state (ctx s)) = None
  | InsertPrepare | InsertStarted => is_Some (out (state (ctx s)))
  | EOS => False
  end /\
  client_revision (ctx s) =
  match hello (ctx s) with
  | Some h => Z.min dbms_tcp_protocol_version (HelloRequest.client_revision h)
  | None => 0
  end.
Proof.
  intros Hr Hf. apply (reachable_inv others) in Hr. destruct s as [[|b| |r] c conn t]; try done;
    unfold inv, stage_inv, revision_inv in Hr; cbn in *; intuition.
Qed.

Lemma server_invariant_witness :
  reachable consumer start /\ out (state (ctx start)) = None /\ client_revision (ctx start) = 0.
Proof.
  split; [apply start_reachable|].
  apply (@server_invariant debug chrono combine_ll1 store tokio session consumer session_laws _
           start_reachable). reflexivity.
Defined.

(** C17: a server whose client closes the stream can always finish: from every
    state that it reaches, whatever it has read so far and whatever bytes are
    still to come, there are steps to the end of [run], as long as the tasks take
    the blocks and notify the server, and less than four gigabytes wait. *)
Theorem server_finishes {P : Profile}
  `{ChronoTz, Combine, Lz4, !Tokio Block, !ClickHouseSession} others
  `{!SessionLaws, !SessionWrites, !TokioLive others} s :
  reachable others s -> ended s -> pending_bytes s < 2 ^ 32 ->
  exists s', rtc (step others) s s' /\ finished s' = true.
Proof. intros Hr. apply (server_ends others); [by apply (reachable_inv others)|by apply (reachable_drained others)]. Qed.

(** A server that has read nothing yet, whose client sends a ping and goes. *)
Definition leaving : Server :=
  mkServer Reading (context_new idle_state)
    (mkConnection [] (mkStream [inl [x04]; inl []] [] []) ZUTC false true) no_tasks.

Lemma server_finishes_witness :
  reachable consumer leaving /\ ended leaving /\ pending_bytes leaving = 1 /\
  exists s', rtc (step consumer) leaving s' /\ finished s' = true.
Proof.
  assert (reachable consumer leaving) as Hr
    by (exists (mkStream [inl [x04]; inl []] [] []), no_tasks, leaving; split; [reflexivity|apply rtc_refl]).
  assert (ended leaving) as He by reflexivity.
  split_and!; [exact Hr|exact He|reflexivity|].
  apply (@server_finishes debug chrono combine_ll1 store tokio session consumer session_laws
           session_writes consumer_live leaving Hr He). reflexivity.
Defined.


(** ** Answers *)

(** C33: a hello is answered in the revision that both sides know, and a client
    of that revision reads the answer back, as far as its revision goes. *)
Theorem hello_handshake {P : Profile} `{ChronoTz, Combine, Lz4, !Lz4Laws, !Tokio Block, !ClickHouseSession}
  c conn t h rest :
  faults (stream conn) = [] -> HelloRequest.ok h = true -> HelloResponse.ok hello_response = true ->
  let revision := Z.min dbms_tcp_protocol_version (HelloRequest.client_revision h) in
  exists answer,
    run_step (mkServer Reading c
      (with_buffer conn (uvarint_bytes CLIENT_HELLO ++ HelloRequest.encode h ++ rest)) t) =
    Some (mkServer Reading (mkContext (state c) revision (Some h))
      (wrote (with_buffer conn rest) answer) t) /\
    HelloResponse.client_read (R:=bytes) revision answer =
      Ok ((SERVER_HELLO, HelloResponse.visible revision hello_response), []).
Proof.
  intros Hf Hh Hr revision. exists (HelloResponse.bytes_of revision hello_response).
  split; [by apply run_hello|]. rewrite <- (app_nil_r (HelloResponse.bytes_of _ _)).
  by apply parses_cursor, HelloResponse.hello_client_reads.
Qed.

Lemma hello_handshake_witness :
  HelloRequest.ok hello_info = true /\
  exists answer,
    run_step (mkServer Reading (context_new idle_state)
      (with_buffer quiet (uvarint_bytes CLIENT_HELLO ++ HelloRequest.encode hello_info ++ [x04]))
      no_tasks) =
    Some (mkServer Reading (mkContext idle_state 54428 (Some hello_info))
      (wrote (with_buffer quiet [x04]) answer) no_tasks) /\
    HelloResponse.client_read (R:=bytes) 54428 answer =
      Ok ((SERVER_HELLO, HelloResponse.visible 54428 hello_response), []).
Proof.
  split; [reflexivity|].
  apply (@hello_handshake debug chrono combine_ll1 store store_laws tokio session
           (context_new idle_state) quiet no_tasks hello_info [x04]); reflexivity.
Defined.

(** A ping is answered with a pong, and nothing else changes. *)
Theorem ping_pong {P : Profile} `{ChronoTz, Combine, Lz4, !Lz4Laws, !Tokio Block, !ClickHouseSession}
  c conn t rest :
  faults (stream conn) = [] ->
  run_step (mkServer Reading c (with_buffer conn (uvarint_bytes CLIENT_PING ++ rest)) t) =
  Some (mkServer Reading c (wrote (with_buffer conn rest) (uvarint_bytes SERVER_PONG)) t).
Proof. apply run_ping. Qed.

Lemma ping_pong_witness :
  run_step (mkServer Reading idle_context
    (with_buffer quiet (uvarint_bytes CLIENT_PING ++ [x03])) no_tasks) =
  Some (mkServer Reading idle_context (wrote (with_buffer quiet [x03]) (uvarint_bytes SERVER_PONG))
    no_tasks).
Proof.
  apply (@ping_pong debug chrono combine_ll1 store store_laws tokio session idle_context quiet).
  reflexivity.
Defined.

(** A query that the session answers without opening a channel is ended with
    the end of the stream, behind what the session wrote. *)
Theorem select_ends_stream {P : Profile} `{ChronoTz, Combine, Lz4, !Lz4Laws, !Tokio Block, !ClickHouseSession}
  q c conn t c' conn' t' :
  execute_query (set_query c (QueryRequest.query q) (QueryRequest.compression q)) conn t =
    (Ok tt, c', conn', t') ->
  out (state c') = None -> faults (stream conn') = [] ->
  apply (Query q) c conn t =
  mkServer Reading c' (wrote conn' (uvarint_bytes SERVER_END_OF_STREAM)) t'.
Proof. apply apply_select. Qed.

Lemma select_ends_stream_witness :
  let c := set_query idle_context (lit "SELECT 1") 1 in
  execute_query c quiet no_tasks = (Ok tt, c, quiet, no_tasks) /\
  apply (Query sample_query) idle_context quiet no_tasks =
  mkServer Reading c (wrote quiet (uvarint_bytes SERVER_END_OF_STREAM)) no_tasks.
Proof.
  split; [reflexivity|].
  apply (@select_ends_stream debug chrono combine_ll1 store store_laws tokio session); reflexivity.
Defined.

(** A client reads back the exception that the server writes for an error,
    with its code, name and message. *)
Theorem exception_client_reads_back {P : Profile} error with_stack_trace rest :
  ExceptionResponse.ok error with_stack_trace = true ->
  exists bs, ExceptionResponse.write new error with_stack_trace = Ok bs /\
    ExceptionResponse.client_read (R:=bytes) (bs ++ rest) =
      Ok ((SERVER_EXCEPTION, ExceptionResponse.fields error with_stack_trace, 0), rest).
Proof.
  intros Hok. exists (ExceptionResponse.bytes_of error with_stack_trace).
  split; [by rewrite ExceptionResponse.exception_write_bytes|].
  by apply parses_cursor, ExceptionResponse.exception_client_reads.
Qed.

Lemma exception_client_reads_back_witness :
  ExceptionResponse.ok (Error.Driver DriverError.UnexpectedPacket) false = true /\
  exists bs, ExceptionResponse.write new (Error.Driver DriverError.UnexpectedPacket) false = Ok bs /\
    ExceptionResponse.client_read (R:=bytes) (bs ++ []) =
      Ok ((SERVER_EXCEPTION,
           ExceptionResponse.fields (Error.Driver DriverError.UnexpectedPacket) false, 0), []).
Proof. split; [reflexivity|]. apply exception_client_reads_back. reflexivity. Defined.

(** A client of the revision that the progress was written for reads it
    back. *)
Theorem progress_client_reads_back {P : Profile} p revision rest :
  Progress.ok p = true ->
  exists bs, Progress.write p new revision = Ok bs /\
    Progress.client_read (R:=bytes) revision (bs ++ rest) =
      Ok ((SERVER_PROGRESS, p,
           if DBMS_MIN_REVISION_WITH_CLIENT_WRITE_INFO <=? revision then Some (0, 0) else None), rest).
Proof.
  intros Hok. exists (Progress.bytes_of revision p).
  split; [by rewrite Progress.progress_write_bytes|].
  by apply parses_cursor, Progress.progress_client_reads.
Qed.

Lemma progress_client_reads_back_witness :
  Progress.ok (Progress.mk 1 2 3) = true /\
  exists bs, Progress.write (Progress.mk 1 2 3) new 54428 = Ok bs /\
    Progress.client_read (R:=bytes) 54428 (bs ++ []) =
      Ok ((SERVER_PROGRESS, Progress.mk 1 2 3, Some (0, 0)), []).
Proof. split; [reflexivity|]. apply (progress_client_reads_back (Progress.mk 1 2 3) 54428). reflexivity. Defined.

(** ** The end of a connection *)

(** C38: when the bytes of a client are no packet, the server writes the exception
    for the error, closes the channel of an insert and ends with that error. *)
Theorem parse_error_answered {P : Profile} `{ChronoTz, Combine, Lz4, !Tokio Block, !ClickHouseSession}
  c conn t e :
  conn_parse_packet conn c = Err e -> faults (stream conn) = [] ->
  ExceptionResponse.ok e (with_stack_trace conn) = true ->
  exists c',
    run_step (mkServer Reading c conn t) =
    Some (mkServer (Finished (Err e)) c'
      (wrote conn (ExceptionResponse.bytes_of e (with_stack_trace conn)))
      (match out (state c) with Some tx => drop_sender tx t | None => t end)) /\
    out (state c') = None.
Proof.
  intros Hp Hf Hok. exists (reset_context c t).1. split; [|done].
  cbn [run_step]. unfold read_step.
  assert (read_packet conn c (incoming (stream conn)) =
    (conn, incoming (stream conn), Ready (Err e))) as ->
    by (destruct (incoming (stream conn)); cbn [read_packet]; by rewrite Hp).
  destruct conn as [b [i o f] z w k]; cbn in Hf; subst f.
  unfold write_error, write_message. cbn [set_incoming set_stream with_stack_trace stream] in *.
  by rewrite ExceptionResponse.exception_write_bytes by done.
Qed.

Lemma parse_error_answered_witness :
  let conn := with_buffer quiet [x2a] in
  let e := Error.Driver (DriverError.UnknownPacket 42) in
  conn_parse_packet conn insert_context = Err e /\
  exists c',
    run_step (mkServer Reading insert_context conn no_tasks) =
    Some (mkServer (Finished (Err e)) c' (wrote conn (ExceptionResponse.bytes_of e false))
      (drop_sender tt no_tasks)) /\
    out (state c') = None.
Proof.
  split; [reflexivity|].
  apply (@parse_error_answered debug chrono combine_ll1 store tokio session insert_context
           (with_buffer quiet [x2a]) no_tasks); reflexivity.
Defined.

(** At the end of the stream the server ends without an error exactly when
    no part of a packet is left in its buffer. *)
Theorem end_of_stream_clean {P : Profile} `{ChronoTz, Combine, Lz4, !Tokio Block, !ClickHouseSession}
  c conn t reads :
  conn_parse_packet conn c = Ok (None, conn) -> incoming (stream conn) = inl [] :: reads ->
  faults (stream conn) = [] ->
  exists s, run_step (mkServer Reading c conn t) = Some s /\ out (state (ctx s)) = None /\
    pc s = Finished (if bool_decide (buffer conn = []) then Ok tt
                     else Err (from_string (lit "connection reset by peer"))).
Proof.
  intros Hp Hi Hf. cbn [run_step]. unfold read_step. rewrite Hi. cbn [read_packet]. rewrite Hp.
  case_bool_decide; cbn [reset_context]; [by eexists|].
  unfold write_error, write_message. rewrite ExceptionResponse.exception_write_bytes.
  - unfold write_bytes. cbn [set_incoming set_stream stream faults]. rewrite Hf. by eexists.
  - by destruct (with_stack_trace _).
Qed.

(** A connection that broke off in the middle of a packet. *)
Definition broken : Connection :=
  mkConnection [x02] (mkStream [inl []] [] []) ZUTC false false.

Lemma end_of_stream_clean_witness :
  conn_parse_packet broken idle_context = Ok (None, broken) /\
  exists s, run_step (mkServer Reading idle_context broken no_tasks) = Some s /\
    out (state (ctx s)) = None /\
    pc s = Finished (Err (from_string (lit "connection reset by peer"))).
Proof.
  split; [reflexivity|].
  apply (@end_of_stream_clean debug chrono combine_ll1 store tokio session idle_context
           broken no_tasks []); reflexivity.
Defined.

(** [Connection::new] does not ask the session whether errors come with a
    stack trace: the server starts without, whatever the session says. *)
Theorem stack_trace_ignored {P : Profile} `{ChronoTz, Combine, Lz4, !Tokio Block, !ClickHouseSession}
  s t server :
  run s t = Ok server -> with_stack_trace (connection server) = false.
Proof.
  unfold run, state_default, connection_new. destruct (new_notify t) as [n t'].
  rewrite bind_Ok. intros (conn & Hc & [= <-]). destruct (tz_parse _); [done|].
  by injection Hc as <-.
Qed.

Lemma stack_trace_ignored_witness :
  run (mkStream [] [] []) no_tasks = Ok start /\ with_stack_trace (connection start) = false.
Proof.
  split; [reflexivity|].
  apply (@stack_trace_ignored debug chrono combine_ll1 store tokio session (mkStream [] [] []) no_tasks).
  reflexivity.
Defined.
