(* ===== verification/SpecProperties.v ===== *)
(** * Properties of the server as a whole

    The server refines its specification, what follows from it for inserts and
    queries, the answers of the example server and a conversation with it. *)

From stdpp Require Import relations.
From S2P Require Import Prelude RustStd Errors Scalars Encoder ReadEx Stable Finite.
From S2P Require Import Protocol SqlType TypeNames DecimalNum Values StringPool Columns.
From S2P Require Import ColumnLaws Compressed Block BlockLaws Chunks Connection Server.
From S2P Require Import ServerLaws Liveness Insert Spec Refinement Simple SimpleLaws Conversation Instances ColumnProperties.
Local Open Scope Z_scope.

#[local] Existing Instances debug chrono combine_ll1 store store_laws tokio session session_answers
  session_contract session_laws deliveries.

(** ** The specification *)

(** C1: the server refines its specification: whatever the pieces in which the
    bytes arrive, the outcomes of the writes and the doings of the other tasks,
    there is a run of the machine of file Spec to the state that the server is in,
    the server has written the messages of that run, and the blocks of that run
    are what its channels were given. *)
Theorem server_refines {P : Profile} `{ChronoTz, Combine, Lz4, !Tokio Block, !ClickHouseSession}
  others `{!Answers, !SessionContract, !SessionLaws, !Deliveries others} input t s0 s zone :
  tz_parse timezone = inr zone -> run input t = Ok s0 -> rtc (step others) s0 s ->
  exists acts, serves zone false (begin input) acts (proto_of s) /\
    outgoing (stream (connection s)) = outgoing input ++ written acts /\
    delivered (tasks s) = delivered t ++ stored acts.
Proof. by apply run_serves. Qed.

(** A client sends a ping, and the server answers it. *)
Definition ping_input : Stream := mkStream [inl [x04]] [] [].

Definition no_blocks : Tasks := mkSink [] [] false false.

Definition ping_context : CHContext :=
  context_new (mkState [] Stage_Default 0 [] false false false (tt : Notify) None).

Definition before_ping : Server :=
  mkServer Reading ping_context (mkConnection [] ping_input ZUTC false true) no_blocks.

Definition after_ping : Server :=
  mkServer Reading ping_context
    (mkConnection [] (mkStream [inl [x04]] (uvarint_bytes SERVER_PONG) []) ZUTC false true) no_blocks.

Lemma server_refines_witness :
  run ping_input no_blocks = Ok before_ping /\
  exists s, rtc (step consumer) before_ping s /\
  exists acts, serves ZUTC false (begin ping_input) acts (proto_of s) /\
    outgoing (stream (connection s)) = [] ++ written acts /\
    delivered (tasks s) = delivered no_blocks ++ stored acts.
Proof.
  split; [reflexivity|].
  destruct (run_step before_ping) as [s|] eqn:Hs; [|discriminate Hs].
  exists s. assert (rtc (step consumer) before_ping s) as Hr by (by apply rtc_once, step_run).
  split; [exact Hr|].
  apply (@server_refines debug chrono combine_ll1 store tokio session consumer session_answers
    session_contract session_laws deliveries ping_input no_blocks before_ping s ZUTC); [reflexivity..|exact Hr].
Defined.

(** C6: what a server gives to the channels of its inserts are blocks that it
    received, each at most once and in the order in which they came, and nothing
    before a query; and every query that it received came behind a hello. *)
Theorem stored_blocks_received {P : Profile} `{ChronoTz, Combine, Lz4, !Tokio Block, !ClickHouseSession}
  others `{!Answers, !SessionContract, !SessionLaws, !Deliveries others} input t s0 s zone :
  tz_parse timezone = inr zone -> run input t = Ok s0 -> rtc (step others) s0 s ->
  exists acts blocks, serves zone false (begin input) acts (proto_of s) /\
    delivered (tasks s) = delivered t ++ blocks /\
    sublist blocks (data_blocks (packets acts)) /\
    (blocks <> [] -> exists q, Query q ∈ packets acts) /\
    (forall before q after, packets acts = before ++ Query q :: after -> exists h, Hello h ∈ before).
Proof.
  intros Hz Hs0 Hs. destruct (run_serves others input t s0 s zone Hz Hs0 Hs) as (acts & Hacts & _ & Hd).
  exists acts, (stored acts). pose proof Hacts as Hsound. apply sound_serves in Hsound as [Hb Hi _ Hq]; [|done..].
  split_and!; [done|done| |by auto|done].
  etrans; [|exact Hb]. by apply sublist_inserts_r.
Qed.

Lemma stored_blocks_received_witness :
  exists s, rtc (step consumer) before_ping s /\ exists acts blocks,
    serves ZUTC false (begin ping_input) acts (proto_of s) /\
    delivered (tasks s) = delivered no_blocks ++ blocks /\
    sublist blocks (data_blocks (packets acts)) /\
    (blocks <> [] -> exists q, Query q ∈ packets acts) /\
    (forall before q after, packets acts = before ++ Query q :: after -> exists h, Hello h ∈ before).
Proof.
  destruct (run_step before_ping) as [s|] eqn:Hs; [|discriminate Hs].
  exists s. assert (rtc (step consumer) before_ping s) as Hr by (by apply rtc_once, step_run).
  split; [exact Hr|].
  apply (@stored_blocks_received debug chrono combine_ll1 store tokio session consumer session_answers
    session_contract session_laws deliveries ping_input no_blocks before_ping s ZUTC); [reflexivity..|exact Hr].
Defined.

(** ** The example server *)

(** The example server answers a query that is not an insert with ten blocks
    and the end of the stream; its client reads ten times the numbers from 10 to
    23, with the progress behind some of them, and nothing is left. *)
Theorem example_select_reads_back {P : Profile} `{ChronoTz, Combine, Lz4, !Lz4Laws, !Tokio Block, !Runtime, !Spawn}
  last_progress_send q c conn t tz :
  is_insert (QueryRequest.query q) = false -> faults (stream conn) = [] -> out (state c) = None ->
  let c' := set_query c (QueryRequest.query q) (QueryRequest.compression q) in
  exists bs t' lates numbers',
    @apply _ _ (simple_session last_progress_send) (Query q) c conn t =
      mkServer Reading c' (wrote conn bs) t' /\
    client_answer (R:=bytes) 21 tz (compress conn) (client_revision c) bs =
      Ok (answered numbers' lates, []) /\
    length lates = 10%nat /\ same_block (sent numbers) numbers'.
Proof.
  intros Hi Hf Ho c'.
  destruct (simple_select_answers last_progress_send c' conn t Hi Hf Ho) as (lates & t' & Hl & Hq).
  destruct (parses_answered (R:=bytes) tz (compress conn) (client_revision c) lates) as (numbers' & Hs & Hp).
  set (reps := concat (reply (compress conn) (client_revision c) <$> lates)) in *.
  exists (reps ++ uvarint_bytes SERVER_END_OF_STREAM), t', lates, numbers'.
  rewrite Hl in Hp. split_and!; [|by rewrite <- (app_nil_r (reps ++ _)); apply parses_cursor|done..].
  cbn [apply]. unfold apply_query. fold c'. cbn [execute_query simple_session]. rewrite Hq.
  change (out (state c')) with (out (state c)). rewrite Ho.
  unfold write_end_of_stream.
  rewrite (write_message_ok _ (uvarint_bytes SERVER_END_OF_STREAM)) by (done || by apply uvarint_ok).
  by rewrite wrote_wrote.
Qed.

Definition select_query : QueryRequest.t :=
  QueryRequest.mk (lit "id") QueryClientInfo.default 2 1 (lit "SELECT 1").

Definition plain_connection : Connection := mkConnection [] (mkStream [] [] []) ZUTC false false.

#[local] Existing Instances tokio_world runtime spawner queues.

Definition new_world : world := mkWorld (mkSink [] [] false false) [].

Definition world_context : CHContext :=
  mkContext (mkState [] Stage_Default 0 [] false false false tt None) 54405 None.

Lemma example_select_reads_back_witness :
  is_insert (QueryRequest.query select_query) = false /\
  exists bs t' lates numbers',
    @apply _ tokio_world (simple_session 20000000)
        (Query select_query) world_context plain_connection new_world =
      mkServer Reading (set_query world_context (lit "SELECT 1") 1) (wrote plain_connection bs) t' /\
    client_answer (R:=bytes) 21 ZUTC false 54405 bs = Ok (answered numbers' lates, []) /\
    length lates = 10%nat /\ same_block (sent numbers) numbers'.
Proof.
  split; [reflexivity|].
  apply (@example_select_reads_back debug chrono combine_ll1 store store_laws tokio_world runtime spawner
    20000000 select_query world_context plain_connection new_world ZUTC); reflexivity.
Defined.

(** C23: the task of an insert counts the rows of all the blocks that its receiver
    gets, notifies the server once the senders are gone, and ends. *)
Theorem example_insert_counts {P : Profile} `{ChronoTz, !Tokio Block, !Runtime, !Queues} rec n ns t :
  hung_up rec t ->
  Forall2 (fun b k => row_count b = Ok k /\ 0 <= k) (waiting_blocks rec t) ns ->
  total_rows ns < 2 ^ 64 ->
  exists t', task_steps (S (length (waiting_blocks rec t))) (Counting 0 rec n) t =
    Some (Counted (total_rows ns), drop_receiver rec (notify_one n t')).
Proof. intros Hh Hns Hm. by apply (task_counts rec n _ ns 0 t). Qed.

Definition two_blocks : world := mkWorld (mkSink [numbers; abc []] [] false false) [].

Lemma example_insert_counts_witness :
  exists t', @task_steps debug chrono tokio_world runtime 3 (Counting 0 tt tt) two_blocks =
    Some (Counted 14, @drop_receiver _ _ runtime tt (@notify_one _ _ runtime tt t')).
Proof.
  apply (@example_insert_counts debug chrono tokio_world runtime queues tt tt [14; 0] two_blocks);
    [reflexivity| |reflexivity].
  cbn [waiting_blocks queues queue channel two_blocks].
  constructor; [split; [reflexivity|lia]|]. constructor; [split; [reflexivity|lia]|constructor].
Defined.

(** C2: a whole conversation with the example server: the client says hello and
    sends pings and queries that are no inserts, in pieces of any size, and closes
    its side.  The server starts, takes a step for each packet and one for the
    end, and ends without an error; and its client reads in what the server wrote
    the answer to the hello in the common revision, and for each request, in order,
    a pong, or ten blocks of the numbers, each with at most one packet of progress
    behind it (which of them have one is up to the clock), and the end of the
    stream.  The client has then read everything that the server wrote. *)
Theorem example_conversation {P : Profile} `{ChronoTz, Combine, Lz4, !Lz4Laws, !Tokio Block, !Runtime, !Spawn}
  last_progress_send h zone zone' chunks qs t :
  tz_parse (lit "UTC") = inr zone -> HelloRequest.ok h = true -> Forall (ask_ok zone) qs ->
  Forall (fun c => c <> []) chunks -> Z.of_nat (length (concat chunks)) < 2 ^ 32 ->
  concat chunks = request_bytes h false (RHello h) ++ asks_bytes h qs ->
  let revision := Z.min 54405 (HelloRequest.client_revision h) in
  let session := simple_session last_progress_send in
  exists s0 s xs, @run _ _ session (client_stream chunks) t = Ok s0 /\
    @run_steps _ _ _ _ _ session (2 + length qs) s0 = Some s /\ pc s = Finished (Ok tt) /\
    client_conversation (R:=bytes) zone' revision qs (outgoing (stream (connection s))) =
      Ok (SERVER_HELLO, HelloResponse.visible revision (@hello_response _ _ session), xs, []) /\
    Forall2 answers qs xs.
Proof. exact (run_conversation last_progress_send h zone zone' chunks qs t). Qed.

(** A client that sends each byte on its own: a hello, a ping and a query. *)
Definition chatty_client : HelloRequest.t :=
  HelloRequest.mk (lit "client") 20 8 54428 (lit "default") (lit "user") [] 0.

Definition chat : list request := [RPing; RQuery select_query []].

Definition single_bytes : list bytes :=
  (fun b => [b]) <$> (request_bytes chatty_client false (RHello chatty_client) ++ asks_bytes chatty_client chat).

Lemma chat_ok : Forall (ask_ok ZUTC) chat.
Proof. apply Forall_cons. split; [exact I|]. apply Forall_singleton. by split_and!. Qed.

Lemma example_conversation_witness :
  let session := simple_session (20000000 : Instant) in
  exists s0 s xs, @run _ tokio_world session (client_stream single_bytes) new_world = Ok s0 /\
    @run_steps _ _ _ _ _ session 4 s0 = Some s /\ pc s = Finished (Ok tt) /\
    client_conversation (R:=bytes) ZUTC 54405 chat (outgoing (stream (connection s))) =
      Ok (SERVER_HELLO, HelloResponse.visible 54405 (@hello_response _ _ session), xs, []) /\
    Forall2 answers chat xs.
Proof.
  apply (@example_conversation debug chrono combine_ll1 store store_laws tokio_world runtime spawner
    20000000 chatty_client ZUTC ZUTC single_bytes chat new_world).
  - reflexivity.
  - reflexivity.
  - exact chat_ok.
  - apply Forall_fmap, Forall_true. discriminate.
  - apply Z.ltb_lt. vm_compute. reflexivity.
  - reflexivity.
Defined.
