(* ===== verification/LibraryProperties.v ===== *)
(** * Properties of shared columns, references to types and conversions *)

From stdpp Require Import gmap.
From S2P Require Import Prelude RustStd Errors Scalars SqlType TypeNames DecimalNum Values.
From S2P Require Import StringPool Columns Compressed Block FromLaws ClientOptions.
From S2P Require Import TypeCache Conversions ArcHeap ArcPrograms Instances ColumnProperties.
Local Open Scope Z_scope.

#[local] Existing Instances debug chrono combine_ll1.

(** ** Shared columns *)

(** C16: columns are values: whatever columns a program makes, wraps, clones,
    pushes to and drops, each has at the end the rows that it would have if
    nothing were shared, and the references are counted right.  The program may
    panic in addition, but not when each push finds the nested columns unshared;
    it never frees what is still referred to. *)
Theorem columns_are_values {P : Profile} `{ChronoTz, Combine} strict ops :
  (strict = true -> ready_run ops ([], ∅) []) ->
  same_outcome strict (heap_run ops ([], ∅)) (value_run ops []).
Proof. apply run_same, holds_empty. Qed.

(** A column is cloned and pushed to; the clone becomes optional, and is pushed to;
    the first is dropped. *)
Definition sharing_program : list column_op := [
  New (VectorColumnData u32 [1]); Clone 0; Push 0 (Value.UInt32 2);
  WrapNullable 1 [x00]; Push 1 (Value.UInt32 3); Drop_ 0
].

Example sharing_values :
  value_run sharing_program [] = Ok [NullableColumnData (VectorColumnData u32 [1; 3]) [x00; x00]].
Proof. reflexivity. Qed.

(** The columns left, and the nodes. *)
Definition sharing_left : option (nat * nat) :=
  match heap_run sharing_program ([], ∅) with Ok s => Some (length s.1, size s.2) | _ => None end.

Example sharing_heap : sharing_left = Some (1%nat, 2%nat).
Proof. vm_compute. reflexivity. Qed.

Lemma columns_are_values_witness :
  ready_run sharing_program ([], ∅) [] /\
  same_outcome true (heap_run sharing_program ([], ∅)) (value_run sharing_program []).
Proof.
  assert (ready_run sharing_program ([], ∅) []) as Hr by (apply ready_run_b_sound; vm_compute; reflexivity).
  split; [exact Hr|]. apply (@columns_are_values debug chrono combine_ll1 true). intros _. exact Hr.
Defined.

(** Pushing to an optional column that is shared panics on the heap, though not on
    values. *)
Definition shared_optional : list column_op := [
  New (VectorColumnData u32 [1]); WrapNullable 0 [x00]; Clone 0; Push 0 (Value.UInt32 2)
].

Example shared_optional_panics :
  heap_run shared_optional ([], ∅) = Panic /\
  value_run shared_optional [] =
    Ok [NullableColumnData (VectorColumnData u32 [1; 2]) [x00; x00]; NullableColumnData (VectorColumnData u32 [1]) [x00]].
Proof. split; reflexivity. Qed.

(** [Column::push] on the heap of shared columns is the push of file Block,
    whose flag says whether the data have another reference: the same data, error
    or panic, provided that an unshared column shares nothing inside. *)
Theorem column_push_on_heap {P : Profile} `{ChronoTz, Combine} h roots l c s v :
  counted h roots -> repr h l c -> (count_of h l = 1%nat -> sole h l) ->
  match column_push (negb (count_of h l =? 1)%nat) (mkColumn s c) v with
  | Ok col => exists l' h', column_push_at l v h = Ok (l', h') /\ repr h' l' (data col)
  | Err e => column_push_at l v h = Err e
  | Panic => column_push_at l v h = Panic
  | OutOfFuel => column_push_at l v h = OutOfFuel
  end.
Proof.
  intros Hc Hr Hs. destruct (column_push_agrees true h roots l c s v Hc Hr (fun _ => Hs)) as [[? _]|Ha]; [done|].
  by destruct (column_push _ _ _).
Qed.

(** Two references to a column of one number. *)
Definition two_references : gmap nat (node * nat) := {[ 0%nat := (Plain (VectorColumnData u32 [1]), 2%nat) ]}.

Lemma two_references_counted : counted two_references [0%nat; 0%nat].
Proof.
  intros [|m]; [reflexivity|]. unfold count_of, two_references. rewrite lookup_singleton_ne by done. reflexivity.
Qed.

Lemma column_push_on_heap_witness :
  exists l' h', @column_push_at debug chrono 0 (Value.UInt32 2) two_references = Ok (l', h') /\
    repr h' l' (VectorColumnData u32 [1; 2]).
Proof.
  refine (@column_push_on_heap debug chrono combine_ll1 two_references [0%nat; 0%nat] 0
    (VectorColumnData u32 [1]) [] (Value.UInt32 2) two_references_counted _ _).
  - eapply repr_plain; [apply lookup_singleton_eq|reflexivity].
  - unfold count_of, two_references. rewrite lookup_singleton_eq. discriminate.
Defined.

(** ** References to types *)

(** C22: a [&'static SqlType] stays valid and means the type that it was made of,
    whatever conversions follow; and two of them are the same reference exactly
    when their types are equal. *)
Theorem type_references_stay `{ChronoTz} values more :
  exists rs c rs' c', as_statics values empty_cache = Some (rs, c) /\ as_statics more c = Some (rs', c') /\
    Forall2 (fun r value => deref c' r = Some value) (rs ++ rs') (values ++ more) /\
    forall i j r s v w, (rs ++ rs') !! i = Some r -> (rs ++ rs') !! j = Some s ->
      (values ++ more) !! i = Some v -> (values ++ more) !! j = Some w -> r = s <-> v = w.
Proof.
  destruct (as_statics_spec values empty_cache empty_cache_inv) as (rs & c & Hrs & Hi & _ & Hr).
  destruct (as_statics_spec more c Hi) as (rs' & c' & Hrs' & Hi' & Hg & Hr').
  assert (Forall2 (refers c') (rs ++ rs') (values ++ more)) as Hall.
  { apply Forall2_app; [|done]. eapply Forall2_impl; [exact Hr|]. intros r v Hrv. by apply (refers_grows c). }
  exists rs, c, rs', c'. split_and!; [done|done|..].
  - eapply Forall2_impl; [exact Hall|]. intros r v Hrv. by apply refers_deref.
  - intros i j r s v w Hi1 Hj1 Hi2 Hj2. eapply refers_same; [done|by eapply Forall2_lookup_lr..].
Qed.

(** ** Conversions *)

(** A Rust value that is made a [Value] is read back by [FromSql] from the
    reference to it: numbers, strings, bytes, decimals, enums, and options. *)
Theorem host_values_read_back {P : Profile} `{ChronoTz, Combine} h x v :
  host_ok h x -> host_into h x = Ok v -> host_from h (to_value_ref v) = Ok x.
Proof. apply host_roundtrips. Qed.

Lemma host_values_read_back_witness :
  host_from (HostOption HostString) (to_value_ref (Value.Nullable (Right (Value.String_ (lit "abc"))))) = Ok (Some (lit "abc")).
Proof.
  refine (@host_values_read_back debug chrono combine_ll1 (HostOption HostString) (Some (lit "abc")) _ _ _); reflexivity.
Defined.
